(* ===== verification/_CoqProject ===== *)
-Q . S2P
Prelude.v
CLayout.v
VmlinuxAmd64.v
VmlinuxArm64.v
Archs.v
BpfKernel.v
CoreGraph.v
CommonH.v
Uapi.v
ProcessBpf.v
Scenario.v
GoStd.v
Sha256.v
Guid.v
Event.v
Decode.v
Wire.v
Layout.v
BpfRun.v
GoText.v
GoTime.v
GoJson.v
GoFlag.v
Output.v
ProcTable.v
ProcTableSpec.v
ProcTableProps.v
ProcTableThms.v
ProcTableLru.v
ProcFS.v
Identity.v
Runtime.v
Docker.v
Watcher.v
WatcherProps.v
Lifecycle.v
WatcherThms.v
Loader.v
Cpus.v
Attach.v
Sensor.v
System.v
SystemProps.v
SystemThms.v
SystemTyped.v
EndToEnd.v
Startup.v
Main.v
Process.v
Shutdown.v
SensorRun.v
SystemRun.v
StartupRun.v
