(* ===== verification/Prelude.v ===== *)
(** * Verification of the anyone-sensor process sensor

    The sensor watches exec, fork and exit of the processes of one container (or
    of the whole host).  Three BPF programs ([bpf/process.bpf.c]) run on kernel
    tracepoints, filter by cgroup and submit fixed-layout records to a ring
    buffer.  A Go program reads the records ([internal/loader]), decodes them,
    enriches them from an in-memory process table seeded from [/proc]
    ([internal/proctable]), adds the container's name and writes them out
    ([cmd/anyone-sensor]).  A watcher ([internal/container]) follows the target
    container through the runtime's events and inotify, and keeps the kernel's set
    of captured cgroups up to date.

    This library models that path from kernel memory to written event and proves
    the contracts its parts rely on.

    ** Conventions

    Definitions keep the names of the source; where two parts of the source use one
    name, the definition is qualified by its file, or has a prefix ([t_], [p_],
    [d_], [l_] for methods of [Table], [ProcFS], [Docker], [Loader]).  Integers are
    [Z] with the wrap-around of their width written out ([u32], [u64], [s64]);
    bytes, Go strings and C arrays are [list byte]; pointers are addresses.
    Mutable state is passed explicitly; errors are values of a sum or option type.
    Everything the code computes is executable, and the witnesses run it on concrete
    inputs.  What lies outside the repository (the kernel, the Docker daemon, HTTP
    and JSON, the file system, the cilium/ebpf library) is an interface: a type
    class or a record of operations, with the documented behaviour the code relies
    on as its laws, and a concrete instance that satisfies them.

    ** Files and the code they model

    - this file: the scope, hint database and tactics of the development; bytes,
      machine integers, little-endian encodings, and lemmas on lists.
    - [CLayout]: sizes, alignments and member offsets of C declarations.
    - [VmlinuxAmd64], [VmlinuxArm64]: [bpf/headers/vmlinux_amd64.h] and
      [vmlinux_arm64.h], as far as they decide the layout of the kernel objects
      that the programs read; [Archs]: the interface [Arch], one instance each.
    - [BpfKernel]: the interfaces [BpfHelpers] (one invocation's view of the kernel)
      and [BpfMaps] (maps and ring buffer), [core_read] for [BPF_CORE_READ], and the
      concrete kernel [Model].
    - [CoreGraph]: CO-RE reads against an offset-free graph of kernel objects.
    - [CommonH]: [bpf/common.h]; [ProcessBpf]: [bpf/process.bpf.c], the three
      programs, whole; [Uapi]: what they need of the kernel's interface is the same
      in both headers.
    - [Scenario]: a process and its life in the memory of either architecture.
    - [GoStd], [GoText], [GoTime], [GoJson], [GoFlag], [Sha256]: the functions of Go's
      standard library the code calls, at the instances it uses them; [GoTime] and
      [GoJson] also have readers for what they print.
    - [Event]: [internal/event/event.go]; [Output]: the JSON lines its struct tags and
      the encoder of [main.go] give, and a reader for them.
    - [Decode]: [internal/loader/decode.go] and the struct types bpf2go generates.
    - [Wire]: that what the programs submit is what the decoder reads.
    - [Layout]: the one read of variable size stays inside the record.
    - [BpfRun]: sequences of tracepoint hits.
    - [Guid]: [internal/proctable/guid.go].
    - [ProcTable]: [internal/proctable/table.go], with its heap entries, index and
      LRU list; [ProcTableSpec]: the table as an LRU list of values and the
      refinement between the two; [ProcTableProps]: its properties;
      [ProcTableThms]: the theorems on the table itself; [ProcTableLru]: what
      eviction keeps.
    - [ProcFS]: [internal/proctable/procfs.go].
    - [Identity]: [HostIdentity] of [guid.go].
    - [Runtime]: [internal/container/runtime.go] with the interface [Runtime];
      [Docker]: [internal/container/docker.go], its instance, and the decoding of
      the daemon's event stream.
    - [Watcher]: [internal/container/watcher.go] with the interface [CgroupMap];
      [WatcherProps]: invariants of all interleavings of its critical sections;
      [Lifecycle]: the life of one cgroup as an abstract machine, and its refinement;
      [WatcherThms]: the behaviour of its functions.
    - [Loader]: [internal/loader/loader.go], which is the watcher's [CgroupMap] over
      the kernel's hash map; [Attach]: its [Load] and [Close].
    - [Cpus]: the three programs call by call, on all CPUs at once, with user space
      and the reader of [Loader].
    - [Sensor]: the option checks and main loop of [cmd/anyone-sensor/main.go], as
      a function of what it meets.
    - [System]: kernel, watcher, reader goroutine, channel and main loop as the
      interleaving of their atomic steps; [SystemProps]: its invariants;
      [SystemThms]: its theorems; [SystemTyped]: integers stay in their Go types;
      [EndToEnd]: from [Load] to the bytes on standard output.
    - [Startup]: [run] of [main.go], before and after its loop; [Shutdown]: how its
      loop ends after a signal; [Main]: [main], its flags and its exit status;
      [Process]: [main] from the command line to the bytes on standard output.
    - [SensorRun], [SystemRun], [StartupRun]: the theorems of the last files on a
      concrete host.

    How the parts meet: [Wire] is proved against the interfaces of [BpfKernel];
    [ProcTable] sees [/proc] through a [view], which [ProcFS.procfs_view] provides;
    the watcher is proved against [Runtime] and [CgroupMap], which [Docker] and
    [Loader] instantiate; [System] runs all of them over one kernel, the one the
    watcher's [CgroupMap] changes and the programs read; [Startup] ends in a state
    of [System].  [System] and [BpfRun] take a program as one step; [Cpus] shows what
    that leaves out: how the programs' calls interleave between CPUs.

    ** What the theorems show

    End to end: [Process.command_to_stdout].  When [main] has come to its loop, in
    every interleaving from its [Load] on, of the tracepoint hits in the capture scope
    all but those counted in [drop_count] appear on standard output, in order, as one
    line of JSON each, and a reader of the line gets the facts the kernel reported for
    the hit: no record is corrupted, duplicated or invented on the way.
    [EndToEnd.load_to_stdout] is the part from [Load], [SystemThms.system_pipeline]
    that between any kernel and the writer, [Sensor.sensor_end_to_end] the statement
    for one batch of records.
    [scope_exact] and [target_captured] say what the attached programs do at any
    moment of a run, in terms of the watcher's map: a record or a counted drop for a
    process in scope, nothing for anything else; [in_flight_bounded] and
    [pipeline_drains] that the pipeline holds a bounded number of events and
    empties; [table_safe] that no run breaks the process table.  The lemmas of
    [SystemTyped] (no integer leaves its Go type) serve the reader of the output.

    Output: [Output.Stdout_roundtrip] reads the lines back to the events, through
    [GoJson.Parse_print] (a JSON value is read back from its text, escapes and
    invalid UTF-8 included) and [GoTime.MarshalTime_roundtrip] (calendar and
    nanoseconds).

    Starting: [Startup.startup_spec] (all of it or nothing stays open, and the
    state it leaves is one that [System] reaches), [Attach.Load_all_or_nothing],
    [Identity.HostIdentity_stable]; [Main.main_spec] from the command line on,
    with every exit status, and [Main.command_line_roundtrip] for its flags.
    Stopping: [Shutdown.shutdown] (from a signal on, in any run of the whole system:
    the steps of reader and loop are bounded in terms of the records still read, what
    was in the channel or sent to it is written unless a write fails, and [run]
    returns what happened); [Shutdown.loop_is_consume] (the loop of [System] computes
    [consume]).

    Kernel to user space: [Wire.handle_exec_decodes] and its siblings give each
    program's effect on every branch and the event its record decodes to, whatever
    bytes the reserved memory held; [Wire.fill_header_graph] says that the header
    [fill_header] leaves in a record is that of the kernel's object graph, wherever
    the running kernel has the members;
    [Wire.event_layouts_agree] compares the C and Go layouts member by member;
    [Wire.decode_accepts] shows [decode] total with its exact domain;
    [Layout.exec_reads_bounded] bounds the read of the arguments;
    [Uapi.archs_agree] compares what the two headers give the programs.

    Between CPUs: [Cpus.cpus_deliver] (every hit in scope gets a record or is counted,
    and [Events] delivers the records in order of reservation, never one half filled),
    [cpus_stats] (no counter loses an increment) and [cpus_read_in_order] (a reader
    in the middle of it all);
    [Cpus.uninterrupted] ties a program's calls to the atomic program.

    Process table: [ProcTableThms.Handle_refines] and [table_invariant] for the
    pointer structure; [Handle_entry], [Handle_lineage], [Handle_enriches] and
    [Handle_others] for what one event does to the table and to the event;
    [Seed_spec] and [Sweep_spec]; [ProcTableLru.recently_used_kept] for what a run of
    events does: recently used entries are not evicted.

    Identity: [Guid] (a GUID determines the digest of host, boot, process id and
    start tick; kernel and [/proc] agree on it), [ProcFS.Read_GUID].

    Watcher: [WatcherProps.watcher_kernel_agree], [stays_captured], [grace_period]
    and [stale_callback_drops] over every interleaving; [Lifecycle.lifecycle_refines]
    and [dropped_after_grace] for one cgroup, as the run of an abstract machine that
    only [stale_callback_drops] leaves; [WatcherThms] for the
    functions: each is a run of the atomic steps; what a die, a rename, a directory
    creation or a start does; and [restart_any_order], a restart whose events come
    from the runtime and from inotify in any order.  [start_window]
    delimits what is missed between the scan at start-up and the subscription to
    events.

    Parsers and printers: [Event], [ProcFS], [WatcherThms.inotify_roundtrip],
    [Runtime.Validate_spec], [Docker.d_Events_spec].

    ** Fuel and bounds

    [ProcTable.evict] has the length of the LRU list as fuel and removes one element
    a turn; running out, or a nil back element, is the state [t_panic], which
    [Handle_refines] excludes.  [Watcher.inotify_events] has [n] as fuel and
    advances at least 16 bytes a turn; a slice past the buffer is [None], which
    [inotify_roundtrip] excludes.  [GoText]'s decimal printer has fuel for 20
    digits, the length of [2^64 - 1].  [Sha256.blocks] has a fuel
    that splits the whole padded message (proved in that file).  The
    retry loop of [runtimeEvents] is indexed by the list of the streams it opens.
    [GoJson]'s reader has the length of the text as fuel and takes at least one byte
    a turn ([Parse_print] shows that it suffices); [GoTime.findMonth] tries the
    eleven months after January.  [GoFlag.duration_loop] has the length of the text
    as fuel ([duration_loop_fuel] shows that more changes nothing).
    The channel of [System] has the capacity of the code, 1024.
    Hypotheses that bound an integer are those of its C or Go type.

    ** What is not modelled

    Of the kernel: the verifier, and what its ring buffer does inside one call (its
    spin lock; in [Cpus] a call is atomic).  In [System] a run is one sequence of
    hits and [drop_count] one CPU's slot.  What a program reads of its task while it
    fills a record is one view of the kernel.  Of [vmlinux_*.h]: the declarations no program reads.  The
    bpf2go object files and ELF loading (operations of the library in [Attach]).
    HTTP and JSON (functions of the library in [Docker]; a stream is the list of
    values it delivers and the error that ends it).  Durations: when a timer or a
    ticker fires, or a signal arrives, is a free step.  The time zone data base is a
    function from seconds to offsets.  What is logged to stderr, the text of error
    messages included; build files, scripts, tests and documents. *)

From Stdlib Require Import ZArith Lia List.
From Stdlib Require Export Strings.Byte.
From Stdlib Require Import String.
From stdpp Require Import prelude countable list gmap.

Open Scope Z_scope.

(** ** Scope, notations and the hint database of the development *)

Declare Scope sensor_scope.
Delimit Scope sensor_scope with sensor.
Open Scope sensor_scope.

Create HintDb sensor.
Create Rewrite HintDb sensor.

(** ** Tactics *)

(** Case analysis on the scrutinee of the first [match] or [if] in sight. *)
Ltac case_match_goal :=
  match goal with
  | |- context [match ?x with _ => _ end] => destruct x eqn:?
  end.

(** ** Bytes

    A byte is the Standard Library's [byte]; a Go [string], a Go [[]byte] and a
    C [__u8] array are all [list byte]. *)

Definition b2z (b : byte) : Z := Z.of_N (Byte.to_N b).

Definition z2b (z : Z) : byte :=
  match Byte.of_N (Z.to_N (z mod 256)) with Some b => b | None => x00 end.

Definition nul : byte := x00.

(** Go and C string literals. *)
Definition str (s : string) : list byte := list_byte_of_string s.

Lemma b2z_range b : 0 <= b2z b < 256.
Proof. unfold b2z. pose proof (Byte.to_N_bounded b). lia. Qed.

Lemma z2b_b2z b : z2b (b2z b) = b.
Proof.
  unfold z2b. pose proof (b2z_range b). rewrite Z.mod_small by lia.
  unfold b2z. rewrite N2Z.id. by rewrite Byte.of_to_N.
Qed.

Lemma b2z_z2b z : b2z (z2b z) = z mod 256.
Proof.
  unfold z2b. pose proof (Z.mod_pos_bound z 256 ltac:(lia)) as Hb.
  destruct (Byte.of_N (Z.to_N (z mod 256))) as [b|] eqn:E.
  - unfold b2z. apply Byte.to_of_N in E. rewrite E. lia.
  - apply Byte.of_N_None_iff in E. lia.
Qed.

Lemma b2z_inj a b : b2z a = b2z b -> a = b.
Proof. intros H. by rewrite <- (z2b_b2z a), H, z2b_b2z. Qed.

#[global] Instance byte_eq_dec : EqDecision byte := Byte.byte_eq_dec.

#[global] Instance byte_countable : Countable byte.
Proof.
  apply (inj_countable Byte.to_N Byte.of_N). intros b. apply Byte.of_to_N.
Defined.

(** ** Machine integers: wrap-around at a width *)

Definition u8 (z : Z) : Z := z mod 2 ^ 8.
Definition u32 (z : Z) : Z := z mod 2 ^ 32.
Definition u64 (z : Z) : Z := z mod 2 ^ 64.

(** Go's [int64(x)] of a [uint64]: two's complement reinterpretation. *)
Definition s64 (z : Z) : Z :=
  let w := u64 z in if w <? 2 ^ 63 then w else w - 2 ^ 64.

Lemma u32_range z : 0 <= u32 z < 2 ^ 32.
Proof. apply Z.mod_pos_bound. lia. Qed.
Lemma u64_range z : 0 <= u64 z < 2 ^ 64.
Proof. apply Z.mod_pos_bound. lia. Qed.
Lemma u32_small z : 0 <= z < 2 ^ 32 -> u32 z = z.
Proof. apply Z.mod_small. Qed.
Lemma u64_small z : 0 <= z < 2 ^ 64 -> u64 z = z.
Proof. apply Z.mod_small. Qed.
Lemma s64_small z : 0 <= z < 2 ^ 63 -> s64 z = z.
Proof.
  intros H. unfold s64. rewrite u64_small by lia.
  destruct (Z.ltb_spec z (2 ^ 63)); lia.
Qed.

Lemma u64_add_l a b : u64 (u64 a + b) = u64 (a + b).
Proof. unfold u64. by rewrite Zplus_mod_idemp_l. Qed.

(** Bits of a small number above its width. *)
Lemma testbit_above z w i : 0 <= z < 2 ^ w -> w <= i -> Z.testbit z i = false.
Proof.
  intros Hz Hi. destruct (decide (z = 0)) as [->|Hnz]; [apply Z.bits_0|].
  apply Z.bits_above_log2; [lia|]. apply Z.log2_lt_pow2; [lia|].
  apply (Z.lt_le_trans _ (2 ^ w)); [lia|]. apply Z.pow_le_mono_r; lia.
Qed.

(** ** Little-endian encoding

    [le_bytes n z] is the memory image of the low [n] bytes of [z], [le_val]
    the value of a byte sequence.  They model C integer stores and loads on the
    two supported targets, and Go's [encoding/binary.LittleEndian]. *)

Fixpoint le_bytes (n : nat) (z : Z) : list byte :=
  match n with
  | O => []
  | S n => z2b z :: le_bytes n (z / 256)
  end.

Fixpoint le_val (bs : list byte) : Z :=
  match bs with
  | [] => 0
  | b :: bs => b2z b + 256 * le_val bs
  end.

Lemma length_le_bytes n z : length (le_bytes n z) = n.
Proof. revert z; induction n; intros; simpl; auto. Qed.

Lemma le_val_bytes n z : le_val (le_bytes n z) = z mod 256 ^ Z.of_nat n.
Proof.
  revert z; induction n as [|n IH]; intros z; cbn [le_bytes le_val].
  - by rewrite Z.mod_1_r.
  - rewrite IH, b2z_z2b, Nat2Z.inj_succ, Z.pow_succ_r by lia.
    rewrite (Z.rem_mul_r z 256 (256 ^ Z.of_nat n)) by lia. lia.
Qed.

Lemma le_val_range bs : 0 <= le_val bs < 256 ^ Z.of_nat (length bs).
Proof.
  induction bs as [|b bs IH]; cbn [le_val length]; [lia|].
  rewrite Nat2Z.inj_succ, Z.pow_succ_r by lia.
  pose proof (b2z_range b). lia.
Qed.

Lemma le_bytes_val bs : le_bytes (length bs) (le_val bs) = bs.
Proof.
  induction bs as [|b bs IH]; cbn [le_val le_bytes length]; [done|].
  pose proof (b2z_range b). f_equal.
  - apply b2z_inj. rewrite b2z_z2b, Z.mul_comm, Z.mod_add by lia.
    apply Z.mod_small. lia.
  - replace ((b2z b + 256 * le_val bs) / 256) with (le_val bs); [done|].
    rewrite Z.mul_comm, Z.div_add by lia. rewrite Z.div_small; lia.
Qed.

Lemma le_val_u32 z : le_val (le_bytes 4 z) = u32 z.
Proof. by rewrite le_val_bytes. Qed.
Lemma le_val_u64 z : le_val (le_bytes 8 z) = u64 z.
Proof. by rewrite le_val_bytes. Qed.
Lemma le_val_u8 z : le_val (le_bytes 1 z) = u8 z.
Proof. by rewrite le_val_bytes. Qed.

Lemma le_bytes_inj n a b :
  0 <= a < 256 ^ Z.of_nat n -> 0 <= b < 256 ^ Z.of_nat n ->
  le_bytes n a = le_bytes n b -> a = b.
Proof.
  intros Ha Hb H. apply (f_equal le_val) in H.
  rewrite !le_val_bytes, !Z.mod_small in H; lia.
Qed.

#[export] Hint Rewrite length_le_bytes le_val_u32 le_val_u64 le_val_u8 : sensor.
#[export] Hint Resolve u32_range u64_range b2z_range : sensor.

(** ** Byte buffers

    Offsets and lengths are [Z], as C's [unsigned long] and Go's [int] are far
    from overflow here.  [slice off n l] is Go's [l[off:off+n]] (clipped to [l]);
    [splice off bs l] stores [bs] at [off], as a C store into a struct does. *)

Definition zlen {A} (l : list A) : Z := Z.of_nat (length l).

Definition slice {A} (off n : Z) (l : list A) : list A :=
  take (Z.to_nat n) (drop (Z.to_nat off) l).

Definition splice {A} (off : Z) (bs l : list A) : list A :=
  take (Z.to_nat off) l ++ bs ++ drop (Z.to_nat (off + zlen bs)) l.

Lemma zlen_nonneg {A} (l : list A) : 0 <= zlen l.
Proof. unfold zlen. lia. Qed.

Lemma zlen_app {A} (l k : list A) : zlen (l ++ k) = zlen l + zlen k.
Proof. unfold zlen. rewrite length_app. lia. Qed.

Lemma zlen_cons {A} (x : A) l : zlen (x :: l) = 1 + zlen l.
Proof. unfold zlen. simpl. lia. Qed.

Lemma zlen_le_bytes n z : zlen (le_bytes n z) = Z.of_nat n.
Proof. unfold zlen. by rewrite length_le_bytes. Qed.

Lemma zlen_slice {A} off n (l : list A) :
  0 <= off -> 0 <= n -> off + n <= zlen l -> zlen (slice off n l) = n.
Proof. unfold zlen, slice. rewrite length_take, length_drop. lia. Qed.

Lemma zlen_splice {A} off (bs l : list A) :
  0 <= off -> off + zlen bs <= zlen l -> zlen (splice off bs l) = zlen l.
Proof.
  unfold zlen, splice, zlen. rewrite !length_app, length_take, length_drop. lia.
Qed.

Lemma slice_all {A} (l : list A) : slice 0 (zlen l) l = l.
Proof.
  unfold slice, zlen. rewrite Nat2Z.id. simpl. rewrite drop_0. by rewrite take_ge by lia.
Qed.

(** Reading back exactly what was stored. *)
Lemma slice_splice_same {A} off n (bs l : list A) :
  0 <= off -> n = zlen bs -> off + zlen bs <= zlen l -> slice off n (splice off bs l) = bs.
Proof.
  intros Hoff -> Hb. unfold slice, splice, zlen in *.
  rewrite drop_app_length' by (rewrite length_take; lia).
  by rewrite Nat2Z.id, take_app_length.
Qed.

(** A store leaves every disjoint range alone. *)
Lemma slice_splice_before {A} off n off' (bs l : list A) :
  0 <= off -> 0 <= n -> off + n <= off' -> off' + zlen bs <= zlen l ->
  slice off n (splice off' bs l) = slice off n l.
Proof.
  intros Hoff Hn Hlt Hb. unfold slice, splice, zlen in *.
  rewrite drop_app_le by (rewrite length_take; lia).
  rewrite take_app_le by (rewrite length_drop, length_take; lia).
  rewrite !take_drop_commute, take_take. do 2 f_equal. lia.
Qed.

Lemma slice_splice_after {A} off n off' (bs l : list A) :
  0 <= off' -> off' + zlen bs <= off -> off' + zlen bs <= zlen l ->
  slice off n (splice off' bs l) = slice off n l.
Proof.
  intros Hoff Hlt Hb. unfold slice, splice, zlen in *.
  rewrite app_assoc, drop_app_ge by (rewrite length_app, length_take; lia).
  rewrite length_app, length_take, drop_drop. do 2 f_equal. lia.
Qed.

(** Reading a field of which only the first bytes were stored. *)
Lemma slice_splice_prefix {A} off w (bs l : list A) :
  0 <= off -> zlen bs <= w -> off + w <= zlen l ->
  slice off w (splice off bs l) = bs ++ slice (off + zlen bs) (w - zlen bs) l.
Proof.
  intros Hoff Hw Hb. unfold slice, splice, zlen in *.
  rewrite drop_app_length' by (rewrite length_take; lia).
  rewrite take_app_ge by lia. do 2 f_equal. lia.
Qed.

(** A prefix of a stored field. *)
Lemma slice_slice {A} off n k (l : list A) :
  0 <= k -> k <= n -> slice 0 k (slice off n l) = slice off k l.
Proof.
  intros Hk Hn. unfold slice. simpl. rewrite drop_0, take_take. f_equal. lia.
Qed.
