(* ===== verification/CLayout.v ===== *)
(** * C object layout

    The layout rules clang and gcc use for the BPF, x86-64 and arm64 targets:
    sizes and alignments of scalars, arrays, structs, unions and bit-fields, and
    the resolution of a member designator such as [uid.val] to a byte offset and
    a type.  The struct declarations of [bpf/common.h], [bpf/process.bpf.c] and
    [bpf/headers/vmlinux_*.h] are values of [ctype]; every offset the development
    uses is computed from them. *)

From Stdlib Require Import ZArith Lia.
From Stdlib Require Import String.
From stdpp Require Import prelude list.
From S2P Require Import Prelude.

Local Open Scope string_scope.
Local Open Scope list_scope.
Local Open Scope Z_scope.

(** ** Types

    [TInt size signed] is a scalar (integers, [_Bool] and enums), [TPtr target]
    a pointer that remembers the name of the type it points to. *)

Inductive ctype :=
| TInt (size : Z) (signed : bool)
| TPtr (target : string)
| TArray (elt : ctype) (n : Z)
| TStruct (ms : members)
| TUnion (ms : members)
with members :=
| MNil
| MField (name : string) (t : ctype) (rest : members)
| MBits (name : string) (t : ctype) (width : Z) (rest : members).

(** The scalar types, under the spellings of the headers. *)
Definition t_char := TInt 1 true.
Definition t_signed_char := TInt 1 true.
Definition t_unsigned_char := TInt 1 false.
Definition t__Bool := TInt 1 false.
Definition t_short_int := TInt 2 true.
Definition t_short_unsigned_int := TInt 2 false.
Definition t_int := TInt 4 true.
Definition t_unsigned_int := TInt 4 false.
Definition t_long_int := TInt 8 true.
Definition t_long_unsigned_int := TInt 8 false.
Definition t_long_long_int := TInt 8 true.
Definition t_long_long_unsigned_int := TInt 8 false.
Definition t___int128 := TInt 16 true.
Definition t___int128_unsigned := TInt 16 false.
Definition t_enum := TInt 4 false.

(** An enumeration with its enumerators: an [unsigned int], or an [int] when an
    enumerator is negative. *)
Definition enum (vs : list (string * Z)) : ctype :=
  TInt 4 (existsb (fun v => snd v <? 0) vs).

(** One declaration of a struct or union body, so that a body is a list and a
    long one can be written in parts: [F t n] is [t n;], [B t n w] is [t n : w;];
    an anonymous member has the empty name. *)
Inductive decl :=
| F (t : ctype) (name : string)
| B (t : ctype) (name : string) (width : Z).

Fixpoint body (ds : list decl) : members :=
  match ds with
  | [] => MNil
  | F t n :: ds => MField n t (body ds)
  | B t n w :: ds => MBits n t w (body ds)
  end.

Definition struct (ds : list decl) : ctype := TStruct (body ds).
Definition union (ds : list decl) : ctype := TUnion (body ds).

(** ** Size and alignment *)

(** Round [x] up to a multiple of [a]. *)
Definition align_up (x a : Z) : Z := (x + a - 1) / a * a.

(** Where a bit-field of [w] bits and a declared type of [tb] bits goes when the
    next free bit is [pos]: it may not straddle a storage unit of its type; a
    zero width only aligns. *)
Definition bit_start (pos tb w : Z) : Z :=
  if w =? 0 then align_up pos tb
  else if pos / tb =? (pos + w - 1) / tb then pos else align_up pos tb.

(** [struct_end] walks the members keeping the next free bit and the alignment
    so far (in bytes); [union_end] keeps the largest extent instead.  Unnamed
    bit-fields do not raise the alignment. *)
Fixpoint size_align (t : ctype) : Z * Z :=
  match t with
  | TInt s _ => (s, s)
  | TPtr _ => (8, 8)
  | TArray t n => let sa := size_align t in (n * sa.1, sa.2)
  | TStruct ms => let ea := struct_end ms 0 1 in (align_up (align_up ea.1 8 / 8) ea.2, ea.2)
  | TUnion ms => let ea := union_end ms 0 1 in (align_up (align_up ea.1 8 / 8) ea.2, ea.2)
  end
with struct_end (ms : members) (pos al : Z) : Z * Z :=
  match ms with
  | MNil => (pos, al)
  | MField _ t r =>
      let sa := size_align t in
      struct_end r (align_up pos (8 * sa.2) + 8 * sa.1) (Z.max al sa.2)
  | MBits n t w r =>
      let sa := size_align t in
      struct_end r (bit_start pos (8 * sa.1) w + w)
        (if String.eqb n "" then al else Z.max al sa.2)
  end
with union_end (ms : members) (sz al : Z) : Z * Z :=
  match ms with
  | MNil => (sz, al)
  | MField _ t r => let sa := size_align t in union_end r (Z.max sz (8 * sa.1)) (Z.max al sa.2)
  | MBits n t w r =>
      let sa := size_align t in
      union_end r (Z.max sz w) (if String.eqb n "" then al else Z.max al sa.2)
  end.

Definition sizeof (t : ctype) : Z := (size_align t).1.
Definition alignof (t : ctype) : Z := (size_align t).2.

(** ** Members and designators

    [layout_struct ms pos] lists the members with their bit offsets, in
    declaration order. *)

Record placed := Placed { p_name : string; p_type : ctype; p_bit : Z; p_width : Z }.

Fixpoint layout_struct (ms : members) (pos : Z) : list placed :=
  match ms with
  | MNil => []
  | MField n t r =>
      let at_ := align_up pos (8 * alignof t) in
      Placed n t at_ (8 * sizeof t) :: layout_struct r (at_ + 8 * sizeof t)
  | MBits n t w r =>
      let at_ := bit_start pos (8 * sizeof t) w in
      Placed n t at_ w :: layout_struct r (at_ + w)
  end.

(** Member lookup, through anonymous structs and unions: byte offset and type
    of the first whole member called [name]. *)
Fixpoint find_in_type (name : string) (t : ctype) : option (Z * ctype) :=
  match t with
  | TStruct ms => find_in_struct name ms 0
  | TUnion ms => find_in_union name ms
  | _ => None
  end
with find_in_struct (name : string) (ms : members) (pos : Z) : option (Z * ctype) :=
  match ms with
  | MNil => None
  | MField n t r =>
      let at_ := align_up pos (8 * alignof t) in
      let next := at_ + 8 * sizeof t in
      if String.eqb n name then Some (at_ / 8, t)
      else if String.eqb n "" then
        match find_in_type name t with
        | Some (o, t') => Some (at_ / 8 + o, t')
        | None => find_in_struct name r next
        end
      else find_in_struct name r next
  | MBits _ t w r => find_in_struct name r (bit_start pos (8 * sizeof t) w + w)
  end
with find_in_union (name : string) (ms : members) : option (Z * ctype) :=
  match ms with
  | MNil => None
  | MField n t r =>
      if String.eqb n name then Some (0, t)
      else if String.eqb n "" then
        match find_in_type name t with
        | Some r' => Some r'
        | None => find_in_union name r
        end
      else find_in_union name r
  | MBits _ _ _ r => find_in_union name r
  end.

(** A designator [a.b.c], as in [BPF_CORE_READ(task, cred, uid.val)]. *)
Fixpoint resolve (path : list string) (t : ctype) : option (Z * ctype) :=
  match path with
  | [] => Some (0, t)
  | n :: path =>
      match find_in_type n t with
      | Some (o, t') =>
          match resolve path t' with
          | Some (o', t'') => Some (o + o', t'')
          | None => None
          end
      | None => None
      end
  end.

(** [offsetof] for a designator that is known to resolve. *)
Definition offsetof (t : ctype) (path : list string) : Z :=
  match resolve path t with Some (o, _) => o | None => 0 end.
Definition typeof (t : ctype) (path : list string) : ctype :=
  match resolve path t with Some (_, t') => t' | None => t end.
