(* ===== verification/VmlinuxArm64.v ===== *)
(** * Kernel declarations, arm64

    The declarations of [bpf/headers/vmlinux_arm64.h] that decide the layout of the objects
    the BPF programs read: [task_struct], [mm_struct], [cred], [css_set],
    [cgroup], [kernfs_node], [signal_struct] and the [sched_process_exec] trace
    record, with every type they contain by value (pointers stop the descent);
    and the enumerations of map types, program types, attach types and helper
    numbers of the BPF UAPI.  One definition per declaration, in dependency
    order, under the name of the declaration. *)

From Stdlib Require Import ZArith.
From Stdlib Require Import String.
From stdpp Require Import prelude list.
From S2P Require Import Prelude CLayout.

Local Open Scope string_scope.
Local Open Scope Z_scope.

Definition atomic_t : ctype := struct [
  F t_int "counter"].

Definition struct_cpumask : ctype := struct [
  F (TArray t_long_unsigned_int 8) "bits"].

Definition cpumask_t : ctype := struct_cpumask.

Definition gfp_t : ctype := t_unsigned_int.

Definition __kernel_uid32_t : ctype := t_unsigned_int.

Definition uid_t : ctype := __kernel_uid32_t.

Definition kuid_t : ctype := struct [
  F uid_t "val"].

Definition nodemask_t : ctype := struct [
  F (TArray t_long_unsigned_int 1) "bits"].

Definition __kernel_pid_t : ctype := t_int.

Definition pid_t : ctype := __kernel_pid_t.

Definition __u16 : ctype := t_short_unsigned_int.

Definition u16 : ctype := __u16.

Definition __u8 : ctype := t_unsigned_char.

Definition u8 : ctype := __u8.

Definition struct_qspinlock : ctype := struct [
  F (union [
    F atomic_t "val";
    F (struct [
      F u8 "locked";
      F u8 "pending"]) "";
    F (struct [
      F u16 "locked_pending";
      F u16 "tail"]) ""]) ""].

Definition arch_spinlock_t : ctype := struct_qspinlock.

Definition struct_raw_spinlock : ctype := struct [
  F arch_spinlock_t "raw_lock"].

Definition raw_spinlock_t : ctype := struct_raw_spinlock.

Definition struct_refcount_struct : ctype := struct [
  F atomic_t "refs"].

Definition refcount_t : ctype := struct_refcount_struct.

Definition struct_seqcount : ctype := struct [
  F t_unsigned_int "sequence"].

Definition seqcount_t : ctype := struct_seqcount.

Definition struct_seqcount_spinlock : ctype := struct [
  F seqcount_t "seqcount"].

Definition seqcount_spinlock_t : ctype := struct_seqcount_spinlock.

Definition sigset_t : ctype := struct [
  F (TArray t_long_unsigned_int 1) "sig"].

Definition __kernel_ulong_t : ctype := t_long_unsigned_int.

Definition __kernel_size_t : ctype := __kernel_ulong_t.

Definition size_t : ctype := __kernel_size_t.

Definition struct_spinlock : ctype := struct [
  F (union [
    F struct_raw_spinlock "rlock"]) ""].

Definition spinlock_t : ctype := struct_spinlock.

Definition struct_llist_node : ctype := struct [
  F (TPtr "struct llist_node") "next"].

Definition struct___call_single_node : ctype := struct [
  F struct_llist_node "llist";
  F (union [
    F t_unsigned_int "u_flags";
    F atomic_t "a_flags"]) "";
  F u16 "src";
  F u16 "dst"].

Definition struct_callback_head : ctype := struct [
  F (TPtr "struct callback_head") "next";
  F (TPtr "fn") "func"].

Definition struct_hlist_head : ctype := struct [
  F (TPtr "struct hlist_node") "first"].

Definition struct_hlist_node : ctype := struct [
  F (TPtr "struct hlist_node") "next";
  F (TPtr "struct hlist_node *") "pprev"].

Definition struct_kmap_ctrl : ctype := struct [].

Definition struct_latency_record : ctype := struct [
  F (TArray t_long_unsigned_int 12) "backtrace";
  F t_unsigned_int "count";
  F t_long_unsigned_int "time";
  F t_long_unsigned_int "max"].

Definition struct_list_head : ctype := struct [
  F (TPtr "struct list_head") "next";
  F (TPtr "struct list_head") "prev"].

Definition struct_llist_head : ctype := struct [
  F (TPtr "struct llist_node") "first"].

Definition __s64 : ctype := t_long_long_int.

Definition s64 : ctype := __s64.

Definition atomic64_t : ctype := struct [
  F s64 "counter"].

Definition atomic_long_t : ctype := atomic64_t.

Definition struct_optimistic_spin_queue : ctype := struct [
  F atomic_t "tail"].

Definition struct_mutex : ctype := struct [
  F atomic_long_t "owner";
  F raw_spinlock_t "wait_lock";
  F struct_optimistic_spin_queue "osq";
  F struct_list_head "wait_list"].

Definition __u32 : ctype := t_unsigned_int.

Definition struct_page_frag : ctype := struct [
  F (TPtr "struct page") "page";
  F __u32 "offset";
  F __u32 "size"].

Definition struct_plist_node : ctype := struct [
  F t_int "prio";
  F struct_list_head "prio_list";
  F struct_list_head "node_list"].

Definition struct_rb_root : ctype := struct [
  F (TPtr "struct rb_node") "rb_node"].

Definition struct_rb_root_cached : ctype := struct [
  F struct_rb_root "rb_root";
  F (TPtr "struct rb_node") "rb_leftmost"].

Definition struct_timerqueue_head : ctype := struct [
  F struct_rb_root_cached "rb_root"].

Definition __u64 : ctype := t_long_long_unsigned_int.

Definition u64 : ctype := __u64.

Definition struct_posix_cputimer_base : ctype := struct [
  F u64 "nextevt";
  F struct_timerqueue_head "tqhead"].

Definition struct_posix_cputimers : ctype := struct [
  F (TArray struct_posix_cputimer_base 3) "bases";
  F t_unsigned_int "timers_active";
  F t_unsigned_int "expiry_active"].

Definition struct_posix_cputimers_work : ctype := struct [
  F struct_callback_head "work";
  F struct_mutex "mutex";
  F t_unsigned_int "scheduled"].

Definition struct_prev_cputime : ctype := struct [
  F u64 "utime";
  F u64 "stime";
  F raw_spinlock_t "lock"].

Definition struct_rb_node : ctype := struct [
  F t_long_unsigned_int "__rb_parent_color";
  F (TPtr "struct rb_node") "rb_right";
  F (TPtr "struct rb_node") "rb_left"].

Definition __kernel_clockid_t : ctype := t_int.

Definition clockid_t : ctype := __kernel_clockid_t.

Definition enum_timespec_type : ctype := enum [
  ("TT_NONE", 0);
  ("TT_NATIVE", 1);
  ("TT_COMPAT", 2)].

Definition u32 : ctype := __u32.

Definition struct_restart_block : ctype := struct [
  F t_long_unsigned_int "arch_data";
  F (TPtr "fn") "fn";
  F (union [
    F (struct [
      F (TPtr "u32") "uaddr";
      F u32 "val";
      F u32 "flags";
      F u32 "bitset";
      F u64 "time";
      F (TPtr "u32") "uaddr2"]) "futex";
    F (struct [
      F clockid_t "clockid";
      F enum_timespec_type "type";
      F (union [
        F (TPtr "struct __kernel_timespec") "rmtp";
        F (TPtr "struct old_timespec32") "compat_rmtp"]) "";
      F u64 "expires"]) "nanosleep";
    F (struct [
      F (TPtr "struct pollfd") "ufds";
      F t_int "nfds";
      F t_int "has_timeout";
      F t_long_unsigned_int "tv_sec";
      F t_long_unsigned_int "tv_nsec"]) "poll"]) ""].

Definition dl_server_has_tasks_f : ctype := (TPtr "fn").

Definition dl_server_pick_f : ctype := (TPtr "fn").

Definition ktime_t : ctype := s64.

Definition struct_timerqueue_node : ctype := struct [
  F struct_rb_node "node";
  F ktime_t "expires"].

Definition struct_hrtimer : ctype := struct [
  F struct_timerqueue_node "node";
  F ktime_t "_softexpires";
  F (TPtr "fn") "function";
  F (TPtr "struct hrtimer_clock_base") "base";
  F u8 "state";
  F u8 "is_rel";
  F u8 "is_soft";
  F u8 "is_hard"].

Definition struct_sched_dl_entity : ctype := struct [
  F struct_rb_node "rb_node";
  F u64 "dl_runtime";
  F u64 "dl_deadline";
  F u64 "dl_period";
  F u64 "dl_bw";
  F u64 "dl_density";
  F s64 "runtime";
  F u64 "deadline";
  F t_unsigned_int "flags";
  B t_unsigned_int "dl_throttled" 1;
  B t_unsigned_int "dl_yielded" 1;
  B t_unsigned_int "dl_non_contending" 1;
  B t_unsigned_int "dl_overrun" 1;
  B t_unsigned_int "dl_server" 1;
  F struct_hrtimer "dl_timer";
  F struct_hrtimer "inactive_timer";
  F (TPtr "struct rq") "rq";
  F dl_server_has_tasks_f "server_has_tasks";
  F dl_server_pick_f "server_pick";
  F (TPtr "struct sched_dl_entity") "pi_se"].

Definition struct_load_weight : ctype := struct [
  F t_long_unsigned_int "weight";
  F u32 "inv_weight"].

Definition struct_sched_avg : ctype := struct [
  F u64 "last_update_time";
  F u64 "load_sum";
  F u64 "runnable_sum";
  F u32 "util_sum";
  F u32 "period_contrib";
  F t_long_unsigned_int "load_avg";
  F t_long_unsigned_int "runnable_avg";
  F t_long_unsigned_int "util_avg";
  F t_unsigned_int "util_est"].

Definition struct_sched_entity : ctype := struct [
  F struct_load_weight "load";
  F struct_rb_node "run_node";
  F u64 "deadline";
  F u64 "min_vruntime";
  F struct_list_head "group_node";
  F t_unsigned_int "on_rq";
  F u64 "exec_start";
  F u64 "sum_exec_runtime";
  F u64 "prev_sum_exec_runtime";
  F u64 "vruntime";
  F s64 "vlag";
  F u64 "slice";
  F u64 "nr_migrations";
  F t_int "depth";
  F (TPtr "struct sched_entity") "parent";
  F (TPtr "struct cfs_rq") "cfs_rq";
  F (TPtr "struct cfs_rq") "my_q";
  F t_long_unsigned_int "runnable_weight";
  B t_long_int "" 64;
  B t_long_int "" 64;
  F struct_sched_avg "avg"].

Definition struct_sched_info : ctype := struct [
  F t_long_unsigned_int "pcount";
  F t_long_long_unsigned_int "run_delay";
  F t_long_long_unsigned_int "last_arrival";
  F t_long_long_unsigned_int "last_queued"].

Definition struct_sched_rt_entity : ctype := struct [
  F struct_list_head "run_list";
  F t_long_unsigned_int "timeout";
  F t_long_unsigned_int "watchdog_stamp";
  F t_unsigned_int "time_slice";
  F t_short_unsigned_int "on_rq";
  F t_short_unsigned_int "on_list";
  F (TPtr "struct sched_rt_entity") "back"].

Definition struct_sched_statistics : ctype := struct [
  F u64 "wait_start";
  F u64 "wait_max";
  F u64 "wait_count";
  F u64 "wait_sum";
  F u64 "iowait_count";
  F u64 "iowait_sum";
  F u64 "sleep_start";
  F u64 "sleep_max";
  F s64 "sum_sleep_runtime";
  F u64 "block_start";
  F u64 "block_max";
  F s64 "sum_block_runtime";
  F s64 "exec_max";
  F u64 "slice_max";
  F u64 "nr_migrations_cold";
  F u64 "nr_failed_migrations_affine";
  F u64 "nr_failed_migrations_running";
  F u64 "nr_failed_migrations_hot";
  F u64 "nr_forced_migrations";
  F u64 "nr_wakeups";
  F u64 "nr_wakeups_sync";
  F u64 "nr_wakeups_migrate";
  F u64 "nr_wakeups_local";
  F u64 "nr_wakeups_remote";
  F u64 "nr_wakeups_affine";
  F u64 "nr_wakeups_affine_attempts";
  F u64 "nr_wakeups_passive";
  F u64 "nr_wakeups_idle";
  F u64 "core_forceidle_sum";
  B t_long_int "" 64;
  B t_long_int "" 64;
  B t_long_int "" 64].

Definition struct_seccomp : ctype := struct [
  F t_int "mode";
  F atomic_t "filter_count";
  F (TPtr "struct seccomp_filter") "filter"].

Definition struct_sigpending : ctype := struct [
  F struct_list_head "list";
  F sigset_t "signal"].

Definition struct_syscall_user_dispatch : ctype := struct [].

Definition struct_sysv_sem : ctype := struct [
  F (TPtr "struct sem_undo_list") "undo_list"].

Definition struct_sysv_shm : ctype := struct [
  F struct_list_head "shm_clist"].

Definition struct_task_io_accounting : ctype := struct [
  F u64 "rchar";
  F u64 "wchar";
  F u64 "syscr";
  F u64 "syscw";
  F u64 "read_bytes";
  F u64 "write_bytes";
  F u64 "cancelled_write_bytes"].

Definition struct_thread_info : ctype := struct [
  F t_long_unsigned_int "flags";
  F u64 "ttbr0";
  F (union [
    F u64 "preempt_count";
    F (struct [
      F u32 "count";
      F u32 "need_resched"]) "preempt"]) "";
  F (TPtr "void") "scs_base";
  F (TPtr "void") "scs_sp";
  F u32 "cpu"].

Definition enum_fp_type : ctype := enum [
  ("FP_STATE_CURRENT", 0);
  ("FP_STATE_FPSIMD", 1);
  ("FP_STATE_SVE", 2)].

Definition struct_cpu_context : ctype := struct [
  F t_long_unsigned_int "x19";
  F t_long_unsigned_int "x20";
  F t_long_unsigned_int "x21";
  F t_long_unsigned_int "x22";
  F t_long_unsigned_int "x23";
  F t_long_unsigned_int "x24";
  F t_long_unsigned_int "x25";
  F t_long_unsigned_int "x26";
  F t_long_unsigned_int "x27";
  F t_long_unsigned_int "x28";
  F t_long_unsigned_int "fp";
  F t_long_unsigned_int "sp";
  F t_long_unsigned_int "pc"].

Definition struct_debug_info : ctype := struct [
  F t_int "suspended_step";
  F t_int "bps_disabled";
  F t_int "wps_disabled";
  F (TArray (TPtr "struct perf_event") 16) "hbp_break";
  F (TArray (TPtr "struct perf_event") 16) "hbp_watch"].

Definition struct_ptrauth_key : ctype := struct [
  F t_long_unsigned_int "lo";
  F t_long_unsigned_int "hi"].

Definition struct_ptrauth_keys_kernel : ctype := struct [
  F struct_ptrauth_key "apia"].

Definition struct_ptrauth_keys_user : ctype := struct [
  F struct_ptrauth_key "apia";
  F struct_ptrauth_key "apib";
  F struct_ptrauth_key "apda";
  F struct_ptrauth_key "apdb";
  F struct_ptrauth_key "apga"].

Definition struct_user_fpsimd_state : ctype := struct [
  F (TArray t___int128_unsigned 32) "vregs";
  F __u32 "fpsr";
  F __u32 "fpcr";
  F (TArray __u32 2) "__reserved"].

Definition struct_thread_struct : ctype := struct [
  F struct_cpu_context "cpu_context";
  B t_long_int "" 64;
  F (struct [
    F t_long_unsigned_int "tp_value";
    F t_long_unsigned_int "tp2_value";
    F struct_user_fpsimd_state "fpsimd_state"]) "uw";
  F enum_fp_type "fp_type";
  F t_unsigned_int "fpsimd_cpu";
  F (TPtr "void") "sve_state";
  F (TPtr "void") "sme_state";
  F (TArray t_unsigned_int 2) "vl";
  F (TArray t_unsigned_int 2) "vl_onexec";
  F t_long_unsigned_int "fault_address";
  F t_long_unsigned_int "fault_code";
  F struct_debug_info "debug";
  B t_long_int "" 64;
  F struct_user_fpsimd_state "kernel_fpsimd_state";
  F t_unsigned_int "kernel_fpsimd_cpu";
  F struct_ptrauth_keys_user "keys_user";
  F struct_ptrauth_keys_kernel "keys_kernel";
  F u64 "mte_ctrl";
  F u64 "sctlr_user";
  F u64 "svcr";
  F u64 "tpidr2_el0";
  B t_long_int "" 64].

Definition struct_timer_list : ctype := struct [
  F struct_hlist_node "entry";
  F t_long_unsigned_int "expires";
  F (TPtr "fn") "function";
  F u32 "flags"].

Definition bool : ctype := t__Bool.

Definition struct_arch_tlbflush_unmap_batch : ctype := struct [].

Definition struct_tlbflush_unmap_batch : ctype := struct [
  F struct_arch_tlbflush_unmap_batch "arch";
  F bool "flush_required";
  F bool "writable"].

Definition struct_uclamp_se : ctype := struct [
  B t_unsigned_int "value" 11;
  B t_unsigned_int "bucket_id" 3;
  B t_unsigned_int "active" 1;
  B t_unsigned_int "user_defined" 1].

Definition enum_vtime_state : ctype := enum [
  ("VTIME_INACTIVE", 0);
  ("VTIME_IDLE", 1);
  ("VTIME_SYS", 2);
  ("VTIME_USER", 3);
  ("VTIME_GUEST", 4)].

Definition struct_vtime : ctype := struct [
  F seqcount_t "seqcount";
  F t_long_long_unsigned_int "starttime";
  F enum_vtime_state "state";
  F t_unsigned_int "cpu";
  F u64 "utime";
  F u64 "stime";
  F u64 "gtime"].

Definition struct_wake_q_node : ctype := struct [
  F (TPtr "struct wake_q_node") "next"].

Definition union_rcu_special : ctype := union [
  F (struct [
    F u8 "blocked";
    F u8 "need_qs";
    F u8 "exp_hint";
    F u8 "need_mb"]) "b";
  F u32 "s"].

Definition struct_da_monitor : ctype := struct [
  F bool "monitoring";
  F t_unsigned_int "curr_state"].

Definition union_rv_task_monitor : ctype := union [
  F struct_da_monitor "da_mon"].

Definition struct_task_struct_head : list decl := [
  F struct_thread_info "thread_info";
  F t_unsigned_int "__state";
  F t_unsigned_int "saved_state";
  F (TPtr "void") "stack";
  F refcount_t "usage";
  F t_unsigned_int "flags";
  F t_unsigned_int "ptrace";
  F t_int "on_cpu";
  F struct___call_single_node "wake_entry";
  F t_unsigned_int "wakee_flips";
  F t_long_unsigned_int "wakee_flip_decay_ts";
  F (TPtr "struct task_struct") "last_wakee";
  F t_int "recent_used_cpu";
  F t_int "wake_cpu";
  F t_int "on_rq";
  F t_int "prio";
  F t_int "static_prio";
  F t_int "normal_prio";
  F t_unsigned_int "rt_priority";
  B t_long_int "" 64;
  B t_long_int "" 64;
  B t_long_int "" 64;
  B t_long_int "" 64;
  B t_long_int "" 64;
  F struct_sched_entity "se";
  F struct_sched_rt_entity "rt";
  F struct_sched_dl_entity "dl";
  F (TPtr "struct sched_dl_entity") "dl_server";
  F (TPtr "struct sched_class") "sched_class";
  F struct_rb_node "core_node";
  F t_long_unsigned_int "core_cookie";
  F t_unsigned_int "core_occupation";
  F (TPtr "struct task_group") "sched_task_group";
  F (TArray struct_uclamp_se 2) "uclamp_req";
  F (TArray struct_uclamp_se 2) "uclamp";
  B t_long_int "" 64;
  F struct_sched_statistics "stats";
  F struct_hlist_head "preempt_notifiers";
  F t_unsigned_int "btrace_seq";
  F t_unsigned_int "policy";
  F t_int "nr_cpus_allowed";
  F (TPtr "cpumask_t") "cpus_ptr";
  F (TPtr "cpumask_t") "user_cpus_ptr";
  F cpumask_t "cpus_mask";
  F (TPtr "void") "migration_pending";
  F t_short_unsigned_int "migration_disabled";
  F t_short_unsigned_int "migration_flags";
  F t_int "rcu_read_lock_nesting";
  F union_rcu_special "rcu_read_unlock_special";
  F struct_list_head "rcu_node_entry";
  F (TPtr "struct rcu_node") "rcu_blocked_node";
  F t_long_unsigned_int "rcu_tasks_nvcsw";
  F u8 "rcu_tasks_holdout";
  F u8 "rcu_tasks_idx";
  F t_int "rcu_tasks_idle_cpu";
  F struct_list_head "rcu_tasks_holdout_list";
  F t_int "rcu_tasks_exit_cpu";
  F struct_list_head "rcu_tasks_exit_list";
  F t_int "trc_reader_nesting";
  F t_int "trc_ipi_to_cpu";
  F union_rcu_special "trc_reader_special";
  F struct_list_head "trc_holdout_list";
  F struct_list_head "trc_blkd_node";
  F t_int "trc_blkd_cpu";
  F struct_sched_info "sched_info";
  F struct_list_head "tasks";
  F struct_plist_node "pushable_tasks";
  F struct_rb_node "pushable_dl_tasks";
  F (TPtr "struct mm_struct") "mm";
  F (TPtr "struct mm_struct") "active_mm";
  F (TPtr "struct address_space") "faults_disabled_mapping";
  F t_int "exit_state";
  F t_int "exit_code";
  F t_int "exit_signal";
  F t_int "pdeath_signal";
  F t_long_unsigned_int "jobctl";
  F t_unsigned_int "personality";
  B t_unsigned_int "sched_reset_on_fork" 1;
  B t_unsigned_int "sched_contributes_to_load" 1;
  B t_unsigned_int "sched_migrated" 1;
  B t_unsigned_int "sched_task_hot" 1;
  B t_long_int "" 28;
  B t_unsigned_int "sched_remote_wakeup" 1;
  B t_unsigned_int "sched_rt_mutex" 1;
  B t_unsigned_int "user_dumpable" 1;
  B t_unsigned_int "in_execve" 1;
  B t_unsigned_int "in_iowait" 1;
  B t_unsigned_int "in_user_fault" 1;
  B t_unsigned_int "in_lru_fault" 1;
  B t_unsigned_int "no_cgroup_migration" 1;
  B t_unsigned_int "frozen" 1;
  B t_unsigned_int "use_memdelay" 1;
  B t_unsigned_int "in_memstall" 1;
  B t_unsigned_int "in_eventfd" 1;
  B t_unsigned_int "in_thrashing" 1;
  F t_long_unsigned_int "atomic_flags";
  F struct_restart_block "restart_block";
  F pid_t "pid";
  F pid_t "tgid";
  F t_long_unsigned_int "stack_canary";
  F (TPtr "struct task_struct") "real_parent";
  F (TPtr "struct task_struct") "parent";
  F struct_list_head "children";
  F struct_list_head "sibling";
  F (TPtr "struct task_struct") "group_leader";
  F struct_list_head "ptraced";
  F struct_list_head "ptrace_entry";
  F (TPtr "struct pid") "thread_pid";
  F (TArray struct_hlist_node 4) "pid_links";
  F struct_list_head "thread_node";
  F (TPtr "struct completion") "vfork_done";
  F (TPtr "int") "set_child_tid";
  F (TPtr "int") "clear_child_tid";
  F (TPtr "void") "worker_private";
  F u64 "utime";
  F u64 "stime";
  F u64 "gtime";
  F struct_prev_cputime "prev_cputime";
  F struct_vtime "vtime";
  F atomic_t "tick_dep_mask";
  F t_long_unsigned_int "nvcsw";
  F t_long_unsigned_int "nivcsw";
  F u64 "start_time";
  F u64 "start_boottime";
  F t_long_unsigned_int "min_flt";
  F t_long_unsigned_int "maj_flt";
  F struct_posix_cputimers "posix_cputimers";
  F struct_posix_cputimers_work "posix_cputimers_work";
  F (TPtr "struct cred") "ptracer_cred";
  F (TPtr "struct cred") "real_cred";
  F (TPtr "struct cred") "cred";
  F (TPtr "struct key") "cached_requested_key";
  F (TArray t_char 16) "comm";
  F (TPtr "struct nameidata") "nameidata"].

Definition struct_task_struct_tail : list decl := [
  F struct_sysv_sem "sysvsem";
  F struct_sysv_shm "sysvshm";
  F t_long_unsigned_int "last_switch_count";
  F t_long_unsigned_int "last_switch_time";
  F (TPtr "struct fs_struct") "fs";
  F (TPtr "struct files_struct") "files";
  F (TPtr "struct io_uring_task") "io_uring";
  F (TPtr "struct nsproxy") "nsproxy";
  F (TPtr "struct signal_struct") "signal";
  F (TPtr "struct sighand_struct") "sighand";
  F sigset_t "blocked";
  F sigset_t "real_blocked";
  F sigset_t "saved_sigmask";
  F struct_sigpending "pending";
  F t_long_unsigned_int "sas_ss_sp";
  F size_t "sas_ss_size";
  F t_unsigned_int "sas_ss_flags";
  F (TPtr "struct callback_head") "task_works";
  F (TPtr "struct audit_context") "audit_context";
  F kuid_t "loginuid";
  F t_unsigned_int "sessionid";
  F struct_seccomp "seccomp";
  F struct_syscall_user_dispatch "syscall_dispatch";
  F u64 "parent_exec_id";
  F u64 "self_exec_id";
  F spinlock_t "alloc_lock";
  F raw_spinlock_t "pi_lock";
  F struct_wake_q_node "wake_q";
  F struct_rb_root_cached "pi_waiters";
  F (TPtr "struct task_struct") "pi_top_task";
  F (TPtr "struct rt_mutex_waiter") "pi_blocked_on";
  F t_unsigned_int "in_ubsan";
  F (TPtr "void") "journal_info";
  F (TPtr "struct bio_list") "bio_list";
  F (TPtr "struct blk_plug") "plug";
  F (TPtr "struct reclaim_state") "reclaim_state";
  F (TPtr "struct io_context") "io_context";
  F (TPtr "struct capture_control") "capture_control";
  F t_long_unsigned_int "ptrace_message";
  F (TPtr "kernel_siginfo_t") "last_siginfo";
  F struct_task_io_accounting "ioac";
  F t_unsigned_int "psi_flags";
  F u64 "acct_rss_mem1";
  F u64 "acct_vm_mem1";
  F u64 "acct_timexpd";
  F nodemask_t "mems_allowed";
  F seqcount_spinlock_t "mems_allowed_seq";
  F t_int "cpuset_mem_spread_rotor";
  F t_int "cpuset_slab_spread_rotor";
  F (TPtr "struct css_set") "cgroups";
  F struct_list_head "cg_list";
  F (TPtr "struct robust_list_head") "robust_list";
  F (TPtr "struct compat_robust_list_head") "compat_robust_list";
  F struct_list_head "pi_state_list";
  F (TPtr "struct futex_pi_state") "pi_state_cache";
  F struct_mutex "futex_exit_mutex";
  F t_unsigned_int "futex_state";
  F (TPtr "struct perf_event_context") "perf_event_ctxp";
  F struct_mutex "perf_event_mutex";
  F struct_list_head "perf_event_list";
  F (TPtr "struct mempolicy") "mempolicy";
  F t_short_int "il_prev";
  F t_short_int "pref_node_fork";
  F t_int "numa_scan_seq";
  F t_unsigned_int "numa_scan_period";
  F t_unsigned_int "numa_scan_period_max";
  F t_int "numa_preferred_nid";
  F t_long_unsigned_int "numa_migrate_retry";
  F u64 "node_stamp";
  F u64 "last_task_numa_placement";
  F u64 "last_sum_exec_runtime";
  F struct_callback_head "numa_work";
  F (TPtr "struct numa_group") "numa_group";
  F (TPtr "long unsigned int") "numa_faults";
  F t_long_unsigned_int "total_numa_faults";
  F (TArray t_long_unsigned_int 3) "numa_faults_locality";
  F t_long_unsigned_int "numa_pages_migrated";
  F (TPtr "struct rseq") "rseq";
  F u32 "rseq_len";
  F u32 "rseq_sig";
  F t_long_unsigned_int "rseq_event_mask";
  F t_int "mm_cid";
  F t_int "last_mm_cid";
  F t_int "migrate_from_cpu";
  F t_int "mm_cid_active";
  F struct_callback_head "cid_work";
  F struct_tlbflush_unmap_batch "tlb_ubc";
  F (TPtr "struct pipe_inode_info") "splice_pipe";
  F struct_page_frag "task_frag";
  F (TPtr "struct task_delay_info") "delays";
  F t_int "nr_dirtied";
  F t_int "nr_dirtied_pause";
  F t_long_unsigned_int "dirty_paused_when";
  F t_int "latency_record_count";
  F (TArray struct_latency_record 32) "latency_record";
  F u64 "timer_slack_ns";
  F u64 "default_timer_slack_ns";
  F t_int "curr_ret_stack";
  F t_int "curr_ret_depth";
  F (TPtr "struct ftrace_ret_stack") "ret_stack";
  F t_long_long_unsigned_int "ftrace_timestamp";
  F atomic_t "trace_overrun";
  F atomic_t "tracing_graph_pause";
  F t_long_unsigned_int "trace_recursion";
  F (TPtr "struct mem_cgroup") "memcg_in_oom";
  F gfp_t "memcg_oom_gfp_mask";
  F t_int "memcg_oom_order";
  F t_unsigned_int "memcg_nr_pages_over_high";
  F (TPtr "struct mem_cgroup") "active_memcg";
  F (TPtr "struct obj_cgroup") "objcg";
  F (TPtr "struct gendisk") "throttle_disk";
  F (TPtr "struct uprobe_task") "utask";
  F t_unsigned_int "sequential_io";
  F t_unsigned_int "sequential_io_avg";
  F struct_kmap_ctrl "kmap_ctrl";
  F struct_callback_head "rcu";
  F refcount_t "rcu_users";
  F t_int "pagefault_disabled";
  F (TPtr "struct task_struct") "oom_reaper_list";
  F struct_timer_list "oom_reaper_timer";
  F (TPtr "struct vm_struct") "stack_vm_area";
  F refcount_t "stack_refcount";
  F (TPtr "void") "security";
  F (TPtr "struct bpf_local_storage") "bpf_storage";
  F (TPtr "struct bpf_run_ctx") "bpf_ctx";
  F u32 "kstack_offset";
  F struct_llist_head "kretprobe_instances";
  F (TArray union_rv_task_monitor 1) "rv";
  F (TPtr "struct user_event_mm") "user_event_mm";
  B t_long_int "" 64;
  F struct_thread_struct "thread";
  B t_long_int "" 64;
  B t_long_int "" 64;
  B t_long_int "" 64;
  B t_long_int "" 64].

Definition struct_task_struct : ctype :=
  struct (struct_task_struct_head ++ struct_task_struct_tail).

Definition mm_context_t : ctype := struct [
  F atomic64_t "id";
  F (TPtr "void") "sigpage";
  F refcount_t "pinned";
  F (TPtr "void") "vdso";
  F t_long_unsigned_int "flags"].

Definition lockdep_map_p : ctype := struct [].

Definition struct_maple_tree : ctype := struct [
  F (union [
    F spinlock_t "ma_lock";
    F lockdep_map_p "ma_external_lock"]) "";
  F t_unsigned_int "ma_flags";
  F (TPtr "void") "ma_root"].

Definition struct_percpu_counter : ctype := struct [
  F raw_spinlock_t "lock";
  F s64 "count";
  F struct_list_head "list";
  F (TPtr "s32") "counters"].

Definition struct_rw_semaphore : ctype := struct [
  F atomic_long_t "count";
  F atomic_long_t "owner";
  F struct_optimistic_spin_queue "osq";
  F raw_spinlock_t "wait_lock";
  F struct_list_head "wait_list"].

Definition struct_uprobes_state : ctype := struct [
  F (TPtr "struct xol_area") "xol_area"].

Definition work_func_t : ctype := (TPtr "fn").

Definition struct_work_struct : ctype := struct [
  F atomic_long_t "data";
  F struct_list_head "entry";
  F work_func_t "func"].

Definition struct_mm_struct : ctype := struct [
  F (struct [
    F (struct [
      F atomic_t "mm_count";
      B t_long_int "" 64;
      B t_long_int "" 64;
      B t_long_int "" 64;
      B t_long_int "" 64;
      B t_long_int "" 64;
      B t_long_int "" 64;
      B t_long_int "" 64]) "";
    F struct_maple_tree "mm_mt";
    F (TPtr "fn") "get_unmapped_area";
    F t_long_unsigned_int "mmap_base";
    F t_long_unsigned_int "mmap_legacy_base";
    F t_long_unsigned_int "task_size";
    F (TPtr "pgd_t") "pgd";
    F atomic_t "membarrier_state";
    F atomic_t "mm_users";
    F (TPtr "struct mm_cid") "pcpu_cid";
    F t_long_unsigned_int "mm_cid_next_scan";
    F atomic_long_t "pgtables_bytes";
    F t_int "map_count";
    F spinlock_t "page_table_lock";
    F struct_rw_semaphore "mmap_lock";
    F struct_list_head "mmlist";
    F t_int "mm_lock_seq";
    F t_long_unsigned_int "hiwater_rss";
    F t_long_unsigned_int "hiwater_vm";
    F t_long_unsigned_int "total_vm";
    F t_long_unsigned_int "locked_vm";
    F atomic64_t "pinned_vm";
    F t_long_unsigned_int "data_vm";
    F t_long_unsigned_int "exec_vm";
    F t_long_unsigned_int "stack_vm";
    F t_long_unsigned_int "def_flags";
    F seqcount_t "write_protect_seq";
    F spinlock_t "arg_lock";
    F t_long_unsigned_int "start_code";
    F t_long_unsigned_int "end_code";
    F t_long_unsigned_int "start_data";
    F t_long_unsigned_int "end_data";
    F t_long_unsigned_int "start_brk";
    F t_long_unsigned_int "brk";
    F t_long_unsigned_int "start_stack";
    F t_long_unsigned_int "arg_start";
    F t_long_unsigned_int "arg_end";
    F t_long_unsigned_int "env_start";
    F t_long_unsigned_int "env_end";
    F (TArray t_long_unsigned_int 50) "saved_auxv";
    F (TArray struct_percpu_counter 4) "rss_stat";
    F (TPtr "struct linux_binfmt") "binfmt";
    F mm_context_t "context";
    F t_long_unsigned_int "flags";
    F spinlock_t "ioctx_lock";
    F (TPtr "struct kioctx_table") "ioctx_table";
    F (TPtr "struct task_struct") "owner";
    F (TPtr "struct user_namespace") "user_ns";
    F (TPtr "struct file") "exe_file";
    F (TPtr "struct mmu_notifier_subscriptions") "notifier_subscriptions";
    F t_long_unsigned_int "numa_next_scan";
    F t_long_unsigned_int "numa_scan_offset";
    F t_int "numa_scan_seq";
    F atomic_t "tlb_flush_pending";
    F atomic_t "tlb_flush_batched";
    F struct_uprobes_state "uprobes_state";
    F atomic_long_t "hugetlb_usage";
    F struct_work_struct "async_put_work";
    F (TPtr "struct iommu_mm_data") "iommu_mm";
    F t_long_unsigned_int "ksm_merging_pages";
    F t_long_unsigned_int "ksm_rmap_items";
    F atomic_long_t "ksm_zero_pages";
    F (struct [
      F struct_list_head "list";
      F t_long_unsigned_int "bitmap";
      F (TPtr "struct mem_cgroup") "memcg"]) "lru_gen";
    B t_long_int "" 64;
    B t_long_int "" 64]) "";
  F (TArray t_long_unsigned_int 0) "cpu_bitmap"].

Definition kernel_cap_t : ctype := struct [
  F u64 "val"].

Definition __kernel_gid32_t : ctype := t_unsigned_int.

Definition gid_t : ctype := __kernel_gid32_t.

Definition kgid_t : ctype := struct [
  F gid_t "val"].

Definition struct_cred : ctype := struct [
  F atomic_long_t "usage";
  F kuid_t "uid";
  F kgid_t "gid";
  F kuid_t "suid";
  F kgid_t "sgid";
  F kuid_t "euid";
  F kgid_t "egid";
  F kuid_t "fsuid";
  F kgid_t "fsgid";
  F t_unsigned_int "securebits";
  F kernel_cap_t "cap_inheritable";
  F kernel_cap_t "cap_permitted";
  F kernel_cap_t "cap_effective";
  F kernel_cap_t "cap_bset";
  F kernel_cap_t "cap_ambient";
  F t_unsigned_char "jit_keyring";
  F (TPtr "struct key") "session_keyring";
  F (TPtr "struct key") "process_keyring";
  F (TPtr "struct key") "thread_keyring";
  F (TPtr "struct key") "request_key_auth";
  F (TPtr "void") "security";
  F (TPtr "struct user_struct") "user";
  F (TPtr "struct user_namespace") "user_ns";
  F (TPtr "struct ucounts") "ucounts";
  F (TPtr "struct group_info") "group_info";
  F (union [
    F t_int "non_rcu";
    F struct_callback_head "rcu"]) ""].

Definition struct_css_set : ctype := struct [
  F (TArray (TPtr "struct cgroup_subsys_state") 14) "subsys";
  F refcount_t "refcount";
  F (TPtr "struct css_set") "dom_cset";
  F (TPtr "struct cgroup") "dfl_cgrp";
  F t_int "nr_tasks";
  F struct_list_head "tasks";
  F struct_list_head "mg_tasks";
  F struct_list_head "dying_tasks";
  F struct_list_head "task_iters";
  F (TArray struct_list_head 14) "e_cset_node";
  F struct_list_head "threaded_csets";
  F struct_list_head "threaded_csets_node";
  F struct_hlist_node "hlist";
  F struct_list_head "cgrp_links";
  F struct_list_head "mg_src_preload_node";
  F struct_list_head "mg_dst_preload_node";
  F struct_list_head "mg_node";
  F (TPtr "struct cgroup") "mg_src_cgrp";
  F (TPtr "struct cgroup") "mg_dst_cgrp";
  F (TPtr "struct css_set") "mg_dst_cset";
  F bool "dead";
  F struct_callback_head "callback_head"].

Definition struct_cacheline_padding : ctype := struct [
  F (TArray t_char 0) "x"].

Definition struct_task_cputime : ctype := struct [
  F u64 "stime";
  F u64 "utime";
  F t_long_long_unsigned_int "sum_exec_runtime"].

Definition struct_cgroup_base_stat : ctype := struct [
  F struct_task_cputime "cputime";
  F u64 "forceidle_sum"].

Definition struct_percpu_ref : ctype := struct [
  F t_long_unsigned_int "percpu_count_ptr";
  F (TPtr "struct percpu_ref_data") "data"].

Definition struct_cgroup_bpf : ctype := struct [
  F (TArray (TPtr "struct bpf_prog_array") 38) "effective";
  F (TArray struct_hlist_head 38) "progs";
  F (TArray u8 38) "flags";
  F struct_list_head "storages";
  F (TPtr "struct bpf_prog_array") "inactive";
  F struct_percpu_ref "refcnt";
  F struct_work_struct "release_work"].

Definition struct_cgroup_file : ctype := struct [
  F (TPtr "struct kernfs_node") "kn";
  F t_long_unsigned_int "notified_at";
  F struct_timer_list "notify_timer"].

Definition struct_cgroup_freezer_state : ctype := struct [
  F bool "freeze";
  F t_int "e_freeze";
  F t_int "nr_frozen_descendants";
  F t_int "nr_frozen_tasks"].

Definition struct_rcu_work : ctype := struct [
  F struct_work_struct "work";
  F struct_callback_head "rcu";
  F (TPtr "struct workqueue_struct") "wq"].

Definition struct_cgroup_subsys_state : ctype := struct [
  F (TPtr "struct cgroup") "cgroup";
  F (TPtr "struct cgroup_subsys") "ss";
  F struct_percpu_ref "refcnt";
  F struct_list_head "sibling";
  F struct_list_head "children";
  F struct_list_head "rstat_css_node";
  F t_int "id";
  F t_unsigned_int "flags";
  F u64 "serial_nr";
  F atomic_t "online_cnt";
  F struct_work_struct "destroy_work";
  F struct_rcu_work "destroy_rwork";
  F (TPtr "struct cgroup_subsys_state") "parent"].

Definition struct_wait_queue_head : ctype := struct [
  F spinlock_t "lock";
  F struct_list_head "head"].

Definition wait_queue_head_t : ctype := struct_wait_queue_head.

Definition struct_cgroup : ctype := struct [
  F struct_cgroup_subsys_state "self";
  F t_long_unsigned_int "flags";
  F t_int "level";
  F t_int "max_depth";
  F t_int "nr_descendants";
  F t_int "nr_dying_descendants";
  F t_int "max_descendants";
  F t_int "nr_populated_csets";
  F t_int "nr_populated_domain_children";
  F t_int "nr_populated_threaded_children";
  F t_int "nr_threaded_children";
  F t_unsigned_int "kill_seq";
  F (TPtr "struct kernfs_node") "kn";
  F struct_cgroup_file "procs_file";
  F struct_cgroup_file "events_file";
  F (TArray struct_cgroup_file 3) "psi_files";
  F u16 "subtree_control";
  F u16 "subtree_ss_mask";
  F u16 "old_subtree_control";
  F u16 "old_subtree_ss_mask";
  F (TArray (TPtr "struct cgroup_subsys_state") 14) "subsys";
  F (TPtr "struct cgroup_root") "root";
  F struct_list_head "cset_links";
  F (TArray struct_list_head 14) "e_csets";
  F (TPtr "struct cgroup") "dom_cgrp";
  F (TPtr "struct cgroup") "old_dom_cgrp";
  F (TPtr "struct cgroup_rstat_cpu") "rstat_cpu";
  F struct_list_head "rstat_css_list";
  B t_long_int "" 64;
  B t_long_int "" 64;
  F struct_cacheline_padding "_pad_";
  F (TPtr "struct cgroup") "rstat_flush_next";
  F struct_cgroup_base_stat "last_bstat";
  F struct_cgroup_base_stat "bstat";
  F struct_prev_cputime "prev_cputime";
  F struct_list_head "pidlists";
  F struct_mutex "pidlist_mutex";
  F wait_queue_head_t "offline_waitq";
  F struct_work_struct "release_agent_work";
  F (TPtr "struct psi_group") "psi";
  F struct_cgroup_bpf "bpf";
  F atomic_t "congestion_count";
  F struct_cgroup_freezer_state "freezer";
  F (TPtr "struct bpf_local_storage") "bpf_cgrp_storage";
  F (TArray (TPtr "struct cgroup") 0) "ancestors"].

Definition __kernel_loff_t : ctype := t_long_long_int.

Definition loff_t : ctype := __kernel_loff_t.

Definition struct_kernfs_elem_attr : ctype := struct [
  F (TPtr "struct kernfs_ops") "ops";
  F (TPtr "struct kernfs_open_node") "open";
  F loff_t "size";
  F (TPtr "struct kernfs_node") "notify_next"].

Definition struct_kernfs_elem_dir : ctype := struct [
  F t_long_unsigned_int "subdirs";
  F struct_rb_root "children";
  F (TPtr "struct kernfs_root") "root";
  F t_long_unsigned_int "rev"].

Definition struct_kernfs_elem_symlink : ctype := struct [
  F (TPtr "struct kernfs_node") "target_kn"].

Definition umode_t : ctype := t_short_unsigned_int.

Definition struct_kernfs_node : ctype := struct [
  F atomic_t "count";
  F atomic_t "active";
  F (TPtr "struct kernfs_node") "parent";
  F (TPtr "char") "name";
  F struct_rb_node "rb";
  F (TPtr "void") "ns";
  F t_unsigned_int "hash";
  F (union [
    F struct_kernfs_elem_dir "dir";
    F struct_kernfs_elem_symlink "symlink";
    F struct_kernfs_elem_attr "attr"]) "";
  F (TPtr "void") "priv";
  F u64 "id";
  F t_short_unsigned_int "flags";
  F umode_t "mode";
  F (TPtr "struct kernfs_iattrs") "iattr";
  F struct_callback_head "rcu"].

Definition seqlock_t : ctype := struct [
  F seqcount_spinlock_t "seqcount";
  F spinlock_t "lock"].

Definition struct_cpu_itimer : ctype := struct [
  F u64 "expires";
  F u64 "incr"].

Definition struct_pacct_struct : ctype := struct [
  F t_int "ac_flag";
  F t_long_int "ac_exitcode";
  F t_long_unsigned_int "ac_mem";
  F u64 "ac_utime";
  F u64 "ac_stime";
  F t_long_unsigned_int "ac_minflt";
  F t_long_unsigned_int "ac_majflt"].

Definition struct_rlimit : ctype := struct [
  F __kernel_ulong_t "rlim_cur";
  F __kernel_ulong_t "rlim_max"].

Definition struct_task_cputime_atomic : ctype := struct [
  F atomic64_t "utime";
  F atomic64_t "stime";
  F atomic64_t "sum_exec_runtime"].

Definition struct_thread_group_cputimer : ctype := struct [
  F struct_task_cputime_atomic "cputime_atomic"].

Definition struct_signal_struct : ctype := struct [
  F refcount_t "sigcnt";
  F atomic_t "live";
  F t_int "nr_threads";
  F t_int "quick_threads";
  F struct_list_head "thread_head";
  F wait_queue_head_t "wait_chldexit";
  F (TPtr "struct task_struct") "curr_target";
  F struct_sigpending "shared_pending";
  F struct_hlist_head "multiprocess";
  F t_int "group_exit_code";
  F t_int "notify_count";
  F (TPtr "struct task_struct") "group_exec_task";
  F t_int "group_stop_count";
  F t_unsigned_int "flags";
  F (TPtr "struct core_state") "core_state";
  B t_unsigned_int "is_child_subreaper" 1;
  B t_unsigned_int "has_child_subreaper" 1;
  F t_unsigned_int "next_posix_timer_id";
  F struct_list_head "posix_timers";
  F struct_hrtimer "real_timer";
  F ktime_t "it_real_incr";
  F (TArray struct_cpu_itimer 2) "it";
  F struct_thread_group_cputimer "cputimer";
  F struct_posix_cputimers "posix_cputimers";
  F (TArray (TPtr "struct pid") 4) "pids";
  F atomic_t "tick_dep_mask";
  F (TPtr "struct pid") "tty_old_pgrp";
  F t_int "leader";
  F (TPtr "struct tty_struct") "tty";
  F (TPtr "struct autogroup") "autogroup";
  F seqlock_t "stats_lock";
  F u64 "utime";
  F u64 "stime";
  F u64 "cutime";
  F u64 "cstime";
  F u64 "gtime";
  F u64 "cgtime";
  F struct_prev_cputime "prev_cputime";
  F t_long_unsigned_int "nvcsw";
  F t_long_unsigned_int "nivcsw";
  F t_long_unsigned_int "cnvcsw";
  F t_long_unsigned_int "cnivcsw";
  F t_long_unsigned_int "min_flt";
  F t_long_unsigned_int "maj_flt";
  F t_long_unsigned_int "cmin_flt";
  F t_long_unsigned_int "cmaj_flt";
  F t_long_unsigned_int "inblock";
  F t_long_unsigned_int "oublock";
  F t_long_unsigned_int "cinblock";
  F t_long_unsigned_int "coublock";
  F t_long_unsigned_int "maxrss";
  F t_long_unsigned_int "cmaxrss";
  F struct_task_io_accounting "ioac";
  F t_long_long_unsigned_int "sum_sched_runtime";
  F (TArray struct_rlimit 16) "rlim";
  F struct_pacct_struct "pacct";
  F (TPtr "struct taskstats") "stats";
  F t_unsigned_int "audit_tty";
  F (TPtr "struct tty_audit_buf") "tty_audit_buf";
  F bool "oom_flag_origin";
  F t_short_int "oom_score_adj";
  F t_short_int "oom_score_adj_min";
  F (TPtr "struct mm_struct") "oom_mm";
  F struct_mutex "cred_guard_mutex";
  F struct_rw_semaphore "exec_update_lock"].

Definition struct_trace_entry : ctype := struct [
  F t_short_unsigned_int "type";
  F t_unsigned_char "flags";
  F t_unsigned_char "preempt_count";
  F t_int "pid"].

Definition struct_trace_event_raw_sched_process_exec : ctype := struct [
  F struct_trace_entry "ent";
  F u32 "__data_loc_filename";
  F pid_t "pid";
  F pid_t "old_pid";
  F (TArray t_char 0) "__data"].

Definition bpf_map_type : list (string * Z) := [
  ("BPF_MAP_TYPE_UNSPEC", 0);
  ("BPF_MAP_TYPE_HASH", 1);
  ("BPF_MAP_TYPE_ARRAY", 2);
  ("BPF_MAP_TYPE_PROG_ARRAY", 3);
  ("BPF_MAP_TYPE_PERF_EVENT_ARRAY", 4);
  ("BPF_MAP_TYPE_PERCPU_HASH", 5);
  ("BPF_MAP_TYPE_PERCPU_ARRAY", 6);
  ("BPF_MAP_TYPE_STACK_TRACE", 7);
  ("BPF_MAP_TYPE_CGROUP_ARRAY", 8);
  ("BPF_MAP_TYPE_LRU_HASH", 9);
  ("BPF_MAP_TYPE_LRU_PERCPU_HASH", 10);
  ("BPF_MAP_TYPE_LPM_TRIE", 11);
  ("BPF_MAP_TYPE_ARRAY_OF_MAPS", 12);
  ("BPF_MAP_TYPE_HASH_OF_MAPS", 13);
  ("BPF_MAP_TYPE_DEVMAP", 14);
  ("BPF_MAP_TYPE_SOCKMAP", 15);
  ("BPF_MAP_TYPE_CPUMAP", 16);
  ("BPF_MAP_TYPE_XSKMAP", 17);
  ("BPF_MAP_TYPE_SOCKHASH", 18);
  ("BPF_MAP_TYPE_CGROUP_STORAGE_DEPRECATED", 19);
  ("BPF_MAP_TYPE_CGROUP_STORAGE", 19);
  ("BPF_MAP_TYPE_REUSEPORT_SOCKARRAY", 20);
  ("BPF_MAP_TYPE_PERCPU_CGROUP_STORAGE_DEPRECATED", 21);
  ("BPF_MAP_TYPE_PERCPU_CGROUP_STORAGE", 21);
  ("BPF_MAP_TYPE_QUEUE", 22);
  ("BPF_MAP_TYPE_STACK", 23);
  ("BPF_MAP_TYPE_SK_STORAGE", 24);
  ("BPF_MAP_TYPE_DEVMAP_HASH", 25);
  ("BPF_MAP_TYPE_STRUCT_OPS", 26);
  ("BPF_MAP_TYPE_RINGBUF", 27);
  ("BPF_MAP_TYPE_INODE_STORAGE", 28);
  ("BPF_MAP_TYPE_TASK_STORAGE", 29);
  ("BPF_MAP_TYPE_BLOOM_FILTER", 30);
  ("BPF_MAP_TYPE_USER_RINGBUF", 31);
  ("BPF_MAP_TYPE_CGRP_STORAGE", 32)].

Definition bpf_prog_type : list (string * Z) := [
  ("BPF_PROG_TYPE_UNSPEC", 0);
  ("BPF_PROG_TYPE_SOCKET_FILTER", 1);
  ("BPF_PROG_TYPE_KPROBE", 2);
  ("BPF_PROG_TYPE_SCHED_CLS", 3);
  ("BPF_PROG_TYPE_SCHED_ACT", 4);
  ("BPF_PROG_TYPE_TRACEPOINT", 5);
  ("BPF_PROG_TYPE_XDP", 6);
  ("BPF_PROG_TYPE_PERF_EVENT", 7);
  ("BPF_PROG_TYPE_CGROUP_SKB", 8);
  ("BPF_PROG_TYPE_CGROUP_SOCK", 9);
  ("BPF_PROG_TYPE_LWT_IN", 10);
  ("BPF_PROG_TYPE_LWT_OUT", 11);
  ("BPF_PROG_TYPE_LWT_XMIT", 12);
  ("BPF_PROG_TYPE_SOCK_OPS", 13);
  ("BPF_PROG_TYPE_SK_SKB", 14);
  ("BPF_PROG_TYPE_CGROUP_DEVICE", 15);
  ("BPF_PROG_TYPE_SK_MSG", 16);
  ("BPF_PROG_TYPE_RAW_TRACEPOINT", 17);
  ("BPF_PROG_TYPE_CGROUP_SOCK_ADDR", 18);
  ("BPF_PROG_TYPE_LWT_SEG6LOCAL", 19);
  ("BPF_PROG_TYPE_LIRC_MODE2", 20);
  ("BPF_PROG_TYPE_SK_REUSEPORT", 21);
  ("BPF_PROG_TYPE_FLOW_DISSECTOR", 22);
  ("BPF_PROG_TYPE_CGROUP_SYSCTL", 23);
  ("BPF_PROG_TYPE_RAW_TRACEPOINT_WRITABLE", 24);
  ("BPF_PROG_TYPE_CGROUP_SOCKOPT", 25);
  ("BPF_PROG_TYPE_TRACING", 26);
  ("BPF_PROG_TYPE_STRUCT_OPS", 27);
  ("BPF_PROG_TYPE_EXT", 28);
  ("BPF_PROG_TYPE_LSM", 29);
  ("BPF_PROG_TYPE_SK_LOOKUP", 30);
  ("BPF_PROG_TYPE_SYSCALL", 31);
  ("BPF_PROG_TYPE_NETFILTER", 32);
  ("__MAX_BPF_PROG_TYPE", 33)].

Definition bpf_attach_type : list (string * Z) := [
  ("BPF_CGROUP_INET_INGRESS", 0);
  ("BPF_CGROUP_INET_EGRESS", 1);
  ("BPF_CGROUP_INET_SOCK_CREATE", 2);
  ("BPF_CGROUP_SOCK_OPS", 3);
  ("BPF_SK_SKB_STREAM_PARSER", 4);
  ("BPF_SK_SKB_STREAM_VERDICT", 5);
  ("BPF_CGROUP_DEVICE", 6);
  ("BPF_SK_MSG_VERDICT", 7);
  ("BPF_CGROUP_INET4_BIND", 8);
  ("BPF_CGROUP_INET6_BIND", 9);
  ("BPF_CGROUP_INET4_CONNECT", 10);
  ("BPF_CGROUP_INET6_CONNECT", 11);
  ("BPF_CGROUP_INET4_POST_BIND", 12);
  ("BPF_CGROUP_INET6_POST_BIND", 13);
  ("BPF_CGROUP_UDP4_SENDMSG", 14);
  ("BPF_CGROUP_UDP6_SENDMSG", 15);
  ("BPF_LIRC_MODE2", 16);
  ("BPF_FLOW_DISSECTOR", 17);
  ("BPF_CGROUP_SYSCTL", 18);
  ("BPF_CGROUP_UDP4_RECVMSG", 19);
  ("BPF_CGROUP_UDP6_RECVMSG", 20);
  ("BPF_CGROUP_GETSOCKOPT", 21);
  ("BPF_CGROUP_SETSOCKOPT", 22);
  ("BPF_TRACE_RAW_TP", 23);
  ("BPF_TRACE_FENTRY", 24);
  ("BPF_TRACE_FEXIT", 25);
  ("BPF_MODIFY_RETURN", 26);
  ("BPF_LSM_MAC", 27);
  ("BPF_TRACE_ITER", 28);
  ("BPF_CGROUP_INET4_GETPEERNAME", 29);
  ("BPF_CGROUP_INET6_GETPEERNAME", 30);
  ("BPF_CGROUP_INET4_GETSOCKNAME", 31);
  ("BPF_CGROUP_INET6_GETSOCKNAME", 32);
  ("BPF_XDP_DEVMAP", 33);
  ("BPF_CGROUP_INET_SOCK_RELEASE", 34);
  ("BPF_XDP_CPUMAP", 35);
  ("BPF_SK_LOOKUP", 36);
  ("BPF_XDP", 37);
  ("BPF_SK_SKB_VERDICT", 38);
  ("BPF_SK_REUSEPORT_SELECT", 39);
  ("BPF_SK_REUSEPORT_SELECT_OR_MIGRATE", 40);
  ("BPF_PERF_EVENT", 41);
  ("BPF_TRACE_KPROBE_MULTI", 42);
  ("BPF_LSM_CGROUP", 43);
  ("BPF_STRUCT_OPS", 44);
  ("BPF_NETFILTER", 45);
  ("BPF_TCX_INGRESS", 46);
  ("BPF_TCX_EGRESS", 47);
  ("BPF_TRACE_UPROBE_MULTI", 48);
  ("BPF_CGROUP_UNIX_CONNECT", 49);
  ("BPF_CGROUP_UNIX_SENDMSG", 50);
  ("BPF_CGROUP_UNIX_RECVMSG", 51);
  ("BPF_CGROUP_UNIX_GETPEERNAME", 52);
  ("BPF_CGROUP_UNIX_GETSOCKNAME", 53);
  ("BPF_NETKIT_PRIMARY", 54);
  ("BPF_NETKIT_PEER", 55);
  ("__MAX_BPF_ATTACH_TYPE", 56)].

Definition bpf_func_id_part1 : list (string * Z) := [
  ("BPF_FUNC_unspec", 0);
  ("BPF_FUNC_map_lookup_elem", 1);
  ("BPF_FUNC_map_update_elem", 2);
  ("BPF_FUNC_map_delete_elem", 3);
  ("BPF_FUNC_probe_read", 4);
  ("BPF_FUNC_ktime_get_ns", 5);
  ("BPF_FUNC_trace_printk", 6);
  ("BPF_FUNC_get_prandom_u32", 7);
  ("BPF_FUNC_get_smp_processor_id", 8);
  ("BPF_FUNC_skb_store_bytes", 9);
  ("BPF_FUNC_l3_csum_replace", 10);
  ("BPF_FUNC_l4_csum_replace", 11);
  ("BPF_FUNC_tail_call", 12);
  ("BPF_FUNC_clone_redirect", 13);
  ("BPF_FUNC_get_current_pid_tgid", 14);
  ("BPF_FUNC_get_current_uid_gid", 15);
  ("BPF_FUNC_get_current_comm", 16);
  ("BPF_FUNC_get_cgroup_classid", 17);
  ("BPF_FUNC_skb_vlan_push", 18);
  ("BPF_FUNC_skb_vlan_pop", 19);
  ("BPF_FUNC_skb_get_tunnel_key", 20);
  ("BPF_FUNC_skb_set_tunnel_key", 21);
  ("BPF_FUNC_perf_event_read", 22);
  ("BPF_FUNC_redirect", 23);
  ("BPF_FUNC_get_route_realm", 24);
  ("BPF_FUNC_perf_event_output", 25);
  ("BPF_FUNC_skb_load_bytes", 26);
  ("BPF_FUNC_get_stackid", 27);
  ("BPF_FUNC_csum_diff", 28);
  ("BPF_FUNC_skb_get_tunnel_opt", 29);
  ("BPF_FUNC_skb_set_tunnel_opt", 30);
  ("BPF_FUNC_skb_change_proto", 31);
  ("BPF_FUNC_skb_change_type", 32);
  ("BPF_FUNC_skb_under_cgroup", 33);
  ("BPF_FUNC_get_hash_recalc", 34);
  ("BPF_FUNC_get_current_task", 35);
  ("BPF_FUNC_probe_write_user", 36);
  ("BPF_FUNC_current_task_under_cgroup", 37);
  ("BPF_FUNC_skb_change_tail", 38);
  ("BPF_FUNC_skb_pull_data", 39);
  ("BPF_FUNC_csum_update", 40);
  ("BPF_FUNC_set_hash_invalid", 41);
  ("BPF_FUNC_get_numa_node_id", 42);
  ("BPF_FUNC_skb_change_head", 43);
  ("BPF_FUNC_xdp_adjust_head", 44);
  ("BPF_FUNC_probe_read_str", 45);
  ("BPF_FUNC_get_socket_cookie", 46);
  ("BPF_FUNC_get_socket_uid", 47);
  ("BPF_FUNC_set_hash", 48);
  ("BPF_FUNC_setsockopt", 49);
  ("BPF_FUNC_skb_adjust_room", 50);
  ("BPF_FUNC_redirect_map", 51);
  ("BPF_FUNC_sk_redirect_map", 52);
  ("BPF_FUNC_sock_map_update", 53);
  ("BPF_FUNC_xdp_adjust_meta", 54);
  ("BPF_FUNC_perf_event_read_value", 55);
  ("BPF_FUNC_perf_prog_read_value", 56);
  ("BPF_FUNC_getsockopt", 57);
  ("BPF_FUNC_override_return", 58);
  ("BPF_FUNC_sock_ops_cb_flags_set", 59);
  ("BPF_FUNC_msg_redirect_map", 60);
  ("BPF_FUNC_msg_apply_bytes", 61);
  ("BPF_FUNC_msg_cork_bytes", 62);
  ("BPF_FUNC_msg_pull_data", 63);
  ("BPF_FUNC_bind", 64);
  ("BPF_FUNC_xdp_adjust_tail", 65);
  ("BPF_FUNC_skb_get_xfrm_state", 66);
  ("BPF_FUNC_get_stack", 67);
  ("BPF_FUNC_skb_load_bytes_relative", 68);
  ("BPF_FUNC_fib_lookup", 69);
  ("BPF_FUNC_sock_hash_update", 70);
  ("BPF_FUNC_msg_redirect_hash", 71);
  ("BPF_FUNC_sk_redirect_hash", 72);
  ("BPF_FUNC_lwt_push_encap", 73);
  ("BPF_FUNC_lwt_seg6_store_bytes", 74);
  ("BPF_FUNC_lwt_seg6_adjust_srh", 75);
  ("BPF_FUNC_lwt_seg6_action", 76);
  ("BPF_FUNC_rc_repeat", 77);
  ("BPF_FUNC_rc_keydown", 78);
  ("BPF_FUNC_skb_cgroup_id", 79);
  ("BPF_FUNC_get_current_cgroup_id", 80);
  ("BPF_FUNC_get_local_storage", 81);
  ("BPF_FUNC_sk_select_reuseport", 82);
  ("BPF_FUNC_skb_ancestor_cgroup_id", 83);
  ("BPF_FUNC_sk_lookup_tcp", 84);
  ("BPF_FUNC_sk_lookup_udp", 85);
  ("BPF_FUNC_sk_release", 86);
  ("BPF_FUNC_map_push_elem", 87);
  ("BPF_FUNC_map_pop_elem", 88);
  ("BPF_FUNC_map_peek_elem", 89);
  ("BPF_FUNC_msg_push_data", 90);
  ("BPF_FUNC_msg_pop_data", 91);
  ("BPF_FUNC_rc_pointer_rel", 92);
  ("BPF_FUNC_spin_lock", 93);
  ("BPF_FUNC_spin_unlock", 94);
  ("BPF_FUNC_sk_fullsock", 95);
  ("BPF_FUNC_tcp_sock", 96);
  ("BPF_FUNC_skb_ecn_set_ce", 97);
  ("BPF_FUNC_get_listener_sock", 98);
  ("BPF_FUNC_skc_lookup_tcp", 99)].

Definition bpf_func_id_part2 : list (string * Z) := [
  ("BPF_FUNC_tcp_check_syncookie", 100);
  ("BPF_FUNC_sysctl_get_name", 101);
  ("BPF_FUNC_sysctl_get_current_value", 102);
  ("BPF_FUNC_sysctl_get_new_value", 103);
  ("BPF_FUNC_sysctl_set_new_value", 104);
  ("BPF_FUNC_strtol", 105);
  ("BPF_FUNC_strtoul", 106);
  ("BPF_FUNC_sk_storage_get", 107);
  ("BPF_FUNC_sk_storage_delete", 108);
  ("BPF_FUNC_send_signal", 109);
  ("BPF_FUNC_tcp_gen_syncookie", 110);
  ("BPF_FUNC_skb_output", 111);
  ("BPF_FUNC_probe_read_user", 112);
  ("BPF_FUNC_probe_read_kernel", 113);
  ("BPF_FUNC_probe_read_user_str", 114);
  ("BPF_FUNC_probe_read_kernel_str", 115);
  ("BPF_FUNC_tcp_send_ack", 116);
  ("BPF_FUNC_send_signal_thread", 117);
  ("BPF_FUNC_jiffies64", 118);
  ("BPF_FUNC_read_branch_records", 119);
  ("BPF_FUNC_get_ns_current_pid_tgid", 120);
  ("BPF_FUNC_xdp_output", 121);
  ("BPF_FUNC_get_netns_cookie", 122);
  ("BPF_FUNC_get_current_ancestor_cgroup_id", 123);
  ("BPF_FUNC_sk_assign", 124);
  ("BPF_FUNC_ktime_get_boot_ns", 125);
  ("BPF_FUNC_seq_printf", 126);
  ("BPF_FUNC_seq_write", 127);
  ("BPF_FUNC_sk_cgroup_id", 128);
  ("BPF_FUNC_sk_ancestor_cgroup_id", 129);
  ("BPF_FUNC_ringbuf_output", 130);
  ("BPF_FUNC_ringbuf_reserve", 131);
  ("BPF_FUNC_ringbuf_submit", 132);
  ("BPF_FUNC_ringbuf_discard", 133);
  ("BPF_FUNC_ringbuf_query", 134);
  ("BPF_FUNC_csum_level", 135);
  ("BPF_FUNC_skc_to_tcp6_sock", 136);
  ("BPF_FUNC_skc_to_tcp_sock", 137);
  ("BPF_FUNC_skc_to_tcp_timewait_sock", 138);
  ("BPF_FUNC_skc_to_tcp_request_sock", 139);
  ("BPF_FUNC_skc_to_udp6_sock", 140);
  ("BPF_FUNC_get_task_stack", 141);
  ("BPF_FUNC_load_hdr_opt", 142);
  ("BPF_FUNC_store_hdr_opt", 143);
  ("BPF_FUNC_reserve_hdr_opt", 144);
  ("BPF_FUNC_inode_storage_get", 145);
  ("BPF_FUNC_inode_storage_delete", 146);
  ("BPF_FUNC_d_path", 147);
  ("BPF_FUNC_copy_from_user", 148);
  ("BPF_FUNC_snprintf_btf", 149);
  ("BPF_FUNC_seq_printf_btf", 150);
  ("BPF_FUNC_skb_cgroup_classid", 151);
  ("BPF_FUNC_redirect_neigh", 152);
  ("BPF_FUNC_per_cpu_ptr", 153);
  ("BPF_FUNC_this_cpu_ptr", 154);
  ("BPF_FUNC_redirect_peer", 155);
  ("BPF_FUNC_task_storage_get", 156);
  ("BPF_FUNC_task_storage_delete", 157);
  ("BPF_FUNC_get_current_task_btf", 158);
  ("BPF_FUNC_bprm_opts_set", 159);
  ("BPF_FUNC_ktime_get_coarse_ns", 160);
  ("BPF_FUNC_ima_inode_hash", 161);
  ("BPF_FUNC_sock_from_file", 162);
  ("BPF_FUNC_check_mtu", 163);
  ("BPF_FUNC_for_each_map_elem", 164);
  ("BPF_FUNC_snprintf", 165);
  ("BPF_FUNC_sys_bpf", 166);
  ("BPF_FUNC_btf_find_by_name_kind", 167);
  ("BPF_FUNC_sys_close", 168);
  ("BPF_FUNC_timer_init", 169);
  ("BPF_FUNC_timer_set_callback", 170);
  ("BPF_FUNC_timer_start", 171);
  ("BPF_FUNC_timer_cancel", 172);
  ("BPF_FUNC_get_func_ip", 173);
  ("BPF_FUNC_get_attach_cookie", 174);
  ("BPF_FUNC_task_pt_regs", 175);
  ("BPF_FUNC_get_branch_snapshot", 176);
  ("BPF_FUNC_trace_vprintk", 177);
  ("BPF_FUNC_skc_to_unix_sock", 178);
  ("BPF_FUNC_kallsyms_lookup_name", 179);
  ("BPF_FUNC_find_vma", 180);
  ("BPF_FUNC_loop", 181);
  ("BPF_FUNC_strncmp", 182);
  ("BPF_FUNC_get_func_arg", 183);
  ("BPF_FUNC_get_func_ret", 184);
  ("BPF_FUNC_get_func_arg_cnt", 185);
  ("BPF_FUNC_get_retval", 186);
  ("BPF_FUNC_set_retval", 187);
  ("BPF_FUNC_xdp_get_buff_len", 188);
  ("BPF_FUNC_xdp_load_bytes", 189);
  ("BPF_FUNC_xdp_store_bytes", 190);
  ("BPF_FUNC_copy_from_user_task", 191);
  ("BPF_FUNC_skb_set_tstamp", 192);
  ("BPF_FUNC_ima_file_hash", 193);
  ("BPF_FUNC_kptr_xchg", 194);
  ("BPF_FUNC_map_lookup_percpu_elem", 195);
  ("BPF_FUNC_skc_to_mptcp_sock", 196);
  ("BPF_FUNC_dynptr_from_mem", 197);
  ("BPF_FUNC_ringbuf_reserve_dynptr", 198);
  ("BPF_FUNC_ringbuf_submit_dynptr", 199)].

Definition bpf_func_id_part3 : list (string * Z) := [
  ("BPF_FUNC_ringbuf_discard_dynptr", 200);
  ("BPF_FUNC_dynptr_read", 201);
  ("BPF_FUNC_dynptr_write", 202);
  ("BPF_FUNC_dynptr_data", 203);
  ("BPF_FUNC_tcp_raw_gen_syncookie_ipv4", 204);
  ("BPF_FUNC_tcp_raw_gen_syncookie_ipv6", 205);
  ("BPF_FUNC_tcp_raw_check_syncookie_ipv4", 206);
  ("BPF_FUNC_tcp_raw_check_syncookie_ipv6", 207);
  ("BPF_FUNC_ktime_get_tai_ns", 208);
  ("BPF_FUNC_user_ringbuf_drain", 209);
  ("BPF_FUNC_cgrp_storage_get", 210);
  ("BPF_FUNC_cgrp_storage_delete", 211);
  ("__BPF_FUNC_MAX_ID", 212)].

Definition bpf_func_id : list (string * Z) :=
  bpf_func_id_part1 ++ bpf_func_id_part2 ++ bpf_func_id_part3.

(** The types a kernel pointer read by the programs can point to, by name. *)
Definition types : list (string * ctype) := [
  ("struct task_struct", struct_task_struct);
  ("struct mm_struct", struct_mm_struct);
  ("struct cred", struct_cred);
  ("struct css_set", struct_css_set);
  ("struct cgroup", struct_cgroup);
  ("struct kernfs_node", struct_kernfs_node);
  ("struct signal_struct", struct_signal_struct);
  ("struct trace_event_raw_sched_process_exec", struct_trace_event_raw_sched_process_exec)].
