(* ===== verification/Archs.v ===== *)
(** * Architectures

    The kernel declarations of the architecture the sensor runs on, by type
    name, and the resolution of a member designator in them.  [bpf2go] builds the
    programs once per architecture ([bpf/headers/vmlinux.h] selects the header). *)

From Stdlib Require Import ZArith Lia.
From Stdlib Require Import String.
From stdpp Require Import prelude list.
From S2P Require Import VmlinuxAmd64 VmlinuxArm64 Prelude CLayout.

Local Open Scope string_scope.
Local Open Scope list_scope.
Local Open Scope Z_scope.

Class Arch := { kernel_types : list (string * ctype) }.

Definition amd64 : Arch := {| kernel_types := VmlinuxAmd64.types |}.
Definition arm64 : Arch := {| kernel_types := VmlinuxArm64.types |}.

Fixpoint assoc {A} (k : string) (l : list (string * A)) : option A :=
  match l with
  | [] => None
  | (k', a) :: l => if String.eqb k k' then Some a else assoc k l
  end.

(** Offset and type of a member designator in a named kernel type. *)
Definition kernel_field `{Arch} (sname : string) (path : list string) : option (Z * ctype) :=
  match assoc sname kernel_types with
  | Some t => resolve path t
  | None => None
  end.

(** ** The accesses of the BPF programs

    Every member the programs read through CO-RE, with the width the programs
    rely on.  [ArchOk]: the architecture's headers declare them all. *)

Definition core_accesses : list (string * list string * Z) := [
  ("struct task_struct", ["real_parent"], 8);
  ("struct task_struct", ["group_leader"], 8);
  ("struct task_struct", ["cgroups"], 8);
  ("struct task_struct", ["cred"], 8);
  ("struct task_struct", ["mm"], 8);
  ("struct task_struct", ["signal"], 8);
  ("struct task_struct", ["pid"], 4);
  ("struct task_struct", ["tgid"], 4);
  ("struct task_struct", ["exit_code"], 4);
  ("struct task_struct", ["start_boottime"], 8);
  ("struct task_struct", ["comm"], 16);
  ("struct css_set", ["dfl_cgrp"], 8);
  ("struct cgroup", ["kn"], 8);
  ("struct kernfs_node", ["id"], 8);
  ("struct cred", ["uid"; "val"], 4);
  ("struct cred", ["gid"; "val"], 4);
  ("struct mm_struct", ["arg_start"], 8);
  ("struct mm_struct", ["arg_end"], 8);
  ("struct signal_struct", ["live"; "counter"], 4);
  ("struct trace_event_raw_sched_process_exec", ["__data_loc_filename"], 4)].

(** The access resolves to a member of the expected width that lies inside its
    object. *)
Definition access_ok `{Arch} (a : string * list string * Z) :=
  let '(s, p, w) := a in
  match assoc s kernel_types, kernel_field s p with
  | Some t, Some (o, ft) => (sizeof ft =? w) && (0 <=? o) && (o + w <=? sizeof t)
  | _, _ => false
  end.

(** The pointers the programs follow, with the type each points to. *)
Definition core_pointers : list (string * list string * string) := [
  ("struct task_struct", ["real_parent"], "struct task_struct");
  ("struct task_struct", ["group_leader"], "struct task_struct");
  ("struct task_struct", ["cgroups"], "struct css_set");
  ("struct task_struct", ["cred"], "struct cred");
  ("struct task_struct", ["mm"], "struct mm_struct");
  ("struct task_struct", ["signal"], "struct signal_struct");
  ("struct css_set", ["dfl_cgrp"], "struct cgroup");
  ("struct cgroup", ["kn"], "struct kernfs_node")].

Definition pointer_ok `{Arch} (a : string * list string * string) :=
  let '(s, p, target) := a in
  match kernel_field s p with
  | Some (_, TPtr target') => String.eqb target target'
  | _ => false
  end.

Class ArchOk `{Arch} : Prop := {
  arch_accesses : forallb access_ok core_accesses = true;
  arch_pointers : forallb pointer_ok core_pointers = true;
}.

#[export] Instance amd64_ok : @ArchOk amd64.
Proof. split; vm_compute; reflexivity. Qed.
#[export] Instance arm64_ok : @ArchOk arm64.
Proof. split; vm_compute; reflexivity. Qed.

Lemma arch_field `{Arch, !ArchOk} s p w :
  In (s, p, w) core_accesses -> exists o t, kernel_field s p = Some (o, t) /\ sizeof t = w.
Proof.
  intros Hin. pose proof arch_accesses as Hall.
  rewrite forallb_forall in Hall. specialize (Hall _ Hin). unfold access_ok in Hall.
  destruct (assoc s kernel_types); [|done].
  destruct (kernel_field s p) as [[o t]|]; [|done].
  exists o, t. split; [done|]. apply andb_prop in Hall as [[? _]%andb_prop _]. lia.
Qed.

Lemma arch_pointer `{Arch, !ArchOk} s p target :
  In (s, p, target) core_pointers -> exists o, kernel_field s p = Some (o, TPtr target).
Proof.
  intros Hin. pose proof arch_pointers as Hall.
  rewrite forallb_forall in Hall. specialize (Hall _ Hin). unfold pointer_ok in Hall.
  destruct (kernel_field s p) as [[o []]|]; try done.
  exists o. by apply String.eqb_eq in Hall as ->.
Qed.
