(* ===== verification/BpfKernel.v ===== *)
(** * The kernel, as a BPF program sees it

    The BPF helpers, the maps and the ring buffer are kernel code: here they are
    interfaces.  [BpfHelpers] holds what one invocation of a program can observe
    (current task, clock, faulting memory reads), [BpfMaps] the operations on the
    three maps of [bpf/common.h].  [BpfHelpersOk] and [BpfMapsOk] state the
    documented behaviour the programs rely on; the theorems about the programs
    are proved against these laws.  [Model] is a concrete kernel that satisfies
    them, used to run the programs on concrete inputs.

    CO-RE reads ([BPF_CORE_READ]) are computed from the kernel declarations of
    the running architecture, given by [Arch]. *)

From Stdlib Require Import ZArith Lia.
From Stdlib Require Import String.
From stdpp Require Import prelude list gmap.
From S2P Require Import Prelude CLayout Archs.

Local Open Scope string_scope.
Local Open Scope list_scope.
Local Open Scope Z_scope.

(** ** Helpers

    A reading helper is given the size of the destination and the address to
    read; it returns its C result and the bytes it wrote at the start of the
    destination.  What it does not write keeps its old contents: the [_str]
    helper does not pad, and the memory of a ring buffer record is not cleared. *)

Class BpfHelpers := {
  bpf_get_current_task_btf : Z;
  bpf_ktime_get_boot_ns : Z;
  bpf_get_current_comm : Z -> list byte;
  bpf_probe_read_kernel : Z -> Z -> Z * list byte;
  bpf_probe_read_kernel_str : Z -> Z -> Z * list byte;
  bpf_probe_read_user : Z -> Z -> Z * list byte;
}.

Definition zeros (n : Z) : list byte := replicate (Z.to_nat n) nul.

Lemma zlen_zeros n : 0 <= n -> zlen (zeros n) = n.
Proof. intros. unfold zlen, zeros. rewrite length_replicate. lia. Qed.

Class BpfHelpersOk `{BpfHelpers} : Prop := {
  ktime_u64 : (0 <= bpf_ktime_get_boot_ns < 2 ^ 64);
  comm_size n : 0 <= n -> zlen (bpf_get_current_comm n) = n;
  read_kernel_size n a : 0 <= n -> zlen (bpf_probe_read_kernel n a).2 = n;
  (** the characters and a NUL, cut to the destination *)
  read_str_ok n a : 0 <= (bpf_probe_read_kernel_str n a).1 ->
    exists s, (nul ∉ s) /\ (bpf_probe_read_kernel_str n a).2 = s ++ [nul] /\ zlen s < n;
  (** a faulting string read clears the destination *)
  read_str_fault n a : 0 <= n -> (bpf_probe_read_kernel_str n a).1 < 0 ->
    (bpf_probe_read_kernel_str n a).2 = zeros n;
  read_user_size n a : 0 <= n -> zlen (bpf_probe_read_user n a).2 <= n;
  read_user_ok n a : 0 <= n -> 0 <= (bpf_probe_read_user n a).1 ->
    zlen (bpf_probe_read_user n a).2 = n;
}.

(** ** CO-RE reads

    [BPF_CORE_READ(src, a, b, c)]: every step but the last reads a pointer with
    [bpf_probe_read_kernel] and continues at the type it points to; the value is
    whatever the last read left in the destination. *)

Section core.
Context `{Arch} `{BpfHelpers}.

Definition core_load (addr : Z) (f : Z * ctype) : Z :=
  le_val (bpf_probe_read_kernel (sizeof f.2) (u64 (addr + f.1))).2.

Fixpoint core_read (sname : string) (addr : Z) (path : list (list string)) : Z :=
  match path with
  | [] => addr
  | step :: rest =>
      match kernel_field sname step with
      | None => 0
      | Some f =>
          match rest, f.2 with
          | [], _ => core_load addr f
          | _, TPtr target => core_read target (core_load addr f) rest
          | _, _ => 0
          end
      end
  end.

(** [BPF_CORE_READ_STR_INTO(&dst, src, a)] with a destination of [n] bytes. *)
Definition core_read_str_into (n : Z) (sname : string) (addr : Z)
    (step : list string) : Z * list byte :=
  match kernel_field sname step with
  | None => (0, [])
  | Some f => bpf_probe_read_kernel_str n (u64 (addr + f.1))
  end.
End core.

Arguments core_read : simpl never.

(** ** Maps and the ring buffer

    [K] is the kernel's state.  [rb_records] is the sequence of records
    submitted so far, as the consumer will read them. *)

Class BpfMaps (K : Type) := {
  target_lookup : K -> Z -> option Z;           (** [bpf_map_lookup_elem(&target_cgroups, &id)] *)
  drop_lookup : K -> Z -> option Z;             (** this CPU's slot of [drop_count] *)
  drop_store : K -> Z -> Z -> K;                (** a store through that pointer *)
  ringbuf_reserve : K -> Z -> option (list byte) * K;
  ringbuf_submit : K -> list byte -> K;
  rb_records : K -> list (list byte);
}.

Class BpfMapsOk (K : Type) `{BpfMaps K} : Prop := {
  reserve_size k n b k' : ringbuf_reserve k n = (Some b, k') -> zlen b = n;
  reserve_records k n : rb_records (ringbuf_reserve k n).2 = rb_records k;
  reserve_target k n id : target_lookup (ringbuf_reserve k n).2 id = target_lookup k id;
  reserve_drop k n r : drop_lookup (ringbuf_reserve k n).2 r = drop_lookup k r;
  submit_records k b : rb_records (ringbuf_submit k b) = rb_records k ++ [b];
  submit_target k b id : target_lookup (ringbuf_submit k b) id = target_lookup k id;
  submit_drop k b r : drop_lookup (ringbuf_submit k b) r = drop_lookup k r;
  drop_store_records k r v : rb_records (drop_store k r v) = rb_records k;
  drop_store_target k r v id : target_lookup (drop_store k r v) id = target_lookup k id;
  drop_store_same k r v v0 : drop_lookup k r = Some v0 -> drop_lookup (drop_store k r v) r = Some v;
  drop_slot k : is_Some (drop_lookup k 0);
}.

(** ** A concrete kernel

    [targets] and [drops] are the two maps (the drop slots of the CPU the program
    runs on), [rb_free] the free bytes of the ring buffer, [rb_stale] the byte its
    memory is filled with, standing for what earlier records left there. *)
Module Model.

Record kstate := KState {
  targets : gmap Z Z;
  drops : list Z;
  rb_free : Z;
  rb_stale : byte;
  records : list (list byte);
}.

(** A record costs its size rounded up to 8 and an 8-byte header. *)
Definition reserve (k : kstate) (n : Z) : option (list byte) * kstate :=
  let cost := align_up n 8 + 8 in
  if cost <=? rb_free k then
    (Some (replicate (Z.to_nat n) (rb_stale k)),
     KState (targets k) (drops k) (rb_free k - cost) (rb_stale k) (records k))
  else (None, k).

#[global] Instance maps : BpfMaps kstate := {|
  target_lookup k id := targets k !! id;
  drop_lookup k r := if r =? 0 then Some (default 0 (drops k !! 0%nat)) else None;
  drop_store k r v := if r =? 0
    then KState (targets k) [v] (rb_free k) (rb_stale k) (records k) else k;
  ringbuf_reserve := fun k n => if n <? 0 then (None, k) else reserve k n;
  ringbuf_submit k b := KState (targets k) (drops k) (rb_free k) (rb_stale k) (records k ++ [b]);
  rb_records := records;
|}.

#[global] Instance maps_ok : BpfMapsOk kstate.
Proof.
  split; intros; simpl in *; unfold reserve in *; repeat case_match; simplify_eq/=; try done.
  unfold zlen. rewrite length_replicate. lia.
Qed.

(** Memory: one readable region of kernel memory and one of user memory. *)
Record memory := Memory {
  m_task : Z; m_clock : Z; m_comm : list byte;
  m_kbase : Z; m_kernel : list byte;
  m_ubase : Z; m_user : list byte;
}.

(** Reading [n] bytes at [a] from a region, or a fault. *)
Definition region_read (base : Z) (mem : list byte) (a n : Z) : option (list byte) :=
  if (base <=? a) && (0 <=? n) && (a + n <=? base + zlen mem)
  then Some (slice (a - base) n mem) else None.

Fixpoint up_to_nul (bs : list byte) : option (list byte) :=
  match bs with
  | [] => None
  | b :: bs => if Byte.eqb b nul then Some []
               else match up_to_nul bs with Some s => Some (b :: s) | None => None end
  end.

(** The string at [a], cut to fit in [n] bytes with its NUL. *)
Definition string_at (m : memory) (a n : Z) : option (list byte) :=
  if (m_kbase m <=? a) && (1 <=? n) then
    match up_to_nul (drop (Z.to_nat (a - m_kbase m)) (m_kernel m)) with
    | Some s => Some (take (Z.to_nat (n - 1)) s)
    | None => None
    end
  else None.

Definition helpers (m : memory) : BpfHelpers := {|
  bpf_get_current_task_btf := m_task m;
  bpf_ktime_get_boot_ns := u64 (m_clock m);
  bpf_get_current_comm n := take (Z.to_nat n) (m_comm m ++ zeros n);
  bpf_probe_read_kernel n a :=
    match region_read (m_kbase m) (m_kernel m) a n with
    | Some bs => (0, bs)
    | None => (-14, zeros n)
    end;
  bpf_probe_read_kernel_str n a :=
    match string_at m a n with
    | Some s => (zlen s + 1, s ++ [nul])
    | None => (-14, zeros n)
    end;
  bpf_probe_read_user n a :=
    match region_read (m_ubase m) (m_user m) a n with
    | Some bs => (0, bs)
    | None => (-14, zeros n)
    end;
|}.

Lemma region_read_size base mem a n bs :
  region_read base mem a n = Some bs -> zlen bs = n.
Proof.
  unfold region_read. case_match eqn:E; intros [= <-].
  apply andb_prop in E as [[? ?]%andb_prop ?]. apply zlen_slice; lia.
Qed.

Lemma up_to_nul_free bs s : up_to_nul bs = Some s -> nul ∉ s.
Proof.
  revert s; induction bs as [|b bs IH]; intros s; simpl; [done|].
  destruct (Byte.eqb b nul) eqn:E; [intros [= <-]; set_solver|].
  destruct (up_to_nul bs) as [s'|]; [|done]. intros [= <-].
  apply not_elem_of_cons. split; [|by apply IH].
  intros <-. by rewrite (Byte.byte_dec_lb eq_refl) in E.
Qed.

Lemma string_at_ok m a n s : string_at m a n = Some s -> (nul ∉ s) /\ zlen s < n.
Proof.
  unfold string_at. case_match eqn:E; [|done].
  destruct (up_to_nul _) as [s'|] eqn:Hs; [|done]. intros [= <-].
  apply andb_prop in E as [? ?]. split.
  - intros (i & Hi & _)%elem_of_take. apply (up_to_nul_free _ _ Hs).
    by eapply list_elem_of_lookup_2.
  - unfold zlen. rewrite length_take. lia.
Qed.

Lemma helpers_ok (m : memory) : @BpfHelpersOk (helpers m).
Proof.
  split; simpl.
  - apply u64_range.
  - intros n Hn. unfold zlen, zeros. rewrite length_take, length_app, length_replicate. lia.
  - intros n a Hn. case_match eqn:E; simpl;
      [by eapply region_read_size|by apply zlen_zeros].
  - intros n a. case_match eqn:E; simpl; [|lia]. intros _.
    apply string_at_ok in E as [E1 E2]. by exists l.
  - intros n a Hn. case_match eqn:E; simpl; [|done]. pose proof (zlen_nonneg l). lia.
  - intros n a Hn. case_match eqn:E; simpl; [|by rewrite zlen_zeros].
    by rewrite (region_read_size _ _ _ _ _ E).
  - intros n a Hn. case_match eqn:E; simpl; [|lia]. intros _. by eapply region_read_size.
Qed.
End Model.
