(* ===== verification/CoreGraph.v ===== *)
(** * CO-RE reads against a graph of kernel objects

    A [graph] lists facts of the form "member [p] of the object of type [s] at
    address [a] is [v]".  It knows nothing of offsets or widths.  A kernel
    represents a graph when a probe read of each member, at the offset of the
    running architecture, succeeds with the little-endian image of the value.
    Then [core_read] returns what following the graph returns: the programs see
    the same values on every supported architecture. *)

From Stdlib Require Import ZArith Lia.
From Stdlib Require Import String.
From stdpp Require Import prelude list.
From S2P Require Import Prelude CLayout Archs BpfKernel.

Local Open Scope string_scope.
Local Open Scope list_scope.
Local Open Scope Z_scope.

Record fact := Fact { f_struct : string; f_addr : Z; f_member : list string; f_val : Z }.

Definition graph := list fact.

Definition is_about (s : string) (a : Z) (p : list string) (f : fact) : bool :=
  String.eqb s (f_struct f) && (a =? f_addr f) && bool_decide (p = f_member f).

Definition graph_member (g : graph) (s : string) (a : Z) (p : list string) : option Z :=
  f_val <$> List.find (is_about s a p) g.

Definition pointer_target (s : string) (p : list string) : option string :=
  (fun x => x.2) <$> List.find (fun x => String.eqb s x.1.1 && bool_decide (p = x.1.2)) core_pointers.

Fixpoint graph_read (g : graph) (s : string) (a : Z) (path : list (list string)) : option Z :=
  match path with
  | [] => None
  | [p] => graph_member g s a p
  | p :: rest =>
      match graph_member g s a p, pointer_target s p with
      | Some a', Some s' => graph_read g s' a' rest
      | _, _ => None
      end
  end.

(** The kernel's memory holds the fact, at this architecture's offsets. *)
Definition holds `{Arch, BpfHelpers} (f : fact) : bool :=
  match kernel_field (f_struct f) (f_member f) with
  | Some (o, t) =>
      bool_decide (bpf_probe_read_kernel (sizeof t) (u64 (f_addr f + o))
                   = (0, le_bytes (Z.to_nat (sizeof t)) (f_val f)))
      && (0 <=? f_val f) && (f_val f <? 256 ^ sizeof t) && (0 <=? sizeof t)
  | None => false
  end.

Definition represents `{Arch, BpfHelpers} (g : graph) : bool := forallb holds g.

Lemma find_about g s a p f :
  List.find (is_about s a p) g = Some f ->
  In f g /\ f_struct f = s /\ f_addr f = a /\ f_member f = p.
Proof.
  intros [Hin Hf]%find_some. unfold is_about in Hf.
  apply andb_prop in Hf as [[H1%String.eqb_eq H2%Z.eqb_eq]%andb_prop H3%bool_decide_eq_true_1].
  by subst.
Qed.

Section graph.
Context `{Arch, !ArchOk, BpfHelpers}.

Lemma core_load_member g s a p v f :
  represents g = true -> graph_member g s a p = Some v ->
  kernel_field s p = Some f -> core_load a f = v.
Proof.
  intros Hrep Hm Hk. unfold graph_member in Hm.
  destruct (List.find _ g) as [fa|] eqn:Hf; simplify_eq/=.
  apply find_about in Hf as (Hin & <- & <- & <-).
  unfold represents in Hrep. rewrite forallb_forall in Hrep.
  specialize (Hrep _ Hin). unfold holds in Hrep. rewrite Hk in Hrep.
  destruct f as [o t]. apply andb_prop in Hrep as [[[Hr Hlo]%andb_prop Hhi]%andb_prop Hsz].
  apply bool_decide_eq_true_1 in Hr. unfold core_load; simpl. rewrite Hr; simpl.
  rewrite le_val_bytes, Z2Nat.id by lia. apply Z.mod_small. lia.
Qed.

Lemma pointer_target_ok s p t :
  pointer_target s p = Some t -> exists o, kernel_field s p = Some (o, TPtr t).
Proof.
  unfold pointer_target. destruct (List.find _ core_pointers) as [[[s' p'] t']|] eqn:Hf; [|done].
  intros [= <-]. apply find_some in Hf as [Hin Hf]. simpl in Hf.
  apply andb_prop in Hf as [->%String.eqb_eq ->%bool_decide_eq_true_1].
  by apply arch_pointer.
Qed.

(** [BPF_CORE_READ] returns what following the object graph returns. *)
Theorem core_read_graph g s a path v :
  represents g = true -> graph_read g s a path = Some v -> core_read s a path = v.
Proof.
  intros Hrep. revert s a. induction path as [|p rest IH]; intros s a; simpl; [done|].
  unfold core_read; fold core_read. destruct rest as [|q rest].
  - intros Hm. destruct (kernel_field s p) as [f|] eqn:Hk; [by eapply core_load_member|].
    unfold graph_member in Hm. destruct (List.find _ g) as [fa|] eqn:Hf; simplify_eq/=.
    apply find_about in Hf as (Hin & <- & <- & <-).
    unfold represents in Hrep. rewrite forallb_forall in Hrep.
    specialize (Hrep _ Hin). unfold holds in Hrep. by rewrite Hk in Hrep.
  - destruct (graph_member g s a p) as [a'|] eqn:Hm; [|done].
    destruct (pointer_target s p) as [s'|] eqn:Hp; [|done]. intros Hg.
    apply pointer_target_ok in Hp as [o Hk]. rewrite Hk. simpl.
    erewrite core_load_member by done. by apply IH.
Qed.
End graph.
