(* ===== verification/CommonH.v ===== *)
(** * bpf/common.h

    The definitions shared by the BPF programs: event types, drop reasons, the
    event header, the maps, and the inline helpers [count_drop],
    [task_cgroup_id], [should_capture] and [fill_header].  A ring buffer record
    under construction is its bytes; a C store to a member is a store of the
    member's little-endian image at the member's offset. *)

From Stdlib Require Import ZArith Lia.
From Stdlib Require Import String.
From stdpp Require Import prelude list.
From S2P Require Import Prelude CLayout Archs BpfKernel.

Local Open Scope string_scope.
Local Open Scope list_scope.
Local Open Scope Z_scope.

Definition TASK_COMM_LEN : Z := 16.

(** [enum event_type] *)
Definition EVENT_EXEC : Z := 1.
Definition EVENT_FORK : Z := 2.
Definition EVENT_EXIT : Z := 3.

(** [enum drop_reason] *)
Definition DROP_RINGBUF_FULL : Z := 0.
Definition DROP_REASON_MAX : Z := 1.

(** Fixed-width types of the UAPI, as [ctype]s. *)
Definition c_u8 : ctype := t_unsigned_char.
Definition c_u32 : ctype := t_unsigned_int.
Definition c_u64 : ctype := t_long_long_unsigned_int.

(** [struct event] *)
Definition struct_event : ctype := struct [
  F c_u32 "type";
  F c_u32 "pid";
  F c_u32 "tgid";
  F c_u32 "ppid";
  F c_u32 "uid";
  F c_u32 "gid";
  F c_u64 "timestamp";
  F c_u64 "cgroup_id";
  F c_u64 "start_time";
  F c_u64 "parent_start_time"].

(** The map declarations. *)
Record map_def := MapDef {
  md_type : string; md_max_entries : Z; md_key : option ctype; md_value : option ctype;
}.

Definition target_cgroups : map_def := MapDef "BPF_MAP_TYPE_HASH" 64 (Some c_u64) (Some c_u8).
Definition drop_count : map_def :=
  MapDef "BPF_MAP_TYPE_PERCPU_ARRAY" DROP_REASON_MAX (Some c_u32) (Some c_u64).
Definition events : map_def := MapDef "BPF_MAP_TYPE_RINGBUF" (Z.shiftl 1 24) None None.

(** ** Stores into a record *)

(** [e->path = v] for a scalar member of a struct of type [t] that starts at
    byte [base] of the record. *)
Definition store (t : ctype) (base : Z) (path : list string) (v : Z) (e : list byte) : list byte :=
  splice (base + offsetof t path) (le_bytes (Z.to_nat (sizeof (typeof t path))) v) e.

(** Overwrite an array member with [bs]. *)
Definition store_bytes (t : ctype) (base : Z) (path : list string) (bs e : list byte) : list byte :=
  splice (base + offsetof t path) bs e.

Section programs.
Context `{Arch} `{BpfHelpers} {K : Type} `{BpfMaps K}.

(** [mode_host]: a constant of the loaded object. *)
Variable mode_host : bool.

(** A 64-bit increment of this CPU's slot, when the lookup found it. *)
Definition count_drop (reason : Z) (k : K) : K :=
  match drop_lookup k reason with
  | Some v => drop_store k reason (u64 (v + 1))
  | None => k
  end.

Definition task_cgroup_id (task : Z) : Z :=
  core_read "struct task_struct" task [["cgroups"]; ["dfl_cgrp"]; ["kn"]; ["id"]].

Definition should_capture (cgroup_id : Z) (k : K) : bool :=
  if mode_host then true
  else match target_lookup k cgroup_id with Some _ => true | None => false end.

(** [base] is the offset of the header in the record ([&e->hdr]). *)
Definition fill_header (base type task cgroup_id : Z) (e : list byte) : list byte :=
  let parent := core_read "struct task_struct" task [["real_parent"]] in
  let e := store struct_event base ["type"] type e in
  let e := store struct_event base ["pid"]
             (core_read "struct task_struct" task [["pid"]]) e in
  let e := store struct_event base ["tgid"]
             (core_read "struct task_struct" task [["tgid"]]) e in
  let e := store struct_event base ["ppid"]
             (core_read "struct task_struct" parent [["tgid"]]) e in
  let e := store struct_event base ["uid"]
             (core_read "struct task_struct" task [["cred"]; ["uid"; "val"]]) e in
  let e := store struct_event base ["gid"]
             (core_read "struct task_struct" task [["cred"]; ["gid"; "val"]]) e in
  let e := store struct_event base ["timestamp"] bpf_ktime_get_boot_ns e in
  let e := store struct_event base ["cgroup_id"] cgroup_id e in
  let e := store struct_event base ["start_time"]
             (core_read "struct task_struct" task [["group_leader"]; ["start_boottime"]]) e in
  store struct_event base ["parent_start_time"]
    (core_read "struct task_struct" parent [["group_leader"]; ["start_boottime"]]) e.
End programs.
