(* ===== verification/Uapi.v ===== *)
(** * The kernel interface on both architectures

    The programs are compiled once per architecture, against that architecture's
    header.  The numbers of the BPF UAPI they depend on (map types, helpers) are the
    same in both headers, and every kernel member they read exists in both, with the
    same width; only its offset may differ. *)

From Stdlib Require Import ZArith Lia.
From Stdlib Require Import String.
From stdpp Require Import prelude list.
From S2P Require VmlinuxAmd64 VmlinuxArm64.
From S2P Require Import Prelude CLayout Archs BpfKernel CommonH.

Local Open Scope Z_scope.

(** The helpers that [bpf/common.h] and [bpf/process.bpf.c] call, by their names
    after [bpf_]; the [BPF_CORE_READ] macros call the two that read kernel memory. *)
Definition called_helpers : list string := [
  "map_lookup_elem"; "ktime_get_boot_ns"; "get_current_task_btf"; "get_current_comm";
  "ringbuf_reserve"; "ringbuf_submit"; "probe_read_kernel"; "probe_read_kernel_str"; "probe_read_user"]%string.

Definition map_types : list string := map md_type [target_cgroups; drop_count; events].

(** An enumeration gives every name one value. *)
Fixpoint names_distinct (l : list (string * Z)) : bool :=
  match l with
  | [] => true
  | (n, _) :: l => negb (existsb (fun p => String.eqb n p.1) l) && names_distinct l
  end.

Definition has_all (names : list string) (l : list (string * Z)) : bool :=
  forallb (fun n => match assoc n l with Some _ => true | None => false end) names.

(** The same access on the two architectures. *)
Definition same_width (a : string * list string * Z) : bool :=
  let '(s, p, w) := a in
  match @kernel_field amd64 s p, @kernel_field arm64 s p with
  | Some (_, t1), Some (_, t2) => (sizeof t1 =? w) && (sizeof t2 =? w)
  | _, _ => false
  end.

(** The two headers agree on the kernel's interface: map types, program types,
    attach types and helpers have the same numbers, each name one of them; the types
    of the three maps and the helpers the programs call are declared; the ring buffer
    is a power of two and whole pages on kernels of every page size; every member the
    programs read is in both, with the width the programs rely on. *)
Theorem archs_agree :
  VmlinuxAmd64.bpf_map_type = VmlinuxArm64.bpf_map_type /\
  VmlinuxAmd64.bpf_prog_type = VmlinuxArm64.bpf_prog_type /\
  VmlinuxAmd64.bpf_attach_type = VmlinuxArm64.bpf_attach_type /\
  VmlinuxAmd64.bpf_func_id = VmlinuxArm64.bpf_func_id /\
  forallb names_distinct [VmlinuxAmd64.bpf_map_type; VmlinuxAmd64.bpf_prog_type;
    VmlinuxAmd64.bpf_attach_type; VmlinuxAmd64.bpf_func_id] = true /\
  has_all map_types VmlinuxAmd64.bpf_map_type = true /\
  md_max_entries events = 2 ^ 24 /\ forallb (fun page => md_max_entries events mod page =? 0) [4096; 16384; 65536] = true /\
  has_all (map (String.append "BPF_FUNC_") called_helpers) VmlinuxAmd64.bpf_func_id = true /\
  forallb same_width core_accesses = true.
Proof. split_and!; vm_compute; reflexivity. Qed.
