(* ===== verification/ProcessBpf.v ===== *)
(** * bpf/process.bpf.c

    The three programs [handle_exec], [handle_fork] and [handle_exit], each the
    whole handler from the capture test to the submission, as a function on the
    kernel state that returns the program's result (always 0). *)

From Stdlib Require Import ZArith Lia.
From Stdlib Require Import String.
From stdpp Require Import prelude list.
From S2P Require Import Prelude CLayout Archs BpfKernel CommonH.

Local Open Scope string_scope.
Local Open Scope list_scope.
Local Open Scope Z_scope.

Definition MAX_FILENAME_LEN : Z := 512.
Definition MAX_ARGV_LEN : Z := 4096.

Definition struct_exec_event : ctype := struct [
  F struct_event "hdr";
  F (TArray c_u8 TASK_COMM_LEN) "comm";
  F (TArray c_u8 MAX_FILENAME_LEN) "filename";
  F c_u32 "argv_len";
  F c_u8 "argv_truncated";
  F c_u8 "argv_read_failed";
  F c_u8 "filename_truncated";
  F c_u8 "_pad";
  F (TArray c_u8 MAX_ARGV_LEN) "argv"].

Definition struct_fork_event : ctype := struct [
  F struct_event "hdr";
  F (TArray c_u8 TASK_COMM_LEN) "comm"].

Definition struct_exit_event : ctype := struct [
  F struct_event "hdr";
  F (TArray c_u8 TASK_COMM_LEN) "comm";
  F c_u32 "exit_code";
  F c_u32 "_pad"].

(** The tracepoint context: its address and its bytes. *)
Record tp_ctx := TpCtx { ctx_addr : Z; ctx_mem : list byte }.

Section programs.
Context `{Arch} `{BpfHelpers} {K : Type} `{BpfMaps K}.
Variable mode_host : bool.

(** [ctx->__data_loc_filename] *)
Definition data_loc_filename (ctx : tp_ctx) : Z :=
  match kernel_field "struct trace_event_raw_sched_process_exec" ["__data_loc_filename"] with
  | Some (o, t) => le_val (slice o (sizeof t) (ctx_mem ctx))
  | None => 0
  end.

(** The [filename] part of [handle_exec]. *)
Definition exec_filename (ctx : tp_ctx) (e : list byte) : list byte :=
  let loc := data_loc_filename ctx in
  let off := Z.land loc 0xFFFF in
  let flen := Z.shiftr loc 16 in
  let e := store struct_exec_event 0 ["filename_truncated"]
             (if MAX_FILENAME_LEN <? flen then 1 else 0) e in
  let r := bpf_probe_read_kernel_str (sizeof (typeof struct_exec_event ["filename"]))
             (u64 (ctx_addr ctx + off)) in
  let e := store_bytes struct_exec_event 0 ["filename"] r.2 e in
  if r.1 <? 0 then store_bytes struct_exec_event 0 ["filename"] [nul] e else e.

(** [bpf_probe_read_user(e->argv, n, arg_start)]: the result and the record. *)
Definition exec_read_argv (n arg_start : Z) (e : list byte) : Z * list byte :=
  let r := bpf_probe_read_user n arg_start in
  (r.1, store_bytes struct_exec_event 0 ["argv"] r.2 e).

(** The [argv] part of [handle_exec], to the end of the record. *)
Definition exec_argv (task : Z) (e : list byte) : list byte :=
  let arg_start := core_read "struct task_struct" task [["mm"]; ["arg_start"]] in
  let arg_end := core_read "struct task_struct" task [["mm"]; ["arg_end"]] in
  let len := if arg_start <? arg_end then u64 (arg_end - arg_start) else 0 in
  let e := store struct_exec_event 0 ["argv_truncated"] 0 e in
  let e := store struct_exec_event 0 ["argv_read_failed"] 0 e in
  let e := store struct_exec_event 0 ["_pad"] 0 e in
  let read_failed e :=
    let e := store struct_exec_event 0 ["argv_len"] 0 e in
    store struct_exec_event 0 ["argv_read_failed"] 1 e in
  if MAX_ARGV_LEN <=? len then
    let e := store struct_exec_event 0 ["argv_truncated"]
               (if MAX_ARGV_LEN <? len then 1 else 0) e in
    let len := MAX_ARGV_LEN in
    let r := exec_read_argv MAX_ARGV_LEN arg_start e in
    if r.1 <? 0 then read_failed r.2
    else store struct_exec_event 0 ["argv_len"] len r.2
  else
    let len := Z.land len (MAX_ARGV_LEN - 1) in
    let r := exec_read_argv len arg_start e in
    if r.1 <? 0 then read_failed r.2
    else store struct_exec_event 0 ["argv_len"] len r.2.

(** What the three programs write into the record they have reserved, from the
    header to the last member; [e] is the memory as it was reserved. *)
Definition exec_record (ctx : tp_ctx) (task cgid : Z) (e : list byte) : list byte :=
  let e := fill_header (offsetof struct_exec_event ["hdr"]) EVENT_EXEC task cgid e in
  let e := store_bytes struct_exec_event 0 ["comm"]
             (bpf_get_current_comm (sizeof (typeof struct_exec_event ["comm"]))) e in
  let e := exec_filename ctx e in
  exec_argv task e.

Definition fork_record (child cgid : Z) (e : list byte) : list byte :=
  let e := fill_header (offsetof struct_fork_event ["hdr"]) EVENT_FORK child cgid e in
  let r := core_read_str_into (sizeof (typeof struct_fork_event ["comm"]))
             "struct task_struct" child ["comm"] in
  store_bytes struct_fork_event 0 ["comm"] r.2 e.

Definition exit_record (task cgid : Z) (e : list byte) : list byte :=
  let e := fill_header (offsetof struct_exit_event ["hdr"]) EVENT_EXIT task cgid e in
  let e := store_bytes struct_exit_event 0 ["comm"]
             (bpf_get_current_comm (sizeof (typeof struct_exit_event ["comm"]))) e in
  let e := store struct_exit_event 0 ["exit_code"]
             (core_read "struct task_struct" task [["exit_code"]]) e in
  store struct_exit_event 0 ["_pad"] 0 e.

Definition handle_exec (ctx : tp_ctx) (k : K) : Z * K :=
  let task := bpf_get_current_task_btf in
  let cgid := task_cgroup_id task in
  if negb (should_capture mode_host cgid k) then (0, k) else
  match ringbuf_reserve k (sizeof struct_exec_event) with
  | (None, k) => (0, count_drop DROP_RINGBUF_FULL k)
  | (Some e, k) => (0, ringbuf_submit k (exec_record ctx task cgid e))
  end.

(** [parent] is the tracepoint's first argument, which the program ignores. *)
Definition handle_fork (parent child : Z) (k : K) : Z * K :=
  if negb (core_read "struct task_struct" child [["pid"]] =?
           core_read "struct task_struct" child [["tgid"]]) then (0, k) else
  let cgid := task_cgroup_id child in
  if negb (should_capture mode_host cgid k) then (0, k) else
  match ringbuf_reserve k (sizeof struct_fork_event) with
  | (None, k) => (0, count_drop DROP_RINGBUF_FULL k)
  | (Some e, k) => (0, ringbuf_submit k (fork_record child cgid e))
  end.

Definition handle_exit (ctx : Z) (k : K) : Z * K :=
  let task := bpf_get_current_task_btf in
  if negb (core_read "struct task_struct" task [["signal"]; ["live"; "counter"]] =? 0)
  then (0, k) else
  let cgid := task_cgroup_id task in
  if negb (should_capture mode_host cgid k) then (0, k) else
  match ringbuf_reserve k (sizeof struct_exit_event) with
  | (None, k) => (0, count_drop DROP_RINGBUF_FULL k)
  | (Some e, k) => (0, ringbuf_submit k (exit_record task cgid e))
  end.
End programs.
