(* ===== verification/Scenario.v ===== *)
(** * A concrete kernel

    One process ([ls -la], pid 4242, in cgroup 8123, child of pid 1200) laid out
    in kernel memory at the offsets of either architecture, and the three
    tracepoint hits of its life.  The hypotheses of the theorems about the
    programs hold of it, and running the programs on it shows the whole path from
    kernel memory to decoded events. *)

From Stdlib Require Import ZArith Lia.
From Stdlib Require Import String.
From stdpp Require Import prelude list gmap.
From S2P Require Import Prelude CLayout Archs BpfKernel CoreGraph CommonH ProcessBpf.

Local Open Scope string_scope.
Local Open Scope list_scope.
Local Open Scope Z_scope.

Definition kbase : Z := 0x1000.
Definition ksize : Z := 49152.
Definition task_a : Z := kbase.
Definition parent_a : Z := kbase + 16384.
Definition css_a : Z := kbase + 32768.
Definition cgroup_a : Z := kbase + 33792.
Definition kn_a : Z := kbase + 35840.
Definition cred_a : Z := kbase + 36096.
Definition mm_a : Z := kbase + 36352.
Definition signal_a : Z := kbase + 38400.
Definition ctx_a : Z := kbase + 40960.
Definition user_a : Z := 0x700000.

Definition objects : graph := [
  Fact "struct task_struct" task_a ["pid"] 4242;
  Fact "struct task_struct" task_a ["tgid"] 4242;
  Fact "struct task_struct" task_a ["exit_code"] 768;
  Fact "struct task_struct" task_a ["start_boottime"] 4999000000;
  Fact "struct task_struct" task_a ["real_parent"] parent_a;
  Fact "struct task_struct" task_a ["group_leader"] task_a;
  Fact "struct task_struct" task_a ["cgroups"] css_a;
  Fact "struct task_struct" task_a ["cred"] cred_a;
  Fact "struct task_struct" task_a ["mm"] mm_a;
  Fact "struct task_struct" task_a ["signal"] signal_a;
  Fact "struct task_struct" parent_a ["tgid"] 1200;
  Fact "struct task_struct" parent_a ["group_leader"] parent_a;
  Fact "struct task_struct" parent_a ["start_boottime"] 1000000000;
  Fact "struct css_set" css_a ["dfl_cgrp"] cgroup_a;
  Fact "struct cgroup" cgroup_a ["kn"] kn_a;
  Fact "struct kernfs_node" kn_a ["id"] 8123;
  Fact "struct cred" cred_a ["uid"; "val"] 1000;
  Fact "struct cred" cred_a ["gid"; "val"] 100;
  Fact "struct mm_struct" mm_a ["arg_start"] user_a;
  Fact "struct mm_struct" mm_a ["arg_end"] (user_a + 7);
  Fact "struct signal_struct" signal_a ["live"; "counter"] 0].

(** Store a fact at its place in the region that starts at [kbase]. *)
Definition poke `{Arch} (mem : list byte) (f : fact) : list byte :=
  match kernel_field (f_struct f) (f_member f) with
  | Some (o, t) => splice (f_addr f + o - kbase) (le_bytes (Z.to_nat (sizeof t)) (f_val f)) mem
  | None => mem
  end.

Definition poke_bytes `{Arch} (s : string) (a : Z) (p : list string) (bs mem : list byte) : list byte :=
  match kernel_field s p with
  | Some (o, _) => splice (a + o - kbase) bs mem
  | None => mem
  end.

(** The trace record: a 20-byte header whose [__data_loc] says "offset 20,
    length 12", then the path. *)
Definition exec_path_bytes : list byte := str "/usr/bin/ls" ++ [nul].
Definition exec_ctx : tp_ctx :=
  TpCtx ctx_a (splice 8 (le_bytes 4 (12 * 65536 + 20)) (zeros 20)).

Definition kernel_image `{Arch} : list byte :=
  let mem := fold_left poke objects (zeros ksize) in
  let mem := poke_bytes "struct task_struct" task_a ["comm"] (str "ls" ++ [nul]) mem in
  splice (ctx_a + 20 - kbase) exec_path_bytes mem.

Definition memory `{Arch} : Model.memory := {|
  Model.m_task := task_a; Model.m_clock := 5000000000; Model.m_comm := str "ls";
  Model.m_kbase := kbase; Model.m_kernel := kernel_image;
  Model.m_ubase := user_a; Model.m_user := str "ls" ++ [nul] ++ str "-la" ++ [nul] |}.

Definition kernel_helpers `{Arch} : BpfHelpers := Model.helpers memory.

(** The ring buffer memory still holds a previous record's bytes. *)
Definition kernel0 : Model.kstate :=
  Model.KState {[ 8123 := 1 ]} [0] 16777216 x58 [].

Lemma kernel_helpers_ok `{Arch} : @BpfHelpersOk kernel_helpers.
Proof. apply Model.helpers_ok. Qed.

(** The image represents the object graph on both architectures. *)
Example amd64_represents : @represents amd64 (@kernel_helpers amd64) objects = true.
Proof. vm_compute. reflexivity. Qed.
Example arm64_represents : @represents arm64 (@kernel_helpers arm64) objects = true.
Proof. vm_compute. reflexivity. Qed.

Lemma core_read_graph_witness :
  @core_read amd64 (@kernel_helpers amd64) "struct task_struct" task_a
    [["cgroups"]; ["dfl_cgrp"]; ["kn"]; ["id"]] = 8123.
Proof.
  apply (@core_read_graph amd64 _ (@kernel_helpers amd64) objects); vm_compute; reflexivity.
Defined.
