(* ===== verification/GoStd.v ===== *)
(** * The parts of Go's standard library the sensor uses on bytes and strings

    [bytes], [strings] and [encoding/binary] functions at the instances the
    source calls, as executable definitions, with the lemmas the components
    share.  A Go [string] and a [[]byte] are both [list byte]. *)

From Stdlib Require Import ZArith Lia.
From stdpp Require Import prelude list.
From S2P Require Import Prelude.

Local Open Scope Z_scope.

(** ** bytes *)

(** [bytes.IndexByte], [None] for -1. *)
Fixpoint IndexByte (b : list byte) (c : byte) : option Z :=
  match b with
  | [] => None
  | x :: b =>
      if decide (x = c) then Some 0
      else match IndexByte b c with Some i => Some (i + 1) | None => None end
  end.

(** [bytes.LastIndexByte], [None] for -1. *)
Fixpoint LastIndexByte (b : list byte) (c : byte) : option Z :=
  match b with
  | [] => None
  | x :: b =>
      match LastIndexByte b c with
      | Some i => Some (i + 1)
      | None => if decide (x = c) then Some 0 else None
      end
  end.

(** [bytes.TrimSuffix(b, []byte{c})]. *)
Definition TrimSuffixByte (b : list byte) (c : byte) : list byte :=
  match last b with
  | Some x => if decide (x = c) then removelast b else b
  | None => b
  end.

(** [bytes.Split(b, []byte{c})]: always at least one piece. *)
Fixpoint SplitByte (b : list byte) (c : byte) : list (list byte) :=
  match b with
  | [] => [[]]
  | x :: b =>
      if decide (x = c) then [] :: SplitByte b c
      else match SplitByte b c with
           | p :: ps => (x :: p) :: ps
           | [] => [[x]]
           end
  end.

(** The buffer with the pieces [ps] separated by [c]. *)
Fixpoint join_byte (c : byte) (ps : list (list byte)) : list byte :=
  match ps with
  | [] => []
  | [p] => p
  | p :: ps => p ++ c :: join_byte c ps
  end.

Lemma SplitByte_nonempty b c : SplitByte b c ≠ [].
Proof.
  destruct b as [|x b]; simpl; [done|].
  case_decide; [done|]. by destruct (SplitByte b c).
Qed.

Lemma SplitByte_free p c : c ∉ p -> SplitByte p c = [p].
Proof.
  induction p as [|x p IH]; intros Hp; simpl; [done|].
  apply not_elem_of_cons in Hp as [Hx Hp]. rewrite decide_False by congruence.
  by rewrite IH.
Qed.

Lemma SplitByte_app p c b : c ∉ p -> SplitByte (p ++ c :: b) c = p :: SplitByte b c.
Proof.
  induction p as [|x p IH]; intros Hp; simpl.
  - by rewrite decide_True.
  - apply not_elem_of_cons in Hp as [Hx Hp]. rewrite decide_False by congruence.
    by rewrite IH.
Qed.

(** Splitting undoes joining. *)
Lemma SplitByte_join c ps :
  ps ≠ [] -> Forall (fun p => c ∉ p) ps -> SplitByte (join_byte c ps) c = ps.
Proof.
  induction ps as [|p ps IH]; intros Hne Hall; [done|].
  apply Forall_cons in Hall as [Hp Hall]. destruct ps as [|q ps].
  - by apply SplitByte_free.
  - change (join_byte c (p :: q :: ps)) with (p ++ c :: join_byte c (q :: ps)).
    rewrite SplitByte_app by done. by rewrite IH.
Qed.

(** Joining undoes splitting, and no piece contains the separator. *)
Lemma join_SplitByte c b :
  join_byte c (SplitByte b c) = b /\ Forall (fun p => c ∉ p) (SplitByte b c).
Proof.
  induction b as [|x b [IH1 IH2]]; simpl; [split; [done|repeat constructor; set_solver]|].
  pose proof (SplitByte_nonempty b c) as Hne. case_decide as Hx.
  - subst x. destruct (SplitByte b c) as [|q qs] eqn:E; [done|].
    split; [by rewrite <- IH1|constructor; [set_solver|done]].
  - destruct (SplitByte b c) as [|q qs] eqn:E; [done|].
    apply Forall_cons in IH2 as [Hq Hqs]. split.
    + rewrite <- IH1. by destruct qs.
    + constructor; [set_solver|done].
Qed.

Lemma TrimSuffixByte_snoc b c : TrimSuffixByte (b ++ [c]) c = b.
Proof.
  unfold TrimSuffixByte. rewrite last_snoc, decide_True by done. apply removelast_last.
Qed.

Lemma TrimSuffixByte_other b c : last b ≠ Some c -> TrimSuffixByte b c = b.
Proof.
  unfold TrimSuffixByte. destruct (last b); [|done]. intros. by rewrite decide_False by congruence.
Qed.

Lemma IndexByte_free s c b : c ∉ s -> IndexByte (s ++ c :: b) c = Some (zlen s).
Proof.
  induction s as [|x s IH]; intros Hs; simpl.
  - by rewrite decide_True.
  - apply not_elem_of_cons in Hs as [Hx Hs]. rewrite decide_False by congruence.
    rewrite IH by done. rewrite zlen_cons. f_equal. lia.
Qed.

Lemma IndexByte_None s c : c ∉ s -> IndexByte s c = None.
Proof.
  induction s as [|x s IH]; intros Hs; simpl; [done|].
  apply not_elem_of_cons in Hs as [Hx Hs]. rewrite decide_False by congruence. by rewrite IH.
Qed.
