(* ===== verification/Sha256.v ===== *)
(** * crypto/sha256

    SHA-256 (FIPS 180-4) as Go's [crypto/sha256] computes it, and
    [encoding/hex.EncodeToString].  Words are [Z] in [0, 2^32). *)

From Stdlib Require Import ZArith Lia.
From Stdlib Require Import String.
From stdpp Require Import prelude list.
From S2P Require Import Prelude.

Local Open Scope Z_scope.

Definition add32 (a b : Z) : Z := (a + b) mod 2 ^ 32.
Definition rotr (x n : Z) : Z := Z.lor (Z.shiftr x n) (Z.shiftl x (32 - n) mod 2 ^ 32).
Definition not32 (x : Z) : Z := Z.lxor x 0xFFFFFFFF.

Definition ch (x y z : Z) : Z := Z.lxor (Z.land x y) (Z.land (not32 x) z).
Definition maj (x y z : Z) : Z := Z.lxor (Z.lxor (Z.land x y) (Z.land x z)) (Z.land y z).
Definition bsig0 (x : Z) : Z := Z.lxor (Z.lxor (rotr x 2) (rotr x 13)) (rotr x 22).
Definition bsig1 (x : Z) : Z := Z.lxor (Z.lxor (rotr x 6) (rotr x 11)) (rotr x 25).
Definition ssig0 (x : Z) : Z := Z.lxor (Z.lxor (rotr x 7) (rotr x 18)) (Z.shiftr x 3).
Definition ssig1 (x : Z) : Z := Z.lxor (Z.lxor (rotr x 17) (rotr x 19)) (Z.shiftr x 10).

(** FIPS 180-4 takes the constants from the fractional parts of roots of primes:
    the first 32 bits, so the low word of the integer root of [p] shifted left by
    32 bits for each power. *)
Definition primes : list Z :=
  filter (fun n => forallb (fun d => negb (n mod d =? 0)) (seqZ 2 (n - 2)) = true) (seqZ 2 310).

Fixpoint iroot (k : Z) (bit : nat) (acc n : Z) : Z :=
  match bit with
  | O => acc
  | S bit =>
      let acc' := acc + 2 ^ Z.of_nat bit in
      iroot k bit (if acc' ^ k <=? n then acc' else acc) n
  end.

Definition root_bits (k p : Z) : Z := u32 (iroot k 40 0 (p * 2 ^ (32 * k))).

Definition round_constants : list Z := Eval vm_compute in map (root_bits 3) (take 64 primes).

(** The eight working variables. *)
Record regs := Regs { ra : Z; rb : Z; rc : Z; rd : Z; re : Z; rf : Z; rg : Z; rh : Z }.

Definition initial : regs := Eval vm_compute in
  match map (root_bits 2) (take 8 primes) with
  | [a; b; c; d; e; f; g; h] => Regs a b c d e f g h
  | _ => Regs 0 0 0 0 0 0 0 0
  end.

Definition round (r : regs) (kw : Z * Z) : regs :=
  let t1 := add32 (add32 (add32 (add32 (rh r) (bsig1 (re r))) (ch (re r) (rf r) (rg r))) kw.1) kw.2 in
  let t2 := add32 (bsig0 (ra r)) (maj (ra r) (rb r) (rc r)) in
  Regs (add32 t1 t2) (ra r) (rb r) (rc r) (add32 (rd r) t1) (re r) (rf r) (rg r).

(** Big-endian words. *)
Fixpoint words (bs : list byte) : list Z :=
  match bs with
  | a :: b :: c :: d :: bs =>
      (b2z a * 2 ^ 24 + b2z b * 2 ^ 16 + b2z c * 2 ^ 8 + b2z d) :: words bs
  | _ => []
  end.

Definition be_word (z : Z) : list byte := rev (le_bytes 4 z).

(** The message schedule: [n] more words, newest first in [ws]. *)
Fixpoint extend (n : nat) (ws : list Z) : list Z :=
  match n with
  | O => ws
  | S n =>
      let w i := nth i ws 0 in
      extend n (add32 (add32 (add32 (ssig1 (w 1%nat)) (w 6%nat)) (ssig0 (w 14%nat))) (w 15%nat) :: ws)
  end.

Definition block (r : regs) (bs : list byte) : regs :=
  let ws := rev (extend 48 (rev (words bs))) in
  let r' := fold_left round (combine round_constants ws) r in
  Regs (add32 (ra r) (ra r')) (add32 (rb r) (rb r')) (add32 (rc r) (rc r')) (add32 (rd r) (rd r'))
       (add32 (re r) (re r')) (add32 (rf r) (rf r')) (add32 (rg r) (rg r')) (add32 (rh r) (rh r')).

(** Padding: 0x80, zeros, and the bit length in 8 big-endian bytes. *)
Definition padded (bs : list byte) : list byte :=
  let n := zlen bs in
  bs ++ [x80] ++ replicate (Z.to_nat ((55 - n) mod 64)) x00 ++ rev (le_bytes 8 (8 * n)).

Fixpoint blocks (fuel : nat) (bs : list byte) : list (list byte) :=
  match fuel, bs with
  | O, _ | _, [] => []
  | S fuel, _ => take 64 bs :: blocks fuel (drop 64 bs)
  end.

Definition digest (r : regs) : list byte :=
  be_word (ra r) ++ be_word (rb r) ++ be_word (rc r) ++ be_word (rd r) ++
  be_word (re r) ++ be_word (rf r) ++ be_word (rg r) ++ be_word (rh r).

(** A message of [n] bytes is padded to at most [n + 72] bytes, so [n + 2] is
    enough fuel ([blocks_enough]). *)
Definition sha256 (bs : list byte) : list byte :=
  let p := padded bs in
  digest (fold_left block (blocks (length bs + 2) p) initial).

(** ** encoding/hex *)

Definition hex_digit (n : Z) : byte := z2b (if n <? 10 then 48 + n else 87 + n).

Definition hex_EncodeToString (bs : list byte) : list byte :=
  flat_map (fun b => [hex_digit (b2z b / 16); hex_digit (b2z b mod 16)]) bs.

(** Test vectors of FIPS 180-4. *)
Example sha256_empty : hex_EncodeToString (sha256 []) =
  str "e3b0c44298fc1c149afbf4c8996fb92427ae41e4649b934ca495991b7852b855".
Proof. vm_compute. reflexivity. Qed.

Example sha256_abc : hex_EncodeToString (sha256 (str "abc")) =
  str "ba7816bf8f01cfea414140de5dae2223b00361a396177a9cb410ff61f20015ad".
Proof. vm_compute. reflexivity. Qed.

Example sha256_two_blocks :
  hex_EncodeToString (sha256 (str "abcdbcdecdefdefgefghfghighijhijkijkljklmklmnlmnomnopnopq")) =
  str "248d6a61d20638b8e5c026930c3e6039a33ce45964ff2167f6ecedd419db06c1".
Proof. vm_compute. reflexivity. Qed.

(** ** Lemmas *)

(** The fuel of [sha256] splits the whole padded message. *)
Lemma blocks_enough bs : concat (blocks (length bs + 2) (padded bs)) = padded bs.
Proof.
  assert (H : forall fuel l, (length l <= 64 * fuel)%nat -> concat (blocks fuel l) = l).
  { induction fuel as [|fuel IH]; intros l Hl; [by destruct l; simpl in *; [|lia]|].
    destruct l as [|x l]; [done|]. change (blocks (S fuel) (x :: l)) with
      (take 64 (x :: l) :: blocks fuel (drop 64 (x :: l))). cbn [concat].
    rewrite IH by (rewrite length_drop; lia). apply take_drop. }
  apply H. unfold padded. rewrite !length_app, length_replicate, length_rev, length_le_bytes.
  pose proof (Z.mod_pos_bound (55 - zlen bs) 64 ltac:(lia)). simpl length. lia.
Qed.

Lemma length_be_word z : length (be_word z) = 4%nat.
Proof. unfold be_word. by rewrite length_rev, length_le_bytes. Qed.

Lemma length_sha256 bs : length (sha256 bs) = 32%nat.
Proof. unfold sha256, digest. by rewrite !length_app, !length_be_word. Qed.

Lemma length_hex bs : length (hex_EncodeToString bs) = (2 * length bs)%nat.
Proof. induction bs; simpl; [done|]. rewrite IHbs. lia. Qed.

(** The byte is one of [0-9a-f]. *)
Definition is_hex (b : byte) : bool :=
  ((48 <=? b2z b) && (b2z b <=? 57)) || ((97 <=? b2z b) && (b2z b <=? 102)).

Lemma hex_digit_ok n : 0 <= n < 16 -> is_hex (hex_digit n) = true.
Proof.
  intros Hn. unfold is_hex, hex_digit. rewrite b2z_z2b.
  destruct (Z.ltb_spec n 10); rewrite Z.mod_small by lia; lia.
Qed.

Lemma hex_digit_inj a b : 0 <= a < 16 -> 0 <= b < 16 -> hex_digit a = hex_digit b -> a = b.
Proof.
  intros Ha Hb H. apply (f_equal b2z) in H. unfold hex_digit in H. rewrite !b2z_z2b in H.
  destruct (Z.ltb_spec a 10), (Z.ltb_spec b 10); rewrite !Z.mod_small in H; lia.
Qed.

Lemma nibbles b : 0 <= b2z b / 16 < 16 /\ 0 <= b2z b mod 16 < 16.
Proof.
  pose proof (b2z_range b). split; [|apply Z.mod_pos_bound; lia].
  split; [apply Z.div_pos; lia|apply Z.div_lt_upper_bound; lia].
Qed.

Lemma hex_all bs : Forall (fun b => is_hex b = true) (hex_EncodeToString bs).
Proof.
  induction bs as [|b bs IH]; simpl; [constructor|]. pose proof (nibbles b) as [? ?].
  repeat (constructor; [by apply hex_digit_ok|]). done.
Qed.

Lemma hex_inj a b : hex_EncodeToString a = hex_EncodeToString b -> a = b.
Proof.
  revert b; induction a as [|x a IH]; intros [|y b]; simpl; try done.
  intros [= H1 H2 H3]. pose proof (nibbles x) as [? ?]. pose proof (nibbles y) as [? ?].
  apply hex_digit_inj in H1; [|done..]. apply hex_digit_inj in H2; [|done..].
  f_equal; [|by apply IH]. apply b2z_inj.
  rewrite (Z.div_mod (b2z x) 16), (Z.div_mod (b2z y) 16) by lia. congruence.
Qed.
