(* ===== verification/Guid.v ===== *)
(** * internal/proctable/guid.go

    Process GUIDs: a hash of host, boot, process id and start time in clock
    ticks, printed in the form of a UUID. *)

From Stdlib Require Import ZArith Lia.
From Stdlib Require Import String.
From stdpp Require Import prelude list.
From S2P Require Import Prelude Sha256.

Local Open Scope Z_scope.

Definition nsPerTick : Z := 1000000000 / 100.

Definition StartTicks (startNs : Z) : Z := startNs / nsPerTick.

(** What is written to the hash. *)
Definition guid_input (hostID bootID : list byte) (tgid startNs : Z) : list byte :=
  hostID ++ [nul] ++ bootID ++ [nul] ++ le_bytes 4 tgid ++ le_bytes 8 (StartTicks startNs).

Definition dash : byte := x2d.

(** [s[0:8] + "-" + s[8:12] + "-" + s[12:16] + "-" + s[16:20] + "-" + s[20:32]] *)
Definition uuid_format (s : list byte) : list byte :=
  slice 0 8 s ++ [dash] ++ slice 8 4 s ++ [dash] ++ slice 12 4 s ++ [dash] ++
  slice 16 4 s ++ [dash] ++ slice 20 12 s.

Definition GUID (hostID bootID : list byte) (tgid startNs : Z) : list byte :=
  let h := sha256 (guid_input hostID bootID tgid startNs) in
  let s := hex_EncodeToString (slice 0 16 h) in
  uuid_format s.

(** The vectors the formatted form goes through. *)
Example GUID_example :
  GUID (str "host") (str "boot") 42 10000000000 =
  GUID (str "host") (str "boot") 42 10001234500.
Proof. vm_compute. reflexivity. Qed.

(** ** Lemmas *)

Lemma hex_len bs : length bs = 32%nat -> zlen (hex_EncodeToString (slice 0 16 bs)) = 32.
Proof.
  intros Hb. unfold zlen. rewrite length_hex. unfold slice. rewrite length_take, length_drop. lia.
Qed.

Lemma uuid_parts (s : list byte) : zlen s = 32 ->
  s = slice 0 8 s ++ slice 8 4 s ++ slice 12 4 s ++ slice 16 4 s ++ slice 20 12 s.
Proof.
  intros Hs. unfold zlen in Hs. do 33 (destruct s as [|? s]; [simpl in Hs; try lia|]); try done.
  simpl in Hs; lia.
Qed.

Lemma uuid_format_inj s s' :
  zlen s = 32 -> zlen s' = 32 -> uuid_format s = uuid_format s' -> s = s'.
Proof.
  intros Hs Hs' H. unfold uuid_format in H.
  assert (forall a n (l l' : list byte), zlen l = 32 -> zlen l' = 32 -> 0 <= a -> 0 <= n -> a + n <= 32 ->
    length (slice a n l) = length (slice a n l')) as Hlen.
  { intros a n l l' H1 H2 ? ? ?. apply Nat2Z.inj.
    change (zlen (slice a n l) = zlen (slice a n l')). by rewrite !zlen_slice by lia. }
  apply app_inj_1 in H as [E1 H]; [|apply Hlen; lia]. apply app_inj_1 in H as [_ H]; [|done].
  apply app_inj_1 in H as [E2 H]; [|apply Hlen; lia]. apply app_inj_1 in H as [_ H]; [|done].
  apply app_inj_1 in H as [E3 H]; [|apply Hlen; lia]. apply app_inj_1 in H as [_ H]; [|done].
  apply app_inj_1 in H as [E4 H]; [|apply Hlen; lia]. apply app_inj_1 in H as [_ E5]; [|done].
  rewrite (uuid_parts s), (uuid_parts s') by done. congruence.
Qed.

Lemma app_nul_inj (a b a' b' : list byte) :
  (nul ∉ a) -> (nul ∉ a') -> a ++ nul :: b = a' ++ nul :: b' -> a = a' /\ b = b'.
Proof.
  revert a'; induction a as [|x a IH]; intros [|y a'] Ha Ha'; simpl; intros H.
  - by injection H.
  - injection H as <- H. by apply not_elem_of_cons in Ha' as [? _].
  - injection H as -> H. by apply not_elem_of_cons in Ha as [? _].
  - injection H as -> H. apply not_elem_of_cons in Ha as [_ Ha], Ha' as [_ Ha'].
    destruct (IH a' Ha Ha' H). by subst.
Qed.

(** ** Properties *)

(** A GUID has the UUID shape: 36 characters, dashes at 8, 13, 18 and 23 and
    lower-case hexadecimal digits elsewhere. *)
Theorem GUID_format hostID bootID tgid startNs :
  let g := GUID hostID bootID tgid startNs in
  zlen g = 36 /\
  (forall i c, g !! i = Some c ->
     if bool_decide (i ∈ [8; 13; 18; 23]%nat) then c = dash else is_hex c = true).
Proof.
  cbv zeta. unfold GUID.
  pose proof (hex_len _ (length_sha256 (guid_input hostID bootID tgid startNs))) as Hlen.
  pose proof (hex_all (slice 0 16 (sha256 (guid_input hostID bootID tgid startNs)))) as Hall.
  set (s := hex_EncodeToString _) in *. clearbody s. unfold zlen in Hlen.
  do 33 (destruct s as [|? s]; [simpl in Hlen; try lia|]); [|simpl in Hlen; lia].
  split; [done|]. rewrite !Forall_cons in Hall.
  intros i c Hi.
  do 36 (destruct i as [|i]; [injection Hi as <-; cbn; try done; tauto|]). done.
Qed.

Lemma StartTicks_roundtrip startNs : 0 <= startNs < 2 ^ 64 ->
  StartTicks (u64 (StartTicks startNs * nsPerTick)) = StartTicks startNs.
Proof.
  intros Hr. assert (Hp : nsPerTick = 10000000) by done.
  assert (0 <= StartTicks startNs * nsPerTick <= startNs).
  { unfold StartTicks. rewrite Hp. pose proof (Z.mul_div_le startNs 10000000 ltac:(lia)).
    pose proof (Z.div_pos startNs 10000000 ltac:(lia) ltac:(lia)). lia. }
  rewrite u64_small by lia. unfold StartTicks. by rewrite Z.div_mul by (rewrite Hp; lia).
Qed.

(** The same process gets the same GUID from the kernel's start time and from
    the tick count that [/proc/<pid>/stat] shows for it, converted back to
    nanoseconds. *)
Theorem GUID_proc_kernel hostID bootID tgid startNs :
  0 <= startNs < 2 ^ 64 ->
  GUID hostID bootID tgid (u64 (StartTicks startNs * nsPerTick)) = GUID hostID bootID tgid startNs.
Proof. intros Hr. unfold GUID, guid_input. by rewrite StartTicks_roundtrip. Qed.

(** The hash input identifies the process: host, boot, process id and start
    tick can be read back from it. *)
Theorem guid_input_inj h b t s h' b' t' s' :
  (nul ∉ h) -> (nul ∉ h') -> (nul ∉ b) -> (nul ∉ b') ->
  0 <= t < 2 ^ 32 -> 0 <= t' < 2 ^ 32 -> 0 <= s < 2 ^ 64 -> 0 <= s' < 2 ^ 64 ->
  guid_input h b t s = guid_input h' b' t' s' ->
  h = h' /\ b = b' /\ t = t' /\ StartTicks s = StartTicks s'.
Proof.
  intros Hh Hh' Hb Hb' Ht Ht' Hs Hs' H. unfold guid_input in H. cbn [app] in H.
  apply app_nul_inj in H as [-> H]; [|done..]. apply app_nul_inj in H as [-> H]; [|done..].
  assert (forall x, 0 <= x < 2 ^ 64 -> 0 <= StartTicks x < 256 ^ Z.of_nat 8) as Hst.
  { intros x Hx. unfold StartTicks. change nsPerTick with 10000000. split.
    - apply Z.div_pos; lia.
    - apply Z.div_lt_upper_bound; lia. }
  apply (app_inj_1 (le_bytes 4 t) (le_bytes 4 t')) in H as [E1 E2]; [|by rewrite !length_le_bytes].
  apply le_bytes_inj in E1; [|done..]. apply le_bytes_inj in E2; [|by apply Hst..]. done.
Qed.

(** Two processes share a GUID only if the first 16 bytes of their SHA-256
    digests collide: hexadecimal printing and formatting lose nothing. *)
Theorem GUID_inj_hash h b t s h' b' t' s' :
  GUID h b t s = GUID h' b' t' s' ->
  slice 0 16 (sha256 (guid_input h b t s)) = slice 0 16 (sha256 (guid_input h' b' t' s')).
Proof.
  intros H. apply uuid_format_inj in H; [by apply hex_inj|by apply hex_len, length_sha256..].
Qed.

(** Start times in the same clock tick give the same GUID, so a process id reused
    within a tick does too. *)
Lemma GUID_same_tick h b t s s' : StartTicks s = StartTicks s' -> GUID h b t s = GUID h b t s'.
Proof. intros E. unfold GUID, guid_input. by rewrite E. Qed.

(** ** Witnesses *)

Lemma GUID_proc_kernel_witness :
  GUID (str "host") (str "boot") 42 (u64 (StartTicks 10001234500 * nsPerTick))
  = GUID (str "host") (str "boot") 42 10001234500.
Proof. apply GUID_proc_kernel. lia. Defined.

Lemma guid_input_inj_witness :
  str "host" = str "host" /\ str "boot" = str "boot" /\ 42 = 42 /\
  StartTicks 10000000000 = StartTicks 10001234500.
Proof.
  apply guid_input_inj; try lia; [apply (bool_decide_unpack _); vm_compute; exact I..|].
  vm_compute. reflexivity.
Defined.

Lemma GUID_inj_hash_witness :
  slice 0 16 (sha256 (guid_input (str "host") (str "boot") 42 10000000000)) =
  slice 0 16 (sha256 (guid_input (str "host") (str "boot") 42 10001234500)).
Proof. apply GUID_inj_hash. vm_compute. reflexivity. Defined.
