(* ===== verification/Event.v ===== *)
(** * internal/event/event.go

    The decoded form of events, and the pure decoders [ExitFromRaw],
    [SplitArgv] and [CString]. *)

From Stdlib Require Import ZArith Lia Btauto.
From stdpp Require Import prelude list.
From S2P Require Import Prelude GoStd.

Local Open Scope Z_scope.

(** ** Types

    [time.Time] is nanoseconds on the wall clock, with 0 for Go's zero time; a
    nil slice and an empty one are both [[]]. *)

Inductive EventType := TypeExec | TypeFork | TypeExit.

#[global] Instance EventType_eq_dec : EqDecision EventType.
Proof. solve_decision. Defined.

Record Process := mkProcess {
  Process_GUID : list byte;
  Process_PID : Z;
  Process_TID : Z;
  Process_UID : Z;
  Process_GID : Z;
  Process_CgroupID : Z;
  Process_StartTimeNs : Z;
  Process_Comm : list byte;
  Process_Image : list byte;
  Process_Argv : list (list byte);
  Process_FilenameTruncated : bool;
  Process_ArgvTruncated : bool;
  Process_ArgvReadFailed : bool;
}.

Record Parent := mkParent {
  Parent_GUID : list byte;
  Parent_PID : Z;
  Parent_StartTimeNs : Z;
  Parent_Image : list byte;
  Parent_Argv : list (list byte);
  Parent_Known : bool;
  Parent_External : bool;
}.

(** [event.Container]. *)
Record ContainerRef := mkContainerRef {
  ContainerRef_ID : list byte;
  ContainerRef_Name : list byte;
  ContainerRef_Image : list byte;
}.

Record Exit := mkExit { Exit_Code : Z; Exit_Signal : Z; Exit_Raw : Z }.

Record Event := mkEvent {
  Event_Type : EventType;
  Event_Time : Z;
  Event_TimestampNs : Z;
  Event_Process : Process;
  Event_Parent : Parent;
  Event_Container : option ContainerRef;
  Event_Exit : option Exit;
}.

(** ** Decoders *)

Definition ExitFromRaw (raw : Z) : Exit :=
  mkExit (Z.land (Z.shiftr raw 8) 0xff) (Z.land raw 0x7f) raw.

Definition SplitArgv (b : list byte) : list (list byte) :=
  let b := TrimSuffixByte b nul in
  if zlen b =? 0 then [] else SplitByte b nul.

Definition CString (b : list byte) : list byte :=
  match IndexByte b nul with
  | Some i => slice 0 i b
  | None => b
  end.

(** An argv area as the kernel lays it out: every argument followed by a NUL. *)
Definition argv_area (args : list (list byte)) : list byte :=
  concat (map (fun a => a ++ [nul]) args).

(** ** Lemmas *)

Lemma argv_area_join args : args ≠ [] -> argv_area args = join_byte nul args ++ [nul].
Proof.
  unfold argv_area. induction args as [|a args IH]; intros Hne; [done|].
  destruct args as [|a' args]; simpl; [by rewrite app_nil_r|].
  simpl in IH. rewrite IH by done. by rewrite <- !app_assoc.
Qed.

Lemma join_nil_inv args : join_byte nul args = [] -> args = [] \/ args = [[]].
Proof.
  destruct args as [|a [|a' args]]; simpl; intros Hj; subst; auto.
  by destruct a.
Qed.

Lemma SplitArgv_unterminated args :
  args ≠ [] -> args ≠ [[]] -> Forall (fun a => nul ∉ a) args ->
  last args ≠ Some [] -> SplitArgv (join_byte nul args) = args.
Proof.
  intros Hne Hne' Hall Hlast. unfold SplitArgv. rewrite TrimSuffixByte_other.
  - destruct (Z.eqb_spec (zlen (join_byte nul args)) 0) as [E|_].
    + unfold zlen in E. destruct (join_byte nul args) eqn:J; [|done].
      apply join_nil_inv in J as [->| ->]; done.
    + by apply SplitByte_join.
  - clear Hne'. revert Hlast Hall. induction args as [|a args IH]; [done|].
    intros Hlast [Ha Hall]%Forall_cons. destruct args as [|a' args].
    + simpl in *. intros Hl. apply last_Some_elem_of in Hl. done.
    + change (join_byte nul (a :: a' :: args)) with (a ++ nul :: join_byte nul (a' :: args)).
      rewrite last_app_cons, last_cons.
      specialize (IH ltac:(done) Hlast Hall).
      destruct (last (join_byte nul (a' :: args))) eqn:E; [done|].
      apply last_None in E. apply join_nil_inv in E as [E|E]; simplify_eq; done.
Qed.

(** ** Properties *)

(** Splitting the argument area of a process gives back its arguments, empty
    ones included; the only exception is a single empty argument, whose area
    is one NUL. *)
Theorem SplitArgv_roundtrip args :
  args ≠ [[]] -> Forall (fun a => nul ∉ a) args -> SplitArgv (argv_area args) = args.
Proof.
  intros Hne Hall. destruct (decide (args = [])) as [->|Hnil]; [done|].
  rewrite argv_area_join by done. unfold SplitArgv. rewrite TrimSuffixByte_snoc.
  destruct (Z.eqb_spec (zlen (join_byte nul args)) 0) as [E|_].
  - unfold zlen in E. destruct (join_byte nul args) eqn:J; [|done].
    apply join_nil_inv in J as [->| ->]; done.
  - by apply SplitByte_join.
Qed.

Lemma join_byte_snoc args p :
  args ≠ [] -> join_byte nul (args ++ [p]) = join_byte nul args ++ nul :: p.
Proof.
  induction args as [|a args IH]; intros Hne; [done|].
  destruct args as [|a' args]; [done|].
  change (join_byte nul ((a :: a' :: args) ++ [p]))
    with (a ++ nul :: join_byte nul ((a' :: args) ++ [p])).
  rewrite IH by done. cbn [join_byte]. by rewrite <- app_assoc.
Qed.

(** A truncated area: the complete arguments, then the partial one as it is. *)
Theorem SplitArgv_truncated args p :
  Forall (fun a => nul ∉ a) args -> (nul ∉ p) -> p ≠ [] ->
  SplitArgv (argv_area args ++ p) = args ++ [p].
Proof.
  intros Hall Hp Hne.
  assert (argv_area args ++ p = join_byte nul (args ++ [p])) as ->.
  { destruct (decide (args = [])) as [->|Hnil]; [done|].
    rewrite argv_area_join, join_byte_snoc, <- app_assoc by done. done. }
  apply SplitArgv_unterminated; [by destruct args| |by apply Forall_app; repeat constructor|].
  - destruct args as [|a [|]]; [|done..]. by intros [= ->].
  - rewrite last_snoc. congruence.
Qed.

Lemma CString_app s b : (nul ∉ s) -> CString (s ++ nul :: b) = s.
Proof.
  intros Hs. unfold CString. rewrite IndexByte_free by done.
  unfold slice, zlen. rewrite Nat2Z.id. simpl. rewrite drop_0. by rewrite take_app_length.
Qed.

Lemma CString_free s : (nul ∉ s) -> CString s = s.
Proof. intros Hs. unfold CString. by rewrite IndexByte_None. Qed.

(** [CString] is the bytes before the first NUL, or all of them. *)
Theorem CString_spec b :
  (nul ∉ CString b) /\
  exists rest, b = CString b ++ rest /\ (rest = [] \/ exists r, rest = nul :: r).
Proof.
  destruct (decide (nul ∈ b)) as [Hin|Hn].
  - apply list_elem_of_split_l in Hin as (s & r & -> & Hs).
    rewrite CString_app by done. split; [done|]. eauto.
  - rewrite CString_free by done. split; [done|]. exists []. rewrite app_nil_r. auto.
Qed.

(** The kernel's [wait(2)] encoding: status, core-dump flag and signal. *)
Definition wait_status (status core signal : Z) : Z :=
  Z.lor (Z.shiftl status 8) (Z.lor (Z.shiftl core 7) signal).

(** [ExitFromRaw] takes a status apart: the exit status, the terminating signal
    without the core-dump flag, and the raw value. *)
Theorem ExitFromRaw_spec status core signal :
  0 <= status < 256 -> 0 <= core < 2 -> 0 <= signal < 128 ->
  ExitFromRaw (wait_status status core signal)
  = mkExit status signal (wait_status status core signal).
Proof.
  intros Hs Hc Hg. unfold ExitFromRaw. f_equal; unfold wait_status; apply Z.bits_inj'; intros i Hi.
  - rewrite Z.land_spec, Z.shiftr_spec, !Z.lor_spec, !Z.shiftl_spec by lia.
    change 0xff with (Z.ones 8). rewrite Z.testbit_ones_nonneg by lia.
    replace (i + 8 - 8) with i by lia.
    rewrite (testbit_above core 1), (testbit_above signal 7) by lia.
    destruct (Z.ltb_spec i 8); [btauto|]. rewrite (testbit_above status 8) by lia. btauto.
  - rewrite Z.land_spec, !Z.lor_spec, !Z.shiftl_spec by lia.
    change 0x7f with (Z.ones 7). rewrite Z.testbit_ones_nonneg by lia.
    destruct (Z.ltb_spec i 7).
    + rewrite (Z.testbit_neg_r status), (Z.testbit_neg_r core) by lia. btauto.
    + rewrite (testbit_above signal 7) by lia. btauto.
Qed.

(** The exception: one empty argument is split into none. *)
Lemma SplitArgv_single_empty : SplitArgv (argv_area [[]]) = [].
Proof. reflexivity. Qed.

(** ** Witnesses *)

Lemma SplitArgv_roundtrip_witness :
  SplitArgv (argv_area [[x6c; x73]; []; [x2d; x6c]]) = [[x6c; x73]; []; [x2d; x6c]].
Proof.
  apply SplitArgv_roundtrip; [discriminate|].
  repeat (apply Forall_cons; split; [by apply (bool_decide_unpack _)|]). apply Forall_nil. done.
Defined.

Lemma SplitArgv_truncated_witness : SplitArgv (argv_area [[x6c; x73]] ++ [x2d]) = [[x6c; x73]; [x2d]].
Proof.
  apply (SplitArgv_truncated [[x6c; x73]] [x2d]); [|by apply (bool_decide_unpack _) | discriminate].
  apply Forall_cons. split; [by apply (bool_decide_unpack _) | by apply Forall_nil].
Defined.

Lemma ExitFromRaw_spec_witness : ExitFromRaw (wait_status 0 1 11) = mkExit 0 11 139.
Proof. apply ExitFromRaw_spec; lia. Defined.
