(* ===== verification/Decode.v ===== *)
(** * internal/loader/decode.go and the bpf2go types

    The Go mirror of the C event structs ([process_x86_bpfel.go],
    [process_arm64_bpfel.go], identical in this respect), [encoding/binary]'s
    packed layout of them, and [decode], which turns a raw ring buffer record
    into an [Event]. *)

From Stdlib Require Import ZArith Lia.
From Stdlib Require Import String.
From stdpp Require Import prelude list.
From S2P Require Import Prelude GoStd Event.

Local Open Scope string_scope.
Local Open Scope list_scope.
Local Open Scope Z_scope.

(** ** Go struct types and their [encoding/binary] layout

    [binary.Read] fills the fields in order without padding, so a field's
    position is the sum of the sizes before it. *)

Inductive gotype :=
| Uint8 | Uint32 | Uint64
| GoArray (n : Z) (t : gotype)
| GoStruct (fs : list (string * gotype)).

Fixpoint binary_Size (t : gotype) : Z :=
  match t with
  | Uint8 => 1 | Uint32 => 4 | Uint64 => 8
  | GoArray n t => n * binary_Size t
  | GoStruct fs => fold_right (fun f n => binary_Size f.2 + n) 0 fs
  end.

Fixpoint go_offset (fs : list (string * gotype)) (name : string) : option (Z * Z) :=
  match fs with
  | [] => None
  | (n, t) :: fs =>
      if String.eqb n name then Some (0, binary_Size t)
      else match go_offset fs name with
           | Some (o, s) => Some (binary_Size t + o, s)
           | None => None
           end
  end.

Definition processEvent_fields : list (string * gotype) := [
  ("Type", Uint32); ("Pid", Uint32); ("Tgid", Uint32); ("Ppid", Uint32); ("Uid", Uint32);
  ("Gid", Uint32); ("Timestamp", Uint64); ("CgroupId", Uint64); ("StartTime", Uint64);
  ("ParentStartTime", Uint64)].

Definition processExecEvent_fields : list (string * gotype) := [
  ("Hdr", GoStruct processEvent_fields); ("Comm", GoArray 16 Uint8);
  ("Filename", GoArray 512 Uint8); ("ArgvLen", Uint32); ("ArgvTruncated", Uint8);
  ("ArgvReadFailed", Uint8); ("FilenameTruncated", Uint8); ("Pad", Uint8);
  ("Argv", GoArray 4096 Uint8)].

Definition processExitEvent_fields : list (string * gotype) := [
  ("Hdr", GoStruct processEvent_fields); ("Comm", GoArray 16 Uint8); ("ExitCode", Uint32);
  ("Pad", Uint32)].

Definition processForkEvent_fields : list (string * gotype) := [
  ("Hdr", GoStruct processEvent_fields); ("Comm", GoArray 16 Uint8)].

(** The bytes [binary.Read] assigns to field [name] of a struct at [base]. *)
Definition gofield (fs : list (string * gotype)) (base : Z) (name : string)
    (raw : list byte) : list byte :=
  match go_offset fs name with
  | Some (o, s) => slice (base + o) s raw
  | None => []
  end.

Record processEvent := mkProcessEvent {
  pe_Type : Z; pe_Pid : Z; pe_Tgid : Z; pe_Ppid : Z; pe_Uid : Z; pe_Gid : Z;
  pe_Timestamp : Z; pe_CgroupId : Z; pe_StartTime : Z; pe_ParentStartTime : Z;
}.

Record processExecEvent := mkProcessExecEvent {
  px_Hdr : processEvent; px_Comm : list byte; px_Filename : list byte; px_ArgvLen : Z;
  px_ArgvTruncated : Z; px_ArgvReadFailed : Z; px_FilenameTruncated : Z; px_Pad : Z;
  px_Argv : list byte;
}.

Record processExitEvent := mkProcessExitEvent {
  pq_Hdr : processEvent; pq_Comm : list byte; pq_ExitCode : Z; pq_Pad : Z;
}.

Record processForkEvent := mkProcessForkEvent { pf_Hdr : processEvent; pf_Comm : list byte }.

Definition binary_Read_event (base : Z) (raw : list byte) : processEvent :=
  let num name := le_val (gofield processEvent_fields base name raw) in
  mkProcessEvent (num "Type") (num "Pid") (num "Tgid") (num "Ppid") (num "Uid") (num "Gid")
    (num "Timestamp") (num "CgroupId") (num "StartTime") (num "ParentStartTime").

Definition binary_Read_exec (raw : list byte) : processExecEvent :=
  let arr name := gofield processExecEvent_fields 0 name raw in
  let num name := le_val (arr name) in
  mkProcessExecEvent (binary_Read_event 0 raw) (arr "Comm") (arr "Filename") (num "ArgvLen")
    (num "ArgvTruncated") (num "ArgvReadFailed") (num "FilenameTruncated") (num "Pad") (arr "Argv").

Definition binary_Read_exit (raw : list byte) : processExitEvent :=
  let arr name := gofield processExitEvent_fields 0 name raw in
  mkProcessExitEvent (binary_Read_event 0 raw) (arr "Comm") (le_val (arr "ExitCode"))
    (le_val (arr "Pad")).

Definition binary_Read_fork (raw : list byte) : processForkEvent :=
  mkProcessForkEvent (binary_Read_event 0 raw) (gofield processForkEvent_fields 0 "Comm" raw).

(** ** decode *)

Definition processEventTypeEVENT_EXEC : Z := 1.
Definition processEventTypeEVENT_FORK : Z := 2.
Definition processEventTypeEVENT_EXIT : Z := 3.

Inductive decode_error :=
| RecordTooShort (got : Z)
| WrongSize (t : EventType) (got want : Z)
| UnknownEventType (t : Z).

(** [read]: an exact size match, then [binary.Read]. *)
Definition read {A} (t : EventType) (fs : list (string * gotype)) (rd : list byte -> A)
    (raw : list byte) : A + decode_error :=
  let want := binary_Size (GoStruct fs) in
  if negb (zlen raw =? want) then inr (WrongSize t (zlen raw) want) else inl (rd raw).

(** [boot.Add(time.Duration(h.Timestamp))]: the conversion to [int64] wraps. *)
Definition fromHeader (t : EventType) (h : processEvent) (comm : list byte) (boot : Z) : Event := {|
  Event_Type := t;
  Event_Time := boot + s64 (pe_Timestamp h);
  Event_TimestampNs := pe_Timestamp h;
  Event_Process := {|
    Process_GUID := []; Process_PID := pe_Tgid h; Process_TID := pe_Pid h;
    Process_UID := pe_Uid h; Process_GID := pe_Gid h; Process_CgroupID := pe_CgroupId h;
    Process_StartTimeNs := pe_StartTime h; Process_Comm := CString comm;
    Process_Image := []; Process_Argv := [];
    Process_FilenameTruncated := false; Process_ArgvTruncated := false;
    Process_ArgvReadFailed := false |};
  Event_Parent := {|
    Parent_GUID := []; Parent_PID := pe_Ppid h; Parent_StartTimeNs := pe_ParentStartTime h;
    Parent_Image := []; Parent_Argv := []; Parent_Known := false; Parent_External := false |};
  Event_Container := None;
  Event_Exit := None |}.

(** The exec-only fields of [ev.Process]. *)
Definition set_exec_fields (ev : Event) (image : list byte) (argv : list (list byte))
    (fname_trunc argv_trunc argv_failed : bool) : Event :=
  let p := Event_Process ev in
  mkEvent (Event_Type ev) (Event_Time ev) (Event_TimestampNs ev)
    (mkProcess (Process_GUID p) (Process_PID p) (Process_TID p) (Process_UID p) (Process_GID p)
       (Process_CgroupID p) (Process_StartTimeNs p) (Process_Comm p) image argv
       fname_trunc argv_trunc argv_failed)
    (Event_Parent ev) (Event_Container ev) (Event_Exit ev).

Definition set_exit (ev : Event) (x : Exit) : Event :=
  mkEvent (Event_Type ev) (Event_Time ev) (Event_TimestampNs ev) (Event_Process ev)
    (Event_Parent ev) (Event_Container ev) (Some x).

Definition decode (raw : list byte) (boot : Z) : Event + decode_error :=
  if zlen raw <? 4 then inr (RecordTooShort (zlen raw)) else
  let t := le_val (slice 0 4 raw) in
  if t =? processEventTypeEVENT_EXEC then
    match read TypeExec processExecEvent_fields binary_Read_exec raw with
    | inr err => inr err
    | inl r =>
        let ev := fromHeader TypeExec (px_Hdr r) (px_Comm r) boot in
        let argvLen := Z.min (px_ArgvLen r) (zlen (px_Argv r)) in
        inl (set_exec_fields ev (CString (px_Filename r)) (SplitArgv (slice 0 argvLen (px_Argv r)))
               (negb (px_FilenameTruncated r =? 0)) (negb (px_ArgvTruncated r =? 0))
               (negb (px_ArgvReadFailed r =? 0)))
    end
  else if t =? processEventTypeEVENT_FORK then
    match read TypeFork processForkEvent_fields binary_Read_fork raw with
    | inr err => inr err
    | inl r => inl (fromHeader TypeFork (pf_Hdr r) (pf_Comm r) boot)
    end
  else if t =? processEventTypeEVENT_EXIT then
    match read TypeExit processExitEvent_fields binary_Read_exit raw with
    | inr err => inr err
    | inl r => inl (set_exit (fromHeader TypeExit (pq_Hdr r) (pq_Comm r) boot)
                      (ExitFromRaw (pq_ExitCode r)))
    end
  else inr (UnknownEventType t).
