(* ===== verification/Wire.v ===== *)
(** * From the BPF programs to decoded events

    The record a BPF program submits is the record [decode] reads: the C and Go
    layouts agree, every program fills every byte the decoder looks at, and the
    decoded event is the one the kernel state describes.  [exec_event],
    [fork_event] and [exit_event] are that specification: they mention neither
    buffers nor offsets. *)

From Stdlib Require Import ZArith Lia.
From Stdlib Require Import String Ascii.
From stdpp Require Import prelude list.
From S2P Require Import Prelude CLayout Archs BpfKernel CoreGraph CommonH ProcessBpf Scenario.
From S2P Require Import GoStd Event Decode.

Local Open Scope string_scope.
Local Open Scope list_scope.
Local Open Scope Z_scope.

(** ** Layout agreement *)

(** bpf2go's naming: [argv_len] becomes [ArgvLen], [_pad] becomes [Pad]. *)
Definition upper (c : ascii) : ascii :=
  let n := nat_of_ascii c in
  if (97 <=? n)%nat && (n <=? 122)%nat then ascii_of_nat (n - 32) else c.

Fixpoint camel (up : bool) (s : string) : string :=
  match s with
  | EmptyString => EmptyString
  | String c s =>
      if Ascii.eqb c "_" then camel true s
      else String (if up then upper c else c) (camel false s)
  end.

(** Name, byte offset and byte size of every member. *)
Definition c_fields (t : ctype) : list (string * Z * Z) :=
  match t with
  | TStruct ms => map (fun p => (camel true (p_name p), p_bit p / 8, p_width p / 8)) (layout_struct ms 0)
  | _ => []
  end.

Fixpoint go_fields (fs : list (string * gotype)) (pos : Z) : list (string * Z * Z) :=
  match fs with
  | [] => []
  | (n, t) :: fs => (n, pos, binary_Size t) :: go_fields fs (pos + binary_Size t)
  end.

Definition same_layout (t : ctype) (fs : list (string * gotype)) : Prop :=
  c_fields t = go_fields fs 0 /\ sizeof t = binary_Size (GoStruct fs).

(** C33: Every member of the C event structs has the offset and size of the bpf2go
    field that mirrors it, and the structs have the same size. *)
Theorem event_layouts_agree :
  same_layout struct_event processEvent_fields /\
  same_layout struct_exec_event processExecEvent_fields /\
  same_layout struct_fork_event processForkEvent_fields /\
  same_layout struct_exit_event processExitEvent_fields.
Proof. repeat split; vm_compute; reflexivity. Qed.

(** ** Reading back a record under construction *)

(** Replace every layout computation in the goal by its value. *)
Ltac compute_layout :=
  unfold store, store_bytes;
  repeat match goal with
  | |- context [offsetof ?t ?p] => let v := eval vm_compute in (offsetof t p) in change (offsetof t p) with v
  | |- context [sizeof ?t] => let v := eval vm_compute in (sizeof t) in change (sizeof t) with v
  | |- context [binary_Size ?t] => let v := eval vm_compute in (binary_Size t) in change (binary_Size t) with v
  | |- context [Z.to_nat (Zpos ?p)] => let v := eval vm_compute in (Z.to_nat (Zpos p)) in change (Z.to_nat (Zpos p)) with v
  | |- context [Z.add 0 (Zpos ?p)] => change (Z.add 0 (Zpos p)) with (Zpos p)
  | |- context [Z.add 0 0] => change (Z.add 0 0) with 0
  end.

Ltac compute_gofield :=
  unfold gofield;
  repeat match goal with
  | |- context [go_offset ?t ?p] => let v := eval vm_compute in (go_offset t p) in change (go_offset t p) with v; cbv iota beta
  end;
  repeat match goal with
  | |- context [Z.add 0 ?p] => rewrite (Z.add_0_l p)
  end.

Lemma splice_sized {A} n off (bs e : list A) :
  zlen e = n -> 0 <= off -> off + zlen bs <= n -> zlen (splice off bs e) = n.
Proof. intros <- ? ?. by apply zlen_splice. Qed.

Lemma load_same {A} n off w (bs e : list A) :
  zlen e = n -> 0 <= off -> off + zlen bs <= n -> w = zlen bs ->
  slice off w (splice off bs e) = bs.
Proof. intros <- ? ? ->. by apply slice_splice_same. Qed.

Lemma load_other {A} n off w off' (bs e : list A) :
  zlen e = n -> 0 <= off -> 0 <= w -> 0 <= off' -> off' + zlen bs <= n ->
  (off + w <= off' \/ off' + zlen bs <= off) ->
  slice off w (splice off' bs e) = slice off w e.
Proof.
  intros <- ? ? ? ? [?|?]; [by apply slice_splice_before|by apply slice_splice_after].
Qed.

(** A C string stored at the start of an array member. *)
Lemma CString_field n off w s (e : list byte) :
  zlen e = n -> 0 <= off -> zlen s < w -> off + w <= n -> (nul ∉ s) ->
  CString (slice off w (splice off (s ++ [nul]) e)) = s.
Proof.
  intros <- ? ? ? Hs. assert (zlen (s ++ [nul]) <= w).
  { rewrite zlen_app. change (zlen [nul]) with 1. lia. }
  rewrite slice_splice_prefix, <- app_assoc by lia. by apply CString_app.
Qed.

(** Side conditions: every store has a known length. *)
Ltac wire_side :=
  rewrite ?zlen_le_bytes; change (zlen [nul]) with 1;
  unfold MAX_FILENAME_LEN, MAX_ARGV_LEN, TASK_COMM_LEN in *; lia.
Ltac sized := first [eassumption | apply splice_sized; [sized | wire_side | wire_side]].

(** Read a field of a record of size [n] back through the stores after it. *)
Ltac load n :=
  repeat first
    [ rewrite (load_same n) by first [wire_side | sized]
    | rewrite (load_other n) by first [wire_side | sized] ].

Lemma u8_bool (b : bool) : u8 (if b then 1 else 0) = if b then 1 else 0.
Proof. by destruct b. Qed.

Lemma negb_flag (b : bool) : negb ((if b then 1 else 0) =? 0) = b.
Proof. by destruct b. Qed.

Section wire.
Context `{Arch} `{HH : !BpfHelpers, HHok : !BpfHelpersOk}.

(** The header expected of [fill_header] for [task], to state what it does. *)
Definition header_of (type task cgroup_id : Z) : processEvent :=
  let parent := core_read "struct task_struct" task [["real_parent"]] in
  {| pe_Type := type;
     pe_Pid := u32 (core_read "struct task_struct" task [["pid"]]);
     pe_Tgid := u32 (core_read "struct task_struct" task [["tgid"]]);
     pe_Ppid := u32 (core_read "struct task_struct" parent [["tgid"]]);
     pe_Uid := u32 (core_read "struct task_struct" task [["cred"]; ["uid"; "val"]]);
     pe_Gid := u32 (core_read "struct task_struct" task [["cred"]; ["gid"; "val"]]);
     pe_Timestamp := bpf_ktime_get_boot_ns;
     pe_CgroupId := u64 cgroup_id;
     pe_StartTime := u64 (core_read "struct task_struct" task [["group_leader"]; ["start_boottime"]]);
     pe_ParentStartTime :=
       u64 (core_read "struct task_struct" parent [["group_leader"]; ["start_boottime"]]) |}.

(** [fill_header] keeps the size, writes a header that [binary.Read] reads back and
    leaves everything after the header alone. *)
Lemma fill_header_spec n type task cgid (e : list byte) :
  zlen e = n -> 56 <= n -> 0 <= type < 2 ^ 32 ->
  let e' := fill_header 0 type task cgid e in
  zlen e' = n /\ binary_Read_event 0 e' = header_of type task cgid.
Proof.
  intros Hn Hn56 Ht. unfold fill_header, header_of. compute_layout. cbv zeta.
  split; [repeat sized|].
  unfold binary_Read_event. compute_gofield. load n.
  rewrite !le_val_u32, !le_val_u64. by rewrite u32_small, u64_small by (done || apply ktime_u64).
Qed.

Lemma fill_header_rest n type task cgid (e : list byte) : zlen e = n -> 56 <= n ->
  slice 56 (n - 56) (fill_header 0 type task cgid e) = slice 56 (n - 56) e.
Proof. intros Hn Hn56. unfold fill_header. compute_layout. cbv zeta. load n. done. Qed.

Lemma read_event_splice n off bs (e : list byte) :
  zlen e = n -> 56 <= off -> off + zlen bs <= n ->
  binary_Read_event 0 (splice off bs e) = binary_Read_event 0 e.
Proof. intros. unfold binary_Read_event. compute_gofield. load n. done. Qed.

Lemma read_str_size n a : 0 <= n -> zlen (bpf_probe_read_kernel_str n a).2 <= n.
Proof.
  intros Hn. destruct (Z.ltb_spec (bpf_probe_read_kernel_str n a).1 0) as [Hf|Hf].
  - rewrite read_str_fault, zlen_zeros by lia. lia.
  - destruct (read_str_ok _ _ Hf) as (s & _ & -> & Hlen).
    rewrite zlen_app. change (zlen [nul]) with 1. lia.
Qed.

(** A string member as the [_str] helper leaves it. *)
Lemma read_str_field n off w a (e : list byte) :
  zlen e = n -> 0 <= off -> 0 < w -> off + w <= n ->
  CString (slice off w (splice off (bpf_probe_read_kernel_str w a).2 e))
  = CString (bpf_probe_read_kernel_str w a).2.
Proof.
  intros Hn Hoff Hw Hb. destruct (Z.ltb_spec (bpf_probe_read_kernel_str w a).1 0) as [Hf|Hf].
  - rewrite read_str_fault by lia. f_equal.
    by apply (load_same n); rewrite ?zlen_zeros by lia.
  - destruct (read_str_ok _ _ Hf) as (s & Hs & -> & Hlen).
    rewrite CString_app by done. by apply (CString_field n).
Qed.

Lemma fromHeader_comm t h c c' boot :
  CString c = CString c' -> fromHeader t h c boot = fromHeader t h c' boot.
Proof. unfold fromHeader. by intros ->. Qed.

(** ** Specifications: the event for the current kernel state *)

(** The path of the new image, from the trace record. *)
Definition exec_path (ctx : tp_ctx) : Z * list byte :=
  bpf_probe_read_kernel_str 512 (u64 (ctx_addr ctx + Z.land (data_loc_filename ctx) 0xFFFF)).

(** Size of the argument area of the new image. *)
Definition argv_size (task : Z) : Z :=
  let arg_start := core_read "struct task_struct" task [["mm"]; ["arg_start"]] in
  let arg_end := core_read "struct task_struct" task [["mm"]; ["arg_end"]] in
  if arg_start <? arg_end then u64 (arg_end - arg_start) else 0.

(** The first 4096 bytes of that area. *)
Definition argv_bytes (task : Z) : Z * list byte :=
  bpf_probe_read_user (Z.min (argv_size task) 4096)
    (core_read "struct task_struct" task [["mm"]; ["arg_start"]]).

Definition exec_event (ctx : tp_ctx) (boot : Z) : Event :=
  let task := bpf_get_current_task_btf in
  let argv_failed := (argv_bytes task).1 <? 0 in
  set_exec_fields
    (fromHeader TypeExec (header_of EVENT_EXEC task (task_cgroup_id task))
       (bpf_get_current_comm 16) boot)
    (if (exec_path ctx).1 <? 0 then [] else CString (exec_path ctx).2)
    (if argv_failed then [] else SplitArgv (argv_bytes task).2)
    (512 <? Z.shiftr (data_loc_filename ctx) 16)
    (4096 <? argv_size task)
    argv_failed.

Definition fork_event (child boot : Z) : Event :=
  let comm := core_read_str_into 16 "struct task_struct" child ["comm"] in
  fromHeader TypeFork (header_of EVENT_FORK child (task_cgroup_id child)) comm.2 boot.

Definition exit_event (boot : Z) : Event :=
  let task := bpf_get_current_task_btf in
  set_exit
    (fromHeader TypeExit (header_of EVENT_EXIT task (task_cgroup_id task))
       (bpf_get_current_comm 16) boot)
    (ExitFromRaw (u32 (core_read "struct task_struct" task [["exit_code"]]))).

(** ** The parts of [handle_exec] *)

Lemma exec_filename_spec ctx (e : list byte) :
  zlen e = 4688 ->
  let e' := exec_filename ctx e in
  zlen e' = 4688 /\
  binary_Read_event 0 e' = binary_Read_event 0 e /\
  slice 56 16 e' = slice 56 16 e /\
  CString (slice 72 512 e') = (if (exec_path ctx).1 <? 0 then [] else CString (exec_path ctx).2) /\
  le_val (slice 590 1 e') = (if 512 <? Z.shiftr (data_loc_filename ctx) 16 then 1 else 0).
Proof.
  intros Hn. unfold exec_filename. compute_layout. fold (exec_path ctx).
  assert (Hw : zlen (exec_path ctx).2 <= 512).
  { apply read_str_size. lia. }
  destruct (Z.ltb_spec (exec_path ctx).1 0) as [Hf|Hf].
  - split_and!; [repeat sized|..].
    + by rewrite !(read_event_splice 4688) by first [wire_side | sized].
    + load 4688. done.
    + apply (CString_field 4688 _ _ []); first [wire_side | sized | set_solver].
    + load 4688. by rewrite le_val_u8, u8_bool.
  - split_and!; [repeat sized|..].
    + by rewrite !(read_event_splice 4688) by first [wire_side | sized].
    + load 4688. done.
    + destruct (read_str_ok _ _ Hf) as (s & Hs & Heq & Hlen). fold (exec_path ctx) in Heq.
      rewrite Heq in *. rewrite CString_app by done.
      apply (CString_field 4688); first [wire_side | sized | done].
    + load 4688. by rewrite le_val_u8, u8_bool.
Qed.

Lemma argv_size_range task : 0 <= argv_size task.
Proof. unfold argv_size. case_match; [apply u64_range|lia]. Qed.

Lemma land_argv_mask len : 0 <= len < 4096 -> Z.land len (MAX_ARGV_LEN - 1) = len.
Proof.
  intros Hl. change (MAX_ARGV_LEN - 1) with (Z.ones 12). rewrite Z.land_ones by lia.
  apply Z.mod_small. lia.
Qed.

(** Close the reading goals of [exec_argv_spec] in one branch. *)
Ltac exec_fields :=
  destruct ((argv_bytes _).1 <? 0) eqn:Hf; (compute_layout; split_and!;
  [ repeat sized
  | by rewrite !(read_event_splice 4688) by first [wire_side | sized]
  | load 4688; done
  | load 4688; done
  | load 4688; done
  | load 4688; rewrite le_val_u32, u32_small; unfold MAX_ARGV_LEN; lia
  | load 4688; rewrite le_val_u8, ?u8_bool; try done; by rewrite (proj2 (Z.ltb_ge _ _)) by lia
  | load 4688; by rewrite le_val_u8
  | try done; intros _; rewrite slice_slice by lia; load 4688; done ]).

Lemma exec_argv_spec task (e : list byte) :
  zlen e = 4688 ->
  let e' := exec_argv task e in
  let failed := (argv_bytes task).1 <? 0 in
  zlen e' = 4688 /\
  binary_Read_event 0 e' = binary_Read_event 0 e /\
  slice 56 16 e' = slice 56 16 e /\
  slice 72 512 e' = slice 72 512 e /\
  slice 590 1 e' = slice 590 1 e /\
  le_val (slice 584 4 e') = (if failed then 0 else Z.min (argv_size task) 4096) /\
  le_val (slice 588 1 e') = (if 4096 <? argv_size task then 1 else 0) /\
  le_val (slice 589 1 e') = (if failed then 1 else 0) /\
  (failed = false -> slice 0 (Z.min (argv_size task) 4096) (slice 592 4096 e') = (argv_bytes task).2).
Proof.
  intros Hn. unfold exec_argv, exec_read_argv. fold (argv_size task). cbv zeta. cbn [fst snd].
  pose proof (argv_size_range task) as Hr.
  pose proof (read_user_size (Z.min (argv_size task) 4096)
    (core_read "struct task_struct" task [["mm"]; ["arg_start"]]) ltac:(lia)) as Hsz.
  fold (argv_bytes task) in Hsz.
  assert (Hok : ((argv_bytes task).1 <? 0) = false ->
                zlen (argv_bytes task).2 = Z.min (argv_size task) 4096).
  { intros Hf. apply read_user_ok; [lia|]. unfold argv_bytes in Hf. lia. }
  destruct (Z.leb_spec MAX_ARGV_LEN (argv_size task)) as [Hl|Hl]; unfold MAX_ARGV_LEN in Hl.
  - replace (bpf_probe_read_user _ _) with (argv_bytes task)
      by (unfold argv_bytes; f_equal; unfold MAX_ARGV_LEN; lia).
    exec_fields.
  - rewrite land_argv_mask by lia.
    replace (bpf_probe_read_user _ _) with (argv_bytes task)
      by (unfold argv_bytes; f_equal; lia).
    exec_fields.
Qed.

(** ** Decoding a record of the right size *)

Lemma decode_exec_record r boot :
  zlen r = 4688 -> pe_Type (binary_Read_event 0 r) = 1 ->
  decode r boot = inl (set_exec_fields
    (fromHeader TypeExec (binary_Read_event 0 r) (slice 56 16 r) boot)
    (CString (slice 72 512 r))
    (SplitArgv (slice 0 (Z.min (le_val (slice 584 4 r)) 4096) (slice 592 4096 r)))
    (negb (le_val (slice 590 1 r) =? 0)) (negb (le_val (slice 588 1 r) =? 0))
    (negb (le_val (slice 589 1 r) =? 0))).
Proof.
  intros Hn Ht. unfold decode, read. rewrite Hn.
  change (le_val (slice 0 4 r)) with (pe_Type (binary_Read_event 0 r)). rewrite Ht. simpl.
  unfold binary_Read_exec. simpl px_Argv. compute_gofield. by rewrite zlen_slice by lia.
Qed.

Lemma decode_fork_record r boot :
  zlen r = 72 -> pe_Type (binary_Read_event 0 r) = 2 ->
  decode r boot = inl (fromHeader TypeFork (binary_Read_event 0 r) (slice 56 16 r) boot).
Proof.
  intros Hn Ht. unfold decode, read. rewrite Hn.
  change (le_val (slice 0 4 r)) with (pe_Type (binary_Read_event 0 r)). by rewrite Ht.
Qed.

Lemma decode_exit_record r boot :
  zlen r = 80 -> pe_Type (binary_Read_event 0 r) = 3 ->
  decode r boot = inl (set_exit
    (fromHeader TypeExit (binary_Read_event 0 r) (slice 56 16 r) boot)
    (ExitFromRaw (le_val (slice 72 4 r)))).
Proof.
  intros Hn Ht. unfold decode, read. rewrite Hn.
  change (le_val (slice 0 4 r)) with (pe_Type (binary_Read_event 0 r)). by rewrite Ht.
Qed.

(** ** The programs *)

Context {K : Type} `{HM : !BpfMaps K, HMok : !BpfMapsOk K}.
Variable mode_host : bool.

(** What the programs write decodes to the event, whatever the memory held. *)
Lemma exec_record_decodes ctx e boot : zlen e = sizeof struct_exec_event ->
  decode (exec_record ctx bpf_get_current_task_btf (task_cgroup_id bpf_get_current_task_btf) e) boot = inl (exec_event ctx boot).
Proof.
  intros Hn. unfold exec_record.
  change (sizeof struct_exec_event) with 4688 in Hn.
  change (offsetof struct_exec_event ["hdr"]) with 0.
  pose proof (fill_header_spec 4688 EVENT_EXEC bpf_get_current_task_btf
    (task_cgroup_id bpf_get_current_task_btf) e Hn ltac:(lia) ltac:(unfold EVENT_EXEC; lia)) as [H1 H2].
  set (e1 := fill_header _ _ _ _ _) in *.
  pose proof (comm_size 16 ltac:(lia)) as Hcomm.
  set (e2 := store_bytes _ _ ["comm"] _ e1).
  assert (He2 : zlen e2 = 4688) by (subst e2; compute_layout; repeat sized).
  destruct (exec_filename_spec ctx e2 He2) as (Hf1 & Hf2 & Hf3 & Hf4 & Hf5).
  destruct (exec_argv_spec bpf_get_current_task_btf _ Hf1) as
    (Ha1 & Ha2 & Ha3 & Ha4 & Ha5 & Ha6 & Ha7 & Ha8 & Ha9).
  assert (Hh : binary_Read_event 0 (exec_argv bpf_get_current_task_btf (exec_filename ctx e2))
    = header_of EVENT_EXEC bpf_get_current_task_btf (task_cgroup_id bpf_get_current_task_btf)).
  { rewrite Ha2, Hf2, <- H2. subst e2. compute_layout.
    by rewrite (read_event_splice 4688) by wire_side. }
  assert (Hc2 : slice 56 16 e2 = bpf_get_current_comm 16)
    by (subst e2; compute_layout; load 4688; done).
  clearbody e2. set (r := exec_argv _ _) in *. clearbody r.
  rewrite decode_exec_record by (try apply Ha1; by rewrite Hh).
  rewrite Hh, Ha3, Hf3, Hc2, Ha4, Hf4, Ha5, Hf5, Ha6, Ha7, Ha8, !negb_flag.
  unfold exec_event. do 2 f_equal. clear - Ha9.
  destruct ((argv_bytes _).1 <? 0); [done|].
  rewrite Z.min_l by lia. by rewrite Ha9.
Qed.

Lemma fork_record_decodes `{!ArchOk} child e boot : zlen e = sizeof struct_fork_event ->
  core_read "struct task_struct" child [["pid"]] = core_read "struct task_struct" child [["tgid"]] ->
  decode (fork_record child (task_cgroup_id child) e) boot = inl (fork_event child boot).
Proof.
  intros Hn Hpid. unfold fork_record.
  change (sizeof struct_fork_event) with 72 in Hn.
  change (offsetof struct_fork_event ["hdr"]) with 0.
  pose proof (fill_header_spec 72 EVENT_FORK child (task_cgroup_id child) e Hn ltac:(lia)
    ltac:(unfold EVENT_FORK; lia)) as [H1 H2].
  set (e1 := fill_header _ _ _ _ _) in *. clearbody e1. compute_layout.
  unfold fork_event, core_read_str_into.
  destruct (arch_field "struct task_struct" ["comm"] 16) as (o & t & -> & _); [by repeat (left + right)|].
  cbn [fst]. set (a := u64 (child + o)).
  pose proof (read_str_size 16 a ltac:(lia)) as Hsz.
  rewrite decode_fork_record; rewrite ?(read_event_splice 72), ?H2 by wire_side; try done.
  { f_equal. apply fromHeader_comm. by apply (read_str_field 72). }
  { repeat sized. }
Qed.

Lemma exit_record_decodes e boot : zlen e = sizeof struct_exit_event ->
  decode (exit_record bpf_get_current_task_btf (task_cgroup_id bpf_get_current_task_btf) e) boot = inl (exit_event boot).
Proof.
  intros Hn. unfold exit_record.
  change (sizeof struct_exit_event) with 80 in Hn.
  change (offsetof struct_exit_event ["hdr"]) with 0.
  pose proof (fill_header_spec 80 EVENT_EXIT bpf_get_current_task_btf
    (task_cgroup_id bpf_get_current_task_btf) e Hn ltac:(lia) ltac:(unfold EVENT_EXIT; lia)) as [H1 H2].
  set (e1 := fill_header _ _ _ _ _) in *. clearbody e1.
  pose proof (comm_size 16 ltac:(lia)) as Hcomm. compute_layout.
  rewrite decode_exit_record; rewrite ?(read_event_splice 80), ?H2
    by first [wire_side | sized]; try done; [|repeat sized].
  load 80. rewrite le_val_u32. done.
Qed.

(** The program submitted one record, which decodes to the event. *)
Definition submits (out : Z * K) (k' : K) (ev : Z -> Event) : Prop :=
  exists r, out = (0, ringbuf_submit k' r) /\ forall boot, decode r boot = inl (ev boot).

Lemma exec_submits ctx k k' e :
  should_capture mode_host (task_cgroup_id bpf_get_current_task_btf) k = true ->
  ringbuf_reserve k (sizeof struct_exec_event) = (Some e, k') ->
  submits (handle_exec mode_host ctx k) k' (exec_event ctx).
Proof.
  intros Hc Hr. unfold handle_exec. rewrite Hc, Hr. eexists. split; [reflexivity|intros boot].
  by apply exec_record_decodes, (reserve_size _ _ _ _ Hr).
Qed.

Lemma fork_submits `{!ArchOk} parent child k k' e :
  core_read "struct task_struct" child [["pid"]] = core_read "struct task_struct" child [["tgid"]] ->
  should_capture mode_host (task_cgroup_id child) k = true ->
  ringbuf_reserve k (sizeof struct_fork_event) = (Some e, k') ->
  submits (handle_fork mode_host parent child k) k' (fork_event child).
Proof.
  intros Hpid Hc Hr. unfold handle_fork. rewrite Hpid, Z.eqb_refl, Hc, Hr. eexists. split; [reflexivity|intros boot].
  by apply fork_record_decodes; [apply (reserve_size _ _ _ _ Hr)|].
Qed.

Lemma exit_submits ctx k k' e :
  core_read "struct task_struct" bpf_get_current_task_btf [["signal"]; ["live"; "counter"]] = 0 ->
  should_capture mode_host (task_cgroup_id bpf_get_current_task_btf) k = true ->
  ringbuf_reserve k (sizeof struct_exit_event) = (Some e, k') ->
  submits (handle_exit mode_host ctx k) k' exit_event.
Proof.
  intros Hlive Hc Hr. unfold handle_exit. rewrite Hlive, Hc, Hr. eexists. split; [reflexivity|intros boot].
  by apply exit_record_decodes, (reserve_size _ _ _ _ Hr).
Qed.

(** C3: [handle_exec] on every branch: outside the capture scope it changes nothing;
    without ring buffer space it counts a drop; otherwise it submits one record,
    whatever the reserved memory held before, and the record decodes to the event
    of the current kernel state. *)
Theorem handle_exec_decodes ctx k :
  if should_capture mode_host (task_cgroup_id bpf_get_current_task_btf) k then
    match ringbuf_reserve k (sizeof struct_exec_event) with
    | (None, k') => handle_exec mode_host ctx k = (0, count_drop DROP_RINGBUF_FULL k')
    | (Some _, k') => submits (handle_exec mode_host ctx k) k' (exec_event ctx)
    end
  else handle_exec mode_host ctx k = (0, k).
Proof.
  destruct (should_capture _ _ k) eqn:C; [|unfold handle_exec; by rewrite C].
  destruct (ringbuf_reserve k _) as [[e|] k'] eqn:R; [by eapply exec_submits|].
  unfold handle_exec. by rewrite C, R.
Qed.

(** C29: [handle_fork] on every branch: the creation of a thread is not reported; a new
    process is dropped, counted or submitted as an exec is, and its record decodes
    to the child's event. *)
Theorem handle_fork_decodes `{!ArchOk} parent child k :
  if (core_read "struct task_struct" child [["pid"]] =? core_read "struct task_struct" child [["tgid"]])
     && should_capture mode_host (task_cgroup_id child) k then
    match ringbuf_reserve k (sizeof struct_fork_event) with
    | (None, k') => handle_fork mode_host parent child k = (0, count_drop DROP_RINGBUF_FULL k')
    | (Some _, k') => submits (handle_fork mode_host parent child k) k' (fork_event child)
    end
  else handle_fork mode_host parent child k = (0, k).
Proof.
  destruct (core_read "struct task_struct" child [["pid"]] =? _) eqn:P; cbn [andb];
    [|unfold handle_fork; by rewrite P].
  destruct (should_capture _ _ k) eqn:C; [|unfold handle_fork; by rewrite P, C].
  destruct (ringbuf_reserve k _) as [[e|] k'] eqn:R;
    [by eapply fork_submits; [apply Z.eqb_eq | |]|].
  unfold handle_fork. by rewrite P, C, R.
Qed.

(** C30: [handle_exit] on every branch: only the exit of the last thread of a process is
    reported, and its record decodes to the exit event with status and signal. *)
Theorem handle_exit_decodes ctx k :
  if (core_read "struct task_struct" bpf_get_current_task_btf [["signal"]; ["live"; "counter"]] =? 0)
     && should_capture mode_host (task_cgroup_id bpf_get_current_task_btf) k then
    match ringbuf_reserve k (sizeof struct_exit_event) with
    | (None, k') => handle_exit mode_host ctx k = (0, count_drop DROP_RINGBUF_FULL k')
    | (Some _, k') => submits (handle_exit mode_host ctx k) k' exit_event
    end
  else handle_exit mode_host ctx k = (0, k).
Proof.
  destruct (core_read "struct task_struct" _ _ =? 0) eqn:P; cbn [andb];
    [|unfold handle_exit; by rewrite P].
  destruct (should_capture _ _ k) eqn:C; [|unfold handle_exit; by rewrite P, C].
  destruct (ringbuf_reserve k _) as [[e|] k'] eqn:R;
    [by eapply exit_submits; [apply Z.eqb_eq | |]|].
  unfold handle_exit. by rewrite P, C, R.
Qed.
End wire.

(** ** The header against the object graph

    What the header of a task is, read off the kernel's objects. *)
Definition graph_header (g : graph) (now type task : Z) : option processEvent :=
  parent ← graph_read g "struct task_struct" task [["real_parent"]];
  pid ← graph_read g "struct task_struct" task [["pid"]];
  tgid ← graph_read g "struct task_struct" task [["tgid"]];
  ppid ← graph_read g "struct task_struct" parent [["tgid"]];
  uid ← graph_read g "struct task_struct" task [["cred"]; ["uid"; "val"]];
  gid ← graph_read g "struct task_struct" task [["cred"]; ["gid"; "val"]];
  cgid ← graph_read g "struct task_struct" task [["cgroups"]; ["dfl_cgrp"]; ["kn"]; ["id"]];
  start ← graph_read g "struct task_struct" task [["group_leader"]; ["start_boottime"]];
  pstart ← graph_read g "struct task_struct" parent [["group_leader"]; ["start_boottime"]];
  Some {| pe_Type := type; pe_Pid := u32 pid; pe_Tgid := u32 tgid; pe_Ppid := u32 ppid;
          pe_Uid := u32 uid; pe_Gid := u32 gid; pe_Timestamp := now; pe_CgroupId := u64 cgid;
          pe_StartTime := u64 start; pe_ParentStartTime := u64 pstart |}.

(** The expected header is the one the object graph gives. *)
Lemma header_of_graph `{Arch, !ArchOk, HH : !BpfHelpers} g type task h :
  represents g = true ->
  graph_header g bpf_ktime_get_boot_ns type task = Some h ->
  header_of type task (task_cgroup_id task) = h.
Proof.
  intros Hrep Hg. unfold graph_header in Hg.
  repeat match type of Hg with
  | _ ≫= _ = Some _ => let Hread := fresh "Hread" in
                        apply bind_Some in Hg as (? & Hread & Hg);
                        apply (core_read_graph g _ _ _ _ Hrep) in Hread
  end.
  injection Hg as <-. unfold header_of, task_cgroup_id. subst. reflexivity.
Qed.

(** C13: [fill_header] on a record of any contents: it leaves the size and the bytes after
    the header alone, and what the decoder reads of the header then is what the
    object graph gives: the thread and process ids, the parent's process id, the
    credentials, the cgroup and the start times of the two thread-group leaders,
    each in its own member.  The kernel's layout is any one of [Arch]: the CO-RE
    reads find the graph's members where that layout has them. *)
Theorem fill_header_graph `{Arch, !ArchOk, HH : !BpfHelpers, HHok : !BpfHelpersOk} g type task h (e : list byte) :
  represents g = true ->
  graph_header g bpf_ktime_get_boot_ns type task = Some h ->
  56 <= zlen e -> 0 <= type < 2 ^ 32 ->
  let e' := fill_header 0 type task (task_cgroup_id task) e in
  zlen e' = zlen e /\ binary_Read_event 0 e' = h /\
  slice 56 (zlen e - 56) e' = slice 56 (zlen e - 56) e.
Proof.
  intros Hrep Hg Hn Ht. cbv zeta.
  destruct (fill_header_spec (zlen e) type task (task_cgroup_id task) e eq_refl Hn Ht) as [Z1 Hh].
  split; [exact Z1|]. rewrite Hh. split; [by eapply header_of_graph | by apply fill_header_rest].
Qed.

(** ** The hypotheses hold of a concrete kernel *)

Lemma handle_exec_decodes_witness :
  @submits _ _ (@handle_exec amd64 (@kernel_helpers amd64) _ _ false exec_ctx kernel0)
    (ringbuf_reserve kernel0 (sizeof struct_exec_event)).2 (@exec_event amd64 (@kernel_helpers amd64) exec_ctx).
Proof.
  pose proof (@handle_exec_decodes amd64 (@kernel_helpers amd64) (@kernel_helpers_ok amd64)
                Model.kstate _ _ false exec_ctx kernel0) as H.
  assert (C : @should_capture _ _ false (@task_cgroup_id amd64 (@kernel_helpers amd64) (@bpf_get_current_task_btf (@kernel_helpers amd64))) kernel0 = true) by (vm_compute; reflexivity).
  rewrite C in H. destruct (ringbuf_reserve kernel0 (sizeof struct_exec_event)) as [[e|] k'] eqn:R; [exact H|].
  vm_compute in R. discriminate R.
Defined.

Lemma handle_fork_decodes_witness :
  @submits _ _ (@handle_fork arm64 (@kernel_helpers arm64) _ _ false parent_a task_a kernel0)
    (ringbuf_reserve kernel0 (sizeof struct_fork_event)).2 (@fork_event arm64 (@kernel_helpers arm64) task_a).
Proof.
  pose proof (@handle_fork_decodes arm64 (@kernel_helpers arm64) (@kernel_helpers_ok arm64)
                Model.kstate _ _ false _ parent_a task_a kernel0) as H.
  assert (C : (@core_read arm64 (@kernel_helpers arm64) "struct task_struct" task_a [["pid"]] =?
       @core_read arm64 (@kernel_helpers arm64) "struct task_struct" task_a [["tgid"]])
      && @should_capture _ _ false (@task_cgroup_id arm64 (@kernel_helpers arm64) task_a) kernel0 = true) by (vm_compute; reflexivity).
  rewrite C in H. destruct (ringbuf_reserve kernel0 (sizeof struct_fork_event)) as [[e|] k'] eqn:R; [exact H|].
  vm_compute in R. discriminate R.
Defined.

Lemma handle_exit_decodes_witness :
  @submits _ _ (@handle_exit amd64 (@kernel_helpers amd64) _ _ false ctx_a kernel0)
    (ringbuf_reserve kernel0 (sizeof struct_exit_event)).2 (@exit_event amd64 (@kernel_helpers amd64)).
Proof.
  pose proof (@handle_exit_decodes amd64 (@kernel_helpers amd64) (@kernel_helpers_ok amd64)
                Model.kstate _ _ false ctx_a kernel0) as H.
  assert (C : (@core_read amd64 (@kernel_helpers amd64) "struct task_struct"
        (@bpf_get_current_task_btf (@kernel_helpers amd64)) [["signal"]; ["live"; "counter"]] =? 0)
      && @should_capture _ _ false (@task_cgroup_id amd64 (@kernel_helpers amd64)
           (@bpf_get_current_task_btf (@kernel_helpers amd64))) kernel0 = true) by (vm_compute; reflexivity).
  rewrite C in H. destruct (ringbuf_reserve kernel0 (sizeof struct_exit_event)) as [[e|] k'] eqn:R; [exact H|].
  vm_compute in R. discriminate R.
Defined.

Definition scenario_header (type : Z) : processEvent :=
  mkProcessEvent type 4242 4242 1200 1000 100 5000000000 8123 4999000000 1000000000.

Lemma fill_header_graph_witness :
  let e := replicate 80 Byte.xff in
  let e' := @fill_header arm64 (@kernel_helpers arm64) 0 2 task_a (@task_cgroup_id arm64 (@kernel_helpers arm64) task_a) e in
  zlen e' = 80 /\ binary_Read_event 0 e' = scenario_header 2 /\ slice 56 24 e' = slice 56 24 e.
Proof.
  apply (@fill_header_graph arm64 _ (@kernel_helpers arm64) (@kernel_helpers_ok arm64) objects);
    [vm_compute; reflexivity | vm_compute; reflexivity | vm_compute; discriminate | split; [discriminate | reflexivity]].
Defined.

(** ** What the decoder accepts *)

(** The size the BPF side gives a record of each type. *)
Definition record_size (type : Z) : option Z :=
  if type =? EVENT_EXEC then Some (sizeof struct_exec_event)
  else if type =? EVENT_FORK then Some (sizeof struct_fork_event)
  else if type =? EVENT_EXIT then Some (sizeof struct_exit_event)
  else None.

Lemma record_sizes :
  sizeof struct_exec_event = binary_Size (GoStruct processExecEvent_fields) /\
  sizeof struct_fork_event = binary_Size (GoStruct processForkEvent_fields) /\
  sizeof struct_exit_event = binary_Size (GoStruct processExitEvent_fields).
Proof. vm_compute. repeat split. Qed.

(** C25: [decode] is total and accepts exactly the records whose type the BPF side
    has and whose length is the size of that type's C struct; every other record
    gets the error that names what is wrong with it. *)
Theorem decode_accepts raw boot :
  match decode raw boot with
  | inl ev =>
      4 <= zlen raw /\ record_size (le_val (slice 0 4 raw)) = Some (zlen raw) /\
      Event_TimestampNs ev = pe_Timestamp (binary_Read_event 0 raw)
  | inr (RecordTooShort got) => got = zlen raw /\ zlen raw < 4
  | inr (WrongSize _ got want) =>
      got = zlen raw /\ got ≠ want /\ record_size (le_val (slice 0 4 raw)) = Some want
  | inr (UnknownEventType t) => t = le_val (slice 0 4 raw) /\ record_size t = None
  end.
Proof.
  pose proof record_sizes as (Hx & Hf & Hq).
  unfold decode, read, record_size. rewrite Hx, Hf, Hq.
  generalize (binary_Size (GoStruct processExecEvent_fields))
    (binary_Size (GoStruct processForkEvent_fields)) (binary_Size (GoStruct processExitEvent_fields)).
  intros wx wf wq. clear Hx Hf Hq.
  destruct (Z.ltb_spec (zlen raw) 4); [split; [reflexivity | assumption]|]. cbv zeta.
  generalize (le_val (slice 0 4 raw)). intros t.
  change processEventTypeEVENT_EXEC with EVENT_EXEC. change processEventTypeEVENT_FORK with EVENT_FORK.
  change processEventTypeEVENT_EXIT with EVENT_EXIT.
  destruct (t =? EVENT_EXEC) eqn:E1; [|destruct (t =? EVENT_FORK) eqn:E2; [|destruct (t =? EVENT_EXIT) eqn:E3]].
  4:{ split; [reflexivity|]. rewrite E1, E2, E3. reflexivity. }
  - destruct (Z.eqb_spec (zlen raw) wx) as [<-|L]; cbn [negb]; split_and!; auto; reflexivity.
  - destruct (Z.eqb_spec (zlen raw) wf) as [<-|L]; cbn [negb]; split_and!; auto; reflexivity.
  - destruct (Z.eqb_spec (zlen raw) wq) as [<-|L]; cbn [negb]; split_and!; auto; reflexivity.
Qed.
