(* ===== verification/Layout.v ===== *)
(** * The one read of variable size

    [handle_exec] reads the arguments of the new image from user memory, as many
    bytes as the process says it has.  Here: never more than the record has room for. *)

From Stdlib Require Import ZArith Lia.
From Stdlib Require Import String.
From stdpp Require Import prelude list.
From S2P Require Import Prelude CLayout Archs BpfKernel CommonH ProcessBpf Scenario.

Local Open Scope string_scope.
Local Open Scope list_scope.
Local Open Scope Z_scope.

(** The helpers of [h] with another [bpf_probe_read_user]. *)
Definition with_read_user (h : BpfHelpers) (u : Z -> Z -> Z * list Byte.byte) : BpfHelpers := {|
  bpf_get_current_task_btf := @bpf_get_current_task_btf h;
  bpf_ktime_get_boot_ns := @bpf_ktime_get_boot_ns h;
  bpf_get_current_comm := @bpf_get_current_comm h;
  bpf_probe_read_kernel := @bpf_probe_read_kernel h;
  bpf_probe_read_kernel_str := @bpf_probe_read_kernel_str h;
  bpf_probe_read_user := u;
|}.

(** C24: [handle_exec] never asks [bpf_probe_read_user] for more bytes than the argument
    array holds, nor for a negative number, whatever [arg_start] and [arg_end] the
    process has: its effect does not depend on what the helper would do then. *)
Theorem exec_reads_bounded `{Arch} {K} `{BpfMaps K} mode_host (h : BpfHelpers) u ctx (k : K) :
  (forall n a, 0 <= n <= MAX_ARGV_LEN -> u n a = @bpf_probe_read_user h n a) ->
  @handle_exec _ (with_read_user h u) K _ mode_host ctx k = @handle_exec _ h K _ mode_host ctx k.
Proof.
  intros U.
  assert (A : forall task e, @exec_argv _ (with_read_user h u) task e = @exec_argv _ h task e).
  { intros task e. unfold exec_argv, exec_read_argv.
    change (@core_read _ (with_read_user h u)) with (@core_read _ h).
    change (@bpf_probe_read_user (with_read_user h u)) with u.
    set (s := core_read _ task [["mm"]; ["arg_start"]]). set (f := core_read _ task [["mm"]; ["arg_end"]]).
    set (len := if s <? f then _ else _).
    assert (L : 0 <= len) by (subst len; case_match; [apply u64_range | lia]).
    rewrite (U MAX_ARGV_LEN) by (unfold MAX_ARGV_LEN; lia).
    destruct (MAX_ARGV_LEN <=? len) eqn:E; [done|].
    rewrite U; [done|]. unfold MAX_ARGV_LEN in *. change (4096 - 1) with (Z.ones 12).
    rewrite Z.land_ones by lia. pose proof (Z.mod_pos_bound len (2 ^ 12)). lia. }
  unfold handle_exec, exec_record. change (@bpf_get_current_task_btf (with_read_user h u)) with (@bpf_get_current_task_btf h).
  change (@task_cgroup_id _ (with_read_user h u)) with (@task_cgroup_id _ h).
  destruct (negb _); [done|]. destruct (ringbuf_reserve k _) as [[e|] k']; [|done].
  by rewrite A.
Qed.

(** A helper that would overrun the array if it were asked to. *)
Definition wild `{Arch} (n a : Z) : Z * list Byte.byte :=
  if n <=? MAX_ARGV_LEN then @bpf_probe_read_user kernel_helpers n a else (0, zeros (2 * n)).

Lemma exec_reads_bounded_witness :
  @handle_exec amd64 (with_read_user (@kernel_helpers amd64) (@wild amd64)) Model.kstate _ false exec_ctx kernel0
  = @handle_exec amd64 (@kernel_helpers amd64) Model.kstate _ false exec_ctx kernel0.
Proof.
  apply (@exec_reads_bounded amd64). intros n a [_ L]. unfold wild. by rewrite (proj2 (Z.leb_le _ _) L).
Defined.
