(* ===== verification/BpfRun.v ===== *)
(** * Runs of the BPF programs

    A run is a sequence of tracepoint hits, each with what the kernel shows the
    program at that moment, applied to one kernel state.  The theorems account
    for every hit: it is outside the capture scope, or counted as a drop, or
    submitted as a record that decodes to the hit's event, in order. *)

From Stdlib Require Import ZArith Lia.
From Stdlib Require Import String.
From stdpp Require Import prelude list.
From S2P Require Import Prelude CLayout Archs BpfKernel CommonH ProcessBpf Scenario Event Decode Wire.

Local Open Scope string_scope.
Local Open Scope list_scope.
Local Open Scope Z_scope.

(** A hit of one of the three tracepoints. *)
Inductive hook :=
| ExecHook (h : BpfHelpers) (ctx : tp_ctx)
| ForkHook (h : BpfHelpers) (parent child : Z)
| ExitHook (h : BpfHelpers) (ctx : Z).

Definition hook_helpers (x : hook) : BpfHelpers :=
  match x with ExecHook h _ | ForkHook h _ _ | ExitHook h _ => h end.

Section run.
Context `{Arch, !ArchOk} {K : Type} `{HM : !BpfMaps K, HMok : !BpfMapsOk K}.
Variable mode_host : bool.

(** The attached program runs. *)
Definition fire (x : hook) (k : K) : Z * K :=
  match x with
  | ExecHook h ctx => handle_exec mode_host ctx k
  | ForkHook h parent child => handle_fork mode_host parent child k
  | ExitHook h ctx => handle_exit mode_host ctx k
  end.

Definition run (xs : list hook) (k : K) : K := fold_left (fun k x => (fire x k).2) xs k.

(** Whether the hit is one the sensor reports: a process (not a thread) in a
    captured cgroup. *)
Definition reported (k : K) (x : hook) : bool :=
  match x with
  | ExecHook h _ => should_capture mode_host (task_cgroup_id bpf_get_current_task_btf) k
  | ForkHook h _ child =>
      (core_read "struct task_struct" child [["pid"]] =?
       core_read "struct task_struct" child [["tgid"]])
      && should_capture mode_host (task_cgroup_id child) k
  | ExitHook h _ =>
      (core_read "struct task_struct" bpf_get_current_task_btf [["signal"]; ["live"; "counter"]] =? 0)
      && should_capture mode_host (task_cgroup_id bpf_get_current_task_btf) k
  end.

Definition hook_event (x : hook) (boot : Z) : Event :=
  match x with
  | ExecHook h ctx => exec_event ctx boot
  | ForkHook h _ child => fork_event child boot
  | ExitHook h _ => exit_event boot
  end.

Definition record_size (x : hook) : Z :=
  match x with
  | ExecHook _ _ => sizeof struct_exec_event
  | ForkHook _ _ _ => sizeof struct_fork_event
  | ExitHook _ _ => sizeof struct_exit_event
  end.

(** ** One hit *)

Lemma fire_unreported x k : reported k x = false -> fire x k = (0, k).
Proof.
  destruct x as [h ctx|h parent child|h ctx]; cbn [fire reported];
    [unfold handle_exec|unfold handle_fork|unfold handle_exit]; intros Hr.
  - by rewrite Hr.
  - apply andb_false_iff in Hr as [-> |Hr]; [done|]. rewrite Hr. by case_match.
  - apply andb_false_iff in Hr as [-> |Hr]; [done|]. rewrite Hr. by case_match.
Qed.

Lemma fire_dropped x k k' :
  reported k x = true -> ringbuf_reserve k (record_size x) = (None, k') ->
  fire x k = (0, count_drop DROP_RINGBUF_FULL k').
Proof.
  destruct x as [h ctx|h parent child|h ctx]; cbn [fire reported record_size];
    [unfold handle_exec|unfold handle_fork|unfold handle_exit]; intros Hr Hres.
  - by rewrite Hr, Hres.
  - apply andb_prop in Hr as [-> Hr]. by rewrite Hr, Hres.
  - apply andb_prop in Hr as [-> Hr]. by rewrite Hr, Hres.
Qed.

Lemma fire_submitted x k e k' :
  @BpfHelpersOk (hook_helpers x) ->
  reported k x = true -> ringbuf_reserve k (record_size x) = (Some e, k') ->
  exists r, fire x k = (0, ringbuf_submit k' r) /\
            forall boot, decode r boot = inl (hook_event x boot).
Proof.
  intros Hok. destruct x as [h ctx|h parent child|h ctx];
    cbn [fire reported record_size hook_helpers hook_event] in *; intros Hr Hres.
  - by eapply exec_submits.
  - apply andb_prop in Hr as [Hpid%Z.eqb_eq Hr]. by eapply fork_submits.
  - apply andb_prop in Hr as [Hlive%Z.eqb_eq Hr]. by eapply exit_submits.
Qed.

(** The maps after a hit: the targets are never touched; at most one record is
    appended or one drop counted. *)
Lemma fire_target x k id :
  @BpfHelpersOk (hook_helpers x) -> target_lookup (fire x k).2 id = target_lookup k id.
Proof.
  intros Hok. destruct (reported k x) eqn:Hr; [|by rewrite fire_unreported].
  destruct (ringbuf_reserve k (record_size x)) as [[e|] k'] eqn:Hres.
  - destruct (fire_submitted x k e k') as (r & -> & _); [done..|].
    simpl. rewrite submit_target. by pose proof (reserve_target k (record_size x) id) as <-; rewrite Hres.
  - rewrite (fire_dropped x k k') by done. simpl. unfold count_drop.
    pose proof (reserve_target k (record_size x) id) as <-. rewrite Hres.
    case_match; [by rewrite drop_store_target|done].
Qed.

Lemma reported_target k k' x :
  (forall id, target_lookup k' id = target_lookup k id) -> reported k' x = reported k x.
Proof.
  intros Ht. unfold reported, should_capture. destruct x; by rewrite ?Ht.
Qed.

(** One hit, seen from the consumer: nothing; a drop; or the event's record. *)
Lemma fire_effect x k v :
  @BpfHelpersOk (hook_helpers x) -> drop_lookup k 0 = Some v ->
  let k' := (fire x k).2 in
  if reported k x then
    (rb_records k' = rb_records k /\ drop_lookup k' 0 = Some (u64 (v + 1))) \/
    (exists r, rb_records k' = rb_records k ++ [r] /\ drop_lookup k' 0 = Some v /\
               forall boot, decode r boot = inl (hook_event x boot))
  else k' = k.
Proof.
  intros Hok Hv k'. subst k'. destruct (reported k x) eqn:Hr; [|by rewrite fire_unreported].
  pose proof (reserve_records k (record_size x)) as Hrec.
  pose proof (reserve_drop k (record_size x) 0) as Hdrop.
  destruct (ringbuf_reserve k (record_size x)) as [[e|] k'] eqn:Hres; simpl in Hrec, Hdrop.
  - right. destruct (fire_submitted x k e k') as (r & -> & Hd); [done..|].
    exists r. simpl. rewrite submit_records, submit_drop, Hrec, Hdrop. done.
  - left. rewrite (fire_dropped x k k') by done. simpl. unfold count_drop, DROP_RINGBUF_FULL.
    rewrite Hdrop, Hv. rewrite drop_store_records, Hrec. split; [done|].
    eapply drop_store_same. by rewrite Hdrop.
Qed.

(** The effect of a program that reports: with room in the ring buffer, its record is
    appended and decodes to the event of the hit; without, this CPU's drop counter
    is one higher and the records are as they were. *)
Definition dealt (boot : Z) (x : hook) (k k' : K) : Prop :=
  match (ringbuf_reserve k (record_size x)).1 with
  | Some _ => exists r, rb_records k' = rb_records k ++ [r] /\ drop_lookup k' 0 = drop_lookup k 0 /\
                decode r boot = inl (hook_event x boot)
  | None => exists v, drop_lookup k 0 = Some v /\ rb_records k' = rb_records k /\
              drop_lookup k' 0 = Some (u64 (v + 1))
  end.

Lemma fire_dealt boot x k : @BpfHelpersOk (hook_helpers x) ->
  if reported k x then dealt boot x k (fire x k).2 else (fire x k).2 = k.
Proof.
  intros Hok. destruct (reported k x) eqn:Hr; [|by rewrite fire_unreported].
  pose proof (reserve_records k (record_size x)) as Hrec.
  pose proof (reserve_drop k (record_size x) 0) as Hdrop. unfold dealt.
  destruct (ringbuf_reserve k (record_size x)) as [[e|] k'] eqn:Hres; simpl in Hrec, Hdrop |- *.
  - destruct (fire_submitted x k e k') as (r & -> & Hd); [done..|].
    exists r. simpl. rewrite submit_records, submit_drop, Hrec, Hdrop. done.
  - destruct (drop_slot k) as [v Hv]. exists v. split; [done|].
    rewrite (fire_dropped x k k') by done. simpl. unfold count_drop, DROP_RINGBUF_FULL.
    rewrite Hdrop, Hv, drop_store_records, Hrec. split; [done|].
    eapply drop_store_same. by rewrite Hdrop.
Qed.

(** ** Runs *)

(** Every hit the sensor reports is either submitted or counted as dropped, and
    nothing else is: the records of a run are, in order, those of a subsequence
    [ys] of the reported hits, each decoding to its hit's event, and this CPU's
    drop counter advances (modulo 2^64) by the number of hits left out. *)
Theorem run_accounts xs k v :
  Forall (fun x => @BpfHelpersOk (hook_helpers x)) xs ->
  drop_lookup k 0 = Some v -> 0 <= v < 2 ^ 64 ->
  exists ys rs,
    sublist ys (filter (fun x => reported k x = true) xs) /\
    rb_records (run xs k) = rb_records k ++ rs /\
    Forall2 (fun r x => forall boot, decode r boot = inl (hook_event x boot)) rs ys /\
    drop_lookup (run xs k) 0
    = Some (u64 (v + (zlen (filter (fun x => reported k x = true) xs) - zlen ys))).
Proof.
  revert k v. induction xs as [|x xs IH]; intros k v Hok Hv Hrange.
  { exists [], []. rewrite app_nil_r. split_and!; [done|done|constructor|].
    simpl. by rewrite Z.add_0_r, u64_small. }
  apply Forall_cons in Hok as [Hx Hok]. set (k1 := (fire x k).2).
  assert (Hf : filter (fun y => reported k1 y = true) xs = filter (fun y => reported k y = true) xs).
  { apply list_filter_iff. intros y. by rewrite (reported_target k k1) by (intros; by apply fire_target). }
  pose proof (fire_effect x k v Hx Hv) as Heff. cbv zeta in Heff. fold k1 in Heff.
  change (run (x :: xs) k) with (run xs k1). rewrite filter_cons.
  destruct (reported k x) eqn:Hr; [rewrite decide_True by done|rewrite decide_False by done].
  - destruct Heff as [[Hrec Hd]|(r & Hrec & Hd & Hdec)].
    + destruct (IH k1 _ Hok Hd (u64_range _)) as (ys & rs & H1 & H2 & H3 & H4).
      rewrite Hf in *. exists ys, rs. rewrite H2, Hrec. split_and!; [by constructor|done|done|].
      rewrite H4, zlen_cons, u64_add_l. do 2 f_equal. lia.
    + destruct (IH k1 _ Hok Hd Hrange) as (ys & rs & H1 & H2 & H3 & H4).
      rewrite Hf in *. exists (x :: ys), (r :: rs). rewrite H2, Hrec, <- app_assoc.
      split_and!; [by constructor|done|by constructor|].
      rewrite H4, !zlen_cons. do 2 f_equal. lia.
  - rewrite Heff in *. destruct (IH k v Hok Hv Hrange) as (ys & rs & H1 & H2 & H3 & H4).
    exists ys, rs. done.
Qed.
End run.

(** The life of the process of [Scenario], on amd64. *)
Definition life : list hook := [
  ForkHook (@kernel_helpers amd64) parent_a task_a;
  ExecHook (@kernel_helpers amd64) exec_ctx;
  ExitHook (@kernel_helpers amd64) ctx_a].

Lemma run_accounts_witness :
  exists ys rs,
    sublist ys (filter (fun x => @reported amd64 _ _ false kernel0 x = true) life) /\
    rb_records (@run amd64 _ _ false life kernel0) = rb_records kernel0 ++ rs /\
    Forall2 (fun r x => forall boot, decode r boot = inl (@hook_event amd64 x boot)) rs ys /\
    drop_lookup (@run amd64 _ _ false life kernel0) 0
    = Some (u64 (0 + (zlen (filter (fun x => @reported amd64 _ _ false kernel0 x = true) life) - zlen ys))).
Proof.
  apply (@run_accounts amd64 _ Model.kstate _ _ false life kernel0 0); [|reflexivity|lia].
  do 3 (apply Forall_cons; split; [exact (@kernel_helpers_ok amd64)|]). by constructor.
Defined.
