(* ===== verification/GoText.v ===== *)
(** * [strings], [strconv] and [path/filepath], where the sensor uses them

    Executable definitions at the instances the source calls, and the lemmas the
    components share. *)

From Stdlib Require Import ZArith Lia.
From Stdlib Require Import String.
From stdpp Require Import prelude list.
From S2P Require Import Prelude GoStd.

Local Open Scope Z_scope.

(** ** strings *)

(** [strings.CutPrefix] and [strings.HasPrefix]. *)
Fixpoint CutPrefix (s pre : list byte) : option (list byte) :=
  match pre, s with
  | [], _ => Some s
  | p :: pre, x :: s => if decide (x = p) then CutPrefix s pre else None
  | _ :: _, [] => None
  end.

Definition HasPrefix (s pre : list byte) : bool :=
  match CutPrefix s pre with Some _ => true | None => false end.

Definition TrimPrefix (s pre : list byte) : list byte :=
  match CutPrefix s pre with Some r => r | None => s end.

(** [strings.Cut(s, sep)] for a one-byte separator: before, after, found. *)
Definition CutByte (s : list byte) (c : byte) : list byte * list byte * bool :=
  match IndexByte s c with
  | Some i => (slice 0 i s, drop (Z.to_nat (i + 1)) s, true)
  | None => (s, [], false)
  end.

(** The number of bytes of the white space character [s] starts with, 0 if there
    is none: the ASCII ones and the UTF-8 encodings of the others of
    [unicode.IsSpace]. *)
Definition space_len (s : list byte) : nat :=
  match s with
  | (x09 | x0a | x0b | x0c | x0d | x20) :: _ => 1
  | xc2 :: (x85 | xa0) :: _ => 2
  | xe1 :: x9a :: x80 :: _ => 3
  | xe2 :: x80 :: c :: _ =>
      let n := b2z c in
      if (((0x80 <=? n) && (n <=? 0x8a)) || (n =? 0xa8) || (n =? 0xa9) || (n =? 0xaf))%Z then 3 else 0
  | xe2 :: x81 :: x9f :: _ => 3
  | xe3 :: x80 :: x80 :: _ => 3
  | _ => 0
  end%nat.

Definition flush (cur : list byte) : list (list byte) := if decide (cur = []) then [] else [cur].

(** [strings.Fields]; [skip] bytes of a white space character are left, and [cur]
    is the field read so far. *)
Fixpoint Fields_from (skip : nat) (cur : list byte) (s : list byte) : list (list byte) :=
  match s with
  | [] => flush cur
  | x :: s' =>
      match skip with
      | S skip => Fields_from skip cur s'
      | O =>
          match space_len s with
          | O => Fields_from 0 (cur ++ [x]) s'
          | S k => flush cur ++ Fields_from k [] s'
          end
      end
  end.

Definition Fields (s : list byte) : list (list byte) := Fields_from 0 [] s.

(** ** strconv *)

Definition digit (c : byte) : option Z :=
  let n := b2z c - 48 in if (0 <=? n) && (n <=? 9) then Some n else None.

Fixpoint parse_digits (bits n : Z) (s : list byte) : option Z :=
  match s with
  | [] => Some n
  | c :: s =>
      match digit c with
      | Some d => let n := 10 * n + d in if n <? 2 ^ bits then parse_digits bits n s else None
      | None => None
      end
  end.

(** The leading decimal digits. *)
Fixpoint span_digits (s : list byte) : list byte * list byte :=
  match s with
  | [] => ([], [])
  | c :: s' => match digit c with
               | Some _ => let '(ds, r) := span_digits s' in (c :: ds, r)
               | None => ([], s)
               end
  end.

(** [strconv.ParseUint(s, 10, bits)], [None] for a syntax or range error. *)
Definition ParseUint (s : list byte) (bits : Z) : option Z :=
  match s with [] => None | _ => parse_digits bits 0 s end.

Fixpoint format_digits (fuel : nat) (n : Z) (acc : list byte) : list byte :=
  match fuel with
  | O => acc
  | S fuel =>
      let acc := z2b (48 + n mod 10) :: acc in
      if n <? 10 then acc else format_digits fuel (n / 10) acc
  end.

(** [strconv.FormatUint(n, 10)]: at most 20 digits. *)
Definition FormatUint (n : Z) : list byte := format_digits 20 n [].

(** ** path/filepath *)

Definition slash : byte := x2f.
Definition dot : list byte := str ".".
Definition dotdot : list byte := str "..".

(** The elements of a cleaned path, last first. *)
Definition clean_push (rooted : bool) (acc : list (list byte)) (e : list byte) : list (list byte) :=
  if decide (e = [] \/ e = dot) then acc
  else if decide (e = dotdot) then
    match acc with
    | [] => if rooted then [] else [dotdot]
    | top :: rest => if decide (top = dotdot) then dotdot :: acc else rest
    end
  else e :: acc.

(** [filepath.Clean] *)
Definition Clean (p : list byte) : list byte :=
  let rooted := bool_decide (head p = Some slash) in
  let body := join_byte slash (rev (fold_left (clean_push rooted) (SplitByte p slash) [])) in
  if rooted then slash :: body else if decide (body = []) then dot else body.

(** [filepath.Join] *)
Fixpoint Join (es : list (list byte)) : list byte :=
  match es with
  | [] => []
  | e :: rest => if decide (e = []) then Join rest else Clean (join_byte slash es)
  end.

(** [filepath.Dir]: up to the last slash, cleaned. *)
Definition Dir (p : list byte) : list byte :=
  Clean (match LastIndexByte p slash with Some i => slice 0 (i + 1) p | None => [] end).

Fixpoint trim_slashes (p : list byte) : list byte :=
  match p with
  | [] => []
  | c :: p' => match trim_slashes p' with
               | [] => if decide (c = slash) then [] else [c]
               | r => c :: r
               end
  end.

(** [filepath.Base] *)
Definition Base (p : list byte) : list byte :=
  if decide (p = []) then dot else
  let q := trim_slashes p in
  let r := match LastIndexByte q slash with Some i => drop (Z.to_nat (i + 1)) q | None => q end in
  if decide (r = []) then [slash] else r.

(** The documented examples. *)
Example Clean_examples :
  Clean (str "/proc/12/stat") = str "/proc/12/stat" /\ Clean (str "a//b/../c/.") = str "a/c" /\
  Clean (str "/../a") = str "/a" /\ Clean (str "../../x") = str "../../x" /\ Clean [] = str "." /\
  Join [str "/sys/fs/cgroup"; str "/system.slice/docker-0.scope"]
    = str "/sys/fs/cgroup/system.slice/docker-0.scope" /\
  Dir (str "/system.slice/docker-0.scope") = str "/system.slice" /\ Dir (str "x") = str "." /\
  Base (str "/system.slice/docker-0.scope") = str "docker-0.scope" /\ Base (str "/") = str "/" /\
  Fields (str "  S 1  22 ") = [str "S"; str "1"; str "22"] /\
  ParseUint (str "4294967295") 32 = Some 4294967295 /\ ParseUint (str "4294967296") 32 = None /\
  ParseUint (str "12x") 32 = None /\ FormatUint 18446744073709551615 = str "18446744073709551615".
Proof. vm_compute. repeat split; reflexivity. Qed.

(** ** Lemmas *)

Lemma CutPrefix_app pre s : CutPrefix (pre ++ s) pre = Some s.
Proof. induction pre as [|p pre IH]; [by destruct s|]. cbn. by rewrite decide_True. Qed.

Lemma CutPrefix_Some s pre r : CutPrefix s pre = Some r <-> s = pre ++ r.
Proof.
  split; [|intros ->; apply CutPrefix_app].
  revert s. induction pre as [|p pre IH]; intros [|x s]; cbn; try congruence.
  case_decide; [|done]. subst. by intros ->%IH.
Qed.

Lemma HasPrefix_spec s pre : HasPrefix s pre = true <-> exists r, s = pre ++ r.
Proof.
  unfold HasPrefix. destruct (CutPrefix s pre) as [r|] eqn:E.
  - apply CutPrefix_Some in E. split; eauto.
  - split; [done|]. intros [r H]. apply CutPrefix_Some in H. congruence.
Qed.

(** *** Decimal numbers *)

Lemma CutByte_app s c t : c ∉ s -> CutByte (s ++ c :: t) c = (s, t, true).
Proof.
  intros Hs. unfold CutByte. rewrite IndexByte_free by done. unfold slice, zlen.
  replace (Z.to_nat (Z.of_nat (length s) + 1)) with (length (s ++ [c])) by (rewrite length_app; cbn; lia).
  f_equal. f_equal.
  - rewrite Nat2Z.id. cbn. rewrite drop_0. apply take_app_length.
  - change (s ++ c :: t) with (s ++ [c] ++ t). by rewrite app_assoc, drop_app_length.
Qed.

Lemma CutByte_none s c : c ∉ s -> CutByte s c = (s, [], false).
Proof. intros Hs. unfold CutByte. by rewrite IndexByte_None. Qed.

Lemma digit_z2b d : 0 <= d < 10 -> digit (z2b (48 + d)) = Some d.
Proof.
  intros H. unfold digit. rewrite b2z_z2b, Z.mod_small by lia.
  replace (48 + d - 48) with d by lia.
  destruct (Z.leb_spec 0 d), (Z.leb_spec d 9); cbn; lia || done.
Qed.

Lemma format_digits_app fuel n acc : format_digits fuel n acc = format_digits fuel n [] ++ acc.
Proof.
  revert n acc. induction fuel as [|fuel IH]; intros n acc; [done|]. cbn.
  destruct (n <? 10); [done|]. rewrite IH, (IH (n / 10) [_]), <- app_assoc. done.
Qed.

Lemma parse_digits_app bits m s t : parse_digits bits m (s ++ t) =
  match parse_digits bits m s with Some n => parse_digits bits n t | None => None end.
Proof.
  revert m. induction s as [|c s IH]; intros m; [done|]. cbn.
  destruct (digit c); [|done]. by destruct (_ <? _).
Qed.

Lemma parse_format_digits bits fuel n : (0 < fuel)%nat -> 0 <= n < 2 ^ bits -> n < 10 ^ Z.of_nat fuel ->
  parse_digits bits 0 (format_digits fuel n []) = Some n.
Proof.
  revert n. induction fuel as [|fuel IH]; intros n Hf Hn Hn'; [lia|]. cbn [format_digits].
  pose proof (Z.mod_pos_bound n 10 ltac:(lia)) as Hm. pose proof (Z.div_mod n 10 ltac:(lia)) as Hd.
  destruct (Z.ltb_spec n 10) as [L|L].
  - rewrite Z.mod_small by lia. cbn. rewrite digit_z2b by lia.
    by rewrite (proj2 (Z.ltb_lt _ _)) by lia.
  - rewrite format_digits_app, parse_digits_app.
    destruct fuel as [|fuel]; [change (10 ^ Z.of_nat 1) with 10 in Hn'; lia|].
    rewrite IH; [|lia|lia|].
    + cbn. rewrite digit_z2b by lia. rewrite <- Hd. by rewrite (proj2 (Z.ltb_lt _ _)) by lia.
    + apply Z.div_lt_upper_bound; [lia|]. rewrite <- Z.pow_succ_r by lia.
      by rewrite <- Nat2Z.inj_succ.
Qed.

Lemma format_digits_nonempty fuel n acc : (0 < fuel)%nat -> format_digits fuel n acc ≠ [].
Proof.
  intros H. destruct fuel as [|fuel]; [lia|]. cbn. destruct (n <? 10); [done|].
  rewrite format_digits_app. by destruct (format_digits _ _ _).
Qed.

(** Printing and parsing a number that fits. *)
Lemma ParseUint_FormatUint bits n : 0 <= n < 2 ^ bits -> bits <= 64 ->
  ParseUint (FormatUint n) bits = Some n.
Proof.
  intros H B. unfold ParseUint, FormatUint.
  destruct (format_digits 20 n []) eqn:E; [by apply format_digits_nonempty in E; [|lia]|].
  rewrite <- E. apply parse_format_digits; [lia | done |].
  pose proof (Z.pow_le_mono_r 2 bits 64 ltac:(lia) B). change (10 ^ Z.of_nat 20) with (10 ^ 20). lia.
Qed.

Lemma parse_digits_range bits m s n : 0 <= m < 2 ^ bits -> parse_digits bits m s = Some n ->
  0 <= n < 2 ^ bits.
Proof.
  revert m. induction s as [|c s IH]; intros m Hm; cbn; [by intros [= <-]|].
  destruct (digit c) as [d|] eqn:D; [|done].
  destruct (Z.ltb_spec (10 * m + d) (2 ^ bits)); [|done]. apply IH.
  unfold digit in D. destruct (Z.leb_spec 0 (b2z c - 48)); cbn in D; [|done].
  destruct (_ <=? _); [|done]. injection D as <-. lia.
Qed.

Lemma ParseUint_range s bits n : 0 <= bits -> ParseUint s bits = Some n -> 0 <= n < 2 ^ bits.
Proof.
  intros B. destruct s; [done|]. apply parse_digits_range. pose proof (Z.pow_pos_nonneg 2 bits). lia.
Qed.

Lemma span_digits_app ds rest : (forall c, c ∈ ds -> is_Some (digit c)) ->
  (forall c, head rest = Some c -> digit c = None) -> span_digits (ds ++ rest) = (ds, rest).
Proof.
  intros H Hr. induction ds as [|c ds IH].
  - destruct rest as [|c rest]; [done|]. cbn. by rewrite (Hr c).
  - cbn. destruct (H c) as [x ->]; [by left|]. rewrite IH; [done|]. intros c' Hc. apply H. by right.
Qed.

(** *** Fields *)

(** Printable ASCII other than space. *)
Definition plain (c : byte) : bool := (0x21 <=? b2z c) && (b2z c <=? 0x7e).

Lemma space_len_plain c s : plain c = true -> space_len (c :: s) = O.
Proof. destruct c; try reflexivity; discriminate. Qed.

Lemma Fields_word w cur s : Forall (fun c => plain c = true) w ->
  Fields_from 0 cur (w ++ s) = Fields_from 0 (cur ++ w) s.
Proof.
  revert cur. induction w as [|c w IH]; intros cur H; [by rewrite app_nil_r|].
  apply Forall_cons in H as [Hc Hw]. cbn [app Fields_from].
  rewrite (space_len_plain c (w ++ s) Hc), IH by done. by rewrite <- app_assoc.
Qed.

(** A word: printable and not empty. *)
Definition word (w : list byte) : Prop := w ≠ [] /\ Forall (fun c => plain c = true) w.

Lemma Fields_words ws cur : Forall word ws -> (cur = [] \/ word cur) ->
  Fields_from 0 cur (concat (map (fun w => x20 :: w) ws) ++ [x0a]) = flush cur ++ ws.
Proof.
  revert cur. induction ws as [|w ws IH]; intros cur H Hc; [by cbn|].
  apply Forall_cons in H as [[Hn Hw] H]. cbn [map concat app Fields_from space_len].
  f_equal. rewrite <- app_assoc, Fields_word by done. rewrite app_nil_l, IH; [|done | by right].
  unfold flush. by rewrite decide_False.
Qed.

Lemma digit_plain d : 0 <= d < 10 -> plain (z2b (48 + d)) = true.
Proof.
  intros H. unfold plain. rewrite b2z_z2b, Z.mod_small by lia.
  apply andb_true_iff. split; apply Z.leb_le; lia.
Qed.

Lemma FormatUint_word n : word (FormatUint n).
Proof.
  split; [apply format_digits_nonempty; lia|]. unfold FormatUint.
  generalize 20%nat. intros fuel. assert (H : Forall (fun c => plain c = true) []) by constructor.
  revert H. generalize (@nil byte). revert n. induction fuel as [|fuel IH]; intros n acc H; [done|].
  cbn. assert (H' : Forall (fun c => plain c = true) (z2b (48 + n mod 10) :: acc)).
  { constructor; [|done]. apply digit_plain, Z.mod_pos_bound. lia. }
  destruct (n <? 10); [done | by apply IH].
Qed.

Lemma LastIndexByte_app s t c : c ∉ t -> LastIndexByte (s ++ c :: t) c = Some (zlen s).
Proof.
  intros Ht. assert (N : LastIndexByte t c = None).
  { induction t as [|x t IH]; [done|]. apply not_elem_of_cons in Ht as [Hx Ht]. cbn.
    rewrite IH by done. by rewrite decide_False by congruence. }
  induction s as [|x s IH]; cbn; [by rewrite N, decide_True|].
  rewrite IH, zlen_cons. f_equal. lia.
Qed.

Lemma words_check ws :
  forallb (fun w => negb (zlen w =? 0) && forallb plain w) ws = true -> Forall word ws.
Proof.
  intros H. apply Forall_forall. intros w Hw. rewrite forallb_forall in H.
  apply list_elem_of_In, H, andb_true_iff in Hw as [H1 H2]. split.
  - intros ->. discriminate H1.
  - apply Forall_forall. intros c Hc. rewrite forallb_forall in H2. by apply H2, list_elem_of_In.
Qed.

(** *** Paths *)

Lemma take_drop_at {A} (s : list A) (c : A) t :
  slice 0 (zlen s + 1) (s ++ c :: t) = s ++ [c] /\ drop (Z.to_nat (zlen s + 1)) (s ++ c :: t) = t.
Proof.
  assert (E : Z.to_nat (zlen s + 1) = length (s ++ [c])) by (rewrite length_app; unfold zlen; cbn; lia).
  replace (s ++ c :: t) with ((s ++ [c]) ++ t) by by rewrite <- app_assoc.
  unfold slice. rewrite E. cbn. rewrite drop_0. split; [apply take_app_length | apply drop_app_length].
Qed.

Lemma Dir_app s t : (slash ∉ t) -> Dir (s ++ slash :: t) = Clean (s ++ [slash]).
Proof. intros H. unfold Dir. rewrite LastIndexByte_app by done. by rewrite (proj1 (take_drop_at s slash t)). Qed.

Lemma trim_slashes_other s t : t ≠ [] -> (slash ∉ t) -> trim_slashes (s ++ t) = s ++ t.
Proof.
  intros Hn Ht. assert (T : trim_slashes t = t).
  { induction t as [|x t IH]; [done|]. apply not_elem_of_cons in Ht as [Hx Ht]. cbn.
    destruct t as [|y t]; [cbn; by rewrite decide_False by congruence|]. by rewrite IH. }
  induction s as [|x s IH]; [done|]. cbn. rewrite IH. by destruct s, t.
Qed.

Lemma Base_app s t : t ≠ [] -> (slash ∉ t) -> Base (s ++ slash :: t) = t.
Proof.
  intros Hn Ht. unfold Base. rewrite decide_False by by destruct s.
  replace (s ++ slash :: t) with ((s ++ [slash]) ++ t) by by rewrite <- app_assoc.
  rewrite trim_slashes_other by done. rewrite <- app_assoc. cbn [app].
  rewrite LastIndexByte_app by done. rewrite (proj2 (take_drop_at s slash t)). by rewrite decide_False.
Qed.
