(* ===== verification/GoTime.v ===== *)
(** * [time.Time] as text

    The calendar of Go's [time] package and the RFC 3339 form in which
    [Time.MarshalJSON] writes an instant, with the reading of that form.  An instant
    is nanoseconds since the Unix epoch.  The local time zone is the library's
    database: a function from the Unix second to the offset in force, in seconds. *)

From Stdlib Require Import ZArith Lia.
From Stdlib Require Import String.
From stdpp Require Import prelude list.
From S2P Require Import Prelude GoStd GoText.

Local Open Scope Z_scope.

(** ** The calendar

    Proleptic Gregorian; days are counted from 0001-01-01. *)

Definition isLeap (y : Z) : bool :=
  (y mod 4 =? 0) && (negb (y mod 100 =? 0) || (y mod 400 =? 0)).

(** Days of a common year before month [m], 1 to 13. *)
Definition daysBefore (m : Z) : Z :=
  nth (Z.to_nat (m - 1)) [0; 31; 59; 90; 120; 151; 181; 212; 243; 273; 304; 334; 365] 0.

Definition monthStart (leap : bool) (m : Z) : Z :=
  daysBefore m + if leap && (2 <? m) then 1 else 0.

(** The number of days before a year, and the day of a date. *)
Definition yearStart (y : Z) : Z :=
  let y := y - 1 in 365 * y + y / 4 - y / 100 + y / 400.

Definition fromDate (ymd : Z * Z * Z) : Z :=
  let '(y, m, d) := ymd in yearStart y + monthStart (isLeap y) m + (d - 1).

(** The year and the day in it: cycles of 400, 100, 4 and 1 years.  The last cycle
    of 100 and the last of 1 are a day longer. *)
Definition yearDay (d : Z) : Z * Z :=
  let n400 := d / 146097 in let d := d mod 146097 in
  let n100 := Z.min (d / 36524) 3 in let d := d - 36524 * n100 in
  let n4 := d / 1461 in let d := d mod 1461 in
  let n1 := Z.min (d / 365) 3 in let d := d - 365 * n1 in
  (400 * n400 + 100 * n100 + 4 * n4 + n1 + 1, d).

(** The month that holds a day of the year. *)
Fixpoint findMonth (leap : bool) (k : nat) (m yday : Z) : Z :=
  match k with
  | O => m
  | S k => if yday <? monthStart leap (m + 1) then m else findMonth leap k (m + 1) yday
  end.

(** [Time.Date] *)
Definition toDate (d : Z) : Z * Z * Z :=
  let '(y, yday) := yearDay d in
  let m := findMonth (isLeap y) 11 1 yday in
  (y, m, yday - monthStart (isLeap y) m + 1).

Definition daysIn (y m : Z) : Z := monthStart (isLeap y) (m + 1) - monthStart (isLeap y) m.

(** *** Lemmas *)

Lemma yearDay_spec d : let '(y, yday) := yearDay d in
  yearStart y + yday = d /\ 0 <= yday < (if isLeap y then 366 else 365).
Proof.
  unfold yearDay, yearStart, isLeap.
  pose proof (Z.div_mod d 146097 ltac:(lia)). pose proof (Z.mod_pos_bound d 146097 ltac:(lia)).
  set (n400 := d / 146097) in *. set (d1 := d mod 146097) in *. clearbody n400 d1.
  pose proof (Z.div_mod d1 36524 ltac:(lia)). pose proof (Z.mod_pos_bound d1 36524 ltac:(lia)).
  set (q100 := d1 / 36524) in *. set (r100 := d1 mod 36524) in *. clearbody q100 r100.
  set (n100 := Z.min q100 3). assert (0 <= n100 <= 3) by lia.
  set (d2 := d1 - 36524 * n100). assert (0 <= d2 <= 36524) by lia.
  assert (D2 : n100 < 3 -> d2 < 36524) by lia.
  assert (E2 : d1 = 36524 * n100 + d2) by lia. clearbody n100 d2.
  pose proof (Z.div_mod d2 1461 ltac:(lia)). pose proof (Z.mod_pos_bound d2 1461 ltac:(lia)).
  set (n4 := d2 / 1461) in *. set (d3 := d2 mod 1461) in *. clearbody n4 d3.
  pose proof (Z.div_mod d3 365 ltac:(lia)). pose proof (Z.mod_pos_bound d3 365 ltac:(lia)).
  set (q1 := d3 / 365) in *. set (r1 := d3 mod 365) in *. clearbody q1 r1.
  set (n1 := Z.min q1 3). assert (0 <= n1 <= 3) by lia.
  set (d4 := d3 - 365 * n1). assert (0 <= d4 <= 365) by lia.
  assert (D4 : n1 < 3 -> d4 < 365) by lia.
  assert (E4 : d3 = 365 * n1 + d4) by lia. clearbody n1 d4.
  assert (0 <= n4 <= 24) by lia. assert (N4 : n4 = 24 -> n100 < 3 -> d3 < 1460) by lia.
  set (y := 400 * n400 + 100 * n100 + 4 * n4 + n1).
  replace (y + 1 - 1) with y by lia.
  assert (A4 : y / 4 = 100 * n400 + 25 * n100 + n4) by (symmetry; apply (Z.div_unique y 4 _ n1); lia).
  assert (A100 : y / 100 = 4 * n400 + n100) by (symmetry; apply (Z.div_unique y 100 _ (4 * n4 + n1)); lia).
  assert (A400 : y / 400 = n400) by (symmetry; apply (Z.div_unique y 400 _ (100 * n100 + 4 * n4 + n1)); lia).
  split; [rewrite A4, A100, A400; lia|]. split; [lia|].
  destruct (decide (n1 = 3)) as [->|]; [|destruct (_ && _); lia].
  assert (M4 : (y + 1) mod 4 = 0).
  { symmetry. apply (Z.mod_unique (y + 1) 4 (100 * n400 + 25 * n100 + n4 + 1)); lia. }
  destruct (decide (n4 = 24)) as [->|].
  - destruct (decide (n100 = 3)) as [->|].
    + replace ((y + 1) mod 400) with 0 by (apply (Z.mod_unique (y + 1) 400 (n400 + 1)); lia).
      rewrite M4. change (0 =? 0) with true. rewrite orb_true_r. cbn. lia.
    + destruct (_ && _); lia.
  - replace ((y + 1) mod 100) with (4 * n4 + 4)
      by (apply (Z.mod_unique (y + 1) 100 (4 * n400 + n100)); lia).
    rewrite M4, (proj2 (Z.eqb_neq (4 * n4 + 4) 0)) by lia. cbn. lia.
Qed.

(** The months, by evaluation over the days of a year. *)
Definition month_ok (leap : bool) (yday : Z) : bool :=
  let m := findMonth leap 11 1 yday in
  (1 <=? m) && (m <=? 12) && (monthStart leap m <=? yday) && (yday <? monthStart leap (m + 1)).

Definition months_ok (leap : bool) : bool :=
  forallb (fun n => month_ok leap (Z.of_nat n)) (seq 0 (if leap then 366 else 365)%nat).

Lemma months_check : months_ok true && months_ok false = true.
Proof. vm_compute. reflexivity. Qed.

Lemma findMonth_spec (leap : bool) yday : 0 <= yday < (if leap then 366 else 365) ->
  let m := findMonth leap 11 1 yday in
  1 <= m <= 12 /\ monthStart leap m <= yday < monthStart leap (m + 1).
Proof.
  intros H. assert (C : months_ok leap = true).
  { pose proof months_check as C. apply andb_true_iff in C as [? ?]. by destruct leap. }
  unfold months_ok in C. rewrite forallb_forall in C.
  specialize (C (Z.to_nat yday) ltac:(apply in_seq; destruct leap; lia)).
  rewrite Z2Nat.id in C by lia. unfold month_ok in C.
  rewrite !andb_true_iff, !Z.leb_le, Z.ltb_lt in C. cbv zeta. tauto.
Qed.

(** The date of a day is a date of the calendar, and that day's. *)
Theorem toDate_spec d : let '(y, m, day) := toDate d in
  1 <= m <= 12 /\ 1 <= day <= daysIn y m /\ fromDate (y, m, day) = d.
Proof.
  unfold toDate. pose proof (yearDay_spec d) as Y. destruct (yearDay d) as [y yday].
  destruct Y as [E R]. pose proof (findMonth_spec (isLeap y) yday R) as [M S].
  unfold fromDate, daysIn. split_and!; lia.
Qed.

(** The year of a day in the range of the dates that have four digits. *)
Lemma toDate_year d : 0 <= d <= 3652058 -> 1 <= (toDate d).1.1 <= 9999.
Proof.
  intros R. unfold toDate. pose proof (yearDay_spec d) as Y. destruct (yearDay d) as [y yday].
  destruct Y as [E B]. cbn [fst]. unfold yearStart in E. set (z := y - 1) in E.
  assert (yday < 366) by (destruct (isLeap y); lia).
  pose proof (Z.div_mod z 4 ltac:(lia)). pose proof (Z.mod_pos_bound z 4 ltac:(lia)).
  pose proof (Z.div_mod z 100 ltac:(lia)). pose proof (Z.mod_pos_bound z 100 ltac:(lia)).
  pose proof (Z.div_mod z 400 ltac:(lia)). pose proof (Z.mod_pos_bound z 400 ltac:(lia)).
  assert (z = y - 1) by done. lia.
Qed.

(** ** RFC 3339 *)

(** The last [k] decimal digits of [n]. *)
Fixpoint digits (k : nat) (n : Z) : list byte :=
  match k with
  | O => []
  | S k => digits k (n / 10) ++ [z2b (48 + n mod 10)]
  end.

Fixpoint trim_zeros (s : list byte) : list byte :=
  match s with
  | [] => []
  | c :: s' => match trim_zeros s' with
               | [] => if decide (c = x30) then [] else [c]
               | r => c :: r
               end
  end.

Definition nanosPerSecond : Z := 1000000000.
Definition secondsPerDay : Z := 86400.
(** Days from 0001-01-01 to the Unix epoch. *)
Definition unixDay : Z := 719162.

Definition appendFraction (nsec : Z) : list byte :=
  match trim_zeros (digits 9 nsec) with [] => [] | ds => x2e :: ds end.

(** The offset in hours and minutes; seconds are dropped. *)
Definition appendZone (off : Z) : list byte :=
  if off =? 0 then str "Z" else
  let zone := Z.abs (Z.quot off 60) in
  (if Z.quot off 60 <? 0 then str "-" else str "+") ++ digits 2 (zone / 60) ++ str ":" ++ digits 2 (zone mod 60).

Definition appendClock (sod : Z) : list byte :=
  digits 2 (sod / 3600) ++ str ":" ++ digits 2 (sod / 60 mod 60) ++ str ":" ++ digits 2 (sod mod 60).

(** [Time.appendStrictRFC3339]: [None] when the year has not four digits or the
    zone's hour not two. *)
Definition MarshalTime (zone : Z -> Z) (t : Z) : option (list byte) :=
  let sec := t / nanosPerSecond in
  let off := zone sec in
  let '(y, m, d) := toDate ((sec + off) / secondsPerDay + unixDay) in
  if (0 <=? y) && (y <=? 9999) && (Z.abs (Z.quot off 60) / 60 <? 24) then
    Some (digits 4 y ++ str "-" ++ digits 2 m ++ str "-" ++ digits 2 d ++ str "T" ++
          appendClock ((sec + off) mod secondsPerDay) ++ appendFraction (t mod nanosPerSecond) ++ appendZone off)
  else None.

(** *** Reading it *)

Definition num (k : nat) (s : list byte) : option (Z * list byte) :=
  if decide (length s < k)%nat then None else
  n ← parse_digits 64 0 (take k s); Some (n, drop k s).

Definition parseFraction (s : list byte) : option (Z * list byte) :=
  match CutPrefix s (str ".") with
  | None => Some (0, s)
  | Some s =>
      let '(ds, s) := span_digits s in
      if decide (ds = [] \/ (9 < length ds)%nat) then None else
      n ← parse_digits 64 0 (ds ++ replicate (9 - length ds) x30); Some (n, s)
  end.

Definition parseOffset (sign : Z) (s : list byte) : option (Z * list byte) :=
  '(h, s) ← num 2 s; s ← CutPrefix s (str ":");
  '(m, s) ← num 2 s;
  if (h <? 24) && (m <? 60) then Some (sign * 60 * (60 * h + m), s) else None.

Definition parseZone (s : list byte) : option (Z * list byte) :=
  match CutPrefix s (str "Z"), CutPrefix s (str "+"), CutPrefix s (str "-") with
  | Some s, _, _ => Some (0, s)
  | None, Some s, _ => parseOffset 1 s
  | None, None, Some s => parseOffset (-1) s
  | None, None, None => None
  end.

Definition parseDate (s : list byte) : option (Z * list byte) :=
  '(y, s) ← num 4 s; s ← CutPrefix s (str "-");
  '(m, s) ← num 2 s; s ← CutPrefix s (str "-");
  '(d, s) ← num 2 s;
  if (1 <=? m) && (m <=? 12) && (1 <=? d) && (d <=? daysIn y m) then Some (fromDate (y, m, d), s) else None.

Definition parseClock (s : list byte) : option (Z * list byte) :=
  '(h, s) ← num 2 s; s ← CutPrefix s (str ":");
  '(m, s) ← num 2 s; s ← CutPrefix s (str ":");
  '(x, s) ← num 2 s;
  if (h <? 24) && (m <? 60) && (x <? 60) then Some (3600 * h + 60 * m + x, s) else None.

Definition ParseTime (s : list byte) : option Z :=
  '(day, s) ← parseDate s; s ← CutPrefix s (str "T");
  '(sod, s) ← parseClock s;
  '(nsec, s) ← parseFraction s;
  '(off, s) ← parseZone s;
  match s with
  | [] => Some (((day - unixDay) * secondsPerDay + sod - off) * nanosPerSecond + nsec)
  | _ => None
  end.

Example times :
  MarshalTime (fun _ => 0) 1700000000123456000 = Some (str "2023-11-14T22:13:20.123456Z") /\
  MarshalTime (fun _ => 19800) 1709164800000000000 = Some (str "2024-02-29T05:30:00+05:30") /\
  MarshalTime (fun _ => -3600) 0 = Some (str "1969-12-31T23:00:00-01:00") /\
  MarshalTime (fun _ => 0) (2 ^ 63 - 1) = Some (str "2262-04-11T23:47:16.854775807Z") /\
  MarshalTime (fun _ => 90000) 0 = None /\
  ParseTime (str "2024-02-29T05:30:00+05:30") = Some 1709164800000000000 /\
  ParseTime (str "2023-02-29T05:30:00Z") = None.
Proof. vm_compute. repeat split; reflexivity. Qed.

(** *** Lemmas *)

Lemma length_digits k n : length (digits k n) = k.
Proof. revert n. induction k as [|k IH]; intros n; [done|]. cbn. rewrite length_app, IH. cbn. lia. Qed.

Lemma parse_digits_digits k n m : (k <= 19)%nat -> 0 <= n < 10 ^ Z.of_nat k -> 0 <= m ->
  m * 10 ^ Z.of_nat k + n < 2 ^ 64 -> parse_digits 64 m (digits k n) = Some (m * 10 ^ Z.of_nat k + n).
Proof.
  revert n. induction k as [|k IH]; intros n Hk Hn Hm B.
  { cbn in *. f_equal. lia. }
  cbn [digits]. rewrite Nat2Z.inj_succ, Z.pow_succ_r in * by lia.
  pose proof (Z.div_mod n 10 ltac:(lia)) as D. pose proof (Z.mod_pos_bound n 10 ltac:(lia)) as R.
  rewrite parse_digits_app, IH; try lia.
  cbn. rewrite digit_z2b by lia. rewrite (proj2 (Z.ltb_lt _ _)) by lia. f_equal. lia.
Qed.

Lemma num_digits k n rest : (k <= 19)%nat -> 0 <= n < 10 ^ Z.of_nat k ->
  num k (digits k n ++ rest) = Some (n, rest).
Proof.
  intros Hk Hn. unfold num. rewrite decide_False by (rewrite length_app, length_digits; lia).
  rewrite take_app_length', drop_app_length' by (by rewrite length_digits).
  rewrite parse_digits_digits; [| lia | lia | lia |].
  - done.
  - pose proof (Z.pow_le_mono_r 10 (Z.of_nat k) 19 ltac:(lia) ltac:(lia)). lia.
Qed.

Lemma digits_digit k n c : c ∈ digits k n -> is_Some (digit c).
Proof.
  revert n. induction k as [|k IH]; intros n; cbn; [by intros ?%elem_of_nil|].
  rewrite elem_of_app, list_elem_of_singleton. intros [H| ->]; [by eapply IH|].
  rewrite digit_z2b; [by eexists | apply Z.mod_pos_bound; lia].
Qed.

(** [strings.TrimRight(s, "0")], as a split of [s]. *)
Lemma trim_zeros_spec s : s = trim_zeros s ++ replicate (length s - length (trim_zeros s)) x30.
Proof.
  induction s as [|c s IH]; [done|]. cbn [trim_zeros]. destruct (trim_zeros s) as [|x r] eqn:E.
  - cbn in IH. rewrite Nat.sub_0_r in IH. destruct (decide (c = x30)) as [->|].
    + cbn. by f_equal.
    + cbn. rewrite Nat.sub_0_r. by f_equal.
  - cbn in *. by f_equal.
Qed.

Lemma parseFraction_append nsec rest : 0 <= nsec < nanosPerSecond ->
  (forall c, head rest = Some c -> digit c = None /\ c ≠ x2e) ->
  parseFraction (appendFraction nsec ++ rest) = Some (nsec, rest).
Proof.
  unfold nanosPerSecond. intros R Hr. unfold appendFraction, parseFraction.
  pose proof (trim_zeros_spec (digits 9 nsec)) as S. rewrite length_digits in S.
  assert (P : parse_digits 64 0 (digits 9 nsec) = Some nsec) by (apply parse_digits_digits; lia).
  set (ds := trim_zeros (digits 9 nsec)) in *.
  assert (D : forall c, c ∈ ds -> is_Some (digit c)).
  { intros c Hc. apply (digits_digit 9 nsec). rewrite S. apply elem_of_app. by left. }
  assert (L : (length ds <= 9)%nat).
  { apply (f_equal length) in S. rewrite length_digits, length_app in S. lia. }
  clearbody ds. destruct ds as [|c ds].
  - cbn [app length] in *. rewrite S in P. change (replicate (9 - 0) x30) with (str "000000000") in P.
    assert (nsec = 0) as -> by (vm_compute in P; congruence).
    destruct rest as [|c rest]; [done|]. cbn. rewrite decide_False; [done|]. by apply Hr.
  - change ((x2e :: c :: ds) ++ rest) with (str "." ++ (c :: ds) ++ rest). rewrite CutPrefix_app.
    rewrite span_digits_app; [| done | intros x Hx; by apply Hr].
    rewrite decide_False by (intros [?|?]; [done | lia]). by rewrite <- S, P.
Qed.

Lemma CutPrefix_other c p s : c ≠ p -> CutPrefix (c :: s) [p] = None.
Proof. intros H. cbn. by rewrite decide_False. Qed.

Lemma digits_cons k n : exists c s, digits (S k) n = c :: s /\ is_Some (digit c).
Proof.
  destruct (digits (S k) n) as [|c s] eqn:E.
  - apply (f_equal length) in E. by rewrite length_digits in E.
  - exists c, s. split; [done|]. apply (digits_digit (S k) n). rewrite E. by left.
Qed.

(** A zone offset the text can carry. *)
Definition whole_minutes (off : Z) : Prop := off mod 60 = 0 /\ Z.abs off < 86400.

Lemma parseZone_append off : whole_minutes off -> parseZone (appendZone off) = Some (off, []).
Proof.
  intros [M B]. unfold appendZone, parseZone. destruct (Z.eqb_spec off 0) as [->|N]; [done|].
  pose proof (Z.div_mod off 60 ltac:(lia)) as Q. rewrite M, Z.add_0_r in Q.
  set (q := off / 60) in Q. assert (E : Z.quot off 60 = q).
  { rewrite Q, Z.mul_comm. apply Z.quot_mul. lia. }
  rewrite E. set (z := Z.abs q). assert (0 < z < 1440) by lia.
  pose proof (Z.div_mod z 60 ltac:(lia)). pose proof (Z.mod_pos_bound z 60 ltac:(lia)).
  assert (T : forall sign, parseOffset sign (digits 2 (z / 60) ++ str ":" ++ digits 2 (z mod 60)) = Some (sign * 60 * z, [])).
  { intros sign. unfold parseOffset. rewrite num_digits; [|lia|cbn; lia]. cbn [mbind option_bind].
    rewrite CutPrefix_app. cbn [mbind option_bind].
    rewrite <- (app_nil_r (digits 2 (z mod 60))), num_digits; [|lia|cbn; lia].
    cbn [mbind option_bind]. rewrite (proj2 (Z.ltb_lt (z / 60) 24)), (proj2 (Z.ltb_lt (z mod 60) 60)) by lia.
    cbn [andb]. do 2 f_equal. lia. }
  destruct (Z.ltb_spec q 0) as [L|L].
  - change (parseOffset (-1) (digits 2 (z / 60) ++ str ":" ++ digits 2 (z mod 60)) = Some (off, [])).
    rewrite T. do 2 f_equal. lia.
  - change (parseOffset 1 (digits 2 (z / 60) ++ str ":" ++ digits 2 (z mod 60)) = Some (off, [])).
    rewrite T. do 2 f_equal. lia.
Qed.

Lemma appendZone_head off c : head (appendZone off) = Some c -> digit c = None /\ c ≠ x2e.
Proof.
  unfold appendZone. destruct (off =? 0); [by intros [= <-]|].
  destruct (_ <? 0); by intros [= <-].
Qed.

Lemma parseClock_append sod rest : 0 <= sod < secondsPerDay ->
  parseClock (appendClock sod ++ rest) = Some (sod, rest).
Proof.
  unfold secondsPerDay. intros R. unfold appendClock, parseClock.
  pose proof (Z.div_mod sod 60 ltac:(lia)). pose proof (Z.mod_pos_bound sod 60 ltac:(lia)).
  pose proof (Z.div_mod (sod / 60) 60 ltac:(lia)). pose proof (Z.mod_pos_bound (sod / 60) 60 ltac:(lia)).
  assert (E : sod / 3600 = sod / 60 / 60) by (rewrite Z.div_div by lia; done). rewrite E.
  rewrite <- !app_assoc. do 3 (rewrite num_digits by (cbn; lia); cbn [mbind option_bind];
    rewrite ?CutPrefix_app; cbn [mbind option_bind]).
  rewrite !(proj2 (Z.ltb_lt _ _)) by lia. cbn [andb]. do 2 f_equal. lia.
Qed.

Lemma daysIn_le y m : 1 <= m <= 12 -> daysIn y m <= 31.
Proof.
  intros H. unfold daysIn. assert (E : m = Z.of_nat (Z.to_nat m)) by lia.
  generalize (isLeap y). intros l. revert E. generalize (Z.to_nat m). intros n ->.
  do 13 (destruct n as [|n]; [destruct l; vm_compute; discriminate || lia|]). lia.
Qed.

Lemma parseDate_append y m d rest : 0 <= y <= 9999 -> 1 <= m <= 12 -> 1 <= d <= daysIn y m ->
  parseDate (digits 4 y ++ str "-" ++ digits 2 m ++ str "-" ++ digits 2 d ++ rest) = Some (fromDate (y, m, d), rest).
Proof.
  intros Y M D. pose proof (daysIn_le y m M). unfold parseDate.
  do 3 (rewrite num_digits by (cbn; lia); cbn [mbind option_bind];
    rewrite ?CutPrefix_app; cbn [mbind option_bind]).
  by rewrite !(proj2 (Z.leb_le _ _)) by lia.
Qed.

(** Every instant whose local year has four digits is written, and is read back to
    the nanosecond. *)
Theorem MarshalTime_roundtrip zone t : whole_minutes (zone (t / nanosPerSecond)) ->
  0 <= (t / nanosPerSecond + zone (t / nanosPerSecond)) / secondsPerDay + unixDay <= 3652058 ->
  exists s, MarshalTime zone t = Some s /\ ParseTime s = Some t.
Proof.
  set (sec := t / nanosPerSecond). intros Wm R. unfold MarshalTime. fold sec. set (off := zone sec) in *.
  pose proof (Z.div_mod t nanosPerSecond ltac:(done)) as Dt.
  pose proof (Z.mod_pos_bound t nanosPerSecond ltac:(done)) as Bt. fold sec in Dt.
  pose proof (Z.div_mod (sec + off) secondsPerDay ltac:(done)) as Ds.
  pose proof (Z.mod_pos_bound (sec + off) secondsPerDay ltac:(done)) as Bs.
  set (day := (sec + off) / secondsPerDay) in *. set (sod := (sec + off) mod secondsPerDay) in *.
  pose proof (toDate_spec (day + unixDay)) as S. pose proof (toDate_year (day + unixDay) R) as Y.
  destruct (toDate (day + unixDay)) as [[y m] d]. destruct S as (M & D & E). cbn [fst] in Y.
  assert (Z0 : Z.abs (Z.quot off 60) / 60 < 24).
  { destruct Wm as [W1 W2]. pose proof (Z.div_mod off 60 ltac:(lia)) as Q. rewrite W1, Z.add_0_r in Q.
    rewrite Q, Z.mul_comm, Z.quot_mul by lia. apply Z.div_lt_upper_bound; lia. }
  rewrite !(proj2 (Z.leb_le _ _)), (proj2 (Z.ltb_lt _ _)) by lia. cbn [andb].
  eexists. split; [done|]. unfold ParseTime. rewrite <- ?app_assoc.
  rewrite parseDate_append by lia. cbn [mbind option_bind]. rewrite CutPrefix_app. cbn [mbind option_bind].
  rewrite parseClock_append by done. cbn [mbind option_bind].
  rewrite parseFraction_append; [| done | apply appendZone_head]. cbn [mbind option_bind].
  rewrite parseZone_append by done. cbn [mbind option_bind]. f_equal. rewrite E. lia.
Qed.

(** *** The text is ASCII *)

Definition ascii (c : byte) : Prop := b2z c < 128.

Lemma digit_ascii c : is_Some (digit c) -> ascii c.
Proof.
  intros [d D]. unfold digit, ascii in *. destruct (Z.leb_spec (b2z c - 48) 9); [lia|].
  by rewrite andb_false_r in D.
Qed.

Lemma digits_ascii k n : Forall ascii (digits k n).
Proof. apply Forall_forall. intros c Hc. by eapply digit_ascii, digits_digit. Qed.

Lemma appendFraction_ascii n : Forall ascii (appendFraction n).
Proof.
  unfold appendFraction. pose proof (digits_ascii 9 n) as H. pose proof (trim_zeros_spec (digits 9 n)) as S.
  destruct (trim_zeros (digits 9 n)) as [|c ds] eqn:E; [constructor|]. constructor; [done|].
  rewrite S in H. by apply Forall_app in H as [H _].
Qed.

Ltac ascii_parts :=
  repeat first [apply digits_ascii | apply appendFraction_ascii | apply Forall_app; split
               | by repeat constructor].

Lemma MarshalTime_ascii zone t s : MarshalTime zone t = Some s -> Forall ascii s.
Proof.
  unfold MarshalTime. destruct (toDate _) as [[y m] d]. case_match; [|done]. intros E%(inj Some). subst s.
  unfold appendClock, appendZone. ascii_parts. repeat case_match; ascii_parts.
Qed.
