(* ===== verification/GoJson.v ===== *)
(** * encoding/json

    The JSON text [json.Encoder] writes for the values the sensor encodes (objects,
    arrays, strings, unsigned integers and booleans), as [encoding/json] does it:
    no white space, and strings escaped for HTML, with invalid UTF-8 replaced.  A
    reader of JSON is the specification the text is proved against. *)

From Stdlib Require Import ZArith Lia.
From Stdlib Require Import String.
From stdpp Require Import prelude list.
From S2P Require Import Prelude GoStd GoText.

Local Open Scope Z_scope.

(** ** unicode/utf8 *)

Definition inb (lo hi : Z) (c : byte) : bool := (lo <=? b2z c) && (b2z c <=? hi).
Definition cont (c : byte) : bool := inb 0x80 0xbf c.

(** [utf8.DecodeRuneInString]: the number of bytes of the rune [s] starts with, 0 if
    they are not the encoding of one. *)
Definition rune_size (s : list byte) : nat :=
  match s with
  | [] => 0%nat
  | a :: s =>
      if inb 0 0x7f a then 1%nat else
      match s with
      | [] => 0%nat
      | b :: s =>
          if inb 0xc2 0xdf a && cont b then 2%nat else
          match s with
          | [] => 0%nat
          | c :: s =>
              let second := if b2z a =? 0xe0 then inb 0xa0 0xbf b
                            else if b2z a =? 0xed then inb 0x80 0x9f b else cont b in
              if inb 0xe0 0xef a && second && cont c then 3%nat else
              match s with
              | [] => 0%nat
              | d :: _ =>
                  let second := if b2z a =? 0xf0 then inb 0x90 0xbf b
                                else if b2z a =? 0xf4 then inb 0x80 0x8f b else cont b in
                  if inb 0xf0 0xf4 a && second && cont c && cont d then 4%nat else 0%nat
              end
          end
      end
  end.

(** The runes of a string by their bytes; [None] is a byte that is in no rune.
    [skip] bytes belong to the rune before. *)
Fixpoint runes_from (skip : nat) (s : list byte) : list (option (list byte)) :=
  match s with
  | [] => []
  | _ :: s' =>
      match skip with
      | S skip => runes_from skip s'
      | O => match rune_size s with
             | O => None :: runes_from 0 s'
             | S k => Some (take (S k) s) :: runes_from k s'
             end
      end
  end.

Definition runes (s : list byte) : list (option (list byte)) := runes_from 0 s.

(** U+FFFD *)
Definition RuneError : list byte := [xef; xbf; xbd].

(** [s] with each invalid byte replaced. *)
Definition valid_utf8 (s : list byte) : list byte := concat (map (default RuneError) (runes s)).

(** ** Values and their text *)

Inductive json :=
| JBool (b : bool)
| JNum (n : Z)
| JStr (s : list byte)
| JArr (vs : list json)
| JObj (ms : list (list byte * json)).

Definition hex (d : Z) : byte := z2b (if d <? 10 then 48 + d else 87 + d).

Definition quote : byte := x22.
Definition backslash : byte := x5c.

(** One ASCII character, in the branches of [appendString]. *)
Definition esc_ascii (c : byte) : list byte :=
  match c with
  | x22 | x5c => [backslash; c]
  | x08 => [backslash; x62]
  | x0c => [backslash; x66]
  | x0a => [backslash; x6e]
  | x0d => [backslash; x72]
  | x09 => [backslash; x74]
  | _ => if (b2z c <? 0x20) || bool_decide (c = x3c) || bool_decide (c = x3e) || bool_decide (c = x26)
         then [backslash; x75; x30; x30; hex (b2z c / 16); hex (b2z c mod 16)]
         else [c]
  end.

Definition esc_rune (r : option (list byte)) : list byte :=
  match r with
  | None => str "\ufffd"
  | Some [c] => esc_ascii c
  | Some bs =>
      if decide (bs = [xe2; x80; xa8]) then str "\u2028"
      else if decide (bs = [xe2; x80; xa9]) then str "\u2029" else bs
  end.

Definition escape (s : list byte) : list byte := concat (map esc_rune (runes s)).

Definition quoted (s : list byte) : list byte := quote :: escape s ++ [quote].

(** [xs] with commas between. *)
Fixpoint commas (xs : list (list byte)) : list byte :=
  match xs with
  | [] => []
  | [x] => x
  | x :: xs => x ++ x2c :: commas xs
  end.

Fixpoint print (v : json) : list byte :=
  match v with
  | JBool b => if b then str "true" else str "false"
  | JNum n => FormatUint n
  | JStr s => quoted s
  | JArr vs => x5b :: commas (map print vs) ++ [x5d]
  | JObj ms => x7b :: commas (map (fun m => quoted m.1 ++ x3a :: print m.2) ms) ++ [x7d]
  end.

(** [Encoder.Encode]: the value and a newline. *)
Definition encode_line (v : json) : list byte := print v ++ [x0a].

(** ** Reading JSON (RFC 8259)

    Without white space between tokens; numbers are unsigned integers of 64 bits. *)

Definition unhex (c : byte) : option Z :=
  let n := b2z c in
  if (48 <=? n) && (n <=? 57) then Some (n - 48)
  else if (97 <=? n) && (n <=? 102) then Some (n - 87)
  else if (65 <=? n) && (n <=? 70) then Some (n - 55) else None.

(** The UTF-8 form of a code point of the basic plane, surrogates excluded. *)
Definition utf8 (r : Z) : option (list byte) :=
  if r <? 0x80 then Some [z2b r]
  else if r <? 0x800 then Some [z2b (0xc0 + r / 64); z2b (0x80 + r mod 64)]
  else if (0xd800 <=? r) && (r <=? 0xdfff) then None
  else Some [z2b (0xe0 + r / 4096); z2b (0x80 + r / 64 mod 64); z2b (0x80 + r mod 64)].

Definition unescape1 (c : byte) : option byte :=
  match c with
  | x22 => Some x22 | x5c => Some x5c | x2f => Some x2f | x62 => Some x08
  | x66 => Some x0c | x6e => Some x0a | x72 => Some x0d | x74 => Some x09
  | _ => None
  end.

Definition unescape4 (a b c d : byte) : option (list byte) :=
  a ← unhex a; b ← unhex b; c ← unhex c; d ← unhex d; utf8 (4096 * a + 256 * b + 16 * c + d).

(** The rest of a string literal after its opening quote. *)
Fixpoint read_string (s : list byte) : option (list byte * list byte) :=
  match s with
  | [] => None
  | c :: s =>
      if decide (c = quote) then Some ([], s)
      else if decide (c = backslash) then
        match s with
        | [] => None
        | e :: s =>
            if decide (e = x75) then
              match s with
              | a :: b :: c :: d :: s =>
                  r ← unescape4 a b c d; '(bs, s) ← read_string s; Some (r ++ bs, s)
              | _ => None
              end
            else r ← unescape1 e; '(bs, s) ← read_string s; Some (r :: bs, s)
        end
      else if b2z c <? 0x20 then None
      else '(bs, s) ← read_string s; Some (c :: bs, s)
  end.

(** The rest of an array after [ [ ], which is not empty; [val] reads a value. *)
Fixpoint read_elements (val : list byte -> option (json * list byte)) (fuel : nat) (s : list byte)
    : option (list json * list byte) :=
  match fuel with
  | O => None
  | S fuel =>
      '(v, s) ← val s;
      match s with
      | x5d :: s => Some ([v], s)
      | x2c :: s => '(vs, s) ← read_elements val fuel s; Some (v :: vs, s)
      | _ => None
      end
  end.

Definition read_member (val : list byte -> option (json * list byte)) (s : list byte)
    : option (list byte * json * list byte) :=
  match s with
  | x22 :: s =>
      '(k, s) ← read_string s;
      match s with
      | x3a :: s => '(v, s) ← val s; Some (k, v, s)
      | _ => None
      end
  | _ => None
  end.

Fixpoint read_members (val : list byte -> option (json * list byte)) (fuel : nat) (s : list byte)
    : option (list (list byte * json) * list byte) :=
  match fuel with
  | O => None
  | S fuel =>
      '(m, s) ← read_member val s;
      match s with
      | x7d :: s => Some ([m], s)
      | x2c :: s => '(ms, s) ← read_members val fuel s; Some (m :: ms, s)
      | _ => None
      end
  end.

Fixpoint read_value (fuel : nat) (s : list byte) : option (json * list byte) :=
  match fuel with
  | O => None
  | S fuel =>
      match s with
      | x22 :: s => '(b, s) ← read_string s; Some (JStr b, s)
      | x5b :: x5d :: s => Some (JArr [], s)
      | x5b :: s => '(vs, s) ← read_elements (read_value fuel) fuel s; Some (JArr vs, s)
      | x7b :: x7d :: s => Some (JObj [], s)
      | x7b :: s => '(ms, s) ← read_members (read_value fuel) fuel s; Some (JObj ms, s)
      | _ =>
          match CutPrefix s (str "true"), CutPrefix s (str "false") with
          | Some s, _ => Some (JBool true, s)
          | None, Some s => Some (JBool false, s)
          | None, None => let '(ds, s) := span_digits s in n ← ParseUint ds 64; Some (JNum n, s)
          end
      end
  end.

(** A document: one value, then nothing. *)
Definition Parse (s : list byte) : option json :=
  match read_value (S (length s)) s with
  | Some (v, []) => Some v
  | _ => None
  end.

(** The value with its strings made valid. *)
Fixpoint valid (v : json) : json :=
  match v with
  | JBool _ | JNum _ => v
  | JStr s => JStr (valid_utf8 s)
  | JArr vs => JArr (map valid vs)
  | JObj ms => JObj (map (fun m => (valid_utf8 m.1, valid m.2)) ms)
  end.

(** The documented behaviour on quotes, control characters, HTML, the line
    separators and invalid bytes. *)
Example texts :
  escape (str "a<b>&" ++ [x22; x5c; x0a; x01; x7f; xc3; xa9; xff; xe2; x80; xa8; xed; xa0; x80])
  = str "a\u003cb\u003e\u0026\" ++ [x22] ++ str "\\\n\u0001" ++ [x7f; xc3; xa9] ++
    str "\ufffd\u2028\ufffd\ufffd\ufffd" /\
  print (JObj [(str "a", JArr [JNum 0; JBool true; JArr []]); (str "b", JObj [])]) =
  [x7b; x22] ++ str "a" ++ [x22] ++ str ":[0,true,[]]," ++ [x22] ++ str "b" ++ [x22] ++ str ":{}}".
Proof. vm_compute. split; reflexivity. Qed.

(** ** Strings *)

(** What a rune of [runes] can be. *)
Definition rune_ok (r : option (list byte)) : Prop :=
  match r with
  | None => True
  | Some bs => (exists c, bs = [c] /\ b2z c < 128) \/
               ((2 <= length bs)%nat /\ Forall (fun c => 128 <= b2z c) bs)
  end.

Lemma inb_spec lo hi c : inb lo hi c = true <-> lo <= b2z c <= hi.
Proof. unfold inb. rewrite andb_true_iff, !Z.leb_le. done. Qed.

Lemma cont_high c : cont c = true -> 128 <= b2z c.
Proof. intros H%inb_spec. lia. Qed.

Lemma rune_size_ok s k : rune_size s = S k -> rune_ok (Some (take (S k) s)).
Proof.
  unfold rune_size. destruct s as [|a s]; [done|].
  destruct (inb 0 0x7f a) eqn:A; [intros [= <-]; left; exists a; split; [done|]; apply inb_spec in A; lia|].
  destruct s as [|b s]; [done|].
  destruct (inb 0xc2 0xdf a && cont b) eqn:B.
  { intros [= <-]. apply andb_true_iff in B as [B1%inb_spec B2%cont_high]. right. split; [cbn; lia|].
    cbn. repeat constructor; lia. }
  destruct s as [|c s]; [done|].
  destruct (inb 0xe0 0xef a && _ && cont c) eqn:C.
  { intros [= <-]. rewrite !andb_true_iff in C. destruct C as [[C1%inb_spec C2] C3%cont_high].
    right. split; [cbn; lia|]. cbn.
    assert (128 <= b2z b) by (unfold cont in C2; repeat case_match; apply inb_spec in C2; lia).
    repeat constructor; lia. }
  destruct s as [|d s]; [done|].
  destruct (inb 0xf0 0xf4 a && _ && cont c && cont d) eqn:D; [|done].
  intros [= <-]. rewrite !andb_true_iff in D. destruct D as [[[D1%inb_spec D2] D3%cont_high] D4%cont_high].
  right. split; [cbn; lia|]. cbn.
  assert (128 <= b2z b) by (unfold cont in D2; repeat case_match; apply inb_spec in D2; lia).
  repeat constructor; lia.
Qed.

Lemma runes_ok s : Forall rune_ok (runes s).
Proof.
  unfold runes. generalize O. induction s as [|c s IH]; intros skip; cbn [runes_from]; [constructor|].
  destruct skip as [|skip]; [|done]. destruct (rune_size (c :: s)) as [|k] eqn:E; constructor; try done.
  by apply rune_size_ok.
Qed.

(** The reader's answer with bytes put in front. *)
Definition prepend (bs : list byte) (r : option (list byte * list byte)) : option (list byte * list byte) :=
  '(b, s) ← r; Some (bs ++ b, s).

Lemma prepend_app a b r : prepend a (prepend b r) = prepend (a ++ b) r.
Proof. destruct r as [[c s]|]; [|done]. cbn. by rewrite app_assoc. Qed.

Lemma read_string_high bs t : Forall (fun c => 128 <= b2z c) bs ->
  read_string (bs ++ t) = prepend bs (read_string t).
Proof.
  induction 1 as [|c bs H _ IH]; [cbn [app]; by destruct (read_string t) as [[]|]|]. cbn.
  rewrite decide_False; [|intros ->; exact (H eq_refl)].
  rewrite decide_False; [|intros ->; exact (H eq_refl)].
  rewrite (proj2 (Z.ltb_ge _ _)) by lia. rewrite IH. by destruct (read_string t) as [[]|].
Qed.

Lemma read_string_ascii c t : b2z c < 128 -> read_string (esc_ascii c ++ t) = prepend [c] (read_string t).
Proof.
  intros H. destruct c; first [exfalso; vm_compute in H; discriminate H | reflexivity].
Qed.

Lemma read_string_rune r t : rune_ok r ->
  read_string (esc_rune r ++ t) = prepend (default RuneError r) (read_string t).
Proof.
  destruct r as [bs|]; [|intros _; reflexivity]. intros [(c & -> & H)|[L H]].
  - by apply read_string_ascii.
  - destruct bs as [|a [|b bs]]; [cbn in L; lia | cbn in L; lia|]. cbn [esc_rune default].
    case_decide as E1; [rewrite E1; reflexivity|]. case_decide as E2; [rewrite E2; reflexivity|].
    by apply read_string_high.
Qed.

(** A string's literal reads back as the string, made valid. *)
Lemma read_string_escape s rest : read_string (escape s ++ quote :: rest) = Some (valid_utf8 s, rest).
Proof.
  unfold escape, valid_utf8. pose proof (runes_ok s) as H.
  induction H as [|r rs Hr _ IH]; [reflexivity|]. cbn [map concat].
  rewrite <- app_assoc, read_string_rune, IH by done. done.
Qed.

(** ** Numbers *)

Lemma format_digits_digit fuel n acc : (forall c, c ∈ acc -> is_Some (digit c)) ->
  forall c, c ∈ format_digits fuel n acc -> is_Some (digit c).
Proof.
  revert n acc. induction fuel as [|fuel IH]; intros n acc H; [done|]. cbn.
  assert (H' : forall c, c ∈ z2b (48 + n mod 10) :: acc -> is_Some (digit c)).
  { intros c [->|Hc]%elem_of_cons; [|by apply H]. rewrite digit_z2b; [by eexists|]. apply Z.mod_pos_bound. lia. }
  destruct (n <? 10); [done | by apply IH].
Qed.

Lemma FormatUint_digit n c : c ∈ FormatUint n -> is_Some (digit c).
Proof. apply format_digits_digit. by intros c' ?%elem_of_nil. Qed.

(** What may follow a number. *)
Definition stops (rest : list byte) : Prop := forall c, head rest = Some c -> digit c = None.

Lemma read_value_digit fuel c s : is_Some (digit c) ->
  read_value (S fuel) (c :: s) = let '(ds, s) := span_digits (c :: s) in n ← ParseUint ds 64; Some (JNum n, s).
Proof. intros [d H]. destruct c; first [discriminate H | reflexivity]. Qed.

Lemma read_value_num fuel n rest : 0 <= n < 2 ^ 64 -> stops rest ->
  read_value (S fuel) (FormatUint n ++ rest) = Some (JNum n, rest).
Proof.
  intros R Hr. pose proof (FormatUint_digit n) as D. pose proof (proj1 (FormatUint_word n)) as N.
  destruct (FormatUint n) as [|c ds] eqn:E; [done|].
  change ((c :: ds) ++ rest) with (c :: (ds ++ rest)). rewrite read_value_digit by (apply D; by left).
  change (c :: (ds ++ rest)) with ((c :: ds) ++ rest). rewrite span_digits_app; [|done|done].
  by rewrite <- E, ParseUint_FormatUint.
Qed.

(** ** Values *)

(** Induction on values, with the hypothesis for every element and member. *)
Section json_induction.
Variable P : json -> Prop.
Hypothesis P_bool : forall b, P (JBool b).
Hypothesis P_num : forall n, P (JNum n).
Hypothesis P_str : forall s, P (JStr s).
Hypothesis P_arr : forall vs, Forall P vs -> P (JArr vs).
Hypothesis P_obj : forall ms, Forall (fun m => P m.2) ms -> P (JObj ms).

Fixpoint json_induct (v : json) : P v :=
  match v with
  | JBool b => P_bool b
  | JNum n => P_num n
  | JStr s => P_str s
  | JArr vs => P_arr vs ((fix all vs : Forall P vs :=
      match vs with [] => Forall_nil_2 _ | v :: vs => Forall_cons_2 _ v vs (json_induct v) (all vs) end) vs)
  | JObj ms => P_obj ms ((fix all ms : Forall (fun m => P m.2) ms :=
      match ms with [] => Forall_nil_2 _ | m :: ms => Forall_cons_2 _ m ms (json_induct m.2) (all ms) end) ms)
  end.
End json_induction.

(** Numbers are those of an unsigned 64-bit integer. *)
Fixpoint numbers_ok (v : json) : Prop :=
  match v with
  | JBool _ | JStr _ => True
  | JNum n => 0 <= n < 2 ^ 64
  | JArr vs => fold_right (fun v P => numbers_ok v /\ P) True vs
  | JObj ms => fold_right (fun m P => numbers_ok m.2 /\ P) True ms
  end.

(** Fuel that reads the value. *)
Fixpoint weight (v : json) : nat :=
  match v with
  | JArr vs => S (fold_right (fun v n => S (weight v) + n) 0 vs)%nat
  | JObj ms => S (fold_right (fun m n => S (weight m.2) + n) 0 ms)%nat
  | _ => 1%nat
  end.

(** The first byte of a value's text closes nothing. *)
Lemma print_head v c : head (print v) = Some c -> c ≠ x5d /\ c ≠ x7d.
Proof.
  destruct v as [b|n|s|vs|ms]; cbn [print].
  - destruct b; by intros [= <-].
  - intros H. assert (D : is_Some (digit c)).
    { apply (FormatUint_digit n). destruct (FormatUint n); [discriminate H|]. injection H as <-. by left. }
    destruct D as [d D]. split; intros ->; discriminate D.
  - by intros [= <-].
  - by intros [= <-].
  - by intros [= <-].
Qed.

Lemma commas_cons x xs : xs ≠ [] -> commas (x :: xs) = x ++ x2c :: commas xs.
Proof. by destruct xs. Qed.

(** Reading a value back, with enough fuel, whatever follows it. *)
Definition reads (v : json) : Prop := forall fuel rest,
  (weight v <= fuel)%nat -> stops rest -> read_value fuel (print v ++ rest) = Some (valid v, rest).

Lemma stops_cons c s : digit c = None -> stops (c :: s).
Proof. by intros H c' [= <-]. Qed.

Lemma read_elements_print f fuel vs rest : vs ≠ [] -> Forall reads vs ->
  (fold_right (fun v n => S (weight v) + n) 0 vs <= f)%nat -> (length vs <= fuel)%nat ->
  read_elements (read_value f) fuel (commas (map print vs) ++ x5d :: rest) = Some (map valid vs, rest).
Proof.
  intros N H. revert fuel N. induction H as [|v vs Hv H IH]; intros fuel N W F; [done|].
  destruct fuel as [|fuel]; [cbn in F; lia|]. cbn [fold_right] in W. cbn [map].
  destruct (decide (vs = [])) as [->|Nv].
  - cbn [map commas read_elements]. rewrite Hv; [done | lia | by apply stops_cons].
  - rewrite commas_cons by (by destruct vs). rewrite <- app_assoc. cbn [read_elements app].
    rewrite Hv by (lia || by apply stops_cons). cbn [mbind option_bind].
    by rewrite IH by (done || cbn in F; lia).
Qed.

Lemma read_member_print f m rest : reads m.2 -> (weight m.2 <= f)%nat -> stops rest ->
  read_member (read_value f) ((quoted m.1 ++ x3a :: print m.2) ++ rest) = Some ((valid_utf8 m.1, valid m.2), rest).
Proof.
  intros H W S. unfold quoted. rewrite <- app_assoc. cbn [app read_member].
  rewrite <- !app_assoc. cbn [app]. rewrite read_string_escape. cbn [mbind option_bind app]. by rewrite H.
Qed.

Lemma read_members_print f fuel ms rest : ms ≠ [] -> Forall (fun m => reads m.2) ms ->
  (fold_right (fun m n => S (weight m.2) + n) 0 ms <= f)%nat -> (length ms <= fuel)%nat ->
  read_members (read_value f) fuel (commas (map (fun m => quoted m.1 ++ x3a :: print m.2) ms) ++ x7d :: rest)
  = Some (map (fun m => (valid_utf8 m.1, valid m.2)) ms, rest).
Proof.
  intros N H. revert fuel N. induction H as [|m ms Hm H IH]; intros fuel N W F; [done|].
  destruct fuel as [|fuel]; [cbn in F; lia|]. cbn [fold_right] in W. cbn [map].
  destruct (decide (ms = [])) as [->|Nm].
  - cbn [map commas read_members]. rewrite read_member_print; [done | done | lia | by apply stops_cons].
  - rewrite commas_cons by (by destruct ms). rewrite <- app_assoc. cbn [read_members].
    rewrite <- app_comm_cons, read_member_print by (done || lia || by apply stops_cons). cbn [mbind option_bind].
    by rewrite IH by (done || cbn in F; lia).
Qed.

Lemma read_value_arr fuel s : head s ≠ Some x5d ->
  read_value (S fuel) (x5b :: s) = '(vs, s) ← read_elements (read_value fuel) fuel s; Some (JArr vs, s).
Proof. intros H. destruct s as [|c s]; [done|]. destruct c; first [by destruct H | reflexivity]. Qed.

Lemma read_value_obj fuel s : head s ≠ Some x7d ->
  read_value (S fuel) (x7b :: s) = '(ms, s) ← read_members (read_value fuel) fuel s; Some (JObj ms, s).
Proof. intros H. destruct s as [|c s]; [done|]. destruct c; first [by destruct H | reflexivity]. Qed.

Lemma weight_pos v : (1 <= weight v)%nat.
Proof. destruct v; cbn; lia. Qed.

Lemma fold_weight_length {A} (f : A -> nat) xs : (length xs <= fold_right (fun x n => S (f x) + n) 0 xs)%nat.
Proof. induction xs as [|x xs IH]; cbn [fold_right length]; lia. Qed.

Lemma head_commas x xs rest : x ≠ [] -> head (commas (x :: xs) ++ rest) = head x.
Proof. destruct x; [done|]. by destruct xs. Qed.

Lemma print_nonempty v : print v ≠ [].
Proof.
  destruct v as [[]|n|s|vs|ms]; cbn [print]; try done. apply FormatUint_word.
Qed.

Lemma print_reads v : numbers_ok v -> reads v.
Proof.
  induction v as [b|n|s|vs IH|ms IH] using json_induct; intros Hn [|fuel] rest W St;
    try (pose proof (weight_pos (JBool true)); cbn in W; lia).
  - destruct b, rest; reflexivity.
  - by apply read_value_num.
  - cbn [print]. unfold quoted. rewrite <- app_comm_cons, <- app_assoc. cbn [read_value quote app].
    by rewrite read_string_escape.
  - cbn [print valid]. cbn [weight] in W. rewrite <- app_comm_cons, <- app_assoc.
    destruct (decide (vs = [])) as [->|N]; [done|].
    rewrite read_value_arr.
    + cbn [app]. rewrite read_elements_print; [done | done | | lia |].
      * clear - IH Hn. cbn [numbers_ok] in Hn. induction IH as [|v vs H _ IHv]; [constructor|].
        destruct Hn. constructor; auto.
      * pose proof (fold_weight_length weight vs). lia.
    + destruct vs as [|v vs]; [done|]. cbn [map]. rewrite head_commas by apply print_nonempty.
      intros E. by apply print_head in E as [E _].
  - cbn [print valid]. cbn [weight] in W. rewrite <- app_comm_cons, <- app_assoc.
    destruct (decide (ms = [])) as [->|N]; [done|].
    rewrite read_value_obj.
    + cbn [app]. rewrite read_members_print; [done | done | | lia |].
      * clear - IH Hn. cbn [numbers_ok] in Hn. induction IH as [|m ms H _ IHm]; [constructor|].
        destruct Hn. constructor; auto.
      * pose proof (fold_weight_length (fun m => weight m.2) ms). lia.
    + destruct ms as [|m ms]; [done|]. cbn [map]. rewrite head_commas by done. done.
Qed.

(** The text of a value is at least as long as its weight. *)
Lemma fold_weight_commas {A} (f : A -> nat) (g : A -> list byte) xs :
  Forall (fun x => f x <= length (g x))%nat xs ->
  (fold_right (fun x n => S (f x) + n) 0 xs <= S (length (commas (map g xs))))%nat.
Proof.
  induction 1 as [|x xs H _ IH]; [cbn; lia|]. cbn [fold_right map].
  destruct xs as [|y xs]; [cbn; lia|]. rewrite commas_cons by done.
  rewrite length_app. cbn [length]. cbn [map] in *. lia.
Qed.

Lemma weight_length v : (weight v <= length (print v))%nat.
Proof.
  induction v as [b|n|s|vs IH|ms IH] using json_induct; cbn [weight print].
  - destruct b; cbn; lia.
  - pose proof (proj1 (FormatUint_word n)). destruct (FormatUint n); cbn; [done | lia].
  - cbn. lia.
  - pose proof (fold_weight_commas weight print vs IH). cbn [length]. rewrite length_app. cbn [length]. lia.
  - pose proof (fold_weight_commas (fun m => weight m.2) (fun m => quoted m.1 ++ x3a :: print m.2) ms) as H.
    cbn [length]. rewrite length_app. cbn [length].
    assert (Forall (fun m => weight m.2 <= length (quoted m.1 ++ x3a :: print m.2))%nat ms).
    { eapply Forall_impl; [exact IH|]. intros m Hm. rewrite length_app. cbn [length]. cbn in Hm. lia. }
    specialize (H ltac:(done)). lia.
Qed.

(** ** Properties *)

(** The text of a value is a JSON document, and it is that value: reading it gives
    the value back, with invalid UTF-8 in its strings replaced. *)
Theorem Parse_print v : numbers_ok v -> Parse (print v) = Some (valid v).
Proof.
  intros H. unfold Parse. rewrite <- (app_nil_r (print v)) at 2.
  rewrite (print_reads v H); [done | | done]. pose proof (weight_length v). lia.
Qed.

(** *** Valid strings *)

Lemma rune_size_length s : (rune_size s <= length s)%nat.
Proof.
  unfold rune_size. destruct s as [|a [|b [|c [|d s]]]]; cbn [length]; repeat case_match; lia.
Qed.

Lemma runes_concat skip s : (skip <= length s)%nat -> Forall (is_Some (A := _)) (runes_from skip s) ->
  concat (map (default RuneError) (runes_from skip s)) = drop skip s.
Proof.
  revert skip. induction s as [|c s IH]; intros skip L F; cbn [runes_from] in *.
  { by destruct skip. }
  destruct skip as [|skip]; [|cbn [drop]; apply IH; [cbn in L; lia | done]].
  pose proof (rune_size_length (c :: s)) as R. destruct (rune_size (c :: s)) as [|k] eqn:E.
  - apply Forall_cons in F as [[? ?] _]. done.
  - apply Forall_cons in F as [_ F]. cbn [map concat default]. cbn [length] in R.
    rewrite IH by (done || lia). cbn [take drop]. unfold id. rewrite <- app_comm_cons. f_equal. apply take_drop.
Qed.

(** A string of runes is left alone. *)
Lemma valid_utf8_id s : Forall (is_Some (A := _)) (runes s) -> valid_utf8 s = s.
Proof. intros F. unfold valid_utf8, runes. rewrite runes_concat; [done | lia | done]. Qed.

Lemma runes_ascii s : Forall (fun c => b2z c < 128) s -> runes s = map (fun c => Some [c]) s.
Proof.
  unfold runes. induction 1 as [|c s H _ IH]; [done|]. cbn [runes_from].
  assert (E : rune_size (c :: s) = 1%nat).
  { unfold rune_size. rewrite (proj2 (inb_spec 0 0x7f c)); [done|]. pose proof (b2z_range c). lia. }
  rewrite E. cbn [map]. by rewrite IH.
Qed.

Lemma valid_utf8_ascii s : Forall (fun c => b2z c < 128) s -> valid_utf8 s = s.
Proof.
  intros H. unfold valid_utf8. rewrite runes_ascii by done. clear H.
  induction s as [|c s IH]; [done|]. cbn. by rewrite IH.
Qed.

(** *** One line *)

Definition graphic (c : byte) : Prop := 32 <= b2z c.

Lemma esc_rune_graphic r : rune_ok r -> Forall graphic (esc_rune r).
Proof.
  destruct r as [bs|]; [|intros _; repeat constructor; done]. intros [(c & -> & H)|[L H]].
  - cbn [esc_rune]. unfold graphic. destruct c; repeat constructor; done.
  - destruct bs as [|a [|b bs]]; [cbn in L; lia | cbn in L; lia|]. cbn [esc_rune].
    case_decide; [repeat constructor; done|]. case_decide; [repeat constructor; done|].
    eapply Forall_impl; [exact H|]. unfold graphic. intros c Hc. lia.
Qed.

Lemma quoted_graphic s : Forall graphic (quoted s).
Proof.
  unfold quoted. constructor; [done|]. apply Forall_app. split; [|by repeat constructor].
  unfold escape. pose proof (runes_ok s) as H. induction H as [|r rs Hr _ IH]; [constructor|].
  cbn. apply Forall_app. split; [by apply esc_rune_graphic | done].
Qed.

Lemma commas_graphic xs : Forall (Forall graphic) xs -> Forall graphic (commas xs).
Proof.
  induction 1 as [|x xs H _ IH]; [constructor|]. destruct xs as [|y xs]; [done|].
  rewrite commas_cons by done. apply Forall_app. split; [done|]. by constructor.
Qed.

Lemma print_graphic v : Forall graphic (print v).
Proof.
  induction v as [b|n|s|vs IH|ms IH] using json_induct; cbn [print].
  - destruct b; repeat constructor; done.
  - apply Forall_forall. intros c Hc. apply FormatUint_digit in Hc as [d D]. unfold graphic, digit in *.
    destruct (Z.leb_spec 0 (b2z c - 48)); [lia | done].
  - apply quoted_graphic.
  - constructor; [done|]. apply Forall_app. split; [|by repeat constructor]. by apply commas_graphic, Forall_fmap.
  - constructor; [done|]. apply Forall_app. split; [|by repeat constructor].
    apply commas_graphic, Forall_fmap. eapply Forall_impl; [exact IH|]. intros m Hm. apply Forall_app.
    split; [apply quoted_graphic|]. by constructor.
Qed.

(** The text holds no control character, in particular no newline. *)
Lemma print_one_line v : x0a ∉ print v.
Proof. intros H. pose proof (print_graphic v) as G. rewrite Forall_forall in G. by apply G in H. Qed.
