(* ===== verification/GoFlag.v ===== *)
(** * Command line flags

    The [flag] package as [main.go] uses it (string, int and duration flags, errors
    that end the process), with [strconv.ParseInt] at base 0 and
    [time.ParseDuration].  An error's text, which goes to stderr, is not modelled:
    parsing a value is [None] on every error. *)

From Stdlib Require Import ZArith Lia.
From Stdlib Require Import String.
From Stdlib Require Import Floats.SpecFloat.
From stdpp Require Import prelude list.
From S2P Require Import Prelude GoStd GoText.

Local Open Scope string_scope.
Local Open Scope list_scope.
Local Open Scope Z_scope.

(** ** strconv.ParseInt(s, 0, 64) *)

Definition lower (c : byte) : Z := Z.lor (b2z c) 0x20.

(** The value of a digit in the bases up to 36. *)
Definition digit36 (c : byte) : option Z :=
  if (48 <=? b2z c) && (b2z c <=? 57) then Some (b2z c - 48)
  else if (97 <=? lower c) && (lower c <=? 122) then Some (lower c - 97 + 10) else None.

Definition underscore : byte := x5f.

(** The digits of a number, with the underscores that base 0 allows.  The code stops
    at the first value out of range; the value only grows. *)
Fixpoint parse_radix (base n : Z) (s : list byte) : option Z :=
  match s with
  | [] => Some n
  | c :: s =>
      if decide (c = underscore) then parse_radix base n s
      else match digit36 c with
           | Some d => if d <? base then parse_radix base (n * base + d) s else None
           | None => None
           end
  end.

(** The base from the prefix, and the digits. *)
Definition radix (s : list byte) : Z * list byte :=
  match s with
  | c0 :: rest =>
      if decide (c0 = x30) then
        match rest with
        | c1 :: ((_ :: _) as ds) =>
            if lower c1 =? 98 then (2, ds)
            else if lower c1 =? 111 then (8, ds)
            else if lower c1 =? 120 then (16, ds)
            else (8, rest)
        | _ => (8, rest)
        end
      else (10, s)
  | [] => (10, s)
  end.

(** What [underscoreOK] has seen last. *)
Inductive seen := SeenStart | SeenDigit | SeenUnderscore | SeenOther.

Fixpoint underscores (hex : bool) (saw : seen) (s : list byte) : bool :=
  match s with
  | [] => match saw with SeenUnderscore => false | _ => true end
  | c :: s =>
      if ((48 <=? b2z c) && (b2z c <=? 57)) || (hex && (97 <=? lower c) && (lower c <=? 102))
      then underscores hex SeenDigit s
      else if decide (c = underscore) then
        match saw with SeenDigit => underscores hex SeenUnderscore s | _ => false end
      else match saw with SeenUnderscore => false | _ => underscores hex SeenOther s end
  end.

(** [underscoreOK], on a number whose sign [ParseInt] has taken off. *)
Definition underscoreOK (s : list byte) : bool :=
  match s with
  | c0 :: c1 :: rest =>
      if decide (c0 = x30) then
        if (lower c1 =? 98) || (lower c1 =? 111) || (lower c1 =? 120)
        then underscores (lower c1 =? 120) SeenDigit rest else underscores false SeenStart s
      else underscores false SeenStart s
  | _ => underscores false SeenStart s
  end.

Definition signed (s : list byte) : bool :=
  match s with c :: _ => bool_decide (c = x2b \/ c = x2d) | [] => false end.

(** [strconv.ParseUint(s, 0, 64)]; a second sign would be no digit. *)
Definition ParseUint0 (s : list byte) : option Z :=
  match s with
  | [] => None
  | _ =>
      let '(base, ds) := radix s in
      match parse_radix base 0 ds with
      | Some n =>
          if n <? 2 ^ 64 then
            if bool_decide (underscore ∈ ds) && negb (underscoreOK s) then None else Some n
          else None
      | None => None
      end
  end.

Definition ParseInt0 (s : list byte) : option Z :=
  let neg := match s with c :: _ => bool_decide (c = x2d) | [] => false end in
  match ParseUint0 (if signed s then tail s else s) with
  | Some un =>
      if neg then if 2 ^ 63 <? un then None else Some (- un)
      else if 2 ^ 63 <=? un then None else Some un
  | None => None
  end.

Example ParseInt0_checks :
  ParseInt0 (str "100_000") = Some 100000 /\ ParseInt0 (str "0x1F") = Some 31 /\ ParseInt0 (str "-0b101") = Some (-5) /\
  ParseInt0 (str "017") = Some 15 /\ ParseInt0 (str "0o17") = Some 15 /\ ParseInt0 (str "0") = Some 0 /\
  ParseInt0 (str "0_7") = Some 7 /\ ParseInt0 (str "0x_f") = Some 15 /\ ParseInt0 (str "+8") = Some 8 /\
  ParseInt0 (str "1__0") = None /\ ParseInt0 (str "10_") = None /\ ParseInt0 (str "_10") = None /\
  ParseInt0 (str "08") = None /\ ParseInt0 (str "") = None /\ ParseInt0 (str "-") = None /\ ParseInt0 (str "0x") = None /\
  ParseInt0 (str "9223372036854775807") = Some 9223372036854775807 /\ ParseInt0 (str "9223372036854775808") = None /\
  ParseInt0 (str "-9223372036854775808") = Some (-9223372036854775808).
Proof. vm_compute. by split_and!. Qed.

(** ** time.ParseDuration *)

Definition unit_of (u : list byte) : option Z :=
  if decide (u = str "ns") then Some 1
  else if decide (u = str "us" \/ u = [xc2; xb5; x73] \/ u = [xce; xbc; x73]) then Some 1000
  else if decide (u = str "ms") then Some 1000000
  else if decide (u = str "s") then Some 1000000000
  else if decide (u = str "m") then Some 60000000000
  else if decide (u = str "h") then Some 3600000000000
  else None.

(** [leadingInt], on the digits it consumes. *)
Fixpoint leadingInt (x : Z) (ds : list byte) : option Z :=
  match ds with
  | [] => Some x
  | c :: ds =>
      match digit c with
      | Some d => if 2 ^ 63 / 10 <? x then None
                  else let x := x * 10 + d in if 2 ^ 63 <? x then None else leadingInt x ds
      | None => Some x
      end
  end.

(** A [float64]: IEEE 754 binary64. *)
Definition float64 (n : Z) : spec_float := binary_normalize 53 1024 n 0 false.
Definition f_mul : spec_float -> spec_float -> spec_float := SFmul 53 1024.
Definition f_div : spec_float -> spec_float -> spec_float := SFdiv 53 1024.

(** [uint64(f)] of a float that is not negative: toward zero. *)
Definition f_trunc (f : spec_float) : Z :=
  match f with S754_finite _ m e => Z.shiftl (Z.pos m) e | _ => 0 end.

(** [leadingFraction], on the digits it consumes: the fraction and its scale; digits
    past the range of 63 bits are ignored. *)
Fixpoint leadingFraction (x : Z) (scale : spec_float) (overflow : bool) (ds : list byte) : Z * spec_float :=
  match ds with
  | [] => (x, scale)
  | c :: ds =>
      match digit c with
      | Some d =>
          if overflow || ((2 ^ 63 - 1) / 10 <? x) then leadingFraction x scale true ds
          else let y := x * 10 + d in
               if 2 ^ 63 <? y then leadingFraction x scale true ds
               else leadingFraction y (f_mul scale (float64 10)) false ds
      | None => (x, scale)
      end
  end.

(** The bytes of a unit: up to a digit or a period. *)
Fixpoint span_unit (s : list byte) : list byte * list byte :=
  match s with
  | [] => ([], [])
  | c :: s' => if decide (c = x2e) then ([], s)
               else match digit c with
                    | Some _ => ([], s)
                    | None => let '(u, r) := span_unit s' in (c :: u, r)
                    end
  end.

(** The loop: [d] is the sum so far, [fuel] at least the length of [s]. *)
Fixpoint duration_loop (fuel : nat) (d : Z) (s : list byte) : option Z :=
  match fuel, s with
  | _, [] => Some d
  | O, _ => None
  | S fuel, _ =>
      let '(ds, s1) := span_digits s in
      match leadingInt 0 ds with
      | None => None
      | Some v =>
          let '(fs, s2) := match s1 with
                           | c :: r => if decide (c = x2e) then span_digits r else ([], s1)
                           | [] => ([], s1)
                           end in
          if decide (ds = [] /\ fs = []) then None else
          let '(u, s3) := span_unit s2 in
          match unit_of u with
          | None => None
          | Some unit =>
              if 2 ^ 63 / unit <? v then None else
              let '(f, scale) := leadingFraction 0 (float64 1) false fs in
              let v := v * unit + (if 0 <? f then f_trunc (f_mul (float64 f) (f_div (float64 unit) scale)) else 0) in
              if 2 ^ 63 <? v then None else
              let d := u64 (d + v) in
              if 2 ^ 63 <? d then None else duration_loop fuel d s3
          end
      end
  end.

(** In nanoseconds. *)
Definition ParseDuration (s : list byte) : option Z :=
  let neg := match s with c :: _ => bool_decide (c = x2d) | [] => false end in
  let s := if signed s then tail s else s in
  if decide (s = str "0") then Some 0 else
  if decide (s = []) then None else
  match duration_loop (length s) 0 s with
  | None => None
  | Some d => if neg then Some (- d) else if 2 ^ 63 - 1 <? d then None else Some d
  end.

Example ParseDuration_checks :
  ParseDuration (str "1.5s") = Some 1500000000 /\ ParseDuration (str "0.1s") = Some 100000000 /\
  ParseDuration (str "-2m3.4s") = Some (-123400000000) /\ ParseDuration (str "1h2m3s4ms5us6ns") = Some 3723004005006 /\
  ParseDuration (str "0") = Some 0 /\ ParseDuration (str "0.3333333333333333333h") = Some 1200000000000 /\
  ParseDuration (str "39h9m14.425s") = Some 140954425000000 /\ ParseDuration (str ".5m") = Some 30000000000 /\
  ParseDuration (str "5.s") = Some 5000000000 /\ ParseDuration (str "0.100000000000000000000h") = Some 360000000000 /\
  ParseDuration (str "9223372036854775807ns") = Some 9223372036854775807 /\
  ParseDuration (str "9223372036854775808ns") = None /\ ParseDuration (str "-9223372036854775808ns") = Some (-9223372036854775808) /\
  ParseDuration (str "3000000h") = None /\ ParseDuration (str "10") = None /\ ParseDuration (str ".s") = None /\
  ParseDuration (str "") = None /\ ParseDuration (str "-") = None /\ ParseDuration (str "1x") = None.
Proof. vm_compute. by split_and!. Qed.

(** ** flag.Parse *)

Inductive flag_error :=
| BadSyntax (arg : list byte)
| NotDefined (name : list byte)
| NeedsArgument (name : list byte)
| InvalidValue (name value : list byte).

Inductive parsed (A : Type) :=
| Parsed (o : A) (args : list (list byte))   (** with the arguments left *)
| ErrHelp
| FlagError (err : flag_error).
Arguments Parsed {A}.
Arguments ErrHelp {A}.
Arguments FlagError {A}.

(** What [parseOne] finds in one argument. *)
Inductive token :=
| NoFlag                                        (** not a flag: the flags end before it *)
| Terminator                                    (** [--]: the flags end after it *)
| BadFlag
| AFlag (name : list byte) (value : option (list byte)).

Definition dash : byte := x2d.
Definition equals : byte := x3d.

(** [name] or [name=value]; an equals sign cannot come first. *)
Definition split_flag (name : list byte) : token :=
  match name with
  | [] => BadFlag
  | c :: rest =>
      if decide (c = dash \/ c = equals) then BadFlag
      else let '(n, v, found) := CutByte rest equals in
           if found then AFlag (c :: n) (Some v) else AFlag name None
  end.

Definition classify (s : list byte) : token :=
  match s with
  | c0 :: c1 :: rest =>
      if decide (c0 = dash) then
        if decide (c1 = dash) then match rest with [] => Terminator | _ => split_flag rest end
        else split_flag (c1 :: rest)
      else NoFlag
  | _ => NoFlag
  end.

Section flags.
Context {A : Type}.
(** The flags that are declared: how each changes the options, or refuses a value. *)
Variable formal : list byte -> option (list byte -> A -> option A).

Fixpoint Parse (args : list (list byte)) (o : A) : parsed A :=
  match args with
  | [] => Parsed o []
  | s :: args' =>
      match classify s with
      | NoFlag => Parsed o args
      | Terminator => Parsed o args'
      | BadFlag => FlagError (BadSyntax s)
      | AFlag name value =>
          match formal name with
          | None => if decide (name = str "help" \/ name = str "h") then ErrHelp else FlagError (NotDefined name)
          | Some set =>
              match value with
              | Some v => match set v o with Some o => Parse args' o | None => FlagError (InvalidValue name v) end
              | None =>
                  match args' with
                  | [] => FlagError (NeedsArgument name)
                  | v :: args' => match set v o with Some o => Parse args' o | None => FlagError (InvalidValue name v) end
                  end
              end
          end
      end
  end.

(** *** A command line from settings *)

(** How a setting is written: with one dash or two, its value in the same argument
    or the next. *)
Record setting := Setting { s_name : list byte; s_value : list byte; s_dashes : bool; s_joined : bool }.

Definition dashes (two : bool) : list byte := if two then [dash; dash] else [dash].

Definition setting_args (x : setting) : list (list byte) :=
  if s_joined x then [dashes (s_dashes x) ++ s_name x ++ equals :: s_value x]
  else [dashes (s_dashes x) ++ s_name x; s_value x].

(** A name that can be written on a command line. *)
Definition flag_name (n : list byte) : Prop :=
  match n with c :: _ => c <> dash | [] => False end /\ equals ∉ n.

(** The settings take effect in order; the first value refused ends the parse. *)
Fixpoint apply_settings (xs : list setting) (o : A) : A + flag_error :=
  match xs with
  | [] => inl o
  | x :: xs =>
      match formal (s_name x) with
      | None => inr (NotDefined (s_name x))
      | Some set => match set (s_value x) o with
                    | Some o => apply_settings xs o
                    | None => inr (InvalidValue (s_name x) (s_value x))
                    end
      end
  end.

(** ** Lemmas *)

Lemma split_flag_name n : flag_name n -> split_flag n = AFlag n None.
Proof.
  intros [Hd He]. destruct n as [|c n]; [done|]. apply not_elem_of_cons in He as [Hc He]. unfold split_flag.
  rewrite decide_False by (intros [->| ->]; done). by rewrite CutByte_none.
Qed.

Lemma split_flag_value n v : flag_name n -> split_flag (n ++ equals :: v) = AFlag n (Some v).
Proof.
  intros [Hd He]. destruct n as [|c n]; [done|]. apply not_elem_of_cons in He as [Hc He]. cbn.
  rewrite decide_False by (intros [->| ->]; done). by rewrite CutByte_app.
Qed.

Lemma classify_dashes two n r : flag_name n -> classify (dashes two ++ n ++ r) = split_flag (n ++ r).
Proof. intros [Hd He]. destruct n as [|c n]; [done|]. destruct two; [done|]. cbn -[split_flag]. by rewrite decide_True, decide_False by done. Qed.

(** A command line made of settings, whatever the spelling of each, and what follows
    them. *)
Lemma Parse_settings xs rest o :
  Forall (fun x => flag_name (s_name x) /\ is_Some (formal (s_name x))) xs ->
  Parse (concat (map setting_args xs) ++ rest) o =
  match apply_settings xs o with inl o => Parse rest o | inr err => FlagError err end.
Proof.
  intros F. revert o. induction F as [|[n v two joined] xs [Hn [set Hs]] F IH]; intros o; [done|]. cbn in Hn, Hs.
  cbn [map concat apply_settings s_name s_value]. rewrite Hs. unfold setting_args at 1. cbn [s_joined s_name s_value s_dashes].
  destruct joined; cbn [app Parse].
  - rewrite classify_dashes, split_flag_value, Hs by done. by destruct (set v o).
  - rewrite <- (app_nil_r n) at 1. rewrite classify_dashes, app_nil_r, split_flag_name, Hs by done. by destruct (set v o).
Qed.

(** What every declared flag preserves holds of the options parsed. *)
Lemma Parse_inv (P : A -> Prop) args o o' rest :
  (forall name set, formal name = Some set -> forall v o o', set v o = Some o' -> P o -> P o') ->
  P o -> Parse args o = Parsed o' rest -> P o'.
Proof.
  intros I. remember (length args) as n eqn:L. revert args o L.
  induction n as [n IH] using lt_wf_ind; intros [|s args] o L Po E; cbn in L, E; try (by injection E as <- _).
  destruct (classify s) as [| | |name value]; try done; try (by injection E as <- _).
  destruct (formal name) as [set|] eqn:F; [|by case_decide].
  destruct value as [v|].
  - destruct (set v o) as [o1|] eqn:S; [|done]. eapply (IH (length args)), E; [lia | done | by eapply I].
  - destruct args as [|v args]; [done|]. cbn in L. destruct (set v o) as [o1|] eqn:S; [|done].
    eapply (IH (length args)), E; [lia | done | by eapply I].
Qed.
End flags.

(** *** Numbers *)

Lemma digit36_digit c d : digit c = Some d -> digit36 c = Some d /\ 0 <= d < 10 /\ c <> underscore /\ c <> x2b /\ c <> x2d.
Proof.
  unfold digit, digit36. intros E.
  destruct (Z.leb_spec 0 (b2z c - 48)), (Z.leb_spec (b2z c - 48) 9); cbn in E; try done. injection E as <-.
  rewrite (proj2 (Z.leb_le _ _)), (proj2 (Z.leb_le _ _)) by lia. split_and!; [done | lia | lia | ..];
    intros ->; vm_compute in *; congruence.
Qed.

(** Decimal digits without a leading zero. *)
Lemma parse_radix_digits bits ds m n : parse_digits bits m ds = Some n -> parse_radix 10 m ds = Some n.
Proof.
  revert m. induction ds as [|c ds IH]; intros m; cbn; [done|]. destruct (digit c) as [d|] eqn:D; [|done].
  apply digit36_digit in D as (-> & Hd & Hu & _). rewrite decide_False by done.
  rewrite (proj2 (Z.ltb_lt d 10)) by lia. destruct (_ <? _); [|done]. rewrite (Z.mul_comm m). apply IH.
Qed.

Lemma FormatUint_digits n c : c ∈ FormatUint n -> is_Some (digit c).
Proof.
  unfold FormatUint. generalize 20%nat as fuel. intros fuel. revert n. induction fuel as [|fuel IH]; intros n; cbn; [by intros ?%not_elem_of_nil|].
  assert (D : is_Some (digit (z2b (48 + n mod 10)))).
  { exists (n mod 10). apply digit_z2b. by apply Z.mod_pos_bound. }
  destruct (n <? 10); [by intros ->%list_elem_of_singleton|]. rewrite format_digits_app.
  intros [H| ->%list_elem_of_singleton]%elem_of_app; [by apply (IH (n / 10)) | done].
Qed.

Lemma FormatUint_head n : 0 < n < 10 ^ 20 -> exists c ds, FormatUint n = c :: ds /\ c <> x30.
Proof.
  unfold FormatUint. change (10 ^ 20) with (10 ^ Z.of_nat 20). generalize 20%nat as fuel. intros fuel. revert n.
  induction fuel as [|fuel IH]; intros n H; [cbn in H; lia|]. cbn. destruct (Z.ltb_spec n 10) as [L|L].
  - rewrite Z.mod_small by lia. exists (z2b (48 + n)), []. split; [done|]. intros E.
    assert (X : digit x30 = Some n) by (rewrite <- E; apply digit_z2b; lia). vm_compute in X. injection X as <-. lia.
  - rewrite format_digits_app. destruct (IH (n / 10)) as (c & ds & -> & Hc).
    { rewrite Nat2Z.inj_succ, Z.pow_succ_r in H by lia.
      split; [apply Z.div_str_pos; lia | apply Z.div_lt_upper_bound; lia]. }
    by exists c, (ds ++ [z2b (48 + n mod 10)]).
Qed.

(** [strconv.FormatInt(n, 10)] *)
Definition FormatInt (n : Z) : list byte := if n <? 0 then x2d :: FormatUint (- n) else FormatUint n.

Lemma ParseUint0_FormatUint n : 0 <= n < 2 ^ 64 -> ParseUint0 (FormatUint n) = Some n.
Proof.
  intros H. pose proof (ParseUint_FormatUint 64 n H ltac:(lia)) as P. unfold ParseUint in P.
  destruct (decide (n = 0)) as [->|N]; [done|].
  destruct (FormatUint_head n) as (c & ds & E & Hc); [lia|].
  unfold ParseUint0. rewrite E in *. unfold radix. rewrite decide_False by done.
  rewrite (parse_radix_digits _ _ _ _ P), (proj2 (Z.ltb_lt _ _)) by lia.
  rewrite bool_decide_false; [done|]. intros Hu. rewrite <- E in Hu.
  apply FormatUint_digits in Hu as [d Hd]. by apply digit36_digit in Hd as (_ & _ & Hd & _).
Qed.

Lemma signed_FormatUint n : 0 <= n < 2 ^ 64 -> signed (FormatUint n) = false /\
  match FormatUint n with c :: _ => bool_decide (c = x2d) | [] => false end = false.
Proof.
  intros H. destruct (FormatUint n) as [|c ds] eqn:E; [done|].
  destruct (FormatUint_digits n c) as [d D]; [rewrite E; left|]. apply digit36_digit in D as (_ & _ & _ & Hp & Hm).
  cbn. by rewrite !bool_decide_false by (try intros [->| ->]; done).
Qed.

Lemma ParseInt0_FormatInt n : - 2 ^ 63 <= n < 2 ^ 63 -> ParseInt0 (FormatInt n) = Some n.
Proof.
  intros H. unfold FormatInt, ParseInt0. destruct (Z.ltb_spec n 0) as [L|L].
  - cbn [signed]. rewrite !bool_decide_true by auto. cbn [tail]. rewrite ParseUint0_FormatUint by lia.
    rewrite (proj2 (Z.ltb_ge _ _)) by lia. f_equal. lia.
  - destruct (signed_FormatUint n) as [-> ->]; [lia|]. rewrite ParseUint0_FormatUint by lia.
    by rewrite (proj2 (Z.leb_gt _ _)) by lia.
Qed.

(** *** Durations *)

Lemma span_digits_length s : (length (span_digits s).1 + length (span_digits s).2 = length s)%nat.
Proof. induction s as [|c s IH]; cbn; [done|]. destruct (digit c); [|done]. destruct (span_digits s). cbn in *. lia. Qed.

Lemma span_unit_length s : (length (span_unit s).1 + length (span_unit s).2 = length s)%nat.
Proof.
  induction s as [|c s IH]; cbn; [done|]. destruct (decide (c = x2e)); [done|]. destruct (digit c); [done|].
  destruct (span_unit s). cbn in *. lia.
Qed.

(** The loop takes at least the unit in a turn: more fuel than the length of the text
    changes nothing. *)
Lemma duration_loop_fuel fuel d s : (length s <= fuel)%nat -> duration_loop fuel d s = duration_loop (length s) d s.
Proof.
  revert d s. induction fuel as [fuel IH] using lt_wf_ind. intros d s L.
  destruct s as [|c s]; [by destruct fuel|]. destruct fuel as [|fuel]; [cbn in L; lia|].
  cbn [length duration_loop]. cbn [length] in L.
  pose proof (span_digits_length (c :: s)) as L1. destruct (span_digits (c :: s)) as [ds s1] eqn:E1.
  destruct (leadingInt 0 ds) as [v|]; [|done].
  assert (L2 : (length (match s1 with c :: r => if decide (c = x2e) then span_digits r else ([], s1) | [] => ([], s1) end).2
                <= length s1)%nat).
  { destruct s1 as [|c1 r]; [done|]. destruct (decide (c1 = x2e)); [|done]. pose proof (span_digits_length r). cbn. lia. }
  destruct (match s1 with c :: r => _ | [] => _ end) as [fs s2]. destruct (decide (ds = [] /\ fs = [])); [done|].
  pose proof (span_unit_length s2) as L3. destruct (span_unit s2) as [u s3].
  destruct (unit_of u) as [unit|] eqn:U; [|done]. destruct (_ <? v); [done|].
  destruct (leadingFraction _ _ _ _) as [f scale]. destruct (_ <? _); [done|]. cbv zeta. destruct (_ <? u64 _); [done|].
  assert (length u <> 0)%nat by (intros ->%nil_length_inv; done). cbn in *.
  rewrite (IH fuel), (IH (length s)) by lia. done.
Qed.

(** Whole numbers with units. *)
Definition duration_text (l : list (Z * list byte)) : list byte := concat (map (fun p => FormatUint p.1 ++ p.2) l).
Definition duration_total (l : list (Z * list byte)) : Z := foldr Z.add 0 (map (fun p => p.1 * default 0 (unit_of p.2)) l).

Definition component (p : Z * list byte) : Prop := 0 <= p.1 /\ is_Some (unit_of p.2).

Lemma unit_props u m : unit_of u = Some m -> 0 < m /\ u <> [] /\ Forall (fun c => digit c = None /\ c <> x2e) u.
Proof.
  unfold unit_of. intros E. repeat case_decide; try done; injection E as <-;
    repeat match goal with H : _ \/ _ |- _ => destruct H end; subst; (split; [done|]); (split; [done|]);
    vm_compute; repeat constructor; by intros [=].
Qed.

Lemma span_unit_app u rest : Forall (fun c => digit c = None /\ c <> x2e) u ->
  match rest with c :: _ => is_Some (digit c) | [] => True end -> span_unit (u ++ rest) = (u, rest).
Proof.
  intros F R. induction F as [|c u [D N] F IH]; cbn.
  - destruct rest as [|c rest]; [done|]. cbn. destruct (decide (c = x2e)); [done|]. by destruct R as [d ->].
  - rewrite decide_False, D by done. by rewrite IH.
Qed.

Lemma parse_digits_mono bits m ds n : 0 <= m -> parse_digits bits m ds = Some n -> m <= n.
Proof.
  revert m. induction ds as [|c ds IH]; intros m Hm; cbn; [by intros [= ->]|].
  destruct (digit c) as [d|] eqn:D; [|done]. apply digit36_digit in D as (_ & Hd & _).
  destruct (_ <? _); [|done]. intros E. apply IH in E; lia.
Qed.

Lemma leadingInt_digits bits x ds n : 0 <= x -> parse_digits bits x ds = Some n -> n <= 2 ^ 63 -> leadingInt x ds = Some n.
Proof.
  revert x. induction ds as [|c ds IH]; intros x Hx; cbn [parse_digits leadingInt]; [done|].
  destruct (digit c) as [d|] eqn:D; [|done]. apply digit36_digit in D as (_ & Hd & _).
  destruct (10 * x + d <? 2 ^ bits); [|done]. intros E L. assert (M : 10 * x + d <= n) by (apply (parse_digits_mono bits _ ds); [lia | done]).
  rewrite (proj2 (Z.ltb_ge _ _)) by (apply Z.div_le_lower_bound; lia).
  rewrite (proj2 (Z.ltb_ge _ _)) by lia. rewrite (Z.mul_comm x). apply IH; [lia | done..].
Qed.

Lemma duration_text_head l : Forall component l -> match duration_text l with c :: _ => is_Some (digit c) | [] => True end.
Proof.
  intros F. destruct F as [|[n u] l _ _]; [done|]. unfold duration_text. cbn [map concat fst snd].
  destruct (FormatUint n) as [|c ds] eqn:E.
  - by apply format_digits_nonempty in E; [|lia].
  - apply (FormatUint_digits n). rewrite E. left.
Qed.

Lemma duration_total_nonneg l : Forall component l -> 0 <= duration_total l.
Proof.
  unfold duration_total. induction 1 as [|[n u] l [Hn [m Hm]] F IH]; [done|]. cbn in *. rewrite Hm. cbn.
  pose proof (unit_props u m Hm) as [P _]. nia.
Qed.

Lemma duration_loop_units l d : Forall component l -> 0 <= d -> d + duration_total l <= 2 ^ 63 ->
  duration_loop (length (duration_text l)) d (duration_text l) = Some (d + duration_total l).
Proof.
  intros F. revert d. induction F as [|[n u] l [Hn [m Hm]] F IH]; intros d Hd L.
  - cbn. f_equal. unfold duration_total. cbn. lia.
  - pose proof (duration_total_nonneg l F) as P. destruct (unit_props u m Hm) as (Pm & Nu & Fu).
    unfold duration_total in L. cbn [map foldr fst snd] in *. fold (duration_total l) in L. rewrite Hm in L. cbn in L.
    assert (Hn' : n <= 2 ^ 63) by nia.
    pose proof (ParseUint_FormatUint 64 n ltac:(lia) ltac:(lia)) as Pn. unfold ParseUint in Pn.
    unfold duration_text. cbn [map concat fst snd]. fold (duration_text l).
    destruct (FormatUint n) as [|c ds] eqn:E; [by apply format_digits_nonempty in E; [|lia]|].
    rewrite <- app_assoc. cbn [app length duration_loop].
    change (c :: ds ++ u ++ duration_text l) with ((c :: ds) ++ u ++ duration_text l).
    assert (Hu : exists c' u', u = c' :: u' /\ digit c' = None /\ c' <> x2e).
    { destruct Fu as [|c' u' [] _]; [done|]. by exists c', u'. }
    destruct Hu as (c' & u' & Eu & Dc & Nc).
    rewrite (span_digits_app (c :: ds)); [|intros c0 H0; apply (FormatUint_digits n); by rewrite E | by subst u; intros c0 [= <-]]. subst u.
    rewrite (leadingInt_digits 64 0 _ n) by done. cbn [app]. rewrite decide_False by done.
    rewrite decide_False by (by intros [[=] _]). change (c' :: u' ++ duration_text l) with ((c' :: u') ++ duration_text l).
    rewrite span_unit_app, Hm by (done || by apply duration_text_head). cbn [leadingFraction].
    rewrite (proj2 (Z.ltb_ge _ _)) by (apply Z.div_le_lower_bound; lia). rewrite Z.ltb_irrefl, Z.add_0_r.
    rewrite (proj2 (Z.ltb_ge _ _)) by lia. rewrite u64_small by lia. rewrite (proj2 (Z.ltb_ge _ _)) by lia.
    rewrite duration_loop_fuel by (rewrite !length_app; lia). rewrite IH by lia.
    unfold duration_total at 2. cbn [map foldr fst snd]. rewrite Hm. cbn. f_equal. fold (duration_total l). lia.
Qed.

(** A duration written in whole numbers of units is their sum, when it is in range. *)
Lemma ParseDuration_units (neg : bool) l : l <> [] -> Forall component l ->
  duration_total l <= (if neg then 2 ^ 63 else 2 ^ 63 - 1) ->
  ParseDuration ((if neg then [x2d] else []) ++ duration_text l) =
  Some (if neg then - duration_total l else duration_total l).
Proof.
  intros N F L. pose proof (duration_text_head l F) as Hh.
  assert (T : (2 <= length (duration_text l))%nat).
  { destruct F as [|[n u] l [_ [m Hm]] _]; [done|]. unfold duration_text. cbn [map concat fst snd].
    apply unit_props in Hm as (_ & Nu & _). rewrite !length_app. pose proof (format_digits_nonempty 20 n [] ltac:(lia)) as Nn.
    unfold FormatUint. destruct (format_digits 20 n []), u; done || (cbn [length]; lia). }
  assert (S : signed (duration_text l) = false /\
    match duration_text l with c :: _ => bool_decide (c = x2d) | [] => false end = false).
  { destruct (duration_text l) as [|c t]; [done|]. destruct Hh as [d D]. apply digit36_digit in D as (_ & _ & _ & Hp & Hm).
    cbn. by rewrite !bool_decide_false by (try intros [->| ->]; done). }
  assert (Lo : duration_loop (length (duration_text l)) 0 (duration_text l) = Some (duration_total l)).
  { rewrite duration_loop_units by (done || destruct neg; lia). done. }
  assert (N0 : duration_text l <> str "0") by (intros E; rewrite E in T; cbn in T; lia).
  assert (N1 : duration_text l <> []) by (intros E; rewrite E in T; cbn in T; lia).
  unfold ParseDuration. destruct neg; cbn [app].
  - unfold signed. rewrite !bool_decide_true by auto. cbn [tail]. by rewrite !decide_False, Lo by done.
  - destruct S as [-> ->]. rewrite !decide_False, Lo by done. by rewrite (proj2 (Z.ltb_ge _ _)) by lia.
Qed.

Lemma digit36_nonneg c d : digit36 c = Some d -> 0 <= d.
Proof.
  unfold digit36. destruct (Z.leb_spec 48 (b2z c)), (Z.leb_spec (b2z c) 57); cbn; intros E; try (injection E as <-; lia);
    destruct (Z.leb_spec 97 (lower c)), (_ <=? 122); cbn in E; try done; injection E as <-; lia.
Qed.

Lemma parse_radix_nonneg base m s n : 0 <= base -> 0 <= m -> parse_radix base m s = Some n -> 0 <= n.
Proof.
  intros B. revert m. induction s as [|c s IH]; intros m Hm; cbn; [by intros [= <-]|].
  case_decide; [by apply IH|]. destruct (digit36 c) as [d|] eqn:D; [|done]. apply digit36_nonneg in D.
  destruct (d <? base); [|done]. apply IH. nia.
Qed.

Lemma radix_nonneg s : 0 <= (radix s).1.
Proof. unfold radix. repeat case_match; cbn; lia. Qed.

Lemma ParseInt0_range s n : ParseInt0 s = Some n -> - 2 ^ 63 <= n < 2 ^ 63.
Proof.
  unfold ParseInt0, ParseUint0. generalize (if signed s then tail s else s) as t. intros t.
  destruct t as [|c t]; [done|]. pose proof (radix_nonneg (c :: t)) as B. destruct (radix (c :: t)) as [base ds].
  destruct (parse_radix base 0 ds) as [un|] eqn:P; [|done]. apply parse_radix_nonneg in P; [|done..].
  destruct (un <? 2 ^ 64); [|done]. destruct (_ && _); [done|]. destruct (match s with [] => false | _ :: _ => _ end).
  - destruct (Z.ltb_spec (2 ^ 63) un); [done|]. intros [= <-]. lia.
  - destruct (Z.leb_spec (2 ^ 63) un); [done|]. intros [= <-]. lia.
Qed.

Lemma duration_loop_range fuel d s n : 0 <= d <= 2 ^ 63 -> duration_loop fuel d s = Some n -> 0 <= n <= 2 ^ 63.
Proof.
  revert d s. induction fuel as [|fuel IH]; intros d s Hd; destruct s as [|c s]; cbn [duration_loop]; try done;
    try (by intros [= <-]).
  destruct (span_digits (c :: s)) as [ds s1]. destruct (leadingInt 0 ds) as [v|]; [|done].
  destruct (match s1 with [] => _ | _ :: _ => _ end) as [fs s2]. destruct (decide (ds = [] /\ fs = [])); [done|].
  destruct (span_unit s2) as [u s3]. destruct (unit_of u) as [unit|]; [|done]. destruct (_ <? v); [done|].
  destruct (leadingFraction _ _ _ _) as [f scale]. destruct (_ <? _ + _); [done|]. cbv zeta.
  match goal with |- context [u64 ?z] => pose proof (u64_range z) as R; destruct (Z.ltb_spec (2 ^ 63) (u64 z)) end; [done|].
  apply IH. lia.
Qed.

Lemma ParseDuration_range s n : ParseDuration s = Some n -> - 2 ^ 63 <= n < 2 ^ 63.
Proof.
  unfold ParseDuration. generalize (if signed s then tail s else s) as t. intros t.
  destruct (decide (t = str "0")); [intros [= <-]; lia|]. destruct (decide (t = [])); [done|].
  destruct (duration_loop _ 0 t) as [d|] eqn:E; [|done]. apply duration_loop_range in E; [|lia].
  destruct (match s with [] => false | _ :: _ => _ end); [intros [= <-]; lia|].
  destruct (Z.ltb_spec (2 ^ 63 - 1) d); [done|]. intros [= <-]. lia.
Qed.
