(* ===== verification/Output.v ===== *)
(** * What the sensor prints

    The JSON form of [event.Event], by the struct tags of internal/event/event.go,
    and the loop's [enc.Encode(ev)]: one line per event on standard output.  A
    reader of the lines is the specification of the format. *)

From Stdlib Require Import ZArith Lia.
From Stdlib Require Import String.
From stdpp Require Import prelude list.
From S2P Require Import Prelude GoStd GoText GoTime GoJson Event.

Local Open Scope Z_scope.

(** ** Writing *)

(** A member, and one whose tag says [omitempty]. *)
Definition member (k : string) (v : json) : list (list byte * json) := [(str k, v)].
Definition nonempty (k : string) (empty : bool) (v : json) : list (list byte * json) :=
  if empty then [] else member k v.

Definition type_name (t : EventType) : list byte :=
  match t with TypeExec => str "exec" | TypeFork => str "fork" | TypeExit => str "exit" end.

Definition is_nil {A} (l : list A) : bool := match l with [] => true | _ => false end.

Definition process_json (p : Process) : json := JObj (
  member "guid" (JStr (Process_GUID p)) ++
  member "pid" (JNum (Process_PID p)) ++
  member "tid" (JNum (Process_TID p)) ++
  member "uid" (JNum (Process_UID p)) ++
  member "gid" (JNum (Process_GID p)) ++
  member "cgroup_id" (JNum (Process_CgroupID p)) ++
  member "start_time_ns" (JNum (Process_StartTimeNs p)) ++
  member "comm" (JStr (Process_Comm p)) ++
  nonempty "image" (is_nil (Process_Image p)) (JStr (Process_Image p)) ++
  nonempty "argv" (is_nil (Process_Argv p)) (JArr (map JStr (Process_Argv p))) ++
  nonempty "filename_truncated" (negb (Process_FilenameTruncated p)) (JBool (Process_FilenameTruncated p)) ++
  nonempty "argv_truncated" (negb (Process_ArgvTruncated p)) (JBool (Process_ArgvTruncated p)) ++
  nonempty "argv_read_failed" (negb (Process_ArgvReadFailed p)) (JBool (Process_ArgvReadFailed p))).

Definition parent_json (p : Parent) : json := JObj (
  member "guid" (JStr (Parent_GUID p)) ++
  member "pid" (JNum (Parent_PID p)) ++
  member "start_time_ns" (JNum (Parent_StartTimeNs p)) ++
  nonempty "image" (is_nil (Parent_Image p)) (JStr (Parent_Image p)) ++
  nonempty "argv" (is_nil (Parent_Argv p)) (JArr (map JStr (Parent_Argv p))) ++
  member "known" (JBool (Parent_Known p)) ++
  nonempty "external" (negb (Parent_External p)) (JBool (Parent_External p))).

Definition container_json (c : ContainerRef) : json := JObj (
  member "id" (JStr (ContainerRef_ID c)) ++
  member "name" (JStr (ContainerRef_Name c)) ++
  member "image" (JStr (ContainerRef_Image c))).

Definition exit_json (e : Exit) : json := JObj (
  member "code" (JNum (Exit_Code e)) ++
  nonempty "signal" (Exit_Signal e =? 0) (JNum (Exit_Signal e)) ++
  member "raw" (JNum (Exit_Raw e))).

(** A nil pointer is empty. *)
Definition pointer {A} (k : string) (f : A -> json) (o : option A) : list (list byte * json) :=
  match o with None => [] | Some x => member k (f x) end.

(** [time] is the text of the event's time. *)
Definition event_json (time : list byte) (ev : Event) : json := JObj (
  member "type" (JStr (type_name (Event_Type ev))) ++
  member "time" (JStr time) ++
  member "timestamp_ns" (JNum (Event_TimestampNs ev)) ++
  member "process" (process_json (Event_Process ev)) ++
  member "parent" (parent_json (Event_Parent ev)) ++
  pointer "container" container_json (Event_Container ev) ++
  pointer "exit" exit_json (Event_Exit ev)).

(** [enc.Encode(ev)]: [None] is the error of [Time.MarshalJSON]. *)
Definition Encode (zone : Z -> Z) (ev : Event) : option (list byte) :=
  time ← MarshalTime zone (Event_Time ev); Some (encode_line (event_json time ev)).

(** Standard output after the events, each written and flushed. *)
Fixpoint Stdout (zone : Z -> Z) (evs : list Event) : option (list byte) :=
  match evs with
  | [] => Some []
  | ev :: evs => line ← Encode zone ev; rest ← Stdout zone evs; Some (line ++ rest)
  end.

(** ** Reading *)

Fixpoint get_member (k : list byte) (ms : list (list byte * json)) : option json :=
  match ms with
  | [] => None
  | m :: ms => if decide (m.1 = k) then Some m.2 else get_member k ms
  end.

(** The value of a member as a type: absent is the zero value, another type an
    error. *)
Definition as_str (o : option json) : option (list byte) :=
  match o with None => Some [] | Some (JStr s) => Some s | Some _ => None end.
Definition as_num (o : option json) : option Z :=
  match o with None => Some 0 | Some (JNum n) => Some n | Some _ => None end.
Definition as_bool (o : option json) : option bool :=
  match o with None => Some false | Some (JBool b) => Some b | Some _ => None end.

Fixpoint all_strings (vs : list json) : option (list (list byte)) :=
  match vs with
  | [] => Some []
  | JStr s :: vs => ss ← all_strings vs; Some (s :: ss)
  | _ :: _ => None
  end.

Definition as_strings (o : option json) : option (list (list byte)) :=
  match o with None => Some [] | Some (JArr vs) => all_strings vs | Some _ => None end.

Definition as_object {A} (f : list (list byte * json) -> option A) (o : option json) : option (option A) :=
  match o with
  | None => Some None
  | Some (JObj ms) => x ← f ms; Some (Some x)
  | Some _ => None
  end.

Definition member_of (k : string) (ms : list (list byte * json)) : option json := get_member (str k) ms.

Definition read_type (s : list byte) : option EventType :=
  if decide (s = str "exec") then Some TypeExec
  else if decide (s = str "fork") then Some TypeFork
  else if decide (s = str "exit") then Some TypeExit else None.

Definition process_of (ms : list (list byte * json)) : option Process :=
  guid ← as_str (member_of "guid" ms); pid ← as_num (member_of "pid" ms); tid ← as_num (member_of "tid" ms);
  uid ← as_num (member_of "uid" ms); gid ← as_num (member_of "gid" ms); cgroup ← as_num (member_of "cgroup_id" ms);
  start ← as_num (member_of "start_time_ns" ms); comm ← as_str (member_of "comm" ms); image ← as_str (member_of "image" ms);
  argv ← as_strings (member_of "argv" ms); ft ← as_bool (member_of "filename_truncated" ms);
  at_ ← as_bool (member_of "argv_truncated" ms); af ← as_bool (member_of "argv_read_failed" ms);
  Some (mkProcess guid pid tid uid gid cgroup start comm image argv ft at_ af).

Definition parent_of (ms : list (list byte * json)) : option Parent :=
  guid ← as_str (member_of "guid" ms); pid ← as_num (member_of "pid" ms); start ← as_num (member_of "start_time_ns" ms);
  image ← as_str (member_of "image" ms); argv ← as_strings (member_of "argv" ms);
  known ← as_bool (member_of "known" ms); ext ← as_bool (member_of "external" ms);
  Some (mkParent guid pid start image argv known ext).

Definition container_ref_of (ms : list (list byte * json)) : option ContainerRef :=
  id ← as_str (member_of "id" ms); name ← as_str (member_of "name" ms); image ← as_str (member_of "image" ms);
  Some (mkContainerRef id name image).

Definition exit_of (ms : list (list byte * json)) : option Exit :=
  code ← as_num (member_of "code" ms); signal ← as_num (member_of "signal" ms); raw ← as_num (member_of "raw" ms);
  Some (mkExit code signal raw).

Definition event_of_json (v : json) : option Event :=
  match v with
  | JObj ms =>
      ty ← as_str (member_of "type" ms); ty ← read_type ty;
      time ← as_str (member_of "time" ms); time ← ParseTime time;
      ns ← as_num (member_of "timestamp_ns" ms);
      p ← as_object process_of (member_of "process" ms); p ← p;
      q ← as_object parent_of (member_of "parent" ms); q ← q;
      c ← as_object container_ref_of (member_of "container" ms);
      e ← as_object exit_of (member_of "exit" ms);
      Some (mkEvent ty time ns p q c e)
  | _ => None
  end.

Definition read_line (line : list byte) : option Event := v ← Parse line; event_of_json v.

(** Lines, each ended by a newline. *)
Definition lines (out : list byte) : list (list byte) := removelast (SplitByte out x0a).

(** ** What a reader gets: the event, its strings made valid *)

Definition valid_process (p : Process) : Process :=
  mkProcess (valid_utf8 (Process_GUID p)) (Process_PID p) (Process_TID p) (Process_UID p) (Process_GID p)
    (Process_CgroupID p) (Process_StartTimeNs p) (valid_utf8 (Process_Comm p)) (valid_utf8 (Process_Image p))
    (map valid_utf8 (Process_Argv p)) (Process_FilenameTruncated p) (Process_ArgvTruncated p)
    (Process_ArgvReadFailed p).

Definition valid_parent (p : Parent) : Parent :=
  mkParent (valid_utf8 (Parent_GUID p)) (Parent_PID p) (Parent_StartTimeNs p) (valid_utf8 (Parent_Image p))
    (map valid_utf8 (Parent_Argv p)) (Parent_Known p) (Parent_External p).

Definition valid_container (c : ContainerRef) : ContainerRef :=
  mkContainerRef (valid_utf8 (ContainerRef_ID c)) (valid_utf8 (ContainerRef_Name c)) (valid_utf8 (ContainerRef_Image c)).

Definition valid_event (ev : Event) : Event :=
  mkEvent (Event_Type ev) (Event_Time ev) (Event_TimestampNs ev) (valid_process (Event_Process ev))
    (valid_parent (Event_Parent ev)) (valid_container <$> Event_Container ev) (Event_Exit ev).

(** Integers are those of their Go types. *)
Definition typed_process (p : Process) : Prop :=
  0 <= Process_PID p < 2 ^ 32 /\ 0 <= Process_TID p < 2 ^ 32 /\ 0 <= Process_UID p < 2 ^ 32 /\
  0 <= Process_GID p < 2 ^ 32 /\ 0 <= Process_CgroupID p < 2 ^ 64 /\ 0 <= Process_StartTimeNs p < 2 ^ 64.
Definition typed_parent (p : Parent) : Prop :=
  0 <= Parent_PID p < 2 ^ 32 /\ 0 <= Parent_StartTimeNs p < 2 ^ 64.
Definition typed_exit (e : Exit) : Prop :=
  0 <= Exit_Code e < 2 ^ 32 /\ 0 <= Exit_Signal e < 2 ^ 32 /\ 0 <= Exit_Raw e < 2 ^ 32.
Definition typed (ev : Event) : Prop :=
  0 <= Event_TimestampNs ev < 2 ^ 64 /\ typed_process (Event_Process ev) /\ typed_parent (Event_Parent ev) /\
  match Event_Exit ev with Some e => typed_exit e | None => True end.

(** The zone database knows the second, in whole minutes of less than a day. *)
Definition zone_ok (zone : Z -> Z) : Prop := forall sec, whole_minutes (zone sec).

(** The wall clock of an event: boot time and time since boot are 64-bit counts of
    nanoseconds. *)
Definition time_ok (ev : Event) : Prop := - 2 ^ 64 <= Event_Time ev < 2 ^ 64.

(** ** Lemmas *)

(** The members as a reader gets them. *)
Definition valid_members (ms : list (list byte * json)) : list (list byte * json) :=
  map (fun m => (valid_utf8 m.1, valid m.2)) ms.

Definition ascii_key (k : string) : bool := forallb (fun c => b2z c <? 128) (str k).

Lemma valid_key k : ascii_key k = true -> valid_utf8 (str k) = str k.
Proof.
  unfold ascii_key. rewrite forallb_forall. intros H. apply valid_utf8_ascii, Forall_forall.
  intros c Hc%list_elem_of_In. by apply Z.ltb_lt, H.
Qed.

Lemma valid_members_app a b : valid_members (a ++ b) = valid_members a ++ valid_members b.
Proof. apply map_app. Qed.

Lemma valid_member k v : ascii_key k = true -> valid_members (member k v) = member k (valid v).
Proof. intros A. unfold valid_members, member. cbn [map fst snd]. by rewrite valid_key. Qed.

Lemma valid_nonempty k b v : ascii_key k = true -> valid_members (nonempty k b v) = nonempty k b (valid v).
Proof. intros A. destruct b; [done|]. by apply valid_member. Qed.

Lemma valid_pointer {A} k (f : A -> json) o : ascii_key k = true ->
  valid_members (pointer k f o) = pointer k (valid ∘ f) o.
Proof. intros H. destruct o; [|done]. by apply valid_member. Qed.

Ltac valid_object := rewrite ?valid_members_app, ?valid_member, ?valid_nonempty, ?valid_pointer by reflexivity.

(** A member that is left out when it is zero reads as zero. *)
Lemma as_str_omit s : as_str (if is_nil s then None else Some (valid (JStr s))) = Some (valid_utf8 s).
Proof. by destruct s. Qed.
Lemma as_bool_omit b : as_bool (if negb b then None else Some (valid (JBool b))) = Some b.
Proof. by destruct b. Qed.
Lemma as_num_omit n : as_num (if n =? 0 then None else Some (valid (JNum n))) = Some n.
Proof. by destruct (Z.eqb_spec n 0) as [->|]. Qed.

Lemma all_strings_valid ss : all_strings (map valid (map JStr ss)) = Some (map valid_utf8 ss).
Proof. induction ss as [|s ss IH]; [done|]. cbn in *. by rewrite IH. Qed.

Lemma as_strings_omit ss :
  as_strings (if is_nil ss then None else Some (valid (JArr (map JStr ss)))) = Some (map valid_utf8 ss).
Proof. destruct ss as [|s ss]; [done|]. apply (all_strings_valid (s :: ss)). Qed.

(** The members of the objects, found by their keys. *)
Section members.
Context (v1 v2 v3 v4 v5 v6 v7 v8 v9 v10 v11 v12 v13 : json) (b1 b2 b3 b4 b5 : bool).

Lemma process_members :
  process_of (member "guid" v1 ++ member "pid" v2 ++ member "tid" v3 ++ member "uid" v4 ++ member "gid" v5 ++
    member "cgroup_id" v6 ++ member "start_time_ns" v7 ++ member "comm" v8 ++
    nonempty "image" b1 v9 ++ nonempty "argv" b2 v10 ++ nonempty "filename_truncated" b3 v11 ++
    nonempty "argv_truncated" b4 v12 ++ nonempty "argv_read_failed" b5 v13) =
  (guid ← as_str (Some v1); pid ← as_num (Some v2); tid ← as_num (Some v3); uid ← as_num (Some v4);
   gid ← as_num (Some v5); cgroup ← as_num (Some v6); start ← as_num (Some v7); comm ← as_str (Some v8);
   image ← as_str (if b1 then None else Some v9); argv ← as_strings (if b2 then None else Some v10);
   ft ← as_bool (if b3 then None else Some v11); at_ ← as_bool (if b4 then None else Some v12);
   af ← as_bool (if b5 then None else Some v13);
   Some (mkProcess guid pid tid uid gid cgroup start comm image argv ft at_ af)).
Proof. destruct b1, b2, b3, b4, b5; reflexivity. Qed.

Lemma parent_members :
  parent_of (member "guid" v1 ++ member "pid" v2 ++ member "start_time_ns" v3 ++ nonempty "image" b1 v4 ++
    nonempty "argv" b2 v5 ++ member "known" v6 ++ nonempty "external" b3 v7) =
  (guid ← as_str (Some v1); pid ← as_num (Some v2); start ← as_num (Some v3);
   image ← as_str (if b1 then None else Some v4); argv ← as_strings (if b2 then None else Some v5);
   known ← as_bool (Some v6); ext ← as_bool (if b3 then None else Some v7);
   Some (mkParent guid pid start image argv known ext)).
Proof. destruct b1, b2, b3; reflexivity. Qed.

Lemma exit_members :
  exit_of (member "code" v1 ++ nonempty "signal" b1 v2 ++ member "raw" v3) =
  (code ← as_num (Some v1); signal ← as_num (if b1 then None else Some v2); raw ← as_num (Some v3);
   Some (mkExit code signal raw)).
Proof. destruct b1; reflexivity. Qed.
End members.

Lemma process_reads p :
  match valid (process_json p) with JObj ms => process_of ms | _ => None end = Some (valid_process p).
Proof.
  change (process_of (valid_members (match process_json p with JObj ms => ms | _ => [] end)) = Some (valid_process p)).
  unfold process_json. valid_object. rewrite process_members.
  rewrite !as_str_omit, as_strings_omit, !as_bool_omit. reflexivity.
Qed.

Lemma parent_reads p :
  match valid (parent_json p) with JObj ms => parent_of ms | _ => None end = Some (valid_parent p).
Proof.
  change (parent_of (valid_members (match parent_json p with JObj ms => ms | _ => [] end)) = Some (valid_parent p)).
  unfold parent_json. valid_object. rewrite parent_members.
  rewrite !as_str_omit, as_strings_omit, !as_bool_omit. reflexivity.
Qed.

Lemma container_reads c :
  match valid (container_json c) with JObj ms => container_ref_of ms | _ => None end = Some (valid_container c).
Proof.
  change (container_ref_of (valid_members (match container_json c with JObj ms => ms | _ => [] end)) = Some (valid_container c)).
  unfold container_json. valid_object. reflexivity.
Qed.

Lemma exit_reads e :
  match valid (exit_json e) with JObj ms => exit_of ms | _ => None end = Some e.
Proof.
  change (exit_of (valid_members (match exit_json e with JObj ms => ms | _ => [] end)) = Some e).
  unfold exit_json. valid_object. rewrite exit_members, as_num_omit. by destruct e.
Qed.

(** What [member_of] finds in an event. *)
Lemma event_members (ty time ns p q : json) (oc oe : option json) :
  event_of_json (JObj (member "type" ty ++ member "time" time ++ member "timestamp_ns" ns ++
    member "process" p ++ member "parent" q ++ pointer "container" id oc ++ pointer "exit" id oe)) =
  (ty ← as_str (Some ty); ty ← read_type ty; time ← as_str (Some time); time ← ParseTime time;
   ns ← as_num (Some ns); p ← as_object process_of (Some p); p ← p; q ← as_object parent_of (Some q); q ← q;
   c ← as_object container_ref_of oc; e ← as_object exit_of oe; Some (mkEvent ty time ns p q c e)).
Proof. destruct oc, oe; reflexivity. Qed.

Lemma as_object_Some {A} (f : list (list byte * json) -> option A) v x :
  match v with JObj ms => f ms | _ => None end = Some x -> as_object f (Some v) = Some (Some x).
Proof. destruct v; try done. cbn. by intros ->. Qed.

Lemma pointer_id {A} k (f : A -> json) o : pointer k f o = pointer k id (f <$> o).
Proof. by destruct o. Qed.

Lemma read_type_name t : read_type (type_name t) = Some t.
Proof. by destruct t. Qed.

Lemma event_reads time ev : valid_utf8 time = time -> ParseTime time = Some (Event_Time ev) ->
  event_of_json (valid (event_json time ev)) = Some (valid_event ev).
Proof.
  intros V T.
  change (event_of_json (JObj (valid_members (match event_json time ev with JObj ms => ms | _ => [] end))) = Some (valid_event ev)).
  unfold event_json. valid_object.
  rewrite (pointer_id "container"), (pointer_id "exit"), event_members.
  assert (N : valid_utf8 (type_name (Event_Type ev)) = type_name (Event_Type ev))
    by (destruct (Event_Type ev); by apply valid_key).
  cbn [valid as_str]. rewrite N, V. cbn [mbind option_bind]. rewrite read_type_name. cbn [mbind option_bind].
  rewrite T. cbn [mbind option_bind as_num].
  rewrite (as_object_Some process_of (valid (process_json (Event_Process ev))) _ (process_reads _)). cbn [mbind option_bind].
  rewrite (as_object_Some parent_of (valid (parent_json (Event_Parent ev))) _ (parent_reads _)). cbn [mbind option_bind].
  assert (C : as_object container_ref_of ((valid ∘ container_json) <$> Event_Container ev)
              = Some (valid_container <$> Event_Container ev)).
  { destruct (Event_Container ev) as [c|]; [|done]. exact (as_object_Some container_ref_of (valid (container_json c)) _ (container_reads c)). }
  assert (X : as_object exit_of ((valid ∘ exit_json) <$> Event_Exit ev) = Some (Event_Exit ev)).
  { destruct (Event_Exit ev) as [e|]; [|done]. exact (as_object_Some exit_of (valid (exit_json e)) _ (exit_reads e)). }
  rewrite C. cbn [mbind option_bind]. rewrite X. reflexivity.
Qed.

(** Typed events have encodable numbers. *)
Lemma numbers_app a b : fold_right (fun m P => numbers_ok m.2 /\ P) True (a ++ b) <->
  fold_right (fun (m : list byte * json) P => numbers_ok m.2 /\ P) True a /\
  fold_right (fun m P => numbers_ok m.2 /\ P) True b.
Proof. induction a as [|m a IH]; cbn; tauto. Qed.

Lemma numbers_strings ss : numbers_ok (JArr (map JStr ss)).
Proof. cbn. induction ss; cbn; auto. Qed.

Lemma numbers_nonempty k b v : numbers_ok v ->
  fold_right (fun m P => numbers_ok m.2 /\ P) True (nonempty k b v).
Proof. by destruct b. Qed.

Lemma event_numbers time ev : typed ev -> numbers_ok (event_json time ev).
Proof.
  intros (T & P & Q & X). destruct P as (P1 & P2 & P3 & P4 & P5 & P6). destruct Q as (Q1 & Q2).
  assert (Np : numbers_ok (process_json (Event_Process ev))).
  { unfold process_json. cbn [numbers_ok]. rewrite !numbers_app.
    split_and!; try (cbn; lia); apply numbers_nonempty; try done. apply numbers_strings. }
  assert (Nq : numbers_ok (parent_json (Event_Parent ev))).
  { unfold parent_json. cbn [numbers_ok]. rewrite !numbers_app.
    split_and!; try (cbn; lia); apply numbers_nonempty; try done. apply numbers_strings. }
  unfold event_json. cbn [numbers_ok]. rewrite !numbers_app.
  split_and!; try (cbn; done || lia); try (by repeat split).
  - by destruct (Event_Container ev).
  - destruct (Event_Exit ev) as [e|]; [|done]. destruct X as (X1 & X2 & X3). split; [|done].
    unfold exit_json. cbn [numbers_ok snd]. rewrite !numbers_app. split_and!; try (cbn; lia).
    apply numbers_nonempty. cbn. lia.
Qed.

Lemma time_ok_marshals zone ev : zone_ok zone -> time_ok ev ->
  exists s, MarshalTime zone (Event_Time ev) = Some s /\ ParseTime s = Some (Event_Time ev).
Proof.
  intros Z T. apply MarshalTime_roundtrip; [apply Z|]. specialize (Z (Event_Time ev / nanosPerSecond)).
  destruct Z as [_ B]. unfold time_ok, nanosPerSecond, secondsPerDay, unixDay in *.
  set (t := Event_Time ev) in *. pose proof (Z.div_mod t 1000000000 ltac:(lia)).
  pose proof (Z.mod_pos_bound t 1000000000 ltac:(lia)). set (sec := t / 1000000000) in *.
  pose proof (Z.div_mod (sec + zone sec) 86400 ltac:(lia)).
  pose proof (Z.mod_pos_bound (sec + zone sec) 86400 ltac:(lia)). lia.
Qed.

(** ** Properties *)

(** Every event is printed as one line of JSON; the line holds no other newline, and
    reading it as JSON gives back the event, time to the nanosecond, its strings
    with invalid UTF-8 replaced. *)
Theorem Encode_roundtrip zone ev : zone_ok zone -> typed ev -> time_ok ev ->
  exists text, Encode zone ev = Some (text ++ [x0a]) /\ (x0a ∉ text) /\
               read_line text = Some (valid_event ev).
Proof.
  intros Z T O. destruct (time_ok_marshals zone ev Z O) as (s & E & P).
  exists (print (event_json s ev)). unfold Encode. rewrite E. split_and!; [done | apply print_one_line|].
  unfold read_line. rewrite Parse_print by by apply event_numbers. cbn [mbind option_bind].
  apply event_reads; [|done]. apply valid_utf8_ascii. by eapply MarshalTime_ascii.
Qed.

Lemma lines_cons text out : x0a ∉ text -> lines (text ++ x0a :: out) = text :: lines out.
Proof.
  intros H. unfold lines. rewrite SplitByte_app by done. cbn [removelast].
  pose proof (SplitByte_nonempty out x0a). by destruct (SplitByte out x0a).
Qed.

(** [Encode] fails or writes one line. *)
Lemma Encode_line zone ev : Encode zone ev = None \/ exists text, Encode zone ev = Some (text ++ [x0a]) /\ (x0a ∉ text).
Proof.
  unfold Encode, encode_line. destruct (MarshalTime zone (Event_Time ev)) as [t|]; [right | by left].
  eexists. split; [done | apply print_one_line].
Qed.

(** Lines that read well one by one read well together. *)
Lemma Stdout_lines zone evs :
  Forall (fun ev => exists text, Encode zone ev = Some (text ++ [x0a]) /\ (x0a ∉ text) /\
                                read_line text = Some (valid_event ev)) evs ->
  exists out, Stdout zone evs = Some out /\ map read_line (lines out) = map (Some ∘ valid_event) evs.
Proof.
  induction 1 as [|ev evs (text & E1 & N & R1) _ (out & E & R)]; [by exists []|].
  exists ((text ++ [x0a]) ++ out). cbn [Stdout]. rewrite E1. cbn [mbind option_bind]. rewrite E. split; [done|].
  rewrite <- app_assoc. cbn [app]. rewrite lines_cons by done. cbn [map]. by rewrite R1, R.
Qed.

(** C11: Standard output is JSON lines: cut at newlines it has one line per event, in
    order, each of which reads as its event: type, time to the nanosecond, numbers
    and flags unchanged, strings with invalid UTF-8 replaced, members left out by
    [omitempty] as the zero values they stand for. *)
Theorem Stdout_roundtrip zone evs : zone_ok zone -> Forall (fun ev => typed ev /\ time_ok ev) evs ->
  exists out, Stdout zone evs = Some out /\ map read_line (lines out) = map (Some ∘ valid_event) evs.
Proof.
  intros Z F. apply Stdout_lines. eapply Forall_impl; [exact F|]. intros ev [T O]. by apply Encode_roundtrip.
Qed.

#[global] Instance typed_dec ev : Decision (typed ev).
Proof.
  unfold typed, typed_process, typed_parent, typed_exit. destruct (Event_Exit ev); apply _.
Defined.

(** ** A concrete event *)

(** A string literal with double quotes for single ones. *)
Definition quotes (s : string) : list byte := map (fun c => if decide (c = x27) then x22 else c) (str s).

Definition sample : Event :=
  mkEvent TypeExit 1700000000500000000 7000000000
    (mkProcess (str "g-1") 4242 4243 1000 100 8123 6000000000 (str "ls" ++ [xff]) (str "/bin/ls")
       [str "ls"; []; str "<a" ++ [x0a]] false true false)
    (mkParent (str "g-0") 1200 5000000000 [] [] true false)
    (Some (mkContainerRef (str "c1") (str "web") (str "nginx")))
    (Some (mkExit 3 0 768)).

Definition sample_text : list byte := quotes
  "{'type':'exit','time':'2023-11-14T22:13:20.5Z','timestamp_ns':7000000000,'process':{'guid':'g-1','pid':4242,'tid':4243,'uid':1000,'gid':100,'cgroup_id':8123,'start_time_ns':6000000000,'comm':'ls\ufffd','image':'/bin/ls','argv':['ls','','\u003ca\n'],'argv_truncated':true},'parent':{'guid':'g-0','pid':1200,'start_time_ns':5000000000,'known':true},'container':{'id':'c1','name':'web','image':'nginx'},'exit':{'code':3,'raw':768}}".

Example sample_encoded : Encode (fun _ => 0) sample = Some (sample_text ++ [x0a]).
Proof. vm_compute. reflexivity. Qed.

Lemma Stdout_roundtrip_witness :
  exists out, Stdout (fun _ => 3600) [sample; sample] = Some out /\
              map read_line (lines out) = [Some (valid_event sample); Some (valid_event sample)].
Proof.
  apply (Stdout_roundtrip (fun _ => 3600) [sample; sample]).
  - intros sec. vm_compute. split; reflexivity.
  - assert (T : typed sample) by (apply (bool_decide_unpack _); vm_compute; exact I).
    assert (O : time_ok sample) by (vm_compute; split; [discriminate | reflexivity]).
    apply Forall_cons. split; [exact (conj T O)|]. apply Forall_cons. split; [exact (conj T O) | apply Forall_nil_2].
Defined.
