(* ===== verification/ProcTable.v ===== *)
(** * internal/proctable/table.go

    The process table, as the code has it: entries are heap objects, [t_entries]
    is the Go map from GUID to pointer, [t_lru] the [container/list] of the same
    pointers (front first; an entry's list element is identified with its
    pointer), and every operation threads the table.  The table's mutex makes
    each exported method atomic.

    [cfg.Now], [cfg.InScope] and [cfg.Proc] are functions of the outside world:
    the clock value is an argument, and a [view] holds the answers the scope test
    and [/proc] give during one lookup.  [Handle] can look up twice, so it takes
    two views. *)

From Stdlib Require Import ZArith Lia.
From stdpp Require Import prelude list gmap sorting.
From S2P Require Import Prelude Guid Event.

Local Open Scope Z_scope.

(** ** Data *)

Definition loc := nat.

Record Entry := mkEntry {
  Entry_GUID : list byte;
  ParentGUID : list byte;
  PID : Z;
  PPID : Z;
  StartTimeNs : Z;
  Image : list byte;
  Argv : list (list byte);
  CgroupID : Z;
  External : bool;
  ExitedAt : Z;
}.

Record ProcInfo := mkProcInfo {
  Info_PID : Z;
  Info_PPID : Z;
  Info_StartTimeNs : Z;
  Info_Image : list byte;
  Info_Argv : list (list byte);
  Info_CgroupID : Z;
}.

Record Config := mkConfig { HostID : list byte; BootID : list byte; MaxEntries : Z; ExitTTL : Z }.

Record view := mkView {
  InScope : option (Z -> bool);
  Proc : option (Z -> option ProcInfo);
}.

Record Stats := mkStats {
  EvictedExit : Z; EvictedLRU : Z; ProcLookups : Z; ProcMisses : Z; UnknownExits : Z;
}.

(** [t_panic] is set when the code would dereference a nil pointer. *)
Record Table := mkTable {
  t_entries : gmap (list byte) loc;
  t_lru : list loc;
  t_heap : gmap loc Entry;
  t_next : loc;
  t_stats : Stats;
  t_panic : bool;
}.

(** ** Small state updates *)

Definition set_index (m : gmap (list byte) loc) (l : list loc) (t : Table) : Table :=
  mkTable m l (t_heap t) (t_next t) (t_stats t) (t_panic t).
Definition set_heap (h : gmap loc Entry) (t : Table) : Table :=
  mkTable (t_entries t) (t_lru t) h (t_next t) (t_stats t) (t_panic t).
Definition set_stats (s : Stats) (t : Table) : Table :=
  mkTable (t_entries t) (t_lru t) (t_heap t) (t_next t) s (t_panic t).
Definition set_panic (t : Table) : Table :=
  mkTable (t_entries t) (t_lru t) (t_heap t) (t_next t) (t_stats t) true.

Definition incr_evicted_exit (s : Stats) : Stats :=
  mkStats (u64 (EvictedExit s + 1)) (EvictedLRU s) (ProcLookups s) (ProcMisses s) (UnknownExits s).
Definition incr_evicted_lru (s : Stats) : Stats :=
  mkStats (EvictedExit s) (u64 (EvictedLRU s + 1)) (ProcLookups s) (ProcMisses s) (UnknownExits s).
Definition incr_lookups (s : Stats) : Stats :=
  mkStats (EvictedExit s) (EvictedLRU s) (u64 (ProcLookups s + 1)) (ProcMisses s) (UnknownExits s).
Definition incr_misses (s : Stats) : Stats :=
  mkStats (EvictedExit s) (EvictedLRU s) (ProcLookups s) (u64 (ProcMisses s + 1)) (UnknownExits s).
Definition incr_unknown (s : Stats) : Stats :=
  mkStats (EvictedExit s) (EvictedLRU s) (ProcLookups s) (ProcMisses s) (u64 (UnknownExits s + 1)).

Definition set_image (image : list byte) (argv : list (list byte)) (e : Entry) : Entry :=
  mkEntry (Entry_GUID e) (ParentGUID e) (PID e) (PPID e) (StartTimeNs e) image argv (CgroupID e)
    (External e) (ExitedAt e).
Definition set_external (b : bool) (e : Entry) : Entry :=
  mkEntry (Entry_GUID e) (ParentGUID e) (PID e) (PPID e) (StartTimeNs e) (Image e) (Argv e)
    (CgroupID e) b (ExitedAt e).
Definition set_exited (at_ : Z) (e : Entry) : Entry :=
  mkEntry (Entry_GUID e) (ParentGUID e) (PID e) (PPID e) (StartTimeNs e) (Image e) (Argv e)
    (CgroupID e) (External e) at_.
Definition set_parent (g : list byte) (e : Entry) : Entry :=
  mkEntry (Entry_GUID e) g (PID e) (PPID e) (StartTimeNs e) (Image e) (Argv e)
    (CgroupID e) (External e) (ExitedAt e).

(** [&Entry{...}] *)
Definition alloc (e : Entry) (t : Table) : loc * Table :=
  (t_next t, mkTable (t_entries t) (t_lru t) (<[t_next t := e]> (t_heap t)) (S (t_next t))
               (t_stats t) (t_panic t)).

(** Reading and assigning through a pointer. *)
Definition zero_entry : Entry := mkEntry [] [] 0 0 0 [] [] 0 false 0.
Definition deref (l : loc) (t : Table) : Entry := default zero_entry (t_heap t !! l).
Definition assign (l : loc) (f : Entry -> Entry) (t : Table) : Table :=
  set_heap (alter f l (t_heap t)) t.

(** [list.Remove] and [list.MoveToFront] by element. *)
Definition list_remove (l : loc) (ls : list loc) : list loc := filter (fun x => x ≠ l) ls.

(** ** Operations *)

Definition New (cfg : Config) : Config * Table :=
  (mkConfig (HostID cfg) (BootID cfg)
     (if MaxEntries cfg <=? 0 then 100000 else MaxEntries cfg)
     (if ExitTTL cfg <=? 0 then 30 * 1000000000 else ExitTTL cfg),
   mkTable ∅ [] ∅ O (mkStats 0 0 0 0 0) false).

Section table.
Context (cfg : Config).

(** [t.GUID] *)
Definition t_GUID (tgid startNs : Z) : list byte := GUID (HostID cfg) (BootID cfg) tgid startNs.

Definition inScope (v : view) (cgroupID : Z) : bool :=
  match InScope v with None => true | Some f => f cgroupID end.

Definition get (guid : list byte) (t : Table) : option loc * Table :=
  match t_entries t !! guid with
  | None => (None, t)
  | Some l =>
      (Some l, if decide (l ∈ t_lru t) then set_index (t_entries t) (l :: list_remove l (t_lru t)) t
               else t)
  end.

Definition remove (guid : list byte) (l : loc) (t : Table) : Table :=
  set_index (delete guid (t_entries t)) (list_remove l (t_lru t)) t.

(** The eviction loop.  Every turn takes one element off the list, so its length
    is enough fuel; [t.lru.Back()] of an empty list is nil and dereferencing it
    panics. *)
Fixpoint evict (fuel : nat) (t : Table) : Table :=
  if Z.of_nat (size (t_entries t)) <=? MaxEntries cfg then t else
  match fuel, last (t_lru t) with
  | S fuel, Some old =>
      let t := remove (Entry_GUID (deref old t)) old t in
      evict fuel (set_stats (incr_evicted_lru (t_stats t)) t)
  | _, _ => set_panic t
  end.

Definition insert (l : loc) (t : Table) : Table :=
  let t := set_index (<[Entry_GUID (deref l t) := l]> (t_entries t)) (l :: t_lru t) t in
  evict (length (t_lru t)) t.

Definition newEntry (ev : Event) (guid parentGUID : list byte) : Entry :=
  mkEntry guid parentGUID (Process_PID (Event_Process ev)) (Parent_PID (Event_Parent ev))
    (Process_StartTimeNs (Event_Process ev)) [] [] (Process_CgroupID (Event_Process ev)) false 0.

Definition parent (v : view) (guid : list byte) (pid startNs : Z) (t : Table) : option loc * Table :=
  let '(e, t) := get guid t in
  match e with
  | Some l => (Some l, t)
  | None =>
      match Proc v with
      | None => (None, t)
      | Some rd =>
          if pid =? 0 then (None, t) else
          match rd pid with
          | None => (None, set_stats (incr_misses (t_stats t)) t)
          | Some info =>
              if negb (StartTicks (Info_StartTimeNs info) =? StartTicks startNs)
              then (None, set_stats (incr_misses (t_stats t)) t)
              else
                let t := set_stats (incr_lookups (t_stats t)) t in
                let '(l, t) := alloc (mkEntry guid [] (Info_PID info) (Info_PPID info)
                                        (Info_StartTimeNs info) (Info_Image info) (Info_Argv info)
                                        (Info_CgroupID info)
                                        (negb (inScope v (Info_CgroupID info))) 0) t in
                (Some l, insert l t)
          end
      end
  end.

(** Event updates. *)
Definition set_process_guid (g : list byte) (ev : Event) : Event :=
  let p := Event_Process ev in
  mkEvent (Event_Type ev) (Event_Time ev) (Event_TimestampNs ev)
    (mkProcess g (Process_PID p) (Process_TID p) (Process_UID p) (Process_GID p)
       (Process_CgroupID p) (Process_StartTimeNs p) (Process_Comm p) (Process_Image p)
       (Process_Argv p) (Process_FilenameTruncated p) (Process_ArgvTruncated p)
       (Process_ArgvReadFailed p))
    (Event_Parent ev) (Event_Container ev) (Event_Exit ev).

Definition set_process_image (image : list byte) (argv : list (list byte)) (ev : Event) : Event :=
  let p := Event_Process ev in
  mkEvent (Event_Type ev) (Event_Time ev) (Event_TimestampNs ev)
    (mkProcess (Process_GUID p) (Process_PID p) (Process_TID p) (Process_UID p) (Process_GID p)
       (Process_CgroupID p) (Process_StartTimeNs p) (Process_Comm p) image argv
       (Process_FilenameTruncated p) (Process_ArgvTruncated p) (Process_ArgvReadFailed p))
    (Event_Parent ev) (Event_Container ev) (Event_Exit ev).

Definition set_parent_id (g : list byte) (pid start : Z) (ev : Event) : Event :=
  let p := Event_Parent ev in
  mkEvent (Event_Type ev) (Event_Time ev) (Event_TimestampNs ev) (Event_Process ev)
    (mkParent g pid start (Parent_Image p) (Parent_Argv p) (Parent_Known p) (Parent_External p))
    (Event_Container ev) (Event_Exit ev).

Definition set_parent_known (external : bool) (image : list byte) (argv : list (list byte))
    (ev : Event) : Event :=
  let p := Event_Parent ev in
  mkEvent (Event_Type ev) (Event_Time ev) (Event_TimestampNs ev) (Event_Process ev)
    (mkParent (Parent_GUID p) (Parent_PID p) (Parent_StartTimeNs p) image argv true external)
    (Event_Container ev) (Event_Exit ev).

(** The [switch ev.Type] of [Handle]: the entry of the event's process, if any. *)
Definition handle_type (v : view) (now : Z) (ev : Event) (guid hdrParent : list byte)
    (e : option loc) (t : Table) : option loc * Table :=
  match Event_Type ev, e with
  | TypeFork, Some l => (Some l, t)
  | TypeFork, None =>
      let '(l, t) := alloc (newEntry ev guid hdrParent) t in
      let '(p, t) := parent v hdrParent (Parent_PID (Event_Parent ev))
                       (Parent_StartTimeNs (Event_Parent ev)) t in
      let t := match p with
               | Some pl => assign l (set_image (Image (deref pl t)) (Argv (deref pl t))) t
               | None => t
               end in
      (Some l, insert l t)
  | TypeExec, _ =>
      let '(l, t) := match e with
                     | Some l => (l, t)
                     | None => let '(l, t) := alloc (newEntry ev guid hdrParent) t in (l, insert l t)
                     end in
      let t := assign l (set_image (Process_Image (Event_Process ev))
                           (Process_Argv (Event_Process ev))) t in
      (Some l, assign l (set_external false) t)
  | TypeExit, None => (None, set_stats (incr_unknown (t_stats t)) t)
  | TypeExit, Some l =>
      (Some l, if ExitedAt (deref l t) =? 0 then assign l (set_exited now) t else t)
  end.

(** The parent the event reports: the fork-time parent when the table still has
    it, otherwise the kernel's. *)
Definition handle_parent_id (ev : Event) (hdrParent : list byte) (e : option loc) (t : Table)
    : (list byte * Z * Z) * Table :=
  let hdr := (hdrParent, Parent_PID (Event_Parent ev), Parent_StartTimeNs (Event_Parent ev)) in
  match e with
  | Some l =>
      let pg := ParentGUID (deref l t) in
      if decide (pg ≠ [] /\ pg ≠ hdrParent) then
        let '(p, t) := get pg t in
        match p with
        | Some pl => ((Entry_GUID (deref pl t), PID (deref pl t), StartTimeNs (deref pl t)), t)
        | None => (hdr, t)
        end
      else (hdr, t)
  | None => (hdr, t)
  end.

Definition Handle (v1 v2 : view) (now : Z) (ev : Event) (t : Table) : Event * Table :=
  let guid := t_GUID (Process_PID (Event_Process ev)) (Process_StartTimeNs (Event_Process ev)) in
  let hdrParent := t_GUID (Parent_PID (Event_Parent ev)) (Parent_StartTimeNs (Event_Parent ev)) in
  let ev := set_process_guid guid ev in
  let '(e, t) := get guid t in
  let '(e, t) := handle_type v1 now ev guid hdrParent e t in
  let ev := match e with
            | Some l => if decide (Event_Type ev ≠ TypeExec)
                        then set_process_image (Image (deref l t)) (Argv (deref l t)) ev else ev
            | None => ev
            end in
  let '((parentGUID, ppid, pstart), t) := handle_parent_id ev hdrParent e t in
  let ev := set_parent_id parentGUID ppid pstart ev in
  let '(p, t) := parent v2 parentGUID ppid pstart t in
  let ev := match p with
            | Some pl => set_parent_known (External (deref pl t)) (Image (deref pl t))
                           (Argv (deref pl t)) ev
            | None => ev
            end in
  (ev, t).

(** ** Seed, Lookup, Sweep, Stats *)

(** [start]: the start time of every scanned process, by PID (the last one
    wins, as in the Go map). *)
Definition seed_start (procs : list ProcInfo) : gmap Z Z :=
  fold_left (fun m p => <[Info_PID p := Info_StartTimeNs p]> m) procs ∅.

Definition seed_entry (start : gmap Z Z) (p : ProcInfo) : Entry :=
  let e := mkEntry (t_GUID (Info_PID p) (Info_StartTimeNs p)) [] (Info_PID p) (Info_PPID p)
             (Info_StartTimeNs p) (Info_Image p) (Info_Argv p) (Info_CgroupID p) false 0 in
  match start !! Info_PPID p with
  | Some ps => if Info_PPID p =? 0 then e else set_parent (t_GUID (Info_PPID p) ps) e
  | None => e
  end.

Definition seed_one (v : view) (start : gmap Z Z) (nt : Z * Table) (p : ProcInfo) : Z * Table :=
  let '(n, t) := nt in
  if negb (inScope v (Info_CgroupID p)) then (n, t) else
  let e := seed_entry start p in
  match t_entries t !! Entry_GUID e with
  | Some _ => (n, t)
  | None => let '(l, t) := alloc e t in (n + 1, insert l t)
  end.

(** Each process of the scan comes with the view it meets: the watcher runs while the
    table is seeded, so that [InScope] need not answer alike for all of them. *)
Definition Seed (procs : list (view * ProcInfo)) (t : Table) : Z * Table :=
  let start := seed_start (map snd procs) in
  fold_left (fun nt vp => seed_one vp.1 start nt vp.2) procs (0, t).

Definition Lookup (guid : list byte) (t : Table) : option Entry :=
  match t_entries t !! guid with
  | None => None
  | Some l => Some (deref l t)
  end.

(** The loop body of [Sweep]. *)
Definition sweep_one (cutoff : Z) (nt : Z * Table) (ge : list byte * loc) : Z * Table :=
  let '(n, t) := nt in
  let e := deref ge.2 t in
  if negb (ExitedAt e =? 0) && (ExitedAt e <? cutoff) then
    let t := remove ge.1 ge.2 t in
    (n + 1, set_stats (incr_evicted_exit (t_stats t)) t)
  else (n, t).

(** Go iterates over a map in any order: [order] is a permutation of the
    index's key-value pairs. *)
Definition Sweep (order : list (list byte * loc)) (now : Z) (t : Table) : Z * Table :=
  fold_left (sweep_one (now - ExitTTL cfg)) order (0, t).

(** [Stats]: the number of entries and the counters. *)
Definition t_Stats (t : Table) : Z * Stats := (Z.of_nat (size (t_entries t)), t_stats t).
End table.
