(* ===== verification/ProcTableSpec.v ===== *)
(** * The process table as an LRU list of values

    The specification of [ProcTable]: no heap, no pointers, no index, only the
    list of entries, most recently used first, and the counters.  [Handle_ok]
    shows that the pointer-based table implements it, under the representation
    invariant [wf], which every operation preserves. *)

From Stdlib Require Import ZArith Lia.
From stdpp Require Import prelude list gmap.
From S2P Require Import Prelude Guid Event ProcTable.

Local Open Scope Z_scope.

(** ** The specification *)

Record spec := mkSpec { s_list : list Entry; s_stats : Stats }.

Definition s_find (g : list byte) (s : list Entry) : option Entry :=
  List.find (fun e => bool_decide (Entry_GUID e = g)) s.

Definition s_drop (g : list byte) (s : list Entry) : list Entry :=
  filter (fun e => Entry_GUID e ≠ g) s.

(** Look up and move to the front. *)
Definition s_get (g : list byte) (s : spec) : option Entry * spec :=
  match s_find g (s_list s) with
  | Some e => (Some e, mkSpec (e :: s_drop g (s_list s)) (s_stats s))
  | None => (None, s)
  end.

(** Replace the entry with the GUID of [e]. *)
Definition s_update (e : Entry) (s : spec) : spec :=
  mkSpec (map (fun x => if decide (Entry_GUID x = Entry_GUID e) then e else x) (s_list s)) (s_stats s).

Section spec.
Context (cfg : Config).

(** Push to the front and keep the [MaxEntries] most recently used. *)
Definition s_insert (e : Entry) (s : spec) : spec :=
  mkSpec (take (Z.to_nat (MaxEntries cfg)) (e :: s_list s))
    (if zlen (e :: s_list s) <=? MaxEntries cfg then s_stats s else incr_evicted_lru (s_stats s)).

Definition s_parent (v : view) (guid : list byte) (pid startNs : Z) (s : spec) : option Entry * spec :=
  match s_get guid s with
  | (Some e, s) => (Some e, s)
  | (None, s) =>
      match Proc v with
      | None => (None, s)
      | Some rd =>
          if pid =? 0 then (None, s) else
          match rd pid with
          | None => (None, mkSpec (s_list s) (incr_misses (s_stats s)))
          | Some info =>
              if negb (StartTicks (Info_StartTimeNs info) =? StartTicks startNs)
              then (None, mkSpec (s_list s) (incr_misses (s_stats s)))
              else
                let e := mkEntry guid [] (Info_PID info) (Info_PPID info) (Info_StartTimeNs info)
                           (Info_Image info) (Info_Argv info) (Info_CgroupID info)
                           (negb (inScope v (Info_CgroupID info))) 0 in
                (Some e, s_insert e (mkSpec (s_list s) (incr_lookups (s_stats s))))
          end
      end
  end.

Definition s_handle_type (v : view) (now : Z) (ev : Event) (guid hdrParent : list byte)
    (e : option Entry) (s : spec) : option Entry * spec :=
  match Event_Type ev, e with
  | TypeFork, Some e => (Some e, s)
  | TypeFork, None =>
      let e := newEntry ev guid hdrParent in
      let '(p, s) := s_parent v hdrParent (Parent_PID (Event_Parent ev))
                       (Parent_StartTimeNs (Event_Parent ev)) s in
      let e := match p with Some pe => set_image (Image pe) (Argv pe) e | None => e end in
      (Some e, s_insert e s)
  | TypeExec, _ =>
      let '(e, s) := match e with
                     | Some e => (e, s)
                     | None => let e := newEntry ev guid hdrParent in (e, s_insert e s)
                     end in
      let e := set_external false (set_image (Process_Image (Event_Process ev))
                                     (Process_Argv (Event_Process ev)) e) in
      (Some e, s_update e s)
  | TypeExit, None => (None, mkSpec (s_list s) (incr_unknown (s_stats s)))
  | TypeExit, Some e =>
      let e := if ExitedAt e =? 0 then set_exited now e else e in
      (Some e, s_update e s)
  end.

Definition s_parent_id (ev : Event) (hdrParent : list byte) (e : option Entry) (s : spec)
    : (list byte * Z * Z) * spec :=
  let hdr := (hdrParent, Parent_PID (Event_Parent ev), Parent_StartTimeNs (Event_Parent ev)) in
  match e with
  | Some e =>
      if decide (ParentGUID e ≠ [] /\ ParentGUID e ≠ hdrParent) then
        match s_get (ParentGUID e) s with
        | (Some p, s) => ((Entry_GUID p, PID p, StartTimeNs p), s)
        | (None, s) => (hdr, s)
        end
      else (hdr, s)
  | None => (hdr, s)
  end.

Definition s_Handle (v1 v2 : view) (now : Z) (ev : Event) (s : spec) : Event * spec :=
  let guid := t_GUID cfg (Process_PID (Event_Process ev)) (Process_StartTimeNs (Event_Process ev)) in
  let hdrParent := t_GUID cfg (Parent_PID (Event_Parent ev)) (Parent_StartTimeNs (Event_Parent ev)) in
  let ev := set_process_guid guid ev in
  let '(e, s) := s_get guid s in
  let '(e, s) := s_handle_type v1 now ev guid hdrParent e s in
  let ev := match e with
            | Some e => if decide (Event_Type ev ≠ TypeExec)
                        then set_process_image (Image e) (Argv e) ev else ev
            | None => ev
            end in
  let '((parentGUID, ppid, pstart), s) := s_parent_id ev hdrParent e s in
  let ev := set_parent_id parentGUID ppid pstart ev in
  let '(p, s) := s_parent v2 parentGUID ppid pstart s in
  (match p with
   | Some p => set_parent_known (External p) (Image p) (Argv p) ev
   | None => ev
   end, s).

(** Seeding adds the in-scope processes the table does not have. *)
Definition s_seed_one (v : view) (start : gmap Z Z) (ns : Z * spec) (p : ProcInfo) : Z * spec :=
  let '(n, s) := ns in
  if negb (inScope v (Info_CgroupID p)) then (n, s) else
  let e := seed_entry cfg start p in
  match s_find (Entry_GUID e) (s_list s) with
  | Some _ => (n, s)
  | None => (n + 1, s_insert e s)
  end.

Definition s_Seed (procs : list (view * ProcInfo)) (s : spec) : Z * spec :=
  let start := seed_start (map snd procs) in
  fold_left (fun ns vp => s_seed_one vp.1 start ns vp.2) procs (0, s).

(** Sweeping keeps the entries that have not exited more than [ExitTTL] ago. *)
Definition expired (cutoff : Z) (e : Entry) : Prop := ExitedAt e ≠ 0 /\ ExitedAt e < cutoff.
#[global] Instance expired_dec cutoff e : Decision (expired cutoff e).
Proof. unfold expired. apply _. Defined.

Definition s_Sweep (now : Z) (s : spec) : Z * spec :=
  let dead := filter (expired (now - ExitTTL cfg)) (s_list s) in
  (zlen dead, mkSpec (filter (fun e => ~ expired (now - ExitTTL cfg) e) (s_list s))
                (Nat.iter (length dead) incr_evicted_exit (s_stats s))).
End spec.

(** ** The representation invariant *)

(** The list holds each entry once; the index maps exactly the GUIDs of the
    listed entries, each to its entry; unused addresses lie above [t_next]. *)
Record wf_core (t : Table) : Prop := {
  wf_nodup : NoDup (t_lru t);
  wf_heap l : l ∈ t_lru t -> is_Some (t_heap t !! l);
  wf_index g l : t_entries t !! g = Some l <-> l ∈ t_lru t /\ Entry_GUID (deref l t) = g;
  wf_next l : is_Some (t_heap t !! l) -> (l < t_next t)%nat;
  wf_panic : t_panic t = false;
}.

Definition wf (cfg : Config) (t : Table) : Prop :=
  wf_core t /\ zlen (t_lru t) <= MaxEntries cfg.

(** The specification state a table represents. *)
Definition abs_list (t : Table) : list Entry := map (fun l => deref l t) (t_lru t).
Definition abs (t : Table) : spec := mkSpec (abs_list t) (t_stats t).

Definition guids (s : list Entry) : list (list byte) := map Entry_GUID s.

(** ** Facts about the invariant *)

(** What later states keep of earlier ones, for pointers held across calls:
    allocated cells keep their values and only fresh cells join the list. *)
Record ext (t t' : Table) : Prop := {
  ext_heap : t_heap t ⊆ t_heap t';
  ext_next : (t_next t <= t_next t')%nat;
  ext_lru l : l ∈ t_lru t' -> l ∈ t_lru t \/ (t_next t <= l)%nat;
}.

#[export] Instance ext_refl : Reflexive ext.
Proof. intros t. split; auto. Qed.

#[export] Instance ext_trans : Transitive ext.
Proof.
  intros a b c [h1 n1 l1] [h2 n2 l2]. split; [by etrans | lia |].
  intros l Hl. destruct (l2 l Hl) as [H | H]; [by apply l1 | right; lia].
Qed.

Lemma deref_eq l e t : t_heap t !! l = Some e -> deref l t = e.
Proof. by unfold deref; intros ->. Qed.

Lemma deref_ext l t t' : is_Some (t_heap t !! l) -> t_heap t ⊆ t_heap t' -> deref l t' = deref l t.
Proof.
  intros [e He] H. rewrite (deref_eq _ _ _ He). apply deref_eq. by eapply lookup_weaken.
Qed.

(** The value a possibly nil pointer points to. *)
Definition look (t : Table) (o : option loc) : option Entry := (fun l => deref l t) <$> o.

Definition valid (t : Table) (o : option loc) : Prop :=
  forall l, o = Some l -> is_Some (t_heap t !! l).

Section wf_core_facts.
Context (t : Table) (W : wf_core t).

Lemma wf_guid_inj l l' : l ∈ t_lru t -> l' ∈ t_lru t ->
  Entry_GUID (deref l t) = Entry_GUID (deref l' t) -> l = l'.
Proof.
  intros H H' E.
  assert (A : t_entries t !! Entry_GUID (deref l t) = Some l) by by apply (wf_index _ W).
  assert (B : t_entries t !! Entry_GUID (deref l t) = Some l') by by apply (wf_index _ W).
  congruence.
Qed.

Lemma wf_nodup_guids : NoDup (guids (abs_list t)).
Proof.
  unfold guids, abs_list. rewrite map_map.
  pose proof (wf_nodup _ W) as N. pose proof wf_guid_inj as I.
  induction (t_lru t) as [|l ls IH]; [constructor|]. apply NoDup_cons in N as [N1 N2].
  cbn. apply NoDup_cons. split.
  - intros (x & E & Hx)%list_elem_of_fmap. apply N1.
    rewrite (I l x); [done | left | by right | done].
  - apply IH; [done|]. intros a b Ha Hb. apply I; by right.
Qed.

Lemma wf_size : size (t_entries t) = length (t_lru t).
Proof.
  transitivity (length (guids (abs_list t))); [|by unfold guids, abs_list; rewrite !length_map].
  rewrite <- length_map_to_list, <- (length_fmap fst).
  apply Permutation_length, NoDup_Permutation;
    [apply NoDup_fst_map_to_list | apply wf_nodup_guids |].
  intros g. unfold guids, abs_list. rewrite map_map. split.
  - intros ([g' l] & -> & H)%list_elem_of_fmap. apply elem_of_map_to_list in H.
    apply (wf_index _ W) in H as [H <-]. apply list_elem_of_fmap. by exists l.
  - intros (l & -> & H)%list_elem_of_fmap. apply list_elem_of_fmap.
    exists (Entry_GUID (deref l t), l). split; [done|].
    apply elem_of_map_to_list. by apply (wf_index _ W).
Qed.

Lemma wf_lookup g : s_find g (abs_list t) = look t (t_entries t !! g).
Proof.
  destruct (s_find g (abs_list t)) as [e|] eqn:E; unfold s_find in E.
  - apply find_some in E as [Hin Hg]. apply bool_decide_eq_true in Hg.
    apply list_elem_of_In, list_elem_of_fmap in Hin as (l & -> & Hl).
    assert (t_entries t !! g = Some l) as -> by by apply (wf_index _ W). done.
  - destruct (t_entries t !! g) as [l|] eqn:G; [|done].
    apply (wf_index _ W) in G as [Hl Hg].
    eapply find_none with (x := deref l t) in E.
    + by rewrite Hg, bool_decide_true in E.
    + apply list_elem_of_In, list_elem_of_fmap. by exists l.
Qed.

Lemma wf_drop g l : t_entries t !! g = Some l ->
  s_drop g (abs_list t) = map (fun l => deref l t) (list_remove l (t_lru t)).
Proof.
  intros G. apply (wf_index _ W) in G as [Hl <-]. unfold s_drop, abs_list, list_remove.
  pose proof wf_guid_inj as I.
  assert (S : forall x, x ∈ t_lru t -> x ∈ t_lru t) by done. revert S.
  generalize (t_lru t) at 1 3 4. intros ls S. induction ls as [|x ls IH]; [done|].
  cbn [map]. rewrite !filter_cons, IH by (intros; apply S; by right).
  do 2 case_decide; try done.
  - exfalso. subst. auto.
  - contradict H. intros E. apply H0. apply I; [apply S; left | done | done].
Qed.
End wf_core_facts.

(** ** The primitive operations *)

Lemma list_remove_elem x l ls : x ∈ list_remove l ls <-> x ∈ ls /\ x ≠ l.
Proof. unfold list_remove. rewrite list_elem_of_filter. tauto. Qed.

Lemma list_remove_notin l ls : l ∉ ls -> list_remove l ls = ls.
Proof.
  unfold list_remove. induction ls as [|x ls IH]; [done|]. intros [H1 H2]%not_elem_of_cons.
  rewrite filter_cons_True by done. by rewrite IH.
Qed.

Lemma list_remove_split l a b : NoDup (a ++ l :: b) -> list_remove l (a ++ l :: b) = a ++ b.
Proof.
  intros (Na & D & [Nb _]%NoDup_cons)%NoDup_app. unfold list_remove.
  rewrite filter_app, filter_cons_False by tauto. f_equal; apply list_remove_notin; [|done].
  intros H. by apply (D l H); left.
Qed.

Lemma list_remove_length l ls : NoDup ls -> l ∈ ls -> S (length (list_remove l ls)) = length ls.
Proof.
  intros N H. apply list_elem_of_split in H as (a & b & ->).
  rewrite list_remove_split, !length_app by done. cbn. lia.
Qed.

(** An abstract list depends only on the cells the list holds. *)
Lemma abs_list_ext t t' : t_lru t' = t_lru t ->
  (forall l, l ∈ t_lru t -> deref l t' = deref l t) -> abs_list t' = abs_list t.
Proof.
  unfold abs_list. intros -> H. apply map_ext_in. intros l Hl. apply H. by apply list_elem_of_In.
Qed.

Lemma wf_core_ext t t' : wf_core t -> t_entries t' = t_entries t -> t_lru t' = t_lru t ->
  t_panic t' = t_panic t -> (forall l, l ∈ t_lru t -> deref l t' = deref l t) ->
  (forall l, l ∈ t_lru t -> is_Some (t_heap t' !! l)) ->
  (forall l, is_Some (t_heap t' !! l) -> (l < t_next t')%nat) -> wf_core t'.
Proof.
  intros [N H I X P] E L P' D H' X'. split; rewrite ?E, ?L, ?P'; auto.
  intros g l. rewrite I. split; intros [Hl Hg]; rewrite D in * by done; auto.
Qed.

Lemma wf_set_stats cfg s t : wf cfg t -> wf cfg (set_stats s t).
Proof. intros [W B]. split; [|done]. by apply (wf_core_ext t); try apply W. Qed.

Lemma ext_set_stats s t t' : ext t t' -> ext t (set_stats s t').
Proof. intros [H N L]. by split. Qed.

(** [&Entry{...}]: a fresh cell outside the list. *)
Lemma alloc_ok cfg e t : wf cfg t ->
  let '(l, t') := alloc e t in
  wf cfg t' /\ abs t' = abs t /\ ext t t' /\ t_heap t' !! l = Some e /\ (l ∉ t_lru t') /\
  t_entries t' = t_entries t /\ l = t_next t.
Proof.
  intros [W B]. cbn. assert (F : t_heap t !! t_next t = None).
  { apply eq_None_not_Some. intros H%(wf_next _ W). lia. }
  assert (D : forall l, l ∈ t_lru t -> deref l (alloc e t).2 = deref l t).
  { intros l Hl. apply deref_ext; [by apply (wf_heap _ W) | by apply insert_subseteq]. }
  split_and!; try done.
  - split; [|done]. eapply wf_core_ext; eauto; cbn.
    + intros l Hl. apply lookup_insert_is_Some.
      destruct (decide (t_next t = l)); eauto using wf_heap.
    + intros l Hl. apply lookup_insert_is_Some in Hl as [-> | [_ Hl%(wf_next _ W)]]; lia.
  - unfold abs. f_equal. by apply abs_list_ext.
  - split; [by apply insert_subseteq | cbn; lia | auto].
  - by rewrite lookup_insert_eq.
  - intros H%(wf_heap _ W)%(wf_next _ W). lia.
Qed.

(** [get] is lookup and move to front. *)
Lemma get_ok cfg g t : wf cfg t ->
  let '(o, t') := get g t in
  s_get g (abs t) = (look t' o, abs t') /\ wf cfg t' /\ ext t t' /\ valid t' o /\
  t_entries t' = t_entries t /\ t_heap t' = t_heap t /\ o = t_entries t !! g.
Proof.
  intros [W B]. unfold get, s_get. cbn [s_list abs]. rewrite (wf_lookup _ W).
  destruct (t_entries t !! g) as [l|] eqn:G; cbn; [|done].
  pose proof (proj1 (wf_index _ W g l) G) as [Hl Hg]. rewrite decide_True by done.
  split_and!; try done.
  - rewrite (wf_drop _ W g l) by done. done.
  - split; [|cbn; rewrite zlen_cons; unfold zlen in *; rewrite <- (list_remove_length l (t_lru t)) in B;
             [lia | apply W | done]].
    split; cbn; try apply W.
    + apply NoDup_cons. rewrite list_remove_elem. split; [tauto|]. by apply NoDup_filter, W.
    + intros x [->|Hx]%elem_of_cons; [by apply (wf_heap _ W)|].
      apply list_remove_elem in Hx as [? _]. by apply (wf_heap _ W).
    + intros g' x. rewrite (wf_index _ W), elem_of_cons, list_remove_elem.
      destruct (decide (x = l)) as [->|]; tauto.
  - split; cbn; auto. intros x [->|Hx]%elem_of_cons; [by left|].
    apply list_remove_elem in Hx. tauto.
  - intros x [= <-]. by apply (wf_heap _ W).
Qed.

(** [remove] drops one entry from list and index. *)
Lemma remove_ok g l t : wf_core t -> t_entries t !! g = Some l ->
  wf_core (remove g l t) /\ abs_list (remove g l t) = s_drop g (abs_list t).
Proof.
  intros W G. pose proof (proj1 (wf_index _ W g l) G) as [Hl Hg]. split.
  - split; cbn; try apply W.
    + by apply NoDup_filter, W.
    + intros x Hx. apply list_remove_elem in Hx as [? _]. by apply (wf_heap _ W).
    + intros g' x. rewrite lookup_delete_Some, (wf_index _ W), list_remove_elem.
      change (deref x (remove g l t)) with (deref x t).
      split; [|intros [[? Hx] <-]].
      * intros (? & ? & <-). repeat split; [done|]. intros ->. congruence.
      * repeat split; [|done]. intros E. apply Hx. apply (wf_guid_inj _ W); congruence.
  - by rewrite (wf_drop _ W g l).
Qed.

(** Assigning fields of an entry, its GUID apart. *)
Lemma deref_assign l x f t : is_Some (t_heap t !! l) ->
  deref l (assign x f t) = if decide (l = x) then f (deref l t) else deref l t.
Proof.
  intros [e He]. unfold deref, assign. cbn. rewrite He. case_decide; subst.
  - by rewrite lookup_alter_eq, He.
  - by rewrite lookup_alter_ne, He.
Qed.

Lemma assign_ok cfg l f t : wf cfg t -> (forall e, Entry_GUID (f e) = Entry_GUID e) ->
  l ∈ t_lru t ->
  wf cfg (assign l f t) /\ abs (assign l f t) = s_update (f (deref l t)) (abs t) /\
  deref l (assign l f t) = f (deref l t).
Proof.
  intros [W B] Hf Hl.
  assert (D := fun x Hx => deref_assign x l f t (wf_heap _ W x Hx)).
  split_and!.
  - split; [|done]. split; cbn; try apply W.
    + intros x Hx. rewrite lookup_alter_is_Some. by apply (wf_heap _ W).
    + intros g x. rewrite (wf_index _ W). split; intros [Hx Hg]; (split; [done|]);
        rewrite D in * by done; case_decide; by rewrite ?Hf in *.
    + intros x. rewrite lookup_alter_is_Some. apply W.
  - unfold abs, s_update. cbn. f_equal. unfold abs_list. cbn. rewrite map_map.
    apply map_ext_in. intros x Hx%list_elem_of_In. rewrite D by done.
    rewrite Hf. case_decide as E; case_decide as E'; subst; try done.
    exfalso. apply E. by apply (wf_guid_inj _ W).
  - rewrite D by done. by rewrite decide_True.
Qed.

(** Assigning fields of an entry not yet in the table. *)
Lemma assign_fresh_ok cfg l f t : wf cfg t -> l ∉ t_lru t ->
  wf cfg (assign l f t) /\ abs (assign l f t) = abs t.
Proof.
  intros [W B] Hl.
  assert (D : forall x, x ∈ t_lru t -> deref x (assign l f t) = deref x t).
  { intros x Hx. rewrite deref_assign by by apply (wf_heap _ W). rewrite decide_False; [done|].
    by intros ->. }
  split.
  - split; [|done]. apply (wf_core_ext t); try done; cbn; intros x; rewrite lookup_alter_is_Some;
      apply W.
  - unfold abs. by rewrite (abs_list_ext t).
Qed.

(** Removing the last element of a list of distinct entries. *)
Lemma s_drop_last s e : NoDup (guids (s ++ [e])) -> s_drop (Entry_GUID e) (s ++ [e]) = s.
Proof.
  unfold guids. rewrite map_app. intros (_ & D & _)%NoDup_app. unfold s_drop.
  rewrite filter_app, filter_cons_False, filter_nil, app_nil_r by tauto.
  induction s as [|x s IH]; [done|]. rewrite filter_cons_True; [f_equal; apply IH|].
  - intros g Hg. apply D. by right.
  - intros E. apply (D (Entry_GUID x)); [left | rewrite E; left].
Qed.

Section table_ops.
Context (cfg : Config).

(** The eviction loop, for any excess: it stops without touching a nil list
    element, keeps the [MaxEntries] most recently used and counts the rest. *)
Lemma evict_ok fuel t : 0 <= MaxEntries cfg -> wf_core t -> (length (t_lru t) <= fuel)%nat ->
  let t' := evict cfg fuel t in
  wf cfg t' /\ abs_list t' = take (Z.to_nat (MaxEntries cfg)) (abs_list t) /\
  t_heap t' = t_heap t /\ t_next t' = t_next t /\ (forall l, l ∈ t_lru t' -> l ∈ t_lru t) /\
  t_stats t' = Nat.iter (length (t_lru t) - Z.to_nat (MaxEntries cfg)) incr_evicted_lru (t_stats t).
Proof.
  intros M. revert t. induction fuel as [|fuel IH]; intros t W F; cbn [evict];
    rewrite (wf_size _ W); destruct (Z.leb_spec (Z.of_nat (length (t_lru t))) (MaxEntries cfg)) as [C|C].
  1,3: cbn; split_and!; try done;
       [unfold abs_list; rewrite take_ge; [done | rewrite length_map; lia]
       | by replace (length (t_lru t) - Z.to_nat (MaxEntries cfg))%nat with 0%nat by lia].
  { lia. }
  destruct (last (t_lru t)) as [old|] eqn:L; [|apply last_None in L; rewrite L in C; cbn in C; lia].
  apply last_Some in L as [ls L].
  assert (Hold : old ∈ t_lru t) by (rewrite L; apply elem_of_app; right; left).
  assert (G : t_entries t !! Entry_GUID (deref old t) = Some old) by by apply (wf_index _ W).
  destruct (remove_ok _ _ t W G) as [W' A'].
  set (t1 := remove _ old t) in *.
  assert (Hl : abs_list t = map (fun l => deref l t) ls ++ [deref old t])
    by by unfold abs_list; rewrite L, map_app.
  rewrite Hl, s_drop_last in A' by (rewrite <- Hl; by apply wf_nodup_guids).
  assert (L1 : t_lru t1 = ls).
  { cbn. pose proof (wf_nodup _ W) as N. rewrite L in *. by rewrite list_remove_split, app_nil_r. }
  rewrite L, length_app in F, C |- *. cbn [length] in F, C |- *.
  destruct (IH (set_stats (incr_evicted_lru (t_stats t1)) t1)) as (I1 & I2 & I3 & I4 & I5 & I6).
  - by apply (wf_core_ext t1); try apply W'.
  - cbn [t_lru set_stats]. rewrite L1. lia.
  - split_and!; try done.
    + rewrite I2, Hl, take_app_le by (rewrite length_map; lia). f_equal. apply A'.
    + intros l Hx%I5. cbn [t_lru set_stats] in Hx. rewrite L1 in Hx.
      apply elem_of_app. by left.
    + rewrite I6. cbn [t_lru set_stats t_stats]. rewrite L1.
      replace (length ls + 1 - Z.to_nat (MaxEntries cfg))%nat
        with (S (length ls - Z.to_nat (MaxEntries cfg)))%nat by lia.
      by rewrite Nat.iter_succ_r.
Qed.

Context (M : 1 <= MaxEntries cfg).

(** [insert] of a new process: push to the front, keep [MaxEntries]. *)
Lemma insert_ok l e t : wf cfg t -> t_heap t !! l = Some e -> l ∉ t_lru t ->
  t_entries t !! Entry_GUID e = None ->
  wf cfg (insert cfg l t) /\ abs (insert cfg l t) = s_insert cfg e (abs t) /\
  t_heap (insert cfg l t) = t_heap t /\ t_next (insert cfg l t) = t_next t /\
  (forall x, x ∈ t_lru (insert cfg l t) -> x = l \/ x ∈ t_lru t) /\ l ∈ t_lru (insert cfg l t).
Proof.
  intros [W B] He Hl Hn. unfold insert. rewrite (deref_eq _ _ _ He).
  set (t1 := set_index _ _ t).
  assert (W1 : wf_core t1).
  { split; cbn; try apply W.
    - apply NoDup_cons. split; [done | apply W].
    - intros x [->|Hx]%elem_of_cons; [by rewrite He | by apply (wf_heap _ W)].
    - intros g x. change (deref x t1) with (deref x t).
      rewrite lookup_insert_Some, (wf_index _ W), elem_of_cons. split.
      + intros [[<- <-] | (Hne & Hx & Hg)]; [|tauto]. split; [by left | by rewrite (deref_eq _ _ _ He)].
      + intros [[->|Hx] <-]; [left; by rewrite (deref_eq _ _ _ He)|]. right. split_and!; try done.
        intros E. enough (t_entries t !! Entry_GUID e = Some x) by congruence.
        by apply (wf_index _ W). }
  assert (A1 : abs_list t1 = e :: abs_list t) by (cbn; by rewrite <- (deref_eq _ _ _ He)).
  destruct (evict_ok (length (t_lru t1)) t1) as (I1 & I2 & I3 & I4 & I5 & I6); try lia; try done.
  split_and!; try done.
  - unfold abs, s_insert. rewrite I2, I6, A1. cbn [s_list s_stats]. f_equal.
    assert (Hz : zlen (e :: abs_list t) = zlen (t_lru t1))
      by (rewrite <- A1; unfold zlen, abs_list; by rewrite length_map).
    rewrite Hz. unfold zlen in *. cbn [t1 t_lru set_index length t_stats] in *.
    destruct (Z.leb_spec (Z.of_nat (S (length (t_lru t)))) (MaxEntries cfg)).
    + by replace (S (length (t_lru t)) - Z.to_nat (MaxEntries cfg))%nat with 0%nat by lia.
    + by replace (S (length (t_lru t)) - Z.to_nat (MaxEntries cfg))%nat with 1%nat by lia.
  - intros x Hx%I5. cbn in Hx. by apply elem_of_cons in Hx.
  - assert (E : e ∈ abs_list (evict cfg (length (t_lru t1)) t1)).
    { rewrite I2, A1. replace (Z.to_nat (MaxEntries cfg)) with (S (Z.to_nat (MaxEntries cfg) - 1)) by lia.
      left. }
    apply list_elem_of_fmap in E as (x & E & Hx).
    replace l with x; [done|]. apply (wf_guid_inj t1 W1); [by apply I5 | left|].
    rewrite (deref_eq l e t1 He). unfold deref in E |- *. rewrite I3 in E. by rewrite <- E.
Qed.

(** Allocating and inserting a process the table does not have. *)
Lemma alloc_insert_ok e t : wf cfg t -> t_entries t !! Entry_GUID e = None ->
  let '(l, t') := (let '(l, t) := alloc e t in (l, insert cfg l t)) in
  s_insert cfg e (abs t) = abs t' /\ deref l t' = e /\ wf cfg t' /\ ext t t' /\
  is_Some (t_heap t' !! l) /\ l ∈ t_lru t'.
Proof.
  intros W Hn. pose proof (alloc_ok cfg e t W) as A. destruct (alloc e t) as [l t1].
  destruct A as (W1 & A1 & E1 & H1 & F1 & N1 & Q1). rewrite <- N1 in Hn.
  destruct (insert_ok l e t1 W1 H1 F1 Hn) as (W2 & A2 & H2 & X2 & L2 & M2).
  split_and!; try done.
  - by rewrite A2, A1.
  - apply deref_eq. by rewrite H2.
  - split.
    + rewrite H2. apply E1.
    + rewrite X2. apply E1.
    + intros x [->|Hx]%L2; [|by apply E1]. right. lia.
  - rewrite H2, H1. done.
Qed.

(** The result of a pointer-returning operation that refines its specification. *)
Record refines (t : Table) (r : option loc * Table) (q : option Entry * spec) : Prop := {
  ref_eq : q = (look r.2 r.1, abs r.2);
  ref_wf : wf cfg r.2;
  ref_ext : ext t r.2;
  ref_valid : valid r.2 r.1;
}.

Lemma refines_nil t t' : wf cfg t' -> ext t t' -> refines t (None, t') (None, abs t').
Proof. intros W E. split; done. Qed.

Lemma parent_ok v g pid st t : wf cfg t ->
  refines t (parent cfg v g pid st t) (s_parent cfg v g pid st (abs t)).
Proof.
  intros W. unfold parent, s_parent. pose proof (get_ok cfg g t W) as G.
  destruct (get g t) as [[l|] t1]; destruct G as (-> & W1 & E1 & V1 & N1 & H1 & O1); cbn [look fmap option_fmap option_map].
  { by split. }
  destruct (Proc v) as [rd|]; [|by apply refines_nil]. case_match; [by apply refines_nil|].
  destruct (rd pid) as [info|]; [|by apply (refines_nil t (set_stats _ t1)); [apply wf_set_stats | apply ext_set_stats]].
  case_match; [by apply (refines_nil t (set_stats _ t1)); [apply wf_set_stats | apply ext_set_stats]|].
  set (e := mkEntry g _ _ _ _ _ _ _ _ _).
  pose proof (alloc_insert_ok e (set_stats (incr_lookups (t_stats t1)) t1)) as A.
  destruct (alloc e _) as [l t2]. cbn [abs s_list s_stats t_stats set_stats] in A |- *.
  destruct A as (A1 & A2 & A3 & A4 & A5 & A6); [by apply wf_set_stats | by cbn; rewrite N1|].
  split; cbn [fst snd]; [|done| |].
  - unfold look. cbn [fst snd fmap option_fmap option_map]. rewrite A2. f_equal. apply A1.
  - etrans; [by apply ext_set_stats, E1 | exact A4].
  - by intros x [= <-].
Qed.

(** Nothing but the parent itself joins the table during a parent lookup. *)
Lemma s_drop_guids g g' s : g ∈ guids (s_drop g' s) -> g ∈ guids s.
Proof.
  intros (e & -> & [_ He]%list_elem_of_filter)%list_elem_of_fmap.
  apply list_elem_of_fmap. by exists e.
Qed.

Lemma s_find_guids g s : s_find g s = None <-> g ∉ guids s.
Proof.
  induction s as [|e s IH]; cbn; [split; [intros _ []%not_elem_of_nil | done]|].
  rewrite not_elem_of_cons. case_bool_decide as E; subst.
  - split; [done|]. intros []. done.
  - rewrite IH. split; [|tauto]. intros H. split; [congruence | done].
Qed.

Lemma s_find_elem g s e : s_find g s = Some e -> e ∈ s /\ Entry_GUID e = g.
Proof.
  intros [H1%list_elem_of_In H2]%find_some. by apply bool_decide_eq_true in H2.
Qed.

Lemma s_parent_guids v g pid st s g' : g' ≠ g ->
  g' ∉ guids (s_list s) -> g' ∉ guids (s_list (s_parent cfg v g pid st s).2).
Proof.
  intros Hne H. unfold s_parent, s_get. destruct (s_find g (s_list s)) as [e|] eqn:E.
  - apply s_find_elem in E as [E1 E2]. cbn. rewrite not_elem_of_cons.
    split; [congruence|]. by intros ?%s_drop_guids.
  - repeat case_match; simplify_eq; try done. cbn [snd s_insert s_list].
    intros [e' [-> Hin%subseteq_take]]%list_elem_of_fmap.
    apply elem_of_cons in Hin as [->|Hin]; [done|]. apply H, list_elem_of_fmap. eauto.
Qed.

Lemma abs_absent g t : wf cfg t -> g ∉ guids (s_list (abs t)) <-> t_entries t !! g = None.
Proof.
  intros [W _]. rewrite <- s_find_guids. cbn [s_list abs]. rewrite (wf_lookup _ W).
  by destruct (t_entries t !! g).
Qed.

(** The new entry of a fork: the child is allocated before its parent is looked
    up, and enters the table after it. *)
Lemma handle_fork_ok v now ev guid hdr t : wf cfg t -> guid ≠ hdr -> Event_Type ev = TypeFork ->
  t_entries t !! guid = None ->
  let r := handle_type cfg v now ev guid hdr None t in
  s_handle_type cfg v now ev guid hdr None (abs t) = (look r.2 r.1, abs r.2) /\
  wf cfg r.2 /\ valid r.2 r.1.
Proof.
  intros W Hne T Hn. unfold handle_type, s_handle_type. rewrite T.
  pose proof (alloc_ok cfg (newEntry ev guid hdr) t W) as A.
  destruct (alloc _ t) as [l t1]. destruct A as (W1 & A1 & E1 & H1 & F1 & N1 & Q1).
  set (pid := Parent_PID _). set (st := Parent_StartTimeNs _).
  pose proof (parent_ok v hdr pid st t1 W1) as P. rewrite A1 in P.
  pose proof (s_parent_guids v hdr pid st (abs t) guid Hne) as G.
  destruct (parent cfg v hdr pid st t1) as [p t2]. destruct P as [P1 P2 P3 P4].
  rewrite P1 in *. cbn [fst snd] in *.
  assert (H2 : t_heap t2 !! l = Some (newEntry ev guid hdr)) by (eapply lookup_weaken, P3; done).
  assert (F2 : l ∉ t_lru t2).
  { intros [?|Hl]%P3; [done|]. assert (l < t_next t1)%nat; [|lia]. apply (wf_next _ (proj1 W1)). by eexists. }
  assert (N2 : t_entries t2 !! guid = None) by by apply abs_absent, G, abs_absent.
  set (e := match look t2 p with Some _ => _ | None => _ end).
  set (t3 := match p with Some _ => _ | None => _ end).
  assert (T3 : wf cfg t3 /\ abs t3 = abs t2 /\ t_heap t3 !! l = Some e /\ t_lru t3 = t_lru t2 /\
               t_entries t3 = t_entries t2).
  { destruct p as [pl|]; subst t3 e; [|by split_and!].
    destruct (assign_fresh_ok cfg l (set_image (Image (deref pl t2)) (Argv (deref pl t2))) t2 P2 F2).
    split_and!; try done. cbn. by rewrite lookup_alter_eq, H2. }
  destruct T3 as (W3 & A3 & H3 & L3 & N3).
  destruct (insert_ok l e t3) as (I1 & I2 & I3 & I4 & I5 & I6); try done.
  { by rewrite L3. }
  { rewrite N3. replace (Entry_GUID e) with guid; [done|]. subst e. by destruct (look t2 p). }
  cbn [fst snd]. split_and!; [|done|].
  - unfold look at 1. cbn [fmap option_fmap option_map]. rewrite (deref_eq l e) by by rewrite I3.
    by rewrite I2, A3.
  - intros x [= <-]. by rewrite I3, H3.
Qed.

Lemma assign_assign l f f' t : assign l f (assign l f' t) = assign l (f ∘ f') t.
Proof. unfold assign. cbn. by rewrite alter_alter_eq. Qed.

(** Updating an entry to itself changes nothing. *)
Lemma s_update_id l t : wf cfg t -> l ∈ t_lru t -> s_update (deref l t) (abs t) = abs t.
Proof.
  intros [W _] Hl. unfold s_update, abs, abs_list. cbn. f_equal. rewrite map_map.
  apply map_ext_in. intros x Hx%list_elem_of_In. case_decide as E; [|done].
  by rewrite (wf_guid_inj _ W x l).
Qed.

Lemma handle_exec_ok v now ev guid hdr t : wf cfg t -> Event_Type ev = TypeExec ->
  let r := handle_type cfg v now ev guid hdr (t_entries t !! guid) t in
  s_handle_type cfg v now ev guid hdr (look t (t_entries t !! guid)) (abs t) = (look r.2 r.1, abs r.2) /\
  wf cfg r.2 /\ valid r.2 r.1.
Proof.
  intros W T. unfold handle_type, s_handle_type. rewrite T.
  set (im := Process_Image _). set (av := Process_Argv _).
  assert (K : forall l t1, wf cfg t1 -> l ∈ t_lru t1 ->
    let t2 := assign l (set_external false) (assign l (set_image im av) t1) in
    s_update (set_external false (set_image im av (deref l t1))) (abs t1) = abs t2 /\
    deref l t2 = set_external false (set_image im av (deref l t1)) /\
    wf cfg t2 /\ valid t2 (Some l)).
  { intros l t1 W1 Hl. cbn zeta. rewrite assign_assign.
    destruct (assign_ok cfg l (set_external false ∘ set_image im av) t1) as (A1 & A2 & A3); try done.
    split_and!; try done. intros x [= <-]. apply A1, Hl. }
  unfold look at 1.
  destruct (t_entries t !! guid) as [l|] eqn:G; cbn [fmap option_fmap option_map].
  - apply (wf_index _ (proj1 W)) in G as [Hl _].
    destruct (K l t W Hl) as (-> & K2 & K3 & K4). cbn [fst snd look fmap option_fmap option_map].
    by rewrite K2.
  - pose proof (alloc_insert_ok (newEntry ev guid hdr) t W G) as A.
    destruct (alloc _ t) as [l t1]. destruct A as (-> & A2 & A3 & A4 & A5 & A6).
    destruct (K l _ A3 A6) as (K1 & K2 & K3 & K4). rewrite A2 in K1, K2.
    cbn [fst snd look fmap option_fmap option_map]. by rewrite K1, K2.
Qed.

Lemma handle_exit_ok v now ev guid hdr t : wf cfg t -> Event_Type ev = TypeExit ->
  let r := handle_type cfg v now ev guid hdr (t_entries t !! guid) t in
  s_handle_type cfg v now ev guid hdr (look t (t_entries t !! guid)) (abs t) = (look r.2 r.1, abs r.2) /\
  wf cfg r.2 /\ valid r.2 r.1.
Proof.
  intros W T. unfold handle_type, s_handle_type. rewrite T. unfold look at 1.
  destruct (t_entries t !! guid) as [l|] eqn:G; cbn [fmap option_fmap option_map].
  - apply (wf_index _ (proj1 W)) in G as [Hl _]. case_match.
    + destruct (assign_ok cfg l (set_exited now) t) as (A1 & A2 & A3); try done.
      cbn [fst snd look fmap option_fmap option_map]. rewrite A2, A3. split_and!; try done.
      intros x [= <-]. apply A1, Hl.
    + rewrite s_update_id by done. split_and!; try done. intros x [= <-]. apply W, Hl.
  - split_and!; try done. by apply wf_set_stats.
Qed.

Lemma handle_type_ok v now ev guid hdr t : wf cfg t -> (Event_Type ev = TypeFork -> guid ≠ hdr) ->
  let r := handle_type cfg v now ev guid hdr (t_entries t !! guid) t in
  s_handle_type cfg v now ev guid hdr (look t (t_entries t !! guid)) (abs t) = (look r.2 r.1, abs r.2) /\
  wf cfg r.2 /\ valid r.2 r.1.
Proof.
  intros W Hne. destruct (Event_Type ev) eqn:T; auto using handle_exec_ok, handle_exit_ok.
  destruct (t_entries t !! guid) as [l|] eqn:G; [|by apply handle_fork_ok; auto].
  unfold handle_type, s_handle_type. rewrite T. split_and!; try done.
  intros x [= <-]. apply (wf_index _ (proj1 W)) in G as [Hl _]. apply W, Hl.
Qed.

Lemma handle_parent_id_ok ev hdr o t : wf cfg t -> valid t o ->
  let r := handle_parent_id ev hdr o t in
  s_parent_id ev hdr (look t o) (abs t) = (r.1, abs r.2) /\ wf cfg r.2 /\ ext t r.2.
Proof.
  intros W V. unfold handle_parent_id, s_parent_id, look.
  destruct o as [l|]; cbn [fmap option_fmap option_map]; [|done].
  case_decide; [|done]. pose proof (get_ok cfg (ParentGUID (deref l t)) t W) as G.
  destruct (get _ t) as [[pl|] t']; destruct G as (-> & G2 & G3 & G4 & _); by split_and!.
Qed.

(** [Handle] as a whole. *)
Lemma Handle_ok v1 v2 now ev t : wf cfg t ->
  (Event_Type ev = TypeFork ->
  t_GUID cfg (Process_PID (Event_Process ev)) (Process_StartTimeNs (Event_Process ev)) ≠
  t_GUID cfg (Parent_PID (Event_Parent ev)) (Parent_StartTimeNs (Event_Parent ev))) ->
  let '(ev', t') := Handle cfg v1 v2 now ev t in
  s_Handle cfg v1 v2 now ev (abs t) = (ev', abs t') /\ wf cfg t'.
Proof.
  intros W Hne. unfold Handle, s_Handle.
  set (guid := t_GUID cfg _ _) in *. set (hdr := t_GUID cfg (Parent_PID _) _) in *.
  pose proof (get_ok cfg guid t W) as G. destruct (get guid t) as [o t1].
  destruct G as (-> & W1 & _ & _ & N1 & _ & ->). rewrite <- N1.
  pose proof (handle_type_ok v1 now (set_process_guid guid ev) guid hdr t1 W1 Hne) as T.
  destruct (handle_type _ _ _ _ _ _ _ _) as [o2 t2]. destruct T as (-> & W2 & V2).
  cbn [fst snd].
  replace (match look t2 o2 with Some e => _ | None => _ end) with
    (match o2 with
     | Some l => if decide (Event_Type (set_process_guid guid ev) ≠ TypeExec)
         then set_process_image (Image (deref l t2)) (Argv (deref l t2)) (set_process_guid guid ev)
         else set_process_guid guid ev
     | None => set_process_guid guid ev end) by by destruct o2.
  set (ev1 := match o2 with Some _ => _ | None => _ end).
  pose proof (handle_parent_id_ok ev1 hdr o2 t2 W2 V2) as P.
  destruct (handle_parent_id ev1 hdr o2 t2) as [[[pg pp] ps] t3]. destruct P as (-> & W3 & _).
  cbn [fst snd]. pose proof (parent_ok v2 pg pp ps t3 W3) as Q.
  destruct (parent cfg v2 pg pp ps t3) as [p t4]. destruct Q as [-> W4 _ _].
  cbn [fst snd]. split; [|done]. by destruct p.
Qed.

(** ** Seed and Sweep *)

Lemma Seed_refines procs t : wf cfg t ->
  let '(n, t') := Seed cfg procs t in
  s_Seed cfg procs (abs t) = (n, abs t') /\ wf cfg t'.
Proof.
  unfold Seed, s_Seed. generalize (seed_start (map snd procs)). generalize 0. intros n st. revert n t.
  induction procs as [|[v p] ps IH]; intros n t W; cbn [fold_left fst snd]; [done|].
  unfold seed_one at 2, s_seed_one at 2.
  destruct (negb (inScope v (Info_CgroupID p))); [by apply IH|]. cbn [s_list abs]. rewrite (wf_lookup _ (proj1 W)).
  destruct (t_entries t !! _) as [l|] eqn:G; cbn [look fmap option_fmap option_map]; [by apply IH|].
  pose proof (alloc_insert_ok _ t W G) as A. destruct (alloc _ t) as [l t1].
  destruct A as (-> & _ & W' & _). by apply IH.
Qed.

Lemma filter_ext_in {A} (P Q : A -> Prop) `{!forall x, Decision (P x)} `{!forall x, Decision (Q x)} (l : list A) :
  (forall x, x ∈ l -> P x <-> Q x) -> filter P l = filter Q l.
Proof.
  induction l as [|x l IH]; intros I; [done|]. rewrite !filter_cons.
  rewrite IH by (intros; apply I; by right).
  specialize (I x ltac:(left)). do 2 case_decide; tauto.
Qed.

Lemma filter_all {A} (P : A -> Prop) `{!forall x, Decision (P x)} (l : list A) :
  (forall x, x ∈ l -> P x) -> filter P l = l.
Proof.
  induction l as [|x l IH]; intros I; [done|]. rewrite filter_cons_True by (apply I; left).
  f_equal. apply IH. intros y Hy. apply I. by right.
Qed.

Lemma filter_none {A} (P : A -> Prop) `{!forall x, Decision (P x)} (l : list A) :
  (forall x, x ∈ l -> ~ P x) -> filter P l = [].
Proof.
  induction l as [|x l IH]; intros I; [done|]. rewrite filter_cons_False by (apply I; left).
  apply IH. intros y Hy. apply I. by right.
Qed.

Lemma abs_unique g l x t : wf cfg t -> t_entries t !! g = Some l -> x ∈ abs_list t ->
  Entry_GUID x = g -> x = deref l t.
Proof.
  intros [W _] [Hl <-]%(wf_index _ W) (y & -> & Hy)%list_elem_of_fmap E.
  by rewrite (wf_guid_inj _ W y l).
Qed.

Lemma s_drop_perm g l t : wf cfg t -> t_entries t !! g = Some l ->
  abs_list t ≡ₚ deref l t :: s_drop g (abs_list t).
Proof.
  intros [W _] G. rewrite (wf_drop _ W g l G). apply (wf_index _ W) in G as [Hl _].
  unfold abs_list. pose proof (wf_nodup _ W) as N.
  apply list_elem_of_split in Hl as (a & b & E). rewrite E in *.
  rewrite list_remove_split, !map_app by done. cbn. by rewrite Permutation_middle.
Qed.

(** A swept entry is one more among the dead. *)
Lemma sweep_dead cutoff gs g l t : wf_core t -> t_entries t !! g = Some l ->
  abs_list t ≡ₚ deref l t :: s_drop g (abs_list t) -> expired cutoff (deref l t) ->
  length (filter (fun e => expired cutoff e /\ Entry_GUID e ∈ g :: gs) (abs_list t)) =
  S (length (filter (fun e => expired cutoff e /\ Entry_GUID e ∈ gs) (s_drop g (abs_list t)))).
Proof.
  intros W G P X. rewrite P at 1. rewrite filter_cons_True.
  - cbn. do 2 f_equal. apply filter_ext_in. intros x [Hx _]%list_elem_of_filter.
    rewrite elem_of_cons. tauto.
  - split; [done|]. apply (wf_index _ W) in G as [_ ->]. left.
Qed.

(** The loop of [Sweep], part way: the pairs still to visit are in the index. *)
Lemma sweep_loop cutoff order n t : wf cfg t -> NoDup order.*1 ->
  (forall g l, (g, l) ∈ order -> t_entries t !! g = Some l) ->
  let dead := filter (fun e => expired cutoff e /\ Entry_GUID e ∈ order.*1) (abs_list t) in
  let '(n', t') := fold_left (sweep_one cutoff) order (n, t) in
  wf cfg t' /\ n' = n + zlen dead /\
  t_stats t' = Nat.iter (length dead) incr_evicted_exit (t_stats t) /\
  abs_list t' = filter (fun e => ~ (expired cutoff e /\ Entry_GUID e ∈ order.*1)) (abs_list t).
Proof.
  revert n t. induction order as [|[g l] order IH]; intros n t W N I; cbn [fold_left fmap list_fmap fst].
  { rewrite filter_none, filter_all by (intros ? _; rewrite elem_of_nil; tauto). cbn [length]. by rewrite Z.add_0_r. }
  apply NoDup_cons in N as [N1 N2].
  assert (G : t_entries t !! g = Some l) by (apply I; left).
  unfold sweep_one at 2. cbn [fst snd].
  destruct (negb _ && _) eqn:X.
  - assert (X' : expired cutoff (deref l t)).
    { apply andb_true_iff in X as [X1%negb_true_iff%Z.eqb_neq X2%Z.ltb_lt]. by split. }
    destruct (remove_ok g l t (proj1 W) G) as [W1 A1].
    assert (P := s_drop_perm g l t W G).
    set (t1 := remove g l t) in *.
    specialize (IH (n + 1) (set_stats (incr_evicted_exit (t_stats t1)) t1)).
    destruct (fold_left _ _ _) as [n' t'].
    destruct IH as (I1 & I2 & I3 & I4); try done.
    + apply wf_set_stats. split; [done|]. pose proof (proj2 W).
      assert (zlen (abs_list t1) <= zlen (abs_list t))
        by (rewrite A1; unfold zlen; apply Permutation_length in P; cbn in P; lia).
      unfold abs_list, zlen in *. rewrite !length_map in *. lia.
    + intros g' l' H. cbn. rewrite lookup_delete_ne; [apply I; by right|].
      intros <-. apply N1, list_elem_of_fmap. by exists (g, l').
    + change (abs_list (set_stats _ t1)) with (abs_list t1) in *. rewrite A1 in *.
      pose proof (sweep_dead cutoff order.*1 g l t (proj1 W) G P X') as L.
      set (dead0 := filter _ (s_drop g _)) in *. set (dead := filter _ (abs_list t)) in *.
      split_and!; [done | | |].
      * rewrite I2. unfold zlen. rewrite L. lia.
      * rewrite I3, L, Nat.iter_succ_r. done.
      * rewrite I4. unfold s_drop. rewrite list_filter_filter. apply filter_ext_in.
        intros x Hx. rewrite elem_of_cons.
        destruct (decide (Entry_GUID x = g)) as [E|E]; [|tauto].
        rewrite (abs_unique g l x t) in * by done. tauto.
  - assert (X' : ~ expired cutoff (deref l t)).
    { intros [X1 X2]. apply Z.eqb_neq in X1. apply Z.ltb_lt in X2. by rewrite X1, X2 in X. }
    specialize (IH n t W N2). destruct (fold_left _ _ _) as [n' t'].
    rewrite !(filter_ext_in (fun e => _ /\ _ ∈ g :: _) (fun e => expired cutoff e /\ Entry_GUID e ∈ order.*1)),
      !(filter_ext_in (fun e => ~ (_ /\ _ ∈ g :: _)) (fun e => ~ (expired cutoff e /\ Entry_GUID e ∈ order.*1)));
      [apply IH; intros; apply I; by right | |];
      (intros x Hx; rewrite elem_of_cons; destruct (decide (Entry_GUID x = g)) as [E|E]; [|tauto]);
      rewrite (abs_unique g l x t) in * by done; tauto.
Qed.

Lemma Sweep_refines order now t : wf cfg t -> order ≡ₚ map_to_list (t_entries t) ->
  let '(n, t') := Sweep cfg order now t in
  s_Sweep cfg now (abs t) = (n, abs t') /\ wf cfg t'.
Proof.
  intros W O. unfold Sweep, s_Sweep. set (cutoff := now - _).
  pose proof (sweep_loop cutoff order 0 t W) as L. destruct (fold_left _ _ _) as [n t'].
  assert (D : forall x, x ∈ abs_list t -> Entry_GUID x ∈ order.*1).
  { intros x (l & -> & Hl)%list_elem_of_fmap. apply list_elem_of_fmap.
    exists (Entry_GUID (deref l t), l). split; [done|]. rewrite O.
    apply elem_of_map_to_list. by apply (wf_index _ (proj1 W)). }
  destruct L as (L1 & L2 & L3 & L4).
  - rewrite O. apply NoDup_fst_map_to_list.
  - intros g l. rewrite O. apply elem_of_map_to_list.
  - split; [|done]. change (abs t') with (mkSpec (abs_list t') (t_stats t')). rewrite L2, L3, L4. cbn [s_list s_stats abs].
    rewrite (filter_ext_in (fun e => expired cutoff e /\ Entry_GUID e ∈ order.*1) (expired cutoff))
      by (intros x Hx; specialize (D x Hx); tauto).
    rewrite (filter_ext_in (fun e => ~ (expired cutoff e /\ Entry_GUID e ∈ order.*1))
               (fun e => ~ expired cutoff e)) by (intros x Hx; specialize (D x Hx); tauto).
    done.
Qed.
End table_ops.
