(* ===== verification/ProcTableProps.v ===== *)
(** * Properties of the process table

    What the table's clients rely on, proved from the refinement of
    [ProcTableSpec]: the invariant of every reachable table, what [Handle] does to
    the entry of the event's process, to the other entries and to the event, and
    what [Seed] and [Sweep] do. *)

From Stdlib Require Import ZArith Lia.
From stdpp Require Import prelude list gmap relations.
From S2P Require Import Prelude Guid Event ProcTable ProcTableSpec.

Local Open Scope Z_scope.

(** ** Lemmas on the specification *)

Lemma s_find_drop g g' s : g ≠ g' -> s_find g (s_drop g' s) = s_find g s.
Proof.
  intros Hne. unfold s_drop, s_find. induction s as [|e s IH]; [done|]. rewrite filter_cons.
  case_decide as E; cbn; rewrite ?IH; [done|]. rewrite bool_decide_false; [done|]. congruence.
Qed.

Lemma s_find_get g g' s : s_find g (s_list (s_get g' s).2) = s_find g (s_list s).
Proof.
  unfold s_get. destruct (s_find g' (s_list s)) as [e|] eqn:E; [|done]. cbn.
  pose proof (s_find_elem _ _ _ E) as [_ <-]. case_bool_decide as G; [by subst|].
  apply s_find_drop. congruence.
Qed.

Lemma s_get_fst g s : (s_get g s).1 = s_find g (s_list s).
Proof. unfold s_get. by destruct (s_find g (s_list s)). Qed.

Lemma s_find_update g e s :
  s_find g (s_list (s_update e s)) =
  if decide (Entry_GUID e = g) then (fun _ => e) <$> s_find g (s_list s) else s_find g (s_list s).
Proof.
  unfold s_update, s_find. cbn. induction (s_list s) as [|x l IH]; cbn; [by case_decide|].
  rewrite IH. repeat case_decide; repeat case_bool_decide; cbn; try done; congruence.
Qed.

(** A prefix of the list answers as the list does, or not at all. *)
Lemma s_find_take g n s : s_find g (take n s) = s_find g s \/ s_find g (take n s) = None.
Proof.
  revert n. induction s as [|e s IH]; intros [|n]; cbn; auto. case_bool_decide; [by left | apply IH].
Qed.

(** Filtering a list of distinct entries. *)
Lemma s_find_filter (P : Entry -> Prop) `{!forall e, Decision (P e)} g s : NoDup (guids s) ->
  s_find g (filter (fun e => ~ P e) s) =
  match s_find g s with Some e => if bool_decide (P e) then None else Some e | None => None end.
Proof.
  induction s as [|e s IH]; [done|]. cbn [guids map]. intros [N1 N2]%NoDup_cons.
  rewrite filter_cons. specialize (IH N2). cbn [s_find List.find].
  destruct (decide (Entry_GUID e = g)) as [<-|Hne].
  - rewrite bool_decide_true by done. destruct (decide (~ P e)) as [D|D].
    + rewrite bool_decide_false by done. cbn. by rewrite bool_decide_true.
    + rewrite bool_decide_true by (by destruct (decide (P e))). rewrite IH.
      apply s_find_guids in N1. by rewrite N1.
  - rewrite (bool_decide_false (Entry_GUID e = g)) by done. destruct (decide (~ P e)); [|done].
    cbn. by rewrite bool_decide_false.
Qed.

Lemma filter_split_len {A} (P : A -> Prop) `{!forall x, Decision (P x)} (l : list A) :
  (length (filter P l) + length (filter (fun x => ~ P x) l))%nat = length l.
Proof.
  induction l as [|x l IH]; [done|]. rewrite !filter_cons.
  destruct (decide (P x)), (decide (~ P x)); cbn; try lia; tauto.
Qed.

Section spec_lemmas.
Context (cfg : Config) (M : 1 <= MaxEntries cfg).

Lemma s_find_insert e s : s_find (Entry_GUID e) (s_list (s_insert cfg e s)) = Some e.
Proof.
  cbn. replace (Z.to_nat (MaxEntries cfg)) with (S (Z.to_nat (MaxEntries cfg) - 1)) by lia.
  cbn. by rewrite bool_decide_true.
Qed.

Lemma s_find_insert_ne g e s : g ≠ Entry_GUID e ->
  s_find g (s_list (s_insert cfg e s)) = s_find g (s_list s) \/
  s_find g (s_list (s_insert cfg e s)) = None /\ MaxEntries cfg < zlen (e :: s_list s).
Proof.
  intros Hne. cbn [s_insert s_list].
  destruct (Z.le_gt_cases (zlen (e :: s_list s)) (MaxEntries cfg)) as [H|H].
  - left. rewrite take_ge by (unfold zlen in H; lia). cbn. by rewrite bool_decide_false.
  - destruct (s_find_take g (Z.to_nat (MaxEntries cfg)) (e :: s_list s)) as [-> | ->]; auto.
    left. cbn. by rewrite bool_decide_false.
Qed.

(** A parent lookup leaves the parent, if it found one, in the table. *)
Lemma s_parent_find v g pid st s :
  s_find g (s_list (s_parent cfg v g pid st s).2) = (s_parent cfg v g pid st s).1.
Proof.
  unfold s_parent. pose proof (s_find_get g g s) as G. pose proof (s_get_fst g s) as F.
  destruct (s_get g s) as [[e|] s'] eqn:E; cbn [fst snd] in *; [by rewrite G, F|].
  repeat case_match; cbn [fst snd s_list]; simplify_eq; try (by rewrite G, F).
  by apply (s_find_insert (mkEntry g _ _ _ _ _ _ _ _ _)).
Qed.

(** The entry a parent lookup returns: the table's, or the one [/proc] shows for
    the process id if it started in the same clock tick. *)
Definition resolved (v : view) (g : list byte) (pid st : Z) (known : option Entry) : option Entry :=
  match known, Proc v with
  | Some e, _ => Some e
  | None, None => None
  | None, Some rd =>
      if pid =? 0 then None else
      match rd pid with
      | Some info =>
          if StartTicks (Info_StartTimeNs info) =? StartTicks st then
            Some (mkEntry g [] (Info_PID info) (Info_PPID info) (Info_StartTimeNs info)
                    (Info_Image info) (Info_Argv info) (Info_CgroupID info)
                    (negb (inScope v (Info_CgroupID info))) 0)
          else None
      | None => None
      end
  end.

Lemma s_parent_fst v g pid st s :
  (s_parent cfg v g pid st s).1 = resolved v g pid st (s_find g (s_list s)).
Proof.
  unfold s_parent, resolved. pose proof (s_get_fst g s) as F.
  destruct (s_get g s) as [o s'] eqn:E; cbn [fst] in F; subst o.
  destruct (s_find g (s_list s)); [done|]. destruct (Proc v); [|done].
  destruct (pid =? 0); [done|]. destruct (o pid) as [info|]; [|done].
  by destruct (StartTicks (Info_StartTimeNs info) =? StartTicks st).
Qed.

(** Other entries survive a parent lookup or are evicted, the latter only from a
    full table. *)
Lemma s_parent_others v g pid st s g' : g' ≠ g ->
  s_find g' (s_list (s_parent cfg v g pid st s).2) = s_find g' (s_list s) \/
  s_find g' (s_list (s_parent cfg v g pid st s).2) = None /\ MaxEntries cfg <= zlen (s_list s).
Proof.
  intros Hne. unfold s_parent. pose proof (s_find_get g' g s) as G.
  destruct (s_get g s) as [[e|] s'] eqn:E; cbn [snd] in *; [by left|].
  assert (s' = s) as -> by (unfold s_get in E; case_match; congruence).
  repeat case_match; cbn [snd s_list]; try by left.
  destruct (s_find_insert_ne g' (mkEntry g [] (Info_PID p) (Info_PPID p) (Info_StartTimeNs p)
    (Info_Image p) (Info_Argv p) (Info_CgroupID p) (negb (inScope v (Info_CgroupID p))) 0)
    (mkSpec (s_list s) (incr_lookups (s_stats s))) Hne) as [-> | [-> H']]; [by left|].
  right. split; [done|]. cbn in H'. rewrite zlen_cons in H'. lia.
Qed.

(** ** The spec of [Handle], by lookups *)

(** The entry an event leaves for its process, from the entry the table had for
    it and the parent it resolves. *)
Definition updated_entry (now : Z) (ev : Event) (guid hdr : list byte) (known par : option Entry)
    : option Entry :=
  match Event_Type ev, known with
  | TypeFork, Some e => Some e
  | TypeFork, None =>
      let e := newEntry ev guid hdr in
      Some (match par with Some p => set_image (Image p) (Argv p) e | None => e end)
  | TypeExec, _ =>
      Some (set_external false (set_image (Process_Image (Event_Process ev))
              (Process_Argv (Event_Process ev)) (default (newEntry ev guid hdr) known)))
  | TypeExit, None => None
  | TypeExit, Some e => Some (if ExitedAt e =? 0 then set_exited now e else e)
  end.

Lemma s_insert_head e s : head (s_list (s_insert cfg e s)) = Some e.
Proof.
  cbn. by replace (Z.to_nat (MaxEntries cfg)) with (S (Z.to_nat (MaxEntries cfg) - 1)) by lia.
Qed.

Lemma s_update_head e x s : head (s_list s) = Some x -> Entry_GUID x = Entry_GUID e ->
  head (s_list (s_update e s)) = Some e.
Proof.
  unfold s_update. cbn. destruct (s_list s); cbn; [done|]. intros [= ->] E. by rewrite decide_True.
Qed.

Lemma s_get_Some g s e : s_find g (s_list s) = Some e ->
  s_get g s = (Some e, mkSpec (e :: s_drop g (s_list s)) (s_stats s)).
Proof. unfold s_get. by intros ->. Qed.

Lemma s_get_None g s : s_find g (s_list s) = None -> s_get g s = (None, s).
Proof. unfold s_get. by intros ->. Qed.

(** The entry the switch on the event type leaves is at the front. *)
Lemma s_type_front v now ev guid hdr s :
  let '(o, s') := s_get guid s in
  let '(o2, s2) := s_handle_type cfg v now ev guid hdr o s' in
  o2 = updated_entry now ev guid hdr (s_find guid (s_list s))
         (resolved v hdr (Parent_PID (Event_Parent ev)) (Parent_StartTimeNs (Event_Parent ev))
            (s_find hdr (s_list s))) /\
  (forall e, o2 = Some e -> head (s_list s2) = Some e /\ Entry_GUID e = guid) /\
  (o2 = None -> s_list s2 = s_list s /\ s_find guid (s_list s) = None).
Proof.
  unfold s_handle_type, updated_entry. destruct (s_find guid (s_list s)) as [e|] eqn:F.
  - rewrite (s_get_Some _ _ _ F). pose proof (s_find_elem _ _ _ F) as [_ G].
    destruct (Event_Type ev); (split; [done|]); (split; [|done]); intros e' [= <-]; [| done |];
      (split; [eapply s_update_head; [done|]|]); try done; by destruct (ExitedAt e =? 0).
  - rewrite (s_get_None _ _ F). destruct (Event_Type ev); [| |done].
    + cbn zeta. split; [done|]. split; [|done]. intros e [= <-]. split; [|done].
      eapply s_update_head; [apply s_insert_head | done].
    + pose proof (s_parent_fst v hdr (Parent_PID (Event_Parent ev))
        (Parent_StartTimeNs (Event_Parent ev)) s) as P.
      destruct (s_parent _ _ _ _ _ _) as [p s3]. cbn [fst] in P. rewrite <- P.
      split; [done|]. split; [|done]. intros e [= <-]. split; [apply s_insert_head|].
      by destruct p.
Qed.

Lemma s_find_head g e s : head s = Some e -> Entry_GUID e = g -> s_find g s = Some e.
Proof. destruct s; [done|]. cbn. intros [= ->] ->. by rewrite bool_decide_true. Qed.

(** The parent an event reports, given the entry of its process. *)
Definition reported_parent (ev : Event) (hdr : list byte) (e : option Entry)
    (find : list byte -> option Entry) : list byte * Z * Z :=
  let kernel := (hdr, Parent_PID (Event_Parent ev), Parent_StartTimeNs (Event_Parent ev)) in
  match e with
  | Some e =>
      if decide (ParentGUID e ≠ [] /\ ParentGUID e ≠ hdr) then
        match find (ParentGUID e) with
        | Some p => (ParentGUID e, PID p, StartTimeNs p)
        | None => kernel
        end
      else kernel
  | None => kernel
  end.

Lemma s_parent_id_fst ev hdr e s :
  (s_parent_id ev hdr e s).1 = reported_parent ev hdr e (fun g => s_find g (s_list s)).
Proof.
  unfold s_parent_id, reported_parent. destruct e as [e|]; [|done]. case_decide; [|done].
  destruct (s_find (ParentGUID e) (s_list s)) as [p|] eqn:F.
  - rewrite (s_get_Some _ _ _ F). pose proof (s_find_elem _ _ _ F) as [_ G]. cbn [fst]. congruence.
  - by rewrite (s_get_None _ _ F).
Qed.

Lemma s_parent_known v g pid st s : is_Some (s_find g (s_list s)) ->
  (s_parent cfg v g pid st s).2 = (s_get g s).2.
Proof. intros [e F]. unfold s_parent. by rewrite (s_get_Some _ _ _ F). Qed.

(** A parent lookup keeps the entry at the front in a table of two or more. *)
Lemma s_parent_keeps v g pid st e s : 2 <= MaxEntries cfg -> head (s_list s) = Some e ->
  s_find (Entry_GUID e) (s_list (s_parent cfg v g pid st s).2) = Some e.
Proof.
  intros M2 Hh. pose proof (s_find_head _ e (s_list s) Hh eq_refl) as F0.
  destruct (s_find g (s_list s)) as [p|] eqn:F.
  { rewrite s_parent_known by done. by rewrite s_find_get. }
  unfold s_parent. rewrite (s_get_None _ _ F). repeat case_match; cbn [snd s_list]; try done.
  unfold s_insert. cbn [s_list].
  replace (Z.to_nat (MaxEntries cfg)) with (S (S (Z.to_nat (MaxEntries cfg) - 2))) by lia.
  destruct (s_list s) as [|x l]; [done|]. injection Hh as ->.
  cbn in *. destruct (decide (g = Entry_GUID e)) as [->|Hne]; [by rewrite bool_decide_true in F|].
  by rewrite bool_decide_false, bool_decide_true.
Qed.

Lemma s_report_keeps v ev hdr e s : 2 <= MaxEntries cfg -> head (s_list s) = Some e ->
  let '((pg, pp, ps), s3) := s_parent_id ev hdr (Some e) s in
  s_find (Entry_GUID e) (s_list (s_parent cfg v pg pp ps s3).2) = Some e.
Proof.
  intros M2 Hh. unfold s_parent_id. case_decide; [|by apply s_parent_keeps].
  destruct (s_find (ParentGUID e) (s_list s)) as [p|] eqn:F.
  - rewrite (s_get_Some _ _ _ F), s_parent_known, s_find_get.
    + pose proof (s_find_get (Entry_GUID e) (ParentGUID e) s) as G.
      rewrite (s_get_Some _ _ _ F) in G. cbn [snd] in G. rewrite G. by apply s_find_head.
    + exists p. by apply s_find_head.
  - rewrite (s_get_None _ _ F). by apply s_parent_keeps.
Qed.

(** The switch changes no parent link, so the reported parent can be read off the
    table the event found. *)
Lemma s_reported v now ev guid hdr s :
  let '(o, s') := s_get guid s in
  let '(o2, s2) := s_handle_type cfg v now ev guid hdr o s' in
  reported_parent ev hdr o2 (fun g => s_find g (s_list s2)) =
  reported_parent ev hdr (s_find guid (s_list s)) (fun g => s_find g (s_list s)).
Proof.
  destruct (s_find guid (s_list s)) as [e|] eqn:F.
  - pose proof (s_find_elem _ _ _ F) as [_ Hg]. pose proof (fun g => s_find_get g guid s) as G.
    rewrite (s_get_Some _ _ _ F) in *. cbn [snd] in G. set (s1 := mkSpec _ _) in *.
    assert (K : forall e2, Entry_GUID e2 = Entry_GUID e -> ParentGUID e2 = ParentGUID e ->
      PID e2 = PID e -> StartTimeNs e2 = StartTimeNs e ->
      reported_parent ev hdr (Some e2) (fun g => s_find g (s_list (s_update e2 s1))) =
      reported_parent ev hdr (Some e) (fun g => s_find g (s_list s))).
    { intros e2 E1 E2 E3 E4. unfold reported_parent. rewrite E2. case_decide; [|done].
      rewrite s_find_update, G. case_decide as D; [|done].
      replace (s_find (ParentGUID e) (s_list s)) with (Some e) by congruence. cbn. congruence. }
    unfold s_handle_type. destruct (Event_Type ev); [by apply K | |
      apply K; by destruct (ExitedAt e =? 0)].
    unfold reported_parent. by rewrite G.
  - rewrite (s_get_None _ _ F). unfold s_handle_type.
    assert (K : forall e2 f, ParentGUID e2 = hdr ->
      reported_parent ev hdr (Some e2) f = reported_parent ev hdr None (fun g => s_find g (s_list s))).
    { intros e2 f E. unfold reported_parent. rewrite E. by rewrite decide_False by tauto. }
    destruct (Event_Type ev); [by apply K | | done].
    destruct (s_parent _ _ _ _ _ _) as [p s3]. apply K. by destruct p.
Qed.

(** [s'] has the entries of [s] outside [gs], less evicted ones, and at most [k]
    more entries; entries are evicted only if there is no room for [k] more. *)
Record keeps (gs : list (list byte)) (k : Z) (s s' : spec) : Prop := {
  keeps_len : zlen (s_list s') <= zlen (s_list s) + k;
  keeps_max : zlen (s_list s) <= MaxEntries cfg -> zlen (s_list s') <= MaxEntries cfg;
  keeps_find g : g ∉ gs -> s_find g (s_list s') = s_find g (s_list s) \/
    s_find g (s_list s') = None /\ MaxEntries cfg < zlen (s_list s) + k;
}.

Lemma keeps_trans gs k j a b c : keeps gs k a b -> keeps gs j b c -> 0 <= j -> keeps gs (k + j) a c.
Proof.
  intros [l1 m1 f1] [l2 m2 f2] Hj. split; [lia | auto |]. intros g Hg.
  destruct (f2 g Hg) as [-> | [-> H]]; [|right; split; [done | lia]].
  destruct (f1 g Hg) as [-> | [-> H]]; [by left | right; split; [done | lia]].
Qed.

Lemma keeps_weaken gs gs' k k' a b : keeps gs k a b -> k <= k' -> gs ⊆ gs' -> keeps gs' k' a b.
Proof.
  intros [l m f] Hk Hs. split; [lia | done |]. intros g Hg.
  destruct (f g) as [-> | [-> H]]; [set_solver | by left | right; split; [done | lia]].
Qed.

Lemma s_drop_len g s : zlen (s_drop g s) <= zlen s.
Proof. unfold zlen, s_drop. pose proof (length_filter (fun e => Entry_GUID e ≠ g) s). lia. Qed.

Lemma s_drop_len_found g s e : s_find g s = Some e -> zlen (e :: s_drop g s) <= zlen s.
Proof.
  rewrite zlen_cons. induction s as [|x s IH]; [done|]. cbn [s_find List.find].
  case_bool_decide as E; intros H; unfold s_drop; rewrite filter_cons.
  - rewrite decide_False by tauto. fold (s_drop g s). pose proof (s_drop_len g s).
    rewrite zlen_cons. lia.
  - rewrite decide_True by done. fold (s_drop g s). rewrite !zlen_cons. specialize (IH H). lia.
Qed.

Lemma keeps_get gs g s : keeps gs 0 s (s_get g s).2.
Proof.
  assert (zlen (s_list (s_get g s).2) <= zlen (s_list s)).
  { unfold s_get. destruct (s_find g (s_list s)) as [e|] eqn:F; cbn [snd s_list]; [|lia].
    by apply s_drop_len_found. }
  split; [lia | lia |]. intros g' _. left. apply s_find_get.
Qed.

Lemma keeps_insert gs e s : Entry_GUID e ∈ gs -> keeps gs 1 s (s_insert cfg e s).
Proof.
  intros He. split.
  - cbn [s_insert s_list]. unfold zlen. rewrite length_take. cbn [length]. lia.
  - cbn [s_insert s_list]. unfold zlen. rewrite length_take. lia.
  - intros g Hg. destruct (s_find_insert_ne g e s) as [-> | [-> H]]; [congruence | by left |].
    right. split; [done|]. rewrite zlen_cons in H. lia.
Qed.

Lemma keeps_update gs e s : Entry_GUID e ∈ gs -> keeps gs 0 s (s_update e s).
Proof.
  intros He. split.
  - unfold zlen. cbn. rewrite length_map. lia.
  - unfold zlen. cbn. by rewrite length_map.
  - intros g Hg. rewrite s_find_update. case_decide; [congruence | by left].
Qed.

(** In a table of one entry there is never room for two more. *)
Lemma keeps_small gs k s s' : MaxEntries cfg < 2 -> zlen (s_list s) <= MaxEntries cfg ->
  keeps gs k s s' -> keeps gs 2 s s'.
Proof.
  intros M2 L [_ m f]. split; [pose proof (zlen_nonneg (s_list s)); specialize (m L); lia | done |].
  intros g Hg. pose proof (zlen_nonneg (s_list s)).
  destruct (f g Hg) as [-> | [-> H']]; [by left | right; split; [done | lia]].
Qed.

Lemma keeps_stats gs k a b s' : s_list a = s_list b -> keeps gs k a s' -> keeps gs k b s'.
Proof. intros E [H1 H2 H3]. rewrite E in *. by split. Qed.

(** A parent lookup adds at most the parent, which is then at the front. *)
Lemma keeps_parent gs v g pid st s : g ∈ gs ->
  let '(p, s') := s_parent cfg v g pid st s in
  keeps gs 1 s s' /\ (is_Some (s_find g (s_list s)) \/ p = None -> keeps gs 0 s s') /\
  (forall e, p = Some e -> head (s_list s') = Some e /\ Entry_GUID e = g).
Proof.
  intros Hg. assert (K0 : forall a b, s_list b = s_list a -> keeps gs 0 a b).
  { intros a b E. split; rewrite E; [lia | done | auto]. }
  assert (K1 : forall a b, keeps gs 0 a b -> keeps gs 1 a b)
    by (intros; eapply keeps_weaken; eauto; lia).
  unfold s_parent. destruct (s_find g (s_list s)) as [e|] eqn:F.
  - pose proof (keeps_get gs g s) as G. pose proof (s_find_elem _ _ _ F) as [_ E].
    rewrite (s_get_Some _ _ _ F) in *. split_and!; auto. by intros e' [= <-].
  - rewrite (s_get_None _ _ F). destruct (Proc v) as [rd|]; [|by split_and!; auto].
    destruct (pid =? 0); [by split_and!; auto|].
    destruct (rd pid) as [info|]; [|by split_and!; auto].
    destruct (negb _); [by split_and!; auto|]. split_and!.
    + by apply (keeps_stats gs 1 (mkSpec (s_list s) (incr_lookups (s_stats s)))), keeps_insert.
    + by intros [[]|].
    + intros e [= <-]. split; [apply s_insert_head | done].
Qed.

Lemma s_type_keeps v now ev guid hdr s :
  let '(o, s') := s_get guid s in
  let '(o2, s2) := s_handle_type cfg v now ev guid hdr o s' in
  keeps [guid; hdr] 1 s s2 \/
  keeps [guid; hdr] 2 s s2 /\ (2 <= MaxEntries cfg -> is_Some (s_find hdr (s_list s2))) /\
  (forall e, o2 = Some e -> ParentGUID e = hdr).
Proof.
  assert (W : forall a b, keeps [guid; hdr] 0 a b -> keeps [guid; hdr] 1 a b)
    by (intros; eapply keeps_weaken; eauto; lia).
  unfold s_handle_type. destruct (s_find guid (s_list s)) as [e|] eqn:F.
  - pose proof (keeps_get [guid; hdr] guid s) as G. pose proof (s_find_elem _ _ _ F) as [_ E].
    rewrite (s_get_Some _ _ _ F) in *. cbn [snd] in G.
    assert (U : forall e', Entry_GUID e' = guid ->
      keeps [guid; hdr] 1 s (s_update e' (mkSpec (e :: s_drop guid (s_list s)) (s_stats s)))).
    { intros e' E'. apply W. eapply (keeps_trans _ 0 0); [done | | lia].
      apply keeps_update. rewrite E'. left. }
    destruct (Event_Type ev); left; auto. apply U. by destruct (ExitedAt e =? 0).
  - rewrite (s_get_None _ _ F). destruct (Event_Type ev).
    + left. eapply (keeps_trans _ 1 0); [| |lia]; [apply keeps_insert | apply keeps_update]; left.
    + pose proof (keeps_parent [guid; hdr] v hdr (Parent_PID (Event_Parent ev))
        (Parent_StartTimeNs (Event_Parent ev)) s ltac:(right; left)) as P.
      destruct (s_parent _ _ _ _ _ _) as [p s3]. destruct P as (P1 & P2 & P3).
      set (e := match p with Some _ => _ | None => _ end).
      assert (I : keeps [guid; hdr] 1 s3 (s_insert cfg e s3)).
      { apply keeps_insert. replace (Entry_GUID e) with guid; [left | by destruct p]. }
      destruct p as [p|]; [right | left; eapply (keeps_trans _ 0 1); [by apply P2; right | done | lia]].
      split; [eapply (keeps_trans _ 1 1); [done..|lia]|]. split; [|by intros ? [= <-]].
      intros M2. destruct (P3 p eq_refl) as [Hh Hp]. cbn [s_insert s_list].
      replace (Z.to_nat (MaxEntries cfg)) with (S (S (Z.to_nat (MaxEntries cfg) - 2))) by lia.
      destruct (s_list s3) as [|x l]; [done|]. injection Hh as ->. cbn [take s_find List.find].
      rewrite (bool_decide_true (Entry_GUID p = hdr)) by done. by case_bool_decide.
    + left. apply W. split; cbn; [lia | done | by left].
Qed.

Lemma s_report_step v ev guid hdr o s :
  let '((pg, pp, ps), s3) := s_parent_id ev hdr o s in
  let s4 := (s_parent cfg v pg pp ps s3).2 in
  keeps [guid; hdr] 1 s s4 /\
  (is_Some (s_find hdr (s_list s)) -> (forall e, o = Some e -> ParentGUID e = hdr) ->
   keeps [guid; hdr] 0 s s4).
Proof.
  unfold s_parent_id.
  assert (K : forall pp ps, let s4 := (s_parent cfg v hdr pp ps s).2 in
    keeps [guid; hdr] 1 s s4 /\ (is_Some (s_find hdr (s_list s)) -> keeps [guid; hdr] 0 s s4)).
  { intros pp ps. pose proof (keeps_parent [guid; hdr] v hdr pp ps s ltac:(right; left)) as P.
    destruct (s_parent _ _ _ _ _ _). destruct P as (P1 & P2 & _). auto. }
  specialize (K (Parent_PID (Event_Parent ev)) (Parent_StartTimeNs (Event_Parent ev))).
  destruct o as [e|]; [|by split; [|intros ? _]; apply K]. case_decide as D; [|by split; [|intros ? _]; apply K].
  destruct (s_find (ParentGUID e) (s_list s)) as [p|] eqn:F;
    [|rewrite (s_get_None _ _ F); by split; [|intros ? _]; apply K].
  pose proof (keeps_get [guid; hdr] (ParentGUID e) s) as G.
  pose proof (s_find_elem _ _ _ F) as [_ E]. rewrite (s_get_Some _ _ _ F) in *. cbn [snd] in G.
  assert (K0 : keeps [guid; hdr] 0 s (s_parent cfg v (Entry_GUID p) (PID p) (StartTimeNs p)
    (mkSpec (p :: s_drop (ParentGUID e) (s_list s)) (s_stats s))).2).
  { eapply (keeps_trans _ 0 0); [done | | lia]. rewrite s_parent_known; [apply keeps_get|].
    exists p. by apply s_find_head. }
  split; [|done]. eapply keeps_weaken; [done | lia | done].
Qed.

Context (v1 v2 : view) (now : Z) (ev : Event) (s : spec).
Local Abbreviation guid := (t_GUID cfg (Process_PID (Event_Process ev)) (Process_StartTimeNs (Event_Process ev))).
Local Abbreviation hdr := (t_GUID cfg (Parent_PID (Event_Parent ev)) (Parent_StartTimeNs (Event_Parent ev))).
Local Abbreviation new_entry := (updated_entry now ev guid hdr (s_find guid (s_list s))
  (resolved v1 hdr (Parent_PID (Event_Parent ev)) (Parent_StartTimeNs (Event_Parent ev))
     (s_find hdr (s_list s)))).

Lemma s_Handle_entry : 2 <= MaxEntries cfg -> guid ≠ hdr ->
  s_find guid (s_list (s_Handle cfg v1 v2 now ev s).2) = new_entry.
Proof.
  intros M2 Hne. unfold s_Handle.
  pose proof (s_type_front v1 now (set_process_guid guid ev) guid hdr s) as T.
  destruct (s_get guid s) as [o s1].
  destruct (s_handle_type _ _ _ _ _ _ _ _) as [o2 s2].
  change (updated_entry now (set_process_guid guid ev)) with (updated_entry now ev) in T.
  cbn [Event_Parent set_process_guid] in T. destruct T as (T1 & T2 & T3). rewrite <- T1.
  destruct o2 as [e|].
  - destruct (T2 e eq_refl) as [Hh He].
    set (ev1 := if decide _ then _ else _).
    pose proof (s_report_keeps v2 ev1 hdr e s2 M2 Hh) as R. rewrite He in R.
    destruct (s_parent_id _ _ _ _) as [[[pg pp] ps] s3].
    by destruct (s_parent _ _ _ _ _ _).
  - destruct (T3 eq_refl) as [T4 T5]. cbn [s_parent_id].
    pose proof (s_parent_guids cfg v2 hdr (Parent_PID (Event_Parent ev))
      (Parent_StartTimeNs (Event_Parent ev)) s2 guid Hne) as G.
    rewrite T4, <- !s_find_guids in G. specialize (G T5). cbn [Event_Parent set_process_guid].
    by destruct (s_parent _ _ _ _ _ _).
Qed.

(** The process fields and the parent of the enriched event. *)
Lemma s_Handle_event :
  let ev' := (s_Handle cfg v1 v2 now ev s).1 in
  let find' g := s_find g (s_list (s_Handle cfg v1 v2 now ev s).2) in
  Process_GUID (Event_Process ev') = guid /\
  (Process_Image (Event_Process ev'), Process_Argv (Event_Process ev')) =
    match Event_Type ev, new_entry with
    | TypeExec, _ | _, None => (Process_Image (Event_Process ev), Process_Argv (Event_Process ev))
    | _, Some e => (Image e, Argv e)
    end /\
  (Parent_GUID (Event_Parent ev'), Parent_PID (Event_Parent ev'), Parent_StartTimeNs (Event_Parent ev')) =
    reported_parent ev hdr (s_find guid (s_list s)) (fun g => s_find g (s_list s)) /\
  (Parent_Known (Event_Parent ev'), Parent_External (Event_Parent ev'),
   Parent_Image (Event_Parent ev'), Parent_Argv (Event_Parent ev')) =
    match find' (Parent_GUID (Event_Parent ev')) with
    | Some p => (true, External p, Image p, Argv p)
    | None => (Parent_Known (Event_Parent ev), Parent_External (Event_Parent ev),
               Parent_Image (Event_Parent ev), Parent_Argv (Event_Parent ev))
    end.
Proof.
  cbv zeta. unfold s_Handle.
  pose proof (s_type_front v1 now (set_process_guid guid ev) guid hdr s) as T.
  pose proof (s_reported v1 now (set_process_guid guid ev) guid hdr s) as R.
  destruct (s_get guid s) as [o s1].
  destruct (s_handle_type _ _ _ _ _ _ _ _) as [o2 s2].
  change (updated_entry now (set_process_guid guid ev)) with (updated_entry now ev) in T.
  cbn [Event_Parent set_process_guid] in T. destruct T as (T1 & _ & _). rewrite <- T1.
  set (ev1 := match o2 with Some _ => _ | None => _ end).
  assert (E1 : Event_Parent ev1 = Event_Parent ev /\ Process_GUID (Event_Process ev1) = guid /\
    (Process_Image (Event_Process ev1), Process_Argv (Event_Process ev1)) =
      match Event_Type ev, o2 with
      | TypeExec, _ | _, None => (Process_Image (Event_Process ev), Process_Argv (Event_Process ev))
      | _, Some e => (Image e, Argv e)
      end).
  { subst ev1. destruct o2 as [e|]; [|by destruct (Event_Type ev)].
    cbn [Event_Type set_process_guid]. by destruct (Event_Type ev). }
  destruct E1 as (EP & EG & EI). clearbody ev1.
  assert (P := s_parent_id_fst ev1 hdr o2 s2).
  assert (R1 : reported_parent ev1 = reported_parent ev) by by unfold reported_parent; rewrite EP.
  change (reported_parent (set_process_guid guid ev)) with (reported_parent ev) in R.
  rewrite R1, R in P. rewrite <- P.
  destruct (s_parent_id ev1 hdr o2 s2) as [[[pg pp] ps] s3]. cbn [fst].
  pose proof (s_parent_find v2 pg pp ps s3) as Q.
  destruct (s_parent cfg v2 pg pp ps s3) as [p s4]. cbn [fst snd] in *.
  destruct p as [p|]; cbn; rewrite ?EP, ?Q; split_and!; done.
Qed.

(** Entries other than the process's and its kernel parent's are unchanged or
    evicted, the latter only when the table lacks room for two more. *)
Lemma s_Handle_others : zlen (s_list s) <= MaxEntries cfg ->
  keeps [guid; hdr] 2 s (s_Handle cfg v1 v2 now ev s).2.
Proof.
  intros B. unfold s_Handle.
  pose proof (s_type_keeps v1 now (set_process_guid guid ev) guid hdr s) as T.
  pose proof (s_reported v1 now (set_process_guid guid ev) guid hdr s) as R.
  destruct (s_get guid s) as [o s1].
  destruct (s_handle_type _ _ _ _ _ _ _ _) as [o2 s2].
  set (ev1 := match o2 with Some _ => _ | None => _ end).
  pose proof (s_report_step v2 ev1 guid hdr o2 s2) as P.
  destruct (s_parent_id ev1 hdr o2 s2) as [[[pg pp] ps] s3].
  destruct (s_parent cfg v2 pg pp ps s3) as [p s4]. cbn [snd] in *.
  destruct T as [T | (T & T1 & T2)].
  - eapply (keeps_trans _ 1 1); [exact T | apply P | lia].
  - destruct (Z.le_gt_cases 2 (MaxEntries cfg)) as [M2|M2].
    + eapply (keeps_trans _ 2 0); [exact T | apply P; auto | lia].
    + eapply keeps_small; [lia | done |]. eapply (keeps_trans _ 2 1); [exact T | apply P | lia].
Qed.
End spec_lemmas.

(** ** Identity: entries are keyed by the GUID of their own process id and start *)

(** What the table expects of [/proc]: a read of a process id answers for that
    process id. *)
Class ViewOk (v : view) : Prop :=
  view_pid rd pid info : Proc v = Some rd -> rd pid = Some info -> Info_PID info = pid.

Definition own_guid (cfg : Config) (e : Entry) : Prop := Entry_GUID e = t_GUID cfg (PID e) (StartTimeNs e).

(** An invariant [P] of the entries, for views that satisfy [V] and identities
    (process id and start time) that satisfy [Q]. *)
Section entries.
Context (cfg : Config) (P : Entry -> Prop) (Q : Z -> Z -> Prop) (V : view -> Prop).
Hypothesis P_own : forall e, P e -> own_guid cfg e /\ Q (PID e) (StartTimeNs e).
Hypothesis P_image : forall im av e, P e -> P (set_image im av e).
Hypothesis P_external : forall e, P e -> P (set_external false e).
Hypothesis P_exited : forall at_ e, P e -> P (set_exited at_ e).
Hypothesis P_new : forall ev hdr, Q (Process_PID (Event_Process ev)) (Process_StartTimeNs (Event_Process ev)) ->
  P (newEntry ev (t_GUID cfg (Process_PID (Event_Process ev)) (Process_StartTimeNs (Event_Process ev))) hdr).
Hypothesis P_proc : forall v rd pid st info, V v -> Q pid st -> Proc v = Some rd -> rd pid = Some info ->
  StartTicks (Info_StartTimeNs info) = StartTicks st ->
  P (mkEntry (t_GUID cfg pid st) [] (Info_PID info) (Info_PPID info) (Info_StartTimeNs info)
       (Info_Image info) (Info_Argv info) (Info_CgroupID info)
       (negb (inScope v (Info_CgroupID info))) 0).
Hypothesis P_seed : forall start p, Q (Info_PID p) (Info_StartTimeNs p) -> P (seed_entry cfg start p).

Definition every (s : spec) : Prop := Forall P (s_list s).

Lemma every_filter (R : Entry -> Prop) `{!forall x, Decision (R x)} (l : list Entry) :
  Forall P l -> Forall P (filter R l).
Proof. rewrite !Forall_forall. intros K x [_ Hx]%list_elem_of_filter. by apply K. Qed.

Lemma every_find s g e : every s -> s_find g (s_list s) = Some e -> P e.
Proof. intros K [H _]%s_find_elem. by eapply Forall_forall in K. Qed.

Lemma every_get g s : every s -> every (s_get g s).2.
Proof.
  intros K. unfold s_get. destruct (s_find g (s_list s)) as [e|] eqn:F; [|done].
  apply Forall_cons. split; [by eapply every_find|]. by apply every_filter.
Qed.

Lemma every_insert e s : P e -> every s -> every (s_insert cfg e s).
Proof. intros He K. apply Forall_take. by constructor. Qed.

Lemma every_update e s : P e -> every s -> every (s_update e s).
Proof.
  intros He K. apply Forall_fmap. eapply Forall_impl; [exact K|]. intros x Hx. cbn.
  by case_decide.
Qed.

Lemma every_parent v g pid st s : V v -> g = t_GUID cfg pid st -> Q pid st -> every s ->
  every (s_parent cfg v g pid st s).2.
Proof.
  intros HV -> HQ K. unfold s_parent. pose proof (every_get (t_GUID cfg pid st) s K) as K1.
  destruct (s_get _ s) as [[e|] s1]; [done|]. cbn [snd] in K1.
  destruct (Proc v) as [rd|] eqn:EP; [|done]. destruct (pid =? 0); [done|].
  destruct (rd pid) as [info|] eqn:R; [|done].
  destruct (StartTicks _ =? _) eqn:T; [|done]. apply every_insert; [|done].
  eapply P_proc; [done | done | done | done | by apply Z.eqb_eq].
Qed.

(** The identities an event carries. *)
Definition identities (ev : Event) : Prop :=
  Q (Process_PID (Event_Process ev)) (Process_StartTimeNs (Event_Process ev)) /\
  Q (Parent_PID (Event_Parent ev)) (Parent_StartTimeNs (Event_Parent ev)).

Lemma every_type v now ev guid hdr s : V v ->
  guid = t_GUID cfg (Process_PID (Event_Process ev)) (Process_StartTimeNs (Event_Process ev)) ->
  hdr = t_GUID cfg (Parent_PID (Event_Parent ev)) (Parent_StartTimeNs (Event_Parent ev)) ->
  identities ev -> every s -> every (s_handle_type cfg v now ev guid hdr (s_find guid (s_list s)) (s_get guid s).2).2.
Proof.
  intros HV Hg Hh [Q1 Q2] K. unfold s_handle_type. destruct (s_find guid (s_list s)) as [e|] eqn:F.
  - pose proof (every_find _ _ _ K F) as He. pose proof (every_get guid s K).
    destruct (Event_Type ev); [by apply every_update; auto | done |].
    apply every_update; [destruct (ExitedAt e =? 0); auto | done].
  - rewrite (s_get_None _ _ F).
    assert (N : P (newEntry ev guid hdr)) by (rewrite Hg; by apply P_new).
    destruct (Event_Type ev); [| | done].
    + apply every_update; auto. by apply every_insert.
    + pose proof (every_parent v hdr (Parent_PID (Event_Parent ev))
        (Parent_StartTimeNs (Event_Parent ev)) s HV Hh Q2 K) as HP.
      destruct (s_parent _ _ _ _ _ _) as [p s3]. apply every_insert; [destruct p; auto | done].
Qed.

Lemma every_report v ev hdr o s : V v ->
  hdr = t_GUID cfg (Parent_PID (Event_Parent ev)) (Parent_StartTimeNs (Event_Parent ev)) ->
  Q (Parent_PID (Event_Parent ev)) (Parent_StartTimeNs (Event_Parent ev)) -> every s ->
  let '((pg, pp, ps), s3) := s_parent_id ev hdr o s in
  Q pp ps /\ every (s_parent cfg v pg pp ps s3).2.
Proof.
  intros HV Hh HQ K. unfold s_parent_id. destruct o as [e|]; [|split; [done | by apply every_parent]].
  case_decide; [|split; [done | by apply every_parent]].
  pose proof (every_get (ParentGUID e) s K) as K1.
  destruct (s_find (ParentGUID e) (s_list s)) as [p|] eqn:F;
    [rewrite (s_get_Some _ _ _ F) in * | rewrite (s_get_None _ _ F) in *].
  - destruct (P_own _ (every_find _ _ _ K F)) as [G HQp]. split; [done | by apply every_parent].
  - split; [done | by apply every_parent].
Qed.

Lemma every_Handle v1 v2 now ev s : V v1 -> V v2 -> identities ev -> every s ->
  every (s_Handle cfg v1 v2 now ev s).2 /\
  let p := Event_Parent (s_Handle cfg v1 v2 now ev s).1 in Q (Parent_PID p) (Parent_StartTimeNs p).
Proof.
  intros V1 V2 HQ K. unfold s_Handle. set (guid := t_GUID cfg (Process_PID _) _).
  set (hdr := t_GUID cfg (Parent_PID _) _).
  pose proof (every_type v1 now (set_process_guid guid ev) guid hdr s V1 eq_refl eq_refl HQ K) as T.
  rewrite <- s_get_fst in T. destruct (s_get guid s) as [o s1]. cbn [fst snd] in T.
  destruct (s_handle_type _ _ _ _ _ _ _ _) as [o2 s2]. cbn [snd] in T.
  set (ev1 := match o2 with Some _ => _ | None => _ end).
  assert (Event_Parent ev1 = Event_Parent ev) by (subst ev1; destruct o2; [case_decide|]; done).
  pose proof (every_report v2 ev1 hdr o2 s2 V2) as R. rewrite H in R.
  specialize (R eq_refl (proj2 HQ) T). destruct (s_parent_id _ _ _ _) as [[[pg pp] ps] s3].
  destruct R as [R1 R2]. destruct (s_parent _ _ _ _ _ _) as [p s4]. split; [done|]. by destruct p.
Qed.

Lemma every_Seed procs s : Forall (fun vp => Q (Info_PID vp.2) (Info_StartTimeNs vp.2)) procs ->
  every s -> every (s_Seed cfg procs s).2.
Proof.
  unfold s_Seed. generalize (seed_start (map snd procs)). generalize 0. intros n st F. revert n s.
  induction F as [|[v p] ps Qp F IH]; intros n s K; cbn [fold_left fst snd]; [done|].
  unfold s_seed_one at 2. destruct (negb _); [by apply IH|].
  destruct (s_find _ _); [by apply IH|]. apply IH, every_insert; [by apply P_seed | done].
Qed.

Lemma every_Sweep now s : every s -> every (s_Sweep cfg now s).2.
Proof. intros K. by apply every_filter. Qed.
End entries.

Section identity.
Context (cfg : Config).

Definition keyed : spec -> Prop := every (own_guid cfg).

Lemma t_GUID_ticks pid a b : StartTicks a = StartTicks b -> t_GUID cfg pid a = t_GUID cfg pid b.
Proof. unfold t_GUID, GUID, guid_input. by intros ->. Qed.

Lemma own_guid_proc v rd pid st info : ViewOk v -> Proc v = Some rd -> rd pid = Some info ->
  StartTicks (Info_StartTimeNs info) = StartTicks st ->
  own_guid cfg (mkEntry (t_GUID cfg pid st) [] (Info_PID info) (Info_PPID info) (Info_StartTimeNs info)
       (Info_Image info) (Info_Argv info) (Info_CgroupID info)
       (negb (inScope v (Info_CgroupID info))) 0).
Proof.
  intros V HP HR HT. unfold own_guid. cbn. rewrite (V rd pid info HP HR). by apply t_GUID_ticks.
Qed.

Lemma own_guid_seed start p : own_guid cfg (seed_entry cfg start p).
Proof. unfold seed_entry. destruct (start !! _); [destruct (_ =? 0)|]; done. Qed.

Lemma keyed_find s g e : keyed s -> s_find g (s_list s) = Some e -> own_guid cfg e.
Proof. apply every_find. Qed.

Lemma keyed_Handle v1 v2 now ev s : ViewOk v1 -> ViewOk v2 -> keyed s ->
  keyed (s_Handle cfg v1 v2 now ev s).2.
Proof.
  intros V1 V2 K. apply (every_Handle cfg (own_guid cfg) (fun _ _ => True) ViewOk); try done.
  intros v rd pid st info V _. by apply own_guid_proc.
Qed.

Lemma keyed_Seed procs s : keyed s -> keyed (s_Seed cfg procs s).2.
Proof.
  apply (every_Seed cfg (own_guid cfg) (fun _ _ => True)); [intros; apply own_guid_seed | by apply Forall_forall].
Qed.

Lemma keyed_Sweep now s : keyed s -> keyed (s_Sweep cfg now s).2.
Proof. apply every_Sweep. Qed.
End identity.

(** ** Seeding *)

Section seed.
Context (cfg : Config).

Lemma seed_start_notin k ps (m : gmap Z Z) : k ∉ map Info_PID ps ->
  fold_left (fun m p => <[Info_PID p := Info_StartTimeNs p]> m) ps m !! k = m !! k.
Proof.
  revert m. induction ps as [|p ps IH]; intros m H; [done|]. cbn in *.
  apply not_elem_of_cons in H as [H1 H2]. rewrite IH by done. by apply lookup_insert_ne.
Qed.

(** The start times [Seed] links parents with. *)
Lemma seed_start_lookup ps p : NoDup (map Info_PID ps) -> p ∈ ps ->
  seed_start ps !! Info_PID p = Some (Info_StartTimeNs p).
Proof.
  unfold seed_start. generalize (∅ : gmap Z Z). induction ps as [|q ps IH]; intros m N H.
  - by apply elem_of_nil in H.
  - cbn in *. apply NoDup_cons in N as [N1 N2]. apply elem_of_cons in H as [->|H]; [|by apply IH].
    rewrite seed_start_notin by done. by rewrite lookup_insert_eq.
Qed.

Lemma seed_entry_guid st p : Entry_GUID (seed_entry cfg st p) = t_GUID cfg (Info_PID p) (Info_StartTimeNs p).
Proof. unfold seed_entry. destruct (st !! _); [destruct (_ =? 0)|]; done. Qed.

Lemma s_insert_room e s : zlen (s_list s) + 1 <= MaxEntries cfg ->
  s_list (s_insert cfg e s) = e :: s_list s.
Proof. intros H. cbn. rewrite take_ge; [done|]. unfold zlen in H. cbn. lia. Qed.

Lemma s_Seed_fold st ps n s : zlen (s_list s) + zlen ps <= MaxEntries cfg ->
  let '(n', s') := fold_left (fun ns vp => s_seed_one cfg vp.1 st ns vp.2) ps (n, s) in
  n' - n = zlen (s_list s') - zlen (s_list s) /\
  (forall g e, s_find g (s_list s) = Some e -> s_find g (s_list s') = Some e) /\
  (forall v p, (v, p) ∈ ps -> inScope v (Info_CgroupID p) = true ->
     is_Some (s_find (t_GUID cfg (Info_PID p) (Info_StartTimeNs p)) (s_list s'))) /\
  (forall g e, s_find g (s_list s') = Some e -> s_find g (s_list s) = Some e \/
     exists v p, (v, p) ∈ ps /\ inScope v (Info_CgroupID p) = true /\ e = seed_entry cfg st p).
Proof.
  revert n s. induction ps as [|[v p] ps IH]; intros n s R; cbn [fold_left fst snd].
  { split_and!; [lia | done | by intros v p ?%elem_of_nil | auto]. }
  rewrite zlen_cons in R. pose proof (zlen_nonneg ps) as Hps. unfold s_seed_one at 2.
  destruct (inScope v (Info_CgroupID p)) eqn:Sc; cbn [negb].
  2:{ specialize (IH n s ltac:(lia)). destruct (fold_left _ _ _) as [n' s'].
      destruct IH as (I1 & I2 & I3 & I4). split_and!; auto.
      - intros v' q [[= -> ->]|Hq]%elem_of_cons Hs; [congruence | by apply (I3 v')].
      - intros g e [?|(v' & q & ? & ? & ?)]%I4; [by left|]. right. exists v', q. split_and!; try done. by right. }
  rewrite seed_entry_guid. destruct (s_find _ (s_list s)) as [e0|] eqn:F.
  - specialize (IH n s ltac:(lia)). destruct (fold_left _ _ _) as [n' s'].
    destruct IH as (I1 & I2 & I3 & I4). split_and!; auto.
    + intros v' q [[= -> ->]|Hq]%elem_of_cons Hs; [by eexists; apply I2 | by apply (I3 v')].
    + intros g e [?|(v' & q & ? & ? & ?)]%I4; [by left|]. right. exists v', q. split_and!; try done. by right.
  - set (e0 := seed_entry cfg st p) in *.
    assert (L : s_list (s_insert cfg e0 s) = e0 :: s_list s) by (apply s_insert_room; lia).
    specialize (IH (n + 1) (s_insert cfg e0 s)). rewrite L, zlen_cons in IH. specialize (IH ltac:(lia)).
    destruct (fold_left _ _ _) as [n' s']. destruct IH as (I1 & I2 & I3 & I4).
    cbn [s_find List.find] in I2, I4. unfold e0 in I2, I4. rewrite seed_entry_guid in I2, I4. split_and!.
    + lia.
    + intros g e H. apply I2. rewrite bool_decide_false; [done|]. congruence.
    + intros v' q [[= -> ->]|Hq]%elem_of_cons Hs; [|by apply (I3 v')].
      eexists. apply I2. by rewrite bool_decide_true.
    + intros g e [H|(v' & q & ? & ? & ?)]%I4; [case_bool_decide; [|by left] |]; right.
      * exists v, p. split_and!; [left | done | congruence].
      * exists v', q. split_and!; try done. by right.
Qed.
End seed.
