(* ===== verification/ProcTableThms.v ===== *)
(** * The theorems of the process table

    The properties of [ProcTableSpec] and [ProcTableProps], stated on the table of
    [table.go] itself: its reachable states, and the effect of [Handle], [Seed] and
    [Sweep] on what [Lookup] returns and on the event. *)

From Stdlib Require Import ZArith Lia.
From Stdlib Require Import String.
From stdpp Require Import prelude list gmap relations.
From S2P Require Import Prelude Guid Event ProcTable ProcTableSpec ProcTableProps.

Local Open Scope Z_scope.

(** The GUIDs of an event's process and of the parent the kernel reports. *)
Definition ev_guid (cfg : Config) (ev : Event) : list byte :=
  t_GUID cfg (Process_PID (Event_Process ev)) (Process_StartTimeNs (Event_Process ev)).
Definition ev_hdr (cfg : Config) (ev : Event) : list byte :=
  t_GUID cfg (Parent_PID (Event_Parent ev)) (Parent_StartTimeNs (Event_Parent ev)).

(** A process is not its own parent: what the kernel's fork events satisfy. *)
Definition not_own_parent (cfg : Config) (ev : Event) : Prop :=
  Event_Type ev = TypeFork -> ev_guid cfg ev ≠ ev_hdr cfg ev.

Lemma Lookup_abs cfg g t : wf cfg t -> Lookup g t = s_find g (abs_list t).
Proof.
  intros [W _]. rewrite (wf_lookup _ W). unfold Lookup, look. by destruct (t_entries t !! g).
Qed.

(** ** Reachable tables *)

(** The calls that change a table, in any order; the mutex makes each atomic. *)
Inductive tstep (cfg : Config) : Table -> Table -> Prop :=
  | tstep_Handle v1 v2 now ev t : ViewOk v1 -> ViewOk v2 -> not_own_parent cfg ev ->
      tstep cfg t (Handle cfg v1 v2 now ev t).2
  | tstep_Seed procs t : tstep cfg t (Seed cfg procs t).2
  | tstep_Sweep order now t : order ≡ₚ map_to_list (t_entries t) ->
      tstep cfg t (Sweep cfg order now t).2.

Definition inv (cfg : Config) (t : Table) : Prop := wf cfg t /\ keyed cfg (abs t).

Lemma New_max cfg0 : 1 <= MaxEntries (New cfg0).1.
Proof. cbn. destruct (Z.leb_spec (MaxEntries cfg0) 0); lia. Qed.

Lemma New_inv cfg0 : inv (New cfg0).1 (New cfg0).2.
Proof.
  split; [|constructor]. pose proof (New_max cfg0) as M. split; [|unfold zlen; cbn in *; lia].
  split; cbn; try done.
  - constructor.
  - intros l []%elem_of_nil.
  - intros g l. rewrite lookup_empty. split; [done|]. by intros [[]%elem_of_nil _].
  - intros l. rewrite lookup_empty. by intros [].
Qed.

Section steps.
Context (cfg : Config) (M : 1 <= MaxEntries cfg).

Lemma Handle_spec v1 v2 now ev t : wf cfg t -> not_own_parent cfg ev ->
  exists t', Handle cfg v1 v2 now ev t = ((s_Handle cfg v1 v2 now ev (abs t)).1, t') /\
    (s_Handle cfg v1 v2 now ev (abs t)).2 = abs t' /\ wf cfg t'.
Proof.
  intros W H. pose proof (Handle_ok cfg M v1 v2 now ev t W H) as R.
  destruct (Handle cfg v1 v2 now ev t) as [ev' t']. exists t'. by destruct R as [-> R].
Qed.

Lemma tstep_inv t t' : inv cfg t -> tstep cfg t t' -> inv cfg t'.
Proof.
  intros [W K] S. destruct S as [v1 v2 now ev t0 V1 V2 N | procs t0 | order now t0 O].
  - destruct (Handle_spec v1 v2 now ev t0 W N) as (t2 & -> & E & W2). cbn. split; [done|].
    rewrite <- E. by apply keyed_Handle.
  - pose proof (Seed_refines cfg M procs t0 W) as R.
    destruct (Seed cfg procs t0) as [n t2]. destruct R as [E W2]. split; [done|]. cbn.
    pose proof (keyed_Seed cfg procs (abs t0) K) as KS. by rewrite E in KS.
  - pose proof (Sweep_refines cfg order now t0 W O) as R.
    destruct (Sweep cfg order now t0) as [n t2]. destruct R as [E W2]. split; [done|]. cbn.
    pose proof (keyed_Sweep cfg now (abs t0) K) as KS. by rewrite E in KS.
Qed.
End steps.

Definition reachable (cfg0 : Config) : Table -> Prop := rtc (tstep (New cfg0).1) (New cfg0).2.

Lemma reachable_inv cfg0 t : reachable cfg0 t -> inv (New cfg0).1 t.
Proof.
  intros H. eapply (rtc_ind_r (inv (New cfg0).1)); [apply New_inv | | exact H].
  intros a b _ S I. eapply tstep_inv; [apply New_max | done | done].
Qed.

(** ** The theorems *)

(** C5: [Handle] on the pointer-based table (heap entries, Go map, [container/list])
    returns the event and leaves the contents that the LRU-list specification
    gives, and keeps the representation invariant; no nil pointer is
    dereferenced. *)
Theorem Handle_refines cfg0 v1 v2 now ev t :
  reachable cfg0 t -> not_own_parent (New cfg0).1 ev ->
  let cfg := (New cfg0).1 in
  let '(ev', t') := Handle cfg v1 v2 now ev t in
  s_Handle cfg v1 v2 now ev (abs t) = (ev', abs t') /\ wf cfg t' /\ t_panic t' = false.
Proof.
  intros [W _]%reachable_inv N. cbv zeta.
  destruct (Handle_spec (New cfg0).1 (New_max cfg0) v1 v2 now ev t W N) as (t' & -> & E & W').
  rewrite <- E. split_and!; [by destruct (s_Handle _ _ _ _ _ _) | done | apply W'].
Qed.

(** C12: In every reachable table the index and the LRU list hold the same entries,
    each once, at most [MaxEntries] of them; an entry is found under its own GUID,
    the one computed from its process id and start time; no operation has hit a
    nil pointer. *)
Theorem table_invariant cfg0 t : reachable cfg0 t ->
  let cfg := (New cfg0).1 in
  Z.of_nat (size (t_entries t)) = zlen (t_lru t) /\ zlen (t_lru t) <= MaxEntries cfg /\
  NoDup (t_lru t) /\ t_panic t = false /\
  (forall g e, Lookup g t = Some e ->
     Entry_GUID e = g /\ g = t_GUID cfg (PID e) (StartTimeNs e)).
Proof.
  intros H. destruct (reachable_inv _ _ H) as [[W B] K]. split_and!; try apply W; try done.
  - unfold zlen. by rewrite (wf_size _ W).
  - intros g e L. rewrite (Lookup_abs (New cfg0).1) in L by done.
    pose proof (keyed_find _ _ _ _ K L) as O. apply s_find_elem in L as [_ <-]. done.
Qed.

(** C6: What [Handle] leaves in the table for the event's process, on every branch:
    a fork records the process once, running its parent's image (the table's, or
    the one [/proc] shows if it started in the same tick); an exec replaces image
    and arguments and marks the process in scope, recording it if it is new; the
    first exit stamps the time; an unknown exit records nothing. *)
Theorem Handle_entry cfg0 v1 v2 now ev t :
  let cfg := (New cfg0).1 in
  reachable cfg0 t -> 2 <= MaxEntries cfg -> ev_guid cfg ev ≠ ev_hdr cfg ev ->
  Lookup (ev_guid cfg ev) (Handle cfg v1 v2 now ev t).2 =
    let known := Lookup (ev_guid cfg ev) t in
    let par := resolved v1 (ev_hdr cfg ev) (Parent_PID (Event_Parent ev))
                 (Parent_StartTimeNs (Event_Parent ev)) (Lookup (ev_hdr cfg ev) t) in
    match Event_Type ev, known with
    | TypeFork, Some e => Some e
    | TypeFork, None =>
        let e := newEntry ev (ev_guid cfg ev) (ev_hdr cfg ev) in
        Some (match par with Some p => set_image (Image p) (Argv p) e | None => e end)
    | TypeExec, _ =>
        Some (set_external false (set_image (Process_Image (Event_Process ev))
                (Process_Argv (Event_Process ev))
                (default (newEntry ev (ev_guid cfg ev) (ev_hdr cfg ev)) known)))
    | TypeExit, None => None
    | TypeExit, Some e => Some (if ExitedAt e =? 0 then set_exited now e else e)
    end.
Proof.
  cbv zeta. intros [W _]%reachable_inv M2 N. set (cfg := (New cfg0).1) in *.
  destruct (Handle_spec cfg (New_max cfg0) v1 v2 now ev t W (fun _ => N)) as (t' & -> & E & W').
  cbn [snd]. rewrite !(Lookup_abs cfg) by done. change (abs_list t') with (s_list (abs t')).
  rewrite <- E. exact (s_Handle_entry cfg (New_max cfg0) v1 v2 now ev (abs t) M2 N).
Qed.

(** C14: Original lineage: once the table has recorded a process's fork-time parent
    and still has that parent, the event names it, with its process id and start
    time, whatever [real_parent] the kernel reports now; in every other case the
    event keeps the kernel's parent.  Either way the parent GUID is the GUID of
    the reported process id and start time. *)
Theorem Handle_lineage cfg0 v1 v2 now ev t :
  let cfg := (New cfg0).1 in
  reachable cfg0 t -> not_own_parent cfg ev ->
  let p' := Event_Parent (Handle cfg v1 v2 now ev t).1 in
  Parent_GUID p' = t_GUID cfg (Parent_PID p') (Parent_StartTimeNs p') /\
  (Parent_GUID p', Parent_PID p', Parent_StartTimeNs p') =
    let kernel := (ev_hdr cfg ev, Parent_PID (Event_Parent ev), Parent_StartTimeNs (Event_Parent ev)) in
    match Lookup (ev_guid cfg ev) t with
    | None => kernel
    | Some e =>
        if decide (ParentGUID e = [] \/ ParentGUID e = ev_hdr cfg ev) then kernel else
        match Lookup (ParentGUID e) t with
        | Some p => (ParentGUID e, PID p, StartTimeNs p)
        | None => kernel
        end
    end.
Proof.
  cbv zeta. intros [W K]%reachable_inv N. set (cfg := (New cfg0).1) in *.
  destruct (Handle_spec cfg (New_max cfg0) v1 v2 now ev t W N) as (t' & -> & _ & _).
  cbn [fst].
  pose proof (s_Handle_event cfg (New_max cfg0) v1 v2 now ev (abs t)) as (_ & _ & P & _).
  rewrite P. rewrite (Lookup_abs cfg) by done.
  fold (ev_guid cfg ev) (ev_hdr cfg ev) in P |- *. unfold reported_parent in P |- *.
  cbn [s_list abs] in *.
  destruct (s_find (ev_guid cfg ev) (abs_list t)) as [e|];
    [|split; [by injection P as -> -> -> | done]].
  destruct (decide (ParentGUID e ≠ [] /\ _)) as [[D1 D2]|D].
  - rewrite decide_False by tauto. rewrite (Lookup_abs cfg) by done.
    destruct (s_find (ParentGUID e) (abs_list t)) as [p|] eqn:F; (split; [|done]).
    + injection P as -> -> ->. pose proof (keyed_find cfg (abs t) _ _ K F) as O.
      apply s_find_elem in F as [_ <-]. exact O.
    + injection P as -> -> ->. done.
  - split; [injection P as -> -> ->; done|]. case_decide as D'; [done|]. tauto.
Qed.

(** C28: The rest of the enriched event: the process GUID; the entry's image and
    arguments unless the event is itself an exec; and parent details exactly when
    the table has the reported parent after the call, which are then those of its
    entry. *)
Theorem Handle_enriches cfg0 v1 v2 now ev t :
  let cfg := (New cfg0).1 in
  reachable cfg0 t -> 2 <= MaxEntries cfg -> ev_guid cfg ev ≠ ev_hdr cfg ev ->
  let '(ev', t') := Handle cfg v1 v2 now ev t in
  let p' := Event_Parent ev' in
  Process_GUID (Event_Process ev') = ev_guid cfg ev /\
  (Process_Image (Event_Process ev'), Process_Argv (Event_Process ev')) =
    match Event_Type ev, Lookup (ev_guid cfg ev) t' with
    | TypeExec, _ | _, None => (Process_Image (Event_Process ev), Process_Argv (Event_Process ev))
    | _, Some e => (Image e, Argv e)
    end /\
  (Parent_Known p', Parent_External p', Parent_Image p', Parent_Argv p') =
    match Lookup (Parent_GUID p') t' with
    | Some p => (true, External p, Image p, Argv p)
    | None => (Parent_Known (Event_Parent ev), Parent_External (Event_Parent ev),
               Parent_Image (Event_Parent ev), Parent_Argv (Event_Parent ev))
    end.
Proof.
  cbv zeta. intros [W K]%reachable_inv M2 N. set (cfg := (New cfg0).1) in *.
  destruct (Handle_spec cfg (New_max cfg0) v1 v2 now ev t W (fun _ => N)) as (t' & -> & E & W').
  pose proof (s_Handle_event cfg (New_max cfg0) v1 v2 now ev (abs t)) as (P1 & P2 & _ & P4).
  pose proof (s_Handle_entry cfg (New_max cfg0) v1 v2 now ev (abs t) M2 N) as P5.
  rewrite <- P5 in P2. rewrite E in P2, P4. rewrite !(Lookup_abs cfg) by done. done.
Qed.

(** C27: Frame: entries other than the event's process and the parent the kernel
    reports are not changed by an event.  They can be evicted, but only when the
    table has no room for two more entries. *)
Theorem Handle_others cfg0 v1 v2 now ev t g :
  let cfg := (New cfg0).1 in
  reachable cfg0 t -> not_own_parent cfg ev ->
  (g ∉ [ev_guid cfg ev; ev_hdr cfg ev]) ->
  let t' := (Handle cfg v1 v2 now ev t).2 in
  Lookup g t' = Lookup g t \/
  Lookup g t' = None /\ MaxEntries cfg < Z.of_nat (size (t_entries t)) + 2.
Proof.
  cbv zeta. intros [W K]%reachable_inv N Hg. set (cfg := (New cfg0).1) in *.
  destruct (Handle_spec cfg (New_max cfg0) v1 v2 now ev t W N) as (t' & -> & E & W').
  cbn [snd]. rewrite !(Lookup_abs cfg) by done. rewrite (wf_size _ (proj1 W)).
  assert (L : zlen (s_list (abs t)) = Z.of_nat (length (t_lru t)))
    by (unfold zlen; cbn; unfold abs_list; by rewrite length_map).
  rewrite <- L. change (abs_list t') with (s_list (abs t')). rewrite <- E.
  apply (keeps_find cfg _ _ _ _ (s_Handle_others cfg (New_max cfg0) v1 v2 now ev (abs t)
    ltac:(rewrite L; apply W)) g Hg).
Qed.

(** C31: [Sweep] removes exactly the entries that exited more than [ExitTTL] ago,
    whatever order Go iterates over the map in, and returns and counts how many. *)
Theorem Sweep_spec cfg0 order now t :
  let cfg := (New cfg0).1 in
  reachable cfg0 t -> order ≡ₚ map_to_list (t_entries t) ->
  let '(n, t') := Sweep cfg order now t in
  let dead e := bool_decide (ExitedAt e ≠ 0 /\ ExitedAt e < now - ExitTTL cfg) in
  (forall g, Lookup g t' =
     match Lookup g t with Some e => if dead e then None else Some e | None => None end) /\
  n = Z.of_nat (size (t_entries t)) - Z.of_nat (size (t_entries t')) /\
  t_stats t' = Nat.iter (Z.to_nat n) incr_evicted_exit (t_stats t).
Proof.
  cbv zeta. intros [W K]%reachable_inv O. set (cfg := (New cfg0).1) in *. clearbody cfg.
  pose proof (Sweep_refines cfg order now t W O) as R.
  destruct (Sweep cfg order now t) as [n t']. destruct R as [E W'].
  unfold s_Sweep in E. injection E as <- EL ES. cbn [s_list s_stats abs] in *. split_and!.
  - intros g. rewrite !(Lookup_abs cfg) by done. rewrite <- EL.
    apply s_find_filter, wf_nodup_guids, W.
  - rewrite (wf_size _ (proj1 W)), (wf_size _ (proj1 W')).
    replace (length (t_lru t)) with (length (abs_list t)) by apply length_map.
    replace (length (t_lru t')) with (length (abs_list t')) by apply length_map.
    rewrite <- EL. unfold zlen. pose proof (filter_split_len (expired (now - ExitTTL cfg)) (abs_list t)).
    lia.
  - rewrite <- ES. unfold zlen. by rewrite Nat2Z.id.
Qed.

(** C32: Seeding a table with room for the scan: the entries it has stay; every
    in-scope process of the scan is in the table afterwards; nothing else is added;
    the count is the number of entries added; and a new entry whose parent is in
    the scan (with distinct process ids) is linked to it by the parent's own GUID. *)
Theorem Seed_spec cfg0 procs t :
  let cfg := (New cfg0).1 in
  reachable cfg0 t -> Z.of_nat (size (t_entries t)) + zlen procs <= MaxEntries cfg ->
  let '(n, t') := Seed cfg procs t in
  n = Z.of_nat (size (t_entries t')) - Z.of_nat (size (t_entries t)) /\
  (forall g e, Lookup g t = Some e -> Lookup g t' = Some e) /\
  (forall v p, (v, p) ∈ procs -> inScope v (Info_CgroupID p) = true ->
     is_Some (Lookup (t_GUID cfg (Info_PID p) (Info_StartTimeNs p)) t')) /\
  (forall g e, Lookup g t = None -> Lookup g t' = Some e ->
     exists v p, (v, p) ∈ procs /\ inScope v (Info_CgroupID p) = true /\
       PID e = Info_PID p /\ PPID e = Info_PPID p /\ StartTimeNs e = Info_StartTimeNs p /\
       Image e = Info_Image p /\ Argv e = Info_Argv p /\ CgroupID e = Info_CgroupID p /\
       (NoDup (map Info_PID (map snd procs)) -> forall q, q ∈ map snd procs -> Info_PID q = Info_PPID p -> Info_PID q ≠ 0 ->
        ParentGUID e = t_GUID cfg (Info_PID q) (Info_StartTimeNs q))).
Proof.
  cbv zeta. intros H. pose proof (New_max cfg0) as M. apply reachable_inv in H as [W _].
  set (cfg := (New cfg0).1) in *. clearbody cfg. intros R.
  pose proof (Seed_refines cfg M procs t W) as S. destruct (Seed cfg procs t) as [n t'].
  destruct S as [S W'].
  pose proof (s_Seed_fold cfg (seed_start (map snd procs)) procs 0 (abs t)) as F.
  change (fold_left _ _ _) with (s_Seed cfg procs (abs t)) in F. rewrite S in F.
  assert (L : forall t, wf cfg t -> Z.of_nat (size (t_entries t)) = zlen (s_list (abs t))).
  { intros x [Wx _]. rewrite (wf_size _ Wx). unfold zlen. cbn. unfold abs_list. by rewrite length_map. }
  rewrite (L t W), (L t' W') in *. destruct (F R) as (F1 & F2 & F3 & F4). split_and!; [lia | | |].
  - intros g e. rewrite !(Lookup_abs cfg) by done. apply F2.
  - intros v p Hp Hs. rewrite (Lookup_abs cfg) by done. by eapply F3.
  - intros g e. rewrite !(Lookup_abs cfg) by done. intros N [X|(v & p & Hp & Hs & ->)]%F4; [cbn [s_list abs] in X; congruence|].
    exists v, p. unfold seed_entry. split_and!; try done;
      try (destruct (seed_start (map snd procs) !! _); [destruct (_ =? 0)|]; done).
    intros ND q Hq E E0. rewrite <- E, (seed_start_lookup (map snd procs) q) by done.
    by rewrite (proj2 (Z.eqb_neq _ _) E0).
Qed.

(** ** A run: a shell execs, forks a child, and exits; the child is reparented *)

Module Run.
Definition cfg0 : Config := mkConfig (str "host") (str "boot") 4 0.
Definition cfg : Config := (New cfg0).1.

Definition proc_view : view :=
  mkView None (Some (fun pid => if pid =? 1 then
    Some (mkProcInfo 1 0 10000000 (str "/sbin/init") [str "init"] 1) else None)).

#[global] Instance proc_view_ok : ViewOk proc_view.
Proof.
  intros rd pid info. cbn. intros [= <-]. destruct (Z.eqb_spec pid 1) as [->|]; [|done].
  by intros [= <-].
Qed.

Definition event (ty : EventType) (pid start ppid pstart : Z) (image : list byte) : Event :=
  mkEvent ty 0 0
    (mkProcess [] pid pid 0 0 7 start (str "c") image [image] false false false)
    (mkParent [] ppid pstart [] [] false false) None None.

Definition shell_exec : Event := event TypeExec 100 1000000000 1 10000000 (str "/bin/sh").
Definition child_fork : Event := event TypeFork 101 2000000000 100 1000000000 [].
Definition child_reparented_exit : Event := event TypeExit 101 2000000000 1 10000000 [].

Definition t0 : Table := (New cfg0).2.
Definition t1 : Table := (Handle cfg proc_view proc_view 5 shell_exec t0).2.
Definition t2 : Table := (Handle cfg proc_view proc_view 6 child_fork t1).2.
Definition t3 : Table := (Handle cfg proc_view proc_view 7 child_reparented_exit t2).2.

Lemma child_not_parent : ev_guid cfg child_fork ≠ ev_hdr cfg child_fork.
Proof. apply (bool_decide_unpack _). vm_compute. exact I. Qed.

Lemma exit_not_parent : ev_guid cfg child_reparented_exit ≠ ev_hdr cfg child_reparented_exit.
Proof. apply (bool_decide_unpack _). vm_compute. exact I. Qed.

Lemma shell_others : ev_guid cfg shell_exec ∉ [ev_guid cfg child_reparented_exit; ev_hdr cfg child_reparented_exit].
Proof. apply (bool_decide_unpack _). vm_compute. exact I. Qed.

Lemma shell_exec_ok : not_own_parent cfg shell_exec.
Proof. intros H. discriminate H. Qed.

Lemma child_exit_ok : not_own_parent cfg child_reparented_exit.
Proof. intros H. discriminate H. Qed.

Lemma t1_step : tstep cfg t0 t1.
Proof. exact (tstep_Handle cfg proc_view proc_view 5 shell_exec t0 _ _ shell_exec_ok). Qed.

Lemma t2_step : tstep cfg t1 t2.
Proof. exact (tstep_Handle cfg proc_view proc_view 6 child_fork t1 _ _ (fun _ => child_not_parent)). Qed.

Lemma t3_step : tstep cfg t2 t3.
Proof. exact (tstep_Handle cfg proc_view proc_view 7 child_reparented_exit t2 _ _ child_exit_ok). Qed.

Lemma t2_reachable : reachable cfg0 t2.
Proof. exact (rtc_l _ _ _ _ t1_step (rtc_once _ _ t2_step)). Qed.

Lemma t3_reachable : reachable cfg0 t3.
Proof. exact (rtc_r _ _ _ t2_reachable t3_step). Qed.
End Run.
Import Run.

Lemma Handle_refines_witness :
  (s_Handle cfg proc_view proc_view 7 child_reparented_exit (abs t2)).2 = abs t3.
Proof.
  pose proof (Handle_refines cfg0 proc_view proc_view 7 child_reparented_exit t2 t2_reachable
    child_exit_ok) as H.
  change (New cfg0).1 with cfg in H. cbv zeta in H. unfold t3.
  destruct (Handle cfg proc_view proc_view 7 child_reparented_exit t2) as [ev' t'].
  destruct H as [H _]. rewrite H. reflexivity.
Defined.

Lemma table_invariant_witness : zlen (t_lru t3) = 3 /\ zlen (t_lru t3) <= 4.
Proof.
  pose proof (table_invariant cfg0 t3 t3_reachable) as (_ & H & _). split; [vm_compute; reflexivity | exact H].
Defined.

Lemma Handle_entry_witness :
  ExitedAt <$> Lookup (ev_guid cfg child_reparented_exit) t3 = Some 7 /\
  Image <$> Lookup (ev_guid cfg child_reparented_exit) t3 = Some (str "/bin/sh").
Proof.
  pose proof (Handle_entry cfg0 proc_view proc_view 7 child_reparented_exit t2 t2_reachable
    ltac:(vm_compute; discriminate) exit_not_parent) as H.
  change (New cfg0).1 with cfg in H. fold t3 in H. rewrite H. vm_compute. split; reflexivity.
Defined.

Lemma Handle_lineage_witness :
  let p' := Event_Parent (Handle cfg proc_view proc_view 7 child_reparented_exit t2).1 in
  (Parent_PID p', Parent_StartTimeNs p') = (100, 1000000000).
Proof.
  pose proof (Handle_lineage cfg0 proc_view proc_view 7 child_reparented_exit t2 t2_reachable
    child_exit_ok) as [_ H].
  change (New cfg0).1 with cfg in H.
  refine (eq_trans (f_equal (fun x => (x.1.2, x.2)) H) _). vm_compute. reflexivity.
Defined.

Lemma Handle_enriches_witness :
  Process_Image (Event_Process (Handle cfg proc_view proc_view 7 child_reparented_exit t2).1) = str "/bin/sh".
Proof.
  pose proof (Handle_enriches cfg0 proc_view proc_view 7 child_reparented_exit t2 t2_reachable
    ltac:(vm_compute; discriminate) exit_not_parent) as H.
  change (New cfg0).1 with cfg in H. pose proof (proj2 Handle_entry_witness) as I. unfold t3 in I.
  destruct (Handle cfg proc_view proc_view 7 child_reparented_exit t2) as [ev' t'].
  destruct H as (_ & H & _). cbn [snd fst] in *.
  destruct (Lookup (ev_guid cfg child_reparented_exit) t') as [e|]; [|discriminate I].
  cbn [fmap option_fmap option_map] in I. injection I as I. rewrite <- I.
  exact (f_equal fst H).
Defined.

Lemma Handle_others_witness :
  Lookup (ev_guid cfg shell_exec) t3 = Lookup (ev_guid cfg shell_exec) t2 \/
  Lookup (ev_guid cfg shell_exec) t3 = None /\ 4 < 3 + 2.
Proof.
  pose proof (Handle_others cfg0 proc_view proc_view 7 child_reparented_exit t2 (ev_guid cfg shell_exec)
    t2_reachable child_exit_ok shell_others) as H.
  change (New cfg0).1 with cfg in H. fold t3 in H.
  assert (S : Z.of_nat (size (t_entries t2)) = 3) by (vm_compute; reflexivity). rewrite S in H. exact H.
Defined.

Lemma Sweep_spec_witness :
  let '(n, t') := Sweep cfg (map_to_list (t_entries t3)) (8 + 30000000000) t3 in
  n = 1 /\ Lookup (ev_guid cfg child_fork) t' = None /\
  Lookup (ev_guid cfg shell_exec) t' = Lookup (ev_guid cfg shell_exec) t3.
Proof.
  pose proof (Sweep_spec cfg0 (map_to_list (t_entries t3)) (8 + 30000000000) t3 t3_reachable
    ltac:(reflexivity)) as H.
  change (New cfg0).1 with cfg in H.
  assert (E : (Sweep cfg (map_to_list (t_entries t3)) (8 + 30000000000) t3).1 = 1)
    by (vm_compute; reflexivity).
  destruct (Sweep cfg (map_to_list (t_entries t3)) (8 + 30000000000) t3) as [n t'].
  destruct H as (H & _). split; [exact E|]. split; rewrite H; vm_compute; reflexivity.
Defined.

Lemma Seed_spec_witness :
  let '(n, t') := Seed cfg
    [(mkView None None, mkProcInfo 1 0 10000000 (str "/sbin/init") [str "init"] 1);
     (mkView None None, mkProcInfo 9 1 50000000 (str "/bin/x") [str "x"] 1)] t0 in
  is_Some (Lookup (t_GUID cfg 9 50000000) t').
Proof.
  pose proof (Seed_spec cfg0
    [(mkView None None, mkProcInfo 1 0 10000000 (str "/sbin/init") [str "init"] 1);
     (mkView None None, mkProcInfo 9 1 50000000 (str "/bin/x") [str "x"] 1)] t0 (rtc_refl _ _)
     ltac:(vm_compute; discriminate)) as H.
  change (New cfg0).1 with cfg in H. destruct (Seed _ _ _) as [n t']. destruct H as (_ & _ & H & _).
  apply (H (mkView None None) (mkProcInfo 9 1 50000000 (str "/bin/x") [str "x"] 1)); [right; left | reflexivity].
Defined.
