(* ===== verification/ProcTableLru.v ===== *)
(** * Least recently used

    What the eviction of [table.go] promises: the entry of a process that has just
    had an event stays in the table while at most [MaxEntries] GUIDs, its own
    included, are used.  An event uses the GUIDs of its process, of the parent the
    kernel reports and of the parent the event leaves with. *)

From Stdlib Require Import ZArith Lia.
From stdpp Require Import prelude list gmap relations.
From S2P Require Import Prelude Guid Event ProcTable ProcTableSpec ProcTableProps ProcTableThms.

Local Open Scope Z_scope.

(** The GUIDs an event uses; [ev'] is the event as [Handle] leaves it. *)
Definition used (cfg : Config) (ev ev' : Event) : gset (list byte) :=
  {[ev_guid cfg ev; ev_hdr cfg ev; Parent_GUID (Event_Parent ev')]}.

(** Calls that change the table, with the GUIDs they use; no sweep finds [g]
    expired. *)
Inductive uses (cfg : Config) (g : list byte) : gset (list byte) -> Table -> Table -> Prop :=
  | uses_nil t : uses cfg g ∅ t t
  | uses_Handle v1 v2 now ev S t t' : not_own_parent cfg ev ->
      uses cfg g S (Handle cfg v1 v2 now ev t).2 t' ->
      uses cfg g (used cfg ev (Handle cfg v1 v2 now ev t).1 ∪ S) t t'
  | uses_Sweep order now S t t' : order ≡ₚ map_to_list (t_entries t) ->
      (forall e, Lookup g t = Some e -> ~ expired (now - ExitTTL cfg) e) ->
      uses cfg g S (Sweep cfg order now t).2 t' -> uses cfg g S t t'.

(** ** On the list *)

Lemma guids_drop g l : guids (s_drop g l) = filter (fun x => x ≠ g) (guids l).
Proof.
  unfold s_drop, guids. induction l as [|e l IH]; [done|]. cbn [map]. rewrite !filter_cons, <- IH.
  by case_decide.
Qed.

Lemma guids_update e l : guids (map (fun x => if decide (Entry_GUID x = Entry_GUID e) then e else x) l) = guids l.
Proof.
  unfold guids. induction l as [|x l IH]; [done|]. cbn [map]. rewrite IH. by case_decide as E; [rewrite E|].
Qed.

(** What an event's calls do to the list of GUIDs is to move GUIDs of [S] to the
    front, and to put new ones there, dropping what no longer fits.  So they
    preserve what these two moves preserve. *)
Section moves.
Context (cfg : Config) (M : 1 <= MaxEntries cfg) (S : gset (list byte)) (K : list (list byte) -> Prop).
Hypothesis K_move : forall x l, x ∈ S -> x ∈ l -> K l -> K (x :: filter (fun y => y ≠ x) l).
Hypothesis K_push : forall x l, x ∈ S -> (x ∉ l) -> K l -> K (take (Z.to_nat (MaxEntries cfg)) (x :: l)).

Local Abbreviation holds s := (K (guids (s_list s))).

Lemma K_get g s : g ∈ S -> holds s -> holds (s_get g s).2.
Proof.
  intros H K0. unfold s_get. destruct (s_find g (s_list s)) as [e|] eqn:F; [|done].
  pose proof (s_find_elem _ _ _ F) as [Hin <-]. cbn [snd s_list guids map]. fold (guids (s_drop (Entry_GUID e) (s_list s))).
  rewrite guids_drop. apply K_move; [done | | done]. apply list_elem_of_fmap. by exists e.
Qed.

Lemma K_insert e s : Entry_GUID e ∈ S -> holds s -> s_find (Entry_GUID e) (s_list s) = None ->
  holds (s_insert cfg e s).
Proof.
  intros He K0 F%s_find_guids. cbn [s_insert s_list]. unfold guids. rewrite <- firstn_map. by apply K_push.
Qed.

Lemma K_update e s : holds s -> holds (s_update e s).
Proof. unfold s_update. cbn [s_list]. by rewrite guids_update. Qed.

Lemma K_parent v g pid st s : g ∈ S -> holds s -> holds (s_parent cfg v g pid st s).2.
Proof.
  intros H K0. unfold s_parent. pose proof (K_get g s H K0) as G. unfold s_get in *.
  destruct (s_find g (s_list s)) as [e|] eqn:F; [done|].
  destruct (Proc v) as [rd|]; [|done]. destruct (pid =? 0); [done|]. destruct (rd pid) as [info|]; [|done].
  destruct (negb _); [done|]. by apply K_insert.
Qed.

Lemma K_type v now ev guid hdr s : guid ∈ S -> hdr ∈ S -> (Event_Type ev = TypeFork -> guid ≠ hdr) ->
  holds s ->
  let '(o, s1) := s_get guid s in holds (s_handle_type cfg v now ev guid hdr o s1).2.
Proof.
  intros Hg Hh N K0. pose proof (K_get guid s Hg K0) as G. pose proof (s_get_fst guid s) as F.
  destruct (s_get guid s) as [[e|] s1] eqn:E; cbn [fst snd] in *; unfold s_handle_type.
  - destruct (Event_Type ev); try done; by apply K_update.
  - assert (s1 = s) as -> by (unfold s_get in E; destruct (s_find guid (s_list s)); congruence).
    destruct (Event_Type ev); [|specialize (N eq_refl)|done].
    + apply K_update. by apply K_insert.
    + pose proof (K_parent v hdr (Parent_PID (Event_Parent ev)) (Parent_StartTimeNs (Event_Parent ev)) s Hh G) as P.
      destruct (s_parent_others cfg M v hdr (Parent_PID (Event_Parent ev))
        (Parent_StartTimeNs (Event_Parent ev)) s guid N) as [Q | [Q _]]; rewrite <- ?F in Q;
      destruct (s_parent _ _ _ _ _ _) as [[p|] s3]; by apply K_insert.
Qed.

(** What follows once the event's entry is updated: the parent to report. *)
Lemma K_report v ev hdr o s :
  let '((pg, pp, ps), s1) := s_parent_id ev hdr o s in
  hdr ∈ S -> pg ∈ S -> holds s -> holds (s_parent cfg v pg pp ps s1).2.
Proof.
  unfold s_parent_id. destruct o as [e|]; [|by intros; apply K_parent]. case_decide; [|by intros; apply K_parent].
  pose proof (K_get (ParentGUID e) s) as G. pose proof (s_get_fst (ParentGUID e) s) as F.
  destruct (s_get (ParentGUID e) s) as [[p|] s1] eqn:E; cbn [fst snd] in *; intros Hh Hp K0.
  - apply K_parent; [done|]. apply G; [|done]. symmetry in F. by apply s_find_elem in F as [_ <-].
  - apply K_parent; [done|]. unfold s_get in E. destruct (s_find (ParentGUID e) (s_list s)); congruence.
Qed.
End moves.

(** [g] is in the list, and only GUIDs of [S] are before it. *)
Definition kept (S : gset (list byte)) (g : list byte) (l : list (list byte)) : Prop :=
  NoDup l /\ exists a b, l = a ++ g :: b /\ Forall (.∈ S) a.

Lemma kept_found S g l : kept S g (guids l) -> is_Some (s_find g l).
Proof.
  intros (_ & a & b & E & _). destruct (s_find g l) as [e|] eqn:F; [done|].
  apply s_find_guids in F. rewrite E in F. set_solver.
Qed.

Lemma kept_mono S S' g l : kept S g l -> S ⊆ S' -> kept S' g l.
Proof.
  intros (N & a & b & E & F) H. split; [done|]. exists a, b. split; [done|].
  eapply Forall_impl; [exact F | set_solver].
Qed.

Lemma nodup_move (x : list byte) l : NoDup l -> NoDup (x :: filter (fun y => y ≠ x) l).
Proof. intros N. apply NoDup_cons. rewrite list_elem_of_filter. split; [tauto | by apply NoDup_filter]. Qed.

Lemma nodup_push n (x : list byte) l : (x ∉ l) -> NoDup l -> NoDup (take n (x :: l)).
Proof. intros H N. apply (sublist_NoDup _ (x :: l)); [by apply NoDup_cons | apply sublist_take]. Qed.

Section kept.
Context (cfg : Config) (S : gset (list byte)) (g : list byte).
Hypothesis g_S : g ∈ S.
Hypothesis S_small : Z.of_nat (size S) <= MaxEntries cfg.

Lemma kept_move x l : x ∈ S -> x ∈ l -> kept S g l -> kept S g (x :: filter (fun y => y ≠ x) l).
Proof.
  intros Hx _ (N & a & b & E & F). split; [by apply nodup_move|]. destruct (decide (x = g)) as [-> | Hne].
  - by exists [], (filter (fun y => y ≠ g) l).
  - exists (x :: filter (fun y => y ≠ x) a), (filter (fun y => y ≠ x) b).
    rewrite E, filter_app, filter_cons_True by done. split; [done|].
    rewrite Forall_forall in *. intros y [-> | [_ Hy]%list_elem_of_filter]%elem_of_cons; auto.
Qed.

(** The [MaxEntries] first entries have [g]: the entries up to it are used ones. *)
Lemma kept_push x l : x ∈ S -> (x ∉ l) -> kept S g l -> kept S g (take (Z.to_nat (MaxEntries cfg)) (x :: l)).
Proof.
  intros Hx Hl (N & a & b & E & F). split; [by apply nodup_push|].
  assert (L : (length ((x :: a) ++ [g]) <= size S)%nat).
  { assert (N1 : NoDup ((x :: a) ++ [g])).
    { apply (sublist_NoDup _ (x :: l)); [by apply NoDup_cons|]. rewrite E. cbn. apply sublist_skip.
      apply sublist_app; [done|]. apply sublist_skip, sublist_nil_l. }
    rewrite <- (size_list_to_set (C := gset (list byte)) _ N1). apply subseteq_size. intros y.
    rewrite elem_of_list_to_set, elem_of_app, elem_of_cons, list_elem_of_singleton. rewrite Forall_forall in F.
    intros [[-> | H] | ->]; auto. }
  rewrite length_app in L. cbn in L.
  exists (x :: a), (take (Z.to_nat (MaxEntries cfg) - length (x :: a) - 1) b). split; [|by constructor].
  rewrite E. change (x :: a ++ g :: b) with ((x :: a) ++ g :: b). rewrite take_app, (take_ge (x :: a)) by (cbn; lia).
  f_equal. destruct (_ - length (x :: a))%nat eqn:X; [cbn in X; lia|]. cbn. by rewrite Nat.sub_0_r.
Qed.
End kept.

(** ** [Handle] *)

Lemma used_sub (cfg : Config) (ev ev' : Event) (S : gset (list byte)) : used cfg ev ev' ⊆ S ->
  ev_guid cfg ev ∈ S /\ ev_hdr cfg ev ∈ S /\ Parent_GUID (Event_Parent ev') ∈ S.
Proof. unfold used. set_solver. Qed.

Section handle.
Context (cfg : Config) (M : 1 <= MaxEntries cfg).

Lemma kept_Handle S g v1 v2 now ev s :
  not_own_parent cfg ev -> g ∈ S -> Z.of_nat (size S) <= MaxEntries cfg ->
  used cfg ev (s_Handle cfg v1 v2 now ev s).1 ⊆ S ->
  kept S g (guids (s_list s)) \/ g = ev_guid cfg ev /\ NoDup (guids (s_list s)) /\
    (Event_Type ev = TypeExit -> is_Some (s_find g (s_list s))) ->
  kept S g (guids (s_list (s_Handle cfg v1 v2 now ev s).2)).
Proof.
  intros N HgS Sm (Ug & Uh & U)%used_sub K. unfold s_Handle in *. fold (ev_guid cfg ev) (ev_hdr cfg ev) in *.
  set (ev0 := set_process_guid (ev_guid cfg ev) ev) in *.
  pose proof (s_type_front cfg M v1 now ev0 (ev_guid cfg ev) (ev_hdr cfg ev) s) as T.
  pose proof (fun K Km Kp => K_type cfg M S K Km Kp v1 now ev0 (ev_guid cfg ev) (ev_hdr cfg ev) s) as KT.
  destruct (s_get (ev_guid cfg ev) s) as [o s1].
  destruct (s_handle_type _ _ _ _ _ _ _ _) as [o2 s2]. cbn [snd] in KT. destruct T as (T1 & T2 & T3).
  set (ev1 := match o2 with Some _ => _ | None => _ end) in *.
  pose proof (K_report cfg S (kept S g) (kept_move S g) (kept_push cfg S g HgS Sm) v2 ev1 (ev_hdr cfg ev) o2 s2) as R.
  destruct (s_parent_id ev1 (ev_hdr cfg ev) o2 s2) as [[[pg pp] ps] s3].
  destruct (s_parent cfg v2 pg pp ps s3) as [p s4]. cbn [fst snd] in *.
  assert (Hpg : pg ∈ S) by by destruct p.
  apply R; [done | done |]. clear R.
  destruct K as [K | (-> & ND & X)].
  { apply KT; [apply kept_move | by apply kept_push | done | done | exact N | done]. }
  assert (ND2 : NoDup (guids (s_list s2))).
  { apply KT; [intros; by apply nodup_move | intros; by apply nodup_push | done | done | exact N | done]. }
  split; [done|]. destruct o2 as [e|].
  - destruct (T2 e eq_refl) as [Hh <-]. destruct (s_list s2) as [|x l]; [done|]. injection Hh as ->.
    by exists [], (guids l).
  - destruct (T3 eq_refl) as [_ F]. unfold updated_entry in T1. rewrite F in T1.
    change (Event_Type ev0) with (Event_Type ev) in T1. destruct (Event_Type ev); try done.
    destruct (X eq_refl) as [e F']. congruence.
Qed.
End handle.

Lemma guids_filter (P : Entry -> Prop) `{PD : !forall e, Decision (P e)} l :
  guids (filter P l) `sublist_of` guids l.
Proof.
  unfold guids. induction l as [|e l IH]; [done|]. rewrite filter_cons. cbn [map].
  case_decide; cbn [map]; by constructor.
Qed.

(** Filtering out other entries. *)
Lemma kept_filter S g (P : Entry -> Prop) `{PD : !forall e, Decision (P e)} l :
  kept S g (guids l) -> (forall e, s_find g l = Some e -> P e) -> kept S g (guids (filter P l)).
Proof.
  intros (N & a & b & E & F) H. split.
  { apply (sublist_NoDup _ (guids l)); [done | apply guids_filter]. }
  revert a E F N H. induction l as [|e l IH]; intros a E F N H; [by destruct a|].
  unfold guids in *. cbn [map] in *. apply NoDup_cons in N as [Ne N]. rewrite filter_cons.
  destruct a as [|x a]; injection E as E1 E.
  - cbn [s_find List.find] in H. rewrite bool_decide_true in H by done. rewrite decide_True by auto. cbn [map].
    exists [], (map Entry_GUID (filter P l)). by rewrite E1.
  - apply Forall_cons in F as [Fx F].
    assert (Hne : Entry_GUID e ≠ g). { intros Eg. apply Ne. rewrite Eg, E. set_solver. }
    cbn [s_find List.find] in H. rewrite bool_decide_false in H by done.
    destruct (IH a E F N H) as (a' & b' & E' & F'). case_decide as D; [|by exists a', b'].
    cbn [map]. exists (x :: a'), b'. rewrite E', E1. by split; [|constructor].
Qed.

(** ** The theorem *)

(** The calls keep [g] while the GUIDs used fit in the table. *)
Lemma kept_uses cfg S0 S g t t' : 1 <= MaxEntries cfg -> wf cfg t -> uses cfg g S0 t t' ->
  g ∈ S -> S0 ⊆ S -> Z.of_nat (size S) <= MaxEntries cfg ->
  kept S g (guids (abs_list t)) -> wf cfg t' /\ kept S g (guids (abs_list t')).
Proof.
  intros M W U Hg Sub Sm. revert W Sub. induction U as [t | v1 v2 now ev S1 t t' N U IH | order now S1 t t' O X U IH]; intros W Sub K; [done| |].
  - destruct (Handle_spec cfg M v1 v2 now ev t W N) as (t1 & E & E1 & W1). rewrite E in *. cbn [fst snd] in *.
    apply union_subseteq in Sub as [Sub1 Sub]. apply IH; [done | done |]. change (abs_list t1) with (s_list (abs t1)). rewrite <- E1.
    apply kept_Handle; [done..| by left].
  - pose proof (Sweep_refines cfg order now t W O) as R. destruct (Sweep cfg order now t) as [n t1].
    destruct R as [E W1]. cbn [snd] in *. apply IH; [done..|]. unfold s_Sweep in E. injection E as _ EL _.
    rewrite <- EL. apply kept_filter; [done|]. intros e Fe. apply X. by rewrite (Lookup_abs cfg).
Qed.

(** C15: Least recently used: after an event, the entry of its process stays in the
    table through any later events and sweeps, as long as the GUIDs used (by the
    event itself and since, those of the processes, of the kernel's parents and of
    the reported parents) number at most [MaxEntries] and no sweep finds the entry
    expired. *)
Theorem recently_used_kept cfg0 v1 v2 now ev S t t' :
  let cfg := (New cfg0).1 in
  let g := ev_guid cfg ev in
  reachable cfg0 t -> not_own_parent cfg ev ->
  (Event_Type ev = TypeExit -> is_Some (Lookup g t)) ->
  uses cfg g S (Handle cfg v1 v2 now ev t).2 t' ->
  Z.of_nat (size (used cfg ev (Handle cfg v1 v2 now ev t).1 ∪ S)) <= MaxEntries cfg ->
  is_Some (Lookup g t').
Proof.
  cbv zeta. intros [W _]%reachable_inv N X U Sm. pose proof (New_max cfg0) as M. set (cfg := (New cfg0).1) in *.
  destruct (Handle_spec cfg M v1 v2 now ev t W N) as (t1 & E & E1 & W1). rewrite E in *. cbn [fst snd] in *.
  set (U0 := used cfg ev (s_Handle cfg v1 v2 now ev (abs t)).1) in *.
  pose proof (used_sub cfg ev _ (U0 ∪ S) (union_subseteq_l _ _)) as [Hg _]. set (S' := U0 ∪ S) in *.
  destruct (kept_uses cfg S S' (ev_guid cfg ev) t1 t') as [W' K]; try done; [apply union_subseteq_r | |].
  - change (abs_list t1) with (s_list (abs t1)). rewrite <- E1.
    apply (kept_Handle cfg M); try done; [apply union_subseteq_l|]. right. split; [done|]. split; [apply wf_nodup_guids, W|].
    intros T. change (s_list (abs t)) with (abs_list t). rewrite <- (Lookup_abs cfg) by done. auto.
  - rewrite (Lookup_abs cfg) by done. by apply kept_found in K.
Qed.

Import ProcTableThms.Run.

Lemma recently_used_kept_witness :
  is_Some (Lookup (ev_guid cfg shell_exec) (Sweep cfg (map_to_list (t_entries t3)) (8 + 30000000000) t3).2).
Proof.
  apply (recently_used_kept cfg0 proc_view proc_view 5 shell_exec
    (used cfg child_fork (Handle cfg proc_view proc_view 6 child_fork t1).1 ∪
      (used cfg child_reparented_exit (Handle cfg proc_view proc_view 7 child_reparented_exit t2).1 ∪ ∅)) t0).
  - apply rtc_refl.
  - exact shell_exec_ok.
  - intros T. discriminate T.
  - apply uses_Handle; [intros _; exact child_not_parent|]. apply uses_Handle; [exact child_exit_ok|].
    eapply uses_Sweep; [reflexivity | | apply uses_nil].
    intros e E [X _]. apply X. assert (R : ExitedAt <$> Lookup (ev_guid cfg shell_exec) t3 = Some 0)
      by (vm_compute; reflexivity).
    change (Lookup (ev_guid cfg shell_exec) t3 = Some e) in E. rewrite E in R. by injection R.
  - vm_compute. discriminate.
Defined.
