(* ===== verification/ProcFS.v ===== *)
(** * internal/proctable/procfs.go

    Reading processes from [/proc] and the cgroup tree.  The file system is a
    record of the system calls the code makes; [None] is any error. *)

From Stdlib Require Import ZArith Lia.
From Stdlib Require Import String.
From stdpp Require Import prelude list gmap.
From S2P Require Import Prelude GoStd GoText Guid Event ProcTable ProcTableProps.

Local Open Scope Z_scope.

Definition maxCmdline : Z := 4096.

(** [os.ReadFile], [os.Readlink], [os.Open] with the bytes read from the file
    until its end or a read error, [stat(2)]'s inode number, [os.ReadDir]'s names. *)
Record filesystem := mkFilesystem {
  ReadFile : list byte -> option (list byte);
  Readlink : list byte -> option (list byte);
  OpenRead : list byte -> option (list byte);
  Stat : list byte -> option Z;
  ReadDir : list byte -> option (list (list byte));
}.

Record ProcFS := mkProcFS { ProcRoot : list byte; CgroupRoot : list byte }.

Definition NewProcFS : ProcFS := mkProcFS (str "/proc") (str "/sys/fs/cgroup").

Inductive proc_error :=
| ReadFileError (path : list byte)
| NoParen
| TooFewFields (n : Z)
| BadPPID
| BadStartTime
| EmptyCgroupPath
| StatError (path : list byte).

Definition rparen : byte := x29.

(** Field [N] of the line is [f[N-3]]. *)
Definition parseStat (b : list byte) : Z * Z + proc_error :=
  match LastIndexByte b rparen with
  | None => inr NoParen
  | Some i =>
      let f := Fields (drop (Z.to_nat (i + 1)) b) in
      if zlen f <? 20 then inr (TooFewFields (zlen f)) else
      match ParseUint (nth 1 f []) 32 with
      | None => inr BadPPID
      | Some pp =>
          match ParseUint (nth 19 f []) 64 with
          | None => inr BadStartTime
          | Some st => inl (u32 pp, st)
          end
      end
  end.

Definition newline : byte := x0a.
Definition v2_prefix : list byte := str "0::".

Fixpoint first_v2 (lines : list (list byte)) : list byte :=
  match lines with
  | [] => []
  | line :: lines => match CutPrefix line v2_prefix with Some p => p | None => first_v2 lines end
  end.

Definition parseCgroupV2Path (b : list byte) : list byte := first_v2 (SplitByte b newline).

Section procfs.
Context (fs : filesystem) (p : ProcFS).

Definition InodeOf (path : list byte) : Z + proc_error :=
  match Stat fs path with Some ino => inl ino | None => inr (StatError path) end.

Definition p_CgroupID (path : list byte) : Z + proc_error :=
  if decide (path = []) then inr EmptyCgroupPath else InodeOf (Join [CgroupRoot p; path]).

Definition Read (pid : Z) : ProcInfo + proc_error :=
  let dir := Join [ProcRoot p; FormatUint pid] in
  match ReadFile fs (Join [dir; str "stat"]) with
  | None => inr (ReadFileError (Join [dir; str "stat"]))
  | Some stat =>
      match parseStat stat with
      | inr err => inr err
      | inl (ppid, ticks) =>
          let image := default [] (Readlink fs (Join [dir; str "exe"])) in
          let argv := match OpenRead fs (Join [dir; str "cmdline"]) with
                      | Some b => SplitArgv (take (Z.to_nat maxCmdline) b)
                      | None => []
                      end in
          let cgroup := match ReadFile fs (Join [dir; str "cgroup"]) with
                        | Some cg => match p_CgroupID (parseCgroupV2Path cg) with
                                     | inl ino => ino
                                     | inr _ => 0
                                     end
                        | None => 0
                        end in
          inl (mkProcInfo pid ppid (u64 (ticks * nsPerTick)) image argv cgroup)
      end
  end.

Fixpoint scan (ents : list (list byte)) : list ProcInfo :=
  match ents with
  | [] => []
  | e :: ents =>
      match ParseUint e 32 with
      | None => scan ents
      | Some pid =>
          match Read (u32 pid) with
          | inr _ => scan ents
          | inl info => info :: scan ents
          end
      end
  end.

Definition Scan : option (list ProcInfo) :=
  match ReadDir fs (ProcRoot p) with
  | None => None
  | Some ents => Some (scan ents)
  end.

(** The process table's view of the world: [p.Read] as its [Proc]. *)
Definition procfs_view (scope : option (Z -> bool)) : view :=
  mkView scope (Some (fun pid => match Read pid with inl info => Some info | inr _ => None end)).
End procfs.

(** ** /proc files as the kernel prints them *)

(** [/proc/<pid>/stat]: the process id, the command name in parentheses, and the
    other fields, from the state on. *)
Definition stat_line (pid : Z) (comm : list byte) (fields : list (list byte)) : list byte :=
  FormatUint pid ++ [x20; x28] ++ comm ++ [rparen] ++ concat (map (fun f => x20 :: f) fields) ++ [newline].

(** ** Lemmas *)

Lemma nth_FormatUint fields i n bits : nth i fields [] = FormatUint n -> 0 <= n < 2 ^ bits -> bits <= 64 ->
  ParseUint (nth i fields []) bits = Some n.
Proof. intros -> H B. by apply ParseUint_FormatUint. Qed.

(** Whatever the command name, spaces, newlines and parentheses included, the
    parent and the start time are read from the fields the kernel printed. *)
Theorem parseStat_line pid comm fields ppid start :
  Forall word fields -> Forall (fun f => rparen ∉ f) fields -> 20 <= zlen fields ->
  nth 1 fields [] = FormatUint ppid -> 0 <= ppid < 2 ^ 32 ->
  nth 19 fields [] = FormatUint start -> 0 <= start < 2 ^ 64 ->
  parseStat (stat_line pid comm fields) = inl (ppid, start).
Proof.
  intros W P L Hp Rp Hs Rs. unfold parseStat, stat_line.
  set (rest := concat (map (fun f => x20 :: f) fields) ++ [newline]).
  assert (Hrest : rparen ∉ rest).
  { subst rest. clear - P. rewrite elem_of_app. intros [H|H].
    - induction fields as [|f fields IH]; [by apply elem_of_nil in H|]. cbn in H.
      apply Forall_cons in P as [Pf P]. apply elem_of_cons in H as [H|H]; [done|].
      apply elem_of_app in H as [H|H]; [done | by apply IH].
    - by apply list_elem_of_singleton in H. }
  replace (FormatUint pid ++ [x20; x28] ++ comm ++ [rparen] ++ rest)
    with ((FormatUint pid ++ [x20; x28] ++ comm) ++ rparen :: rest) by by rewrite <- !app_assoc.
  rewrite LastIndexByte_app by done.
  replace (drop _ _) with rest; cycle 1.
  { replace (Z.to_nat (zlen (FormatUint pid ++ [x20; x28] ++ comm) + 1))
      with (length ((FormatUint pid ++ [x20; x28] ++ comm) ++ [rparen]))
      by (rewrite length_app; unfold zlen; cbn [length]; lia).
    change (rparen :: rest) with ([rparen] ++ rest).
    rewrite (app_assoc _ [rparen] rest). by rewrite drop_app_length. }
  unfold Fields, rest, newline. rewrite (Fields_words fields []) by auto. change (flush [] ++ fields) with fields.
  rewrite (proj2 (Z.ltb_ge _ _)) by done.
  rewrite (nth_FormatUint fields 1 ppid 32), (nth_FormatUint fields 19 start 64) by (done || lia).
  by rewrite u32_small.
Qed.

(** The cgroup v2 path is the rest of the first line that starts with ["0::"],
    and empty if there is none. *)
Theorem parseCgroupV2Path_spec lines : lines ≠ [] -> Forall (fun l => newline ∉ l) lines ->
  parseCgroupV2Path (join_byte newline lines) =
  match List.find (fun l => HasPrefix l v2_prefix) lines with
  | Some l => drop 3 l
  | None => []
  end.
Proof.
  intros Hne Hl. unfold parseCgroupV2Path. rewrite SplitByte_join by done. clear.
  induction lines as [|l lines IH]; [done|]. cbn [first_v2 List.find]. unfold HasPrefix.
  destruct (CutPrefix l v2_prefix) as [r|] eqn:E; [|done].
  apply CutPrefix_Some in E. by subst.
Qed.

Section theorems.
Context (fs : filesystem) (p : ProcFS).

Lemma Read_pid pid info : Read fs p pid = inl info -> Info_PID info = pid.
Proof.
  unfold Read. destruct (ReadFile fs _); [|done]. destruct (parseStat _) as [[ppid ticks]|]; [|done].
  by intros [= <-].
Qed.

(** Every branch of [Read]: it fails only when the stat file cannot be read or
    parsed, whatever the other files are like; otherwise the process id is the one
    asked for and the image, arguments and cgroup come from the files, or are empty
    when those cannot be read. *)
Theorem Read_spec pid :
  let dir := Join [ProcRoot p; FormatUint pid] in
  let file name := Join [dir; name] in
  match Read fs p pid with
  | inr err =>
      ReadFile fs (file (str "stat")) = None /\ err = ReadFileError (file (str "stat")) \/
      exists b, ReadFile fs (file (str "stat")) = Some b /\ parseStat b = inr err
  | inl info =>
      exists b ticks, ReadFile fs (file (str "stat")) = Some b /\ parseStat b = inl (Info_PPID info, ticks) /\
      Info_PID info = pid /\ Info_StartTimeNs info = u64 (ticks * nsPerTick) /\
      Info_Image info = default [] (Readlink fs (file (str "exe"))) /\
      (forall c, OpenRead fs (file (str "cmdline")) = Some c -> Info_Argv info = SplitArgv (take 4096 c)) /\
      (OpenRead fs (file (str "cmdline")) = None -> Info_Argv info = []) /\
      (forall c ino, ReadFile fs (file (str "cgroup")) = Some c ->
         p_CgroupID fs p (parseCgroupV2Path c) = inl ino -> Info_CgroupID info = ino) /\
      (forall c err, ReadFile fs (file (str "cgroup")) = Some c ->
         p_CgroupID fs p (parseCgroupV2Path c) = inr err -> Info_CgroupID info = 0) /\
      (ReadFile fs (file (str "cgroup")) = None -> Info_CgroupID info = 0)
  end.
Proof.
  cbv zeta. unfold Read. destruct (ReadFile fs _) as [b|] eqn:S; [|by left].
  destruct (parseStat b) as [[ppid ticks]|err] eqn:P; [|right; by exists b].
  exists b, ticks. cbn [Info_PID Info_PPID Info_StartTimeNs Info_Image Info_Argv Info_CgroupID].
  split_and!; try done; [by intros c -> | by intros -> | | | by intros ->].
  - intros c ino -> E. by rewrite E.
  - intros c err -> E. by rewrite E.
Qed.

#[export] Instance procfs_view_ok scope : ViewOk (procfs_view fs p scope).
Proof.
  intros rd pid info. cbn. intros [= <-]. destruct (Read fs p pid) as [i|] eqn:E; [|done].
  intros [= <-]. by eapply Read_pid.
Qed.

(** C36: A process read from [/proc] gets the GUID its kernel events carry: if its stat
    file is what the kernel prints for a process that started at [startNs], the
    read gives a start time whose GUID is that of [startNs]. *)
Theorem Read_GUID cfg pid comm fields ppid startNs :
  ReadFile fs (Join [Join [ProcRoot p; FormatUint pid]; str "stat"]) = Some (stat_line pid comm fields) ->
  Forall word fields -> Forall (fun f => rparen ∉ f) fields -> 20 <= zlen fields ->
  nth 1 fields [] = FormatUint ppid -> 0 <= ppid < 2 ^ 32 ->
  nth 19 fields [] = FormatUint (StartTicks startNs) -> 0 <= startNs < 2 ^ 64 ->
  exists info, Read fs p pid = inl info /\ Info_PPID info = ppid /\
    t_GUID cfg (Info_PID info) (Info_StartTimeNs info) = t_GUID cfg pid startNs.
Proof.
  intros S W P L Hp Rp Hs Rs.
  assert (B : 0 <= StartTicks startNs < 2 ^ 64).
  { unfold StartTicks. change nsPerTick with 10000000. split; [apply Z.div_pos; lia|].
    apply Z.div_lt_upper_bound; lia. }
  pose proof (parseStat_line pid comm fields ppid (StartTicks startNs) W P L Hp Rp Hs B) as E.
  unfold Read. rewrite S, E. eexists. split; [reflexivity|]. split; [reflexivity|].
  cbn [Info_PID Info_StartTimeNs]. apply t_GUID_ticks. by apply StartTicks_roundtrip.
Qed.

(** [Scan] lists, in directory order, the numeric entries that [Read] can read:
    entries that are not process ids and processes that are gone are skipped. *)
Theorem Scan_spec ents : ReadDir fs (ProcRoot p) = Some ents ->
  Scan fs p = Some (omap (fun e =>
    match ParseUint e 32 with
    | Some pid => match Read fs p pid with inl info => Some info | inr _ => None end
    | None => None
    end) ents).
Proof.
  intros D. unfold Scan. rewrite D. f_equal. clear D. induction ents as [|e ents IH]; [done|].
  cbn [scan omap list_omap]. destruct (ParseUint e 32) as [pid|] eqn:E; [|done].
  apply ParseUint_range in E; [|lia]. rewrite u32_small by done. rewrite IH.
  by destruct (Read fs p pid).
Qed.
End theorems.

(** ** A /proc with one process, whose name has a parenthesis and a space *)

Module Host.
Definition fields : list (list byte) :=
  [str "S"; str "99"] ++ repeat (str "0") 17 ++ [str "500"; str "0"].
Definition comm : list byte := str "a) (b".
Definition fs : filesystem := {|
  ReadFile path :=
    if decide (path = str "/proc/42/stat") then Some (stat_line 42 comm fields)
    else if decide (path = str "/proc/42/cgroup") then Some (str "0::/system.slice/docker-0.scope") else None;
  Readlink path := if decide (path = str "/proc/42/exe") then Some (str "/bin/sh") else None;
  OpenRead path := if decide (path = str "/proc/42/cmdline") then Some (argv_area [str "sh"; str "-c"]) else None;
  Stat path := if decide (path = str "/sys/fs/cgroup/system.slice/docker-0.scope") then Some 7 else None;
  ReadDir path := Some [str "self"; str "41"; str "42"; str "99999999999"];
|}.

Lemma fields_words : Forall word fields.
Proof. apply words_check. vm_compute. reflexivity. Qed.

Lemma fields_parens : Forall (fun f => rparen ∉ f) fields.
Proof. apply (bool_decide_unpack _). vm_compute. exact I. Qed.
End Host.
Import Host.

Lemma parseStat_line_witness : parseStat (stat_line 42 comm fields) = inl (99, 500).
Proof.
  apply parseStat_line; [apply fields_words | apply fields_parens | | | lia | | lia];
    vm_compute; congruence.
Defined.

Lemma parseCgroupV2Path_spec_witness :
  parseCgroupV2Path (join_byte newline [str "1:name=systemd:/x"; str "0::/a b"; str "0::/c"]) = str "/a b".
Proof.
  rewrite (parseCgroupV2Path_spec [str "1:name=systemd:/x"; str "0::/a b"; str "0::/c"]);
    [vm_compute; reflexivity | discriminate | apply (bool_decide_unpack _); vm_compute; exact I].
Defined.

Lemma Read_GUID_witness :
  exists info, Read fs NewProcFS 42 = inl info /\ Info_PPID info = 99 /\
    t_GUID (mkConfig (str "h") (str "b") 1 0) (Info_PID info) (Info_StartTimeNs info) =
    t_GUID (mkConfig (str "h") (str "b") 1 0) 42 5001234567.
Proof.
  apply (Read_GUID fs NewProcFS (mkConfig (str "h") (str "b") 1 0) 42 comm fields 99 5001234567);
    [vm_compute; reflexivity | apply fields_words | apply fields_parens | | | lia | | lia];
    vm_compute; congruence.
Defined.

Lemma Scan_spec_witness :
  Scan fs NewProcFS = Some [mkProcInfo 42 99 5000000000 (str "/bin/sh") [str "sh"; str "-c"] 7].
Proof.
  rewrite (Scan_spec fs NewProcFS [str "self"; str "41"; str "42"; str "99999999999"] eq_refl).
  vm_compute. reflexivity.
Defined.
