(* ===== verification/Identity.v ===== *)
(** * [HostIdentity] of internal/proctable/guid.go

    The machine and boot identifiers that go into GUIDs, read from two files and
    trimmed by [strings.TrimSpace]. *)

From Stdlib Require Import ZArith Lia.
From Stdlib Require Import String.
From stdpp Require Import prelude list gmap.
From S2P Require Import Prelude GoStd GoText Guid ProcTable ProcFS.

Local Open Scope Z_scope.

(** ** strings.TrimSpace *)

(** White space at the start; [skip] bytes of a character are left. *)
Fixpoint trim_left (skip : nat) (s : list byte) : list byte :=
  match s with
  | [] => []
  | x :: s' =>
      match skip with
      | S skip => trim_left skip s'
      | O => match space_len s with O => s | S k => trim_left k s' end
      end
  end.

(** The length of the white space character that ends a string, given reversed. *)
Definition rspace_len (r : list byte) : nat :=
  if decide (space_len (rev (take 1 r)) = 1%nat) then 1
  else if decide (space_len (rev (take 2 r)) = 2%nat) then 2
  else if decide (space_len (rev (take 3 r)) = 3%nat) then 3
  else 0.

Fixpoint trim_right (skip : nat) (r : list byte) : list byte :=
  match r with
  | [] => []
  | x :: r' =>
      match skip with
      | S skip => trim_right skip r'
      | O => match rspace_len r with O => r | S k => trim_right k r' end
      end
  end.

Definition TrimSpace (s : list byte) : list byte := rev (trim_right 0 (rev (trim_left 0 s))).

Example TrimSpace_unicode :
  TrimSpace [x20; xc2; xa0; x61; x20; x62; xe2; x80; xa8; x0a; x0d] = [x61; x20; x62].
Proof. vm_compute. reflexivity. Qed.

(** ** HostIdentity *)

Inductive identity_error := HostIDError | BootIDError.

Definition HostIdentity (fs : filesystem) : list byte * list byte + identity_error :=
  match ReadFile fs (str "/etc/machine-id") with
  | None => inr HostIDError
  | Some host =>
      match ReadFile fs (str "/proc/sys/kernel/random/boot_id") with
      | None => inr BootIDError
      | Some boot => inl (TrimSpace host, TrimSpace boot)
      end
  end.

(** ** Properties *)

Lemma trim_left_plain c s : plain c = true -> trim_left 0 (c :: s) = c :: s.
Proof. intros H. cbn [trim_left]. by rewrite space_len_plain. Qed.

(** No white space character ends in a plain byte. *)
Lemma space_len_2 a c : plain c = true -> space_len [a; c] ≠ 2%nat /\ space_len [a; c] ≠ 3%nat.
Proof.
  intros H. destruct a; try (split; discriminate); destruct c; first [discriminate H | split; discriminate].
Qed.

Lemma space_len_3 b a c : plain c = true -> space_len [b; a; c] ≠ 3%nat.
Proof.
  intros H. destruct b; try discriminate; destruct a; try discriminate;
    destruct c; first [discriminate H | discriminate].
Qed.

Lemma rspace_len_plain c r : plain c = true -> rspace_len (c :: r) = O.
Proof.
  intros H. unfold rspace_len. pose proof (space_len_plain c [] H) as S1.
  destruct r as [|a [|b r]]; cbn [take rev app];
    rewrite !decide_False
      by first [by rewrite S1 | by apply (space_len_2 a c) | by apply (space_len_3 b a c)]; done.
Qed.

Lemma TrimSpace_word w : word w -> TrimSpace (w ++ [x0a]) = w /\ TrimSpace w = w.
Proof.
  intros [Hn Hw]. assert (L : forall t, trim_left 0 (w ++ t) = w ++ t).
  { intros t. destruct w as [|c w]; [done|]. apply Forall_cons in Hw as [Hc _]. by apply trim_left_plain. }
  assert (R : trim_right 0 (rev w) = rev w).
  { destruct (rev w) as [|c r] eqn:E; [done|]. cbn [trim_right].
    rewrite rspace_len_plain; [done|]. rewrite Forall_forall in Hw. apply Hw.
    apply list_elem_of_In, in_rev. rewrite E. by left. }
  unfold TrimSpace. split.
  - rewrite L, rev_app_distr. 
    change (trim_right 0 (rev [x0a] ++ rev w)) with (trim_right 0 (rev w)).
    by rewrite R, rev_involutive.
  - rewrite <- (app_nil_r w) at 1. by rewrite L, app_nil_r, R, rev_involutive.
Qed.

(** The identity is what the files say without their line ends: two runs of the
    sensor on one boot of one host use the same, so that a process keeps its GUID
    across restarts of the sensor; and it is free of NULs, which separate host and
    boot in the input of the hash. *)
Theorem HostIdentity_stable fs host boot e1 e2 :
  word host -> word boot -> e1 ∈ [[]; [x0a]] -> e2 ∈ [[]; [x0a]] ->
  ReadFile fs (str "/etc/machine-id") = Some (host ++ e1) ->
  ReadFile fs (str "/proc/sys/kernel/random/boot_id") = Some (boot ++ e2) ->
  HostIdentity fs = inl (host, boot) /\ (nul ∉ host) /\ (nul ∉ boot).
Proof.
  intros Hh Hb H1 H2 R1 R2. unfold HostIdentity. rewrite R1, R2.
  assert (T : forall w e, word w -> e ∈ [[]; [x0a]] -> TrimSpace (w ++ e) = w).
  { intros w e Hw [->| [->|[]%elem_of_nil]%elem_of_cons]%elem_of_cons; [|by apply TrimSpace_word].
    rewrite app_nil_r. by apply TrimSpace_word. }
  assert (Z : forall w, word w -> nul ∉ w).
  { intros w [_ Hw] Hin. rewrite Forall_forall in Hw. discriminate (Hw _ Hin). }
  rewrite !T by done. auto.
Qed.
