(* ===== verification/Runtime.v ===== *)
(** * internal/container/runtime.go

    Containers, the target selector, and the interface of a container runtime.
    Go's [Labels] map is a [gmap]; a missing key and a nil map are both no entry. *)

From Stdlib Require Import ZArith Lia.
From Stdlib Require Import String.
From stdpp Require Import prelude list gmap.
From S2P Require Import Prelude GoStd GoText.

Local Open Scope Z_scope.

Record Container := mkContainer {
  Container_ID : list byte;
  Container_Name : list byte;
  Container_Image : list byte;
  Container_ImageID : list byte;
  Container_Labels : gmap (list byte) (list byte);
  Container_Pid : Z;
  Container_Running : bool;
}.

#[global] Instance Container_eq_dec : EqDecision Container.
Proof. solve_decision. Defined.

Record Target := mkTarget { Target_Name : list byte; Target_ID : list byte; Target_Label : list byte }.

Definition equals_sign : byte := x3d.

Definition Target_String (t : Target) : list byte :=
  if decide (Target_Name t ≠ []) then str "name=" ++ Target_Name t
  else if decide (Target_ID t ≠ []) then str "id=" ++ Target_ID t
  else str "label=" ++ Target_Label t.

Inductive target_error :=
| NotExactlyOne (n : Z)
| LabelNotKeyValue (label : list byte).

(** [None] is nil. *)
Definition Validate (t : Target) : option target_error :=
  let n := zlen (filter (fun s => s ≠ []) [Target_Name t; Target_ID t; Target_Label t]) in
  if negb (n =? 1) then Some (NotExactlyOne n)
  else if decide (Target_Label t ≠ [] /\ IndexByte (Target_Label t) equals_sign = None)
  then Some (LabelNotKeyValue (Target_Label t)) else None.

Definition Matches (t : Target) (c : Container) : bool :=
  if decide (Target_Name t ≠ []) then bool_decide (Container_Name c = TrimPrefix (Target_Name t) [slash])
  else if decide (Target_ID t ≠ []) then HasPrefix (Container_ID c) (Target_ID t)
  else
    let '(k, v, _) := CutByte (Target_Label t) equals_sign in
    match Container_Labels c !! k with
    | Some got => bool_decide (got = v)
    | None => false
    end.

(** [EventKind] is a string in the code; kinds other than these five reach the
    watcher's [switch] and are ignored. *)
Inductive EventKind := EventCreate | EventStart | EventDie | EventDestroy | EventRename | EventOther.

Record RuntimeEvent := mkRuntimeEvent { Kind : EventKind; Event_ID : list byte }.

Inductive runtime_error :=
| ErrNotFound
| TransportError
| BadStatus (code : Z)
| DecodeError
| UnsupportedCgroup (version : list byte)
| UnsupportedDriver (driver : list byte).

#[global] Instance runtime_error_eq_dec : EqDecision runtime_error.
Proof. solve_decision. Defined.

(** A runtime answers from its own state and the daemon's, [W]. *)
Class Runtime (W : Type) := {
  List : W -> (list Container + runtime_error) * W;
  Inspect : list byte -> W -> (Container + runtime_error) * W;
  CgroupPath : list byte -> W -> (list byte + runtime_error) * W;
}.

(** ** Lemmas *)

Lemma IndexByte_in s c : IndexByte s c = None <-> c ∉ s.
Proof.
  split; [|apply IndexByte_None]. induction s as [|x s IH]; cbn; [by intros _ ?%elem_of_nil|].
  case_decide; [done|]. destruct (IndexByte s c); [done|]. intros _.
  apply not_elem_of_cons. split; [congruence | by apply IH].
Qed.

(** ** Properties *)

(** [Validate] accepts exactly the targets with one selector, whose label, if that
    is the one, is a key and a value; otherwise it says which of the two fails. *)
Theorem Validate_spec t :
  match Validate t with
  | None =>
      (exists n, n ≠ [] /\ t = mkTarget n [] []) \/ (exists i, i ≠ [] /\ t = mkTarget [] i []) \/
      (exists k v, (equals_sign ∉ k) /\ t = mkTarget [] [] (k ++ equals_sign :: v))
  | Some (NotExactlyOne n) => n ≠ 1 /\
      n = zlen (filter (fun s => s ≠ []) [Target_Name t; Target_ID t; Target_Label t])
  | Some (LabelNotKeyValue l) => l ≠ [] /\ t = mkTarget [] [] l /\ (equals_sign ∉ l)
  end.
Proof.
  destruct t as [n i l]. unfold Validate. cbn [Target_Name Target_ID Target_Label].
  set (m := zlen _). destruct (Z.eqb_spec m 1) as [E|E]; cbn [negb]; [|done].
  assert (one : (n ≠ [] /\ i = [] /\ l = []) \/ (n = [] /\ i ≠ [] /\ l = []) \/ (n = [] /\ i = [] /\ l ≠ [])).
  { subst m. rewrite !filter_cons, filter_nil in E. repeat case_decide; cbn in E; try (unfold zlen in E; cbn in E; lia); naive_solver. }
  case_decide as D.
  - destruct D as [D1 D2%IndexByte_in]. split_and!; [done | | done].
    destruct one as [(_ & _ & ->)|[(_ & _ & ->)|(-> & -> & _)]]; done.
  - destruct one as [(? & -> & ->)|[(-> & ? & ->)|(-> & -> & Hl)]]; [by left; exists n | by right; left; exists i|].
    right; right. destruct (decide (equals_sign ∈ l)) as [Hin|Hin%IndexByte_in]; [|tauto].
    apply list_elem_of_split_l in Hin as (k & v & -> & Hk). by exists k, v.
Qed.

(** What each valid selector selects: the exact name (a leading slash allowed in
    the selector), an ID with the given prefix, or a label with exactly the given
    value, which may itself contain equals signs. *)
Theorem Matches_spec c :
  (forall n, n ≠ [] -> head n ≠ Some slash ->
     Matches (mkTarget n [] []) c = bool_decide (Container_Name c = n) /\
     Matches (mkTarget (slash :: n) [] []) c = bool_decide (Container_Name c = n)) /\
  (forall i, i ≠ [] -> Matches (mkTarget [] i []) c = true <-> exists r, Container_ID c = i ++ r) /\
  (forall k v, (equals_sign ∉ k) ->
     Matches (mkTarget [] [] (k ++ equals_sign :: v)) c = true <-> Container_Labels c !! k = Some v).
Proof.
  split_and!.
  - intros n Hn Hs. unfold Matches. cbn [Target_Name]. rewrite !decide_True by done. unfold TrimPrefix.
    split; [|change (slash :: n) with ([slash] ++ n); by rewrite CutPrefix_app].
    destruct n as [|x n]; [done|]. cbn. rewrite decide_False; [done|]. intros ->. by apply Hs.
  - intros i Hi. unfold Matches. cbn [Target_Name Target_ID]. rewrite decide_False, decide_True by auto.
    apply HasPrefix_spec.
  - intros k v Hk. unfold Matches. cbn [Target_Name Target_ID Target_Label].
    rewrite !decide_False by auto. rewrite CutByte_app by done.
    destruct (Container_Labels c !! k) as [got|]; [|done]. rewrite bool_decide_eq_true. naive_solver.
Qed.
