(* ===== verification/Docker.v ===== *)
(** * internal/container/docker.go

    The Docker Engine API client.  HTTP and JSON are library code: a section
    variable [http_Do] answers requests from the daemon's state, and one decoder
    per response type stands for [encoding/json].  [docker_runtime] is the
    [Runtime] the watcher uses. *)

From Stdlib Require Import ZArith Lia.
From Stdlib Require Import String.
From stdpp Require Import prelude list gmap.
From S2P Require Import Prelude GoStd GoText Runtime.

Local Open Scope Z_scope.

(** A failed request, or a status code and a body. *)
Inductive http_response := HttpFailed | HttpResponse (code : Z) (body : list byte).

Record dockerInspect := mkDockerInspect {
  di_ID : list byte;
  di_Name : list byte;
  di_Image : list byte;
  di_Running : bool;
  di_Pid : Z;
  di_ConfigImage : list byte;
  di_Labels : gmap (list byte) (list byte);
}.

Record dockerInfo := mkDockerInfo { CgroupDriver : list byte; CgroupVersion : list byte }.

(** The client's state: the daemon and the cached driver. *)
Record Docker (W : Type) := mkDocker { daemon : W; cgroupDriver : list byte }.
Arguments mkDocker {W}.
Arguments daemon {W}.
Arguments cgroupDriver {W}.

(** [url.PathEscape]: letters, digits and [-_.~$&+=:@] stay, other bytes become
    a percent sign and two upper-case hexadecimal digits. *)
Definition path_unreserved (c : byte) : bool :=
  let n := b2z c in
  ((48 <=? n) && (n <=? 57)) || ((65 <=? n) && (n <=? 90)) || ((97 <=? n) && (n <=? 122)) ||
  bool_decide (c ∈ str "-_.~$&+=:@").

Definition upper_hex (n : Z) : byte := z2b (if n <? 10 then 48 + n else 55 + n).

Definition PathEscape (s : list byte) : list byte :=
  concat (map (fun c => if path_unreserved c then [c]
                        else [x25; upper_hex (b2z c / 16); upper_hex (b2z c mod 16)]) s).

Definition container_of (i : dockerInspect) : Container :=
  mkContainer (di_ID i) (TrimPrefix (di_Name i) [slash]) (di_ConfigImage i) (di_Image i)
    (di_Labels i) (di_Pid i) (di_Running i).

Section docker.
Context {W : Type} (http_Do : list byte -> W -> http_response * W).
Context (decode_summaries : list byte -> option (list (list byte))).
Context (decode_inspect : list byte -> option dockerInspect).
Context (decode_info : list byte -> option dockerInfo).

Definition d_get {A} (dec : list byte -> option A) (path : list byte) (d : Docker W)
    : (A + runtime_error) * Docker W :=
  let '(resp, w) := http_Do path (daemon d) in
  (match resp with
   | HttpFailed => inr TransportError
   | HttpResponse code body =>
       if code =? 404 then inr ErrNotFound
       else if negb (code =? 200) then inr (BadStatus code)
       else match dec body with Some v => inl v | None => inr DecodeError end
   end, mkDocker w (cgroupDriver d)).

Definition d_Inspect (idOrName : list byte) (d : Docker W) : (Container + runtime_error) * Docker W :=
  let '(r, d) := d_get decode_inspect (str "/containers/" ++ PathEscape idOrName ++ str "/json") d in
  (match r with inl i => inl (container_of i) | inr err => inr err end, d).

Fixpoint inspect_all (sum : list (list byte)) (d : Docker W)
    : (list Container + runtime_error) * Docker W :=
  match sum with
  | [] => (inl [], d)
  | s :: sum =>
      let '(r, d) := d_Inspect s d in
      match r with
      | inr ErrNotFound => inspect_all sum d
      | inr err => (inr err, d)
      | inl c =>
          let '(rest, d) := inspect_all sum d in
          (match rest with inl cs => inl (c :: cs) | inr err => inr err end, d)
      end
  end.

Definition d_List (d : Docker W) : (list Container + runtime_error) * Docker W :=
  let '(r, d) := d_get decode_summaries (str "/containers/json?all=1") d in
  match r with
  | inr err => (inr err, d)
  | inl sum => inspect_all sum d
  end.

Definition driver (d : Docker W) : (list byte + runtime_error) * Docker W :=
  if decide (cgroupDriver d ≠ []) then (inl (cgroupDriver d), d) else
  let '(r, d) := d_get decode_info (str "/info") d in
  match r with
  | inr err => (inr err, d)
  | inl info =>
      if decide (CgroupVersion info ≠ str "2") then (inr (UnsupportedCgroup (CgroupVersion info)), d)
      else (inl (CgroupDriver info), mkDocker (daemon d) (CgroupDriver info))
  end.

Definition d_CgroupPath (id : list byte) (d : Docker W) : (list byte + runtime_error) * Docker W :=
  let '(r, d) := driver d in
  match r with
  | inr err => (inr err, d)
  | inl dr =>
      if decide (dr = str "systemd") then (inl (str "/system.slice/docker-" ++ id ++ str ".scope"), d)
      else if decide (dr = str "cgroupfs") then (inl (str "/docker/" ++ id), d)
      else (inr (UnsupportedDriver dr), d)
  end.

#[export] Instance docker_runtime : Runtime (Docker W) := {|
  List := d_List; Inspect := d_Inspect; CgroupPath := d_CgroupPath;
|}.

(** ** Lemmas *)

Lemma driver_cached d : cgroupDriver d ≠ [] -> driver d = (inl (cgroupDriver d), d).
Proof. intros H. unfold driver. by rewrite decide_True. Qed.

(** Once [driver] has succeeded with a driver the watcher supports, it answers
    the same without a request, whatever became of the daemon. *)
Lemma driver_stable d dr d' : dr ≠ [] -> driver d = (inl dr, d') -> driver d' = (inl dr, d').
Proof.
  intros Hdr. unfold driver at 1. case_decide as D.
  - intros [= <- <-]. by apply driver_cached.
  - destruct (d_get decode_info _ d) as [[info|err] d1]; [|done]. case_decide; [done|].
    intros [= <- <-]. by apply driver_cached.
Qed.

Definition scope_path (dr id : list byte) : option (list byte) :=
  if decide (dr = str "systemd") then Some (str "/system.slice/docker-" ++ id ++ str ".scope")
  else if decide (dr = str "cgroupfs") then Some (str "/docker/" ++ id) else None.

Lemma CgroupPath_inl id d p d' : d_CgroupPath id d = (inl p, d') ->
  exists dr, driver d = (inl dr, d') /\ scope_path dr id = Some p.
Proof.
  unfold d_CgroupPath, scope_path. destruct (driver d) as [[dr|err] d1]; [|done].
  repeat case_decide; intros [= <- <-]; exists dr; (split; [done|]).
  - by rewrite decide_True.
  - by rewrite decide_False, decide_True.
Qed.

(** ** Properties *)

(** Brief unavailability does not break resolution: after one success,
    [CgroupPath] succeeds for every container, without asking the daemon, and the
    paths only differ in the container ID. *)
Theorem CgroupPath_stable id d p d' id' :
  d_CgroupPath id d = (inl p, d') ->
  exists dr p', d_CgroupPath id' d' = (inl p', d') /\
    scope_path dr id = Some p /\ scope_path dr id' = Some p'.
Proof.
  intros (dr & D & S)%CgroupPath_inl. exists dr.
  assert (Hne : dr ≠ []) by (intros ->; discriminate S).
  unfold d_CgroupPath. rewrite (driver_stable d dr d' Hne D). unfold scope_path in *.
  repeat case_decide; try done; eauto.
Qed.

(** [List] on a daemon that answers: the summaries' containers in order, without
    those removed since the list call; the first other failure is its result. *)
Theorem inspect_all_spec sum d :
  match (inspect_all sum d).1 with
  | inl cs => exists rs, length rs = length sum /\
      cs = omap (fun r => match r with inl c => Some c | inr _ => None end) rs /\
      Forall (fun r => match r with inl _ => True | inr err => err = ErrNotFound end) rs /\
      (forall i s r, sum !! i = Some s -> rs !! i = Some r -> exists d1, (d_Inspect s d1).1 = r)
  | inr err => err ≠ ErrNotFound /\ exists s d1, s ∈ sum /\ (d_Inspect s d1).1 = inr err
  end.
Proof.
  revert d. induction sum as [|s sum IH]; intros d; cbn [inspect_all].
  { exists []. split_and!; [done | done | constructor | done]. }
  destruct (d_Inspect s d) as [r d1] eqn:E. specialize (IH d1).
  assert (Hr : (d_Inspect s d).1 = r) by by rewrite E.
  assert (K : forall cs, (exists rs, length rs = length sum /\
      cs = omap (fun r => match r with inl c => Some c | inr _ => None end) rs /\
      Forall (fun r => match r with inl _ => True | inr err => err = ErrNotFound end) rs /\
      (forall i s r, sum !! i = Some s -> rs !! i = Some r -> exists d1, (d_Inspect s d1).1 = r)) ->
    match r with inl _ => True | inr err => err = ErrNotFound end ->
    exists rs, length rs = length (s :: sum) /\
      (match r with inl c => c :: cs | inr _ => cs end) =
        omap (fun r => match r with inl c => Some c | inr _ => None end) rs /\
      Forall (fun r => match r with inl _ => True | inr err => err = ErrNotFound end) rs /\
      (forall i s' r, (s :: sum) !! i = Some s' -> rs !! i = Some r -> exists d1, (d_Inspect s' d1).1 = r)).
  { intros cs (rs & L & -> & F & A) Hok. exists (r :: rs). split_and!.
    - cbn. by rewrite L.
    - cbn. by destruct r.
    - by constructor.
    - intros [|i] s' r'; cbn; [intros [= <-] [= <-]; eauto | apply A]. }
  destruct r as [c|err].
  - destruct (inspect_all sum d1) as [[cs|err] d2]; cbn in IH |- *; [by apply K|].
    destruct IH as (H1 & s' & d' & H2 & H3). split; [done|]. exists s', d'. split; [by right | done].
  - destruct (decide (err = ErrNotFound)) as [->|Hne].
    + destruct (inspect_all sum d1) as [[cs|err] d2]; cbn in IH |- *; [by apply K|].
      destruct IH as (H1 & s' & d' & H2 & H3). split; [done|]. exists s', d'. split; [by right | done].
    + assert (H : err ≠ ErrNotFound /\ exists s' d1, s' ∈ s :: sum /\ (d_Inspect s' d1).1 = inr err).
      { split; [done|]. exists s, d. split; [left | done]. }
      by destruct err.
Qed.
End docker.

(** The watcher's probe: the cgroup directories of all containers have the parent
    of the path computed for the container "0", and the directory's name identifies
    the container. *)
Theorem scope_path_parent dr id p p0 : (slash ∉ id) -> id ≠ [] ->
  scope_path dr id = Some p -> scope_path dr (str "0") = Some p0 ->
  Dir p = Dir p0 /\
  (forall id' p', (slash ∉ id') -> id' ≠ [] -> scope_path dr id' = Some p' -> Base p' = Base p -> id' = id).
Proof.
  intros Hs Hn. unfold scope_path.
  assert (S : forall i, slash ∉ i -> slash ∉ str "docker-" ++ i ++ str ".scope").
  { intros i Hi. rewrite !elem_of_app. intros [H|[H|H]]; [|done|]; revert H;
      apply (bool_decide_unpack _); vm_compute; exact I. }
  assert (B : forall i, slash ∉ i -> Base (str "/system.slice/docker-" ++ i ++ str ".scope")
                                     = str "docker-" ++ i ++ str ".scope").
  { intros i Hi. change (str "/system.slice/docker-" ++ i ++ str ".scope")
      with (str "/system.slice" ++ slash :: (str "docker-" ++ i ++ str ".scope")).
    apply Base_app; [done | by apply S]. }
  assert (C : forall i, slash ∉ i -> i ≠ [] -> Base (str "/docker/" ++ i) = i).
  { intros i Hi Hne. change (str "/docker/" ++ i) with (str "/docker" ++ slash :: i). by apply Base_app. }
  case_decide.
  - intros H1%(inj Some) H2%(inj Some). subst p p0. split.
    + change (str "/system.slice/docker-" ++ id ++ str ".scope")
        with (str "/system.slice" ++ slash :: (str "docker-" ++ id ++ str ".scope")).
      rewrite Dir_app by by apply S. vm_compute. reflexivity.
    + intros id' p' Hs' Hn' H3%(inj Some). subst p'. rewrite !B by done.
      intros E%app_inv_head. by apply app_inv_tail in E.
  - case_decide; [|done]. intros H1%(inj Some) H2%(inj Some). subst p p0. split.
    + change (str "/docker/" ++ id) with (str "/docker" ++ slash :: id).
      rewrite Dir_app by done. vm_compute. reflexivity.
    + intros id' p' Hs' Hn' H3%(inj Some). subst p'. by rewrite !C.
Qed.

(** ** The event stream *)

(** [url.QueryEscape]: letters, digits and [-_.~] stay, a space becomes a plus,
    other bytes become a percent sign and two upper-case hexadecimal digits. *)
Definition query_unreserved (c : byte) : bool :=
  let n := b2z c in
  ((48 <=? n) && (n <=? 57)) || ((65 <=? n) && (n <=? 90)) || ((97 <=? n) && (n <=? 122)) ||
  bool_decide (c ∈ str "-_.~").

Definition QueryEscape (s : list byte) : list byte :=
  concat (map (fun c => if query_unreserved c then [c] else if decide (c = x20) then [x2b]
                        else [x25; upper_hex (b2z c / 16); upper_hex (b2z c mod 16)]) s).

Definition dquote : byte := x22.
Definition quoted (s : string) : list byte := dquote :: str s ++ [dquote].

(** The kinds [Events] asks for. *)
Definition filters : list byte :=
  str "{" ++ quoted "type" ++ str ":[" ++ quoted "container" ++ str "]," ++ quoted "event" ++ str ":[" ++
  join_byte x2c (map quoted ["create"; "start"; "die"; "destroy"; "rename"]%string) ++ str "]}".

Definition events_path : list byte := str "/events?filters=" ++ QueryEscape filters.

(** One JSON object of the stream. *)
Record message := mkMessage { Action : list byte; Actor_ID : list byte }.

(** The conversion [EventKind(m.Action)], as the watcher's [switch] sees it. *)
Definition event_kind (a : list byte) : EventKind :=
  if decide (a = str "create") then EventCreate
  else if decide (a = str "start") then EventStart
  else if decide (a = str "die") then EventDie
  else if decide (a = str "destroy") then EventDestroy
  else if decide (a = str "rename") then EventRename
  else EventOther.

Definition event_of (m : message) : RuntimeEvent := mkRuntimeEvent (event_kind (Action m)) (Actor_ID m).

Inductive stream_error := RequestError | StreamFailed | StreamStatus (code : Z) | StreamDecode.

(** What [dec.Decode] returns: an object, with whether the send goes through (the
    context may be done first), or an error, with whether the context is done. *)
Inductive stream_item := Object (m : message) (sent : bool) | Broken (ctx_done : bool).

(** The answer to the request. *)
Inductive stream_response := NoRequest | NoResponse | Stream (code : Z) (items : list stream_item).

(** The events sent on the first channel, in order, and the content of the second
    one, a buffer of one error. *)
Fixpoint stream_events (items : list stream_item) : list RuntimeEvent * option stream_error :=
  match items with
  | [] => ([], None)
  | Broken ctx_done :: _ => ([], if ctx_done then None else Some StreamDecode)
  | Object m sent :: items =>
      if sent then let '(evs, err) := stream_events items in (event_of m :: evs, err) else ([], None)
  end.

Definition d_Events (resp : stream_response) : list RuntimeEvent * option stream_error :=
  match resp with
  | NoRequest => ([], Some RequestError)
  | NoResponse => ([], Some StreamFailed)
  | Stream code items => if negb (code =? 200) then ([], Some (StreamStatus code)) else stream_events items
  end.

Example events_path_is : events_path = str
  "/events?filters=%7B%22type%22%3A%5B%22container%22%5D%2C%22event%22%3A%5B%22create%22%2C%22start%22%2C%22die%22%2C%22destroy%22%2C%22rename%22%5D%7D".
Proof. vm_compute. reflexivity. Qed.

Lemma stream_events_all ms items :
  stream_events (map (fun m => Object m true) ms ++ items) =
  (map event_of ms ++ (stream_events items).1, (stream_events items).2).
Proof.
  induction ms as [|m ms IH]; cbn; [by destruct (stream_events items)|].
  rewrite IH. done.
Qed.

(** A stream is delivered completely and in order up to where it breaks; its end is
    reported as an error unless the watcher itself is being stopped; and the kinds
    asked for are those the watcher acts on. *)
Theorem d_Events_spec ms ctx_done rest :
  d_Events (Stream 200 (map (fun m => Object m true) ms ++ Broken ctx_done :: rest)) =
  (map event_of ms, if ctx_done then None else Some StreamDecode) /\
  (forall code items, code ≠ 200 -> d_Events (Stream code items) = ([], Some (StreamStatus code))) /\
  (forall a, event_kind a ≠ EventOther <->
     a ∈ map str ["create"; "start"; "die"; "destroy"; "rename"]%string).
Proof.
  split_and!.
  - cbn [d_Events]. rewrite stream_events_all. cbn. by rewrite app_nil_r.
  - intros code items Hc. cbn. by rewrite (proj2 (Z.eqb_neq _ _)).
  - intros a. unfold event_kind. cbn [map]. rewrite !elem_of_cons, elem_of_nil.
    repeat case_decide; intuition congruence.
Qed.
