(* ===== verification/Watcher.v ===== *)
(** * internal/container/watcher.go

    The watcher's state and its operations.  [w.mu] makes each of [setWanted],
    [add], [release], the expired timer's callback and the reads atomic; they are
    the steps that the goroutines (runtime events, inotify, timers, the consumer)
    interleave, and [wstep] is that interleaving.  Above them are the functions
    that run several steps: [resync], [addRunning], [releaseContainer], [handle],
    [cgroupDirEvent] and the inotify read loop, each the whole function.

    A timer is [armed] until it expires or is stopped; an expired one is [fired]:
    its callback is a goroutine that waits for the mutex.  [Stop] does nothing to
    a fired timer.  The kernel's set of captured cgroups is the interface
    [CgroupMap]; the runtime is the interface [Runtime] of [Runtime]. *)

From Stdlib Require Import ZArith Lia.
From Stdlib Require Import String.
From stdpp Require Import prelude list gmap relations.
From S2P Require Import Prelude GoStd GoText Runtime.

Local Open Scope Z_scope.

(** ** The kernel-side set *)

(** [K] is the kernel; the booleans are whether the call succeeded. *)
Class CgroupMap (K : Type) := {
  captures : K -> Z -> bool;
  AddCgroup : Z -> K -> bool * K;
  RemoveCgroup : Z -> K -> bool * K;
}.

Class CgroupMapOk (K : Type) `{CgroupMap K} : Prop := {
  AddCgroup_ok id k id' : (AddCgroup id k).1 = true ->
    captures (AddCgroup id k).2 id' = bool_decide (id' = id) || captures k id';
  AddCgroup_fail id k id' : (AddCgroup id k).1 = false ->
    captures (AddCgroup id k).2 id' = captures k id';
  RemoveCgroup_ok id k id' : (RemoveCgroup id k).1 = true ->
    captures (RemoveCgroup id k).2 id' = negb (bool_decide (id' = id)) && captures k id';
  RemoveCgroup_fail id k id' : (RemoveCgroup id k).1 = false ->
    captures (RemoveCgroup id k).2 id' = captures k id';
}.

(** ** State *)

Definition timer_id := nat.

Record Watcher (K : Type) := mkWatcher {
  wanted : option Container;
  byCgroup : gmap Z Container;
  timers : gmap Z timer_id;
  armed : gmap timer_id Z;
  fired : gmap timer_id Z;
  next_timer : timer_id;
  cgroups : K;
}.
Arguments mkWatcher {K}.
Arguments wanted {K}.
Arguments byCgroup {K}.
Arguments timers {K}.
Arguments armed {K}.
Arguments fired {K}.
Arguments next_timer {K}.
Arguments cgroups {K}.

Section sections.
Context {K : Type} `{CgroupMap K}.

Definition set_maps (by_ : gmap Z Container) (ts : gmap Z timer_id) (k : K) (w : Watcher K) : Watcher K :=
  mkWatcher (wanted w) by_ ts (armed w) (fired w) (next_timer w) k.
Definition set_wanted (c : option Container) (w : Watcher K) : Watcher K :=
  mkWatcher c (byCgroup w) (timers w) (armed w) (fired w) (next_timer w) (cgroups w).
Definition set_timers (ts : gmap Z timer_id) (ar fi : gmap timer_id Z) (n : timer_id) (w : Watcher K)
    : Watcher K :=
  mkWatcher (wanted w) (byCgroup w) ts ar fi n (cgroups w).

Definition NewWatcher (k : K) : Watcher K := mkWatcher None ∅ ∅ ∅ ∅ O k.

(** [Lookup], [InScope] and [CgroupIDs]. *)
Definition Lookup (cgroupID : Z) (w : Watcher K) : option Container := byCgroup w !! cgroupID.
Definition InScope (cgroupID : Z) (w : Watcher K) : bool :=
  match Lookup cgroupID w with Some _ => true | None => false end.
Definition CgroupIDs (w : Watcher K) : list Z := (map_to_list (byCgroup w)).*1.

Definition setWanted (c : Container) (w : Watcher K) : Watcher K := set_wanted (Some c) w.

(** [t.Stop()]: a timer that has fired is not stopped, and nothing checks. *)
Definition Stop (t : timer_id) (w : Watcher K) : Watcher K :=
  set_timers (timers w) (delete t (armed w)) (fired w) (next_timer w) w.

(** The result is [false] when [AddCgroup] fails. *)
Definition add (id : Z) (c : Container) (w : Watcher K) : bool * Watcher K :=
  let w := match timers w !! id with
           | Some t => let w := Stop t w in
                       set_timers (delete id (timers w)) (armed w) (fired w) (next_timer w) w
           | None => w
           end in
  match byCgroup w !! id with
  | Some _ => (true, set_maps (<[id := c]> (byCgroup w)) (timers w) (cgroups w) w)
  | None =>
      let '(ok, k) := AddCgroup id (cgroups w) in
      (ok, set_maps (if ok then <[id := c]> (byCgroup w) else byCgroup w) (timers w) k w)
  end.

Definition release (id : Z) (w : Watcher K) : Watcher K :=
  match byCgroup w !! id, timers w !! id with
  | None, _ => w
  | Some _, Some _ => w
  | Some _, None =>
      let t := next_timer w in
      set_timers (<[id := t]> (timers w)) (<[t := id]> (armed w)) (fired w) (S t) w
  end.

(** The grace period of a timer ends: its callback starts. *)
Definition expire (t : timer_id) (id : Z) (w : Watcher K) : Watcher K :=
  set_timers (timers w) (delete t (armed w)) (<[t := id]> (fired w)) (next_timer w) w.

(** The callback of the timer [t] of cgroup [id]. *)
Definition callback (t : timer_id) (id : Z) (w : Watcher K) : Watcher K :=
  let w := set_timers (timers w) (armed w) (delete t (fired w)) (next_timer w) w in
  set_maps (delete id (byCgroup w)) (delete id (timers w)) (RemoveCgroup id (cgroups w)).2 w.

(** ** Interleavings *)

Inductive wlabel :=
| LWanted (c : option Container)
| LAdd (id : Z) (c : Container)
| LRelease (id : Z)
| LExpire (t : timer_id) (id : Z)
| LCallback (t : timer_id) (id : Z).

(** One atomic step of any goroutine. *)
Inductive wstep : wlabel -> Watcher K -> Watcher K -> Prop :=
| step_wanted c w : wstep (LWanted c) w (set_wanted c w)
| step_add id c w : wstep (LAdd id c) w (add id c w).2
| step_release id w : wstep (LRelease id) w (release id w)
| step_expire t id w : armed w !! t = Some id -> wstep (LExpire t id) w (expire t id w)
| step_callback t id w : fired w !! t = Some id -> wstep (LCallback t id) w (callback t id w).

(** A run and its labels. *)
Inductive wrun : list wlabel -> Watcher K -> Watcher K -> Prop :=
| run_nil w : wrun [] w w
| run_cons l ls w w' w'' : wstep l w w' -> wrun ls w' w'' -> wrun (l :: ls) w w''.

Definition reaches (k : K) (w : Watcher K) : Prop := exists ls, wrun ls (NewWatcher k) w.
End sections.

(** ** The functions that run several steps

    [D] is the world: the container runtime's state; [inode] is [stat(2)] and
    [proc_cgroup] the read of [/proc/<pid>/cgroup], both at one moment. *)

Section programs.
Context {K : Type} `{CgroupMap K} {D : Type} `{Runtime D}.
Context (inode : list byte -> D -> option Z) (proc_cgroup : Z -> D -> option (list byte)).
Context (CgroupRoot : list byte) (T : Target).

Inductive watch_error :=
| RuntimeFailed (err : runtime_error)
| Ambiguous (n : Z)
| NoCgroup (path : list byte)
| AddFailed.

Definition wstate : Type := Watcher K * D.

Definition cg_line (line : list byte) : option (list byte) :=
  match CutPrefix line (str "0::") with
  | Some p => if decide (p ≠ [] /\ p ≠ [slash]) then Some p else None
  | None => None
  end.

Fixpoint first_line (lines : list (list byte)) : option (list byte) :=
  match lines with
  | [] => None
  | line :: lines => match cg_line line with Some p => Some p | None => first_line lines end
  end.

Definition cgroupPath (c : Container) (d : D) : (list byte + runtime_error) * D :=
  let own := if 0 <? Container_Pid c then
               match proc_cgroup (Container_Pid c) d with
               | Some b => first_line (SplitByte b x0a)
               | None => None
               end
             else None in
  match own with
  | Some p => (inl p, d)
  | None => CgroupPath (Container_ID c) d
  end.

Definition addRunning (c : Container) (s : wstate) : option watch_error * wstate :=
  let '(w, d) := s in
  let '(path, d) := cgroupPath c d in
  match path with
  | inr err => (Some (RuntimeFailed err), (w, d))
  | inl path =>
      match inode (Join [CgroupRoot; path]) d with
      | None => (Some (NoCgroup path), (w, d))
      | Some id => let '(ok, w) := add id c w in (if ok then None else Some AddFailed, (w, d))
      end
  end.

(** The choice of the target among the listed containers. *)
Inductive choice := NotFound | Chosen (c : Container) | TooMany (n : Z).

Definition choose (all : list Container) : choice :=
  let ms := List.filter (Matches T) all in
  match ms with
  | [] => NotFound
  | [c] => Chosen c
  | _ => match List.filter Container_Running ms with
         | [c] => Chosen c
         | _ => TooMany (zlen ms)
         end
  end.

Definition resync (s : wstate) : option watch_error * wstate :=
  let '(w, d) := s in
  let '(all, d) := Runtime.List d in
  match all with
  | inr err => (Some (RuntimeFailed err), (w, d))
  | inl all =>
      match choose all with
      | NotFound => (None, (w, d))
      | TooMany n => (Some (Ambiguous n), (w, d))
      | Chosen c =>
          let w := setWanted c w in
          if Container_Running c then addRunning c (w, d) else (None, (w, d))
      end
  end.

(** Go visits [byCgroup] in any order; [order] is the order of this call. *)
Definition releaseContainer (order : gmap Z Container -> list (Z * Container)) (id : list byte)
    (s : wstate) : wstate :=
  let '(w, d) := s in
  let '(path, d) := CgroupPath id d in
  let live := match path with
              | inl path => default 0 (inode (Join [CgroupRoot; path]) d)
              | inr _ => 0
              end in
  let ids := map fst (List.filter (fun p => bool_decide (Container_ID p.2 = id) && negb (p.1 =? live))
                                (order (byCgroup w))) in
  (fold_left (fun w cg => release cg w) ids w, d).

Definition handle (order : gmap Z Container -> list (Z * Container)) (ev : RuntimeEvent) (s : wstate)
    : wstate :=
  let '(w, d) := s in
  match Kind ev with
  | EventCreate | EventStart | EventRename =>
      let '(r, d) := Inspect (Event_ID ev) d in
      match r with
      | inr _ => (w, d)
      | inl c =>
          let cur := wanted w in
          if Matches T c then
            let w := setWanted c w in
            match Kind ev with
            | EventStart => if Container_Running c then (addRunning c (w, d)).2 else (w, d)
            | _ => (w, d)
            end
          else
            match cur with
            | Some cur =>
                if decide (Container_ID cur = Container_ID c) then
                  let '(w, d) := releaseContainer order (Container_ID c) (w, d) in
                  (set_wanted None w, d)
                else (w, d)
            | None => (w, d)
            end
      end
  | EventDie => releaseContainer order (Event_ID ev) (w, d)
  | EventDestroy =>
      let '(w, d) := releaseContainer order (Event_ID ev) (w, d) in
      match wanted w with
      | Some c => if decide (Container_ID c = Event_ID ev) then (set_wanted None w, d) else (w, d)
      | None => (w, d)
      end
  | EventOther => (w, d)
  end.

Definition IN_CREATE : Z := 0x100.
Definition IN_DELETE : Z := 0x200.

Definition cgroupDirEvent (order : gmap Z Container -> list (Z * Container)) (dir name : list byte)
    (mask : Z) (s : wstate) : wstate :=
  let '(w, d) := s in
  match wanted w with
  | None => (w, d)
  | Some c =>
      let '(want, d) := CgroupPath (Container_ID c) d in
      match want with
      | inr _ => (w, d)
      | inl want =>
          if decide (Base want ≠ name) then (w, d) else
          let path := Join [dir; name] in
          if negb (Z.land mask IN_CREATE =? 0) then
            match inode path d with
            | None => (w, d)
            | Some id => ((add id c w).2, d)
            end
          else if negb (Z.land mask IN_DELETE =? 0) then
            releaseContainer order (Container_ID c) (w, d)
          else (w, d)
      end
  end.

(** [Start], up to the goroutines: the error, or the directory to watch. *)
Inductive start_error :=
| InvalidTarget (err : target_error)
| ResyncFailed (err : watch_error)
| ProbeFailed (err : runtime_error).

Definition Start (s : wstate) : (list byte + start_error) * wstate :=
  match Validate T with
  | Some err => (inr (InvalidTarget err), s)
  | None =>
      let '(r, s) := resync s in
      match r with
      | Some err => (inr (ResyncFailed err), s)
      | None =>
          let '(w, d) := s in
          let '(probe, d) := CgroupPath (str "0") d in
          match probe with
          | inr err => (inr (ProbeFailed err), (w, d))
          | inl probe => (inl (Join [CgroupRoot; Dir probe]), (w, d))
          end
      end
  end.

Definition second : Z := 1000000000.

(** [runtimeEvents]: one element of [streams] per connection, with the events it
    delivers before it ends; between connections the loop waits for the backoff.
    The results are the waits, in order, and the state. *)
Fixpoint runtimeEvents (order : gmap Z Container -> list (Z * Container))
    (streams : list (list RuntimeEvent)) (first : bool) (backoff : Z) (s : wstate) : list Z * wstate :=
  match streams with
  | [] => ([], s)
  | evs :: streams =>
      let s := if first then s else (resync s).2 in
      let backoff := match evs with [] => backoff | _ => second end in
      let s := fold_left (fun s ev => handle order ev s) evs s in
      let '(waits, s) := runtimeEvents order streams false (Z.min (backoff * 2) (30 * second)) s in
      (backoff :: waits, s)
  end.

(** ** The inotify buffer *)

Definition SizeofInotifyEvent : Z := 16.

Fixpoint trim_nuls (b : list byte) : list byte :=
  match b with
  | [] => []
  | c :: b' => match trim_nuls b' with
               | [] => if decide (c = nul) then [] else [c]
               | r => c :: r
               end
  end.

(** The loop over the [n] bytes read into [buf]: each event's name and mask.
    [None] is the panic of a slice past the end of the buffer.  Every turn uses up
    at least 16 bytes, so [n] is enough fuel. *)
Fixpoint inotify_events (fuel : nat) (buf : list byte) (n off : Z) : option (list (list byte * Z)) :=
  if n <? off + SizeofInotifyEvent then Some [] else
  match fuel with
  | O => Some []
  | S fuel =>
      let mask := le_val (slice (off + 4) 4 buf) in
      let len := le_val (slice (off + 12) 4 buf) in
      if zlen buf <? off + SizeofInotifyEvent + len then None else
      let name := trim_nuls (slice (off + SizeofInotifyEvent) len buf) in
      match inotify_events fuel buf n (off + SizeofInotifyEvent + len) with
      | Some rest => Some ((name, mask) :: rest)
      | None => None
      end
  end.

(** One read: the events in order. *)
Definition inotify_read (order : gmap Z Container -> list (Z * Container)) (dir buf : list byte) (n : Z)
    (s : wstate) : option wstate :=
  match inotify_events (Z.to_nat n) buf n 0 with
  | Some evs => Some (fold_left (fun s ev => cgroupDirEvent order dir ev.1 ev.2 s) evs s)
  | None => None
  end.
End programs.
