(* ===== verification/WatcherProps.v ===== *)
(** * Properties of the watcher

    The invariants of every interleaving of the watcher's critical sections, and
    the functional behaviour of the operations built from them.  The kernel-side
    set is any that satisfies [CgroupMapOk], the runtime any [Runtime]. *)

From Stdlib Require Import ZArith Lia.
From Stdlib Require Import String.
From stdpp Require Import prelude list gmap.
From S2P Require Import Prelude GoStd GoText Runtime Watcher.

Local Open Scope Z_scope.

Section props.
Context {K : Type} `{HC : !CgroupMap K, HCok : !CgroupMapOk K}.

(** ** The invariant *)

(** A timer of the cgroup is running or its callback waits. *)
Definition pending_at (w : Watcher K) (t : timer_id) (id : Z) : Prop :=
  armed w !! t = Some id \/ fired w !! t = Some id.

Record winv (w : Watcher K) : Prop := {
  winv_captured id : is_Some (byCgroup w !! id) -> captures (cgroups w) id = true;
  winv_timer id t : timers w !! id = Some t -> pending_at w t id /\ is_Some (byCgroup w !! id);
  winv_fresh t id : pending_at w t id -> (t < next_timer w)%nat;
  winv_disjoint t id id' : armed w !! t = Some id -> fired w !! t = Some id' -> False;
}.

Lemma winv_unique w t id id' : winv w -> pending_at w t id -> pending_at w t id' -> id = id'.
Proof.
  intros I [H|H] [H'|H']; [congruence | by edestruct (winv_disjoint w I) | by edestruct (winv_disjoint w I) | congruence].
Qed.

Lemma winv_New k : winv (NewWatcher k).
Proof.
  split; unfold pending_at; cbn; intros *; rewrite ?lookup_empty; [by intros [] | done | by intros [] | done].
Qed.

Lemma winv_set_wanted c w : winv w -> winv (set_wanted c w).
Proof. intros []. by split. Qed.

(** The two parts of [add]: dropping the registered timer, and capturing. *)
Definition unregister (id : Z) (w : Watcher K) : Watcher K :=
  match timers w !! id with
  | Some t => let w := Stop t w in
              set_timers (delete id (timers w)) (armed w) (fired w) (next_timer w) w
  | None => w
  end.

Definition capture (id : Z) (c : Container) (w : Watcher K) : bool * Watcher K :=
  match byCgroup w !! id with
  | Some _ => (true, set_maps (<[id := c]> (byCgroup w)) (timers w) (cgroups w) w)
  | None =>
      let '(ok, k) := AddCgroup id (cgroups w) in
      (ok, set_maps (if ok then <[id := c]> (byCgroup w) else byCgroup w) (timers w) k w)
  end.

Lemma add_split id c w : add id c w = capture id c (unregister id w).
Proof. done. Qed.

Lemma unregister_timers id w : timers (unregister id w) = delete id (timers w).
Proof.
  unfold unregister. destruct (timers w !! id) eqn:E; [done|]. by rewrite delete_id.
Qed.

Lemma unregister_by id w : byCgroup (unregister id w) = byCgroup w /\ cgroups (unregister id w) = cgroups w /\
  fired (unregister id w) = fired w.
Proof. unfold unregister. by destruct (timers w !! id). Qed.

Lemma unregister_armed id w t id' : armed (unregister id w) !! t = Some id' ->
  armed w !! t = Some id' /\ timers w !! id ≠ Some t.
Proof.
  unfold unregister. destruct (timers w !! id) as [t'|] eqn:E; [|done]. cbn.
  rewrite lookup_delete_Some. intros [? ?]. split; [done | congruence].
Qed.

Lemma winv_unregister id w : winv w -> winv (unregister id w).
Proof.
  intros I. pose proof (unregister_by id w) as (B & C & F).
  assert (A : forall t id', pending_at (unregister id w) t id' -> pending_at w t id').
  { intros t id' [H%unregister_armed|H]; [left; tauto | right; by rewrite F in H]. }
  split.
  - rewrite B, C. apply I.
  - intros id' t. rewrite unregister_timers, lookup_delete_Some, B. intros [Hne Ht].
    destruct (winv_timer w I id' t Ht) as [P S]. split; [|done]. destruct P as [P|P]; [|right; by rewrite F].
    left. unfold unregister. destruct (timers w !! id) as [t'|] eqn:E; [|done]. cbn.
    apply lookup_delete_Some. split; [|done]. intros ->.
    apply Hne. eapply (winv_unique w t); [done | by apply (winv_timer w I) | by left].
  - intros t id' P%A%(winv_fresh w I). unfold unregister. by destruct (timers w !! id).
  - intros t id1 id2 [H1 _]%unregister_armed. rewrite F. by apply (winv_disjoint w I t id1).
Qed.

Lemma capture_byCgroup id c w : (capture id c w).1 = true ->
  byCgroup (capture id c w).2 = <[id := c]> (byCgroup w).
Proof. unfold capture. destruct (byCgroup w !! id); [done|]. destruct (AddCgroup id (cgroups w)) as [[] k]; done. Qed.

Lemma capture_fail id c w : (capture id c w).1 = false -> byCgroup (capture id c w).2 = byCgroup w.
Proof. unfold capture. destruct (byCgroup w !! id); [done|]. by destruct (AddCgroup id (cgroups w)) as [[] k]. Qed.

Lemma winv_capture id c w : winv w -> winv (capture id c w).2.
Proof.
  intros I. unfold capture. destruct (byCgroup w !! id) as [c0|] eqn:E.
  - split; cbn; try apply I.
    + intros id' [c' H]. apply (winv_captured w I). apply lookup_insert_Some in H as [[<- _]|[_ H]]; by eexists.
    + intros id' t H. destruct (winv_timer w I id' t H) as [P S]. split; [done|].
      apply lookup_insert_is_Some'. by right.
  - pose proof (AddCgroup_ok id (cgroups w)) as O. pose proof (AddCgroup_fail id (cgroups w)) as F.
    destruct (AddCgroup id (cgroups w)) as [[] k]; cbn in *.
    + split; cbn; try apply I.
      * intros id' H. rewrite O by done. apply orb_true_iff.
        destruct (decide (id' = id)) as [->|Hne]; [left; by apply bool_decide_eq_true|]. right.
        apply (winv_captured w I). by rewrite lookup_insert_ne in H.
      * intros id' t H. destruct (winv_timer w I id' t H) as [P S]. split; [done|].
        apply lookup_insert_is_Some'. by right.
    + split; cbn; try apply I. intros id' H. rewrite F by done. by apply (winv_captured w I).
Qed.

Lemma winv_release id w : winv w -> winv (release id w).
Proof.
  intros I. unfold release. destruct (byCgroup w !! id) as [c|] eqn:E; [|done].
  destruct (timers w !! id) as [|] eqn:T; [done|]. set (t := next_timer w).
  assert (Hf : forall x, ~ pending_at w t x) by (intros x H%(winv_fresh w I); subst t; lia).
  split; unfold pending_at; cbn; try apply I.
  - intros id' t' H. apply lookup_insert_Some in H as [[<- <-]|[Hne H]].
    + split; [left; by rewrite lookup_insert_eq | by eexists].
    + destruct (winv_timer w I id' t' H) as [P S]. split; [|done]. destruct P as [P|P]; [left|by right].
      rewrite lookup_insert_ne; [done|]. intros <-. by destruct (Hf id'); left.
  - intros t' id' [H|H].
    + apply lookup_insert_Some in H as [[<- _]|[_ H]]; [lia|].
      assert (t' < next_timer w)%nat by (apply (winv_fresh w I t' id'); by left). lia.
    + assert (t' < next_timer w)%nat by (apply (winv_fresh w I t' id'); by right). lia.
  - intros t' id1 id2 H H'. apply lookup_insert_Some in H as [[<- _]|[_ H]].
    + by destruct (Hf id2); right.
    + by eapply (winv_disjoint w I).
Qed.

Lemma winv_expire t id w : winv w -> armed w !! t = Some id -> winv (expire t id w).
Proof.
  intros I A. unfold expire, pending_at.
  assert (P : forall t' id', pending_at (expire t id w) t' id' <-> pending_at w t' id').
  { intros t' id'. unfold pending_at. cbn. rewrite lookup_delete_Some, lookup_insert_Some.
    destruct (decide (t = t')) as [<-|Hne]; [|tauto]. split.
    - intros [[]|[[_ <-]|[]]]; [done | by left | done].
    - intros [H|H]; [right; left; split; congruence | by destruct (winv_disjoint w I t id id')]. }
  split.
  - apply I.
  - intros id' t' H. rewrite P. by apply I.
  - intros t' id' H%P. by eapply (winv_fresh w I).
  - cbn. intros t' id1 id2 [Hne H]%lookup_delete_Some H'.
    apply lookup_insert_Some in H' as [[<- _]|[_ H']]; [done|]. by eapply (winv_disjoint w I).
Qed.

Lemma winv_callback t id w : winv w -> fired w !! t = Some id -> winv (callback t id w).
Proof.
  intros I F. unfold callback. split; unfold pending_at; cbn.
  - intros id' [c [Hne Hc]%lookup_delete_Some].
    assert (C : captures (cgroups w) id' = true) by (apply (winv_captured w I); by eexists).
    destruct (RemoveCgroup id (cgroups w)).1 eqn:R.
    + rewrite RemoveCgroup_ok, C by done. rewrite bool_decide_false by done. done.
    + by rewrite RemoveCgroup_fail.
  - intros id' t' [Hne H]%lookup_delete_Some. destruct (winv_timer w I id' t' H) as [P S]. split.
    + destruct P as [P|P]; [by left|]. right. apply lookup_delete_Some. split; [congruence | done].
    + by rewrite lookup_delete_ne.
  - intros t' id' [H|[_ H]%lookup_delete_Some]; apply (winv_fresh w I t' id'); [by left | by right].
  - intros t' id1 id2 H [_ H']%lookup_delete_Some. by eapply (winv_disjoint w I).
Qed.

Lemma wstep_inv l w w' : wstep l w w' -> winv w -> winv w'.
Proof.
  intros S I. destruct S.
  - by apply winv_set_wanted.
  - rewrite add_split. by apply winv_capture, winv_unregister.
  - by apply winv_release.
  - by apply winv_expire.
  - by apply winv_callback.
Qed.

Lemma wrun_inv ls w w' : wrun ls w w' -> winv w -> winv w'.
Proof. induction 1; eauto using wstep_inv. Qed.

Lemma reaches_inv k w : reaches k w -> winv w.
Proof. intros [ls R]. eapply wrun_inv; [done | apply winv_New]. Qed.

(** ** Interleavings *)

(** Some timer of the cgroup is running or has a callback waiting. *)
Definition pending (w : Watcher K) (id : Z) : Prop := exists t, pending_at w t id.

Lemma InScope_spec id (w : Watcher K) : InScope id w = true <-> is_Some (byCgroup w !! id).
Proof. unfold InScope, Lookup. destruct (byCgroup w !! id); split; try done; by intros []. Qed.

(** What a step does to the set of captured cgroups. *)
Lemma wstep_scope l w w' id : wstep l w w' -> InScope id w = true ->
  InScope id w' = true \/ exists t, l = LCallback t id.
Proof.
  rewrite !InScope_spec. intros S Hs. destruct S as [c w|id' c w|id' w|t id' w Ha|t id' w Hf].
  - by left.
  - left. rewrite add_split. pose proof (unregister_by id' w) as (B & _).
    destruct (capture id' c (unregister id' w)).1 eqn:E.
    + rewrite capture_byCgroup, B by done. apply lookup_insert_is_Some'. by right.
    + by rewrite capture_fail, B.
  - left. unfold release. by destruct (byCgroup w !! id'), (timers w !! id').
  - by left.
  - destruct (decide (id = id')) as [->|Hne]; [right; by exists t|]. left. cbn. by rewrite lookup_delete_ne.
Qed.

(** Only [release] starts a timer. *)
Lemma wstep_pending l w w' id : wstep l w w' -> pending w' id -> pending w id \/ l = LRelease id.
Proof.
  intros S [t P]. assert (Hp : pending_at w t id -> pending w id) by (intros; by exists t).
  destruct S as [c w|id' c w|id' w|t' id' w Ha|t' id' w Hf].
  - left. by apply Hp.
  - left. apply Hp. rewrite add_split in P.
    assert (Q : pending_at (unregister id' w) t id).
    { unfold pending_at, capture in *. destruct (byCgroup (unregister id' w) !! id'); [done|].
      by destruct (AddCgroup id' (cgroups (unregister id' w))) as [[] k]. }
    destruct Q as [Q|Q]; [left; by apply unregister_armed in Q as [Q _] | right].
    by rewrite (proj2 (proj2 (unregister_by id' w))) in Q.
  - unfold release in P. destruct (byCgroup w !! id') as [c|]; [|left; by apply Hp].
    destruct (timers w !! id') as [|]; [left; by apply Hp|].
    destruct P as [P|P]; [|left; apply Hp; by right]. cbn in P.
    apply lookup_insert_Some in P as [[_ ->]|[_ P]]; [by right | left; apply Hp; by left].
  - left. destruct P as [P|P]; cbn in P.
    + apply lookup_delete_Some in P as [_ P]. apply Hp. by left.
    + apply lookup_insert_Some in P as [[_ ->]|[_ P]]; [exists t'; by left | apply Hp; by right].
  - left. destruct P as [P|P]; cbn in P; [apply Hp; by left|].
    apply lookup_delete_Some in P as [_ P]. apply Hp. by right.
Qed.

Lemma wstep_callback_pending t id w w' : wstep (LCallback t id) w w' -> pending w id.
Proof. intros S. inversion S; subst. exists t. by right. Qed.

(** As long as removals succeed, a step keeps the kernel's set equal to the map. *)
Lemma wstep_agree l w w' : (forall id k, (RemoveCgroup id k).1 = true) -> wstep l w w' ->
  (forall id, captures (cgroups w) id = InScope id w) -> forall id, captures (cgroups w') id = InScope id w'.
Proof.
  intros HR S E id. specialize (E id). destruct S as [c w|id' c w|id' w|t id' w Ha|t id' w Hf]; try done.
  - rewrite add_split. pose proof (unregister_by id' w) as (B & C & _).
    unfold capture, InScope, Lookup in *. rewrite B, C.
    destruct (byCgroup w !! id') as [c0|] eqn:G; cbn.
    + destruct (decide (id = id')) as [->|]; [by rewrite lookup_insert_eq, E, G | by rewrite lookup_insert_ne].
    + pose proof (AddCgroup_ok id' (cgroups w) id) as O. pose proof (AddCgroup_fail id' (cgroups w) id) as F.
      destruct (AddCgroup id' (cgroups w)) as [[] k']; cbn in *; [|by rewrite F].
      rewrite O, E by done. destruct (decide (id = id')) as [->|].
      * by rewrite lookup_insert_eq, bool_decide_true.
      * by rewrite lookup_insert_ne, bool_decide_false by done.
  - unfold release. by destruct (byCgroup w !! id'), (timers w !! id').
  - cbn. rewrite RemoveCgroup_ok, E by done. unfold InScope, Lookup. cbn.
    destruct (decide (id = id')) as [->|].
    + by rewrite lookup_delete_eq, bool_decide_true.
    + by rewrite lookup_delete_ne, bool_decide_false by done.
Qed.

(** C16: A captured cgroup with no timer stays captured, in the watcher's map and in
    the kernel, through any interleaving of other operations, until it is
    released. *)
Theorem stays_captured k ls w w' id :
  reaches k w -> wrun ls w w' -> InScope id w = true -> ~ pending w id -> (LRelease id ∉ ls) ->
  InScope id w' = true /\ captures (cgroups w') id = true /\ ~ pending w' id.
Proof.
  intros R%reaches_inv Hr. revert R. induction Hr as [w|l ls w w1 w2 S Hr IH]; intros I Hs Hp Hl.
  - split_and!; try done. apply (winv_captured w I). by apply InScope_spec.
  - apply not_elem_of_cons in Hl as [Hl1 Hl2]. apply IH; try done.
    + by eapply wstep_inv.
    + destruct (wstep_scope l w w1 id S Hs) as [?|[t ->]]; [done|].
      by apply wstep_callback_pending in S.
    + intros H. destruct (wstep_pending l w w1 id S H); [done | congruence].
Qed.

(** C7: The watcher's map is never ahead of the kernel's set: in every reachable
    state each cgroup the watcher attributes events to is captured by the kernel.
    If no removal ever fails and the set started empty, the two agree exactly. *)
Theorem watcher_kernel_agree k w :
  reaches k w ->
  (forall id, InScope id w = true -> captures (cgroups w) id = true) /\
  ((forall id k, (RemoveCgroup id k).1 = true) -> (forall id, captures k id = false) ->
   forall id, captures (cgroups w) id = InScope id w).
Proof.
  intros R. split.
  { intros id Hs. apply (winv_captured w); [by eapply reaches_inv | by apply InScope_spec]. }
  intros HR H0. destruct R as [ls R].
  assert (E : forall id, captures (cgroups (NewWatcher k)) id = InScope id (NewWatcher k))
    by (intros id; by rewrite H0).
  clear H0. induction R as [w|l ls w w1 w2 S _ IH]; [done|]. apply IH. by eapply wstep_agree.
Qed.

(** The grace period: a released cgroup stays captured until its timer's callback
    runs, which stops capturing it and nothing else, and leaves no timer
    registered for it. *)
Theorem grace_period k w id t :
  reaches k w -> InScope id w = true -> timers w !! id = None -> t = next_timer w ->
  exists w1 w2 w3,
    wrun [LRelease id] w w1 /\ InScope id w1 = true /\ captures (cgroups w1) id = true /\
    wrun [LExpire t id] w1 w2 /\ InScope id w2 = true /\
    wrun [LCallback t id] w2 w3 /\ InScope id w3 = false /\ timers w3 !! id = None /\
    ((RemoveCgroup id (cgroups w2)).1 = true -> captures (cgroups w3) id = false) /\
    (forall id', id' ≠ id -> InScope id' w3 = InScope id' w /\
                             captures (cgroups w3) id' = captures (cgroups w) id').
Proof.
  intros R%reaches_inv Hs Ht ->. pose proof (proj1 (InScope_spec id w) Hs) as [c Hc].
  set (t := next_timer w). set (w1 := release id w).
  assert (E1 : w1 = set_timers (<[id := t]> (timers w)) (<[t := id]> (armed w)) (fired w) (S t) w)
    by (unfold w1, release; by rewrite Hc, Ht).
  exists w1, (expire t id w1), (callback t id (expire t id w1)).
  assert (A : armed w1 !! t = Some id) by (rewrite E1; cbn; by rewrite lookup_insert_eq).
  assert (F : fired (expire t id w1) !! t = Some id) by (cbn; by rewrite lookup_insert_eq).
  split_and!.
  - econstructor; [constructor | constructor].
  - rewrite E1. done.
  - rewrite E1. cbn. apply (winv_captured w R). by eexists.
  - econstructor; [by constructor | constructor].
  - rewrite E1. done.
  - econstructor; [by constructor | constructor].
  - unfold InScope, Lookup. cbn. by rewrite lookup_delete_eq.
  - cbn. by rewrite lookup_delete_eq.
  - intros Rm. cbn in Rm |- *. rewrite RemoveCgroup_ok by done. by rewrite bool_decide_true.
  - intros id' Hne. unfold InScope, Lookup. cbn. rewrite lookup_delete_ne by done.
    rewrite E1. cbn. split; [done|].
    destruct (RemoveCgroup id (cgroups w)).1 eqn:Rm; [|by rewrite RemoveCgroup_fail].
    rewrite RemoveCgroup_ok by done. by rewrite bool_decide_false.
Qed.

(** C39: A timer that has fired cannot be stopped: if the callback of an old timer is
    waiting for the mutex while the cgroup is captured again, it then drops the
    cgroup, although the last operation on it was a successful [add].  The run is
    one the watcher can make from its initial state. *)
Theorem stale_callback_drops k id c :
  (AddCgroup id k).1 = true ->
  (forall k', (RemoveCgroup id k').1 = true) ->
  exists w1 w2,
    wrun [LAdd id c; LRelease id; LExpire 0%nat id; LAdd id c] (NewWatcher k) w1 /\
    InScope id w1 = true /\ timers w1 !! id = None /\
    wrun [LCallback 0%nat id] w1 w2 /\ InScope id w2 = false /\ captures (cgroups w2) id = false.
Proof.
  intros HA HR.
  set (wa := (add id c (NewWatcher k)).2). set (wb := release id wa). set (wc := expire 0%nat id wb).
  set (wd := (add id c wc).2).
  assert (Ea : wa = mkWatcher None {[id := c]} ∅ ∅ ∅ 0%nat (AddCgroup id k).2).
  { unfold wa, add. replace (timers (NewWatcher k) !! id) with (@None timer_id) by done.
    replace (byCgroup (NewWatcher k) !! id) with (@None Container) by done.
    change (cgroups (NewWatcher k)) with k. destruct (AddCgroup id k) as [ok k'].
    cbn in HA. by subst ok. }
  assert (Eb : wb = mkWatcher None {[id := c]} {[id := 0%nat]} {[0%nat := id]} ∅ 1%nat (AddCgroup id k).2).
  { unfold wb, release. rewrite Ea. cbn. by rewrite lookup_singleton_eq. }
  assert (Ed : fired wd !! 0%nat = Some id /\ InScope id wd = true /\ timers wd !! id = None).
  { unfold wd, wc, InScope, Lookup. rewrite Eb. unfold add, expire. cbn.
    rewrite !lookup_singleton_eq. cbn. rewrite !lookup_singleton_eq. cbn.
    by rewrite !lookup_insert_eq, lookup_delete_eq. }
  destruct Ed as (E1 & E2 & E3).
  exists wd, (callback 0%nat id wd). split_and!; try done.
  - econstructor; [constructor|]. econstructor; [constructor|]. econstructor.
    + constructor. change (armed wb !! 0%nat = Some id). rewrite Eb. cbn. by rewrite lookup_singleton_eq.
    + econstructor; [constructor | constructor].
  - econstructor; [by constructor | constructor].
  - unfold InScope, Lookup. cbn. by rewrite lookup_delete_eq.
  - cbn. rewrite RemoveCgroup_ok by done. by rewrite bool_decide_true.
Qed.
End props.
