(* ===== verification/Lifecycle.v ===== *)
(** * The life of a captured cgroup

    The specification of the watcher for one cgroup: out of scope, captured, or
    ending, when it is kept for the grace period.  The watcher implements it for
    every cgroup at once, whatever happens to the others: [lifecycle_refines].  The
    implementation can leave the specification in one way, a capture that comes
    when the cgroup's timer has fired and its callback waits for the mutex
    ([stale_callback_drops] of [WatcherProps] is that run); [timely] excludes it. *)

From Stdlib Require Import ZArith Lia.
From stdpp Require Import prelude list gmap.
From S2P Require Import Prelude Runtime Watcher WatcherProps.

Local Open Scope Z_scope.

(** ** The specification *)

Inductive status := Out | Live (c : Container) | Ending (c : Container).

(** What happens to the cgroup: it is captured for a container, the kernel refuses,
    it is released, its grace period ends. *)
Inductive action := Capture (c : Container) | Refuse | End_ | Timeout.

(** [None]: the action cannot happen in this status. *)
Definition act (a : action) (s : status) : option status :=
  match a, s with
  | Capture c, _ => Some (Live c)
  | Refuse, Out => Some Out
  | Refuse, _ => None
  | End_, Live c => Some (Ending c)
  | End_, _ => Some s
  | Timeout, Ending _ => Some Out
  | Timeout, _ => None
  end.

Fixpoint acts (l : list action) (s : status) : option status :=
  match l with
  | [] => Some s
  | a :: l => s ← act a s; acts l s
  end.

Definition owner (s : status) : option Container :=
  match s with Out => None | Live c | Ending c => Some c end.

(** *** Of the specification *)

(** A release that no capture revokes before the grace period ends. *)
Definition grace_ran_out (l : list action) : Prop :=
  exists l1 l2 l3, l = l1 ++ End_ :: l2 ++ Timeout :: l3 /\ forall c, Capture c ∉ l2.

Lemma grace_cons a l : grace_ran_out l -> grace_ran_out (a :: l).
Proof. intros (l1 & l2 & l3 & -> & N). by exists (a :: l1), l2, l3. Qed.

(** A captured cgroup gets out of scope only by a grace period that ran out. *)
Lemma acts_out l s : acts l s = Some Out -> s ≠ Out ->
  grace_ran_out l \/
  (exists c, s = Ending c) /\ exists l2 l3, l = l2 ++ Timeout :: l3 /\ forall c, Capture c ∉ l2.
Proof.
  revert s. induction l as [|a l IH]; intros s; cbn; [by intros [= ->]|].
  destruct a, s; try done; cbn; intros A _; try (by destruct (IH _ A ltac:(done)) as [?|[[? ?] _]]; [left; apply grace_cons|]).
  - destruct (IH _ A ltac:(done)) as [?|[_ (l2 & l3 & -> & N)]]; left; [by apply grace_cons|].
    by exists [], l2, l3.
  - destruct (IH _ A ltac:(done)) as [?|[E (l2 & l3 & -> & N)]]; [left; by apply grace_cons|]. right.
    split; [done|]. exists (End_ :: l2), l3. split; [done|]. intros c'. rewrite elem_of_cons. intros [|]; [done | by eapply N].
  - right. split; [by eexists|]. exists [], l. split; [done|]. by intros c' ?%elem_of_nil.
Qed.

(** ** The implementation *)

Section lifecycle.
Context {K : Type} `{HC : !CgroupMap K, HCok : !CgroupMapOk K}.
Implicit Types w : Watcher K.

Definition status_of (id : Z) w : status :=
  match byCgroup w !! id, timers w !! id with
  | None, _ => Out
  | Some c, None => Live c
  | Some c, Some _ => Ending c
  end.

(** What a step is for the cgroup; steps on other cgroups, changes of the target and
    the expiry of a timer are nothing. *)
Definition action_of (id : Z) (l : wlabel) w : option action :=
  match l with
  | LAdd id' c => if decide (id' = id) then Some (if (add id' c w).1 then Capture c else Refuse) else None
  | LRelease id' => if decide (id' = id) then Some End_ else None
  | LCallback _ id' => if decide (id' = id) then Some Timeout else None
  | LWanted _ | LExpire _ _ => None
  end.

(** The capture does not race with the callback of the cgroup's timer. *)
Definition timely (id : Z) (l : wlabel) w : Prop :=
  match l with
  | LAdd id' _ => id' = id -> forall t, fired w !! t ≠ Some id
  | _ => True
  end.

(** A run, and what happens to the cgroup in it. *)
Inductive trun (id : Z) : list action -> Watcher K -> Watcher K -> Prop :=
| trun_nil w : trun id [] w w
| trun_step l acs w w1 w2 : wstep l w w1 -> timely id l w -> trun id acs w1 w2 ->
    trun id (option_list (action_of id l w) ++ acs) w w2.

(** ** Simulation *)

(** The only timer or callback of the cgroup is the registered one. *)
Definition clean (id : Z) w : Prop := forall t, pending_at w t id -> timers w !! id = Some t.

Lemma clean_New id k : clean id (NewWatcher k).
Proof. unfold clean, pending_at. cbn. intros t [H|H]; by rewrite lookup_empty in H. Qed.

Lemma capture_timers id c w : timers (capture id c w).2 = timers w /\
  armed (capture id c w).2 = armed w /\ fired (capture id c w).2 = fired w.
Proof. unfold capture. destruct (byCgroup w !! id); [done|]. by destruct (AddCgroup id (cgroups w)) as [[] k]. Qed.

Lemma capture_other id id' c w : id ≠ id' -> byCgroup (capture id' c w).2 !! id = byCgroup w !! id.
Proof.
  intros N. destruct (capture id' c w).1 eqn:E.
  - by rewrite capture_byCgroup, lookup_insert_ne by done.
  - by rewrite capture_fail.
Qed.

(** A capture refused was of a cgroup not captured. *)
Lemma capture_refused id c w : (capture id c w).1 = false -> byCgroup w !! id = None.
Proof. unfold capture. by destruct (byCgroup w !! id). Qed.

Lemma add_pending id c w t x : pending_at (add id c w).2 t x ->
  pending_at w t x /\ (timers w !! id = Some t -> fired w !! t = Some x).
Proof.
  rewrite add_split. unfold pending_at. destruct (capture_timers id c (unregister id w)) as (_ & -> & ->).
  pose proof (unregister_by id w) as (_ & _ & ->). intros [[H N]%unregister_armed|H]; [|tauto].
  split; [by left|]. intros E. congruence.
Qed.

Lemma add_unregisters id c w : timers (add id c w).2 = delete id (timers w).
Proof. rewrite add_split. destruct (capture_timers id c (unregister id w)) as (-> & _). apply unregister_timers. Qed.

Lemma add_simulates id c w : clean id w -> (forall t, fired w !! t ≠ Some id) ->
  act (if (add id c w).1 then Capture c else Refuse) (status_of id w) = Some (status_of id (add id c w).2) /\
  clean id (add id c w).2.
Proof.
  intros C T. split.
  - unfold status_of. rewrite add_unregisters, lookup_delete_eq, add_split.
    destruct (unregister_by id w) as (B & _). destruct (capture id c (unregister id w)).1 eqn:E.
    + by rewrite capture_byCgroup, lookup_insert_eq.
    + pose proof (capture_refused _ _ _ E) as N. rewrite capture_fail by done. rewrite B in *. by rewrite N.
  - intros t [P F]%add_pending. by destruct (T t (F (C t P))).
Qed.

Lemma step_other id l w w' : wstep l w w' -> action_of id l w = None -> clean id w ->
  status_of id w' = status_of id w /\ clean id w'.
Proof.
  unfold status_of, clean. intros S A C. destruct S as [c w|id' c w|id' w|t id' w Ha|t id' w Hf]; cbn in A.
  - done.
  - case_decide as N; [done|]. rewrite add_unregisters, lookup_delete_ne by done. split.
    + rewrite add_split, capture_other by done. by rewrite (proj1 (unregister_by id' w)).
    + intros t [P _]%add_pending. by apply C.
  - case_decide as N; [done|]. unfold release. destruct (byCgroup w !! id') as [c|]; [|done].
    destruct (timers w !! id') as [t|]; [done|]. cbn. rewrite lookup_insert_ne by done. split; [done|].
    intros t [P|P]; cbn in P; [|by apply C; right].
    apply lookup_insert_Some in P as [[_ P]|[_ P]]; [done | by apply C; left].
  - split; [done|]. cbn. intros t' [P|P]; cbn in P.
    + apply lookup_delete_Some in P as [_ P]. apply C. by left.
    + apply lookup_insert_Some in P as [[<- E]|[_ P]]; apply C; [left; congruence | by right].
  - case_decide as N; [done|]. cbn. rewrite !lookup_delete_ne by done. split; [done|].
    intros t' [P|P]; cbn in P; apply C; [by left|]. apply lookup_delete_Some in P as [_ P]. by right.
Qed.

Lemma step_simulates id l w w' a : wstep l w w' -> timely id l w -> action_of id l w = Some a ->
  winv w -> clean id w -> act a (status_of id w) = Some (status_of id w') /\ clean id w'.
Proof.
  intros S T A I C. destruct S as [c w|id' c w|id' w|t id' w Ha|t id' w Hf]; cbn in A; try done.
  - case_decide as E; [subst id' | done]. injection A as <-. apply add_simulates; [done | by apply T].
  - case_decide as E; [subst id' | done]. injection A as <-. unfold status_of, release.
    destruct (byCgroup w !! id) as [c|] eqn:B; [|by rewrite B].
    destruct (timers w !! id) as [t|] eqn:Ti; [by rewrite B, Ti|]. cbn.
    rewrite B, lookup_insert_eq. split; [done|]. intros t P. cbn in P.
    assert (P' : pending_at w t id \/ t = next_timer w).
    { destruct P as [P|P]; cbn in P; [|by left; right].
      apply lookup_insert_Some in P as [[<- _]|[_ P]]; [by right | by left; left]. }
    cbn. rewrite lookup_insert_eq. destruct P' as [P'| ->]; [|done].
    apply C in P'. congruence.
  - case_decide as E; [subst id' | done]. injection A as <-.
    assert (Ti : timers w !! id = Some t) by (apply C; by right).
    destruct (winv_timer w I id t Ti) as [_ [c B]].
    unfold status_of. rewrite B, Ti. cbn. rewrite lookup_delete_eq. split; [done|].
    intros t' P. exfalso. assert (P' : pending_at w t' id /\ t' ≠ t).
    { destruct P as [P|P]; cbn in P.
      - split; [by left|]. intros ->. exact (winv_disjoint w I t id id P Hf).
      - apply lookup_delete_Some in P as [N P]. split; [by right | done]. }
    destruct P' as [P' N]. apply C in P'. congruence.
Qed.

Lemma acts_app l1 l2 s : acts (l1 ++ l2) s = s ← acts l1 s; acts l2 s.
Proof. revert s. induction l1 as [|a l IH]; intros s; cbn; [done|]. destruct (act a s); [apply IH | done]. Qed.

Lemma simulates id acs w0 w : trun id acs w0 w -> winv w0 -> clean id w0 ->
  acts acs (status_of id w0) = Some (status_of id w) /\ winv w /\ clean id w.
Proof.
  intros R. induction R as [w|l acs w w1 w2 S T R IH]; intros I C; [done|].
  pose proof (wstep_inv _ _ _ S I) as I1. rewrite acts_app.
  destruct (action_of id l w) as [a|] eqn:A.
  - destruct (step_simulates id l w w1 a S T A I C) as [E C1].
    change (acts (option_list (Some a)) (status_of id w)) with (s ← act a (status_of id w); Some s).
    rewrite E. by apply IH.
  - destruct (step_other id l w w1 S A C) as [E C1]. rewrite <- E. by apply IH.
Qed.

(** ** Properties *)

(** C8: The watcher implements the life of every cgroup: in any interleaving, as long as
    no capture of the cgroup races with the callback of its own timer, what happens
    to it is a course the specification allows, the watcher's maps hold the status
    that course leads to, and with it the container its events are attributed to. *)
Theorem lifecycle_refines k id acs w : trun id acs (NewWatcher k) w ->
  acts acs Out = Some (status_of id w) /\
  Lookup id w = owner (status_of id w) /\
  (status_of id w ≠ Out -> captures (cgroups w) id = true).
Proof.
  intros R. destruct (simulates id acs _ w R (winv_New k) (clean_New id k)) as (E & I & _).
  split; [exact E|].
  unfold status_of, Lookup. destruct (byCgroup w !! id) as [c|] eqn:B.
  - split; [by destruct (timers w !! id)|]. intros _. apply (winv_captured w I). by rewrite B.
  - done.
Qed.

(** A cgroup captured in such a run is not dropped before a grace period for it has
    run out: it was released, and until the timer's callback nothing captured it
    again. *)
Theorem dropped_after_grace k id acs1 acs2 w1 w2 :
  trun id acs1 (NewWatcher k) w1 -> trun id acs2 w1 w2 ->
  status_of id w1 ≠ Out -> (forall c, status_of id w1 ≠ Ending c) -> InScope id w2 = false ->
  grace_ran_out acs2.
Proof.
  intros R1 R2 N1 N2 Sc. destruct (simulates id acs1 _ w1 R1 (winv_New k) (clean_New id k)) as (_ & I & C).
  destruct (simulates id acs2 w1 w2 R2 I C) as (A & _ & _).
  replace (status_of id w2) with Out in A.
  - destruct (acts_out _ _ A N1) as [?|[[c E] _]]; [done | by destruct (N2 c)].
  - unfold InScope, Lookup, status_of in *. by destruct (byCgroup w2 !! id).
Qed.
End lifecycle.
