(* ===== verification/WatcherThms.v ===== *)
(** * What the watcher's operations do

    The functions that run several critical sections: each is a run of atomic
    steps, so the invariants of [WatcherProps] hold around and during all of them;
    what each does to the captured cgroups, their timers and the target; and what
    a series of them does: a restart of the container. *)

From Stdlib Require Import ZArith Lia.
From Stdlib Require Import String.
From stdpp Require Import prelude list gmap.
From S2P Require Import Prelude GoStd GoText Runtime Watcher WatcherProps.

Local Open Scope Z_scope.

Section thms.
Context {K : Type} `{HC : !CgroupMap K, HCok : !CgroupMapOk K} {D : Type} `{HR : !Runtime D}.
Context (inode : list byte -> D -> option Z) (proc_cgroup : Z -> D -> option (list byte)).
Context (CgroupRoot : list byte) (T : Target).

Local Abbreviation addRunning := (addRunning inode proc_cgroup CgroupRoot).
Local Abbreviation resync := (resync inode proc_cgroup CgroupRoot T).
Local Abbreviation releaseContainer := (releaseContainer inode CgroupRoot).
Local Abbreviation handle := (handle inode proc_cgroup CgroupRoot T).
Local Abbreviation cgroupDirEvent := (cgroupDirEvent inode CgroupRoot).
Local Abbreviation runtimeEvents := (runtimeEvents inode proc_cgroup CgroupRoot T).

(** ** Runs *)

Definition runs_to (w w' : Watcher K) : Prop := exists ls, wrun ls w w'.

#[export] Instance runs_refl : Reflexive runs_to.
Proof. intros w. exists []. constructor. Qed.

Lemma wrun_app ls ls' w w1 w2 : wrun ls w w1 -> wrun ls' w1 w2 -> wrun (ls ++ ls') w w2.
Proof. induction 1; [done|]. intros. econstructor; eauto. Qed.

#[export] Instance runs_trans : Transitive runs_to.
Proof. intros a b c [l1 H1] [l2 H2]. exists (l1 ++ l2). by eapply wrun_app. Qed.

Lemma runs_step l w w' : wstep l w w' -> runs_to w w'.
Proof. intros S. exists [l]. econstructor; [done | constructor]. Qed.

Lemma runs_set_wanted c w : runs_to w (set_wanted c w).
Proof. eapply runs_step. constructor. Qed.

Lemma runs_add id c w : runs_to w (add id c w).2.
Proof. eapply runs_step. constructor. Qed.

Lemma runs_release id w : runs_to w (release id w).
Proof. eapply runs_step. constructor. Qed.

Hint Resolve runs_set_wanted runs_add runs_release : sensor.

Lemma runs_addRunning c s : runs_to s.1 (addRunning c s).2.1.
Proof.
  destruct s as [w d]. unfold Watcher.addRunning. destruct (cgroupPath _ c d) as [[path|err] d1]; [|done].
  destruct (inode _ d1) as [id|]; [|done]. pose proof (runs_add id c w). by destruct (add id c w).
Qed.

Lemma runs_resync s : runs_to s.1 (resync s).2.1.
Proof.
  destruct s as [w d]. unfold Watcher.resync. destruct (List d) as [[all|err] d1]; [|done].
  destruct (choose T all) as [|c|n]; [done | | done].
  destruct (Container_Running c); [|apply runs_set_wanted].
  etrans; [apply (runs_set_wanted (Some c))|]. apply (runs_addRunning c (_, d1)).
Qed.

Lemma runs_releases ids w : runs_to w (fold_left (fun w cg => release cg w) ids w).
Proof.
  revert w. induction ids as [|id ids IH]; intros w; [done|]. etrans; [apply runs_release | apply IH].
Qed.

Lemma runs_releaseContainer order id s : runs_to s.1 (releaseContainer order id s).1.
Proof.
  destruct s as [w d]. unfold Watcher.releaseContainer. destruct (CgroupPath id d) as [path d1].
  apply runs_releases.
Qed.

Lemma runs_handle order ev s : runs_to s.1 (handle order ev s).1.
Proof.
  destruct s as [w d]. unfold Watcher.handle.
  assert (RI : runs_to w (let '(r, d) := Inspect (Event_ID ev) d in
      match r with
      | inr _ => (w, d)
      | inl c =>
          if Matches T c then
            let w := setWanted c w in
            match Kind ev with
            | EventStart => if Container_Running c then (addRunning c (w, d)).2 else (w, d)
            | _ => (w, d)
            end
          else
            match wanted w with
            | Some cur =>
                if decide (Container_ID cur = Container_ID c) then
                  let '(w, d) := releaseContainer order (Container_ID c) (w, d) in
                  (set_wanted None w, d)
                else (w, d)
            | None => (w, d)
            end
      end).1).
  { destruct (Inspect _ d) as [[c|err] d1]; [|done]. destruct (Matches T c).
    - etrans; [apply (runs_set_wanted (Some c))|]. destruct (Kind ev); try done.
      destruct (Container_Running c); [apply (runs_addRunning c (_, d1)) | done].
    - destruct (wanted w); [|done]. case_decide; [|done].
      pose proof (runs_releaseContainer order (Container_ID c) (w, d1)) as R.
      destruct (releaseContainer _ _ _) as [w1 d2]. etrans; [exact R | apply runs_set_wanted]. }
  pose proof (runs_releaseContainer order (Event_ID ev) (w, d)) as RD.
  destruct (Kind ev); try exact RI; try done.
  destruct (releaseContainer _ _ _) as [w1 d2]. cbn [fst] in RD.
  destruct (wanted w1); [|done]. case_decide; [|done]. etrans; [exact RD | apply runs_set_wanted].
Qed.

Lemma runs_handles order evs s :
  runs_to s.1 (fold_left (fun s ev => handle order ev s) evs s).1.
Proof.
  revert s. induction evs as [|ev evs IH]; intros s; [done|].
  etrans; [apply (runs_handle order ev s) | apply IH].
Qed.

Lemma runs_cgroupDirEvent order dir name mask s : runs_to s.1 (cgroupDirEvent order dir name mask s).1.
Proof.
  destruct s as [w d]. unfold Watcher.cgroupDirEvent. destruct (wanted w) as [c|]; [|done].
  destruct (CgroupPath _ d) as [[want|err] d1]; [|done]. case_decide; [done|].
  destruct (negb (Z.land mask IN_CREATE =? 0)).
  - destruct (inode _ d1); [apply runs_add | done].
  - destruct (negb (Z.land mask IN_DELETE =? 0)); [|done]. apply (runs_releaseContainer order _ (w, d1)).
Qed.

Lemma runs_runtimeEvents order streams first backoff s :
  runs_to s.1 (runtimeEvents order streams first backoff s).2.1.
Proof.
  revert first backoff s. induction streams as [|evs streams IH]; intros first backoff s; [done|].
  cbn [Watcher.runtimeEvents]. cbv zeta. set (s1 := if first then s else (resync s).2).
  match goal with |- context [fold_left ?f evs ?x] => set (s2 := fold_left f evs x) end.
  assert (R1 : runs_to s.1 s1.1) by (subst s1; destruct first; [done | apply runs_resync]).
  assert (R2 : runs_to s1.1 s2.1) by apply (runs_handles order evs s1).
  set (b := match evs with [] => backoff | _ => second end).
  specialize (IH false (Z.min (b * 2) (30 * second)) s2).
  destruct (runtimeEvents order streams false _ s2) as [waits s3].
  etrans; [exact R1|]. etrans; [exact R2 | exact IH].
Qed.

Lemma reaches_runs k w w' : reaches k w -> runs_to w w' -> reaches k w'.
Proof. intros [l1 R1] [l2 R2]. exists (l1 ++ l2). by eapply wrun_app. Qed.

(** ** Capturing *)

Lemma add_true id c w : (add id c w).1 = true -> byCgroup (add id c w).2 = <[id := c]> (byCgroup w).
Proof.
  rewrite add_split. intros E. rewrite capture_byCgroup by done. by rewrite (proj1 (unregister_by id w)).
Qed.

Lemma add_timers id c w : timers (add id c w).2 = delete id (timers w).
Proof.
  rewrite add_split, <- unregister_timers. unfold capture.
  destruct (byCgroup _ !! id); [done|]. by destruct (AddCgroup id _) as [[] k].
Qed.

Lemma add_wanted id c w : wanted (add id c w).2 = wanted w.
Proof.
  rewrite add_split. unfold capture, unregister.
  destruct (timers w !! id); cbn; (destruct (byCgroup w !! id); [done|]; by destruct (AddCgroup id (cgroups w))).
Qed.

(** [addRunning]: on success the container's cgroup, the inode of its directory,
    is captured by watcher and kernel with the container's metadata, no timer of
    it stays registered, and no other cgroup changes; the directory is the init
    process's own cgroup if that can be read, else the runtime's path. *)
Theorem addRunning_spec k c w d :
  reaches k w ->
  let '(err, (w', d')) := addRunning c (w, d) in
  let '(path, d1) := cgroupPath proc_cgroup c d in
  d' = d1 /\
  match err with
  | None => exists p id, path = inl p /\ inode (Join [CgroupRoot; p]) d1 = Some id /\
      byCgroup w' = <[id := c]> (byCgroup w) /\ timers w' = delete id (timers w) /\
      captures (cgroups w') id = true
  | Some (RuntimeFailed e) => path = inr e /\ w' = w
  | Some (NoCgroup p) => path = inl p /\ inode (Join [CgroupRoot; p]) d1 = None /\ w' = w
  | Some AddFailed => byCgroup w' = byCgroup w
  | Some (Ambiguous _) => False
  end.
Proof.
  intros R. unfold Watcher.addRunning. destruct (cgroupPath proc_cgroup c d) as [[p|e] d1]; [|done].
  destruct (inode (Join [CgroupRoot; p]) d1) as [id|] eqn:I; [|done].
  pose proof (add_true id c w) as A. pose proof (add_timers id c w) as AT.
  pose proof (wstep_inv _ _ _ (step_add id c w) (reaches_inv _ _ R)) as WI.
  destruct (add id c w) as [[] w1] eqn:E; cbn [fst snd] in *; (split; [done|]).
  - exists p, id. rewrite A by done. split_and!; try done. apply (winv_captured w1 WI).
    rewrite A by done. rewrite lookup_insert_eq. by eexists.
  - pose proof (add_split id c w) as S. rewrite E in S.
    pose proof (capture_fail id c (unregister id w)) as F. rewrite <- S in F.
    cbn [fst snd] in F. rewrite F by done. apply unregister_by.
Qed.

(** The choice of [resync]: none if nothing matches, the only match, or among
    several the only running one; anything else is ambiguous. *)
Theorem choose_spec all :
  match choose T all with
  | NotFound => forall c, In c all -> Matches T c = false
  | Chosen c => In c all /\ Matches T c = true /\
      ((forall c', In c' all -> Matches T c' = true -> c' = c) \/
       Container_Running c = true /\
       forall c', In c' all -> Matches T c' = true -> Container_Running c' = true -> c' = c)
  | TooMany n => 2 <= n /\ n = zlen (List.filter (Matches T) all) /\
      zlen (List.filter Container_Running (List.filter (Matches T) all)) ≠ 1
  end.
Proof.
  unfold choose. pose proof (fun c => filter_In (Matches T) c all) as F.
  destruct (List.filter (Matches T) all) as [|c [|c2 ms]] eqn:E.
  - intros c Hc. destruct (Matches T c) eqn:X; [|done]. by destruct (proj2 (F c)).
  - destruct (proj1 (F c) (or_introl eq_refl)) as [H1 H2]. split_and!; try done. left.
    intros c' H3 H4. by destruct (proj2 (F c') (conj H3 H4)) as [|[]].
  - set (ms' := c :: c2 :: ms) in *. pose proof (fun c => filter_In Container_Running c ms') as G.
    assert (L : 2 <= zlen ms') by (unfold ms', zlen; cbn [length]; lia).
    destruct (List.filter Container_Running ms') as [|r [|r2 rs]].
    + done.
    + destruct (proj1 (G r) (or_introl eq_refl)) as [H1 H2]. apply F in H1 as [H1 H3].
      split_and!; try done. right. split; [done|]. intros c' H4 H5 H6.
      by destruct (proj2 (G c') (conj (proj2 (F c') (conj H4 H5)) H6)) as [|[]].
    + split_and!; try done. unfold zlen. cbn [length]. lia.
Qed.

(** ** Releasing *)

Lemma release_by id (w : Watcher K) : byCgroup (release id w) = byCgroup w /\ cgroups (release id w) = cgroups w /\
  wanted (release id w) = wanted w /\
  forall cg, is_Some (timers (release id w) !! cg) <->
    is_Some (timers w !! cg) \/ cg = id /\ is_Some (byCgroup w !! cg).
Proof.
  clear inode proc_cgroup CgroupRoot T.
  unfold release. destruct (byCgroup w !! id) as [c|] eqn:B; [destruct (timers w !! id) as [t|] eqn:E|];
    split_and!; try done; intros cg; cbn.
  - split; [by left|]. intros [?|[-> _]]; [done | by rewrite E].
  - rewrite lookup_insert_is_Some'. split.
    + intros [->|?]; [right; split; [done | by rewrite B] | by left].
    + intros [?|[-> _]]; [by right | by left].
  - split; [by left|]. intros [?|[-> Hs]]; [done | rewrite B in Hs; by destruct Hs].
Qed.

Lemma releases_by ids (w : Watcher K) : let w' := fold_left (fun w cg => release cg w) ids w in
  byCgroup w' = byCgroup w /\ cgroups w' = cgroups w /\ wanted w' = wanted w /\
  forall cg, is_Some (timers w' !! cg) <-> is_Some (timers w !! cg) \/ In cg ids /\ is_Some (byCgroup w !! cg).
Proof.
  clear inode proc_cgroup CgroupRoot T.
  revert w. induction ids as [|id ids IH]; intros w; cbn [fold_left].
  - split_and!; try done. intros cg. cbn. tauto.
  - destruct (IH (release id w)) as (I1 & I2 & I3 & I4).
    destruct (release_by id w) as (R1 & R2 & R3 & R4). cbv zeta. split_and!; try congruence.
    intros cg. rewrite I4, R4, R1. cbn. split; [|intros [?|[[?|?] ?]]; subst; tauto].
    intros [[?|[-> ?]]|[? ?]]; tauto.
Qed.

(** [releaseContainer] captures and stops capturing nothing by itself: exactly the
    captured cgroups of the container other than the live one get a timer, if they
    have none, and keep being captured for the grace period. *)
Theorem releaseContainer_spec order id (w : Watcher K) d :
  order (byCgroup w) ≡ₚ map_to_list (byCgroup w) ->
  let '(w', d') := releaseContainer order id (w, d) in
  let '(path, d1) := CgroupPath id d in
  let live := match path with inl p => default 0 (inode (Join [CgroupRoot; p]) d1) | inr _ => 0 end in
  d' = d1 /\ byCgroup w' = byCgroup w /\ cgroups w' = cgroups w /\ wanted w' = wanted w /\
  forall cg, is_Some (timers w' !! cg) <->
    is_Some (timers w !! cg) \/
    cg ≠ live /\ exists c, byCgroup w !! cg = Some c /\ Container_ID c = id.
Proof.
  clear proc_cgroup.
  intros O. unfold Watcher.releaseContainer. destruct (CgroupPath id d) as [path d1].
  set (live := match path with inl _ => _ | inr _ => _ end).
  set (ids := map fst _). destruct (releases_by ids w) as (R1 & R2 & R3 & R4).
  split_and!; try done. intros cg. rewrite R4.
  assert (Hin : In cg ids <-> cg ≠ live /\ exists c, byCgroup w !! cg = Some c /\ Container_ID c = id).
  { unfold ids. rewrite in_map_iff. split.
    - intros ([cg' c] & <- & [H1 H2]%filter_In). cbn in *.
      apply andb_true_iff in H2 as [H2%bool_decide_eq_true H3%negb_true_iff%Z.eqb_neq].
      split; [done|]. exists c. split; [|done]. apply elem_of_map_to_list. rewrite <- O.
      by apply list_elem_of_In.
    - intros [Hl (c & Hc & <-)]. exists (cg, c). split; [done|]. apply filter_In. split.
      + apply list_elem_of_In. rewrite O. by apply elem_of_map_to_list.
      + cbn. apply andb_true_iff. split; [by apply bool_decide_eq_true|].
        by apply negb_true_iff, Z.eqb_neq. }
  rewrite Hin. split; [tauto|]. intros [?|[Hl (c & Hc & Hid)]]; [by left|]. right.
  split; [eauto | by rewrite Hc].
Qed.

(** C34: A restart seen out of order: when the old container's "die" is handled after
    the new cgroup, the live one, was captured, the old cgroups get their grace
    timers and the new one gets none. *)
Theorem die_keeps_live order id (w : Watcher K) d p d1 live :
  order (byCgroup w) ≡ₚ map_to_list (byCgroup w) ->
  CgroupPath id d = (inl p, d1) -> inode (Join [CgroupRoot; p]) d1 = Some live ->
  let w' := (handle order (mkRuntimeEvent EventDie id) (w, d)).1 in
  byCgroup w' = byCgroup w /\ cgroups w' = cgroups w /\
  (timers w !! live = None -> timers w' !! live = None) /\
  (forall cg c, byCgroup w !! cg = Some c -> Container_ID c = id -> cg ≠ live ->
     is_Some (timers w' !! cg)).
Proof.
  intros O P I. cbv zeta. unfold Watcher.handle. cbn [Kind Event_ID].
  pose proof (releaseContainer_spec order id w d O) as R.
  destruct (releaseContainer order id (w, d)) as [w' d']. rewrite P in R. cbv zeta in R.
  rewrite I in R. cbn [default] in R. destruct R as (-> & R1 & R2 & _ & R3). cbn [fst]. split_and!; try done.
  - intros Hn. destruct (timers w' !! live) eqn:E; [|done].
    assert (X : is_Some (timers w' !! live)) by (rewrite E; by eexists).
    apply R3 in X as [[? X]|[X _]]; [congruence | done].
  - intros cg c Hc Hid Hne. apply R3. right. eauto.
Qed.

(** C35: A container renamed away from the target while it runs: the event clears the
    target, but the container's live cgroup gets no grace timer and stays captured,
    and since the target is cleared the removal of its directory is ignored too. *)
Theorem rename_keeps_live order ev (w : Watcher K) d c d1 cur p d2 live :
  Kind ev = EventRename ->
  order (byCgroup w) ≡ₚ map_to_list (byCgroup w) ->
  Inspect (Event_ID ev) d = (inl c, d1) -> Matches T c = false ->
  wanted w = Some cur -> Container_ID cur = Container_ID c ->
  CgroupPath (Container_ID c) d1 = (inl p, d2) -> inode (Join [CgroupRoot; p]) d2 = Some live ->
  timers w !! live = None ->
  let '(w', d') := handle order ev (w, d) in
  wanted w' = None /\ byCgroup w' = byCgroup w /\ cgroups w' = cgroups w /\ timers w' !! live = None /\
  forall dir name events, cgroupDirEvent order dir name events (w', d') = (w', d').
Proof.
  intros HK O I Hm Hw Hid P Hi Ht. unfold Watcher.handle. rewrite HK, I, Hm, Hw, decide_True by done.
  pose proof (releaseContainer_spec order (Container_ID c) w d1 O) as R.
  destruct (releaseContainer order (Container_ID c) (w, d1)) as [w' d']. rewrite P in R. cbv zeta in R.
  rewrite Hi in R. cbn [default] in R. destruct R as (-> & R1 & R2 & _ & R3). split_and!; try done.
  cbn [timers set_wanted]. destruct (timers w' !! live) eqn:E; [|done].
  assert (X : is_Some (timers w' !! live)) by (rewrite E; by eexists).
  apply R3 in X as [[? X]|[X _]]; [congruence | done].
Qed.

(** An event of the watched directory changes something only if it names the
    target's cgroup directory; its creation captures the new cgroup, before any
    runtime event, with the target's metadata. *)
Theorem cgroupDirEvent_create k order dir name events (w : Watcher K) d c want d1 id :
  reaches k w -> wanted w = Some c -> CgroupPath (Container_ID c) d = (inl want, d1) ->
  Z.land events IN_CREATE ≠ 0 -> inode (Join [dir; name]) d1 = Some id ->
  let '(w', d') := cgroupDirEvent order dir name events (w, d) in
  d' = d1 /\
  (Base want ≠ name -> w' = w) /\
  (Base want = name -> (add id c w).1 = true ->
     byCgroup w' = <[id := c]> (byCgroup w) /\ captures (cgroups w') id = true /\
     timers w' = delete id (timers w)).
Proof.
  intros R Hw P Hm Hi. unfold Watcher.cgroupDirEvent. rewrite Hw, P. case_decide as Hn; [done|].
  rewrite (proj2 (Z.eqb_neq _ _) Hm). cbn [negb]. rewrite Hi. split_and!; try done.
  intros _ Hok. rewrite (add_true id c w Hok), add_timers. split_and!; try done.
  apply (winv_captured _ (wstep_inv _ _ _ (step_add id c w) (reaches_inv _ _ R))).
  rewrite (add_true id c w Hok), lookup_insert_eq. by eexists.
Qed.

(** ** A restart

    A restarted container has a new cgroup, in a directory of the same name.  Its
    events come from the runtime and from inotify, through two goroutines. *)

Inductive input := FromRuntime (ev : RuntimeEvent) | FromInotify (name : list byte) (mask : Z).

Definition feed (order : gmap Z Container -> list (Z * Container)) (dir : list byte)
    (s : Watcher K * D) (i : input) : Watcher K * D :=
  match i with
  | FromRuntime ev => handle order ev s
  | FromInotify name mask => cgroupDirEvent order dir name mask s
  end.

Section restart.
Context (k : K) (order : gmap Z Container -> list (Z * Container)) (dir want : list byte).
Context (c : Container) (live : Z) (ok : D -> Prop).

(** The new container runs: what the runtime and the file system say of it. *)
Record settled : Prop := {
  st_order m : order m ≡ₚ map_to_list m;
  st_matches : Matches T c = true;
  st_inspect d : ok d -> exists d', Inspect (Container_ID c) d = (inl c, d') /\ ok d';
  st_path d : ok d -> exists d', CgroupPath (Container_ID c) d = (inl want, d') /\ ok d';
  st_own d : ok d -> exists d', cgroupPath proc_cgroup c d = (inl want, d') /\ ok d';
  st_inode d : ok d -> inode (Join [CgroupRoot; want]) d = Some live;
  st_dir d : ok d -> inode (Join [dir; Base want]) d = Some live;
}.

(** The events of the restart: of the runtime those about the container, but for its
    removal; of inotify any. *)
Definition restart_input (i : input) : Prop :=
  match i with
  | FromRuntime ev => Event_ID ev = Container_ID c /\ Kind ev ≠ EventDestroy
  | FromInotify _ _ => True
  end.

(** The new cgroup is announced; the old one is reported gone. *)
Definition announces (i : input) : bool :=
  match i with
  | FromRuntime ev => match Kind ev with EventStart => Container_Running c | _ => false end
  | FromInotify name mask => bool_decide (Base want = name) && negb (Z.land mask IN_CREATE =? 0)
  end.
Definition retires (i : input) : bool :=
  match i with
  | FromRuntime ev => match Kind ev with EventDie => true | _ => false end
  | FromInotify name mask =>
      bool_decide (Base want = name) && (Z.land mask IN_CREATE =? 0) && negb (Z.land mask IN_DELETE =? 0)
  end.

(** From [w] to [w'], [a] telling whether the new cgroup has been announced and [r]
    whether the old one was reported gone. *)
Record restarted (a r : bool) (w w' : Watcher K) : Prop := {
  rs_wanted : exists c', wanted w' = Some c' /\ Container_ID c' = Container_ID c;
  rs_live : a = true -> timers w' !! live = None /\
    exists c', byCgroup w' !! live = Some c' /\ Container_ID c' = Container_ID c;
  rs_room : is_Some (byCgroup w' !! live) \/ cgroups w' = cgroups w;
  rs_others cg : cg ≠ live -> byCgroup w' !! cg = byCgroup w !! cg;
  rs_timers cg : cg ≠ live -> is_Some (timers w' !! cg) <->
    is_Some (timers w !! cg) \/
    r = true /\ exists c', byCgroup w !! cg = Some c' /\ Container_ID c' = Container_ID c;
}.

Lemma restarted_wanted a r w w' c' : restarted a r w w' -> Container_ID c' = Container_ID c ->
  restarted a r w (set_wanted (Some c') w').
Proof. intros [R1 R2 RR R3 R4] E. split; try done. by exists c'. Qed.

Lemma restarted_add a r w w' c' : (AddCgroup live (cgroups w)).1 = true ->
  restarted a r w w' -> Container_ID c' = Container_ID c -> restarted true r w (add live c' w').2.
Proof.
  intros HA [R1 R2 RR R3 R4] E. pose proof (unregister_by live w') as (UB & UC & _).
  assert (A : (add live c' w').1 = true).
  { rewrite add_split. unfold capture. rewrite UB, UC. destruct (byCgroup w' !! live); [done|].
    destruct RR as [[? ?]| ->]; [done|]. by destruct (AddCgroup live (cgroups w)). }
  pose proof (add_true live c' w' A) as B. pose proof (add_timers live c' w') as Tm.
  split; [by rewrite add_wanted | | | |].
  - intros _. rewrite B, Tm, lookup_delete_eq, lookup_insert_eq. split; [done | by exists c'].
  - left. rewrite B, lookup_insert_eq. by eexists.
  - intros cg N. rewrite B, lookup_insert_ne by done. by apply R3.
  - intros cg N. rewrite Tm, lookup_delete_ne by done. by apply R4.
Qed.

Lemma restarted_release a r w w' d : settled -> ok d -> restarted a r w w' ->
  let s := releaseContainer order (Container_ID c) (w', d) in restarted a true w s.1 /\ ok s.2.
Proof.
  intros St Ok [R1 R2 RR R3 R4]. cbv zeta.
  pose proof (releaseContainer_spec order (Container_ID c) w' d (st_order St _)) as S.
  destruct (releaseContainer _ _ _) as [w2 d2]. destruct (st_path St d Ok) as (d' & P & Ok'). rewrite P in S.
  cbv zeta in S. rewrite (st_inode St d' Ok') in S. cbn [default] in S. destruct S as (-> & B & C & W & Tm).
  split; [|done]. cbn [fst]. split; [by rewrite W | | by rewrite B, C | by rewrite B |].
  - intros A. destruct (R2 A) as [N Hc]. rewrite B. split; [|done]. destruct (timers w2 !! live) eqn:E; [|done].
    assert (X : is_Some (timers w2 !! live)) by (rewrite E; by eexists). apply Tm in X as [[? X]|[X _]]; [congruence | done].
  - intros cg N. rewrite Tm, (R4 cg N), (R3 cg N). tauto.
Qed.

Lemma restarted_start a r w w' d : settled -> (AddCgroup live (cgroups w)).1 = true -> ok d -> restarted a r w w' ->
  let s := (addRunning c (w', d)).2 in restarted true r w s.1 /\ ok s.2.
Proof.
  intros St HA Ok R. cbv zeta. unfold Watcher.addRunning. destruct (st_own St d Ok) as (d' & -> & Ok').
  rewrite (st_inode St d' Ok'). pose proof (restarted_add _ _ _ _ c HA R eq_refl) as A.
  by destruct (add live c w') as [[] w2].
Qed.

Lemma restarted_feed a r w s i : settled -> (AddCgroup live (cgroups w)).1 = true -> ok s.2 -> restarted a r w s.1 -> restart_input i ->
  restarted (a || announces i) (r || retires i) w (feed order dir s i).1 /\ ok (feed order dir s i).2.
Proof.
  intros St HA. destruct s as [w' d]. cbn [fst snd]. intros Ok R Hi. destruct i as [[kd id]|name mask]; cbn [feed].
  - destruct Hi as [E Nd]. cbn [Event_ID Kind announces retires] in *. subst id. unfold Watcher.handle. cbn [Event_ID Kind].
    destruct (st_inspect St d Ok) as (d' & I & Ok'). rewrite I, (st_matches St).
    pose proof (restarted_wanted _ _ _ _ c R eq_refl) as Rw.
    destruct kd; rewrite ?orb_false_r, ?orb_true_r; try done.
    + destruct (Container_Running c); rewrite ?orb_false_r, ?orb_true_r; [by eapply restarted_start | done].
    + by eapply restarted_release.
  - cbn [announces retires]. unfold Watcher.cgroupDirEvent. destruct (rs_wanted _ _ _ _ R) as (c' & W & Ec).
    rewrite W, Ec. destruct (st_path St d Ok) as (d' & P & Ok'). rewrite P.
    destruct (decide (Base want = name)) as [<-|N].
    2:{ rewrite decide_True by done. rewrite bool_decide_false by done. cbn. by rewrite !orb_false_r. }
    rewrite decide_False by tauto. rewrite bool_decide_true by done.
    destruct (Z.land mask IN_CREATE =? 0); cbn [negb andb]; rewrite ?orb_false_r, ?orb_true_r.
    + destruct (Z.land mask IN_DELETE =? 0); cbn [negb]; rewrite ?orb_false_r, ?orb_true_r; [done|].
      by eapply restarted_release.
    + rewrite (st_dir St d' Ok'). split; [|done]. by eapply restarted_add.
Qed.

Lemma restarted_feeds a r w s evs : settled -> (AddCgroup live (cgroups w)).1 = true -> ok s.2 -> restarted a r w s.1 -> Forall restart_input evs ->
  restarted (a || existsb announces evs) (r || existsb retires evs) w (fold_left (feed order dir) evs s).1.
Proof.
  intros St HA. revert a r s. induction evs as [|i evs IH]; intros a r s Ok R Hi; [by rewrite !orb_false_r|].
  apply Forall_cons in Hi as [Hi Hs]. destruct (restarted_feed a r w s i St HA Ok R Hi) as [R' Ok'].
  cbn [existsb fold_left]. rewrite !orb_assoc. by apply IH.
Qed.

Lemma runs_feeds evs s : runs_to s.1 (fold_left (feed order dir) evs s).1.
Proof.
  revert s. induction evs as [|[ev|name mask] evs IH]; intros s; [done| |]; cbn [fold_left feed].
  - etrans; [apply (runs_handle order ev s) | apply IH].
  - etrans; [apply (runs_cgroupDirEvent order dir name mask s) | apply IH].
Qed.

(** C22: A restart, seen in any order: whatever inotify events and runtime events of the
    container (create, start, rename, die, others, but not its removal) are handled
    once its new cgroup exists, in any order and number, within the grace period; the
    kernel's set has room for it.  If one of them announces the new cgroup (the
    start, or the creation of its directory), then at the end
    the watcher and the kernel capture it for this container and it has no timer,
    though a late die or the deletion of the old directory of the same name came
    after.  Every other cgroup stays captured, and exactly the container's old
    cgroups have got a grace timer, if one of the events says that it is gone. *)
Theorem restart_any_order w d c0 evs : settled -> ok d -> reaches k w -> (AddCgroup live (cgroups w)).1 = true ->
  wanted w = Some c0 -> Container_ID c0 = Container_ID c -> Forall restart_input evs ->
  let w' := (fold_left (feed order dir) evs (w, d)).1 in
  (existsb announces evs = true ->
     captures (cgroups w') live = true /\ timers w' !! live = None /\
     exists c', byCgroup w' !! live = Some c' /\ Container_ID c' = Container_ID c) /\
  (forall cg, cg ≠ live -> byCgroup w' !! cg = byCgroup w !! cg /\
     (is_Some (timers w' !! cg) <-> is_Some (timers w !! cg) \/
        existsb retires evs = true /\ exists c', byCgroup w !! cg = Some c' /\ Container_ID c' = Container_ID c)).
Proof.
  intros St Ok Re HA W Ec Hi. cbv zeta.
  assert (R0 : restarted false false w w).
  { split; [by exists c0 | done | by right | done |]. intros cg _. split; [by left | by intros [?|[? _]]]. }
  pose proof (restarted_feeds false false w (w, d) evs St HA Ok R0 Hi) as [R1 R2 _ R3 R4]. cbn [orb] in *.
  pose proof (reaches_runs k w _ Re (runs_feeds evs (w, d))) as Re'.
  split; [|by eauto]. intros A. destruct (R2 A) as [N (c' & B & E)]. split_and!; [|done | by exists c'].
  apply (winv_captured _ (reaches_inv _ _ Re')). by exists c'.
Qed.
End restart.

(** C40: The start-up window: when no container matches at start-up, the watcher has no
    target, so that the creation of cgroup directories means nothing to it; and the
    first connection to the event stream is made without another look at the
    containers.  A target that is created and started between the two is captured
    by neither, whatever inotify reports, until the runtime sends another event or
    the stream breaks. *)
Theorem start_window order dir backoff (w : Watcher K) d all d1 :
  wanted w = None -> Runtime.List d = (inl all, d1) -> choose T all = NotFound ->
  resync (w, d) = (None, (w, d1)) /\
  forall evs d2 d3,
    fold_left (fun s ev => cgroupDirEvent order dir ev.1 ev.2 s) evs (w, d2) = (w, d2) /\
    runtimeEvents order [[]] true backoff (w, d3) = ([backoff], (w, d3)).
Proof.
  intros Hw Hl Hc. split.
  { unfold Watcher.resync. rewrite Hl, Hc. done. }
  intros evs d2 d3. split; [|done].
  induction evs as [|ev evs IH]; [done|]. cbn [fold_left]. unfold Watcher.cgroupDirEvent at 2.
  by rewrite Hw.
Qed.

(** Reconnecting: the waits between connections stay between one and thirty
    seconds. *)
Theorem backoff_bounds order streams first b s :
  second <= b <= 30 * second ->
  Forall (fun x => second <= x <= 30 * second) (runtimeEvents order streams first b s).1.
Proof.
  assert (Hs : 0 < second) by done.
  revert first b s. induction streams as [|evs streams IH]; intros first b s Hb; [constructor|].
  cbn [Watcher.runtimeEvents]. cbv zeta.
  set (b' := match evs with [] => b | _ => second end).
  assert (Hb' : second <= b' <= 30 * second) by (subst b'; destruct evs; lia).
  match goal with |- context [Watcher.runtimeEvents _ _ _ _ _ streams false ?x ?y] =>
    specialize (IH false x y ltac:(lia)); destruct (runtimeEvents order streams false x y) end.
  by constructor.
Qed.
End thms.

(** ** The inotify buffer *)

(** An event as the kernel writes it: watch descriptor, mask, cookie, the length
    of the name field, and the name padded with NULs. *)
Record inotify_event := mkInotify { in_wd : Z; in_mask : Z; in_cookie : Z; in_name : list byte; in_pad : nat }.

Definition event_bytes (e : inotify_event) : list byte :=
  let field := in_name e ++ replicate (in_pad e) nul in
  le_bytes 4 (in_wd e) ++ le_bytes 4 (in_mask e) ++ le_bytes 4 (in_cookie e) ++
  le_bytes 4 (zlen field) ++ field.

Definition event_ok (e : inotify_event) : Prop :=
  0 <= in_mask e < 2 ^ 32 /\ (nul ∉ in_name e) /\ zlen (in_name e) + Z.of_nat (in_pad e) < 2 ^ 32.

Lemma trim_nuls_pad s n : (nul ∉ s) -> trim_nuls (s ++ replicate n nul) = s.
Proof.
  intros Hs. assert (R : trim_nuls (replicate n nul) = []) by (induction n as [|n IH]; [done | cbn; by rewrite IH]).
  induction s as [|x s IH]; [done|]. apply not_elem_of_cons in Hs as [Hx Hs]. cbn. rewrite IH by done.
  destruct s; [by rewrite decide_False by congruence | done].
Qed.

Lemma slice_at {A} (a b c : list A) off n : off = zlen a -> n = zlen b -> slice off n (a ++ b ++ c) = b.
Proof.
  intros -> ->. unfold slice, zlen. rewrite !Nat2Z.id, drop_app_length. by rewrite take_app_length.
Qed.

(** The fields of an event at any place of the buffer. *)
Lemma event_at e pre rest :
  let field := in_name e ++ replicate (in_pad e) nul in
  let buf := pre ++ event_bytes e ++ rest in
  slice (zlen pre + 4) 4 buf = le_bytes 4 (in_mask e) /\
  slice (zlen pre + 12) 4 buf = le_bytes 4 (zlen field) /\
  slice (zlen pre + SizeofInotifyEvent) (zlen field) buf = field.
Proof.
  cbv zeta. unfold event_bytes, SizeofInotifyEvent. set (field := in_name e ++ _).
  rewrite <- !app_assoc. split_and!.
  - rewrite (app_assoc pre). apply slice_at; by rewrite ?zlen_app, !zlen_le_bytes.
  - rewrite (app_assoc pre), (app_assoc (pre ++ _)), (app_assoc ((pre ++ _) ++ _)).
    apply slice_at; rewrite ?zlen_app, !zlen_le_bytes; lia.
  - rewrite (app_assoc pre), (app_assoc (pre ++ _)), (app_assoc ((pre ++ _) ++ _)),
      (app_assoc (((pre ++ _) ++ _) ++ _)).
    apply slice_at; [|done]. rewrite !zlen_app, !zlen_le_bytes. lia.
Qed.

(** [n - off] is enough fuel: more changes nothing. *)
Lemma inotify_events_fuel fuel fuel' buf n off :
  (Z.to_nat (n - off) <= fuel)%nat -> (fuel <= fuel')%nat ->
  inotify_events fuel' buf n off = inotify_events fuel buf n off.
Proof.
  revert fuel' off. induction fuel as [|fuel IH]; intros [|fuel'] off F F'; try done; [| lia |].
  - cbn [inotify_events]. by rewrite (proj2 (Z.ltb_lt _ _)) by (unfold SizeofInotifyEvent; lia).
  - cbn [inotify_events]. destruct (n <? _); [done|]. destruct (zlen buf <? _); [done|].
    rewrite IH; [done | | lia]. pose proof (le_val_range (slice (off + 12) 4 buf)).
    unfold SizeofInotifyEvent. lia.
Qed.

(** C38: Reading a buffer: the loop takes out exactly the events the kernel wrote, in
    order, names without their padding, and never slices past the buffer. *)
Theorem inotify_roundtrip evs pre tail fuel :
  Forall event_ok evs -> (length (concat (map event_bytes evs)) <= fuel)%nat ->
  inotify_events fuel (pre ++ concat (map event_bytes evs) ++ tail)
    (zlen pre + zlen (concat (map event_bytes evs))) (zlen pre)
  = Some (map (fun e => (in_name e, in_mask e)) evs).
Proof.
  revert pre fuel. induction evs as [|e evs IH]; intros pre fuel H F.
  - cbn [map concat]. unfold zlen at 2. cbn [length].
    destruct fuel; cbn [inotify_events]; by rewrite (proj2 (Z.ltb_lt _ _)) by (unfold SizeofInotifyEvent; lia).
  - apply Forall_cons in H as [(Hm & Hn & Hl) H]. cbn [map concat] in *.
    set (rest := concat (map event_bytes evs) ++ tail).
    destruct (event_at e pre rest) as (S1 & S2 & S3). set (field := in_name e ++ replicate (in_pad e) nul) in *.
    assert (Lf : zlen field = zlen (in_name e) + Z.of_nat (in_pad e))
      by (unfold field; rewrite zlen_app; unfold zlen at 2; by rewrite length_replicate).
    assert (Le : zlen (event_bytes e) = SizeofInotifyEvent + zlen field)
      by (unfold event_bytes; fold field; rewrite !zlen_app, !zlen_le_bytes; unfold SizeofInotifyEvent; lia).
    pose proof (zlen_nonneg field). pose proof (zlen_nonneg (concat (map event_bytes evs))).
    assert (16 <= length (event_bytes e))%nat by (unfold zlen, SizeofInotifyEvent in *; lia).
    rewrite zlen_app, length_app in *. destruct fuel as [|fuel]; [lia|]. cbn [inotify_events].
    rewrite (proj2 (Z.ltb_ge _ _)) by lia. rewrite <- (app_assoc (event_bytes e)). fold rest.
    rewrite S1, S2, !le_val_u32, !u32_small by lia. rewrite S3.
    rewrite (trim_nuls_pad _ (in_pad e) Hn : trim_nuls field = in_name e).
    rewrite (proj2 (Z.ltb_ge _ _))
      by (rewrite !zlen_app, Le; pose proof (zlen_nonneg rest); lia).
    specialize (IH (pre ++ event_bytes e) fuel H ltac:(lia)).
    rewrite zlen_app, Le, <- app_assoc in IH. fold rest in IH.
    rewrite <- Z.add_assoc, Le, (Z.add_assoc (zlen pre)). by rewrite IH.
Qed.
