(* ===== verification/Loader.v ===== *)
(** * internal/loader/loader.go

    The userspace side of the BPF maps and the ring buffer: the operations that
    cilium/ebpf provides are the interface [UserMaps], with the laws of the kernel's
    hash map; [AddCgroup], [RemoveCgroup], [Stats] and the loop of [Events] are the
    code's.  [loader_cgroups] is the [CgroupMap] the watcher drives.

    [Load], [Close] and [Hooks] are in [Attach]. *)

From Stdlib Require Import ZArith Lia.
From Stdlib Require Import String.
From stdpp Require Import prelude list gmap.
From S2P Require Import Prelude CLayout Archs BpfKernel CommonH ProcessBpf Event Decode Wire BpfRun.
From S2P Require Import Runtime Watcher.

Local Open Scope Z_scope.

(** ** The library's map operations *)

Inductive delete_result := Deleted | ErrKeyNotExist | DeleteFailed.

Class UserMaps (K : Type) := {
  TargetCgroups_Put : Z -> Z -> K -> bool * K;
  TargetCgroups_Delete : Z -> K -> delete_result * K;
  DropCount_Lookup : Z -> K -> option (list Z);   (** one value per CPU *)
}.

Class UserMapsOk (K : Type) `{BpfMaps K, UserMaps K} : Prop := {
  Put_ok id v k id' : (TargetCgroups_Put id v k).1 = true ->
    target_lookup (TargetCgroups_Put id v k).2 id' = if decide (id' = id) then Some v else target_lookup k id';
  Put_fail id v k id' : (TargetCgroups_Put id v k).1 = false ->
    target_lookup (TargetCgroups_Put id v k).2 id' = target_lookup k id';
  Delete_ok id k id' : (TargetCgroups_Delete id k).1 = Deleted ->
    target_lookup (TargetCgroups_Delete id k).2 id' = if decide (id' = id) then None else target_lookup k id';
  Delete_absent id k id' : (TargetCgroups_Delete id k).1 = ErrKeyNotExist ->
    target_lookup k id = None /\
    target_lookup (TargetCgroups_Delete id k).2 id' = target_lookup k id';
  Delete_fail id k id' : (TargetCgroups_Delete id k).1 = DeleteFailed ->
    target_lookup (TargetCgroups_Delete id k).2 id' = target_lookup k id';
  (** the other maps are other objects *)
  Put_others id v k : rb_records (TargetCgroups_Put id v k).2 = rb_records k /\
    forall r, drop_lookup (TargetCgroups_Put id v k).2 r = drop_lookup k r;
  Delete_others id k : rb_records (TargetCgroups_Delete id k).2 = rb_records k /\
    forall r, drop_lookup (TargetCgroups_Delete id k).2 r = drop_lookup k r;
}.

Section cgroups.
Context {K : Type} `{HB : !BpfMaps K, HU : !UserMaps K}.

Definition l_AddCgroup (id : Z) (k : K) : bool * K := TargetCgroups_Put id 1 k.

Definition l_RemoveCgroup (id : Z) (k : K) : bool * K :=
  let '(r, k) := TargetCgroups_Delete id k in
  (match r with Deleted | ErrKeyNotExist => true | DeleteFailed => false end, k).

(** The kernel captures a cgroup when its programs would, in container mode. *)
#[export] Instance loader_cgroups : CgroupMap K := {|
  captures k id := should_capture false id k;
  AddCgroup := l_AddCgroup;
  RemoveCgroup := l_RemoveCgroup;
|}.

(** The maps implement the interface the watcher's theorems assume. *)
#[export] Instance loader_cgroups_ok `{!UserMapsOk K} : CgroupMapOk K.
Proof.
  split; cbn; intros id k id'; unfold should_capture, l_AddCgroup, l_RemoveCgroup.
  - intros E. rewrite Put_ok by done. case_decide as D; [by rewrite bool_decide_true | by rewrite bool_decide_false].
  - intros E. by rewrite Put_fail.
  - pose proof (Delete_ok id k id') as O. pose proof (Delete_absent id k id') as A.
    destruct (TargetCgroups_Delete id k) as [[] k']; cbn in *; intros E; [| |done].
    + rewrite O by done. case_decide as D; [by rewrite bool_decide_true | by rewrite bool_decide_false].
    + destruct (A eq_refl) as [A1 ->]. case_bool_decide as D; [|done]. subst. by rewrite A1.
  - pose proof (Delete_fail id k id') as F.
    destruct (TargetCgroups_Delete id k) as [[] k']; cbn in *; intros E; try done. by rewrite F.
Qed.
End cgroups.

(** ** Stats *)

Record Loader := mkLoader { l_boot : Z; decodeErrors : Z; l_err : bool }.

Record LoaderStats := mkLoaderStats { KernelRingbufFull : Z; DecodeErrors : Z }.

Definition Stats `{UserMaps K} (l : Loader) (k : K) : option LoaderStats :=
  match DropCount_Lookup DROP_RINGBUF_FULL k with
  | None => None
  | Some perCPU => Some (mkLoaderStats (fold_left (fun s v => u64 (s + v)) perCPU 0) (decodeErrors l))
  end.

(** ** Events *)

(** What a read of the ring buffer returns. *)
Inductive read_result := Record_ (raw : list byte) | ErrClosed | ReadFailed.

(** The goroutine of [Events]: [reads] are the results of its reads, each with
    whether the following send goes through ([ctx] may be done first).  The channel
    receives the events of the first result; its close is the end of the list. *)
Fixpoint Events (reads : list (read_result * bool)) (l : Loader) : list Event * Loader :=
  match reads with
  | [] => ([], l)
  | (ErrClosed, _) :: _ => ([], l)
  | (ReadFailed, _) :: _ => ([], mkLoader (l_boot l) (decodeErrors l) true)
  | (Record_ raw, sent) :: reads =>
      match decode raw (l_boot l) with
      | inr _ => Events reads (mkLoader (l_boot l) (u64 (decodeErrors l + 1)) (l_err l))
      | inl ev =>
          if sent then let '(evs, l) := Events reads l in (ev :: evs, l) else ([], l)
      end
  end.

(** ** Properties *)

(** The sum over CPUs, as one 64-bit counter. *)
Theorem Stats_sum `{UserMaps K} l (k : K) perCPU :
  DropCount_Lookup DROP_RINGBUF_FULL k = Some perCPU ->
  Stats l k = Some (mkLoaderStats (u64 (foldr Z.add 0 perCPU)) (decodeErrors l)).
Proof.
  intros E. unfold Stats. rewrite E. do 2 f_equal.
  assert (G : forall s vs, u64 (fold_left (fun s v => u64 (s + v)) vs s) = u64 (s + foldr Z.add 0 vs)).
  { intros s vs. revert s. induction vs as [|v vs IH]; intros s; cbn; [by rewrite Z.add_0_r|].
    rewrite IH, u64_add_l. f_equal. lia. }
  rewrite <- (Z.add_0_l (foldr _ _ _)), <- G. clear G E.
  assert (R : forall s, 0 <= s < 2 ^ 64 -> 0 <= fold_left (fun s v => u64 (s + v)) perCPU s < 2 ^ 64).
  { clear. induction perCPU as [|v vs IH]; intros s Hs; cbn; [done|]. apply IH, u64_range. }
  symmetry. apply u64_small, R. lia.
Qed.

(** [Events] with an open context and no read error delivers every record that
    decodes, in the order of the ring buffer, and counts every other one. *)
Theorem Events_spec raws l :
  0 <= decodeErrors l < 2 ^ 64 ->
  let ok raw := match decode raw (l_boot l) with inl ev => Some ev | inr _ => None end in
  Events (map (fun r => (Record_ r, true)) raws) l =
  (omap ok raws,
   mkLoader (l_boot l) (u64 (decodeErrors l + (zlen raws - zlen (omap ok raws)))) (l_err l)).
Proof.
  cbv zeta. destruct l as [boot n err]. cbn [l_boot decodeErrors l_err]. revert n.
  induction raws as [|raw raws IH]; intros n Hn.
  - cbn. by rewrite Z.add_0_r, u64_small.
  - cbn [map Events l_boot decodeErrors l_err omap list_omap].
    destruct (decode raw boot) as [ev|e].
    + rewrite IH by done. f_equal. f_equal. f_equal. rewrite !zlen_cons. lia.
    + rewrite IH by apply u64_range. f_equal. f_equal. rewrite zlen_cons, u64_add_l. f_equal. lia.
Qed.

(** Records that decode are delivered, and nothing is counted. *)
Lemma Events_decodes rs evs l : Forall2 (fun r ev => decode r (l_boot l) = inl ev) rs evs ->
  0 <= decodeErrors l < 2 ^ 64 -> Events (map (fun r => (Record_ r, true)) rs) l = (evs, l).
Proof.
  intros F Rl. rewrite Events_spec by done.
  assert (E : omap (fun raw => match decode raw (l_boot l) with inl ev => Some ev | inr _ => None end) rs = evs).
  { clear - F. induction F as [|r ev rs evs Hd _ IH]; [done|]. cbn. by rewrite Hd, IH. }
  rewrite E. f_equal. destruct l as [boot n err]. cbn in *. f_equal.
  unfold zlen. rewrite (Forall2_length _ _ _ F), Z.sub_diag, Z.add_0_r. by apply u64_small.
Qed.

(** Stopping: after the context is done or the buffer is closed nothing more is
    sent and no error is reported; a failed read is reported. *)
Theorem Events_stop evs rs l :
  Events ((ErrClosed, evs) :: rs) l = ([], l) /\
  l_err (Events ((ReadFailed, evs) :: rs) l).2 = true /\
  (forall raw ev, decode raw (l_boot l) = inl ev -> Events ((Record_ raw, false) :: rs) l = ([], l)).
Proof. split_and!; [done | done |]. intros raw ev E. cbn. by rewrite E. Qed.

(** ** End to end: from tracepoint hits to the events channel *)

Section pipeline.
Context `{Arch, !ArchOk} {K : Type} `{HM : !BpfMaps K, HMok : !BpfMapsOk K}.
Variable mode_host : bool.

(** Reading the records of a run from an empty buffer delivers the events of the
    submitted hits, in order, without a decode error; every reported hit is either
    among them or counted by the kernel as a drop. *)
Theorem run_delivers xs (k : K) v l :
  Forall (fun x => @BpfHelpersOk (hook_helpers x)) xs ->
  rb_records k = [] -> drop_lookup k 0 = Some v -> 0 <= v < 2 ^ 64 -> 0 <= decodeErrors l < 2 ^ 64 ->
  exists ys,
    sublist ys (filter (fun x => reported mode_host k x = true) xs) /\
    Events (map (fun r => (Record_ r, true)) (rb_records (run mode_host xs k))) l
    = (map (fun x => hook_event x (l_boot l)) ys, l) /\
    drop_lookup (run mode_host xs k) 0
    = Some (u64 (v + (zlen (filter (fun x => reported mode_host k x = true) xs) - zlen ys))).
Proof.
  intros Hx Hk Hv Rv Rl. destruct (run_accounts mode_host xs k v Hx Hv Rv) as (ys & rs & H1 & H2 & H3 & H4).
  exists ys. split_and!; [done | | done]. rewrite H2, Hk, app_nil_l. apply Events_decodes; [|done].
  apply Forall2_fmap_r. eapply Forall2_impl; [exact H3|]. intros r x Hd. apply Hd.
Qed.
End pipeline.

(** ** The concrete kernel *)

Module UserModel.
Import Model.

Definition set_targets (ts : gmap Z Z) (k : kstate) : kstate :=
  KState ts (drops k) (rb_free k) (rb_stale k) (records k).

(** A hash map refuses a new key when it is full. *)
#[global] Instance user_maps : UserMaps kstate := {|
  TargetCgroups_Put id v k :=
    if decide (is_Some (targets k !! id) \/ Z.of_nat (size (targets k)) < md_max_entries target_cgroups)
    then (true, set_targets (<[id := v]> (targets k)) k) else (false, k);
  TargetCgroups_Delete id k :=
    match targets k !! id with
    | Some _ => (Deleted, set_targets (delete id (targets k)) k)
    | None => (ErrKeyNotExist, k)
    end;
  DropCount_Lookup r k := if r =? 0 then Some (drops k) else None;
|}.

#[global] Instance user_maps_ok : UserMapsOk kstate.
Proof.
  split; cbn; intros *.
  - case_decide; [|done]. intros _. cbn. case_decide as D; [subst; by rewrite lookup_insert_eq|].
    by rewrite lookup_insert_ne.
  - by case_decide.
  - destruct (targets k !! id); [|done]. intros _. cbn.
    case_decide as D; [subst; by rewrite lookup_delete_eq | by rewrite lookup_delete_ne].
  - by destruct (targets k !! id) eqn:E.
  - by destruct (targets k !! id).
  - by case_decide.
  - by destruct (targets k !! id).
Qed.
End UserModel.
