(* ===== verification/Cpus.v ===== *)
(** * The programs on several CPUs at once

    [BpfRun] and [System] run each program as one atomic step.  On a machine the
    three programs run on all CPUs at once and only their map and ring buffer calls
    are atomic.  Here a program is its sequence of such calls ([should_capture], then
    [bpf_ringbuf_reserve], then either [bpf_ringbuf_submit] or [count_drop]'s load
    and store), and the calls of all CPUs, and those of user space, interleave in
    any order.

    A record is in the ring buffer from its reservation on, in order of reservation;
    the consumer reads up to the first record that is not submitted yet.  That, and
    one slot of [drop_count] per CPU, are the documented behaviour of the kernel's
    maps, here the interface [CpuMaps].  A CPU runs one program at a time: the
    scheduler tracepoints do not nest, and run without preemption.  What a program
    reads of its task is one view of the kernel, that of the hit. *)

From Stdlib Require Import ZArith Lia.
From Stdlib Require Import String.
From stdpp Require Import prelude list gmap.
From S2P Require Import Prelude CLayout Archs BpfKernel CommonH ProcessBpf Scenario Event Decode Wire BpfRun.
From S2P Require Import Runtime Watcher Loader.

Local Open Scope string_scope.
Local Open Scope list_scope.
Local Open Scope Z_scope.

(** ** The maps, seen from all CPUs *)

Abbreviation cpu := nat (only parsing).

Class CpuMaps (K : Type) := {
  cpu_target : K -> Z -> option Z;
  cpu_drop : K -> cpu -> Z -> option Z;
  cpu_drop_store : K -> cpu -> Z -> Z -> K;
  cpu_reserve : K -> Z -> option (nat * list byte) * K;   (** the record's place, and its memory *)
  cpu_submit : K -> nat -> list byte -> K;
  cpu_ring : K -> list (option (list byte));              (** [None]: reserved, not submitted *)
}.

Class CpuMapsOk (K : Type) `{CpuMaps K} : Prop := {
  cpu_reserve_some k n i b k' : cpu_reserve k n = (Some (i, b), k') ->
    zlen b = n /\ i = length (cpu_ring k) /\ cpu_ring k' = cpu_ring k ++ [None];
  cpu_reserve_none k n k' : cpu_reserve k n = (None, k') -> cpu_ring k' = cpu_ring k;
  cpu_reserve_drop k n c r : cpu_drop (cpu_reserve k n).2 c r = cpu_drop k c r;
  cpu_submit_ring k i b : cpu_ring (cpu_submit k i b) = <[i := Some b]> (cpu_ring k);
  cpu_submit_drop k i b c r : cpu_drop (cpu_submit k i b) c r = cpu_drop k c r;
  cpu_store_ring k c r v : cpu_ring (cpu_drop_store k c r v) = cpu_ring k;
  cpu_store_drop k c r v v0 c' : cpu_drop k c r = Some v0 ->
    cpu_drop (cpu_drop_store k c r v) c' r = if decide (c' = c) then Some v else cpu_drop k c' r;
}.

(** User space changes the target map and reads the counters of all CPUs. *)
Class CpuUserOk (K : Type) (ncpu : nat) `{CpuMaps K, UserMaps K} : Prop := {
  cpu_put_others id v k : cpu_ring (TargetCgroups_Put id v k).2 = cpu_ring k /\
    forall c r, cpu_drop (TargetCgroups_Put id v k).2 c r = cpu_drop k c r;
  cpu_delete_others id k : cpu_ring (TargetCgroups_Delete id k).2 = cpu_ring k /\
    forall c r, cpu_drop (TargetCgroups_Delete id k).2 c r = cpu_drop k c r;
  cpu_lookup_drops r k vs : DropCount_Lookup r k = Some vs ->
    map Some vs = map (fun c => cpu_drop k c r) (seq 0 ncpu);
}.

(** The records the consumer can read. *)
Fixpoint readable (ring : list (option (list byte))) : list (list byte) :=
  match ring with Some r :: ring => r :: readable ring | _ => [] end.

Lemma readable_lookup ring i r : readable ring !! i = Some r -> ring !! i = Some (Some r).
Proof.
  revert i. induction ring as [|[b|] ring IH]; intros i E; cbn in E; [done| |done].
  destruct i as [|i]; cbn in *; [congruence | by apply IH].
Qed.

Lemma readable_length ring : (length (readable ring) <= length ring)%nat.
Proof. induction ring as [|[b|] ring IH]; cbn; lia. Qed.

Lemma readable_all ring : (forall i, ring !! i <> Some None) -> length (readable ring) = length ring.
Proof.
  induction ring as [|[b|] ring IH]; intros N; cbn; [done| |by destruct (N 0%nat)].
  f_equal. apply IH. intros i. apply (N (S i)).
Qed.

Lemma readable_reserve ring : readable (ring ++ [None]) = readable ring.
Proof. induction ring as [|[b|] ring IH]; cbn; congruence. Qed.

Lemma readable_submit ring i b : ring !! i = Some None -> readable ring `prefix_of` readable (<[i := Some b]> ring).
Proof.
  revert i. induction ring as [|[r|] ring IH]; intros i E; cbn; [apply prefix_nil| |apply prefix_nil].
  destruct i as [|i]; [done|]. cbn. by apply prefix_cons, IH.
Qed.

(** What one CPU sees of the maps: a program submits the record it reserved, the
    last one as long as no other CPU interferes. *)
Definition cpu_maps `{CpuMaps K} (c : cpu) : BpfMaps K := {|
  target_lookup := cpu_target;
  drop_lookup k r := cpu_drop k c r;
  drop_store k r v := cpu_drop_store k c r v;
  ringbuf_reserve k n := let '(o, k) := cpu_reserve k n in (snd <$> o, k);
  ringbuf_submit k b := cpu_submit k (pred (length (cpu_ring k))) b;
  rb_records k := readable (cpu_ring k);
|}.

(** ** The programs, call by call *)

(** What a program is about to do. *)
Inductive pc :=
| Reserving (x : hook)                           (** [bpf_ringbuf_reserve] *)
| Dropping (x : hook)                            (** [count_drop]: the load of [*v] *)
| Counting (x : hook) (v : Z)                    (** its store of [*v + 1] *)
| Filling (x : hook) (i : nat) (b : list byte).  (** [bpf_ringbuf_submit], the record filled in *)

(** A CPU that runs no program is not in [pcs]. *)
Record cpus (K : Type) := mkCpus { ck : K; pcs : gmap cpu pc }.
Arguments mkCpus {K}.
Arguments ck {K}.
Arguments pcs {K}.

Inductive clabel :=
| Start (c : cpu) (x : hook)   (** a tracepoint fires on [c]: the program runs to its capture test *)
| Advance (c : cpu)            (** the next call of the program that runs on [c] *)
| Put (id : Z)                 (** user space *)
| Delete (id : Z).

Section cpus.
Context `{Arch, !ArchOk} {K : Type} `{HM : !CpuMaps K, HMok : !CpuMapsOk K, HU : !UserMaps K}.
Variables (mode_host : bool) (ncpu : nat).

(** The record of a hit, from the memory reserved for it. *)
Definition fill (x : hook) (e : list byte) : list byte :=
  match x with
  | ExecHook h ctx => exec_record ctx bpf_get_current_task_btf (task_cgroup_id bpf_get_current_task_btf) e
  | ForkHook h _ child => fork_record child (task_cgroup_id child) e
  | ExitHook h _ => exit_record bpf_get_current_task_btf (task_cgroup_id bpf_get_current_task_btf) e
  end.

(** The test a program starts with, on CPU [c]. *)
Definition tested (c : cpu) (k : K) (x : hook) : bool := @reported _ _ (cpu_maps c) mode_host k x.

Definition advance (c : cpu) (s : cpus K) : option (cpus K) :=
  match pcs s !! c with
  | None => None
  | Some (Reserving x) =>
      Some (match cpu_reserve (ck s) (record_size x) with
            | (Some (i, b), k) => mkCpus k (<[c := Filling x i b]> (pcs s))
            | (None, k) => mkCpus k (<[c := Dropping x]> (pcs s))
            end)
  | Some (Dropping x) =>
      Some (match cpu_drop (ck s) c DROP_RINGBUF_FULL with
            | Some v => mkCpus (ck s) (<[c := Counting x v]> (pcs s))
            | None => mkCpus (ck s) (delete c (pcs s))
            end)
  | Some (Counting x v) =>
      Some (mkCpus (cpu_drop_store (ck s) c DROP_RINGBUF_FULL (u64 (v + 1))) (delete c (pcs s)))
  | Some (Filling x i b) => Some (mkCpus (cpu_submit (ck s) i (fill x b)) (delete c (pcs s)))
  end.

Definition cstep (l : clabel) (s : cpus K) : option (cpus K) :=
  match l with
  | Start c x =>
      match pcs s !! c with
      | None => Some (if tested c (ck s) x then mkCpus (ck s) (<[c := Reserving x]> (pcs s)) else s)
      | Some _ => None
      end
  | Advance c => advance c s
  | Put id => Some (mkCpus (TargetCgroups_Put id 1 (ck s)).2 (pcs s))
  | Delete id => Some (mkCpus (TargetCgroups_Delete id (ck s)).2 (pcs s))
  end.

(** The hits found in scope, those that got a record, and those counted as drops
    (with the CPU) in a step. *)
Definition found (l : clabel) (s : cpus K) : list hook :=
  match l with Start c x => if tested c (ck s) x then [x] else [] | _ => [] end.
Definition got (l : clabel) (s : cpus K) : list hook :=
  match l with
  | Advance c => match pcs s !! c with
                 | Some (Reserving x) =>
                     match (cpu_reserve (ck s) (record_size x)).1 with Some _ => [x] | None => [] end
                 | _ => []
                 end
  | _ => []
  end.
Definition counted (l : clabel) (s : cpus K) : list (cpu * hook) :=
  match l with
  | Advance c => match pcs s !! c with Some (Counting x _) => [(c, x)] | _ => [] end
  | _ => []
  end.

(** A run, with what was found, recorded and counted in it. *)
Inductive crun : list clabel -> list hook -> list hook -> list (cpu * hook) -> cpus K -> cpus K -> Prop :=
| crun_nil s : crun [] [] [] [] s s
| crun_step l ls fs gs ds s s1 s2 :
    match l with Start c x => (c < ncpu)%nat /\ @BpfHelpersOk (hook_helpers x) | _ => True end ->
    cstep l s = Some s1 -> crun ls fs gs ds s1 s2 ->
    crun (l :: ls) (found l s ++ fs) (got l s ++ gs) (counted l s ++ ds) s s2.

Fixpoint cplay (ls : list clabel) (s : cpus K) : option (cpus K) :=
  match ls with [] => Some s | l :: ls => s ← cstep l s; cplay ls s end.

(** What a run yields step by step. *)
Fixpoint gather {A} (f : clabel -> cpus K -> list A) (ls : list clabel) (s : cpus K) : list A :=
  match ls with
  | [] => []
  | l :: ls => f l s ++ match cstep l s with Some s => gather f ls s | None => [] end
  end.

Lemma cplay_run ls s s' :
  Forall (fun l => match l with Start c x => (c < ncpu)%nat /\ @BpfHelpersOk (hook_helpers x) | _ => True end) ls ->
  cplay ls s = Some s' -> crun ls (gather found ls s) (gather got ls s) (gather counted ls s) s s'.
Proof.
  intros F. revert s. induction F as [|l ls Hl F IH]; cbn; intros s E.
  - injection E as <-. apply crun_nil.
  - destruct (cstep l s) as [s1|] eqn:S; [|done]. by apply (crun_step l _ _ _ _ s s1); [..|apply IH].
Qed.

(** ** One CPU alone *)

(** The whole program in terms of its calls. *)
Lemma fire_calls (c : cpu) x k :
  @fire _ _ (cpu_maps c) mode_host x k =
  (0, if tested c k x then
        match cpu_reserve k (record_size x) with
        | (Some (i, b), k) => cpu_submit k (pred (length (cpu_ring k))) (fill x b)
        | (None, k) => @count_drop _ (cpu_maps c) DROP_RINGBUF_FULL k
        end
      else k).
Proof.
  unfold tested. destruct x as [h ctx|h parent child|h ctx]; cbn [fire reported record_size];
    [unfold handle_exec | unfold handle_fork | unfold handle_exit];
    repeat match goal with |- context [core_read ?s ?t ?p =? ?v] => destruct (core_read s t p =? v) end;
    cbn [negb andb]; try done;
    match goal with |- context [should_capture ?m ?i ?k] => destruct (should_capture m i k) end;
    cbn [negb]; try done;
    cbn [cpu_maps ringbuf_reserve]; by destruct (cpu_reserve _ _) as [[[i b]|] k1].
Qed.

(** A program whose calls nothing interrupts does what the atomic one does. *)
Lemma uninterrupted c x s : pcs s !! c = None -> is_Some (cpu_drop (ck s) c DROP_RINGBUF_FULL) ->
  exists n, (n <= 3)%nat /\
    cplay (Start c x :: replicate n (Advance c)) s =
    Some (mkCpus (@fire _ _ (cpu_maps c) mode_host x (ck s)).2 (pcs s)).
Proof.
  destruct s as [k m]. cbn [pcs ck]. intros Hc [v Hv]. rewrite fire_calls. cbn [snd cplay cstep pcs ck].
  rewrite Hc. cbn [mbind option_bind]. destruct (tested c k x); [|by exists 0%nat; split; [lia|]].
  pose proof (cpu_reserve_drop k (record_size x) c DROP_RINGBUF_FULL) as Hd.
  destruct (cpu_reserve k (record_size x)) as [[[i b]|] k1] eqn:R; cbn [snd] in Hd.
  - exists 2%nat. split; [lia|]. cbn [replicate cplay cstep]. unfold advance. cbn [pcs ck].
    rewrite lookup_insert_eq, R. cbn [mbind option_bind pcs ck]. rewrite lookup_insert_eq. cbn [mbind option_bind].
    destruct (cpu_reserve_some k _ i b k1 R) as (_ & -> & ->). rewrite length_app. cbn [length].
    rewrite Nat.add_1_r. cbn [pred]. do 2 f_equal. by rewrite !delete_insert_eq, delete_id.
  - exists 3%nat. split; [lia|]. cbn [replicate cplay cstep]. unfold advance. cbn [pcs ck].
    rewrite lookup_insert_eq, R. cbn [mbind option_bind pcs ck]. rewrite lookup_insert_eq, Hd, Hv. cbn [mbind option_bind pcs ck].
    rewrite lookup_insert_eq. cbn [mbind option_bind]. unfold count_drop. cbn [cpu_maps drop_lookup drop_store].
    rewrite Hd, Hv. do 2 f_equal. by rewrite !delete_insert_eq, delete_id.
Qed.

(** ** Accounting *)

(** A hit that has passed its test can be decoded from its record. *)
Definition proper (x : hook) : Prop :=
  @BpfHelpersOk (hook_helpers x) /\
  match x with
  | ForkHook h _ child => core_read "struct task_struct" child [["pid"]] = core_read "struct task_struct" child [["tgid"]]
  | _ => True
  end.

Lemma tested_proper c k x : @BpfHelpersOk (hook_helpers x) -> tested c k x = true -> proper x.
Proof.
  intros Hok T. split; [done|]. destruct x as [h ctx|h parent child|h ctx]; [done | | done].
  unfold tested in T. cbn [reported] in T. apply andb_true_iff in T as [T _]. by apply Z.eqb_eq.
Qed.

Definition decodes (r : list byte) (x : hook) : Prop := forall boot, decode r boot = inl (hook_event x boot).

Lemma fill_decodes x b : proper x -> zlen b = record_size x -> decodes (fill x b) x.
Proof.
  intros [Hok P] L boot. destruct x as [h ctx|h parent child|h ctx]; cbn in *.
  - by apply exec_record_decodes.
  - by apply fork_record_decodes.
  - by apply exit_record_decodes.
Qed.

Definition pc_hook (p : pc) : hook :=
  match p with Reserving x | Dropping x | Counting x _ | Filling x _ _ => x end.

(** The hit of a program that has neither a record nor its drop counted. *)
Definition undecided (p : pc) : list hook :=
  match p with Filling _ _ _ => [] | _ => [pc_hook p] end.

Definition pending_of (m : gmap cpu pc) : list hook := concat (map (fun p => undecided p.2) (map_to_list m)).
Definition pending (s : cpus K) : list hook := pending_of (pcs s).

Lemma pending_insert m c p : m !! c = None -> pending_of (<[c := p]> m) ≡ₚ undecided p ++ pending_of m.
Proof. intros Hm. unfold pending_of. by rewrite map_to_list_insert. Qed.

Lemma pending_delete m c p : m !! c = Some p -> pending_of m ≡ₚ undecided p ++ pending_of (delete c m).
Proof.
  intros Hm. rewrite <- (insert_delete_id m c p Hm) at 1. apply pending_insert, lookup_delete_eq.
Qed.

Lemma pending_replace m c p p' : m !! c = Some p -> undecided p' = undecided p ->
  pending_of (<[c := p']> m) ≡ₚ pending_of m.
Proof.
  intros Hm E. rewrite <- insert_delete_eq, pending_insert, E by apply lookup_delete_eq. by rewrite <- pending_delete.
Qed.

Definition drops_on (c : cpu) (ds : list (cpu * hook)) : Z := zlen (filter (fun d => d.1 = c) ds).

(** What is true between any two calls. *)
Record account (v0 : cpu -> Z) (fs gs : list hook) (ds : list (cpu * hook)) (s : cpus K) : Prop := {
  a_found : fs ≡ₚ gs ++ map snd ds ++ pending s;
  a_length : length (cpu_ring (ck s)) = length gs;
  a_ring i x r : gs !! i = Some x -> cpu_ring (ck s) !! i = Some (Some r) -> decodes r x;
  a_busy i : cpu_ring (ck s) !! i = Some None -> exists c x b, pcs s !! c = Some (Filling x i b);
  a_fill c x i b : pcs s !! c = Some (Filling x i b) ->
    cpu_ring (ck s) !! i = Some None /\ gs !! i = Some x /\ zlen b = record_size x;
  a_alone c c' x x' i b b' : pcs s !! c = Some (Filling x i b) -> pcs s !! c' = Some (Filling x' i b') -> c = c';
  a_drop c : (c < ncpu)%nat -> cpu_drop (ck s) c DROP_RINGBUF_FULL = Some (u64 (v0 c + drops_on c ds));
  a_count c x v : pcs s !! c = Some (Counting x v) -> cpu_drop (ck s) c DROP_RINGBUF_FULL = Some v;
  a_proper c p : pcs s !! c = Some p -> (c < ncpu)%nat /\ proper (pc_hook p);
  a_cpus : Forall (fun d => (d.1 < ncpu)%nat) ds;
}.

Lemma account_user v0 fs gs ds k' s : account v0 fs gs ds s ->
  cpu_ring k' = cpu_ring (ck s) -> (forall c r, cpu_drop k' c r = cpu_drop (ck s) c r) ->
  account v0 fs gs ds (mkCpus k' (pcs s)).
Proof. intros [] R D. split; cbn [ck pcs]; rewrite ?R; try setoid_rewrite D; done. Qed.

(** A step that keeps the ring buffer and the counters, and is not to or from
    [Filling]. *)
Lemma account_local v0 fs fs' gs ds s k' c p : account v0 fs gs ds s ->
  cpu_ring k' = cpu_ring (ck s) -> (forall c r, cpu_drop k' c r = cpu_drop (ck s) c r) ->
  match pcs s !! c with Some (Filling _ _ _) => False | _ => True end ->
  match p with Filling _ _ _ => False | Counting _ v => cpu_drop (ck s) c DROP_RINGBUF_FULL = Some v | _ => True end ->
  (c < ncpu)%nat -> proper (pc_hook p) ->
  fs' ≡ₚ gs ++ map snd ds ++ pending_of (<[c := p]> (pcs s)) ->
  account v0 fs' gs ds (mkCpus k' (<[c := p]> (pcs s))).
Proof.
  intros [] R D Hc Hp Lc Pp F.
  split; cbn [ck pcs]; rewrite ?R; try setoid_rewrite D; try done.
  - intros i Hi. destruct (a_busy0 i Hi) as (c' & x & b & E). exists c', x, b.
    rewrite lookup_insert_ne; [done|]. intros ->. by rewrite E in Hc.
  - intros c' x i b. rewrite lookup_insert_Some. intros [[_ ->]|[_ E]]; [done | by apply a_fill0 in E].
  - intros c1 c2 x x' i b b'. rewrite !lookup_insert_Some.
    intros [[_ ->]|[_ E1]] [[_ E2]|[_ E2]]; subst; try done. by eapply a_alone0.
  - intros c' x v. rewrite lookup_insert_Some. intros [[-> ->]|[_ E]]; [done | by eapply a_count0].
  - intros c' p'. rewrite lookup_insert_Some. intros [[<- <-]|[_ E]]; [done | by eapply a_proper0].
Qed.

(** A reservation that succeeds. *)
Lemma account_reserve v0 fs gs ds s c x i b k' : account v0 fs gs ds s ->
  pcs s !! c = Some (Reserving x) -> cpu_reserve (ck s) (record_size x) = (Some (i, b), k') ->
  account v0 fs (gs ++ [x]) ds (mkCpus k' (<[c := Filling x i b]> (pcs s))).
Proof.
  intros [] Hc E. destruct (cpu_reserve_some _ _ _ _ _ E) as (Lb & -> & R).
  assert (D : forall c' r, cpu_drop k' c' r = cpu_drop (ck s) c' r).
  { intros c' r. pose proof (cpu_reserve_drop (ck s) (record_size x) c' r) as D. by rewrite E in D. }
  assert (Old : forall c' x' i' b', <[c := Filling x (length (cpu_ring (ck s))) b]> (pcs s) !! c' = Some (Filling x' i' b') ->
    c' = c /\ x' = x /\ i' = length (cpu_ring (ck s)) /\ b' = b \/
    c' <> c /\ pcs s !! c' = Some (Filling x' i' b') /\ (i' < length (cpu_ring (ck s)))%nat).
  { intros c' x' i' b'. rewrite lookup_insert_Some. intros [[-> [= -> -> ->]]|[N E']]; [by left|].
    right. split_and!; [done..|]. destruct (a_fill0 _ _ _ _ E') as [Hi _]. by apply lookup_lt_Some in Hi. }
  split; cbn [ck pcs]; try setoid_rewrite D; try done.
  - rewrite a_found0. unfold pending. cbn [pcs]. rewrite (pending_delete _ _ _ Hc).
    rewrite <- insert_delete_eq, (pending_insert _ c) by apply lookup_delete_eq. cbn [undecided pc_hook].
    rewrite app_nil_l. solve_Permutation.
  - rewrite R, !length_app. cbn. lia.
  - rewrite R. intros i y r Hy Hr. apply lookup_app_Some in Hy as [Hy|[Hg Hy]].
    + apply (a_ring0 i y r Hy). rewrite lookup_app_l in Hr; [done|]. rewrite a_length0. by apply lookup_lt_Some in Hy.
    + exfalso. apply lookup_app_Some in Hr as [Hr|[_ Hr]].
      * apply lookup_lt_Some in Hr. apply list_lookup_singleton_Some in Hy as [Hy _]. lia.
      * by apply list_lookup_singleton_Some in Hr as [_ Hr].
  - intros i Hi. rewrite R in Hi. apply lookup_app_Some in Hi as [Hi|[Hl Hi]].
    + destruct (a_busy0 i Hi) as (c' & x' & b' & E'). exists c', x', b'. rewrite lookup_insert_ne; [done|]. congruence.
    + apply list_lookup_singleton_Some in Hi as [Hi _]. exists c, x, b. rewrite lookup_insert_eq.
      repeat f_equal. lia.
  - intros c' x' i' b' E'. apply Old in E' as [(-> & -> & -> & ->)|(_ & E' & Hl)].
    + split_and!; [by rewrite R, list_lookup_middle | by rewrite list_lookup_middle by (by rewrite a_length0) | done].
    + destruct (a_fill0 _ _ _ _ E') as (E1 & E2 & E3). rewrite R, lookup_app_l by done.
      split_and!; [done | by apply lookup_app_l_Some | done].
  - intros c1 c2 x1 x2 j b1 b2 E1 E2.
    apply Old in E1 as [(-> & -> & -> & ->)|(_ & E1 & L1)]; apply Old in E2 as [(-> & -> & Ej & ->)|(_ & E2 & L2)];
      try done; try lia. by eapply a_alone0.
  - intros c' x' v. rewrite lookup_insert_Some. intros [[_ [=]]|[_ E']]. by eapply a_count0.
  - intros c' p'. rewrite lookup_insert_Some. intros [[-> <-]|[_ E']]; [apply (a_proper0 c' _ Hc) | by eapply a_proper0].
Qed.
(** The end of a program with a record. *)
Lemma account_submit v0 fs gs ds s c x i b : account v0 fs gs ds s ->
  pcs s !! c = Some (Filling x i b) ->
  account v0 fs gs ds (mkCpus (cpu_submit (ck s) i (fill x b)) (delete c (pcs s))).
Proof.
  intros [] Hc. destruct (a_fill0 _ _ _ _ Hc) as (Hi & Hg & Lb).
  assert (Hl : (i < length (cpu_ring (ck s)))%nat) by (by apply lookup_lt_Some in Hi).
  split; cbn [ck pcs]; rewrite ?cpu_submit_ring; try setoid_rewrite cpu_submit_drop; try done.
  - rewrite a_found0. unfold pending. cbn [pcs]. by rewrite (pending_delete _ _ _ Hc).
  - by rewrite length_insert.
  - intros j y r Hy. rewrite list_lookup_insert_Some. intros [(-> & [= <-] & _)|[N Hr]]; [|by eapply a_ring0].
    rewrite Hg in Hy. injection Hy as <-. apply fill_decodes; [apply (a_proper0 _ _ Hc) | done].
  - intros j. rewrite list_lookup_insert_Some. intros [(_ & [=] & _)|[N Hj]].
    destruct (a_busy0 j Hj) as (c' & y & b' & E). exists c', y, b'. rewrite lookup_delete_ne; [done|]. congruence.
  - intros c' y j b'. rewrite lookup_delete_Some. intros [N E]. destruct (a_fill0 _ _ _ _ E) as (Hj & Hgj & Lj).
    rewrite list_lookup_insert_ne; [done|]. intros <-. apply N. by eapply a_alone0.
  - intros c1 c2 x1 x2 j b1 b2. rewrite !lookup_delete_Some. intros [_ E1] [_ E2]. by eapply a_alone0.
  - intros c' y v. rewrite lookup_delete_Some. intros [_ E]. by eapply a_count0.
  - intros c' p. rewrite lookup_delete_Some. intros [_ E]. by eapply a_proper0.
Qed.

Lemma drops_on_snoc c c' x ds : drops_on c' (ds ++ [(c, x)]) = drops_on c' ds + if decide (c' = c) then 1 else 0.
Proof.
  unfold drops_on. rewrite filter_app, zlen_app. f_equal. rewrite filter_cons. cbn [fst filter].
  repeat case_decide; subst; done.
Qed.

(** The end of a program without one: its CPU's slot, which no other CPU writes, has
    not changed since the load. *)
Lemma account_store v0 fs gs ds s c x v : account v0 fs gs ds s ->
  pcs s !! c = Some (Counting x v) ->
  account v0 fs gs (ds ++ [(c, x)])
    (mkCpus (cpu_drop_store (ck s) c DROP_RINGBUF_FULL (u64 (v + 1))) (delete c (pcs s))).
Proof.
  intros [] Hc. pose proof (a_count0 _ _ _ Hc) as Hv.
  split; cbn [ck pcs]; rewrite ?cpu_store_ring; try done.
  - rewrite a_found0. unfold pending. cbn [pcs]. rewrite (pending_delete _ _ _ Hc), map_app.
    cbn [undecided pc_hook map snd]. solve_Permutation.
  - intros j Hj. destruct (a_busy0 j Hj) as (c' & y & b' & E). exists c', y, b'. rewrite lookup_delete_ne; [done|]. congruence.
  - intros c' y j b'. rewrite lookup_delete_Some. intros [N E]. by apply a_fill0 in E.
  - intros c1 c2 x1 x2 j b1 b2. rewrite !lookup_delete_Some. intros [_ E1] [_ E2]. by eapply a_alone0.
  - intros c' L'. rewrite (cpu_store_drop _ _ _ _ _ _ Hv), drops_on_snoc. case_decide as D; [|rewrite Z.add_0_r; by apply a_drop0].
    subst. rewrite a_drop0 in Hv by done. injection Hv as <-. rewrite u64_add_l. do 2 f_equal. lia.
  - intros c' y w. rewrite lookup_delete_Some, (cpu_store_drop _ _ _ _ _ _ Hv). intros [N E].
    rewrite decide_False by done. by eapply a_count0.
  - intros c' p. rewrite lookup_delete_Some. intros [_ E]. by eapply a_proper0.
  - apply Forall_app. split; [done|]. apply Forall_singleton, (a_proper0 _ _ Hc).
Qed.

Context `{HUok : !CpuUserOk K ncpu}.

Lemma account_step v0 fs gs ds l s s' : 
  match l with Start c x => (c < ncpu)%nat /\ @BpfHelpersOk (hook_helpers x) | _ => True end ->
  cstep l s = Some s' -> account v0 fs gs ds s ->
  account v0 (fs ++ found l s) (gs ++ got l s) (ds ++ counted l s) s'.
Proof.
  intros Hok E A. destruct l as [c x|c|id|id]; cbn [cstep] in E; cbn [found got counted].
  - destruct (pcs s !! c) eqn:Hc; [done|]. injection E as <-. rewrite !app_nil_r.
    destruct (tested c (ck s) x) eqn:T; [|by rewrite app_nil_r].
    eapply account_local; try done; [by rewrite Hc | tauto | apply (tested_proper c (ck s)); tauto |].
    rewrite pending_insert by done. rewrite (a_found _ _ _ _ _ A). cbn [undecided pc_hook]. unfold pending. solve_Permutation.
  - unfold advance in E. rewrite app_nil_r. destruct (pcs s !! c) as [[x|x|x v|x i b]|] eqn:Hc; [..|done].
    + rewrite app_nil_r. destruct (cpu_reserve (ck s) (record_size x)) as [[[i b]|] k'] eqn:R; injection E as <-; cbn [fst].
      * by eapply account_reserve.
      * rewrite app_nil_r. eapply account_local; try done.
        -- by eapply cpu_reserve_none.
        -- intros c' r. pose proof (cpu_reserve_drop (ck s) (record_size x) c' r) as D. by rewrite R in D.
        -- by rewrite Hc.
        -- apply (a_proper _ _ _ _ _ A c _ Hc).
        -- apply (a_proper _ _ _ _ _ A c _ Hc).
        -- by rewrite (pending_replace _ _ _ _ Hc), (a_found _ _ _ _ _ A).
    + rewrite !app_nil_r. rewrite (a_drop _ _ _ _ _ A c) in E by apply (a_proper _ _ _ _ _ A c _ Hc). injection E as <-.
      eapply account_local; try done.
      * by rewrite Hc.
      * apply (a_drop _ _ _ _ _ A c), (a_proper _ _ _ _ _ A c _ Hc).
      * apply (a_proper _ _ _ _ _ A c _ Hc).
      * apply (a_proper _ _ _ _ _ A c _ Hc).
      * by rewrite (pending_replace _ _ _ _ Hc), (a_found _ _ _ _ _ A).
    + rewrite app_nil_r. injection E as <-. by apply account_store.
    + rewrite !app_nil_r. injection E as <-. by apply account_submit.
  - injection E as <-. rewrite !app_nil_r. destruct (cpu_put_others id 1 (ck s)) as [R D]. by apply account_user.
  - injection E as <-. rewrite !app_nil_r. destruct (cpu_delete_others id (ck s)) as [R D]. by apply account_user.
Qed.

Lemma account_run v0 ls fs gs ds s s' : crun ls fs gs ds s s' -> forall fs0 gs0 ds0,
  account v0 fs0 gs0 ds0 s -> account v0 (fs0 ++ fs) (gs0 ++ gs) (ds0 ++ ds) s'.
Proof.
  induction 1 as [s|l ls fs gs ds s s1 s2 Hok E R IH]; intros fs0 gs0 ds0 A; [by rewrite !app_nil_r|].
  rewrite !app_assoc. by eapply IH, account_step.
Qed.

(** No program runs. *)
Definition idle (k : K) : cpus K := mkCpus k ∅.

Lemma account_idle v0 k : cpu_ring k = [] -> (forall c, (c < ncpu)%nat -> cpu_drop k c DROP_RINGBUF_FULL = Some (u64 (v0 c))) ->
  account v0 [] [] [] (idle k).
Proof.
  intros R D. split; cbn [idle ck pcs]; rewrite ?R; try done.
  intros c L. rewrite D by done. unfold drops_on. cbn. by rewrite Z.add_0_r.
Qed.

Lemma account_start v0 ls fs gs ds k s : crun ls fs gs ds (idle k) s ->
  cpu_ring k = [] -> (forall c, (c < ncpu)%nat -> cpu_drop k c DROP_RINGBUF_FULL = Some (u64 (v0 c))) ->
  account v0 fs gs ds s.
Proof. intros R E D. by apply (account_run v0 _ _ _ _ _ _ R [] [] []), account_idle. Qed.

(** The records that can be read are those of the first hits recorded. *)
Lemma account_readable v0 fs gs ds s : account v0 fs gs ds s ->
  Forall2 decodes (readable (cpu_ring (ck s))) (take (length (readable (cpu_ring (ck s)))) gs).
Proof.
  intros A. pose proof (readable_length (cpu_ring (ck s))) as L. rewrite (a_length _ _ _ _ _ A) in L.
  apply Forall2_same_length_lookup. split; [rewrite length_take; lia|].
  intros i r x Hr Hx. apply lookup_take_Some in Hx as [Hx _].
  eapply (a_ring _ _ _ _ _ A i x r Hx). by apply readable_lookup.
Qed.

(** ** Properties *)

(** C4: Whatever the interleaving of the CPUs and of user space, a hit in scope gets a
    record, is counted as a drop, or is that of a program still running; the loop of
    [Events] delivers the hits that got a record, each once, decoded, in the order of
    reservation, up to the first record being filled in: all of them when no program
    runs. *)
Theorem cpus_deliver ls fs gs ds k s v0 l :
  crun ls fs gs ds (idle k) s ->
  cpu_ring k = [] -> (forall c, (c < ncpu)%nat -> cpu_drop k c DROP_RINGBUF_FULL = Some (u64 (v0 c))) ->
  0 <= decodeErrors l < 2 ^ 64 ->
  fs ≡ₚ gs ++ map snd ds ++ pending s /\
  exists n, (n <= length gs)%nat /\ (pcs s = ∅ -> n = length gs) /\
    Events (map (fun r => (Record_ r, true)) (readable (cpu_ring (ck s)))) l =
    (map (fun x => hook_event x (l_boot l)) (take n gs), l).
Proof.
  intros R E D Rl. pose proof (account_start v0 _ _ _ _ _ _ R E D) as A. split; [apply (a_found _ _ _ _ _ A)|].
  exists (length (readable (cpu_ring (ck s)))). split_and!.
  - rewrite <- (a_length _ _ _ _ _ A). apply readable_length.
  - intros Hs. rewrite <- (a_length _ _ _ _ _ A). apply readable_all. intros i Hi.
    destruct (a_busy _ _ _ _ _ A i Hi) as (c & x & b & F). by rewrite Hs in F.
  - apply Events_decodes; [|done]. apply Forall2_fmap_r. eapply Forall2_impl; [by eapply account_readable|].
    intros r x Hd. apply Hd.
Qed.

Lemma step_grows v0 fs gs ds l s s' : cstep l s = Some s' -> account v0 fs gs ds s ->
  readable (cpu_ring (ck s)) `prefix_of` readable (cpu_ring (ck s')).
Proof.
  intros E A. destruct l as [c x|c|id|id]; cbn [cstep] in E.
  - destruct (pcs s !! c); [done|]. injection E as <-. by destruct (tested c (ck s) x).
  - unfold advance in E. destruct (pcs s !! c) as [[x|x|x v|x i b]|] eqn:Hc; [..|done].
    + destruct (cpu_reserve (ck s) (record_size x)) as [[[i b]|] k'] eqn:R; injection E as <-; cbn [ck].
      * destruct (cpu_reserve_some _ _ _ _ _ R) as (_ & _ & ->). by rewrite readable_reserve.
      * by rewrite (cpu_reserve_none _ _ _ R).
    + by destruct (cpu_drop (ck s) c DROP_RINGBUF_FULL); injection E as <-.
    + injection E as <-. cbn [ck]. by rewrite cpu_store_ring.
    + injection E as <-. cbn [ck]. rewrite cpu_submit_ring. apply readable_submit.
      apply (a_fill _ _ _ _ _ A _ _ _ _ Hc).
  - injection E as <-. cbn [ck]. by destruct (cpu_put_others id 1 (ck s)) as [-> _].
  - injection E as <-. cbn [ck]. by destruct (cpu_delete_others id (ck s)) as [-> _].
Qed.

Lemma run_grows v0 ls fs gs ds s s' : crun ls fs gs ds s s' -> forall fs0 gs0 ds0, account v0 fs0 gs0 ds0 s ->
  readable (cpu_ring (ck s)) `prefix_of` readable (cpu_ring (ck s')).
Proof.
  induction 1 as [s|l ls fs gs ds s s1 s2 Hok E R IH]; intros fs0 gs0 ds0 A; [done|].
  etrans; [by eapply step_grows|]. by eapply IH, account_step.
Qed.

(** C21: A consumer that reads at one moment and again later finds after the records it
    has read only new ones, and gets from them the next hits in the order of
    reservation: it sees no record twice, misses none, and sees none half filled. *)
Theorem cpus_read_in_order ls1 fs1 gs1 ds1 ls2 fs2 gs2 ds2 k s1 s2 v0 l :
  crun ls1 fs1 gs1 ds1 (idle k) s1 -> crun ls2 fs2 gs2 ds2 s1 s2 ->
  cpu_ring k = [] -> (forall c, (c < ncpu)%nat -> cpu_drop k c DROP_RINGBUF_FULL = Some (u64 (v0 c))) ->
  0 <= decodeErrors l < 2 ^ 64 ->
  exists new n1 n2, (n1 <= length gs1)%nat /\ (n2 <= length (gs1 ++ gs2))%nat /\
    readable (cpu_ring (ck s2)) = readable (cpu_ring (ck s1)) ++ new /\
    Events (map (fun r => (Record_ r, true)) (readable (cpu_ring (ck s1)))) l =
    (map (fun x => hook_event x (l_boot l)) (take n1 (gs1 ++ gs2)), l) /\
    Events (map (fun r => (Record_ r, true)) new) l =
    (map (fun x => hook_event x (l_boot l)) (drop n1 (take n2 (gs1 ++ gs2))), l).
Proof.
  intros R1 R2 E D Rl. pose proof (account_start v0 _ _ _ _ _ _ R1 E D) as A1.
  pose proof (account_run v0 _ _ _ _ _ _ R2 _ _ _ A1) as A2.
  destruct (run_grows v0 _ _ _ _ _ _ R2 _ _ _ A1) as [new Hnew].
  pose proof (account_readable _ _ _ _ _ A1) as F1. pose proof (account_readable _ _ _ _ _ A2) as F2.
  pose proof (readable_length (cpu_ring (ck s1))) as L1. rewrite (a_length _ _ _ _ _ A1) in L1.
  pose proof (readable_length (cpu_ring (ck s2))) as L2. rewrite (a_length _ _ _ _ _ A2) in L2.
  exists new, (length (readable (cpu_ring (ck s1)))), (length (readable (cpu_ring (ck s2)))). split_and!; [done..| |].
  - apply Events_decodes; [|done]. apply Forall2_fmap_r. rewrite take_app_le by done.
    eapply Forall2_impl; [exact F1|]. intros r x Hd. apply Hd.
  - apply Events_decodes; [|done]. apply Forall2_fmap_r.
    apply (Forall2_drop _ _ _ (length (readable (cpu_ring (ck s1))))) in F2.
    rewrite Hnew in F2 at 1. rewrite drop_app_length in F2. eapply Forall2_impl; [exact F2|]. intros r x Hd. apply Hd.
Qed.

Lemma sum_u64 (f : nat -> Z) cs : u64 (foldr Z.add 0 (map (fun c => u64 (f c)) cs)) = u64 (foldr Z.add 0 (map f cs)).
Proof.
  induction cs as [|c cs IH]; [done|]. cbn. rewrite u64_add_l, Z.add_comm, <- u64_add_l, IH, u64_add_l.
  f_equal. lia.
Qed.

Lemma sum_one c n a : foldr Z.add 0 (map (fun c' => if decide (c' = c) then 1 else 0) (seq a n))
  = if decide (a <= c < a + n)%nat then 1 else 0.
Proof.
  revert a. induction n as [|n IH]; intros a; cbn; [by rewrite decide_False by lia|]. rewrite IH.
  repeat case_decide; lia.
Qed.

Lemma sum_add (f g : nat -> Z) cs :
  foldr Z.add 0 (map (fun c => f c + g c) cs) = foldr Z.add 0 (map f cs) + foldr Z.add 0 (map g cs).
Proof. induction cs as [|c cs IH]; cbn; lia. Qed.

Lemma sum_drops (ds : list (cpu * hook)) n : Forall (fun d => (d.1 < n)%nat) ds ->
  foldr Z.add 0 (map (fun c => drops_on c ds) (seq 0 n)) = zlen ds.
Proof.
  induction ds as [|[c x] ds IH] using rev_ind; intros F.
  - unfold drops_on, zlen. cbn. induction (seq 0 n) as [|c cs IH]; cbn in *; [done | by rewrite IH].
  - apply Forall_app in F as [F Fc]. rewrite Forall_singleton in Fc. cbn [fst] in Fc.
    erewrite map_ext; [|intros c'; apply drops_on_snoc]. rewrite sum_add, IH, sum_one by done.
    rewrite decide_True by lia. rewrite zlen_app. done.
Qed.

(** C20: When no program runs, [Stats] reports the hits in scope that got no record: the
    counters of the CPUs lose no increment and count nothing twice. *)
Theorem cpus_stats ls fs gs ds k s v0 l st :
  crun ls fs gs ds (idle k) s ->
  cpu_ring k = [] -> (forall c, (c < ncpu)%nat -> cpu_drop k c DROP_RINGBUF_FULL = Some (u64 (v0 c))) ->
  pcs s = ∅ -> Stats l (ck s) = Some st ->
  KernelRingbufFull st = u64 (foldr Z.add 0 (map v0 (seq 0 ncpu)) + (zlen fs - zlen gs)).
Proof.
  intros R E D I T. pose proof (account_start v0 _ _ _ _ _ _ R E D) as A.
  destruct (DropCount_Lookup DROP_RINGBUF_FULL (ck s)) as [vs|] eqn:Hl; [|unfold Stats in T; by rewrite Hl in T].
  rewrite (Stats_sum _ _ _ Hl) in T. injection T as <-. cbn [KernelRingbufFull].
  assert (V : vs = map (fun c => u64 (v0 c + drops_on c ds)) (seq 0 ncpu)).
  { apply (inj (map Some)). rewrite (cpu_lookup_drops _ _ _ Hl), map_map. apply map_ext_in.
    intros c Hc. apply in_seq in Hc. apply (a_drop _ _ _ _ _ A). lia. }
  rewrite V, sum_u64, sum_add, sum_drops by apply (a_cpus _ _ _ _ _ A). f_equal. f_equal.
  pose proof (Permutation_length (a_found _ _ _ _ _ A)) as P. rewrite !length_app, length_map in P.
  unfold pending, pending_of in P. rewrite I, map_to_list_empty in P. cbn in P. unfold zlen. lia.
Qed.
End cpus.

(** ** A concrete machine of two CPUs *)

Module CpuModel.

(** [free] bytes of the ring buffer are left; its memory is filled with [stale]. *)
Record kstate := KState {
  targets : gmap Z Z; drops : gmap nat Z; free : Z; stale : byte; ring : list (option (list byte));
}.

Definition slots (k : kstate) (c : nat) : Z := default 0 (drops k !! c).

Definition reserve (k : kstate) (n : Z) : option (nat * list byte) * kstate :=
  let cost := align_up n 8 + 8 in
  if (0 <=? n) && (cost <=? free k) then
    (Some (length (ring k), replicate (Z.to_nat n) (stale k)),
     KState (targets k) (drops k) (free k - cost) (stale k) (ring k ++ [None]))
  else (None, k).

#[global] Instance maps : CpuMaps kstate := {|
  cpu_target k id := targets k !! id;
  cpu_drop k c r := if r =? 0 then Some (slots k c) else None;
  cpu_drop_store k c r v := if r =? 0
    then KState (targets k) (<[c := v]> (drops k)) (free k) (stale k) (ring k) else k;
  cpu_reserve := reserve;
  cpu_submit k i b := KState (targets k) (drops k) (free k) (stale k) (<[i := Some b]> (ring k));
  cpu_ring := ring;
|}.

#[global] Instance maps_ok : CpuMapsOk kstate.
Proof.
  split; cbn; intros *; unfold reserve; repeat case_match; intros; simplify_eq/=; try done.
  - rewrite andb_true_iff in *. unfold zlen. rewrite length_replicate. split_and!; [lia | done..].
  - unfold slots. cbn. by rewrite lookup_insert_eq.
  - unfold slots. cbn. by rewrite lookup_insert_ne.
Qed.

Definition ncpu : nat := 2.
Definition set_targets (ts : gmap Z Z) (k : kstate) : kstate := KState ts (drops k) (free k) (stale k) (ring k).

#[global] Instance user_maps : UserMaps kstate := {|
  TargetCgroups_Put id v k :=
    if decide (is_Some (targets k !! id) \/ Z.of_nat (size (targets k)) < md_max_entries target_cgroups)
    then (true, set_targets (<[id := v]> (targets k)) k) else (false, k);
  TargetCgroups_Delete id k :=
    match targets k !! id with
    | Some _ => (Deleted, set_targets (delete id (targets k)) k)
    | None => (ErrKeyNotExist, k)
    end;
  DropCount_Lookup r k := if r =? 0 then Some (map (slots k) (seq 0 ncpu)) else None;
|}.

#[global] Instance user_maps_ok : CpuUserOk kstate ncpu.
Proof.
  split; cbn [TargetCgroups_Put TargetCgroups_Delete DropCount_Lookup user_maps]; intros *.
  - by case_decide.
  - by case_match.
  - intros E. unfold cpu_drop, maps. destruct (r =? 0); [|done]. injection E as <-. done.
Qed.

(** The process of [Scenario] is forked on CPU 1 while another execs on CPU 0, whose
    record is submitted first; there is no room for its exit. *)
Definition machine : kstate := KState {[ 8123 := 1 ]} ∅ 4800 x58 [].

Definition fork_hit : hook := ForkHook (@kernel_helpers amd64) parent_a task_a.
Definition exec_hit : hook := ExecHook (@kernel_helpers amd64) exec_ctx.
Definition exit_hit : hook := ExitHook (@kernel_helpers amd64) ctx_a.

Definition overlap : list clabel := [Start 1 fork_hit; Start 0 exec_hit; Advance 1; Advance 0; Put 77; Advance 0].
Definition ending : list clabel := [Start 0 exit_hit; Advance 0; Advance 1; Advance 0; Delete 8123; Advance 0; Start 1 fork_hit].

#[local] Existing Instance amd64.
Definition play (ls : list clabel) (s : cpus kstate) : cpus kstate := default s (cplay false ls s).

Definition playable (ls : list clabel) (s : cpus kstate) : bool :=
  match cplay false ls s with Some _ => true | None => false end.

Definition hits_ok (ls : list clabel) : Prop :=
  Forall (fun l => match l with Start c x => (c < ncpu)%nat /\ @BpfHelpersOk (hook_helpers x) | _ => True end) ls.

Lemma play_run ls s : hits_ok ls -> playable ls s = true ->
  crun false ncpu ls (gather false (found false) ls s) (gather false got ls s) (gather false counted ls s) s (play ls s).
Proof.
  intros F P. apply cplay_run; [done|]. unfold playable, play in *. by destruct (cplay false ls s).
Qed.

Ltac hits :=
  repeat (apply Forall_cons; split;
          [first [exact I | split; [unfold ncpu; lia | exact (@kernel_helpers_ok amd64)]]|]); by apply Forall_nil.

Lemma overlap_hits_ok : hits_ok overlap.
Proof. hits. Qed.
Lemma ending_hits_ok : hits_ok ending.
Proof. hits. Qed.
Lemma all_hits_ok : hits_ok (overlap ++ ending).
Proof. apply Forall_app. split; [apply overlap_hits_ok | apply ending_hits_ok]. Qed.

Lemma machine_slots c : (c < ncpu)%nat -> cpu_drop machine c DROP_RINGBUF_FULL = Some (u64 0).
Proof. done. Qed.
End CpuModel.

Module CpuWitness.
Import CpuModel.
#[local] Existing Instance amd64.
#[local] Existing Instance amd64_ok.

Definition all : list clabel := overlap ++ ending.
Definition middle : cpus kstate := play overlap (idle machine).
Definition later : cpus kstate := play ending middle.
Definition final : cpus kstate := play all (idle machine).

Lemma cpus_deliver_witness :
  length (gather false got all (idle machine)) = 2%nat /\ length (gather false counted all (idle machine)) = 1%nat /\
  (gather false (found false) all (idle machine)
   ≡ₚ gather false got all (idle machine) ++ map snd (gather false counted all (idle machine)) ++ pending final) /\
  exists n, (n <= length (gather false got all (idle machine)))%nat /\
    (pcs final = ∅ -> n = length (gather false got all (idle machine))) /\
    Events (map (fun r => (Record_ r, true)) (readable (cpu_ring (ck final)))) (mkLoader 0 0 false) =
    (map (fun x => hook_event x 0) (take n (gather false got all (idle machine))), mkLoader 0 0 false).
Proof.
  split; [vm_compute; reflexivity|]. split; [vm_compute; reflexivity|].
  apply (cpus_deliver false ncpu all _ _ _ machine final (fun _ => 0) (mkLoader 0 0 false));
    [apply play_run; [exact all_hits_ok | vm_compute; reflexivity] | reflexivity | exact machine_slots | cbn; lia].
Defined.

(** The exec's record is submitted first but only read after the fork's. *)
Lemma cpus_read_in_order_witness :
  readable (cpu_ring (ck middle)) = [] /\ map zlen (readable (cpu_ring (ck later))) = [72; 4688] /\
  exists new n1 n2, (n1 <= length (gather false got overlap (idle machine)))%nat /\
    (n2 <= length (gather false got overlap (idle machine) ++ gather false got ending middle))%nat /\
    readable (cpu_ring (ck later)) = readable (cpu_ring (ck middle)) ++ new /\
    Events (map (fun r => (Record_ r, true)) (readable (cpu_ring (ck middle)))) (mkLoader 0 0 false) =
    (map (fun x => hook_event x 0) (take n1 (gather false got overlap (idle machine) ++ gather false got ending middle)),
     mkLoader 0 0 false) /\
    Events (map (fun r => (Record_ r, true)) new) (mkLoader 0 0 false) =
    (map (fun x => hook_event x 0)
       (drop n1 (take n2 (gather false got overlap (idle machine) ++ gather false got ending middle))),
     mkLoader 0 0 false).
Proof.
  split; [vm_compute; reflexivity|]. split; [vm_compute; reflexivity|].
  apply (cpus_read_in_order false ncpu overlap (gather false (found false) overlap (idle machine)) _ (gather false counted overlap (idle machine))
    ending (gather false (found false) ending middle) _ (gather false counted ending middle) machine middle later (fun _ => 0) (mkLoader 0 0 false));
    [apply play_run; [exact overlap_hits_ok | vm_compute; reflexivity]
    |apply play_run; [exact ending_hits_ok | vm_compute; reflexivity] | reflexivity | exact machine_slots | cbn; lia].
Defined.

Lemma cpus_stats_witness :
  u64 (0 + (3 - 2)) = 1 /\ KernelRingbufFull (mkLoaderStats 1 0) =
  u64 (foldr Z.add 0 (map (fun _ => 0) (seq 0 ncpu)) +
       (zlen (gather false (found false) all (idle machine)) - zlen (gather false got all (idle machine)))).
Proof.
  split; [reflexivity|].
  apply (cpus_stats false ncpu all _ _ (gather false counted all (idle machine)) machine final (fun _ => 0) (mkLoader 0 0 false));
    [apply play_run; [exact all_hits_ok | vm_compute; reflexivity] | reflexivity | exact machine_slots
    | apply map_size_empty_inv; vm_compute; reflexivity | vm_compute; reflexivity].
Defined.
End CpuWitness.
