(* ===== verification/Attach.v ===== *)
(** * Loading, attaching and closing: [Load], [Close], [Hooks] and [bootTime] of
    internal/loader/loader.go

    The operations of cilium/ebpf and the clock are the interface [EbpfLib]: each
    may fail, and the ones that open something return a handle.  [handles] is the
    set of the handles the process has open; [EbpfLibOk] states that a failed
    operation opens nothing and that [Close] releases its handle even when it
    reports an error.  [Load] and [Close] are the code's sequences of calls. *)

From Stdlib Require Import ZArith Lia.
From Stdlib Require Import String.
From stdpp Require Import prelude list gmap.
From S2P Require Import Prelude BpfKernel Loader.

Local Open Scope Z_scope.

(** ** The library *)

(** The embedded object file: [mode_host] is a constant of it. *)
Record CollectionSpec := mkSpec { var_mode_host : bool }.

Inductive clock := CLOCK_REALTIME | CLOCK_BOOTTIME.

(** The hooks, by the names [Load] gives them. *)
Definition Hooks : list (list byte) :=
  [str "tracepoint/sched/sched_process_exec"; str "tp_btf/sched_process_fork";
   str "tracepoint/sched/sched_process_exit"].

(** [L] is the library's and the kernel's state; [K] the content of the maps, as
    [LoadAndAssign] creates them. *)
Class EbpfLib (L K : Type) := {
  RemoveMemlock : L -> bool * L;
  ClockGettime : clock -> L -> option Z * L;          (** [Timespec.Nano] *)
  loadProcess : L -> option CollectionSpec * L;
  Variable_Set : bool -> CollectionSpec -> option CollectionSpec;
  LoadAndAssign : CollectionSpec -> L -> option (positive * K) * L;
  AttachHook : list byte -> positive -> L -> option positive * L;
  NewReader : positive -> L -> option positive * L;
  CloseHandle : positive -> L -> bool * L;            (** [true] is a nil error *)
  handles : L -> gset positive;
}.

(** A successful opening returns a new handle. *)
Definition opens (before after : gset positive) (h : option positive) : Prop :=
  match h with
  | Some h => (h ∉ before) /\ after = {[h]} ∪ before
  | None => after = before
  end.

Class EbpfLibOk (L K : Type) `{EbpfLib L K} : Prop := {
  memlock_handles l : handles (RemoveMemlock l).2 = handles l;
  clock_handles c l : handles (ClockGettime c l).2 = handles l;
  spec_handles l : handles (loadProcess l).2 = handles l;
  set_mode b s s' : Variable_Set b s = Some s' -> var_mode_host s' = b;
  load_handles s l :
    opens (handles l) (handles (LoadAndAssign s l).2) (fst <$> (LoadAndAssign s l).1);
  attach_handles n h l : opens (handles l) (handles (AttachHook n h l).2) (AttachHook n h l).1;
  reader_handles h l : opens (handles l) (handles (NewReader h l).2) (NewReader h l).1;
  close_handles h l : handles (CloseHandle h l).2 = handles l ∖ {[h]};
}.

(** ** The loader's resources *)

Record resources := mkResources {
  res_objs : positive;
  res_links : list positive;
  res_rd : option positive;
  res_mode : bool;            (** the value of [mode_host] in the loaded programs *)
  res_boot : Z;
}.

Inductive load_error :=
| MemlockError
| ClockError (c : clock)
| SpecError
| ModeError
| ObjectsError
| AttachError (hook : list byte)
| ReaderError.

Section load.
Context {L K : Type} `{HL : !EbpfLib L K}.

(** The difference is an [int64]. *)
Definition bootTime (l : L) : (Z + load_error) * L :=
  let '(rt, l) := ClockGettime CLOCK_REALTIME l in
  match rt with
  | None => (inr (ClockError CLOCK_REALTIME), l)
  | Some rt =>
      let '(bt, l) := ClockGettime CLOCK_BOOTTIME l in
      match bt with
      | None => (inr (ClockError CLOCK_BOOTTIME), l)
      | Some bt => (inl (s64 (rt - bt)), l)
      end
  end.

(** The handles in the order [Close] closes them. *)
Definition owned (r : resources) : list positive :=
  option_list (res_rd r) ++ res_links r ++ [res_objs r].

(** The results of the calls, in order; the joined error is nil when all are. *)
Fixpoint close_all (hs : list positive) (l : L) : list bool * L :=
  match hs with
  | [] => ([], l)
  | h :: hs => let '(ok, l) := CloseHandle h l in
               let '(oks, l) := close_all hs l in (ok :: oks, l)
  end.

Definition Close (r : resources) (l : L) : list bool * L := close_all (owned r) l.

(** The attach loop: the links so far are in [r]. *)
Fixpoint attach_all (hooks : list (list byte)) (r : resources) (l : L)
    : (resources + load_error) * L :=
  match hooks with
  | [] => (inl r, l)
  | name :: hooks =>
      let '(lk, l) := AttachHook name (res_objs r) l in
      match lk with
      | None => (inr (AttachError name), (Close r l).2)
      | Some lk => attach_all hooks (mkResources (res_objs r) (res_links r ++ [lk]) (res_rd r) (res_mode r) (res_boot r)) l
      end
  end.

Definition Load (HostMode : bool) (l : L) : (resources * K + load_error) * L :=
  let '(ok, l) := RemoveMemlock l in
  if negb ok then (inr MemlockError, l) else
  let '(boot, l) := bootTime l in
  match boot with
  | inr err => (inr err, l)
  | inl boot =>
      let '(spec, l) := loadProcess l in
      match spec with
      | None => (inr SpecError, l)
      | Some spec =>
          match Variable_Set HostMode spec with
          | None => (inr ModeError, l)
          | Some spec =>
              let '(objs, l) := LoadAndAssign spec l in
              match objs with
              | None => (inr ObjectsError, l)
              | Some (objs, k) =>
                  let '(r, l) := attach_all Hooks (mkResources objs [] None (var_mode_host spec) boot) l in
                  match r with
                  | inr err => (inr err, l)
                  | inl r =>
                      let '(rd, l) := NewReader (res_objs r) l in
                      match rd with
                      | None => (inr ReaderError, (Close r l).2)
                      | Some rd => (inl (mkResources (res_objs r) (res_links r) (Some rd) (res_mode r) (res_boot r), k), l)
                      end
                  end
              end
          end
      end
  end.

(** The counters and the clock of the new [Loader]. *)
Definition loader_of (r : resources) : Loader := mkLoader (res_boot r) 0 false.

(** ** Lemmas *)

Context `{HLok : !EbpfLibOk L K}.

Lemma close_all_handles hs l : handles (close_all hs l).2 = handles l ∖ list_to_set hs.
Proof.
  revert l. induction hs as [|h hs IH]; intros l; cbn; [set_solver|].
  pose proof (close_handles h l) as C. destruct (CloseHandle h l) as [ok l1]. specialize (IH l1).
  destruct (close_all hs l1) as [oks l2]. cbn in *. rewrite IH, C. set_solver.
Qed.

(** What [attach_all] and [Load] have opened, on top of [h0]. *)
Definition holds (h0 : gset positive) (r : resources) (l : L) : Prop :=
  NoDup (owned r) /\ handles l = list_to_set (owned r) ∪ h0 /\ (forall h, h ∈ owned r -> h ∉ h0).

Lemma holds_close h0 r l : holds h0 r l -> handles (Close r l).2 = h0.
Proof.
  intros (_ & E & D). unfold Close. rewrite close_all_handles, E. apply set_eq. intros h.
  rewrite elem_of_difference, elem_of_union, elem_of_list_to_set. specialize (D h). tauto.
Qed.

(** One more handle, at any place of the list. *)
Lemma holds_more h0 r r' h l l' : holds h0 r l -> opens (handles l) (handles l') (Some h) ->
  owned r' ≡ₚ h :: owned r -> holds h0 r' l'.
Proof.
  intros (N & E & D) [F E'] P. unfold holds. rewrite P. split_and!.
  - constructor; [|done]. intros Hin. apply F. rewrite E. set_solver.
  - rewrite E', E. apply set_eq. intros x. set_solver.
  - intros x. rewrite P, elem_of_cons. intros [->|Hx]; [|by apply D]. intros Hin. apply F. rewrite E. set_solver.
Qed.

Lemma attach_all_ok h0 hooks r l : res_rd r = None -> holds h0 r l ->
  let '(res, l') := attach_all hooks r l in
  match res with
  | inl r' => holds h0 r' l' /\ res_rd r' = None /\ length (res_links r') = (length (res_links r) + length hooks)%nat /\
              res_mode r' = res_mode r /\ res_boot r' = res_boot r
  | inr err => handles l' = h0
  end.
Proof.
  revert r l. induction hooks as [|name hooks IH]; intros r l Rd Hh; cbn.
  { split_and!; (done || lia). }
  pose proof (attach_handles name (res_objs r) l) as A.
  destruct (AttachHook name (res_objs r) l) as [[lk|] l1]; cbn [fst snd] in A.
  - set (r1 := mkResources _ _ _ _ _).
    assert (Hh1 : holds h0 r1 l1).
    { eapply holds_more; [exact Hh | exact A|]. unfold owned, r1. cbn. rewrite Rd. cbn.
      rewrite <- app_assoc. cbn. by rewrite Permutation_middle. }
    specialize (IH r1 l1 Rd Hh1). destruct (attach_all hooks r1 l1) as [[r'|err] l']; [|done].
    destruct IH as (I1 & I2 & I3 & I4 & I5). split_and!; try done. rewrite I3. cbn. rewrite length_app. cbn. lia.
  - apply holds_close. destruct Hh as (N & E & D). split_and!; try done. by rewrite A.
Qed.

#[local] Arguments attach_all : simpl never.

(** ** Properties *)

(** What [Load] has opened. *)
Lemma Load_holds HostMode l :
  let '(res, l') := Load HostMode l in
  match res with
  | inl (r, k) => holds (handles l) r l' /\ is_Some (res_rd r) /\ length (res_links r) = length Hooks /\
                  res_mode r = HostMode
  | inr err => handles l' = handles l
  end.
Proof.
  unfold Load, bootTime. remember (handles l) as h0 eqn:E0.
  pose proof (memlock_handles l) as M. destruct (RemoveMemlock l) as [[] l1]; cbn in M |- *; [|congruence].
  pose proof (clock_handles CLOCK_REALTIME l1) as C. destruct (ClockGettime _ l1) as [[rt|] l2]; cbn in C; [|cbn; congruence].
  pose proof (clock_handles CLOCK_BOOTTIME l2) as B. destruct (ClockGettime _ l2) as [[bt|] l3]; cbn in B; [|cbn; congruence].
  pose proof (spec_handles l3) as S. destruct (loadProcess l3) as [[spec|] l4]; cbn in S; [|cbn; congruence].
  destruct (Variable_Set HostMode spec) as [spec'|] eqn:V; [|cbn; congruence]. apply set_mode in V.
  assert (E : handles l4 = h0) by congruence. clear M C B S.
  pose proof (load_handles spec' l4) as O. destruct (LoadAndAssign spec' l4) as [[[objs k]|] l5]; cbn in O; [|cbn; congruence].
  cbv beta iota. match goal with |- context [attach_all Hooks ?r l5] => set (r0 := r) end.
  assert (H0 : holds h0 r0 l5).
  { destruct O as [O1 O2]. rewrite E in *. unfold holds. cbn. split_and!.
    - apply NoDup_singleton.
    - by rewrite O2, union_empty_r_L.
    - by intros h ->%list_elem_of_singleton. }
  pose proof (attach_all_ok h0 Hooks r0 l5 eq_refl H0) as A.
  destruct (attach_all Hooks r0 l5) as [[r|err] l6]; [|done].
  destruct A as (A1 & A2 & A3 & A4 & A5). pose proof (reader_handles (res_objs r) l6) as R.
  destruct (NewReader (res_objs r) l6) as [[rd|] l7]; cbn [fst snd] in R.
  - split_and!; [| by eexists | exact A3 | by rewrite <- V].
    eapply holds_more; [exact A1 | exact R|]. unfold owned. cbn. by rewrite A2.
  - apply holds_close. destruct A1 as (N & E1 & D). split_and!; try done. by rewrite R.
Qed.

(** C26: [Load] is all or nothing: when it fails, on whichever call, the process has the
    handles it had.  When it succeeds, it has in addition the objects, one link per
    hook and the reader, all different and new; the programs run in the requested
    mode; and [Close] releases exactly these five, even when some of its calls
    report errors. *)
Theorem Load_all_or_nothing HostMode l :
  let '(res, l') := Load HostMode l in
  match res with
  | inl (r, k) =>
      res_mode r = HostMode /\ length (res_links r) = length Hooks /\ NoDup (owned r) /\
      handles l' = list_to_set (owned r) ∪ handles l /\
      handles (Close r l').2 = handles l /\ length (Close r l').1 = 5%nat
  | inr err => handles l' = handles l
  end.
Proof.
  pose proof (Load_holds HostMode l) as A. destruct (Load HostMode l) as [[[r k]|err] l']; [|done].
  destruct A as (Hh & [rd Rd] & Ln & Mo). pose proof (holds_close _ _ _ Hh) as C. destruct Hh as (N & E & _).
  assert (G : forall hs l, length (close_all hs l).1 = length hs).
  { clear. induction hs as [|h hs IH]; intros l; cbn; [done|]. destruct (CloseHandle h l) as [ok l1].
    specialize (IH l1). destruct (close_all hs l1). cbn in *. by f_equal. }
  split_and!; try done. unfold Close. rewrite G. unfold owned. by rewrite Rd, !length_app, Ln.
Qed.

(** An event's wall-clock time is the real time of loading plus the boot time that
    has passed since: for times in the range of [int64] nothing wraps. *)
Theorem bootTime_spec l rt l1 bt l2 :
  ClockGettime CLOCK_REALTIME l = (Some rt, l1) -> ClockGettime CLOCK_BOOTTIME l1 = (Some bt, l2) ->
  0 <= rt < 2 ^ 63 -> 0 <= bt < 2 ^ 63 ->
  exists boot, bootTime l = (inl boot, l2) /\
    forall ts, 0 <= ts < 2 ^ 63 -> boot + s64 ts = rt + (ts - bt).
Proof.
  intros E1 E2 Rr Rb. unfold bootTime. rewrite E1, E2. eexists. split; [done|]. intros ts Rt.
  rewrite (s64_small ts) by lia. unfold s64, u64. pose proof (Z.mod_pos_bound (rt - bt) (2 ^ 64) ltac:(lia)).
  destruct (Z.leb_spec 0 (rt - bt)).
  - rewrite Z.mod_small by lia. rewrite (proj2 (Z.ltb_lt _ _)) by lia. lia.
  - replace ((rt - bt) mod 2 ^ 64) with (rt - bt + 2 ^ 64)
      by (rewrite <- (Z.mod_small (rt - bt + 2 ^ 64) (2 ^ 64)) by lia; rewrite <- Z.add_mod_idemp_r, Z.mod_same, Z.add_0_r by lia; done).
    rewrite (proj2 (Z.ltb_ge _ _)) by lia. lia.
Qed.
End load.
