(* ===== verification/Sensor.v ===== *)
(** * cmd/anyone-sensor/main.go

    The checks of [run] and its main loop, which takes events from the loader's
    channel, enriches them with the process table and the watcher, and writes them
    out.  Other goroutines change the watcher and the world between events: what
    they show while one event is handled is a [moment].  The result is the sequence
    of events encoded; [Output] has the bytes.

    Here the loop is a function of the moments it meets; [System] has it as steps
    that interleave with the kernel, the reader and the watcher, and [Startup] has
    what [run] does before and after it.  Flags and logging are not modelled. *)

From Stdlib Require Import ZArith Lia.
From Stdlib Require Import String.
From stdpp Require Import prelude list gmap relations.
From S2P Require Import Prelude CLayout Archs BpfKernel CommonH ProcessBpf Event Decode Wire BpfRun.
From S2P Require Import Guid ProcTable ProcTableSpec ProcTableProps ProcTableThms Runtime Loader.

Local Open Scope Z_scope.

(** ** The options *)

Inductive option_error := BadTarget (err : target_error) | BadMode (mode : list byte).

(** [run]'s first switch: host mode or not. *)
Definition check_options (mode : list byte) (target : Target) : bool + option_error :=
  if decide (mode = str "host") then inl true
  else if decide (mode = str "container") then
    match Validate target with
    | Some err => inr (BadTarget err)
    | None => inl false
    end
  else inr (BadMode mode).

(** ** The main loop *)

(** What one event meets: the table's two views and the clock, [watcher.Lookup]
    ([None] when there is no watcher), and whether the write succeeds. *)
Record moment := mkMoment {
  m_view1 : view;
  m_view2 : view;
  m_now : Z;
  m_lookup : option (Z -> option Container);
  m_write : bool;
}.

Definition set_container (c : option ContainerRef) (ev : Event) : Event :=
  mkEvent (Event_Type ev) (Event_Time ev) (Event_TimestampNs ev) (Event_Process ev)
    (Event_Parent ev) c (Event_Exit ev).

Definition annotate (lookup : option (Z -> option Container)) (ev : Event) : Event :=
  match lookup with
  | None => ev
  | Some f =>
      match f (Process_CgroupID (Event_Process ev)) with
      | Some c => set_container (Some (mkContainerRef (Container_ID c) (Container_Name c) (Container_Image c))) ev
      | None => ev
      end
  end.

(** The events written, the table, and whether a write failed. *)
Fixpoint consume (cfg : Config) (evs : list (Event * moment)) (t : Table) : list Event * Table * bool :=
  match evs with
  | [] => ([], t, false)
  | (ev, m) :: evs =>
      let '(ev, t) := Handle cfg (m_view1 m) (m_view2 m) (m_now m) ev t in
      let ev := annotate (m_lookup m) ev in
      if m_write m then
        let '(out, t, failed) := consume cfg evs t in (ev :: out, t, failed)
      else ([], t, true)
  end.

(** ** What enrichment leaves alone *)

(** The facts the kernel reported. *)
Record facts := mkFacts {
  f_type : EventType; f_time : Z; f_ns : Z; f_pid : Z; f_tid : Z; f_uid : Z; f_gid : Z;
  f_cgroup : Z; f_start : Z; f_comm : list byte; f_fname_trunc : bool; f_argv_trunc : bool;
  f_argv_failed : bool; f_exit : option Exit; f_exec : option (list byte * list (list byte));
}.

Definition facts_of (ev : Event) : facts :=
  let p := Event_Process ev in
  mkFacts (Event_Type ev) (Event_Time ev) (Event_TimestampNs ev) (Process_PID p) (Process_TID p)
    (Process_UID p) (Process_GID p) (Process_CgroupID p) (Process_StartTimeNs p) (Process_Comm p)
    (Process_FilenameTruncated p) (Process_ArgvTruncated p) (Process_ArgvReadFailed p) (Event_Exit ev)
    (if decide (Event_Type ev = TypeExec) then Some (Process_Image p, Process_Argv p) else None).

Lemma facts_set_parent_known b im av ev : facts_of (set_parent_known b im av ev) = facts_of ev.
Proof. done. Qed.
Lemma facts_set_parent_id g p st ev : facts_of (set_parent_id g p st ev) = facts_of ev.
Proof. done. Qed.
Lemma facts_set_process_guid g ev : facts_of (set_process_guid g ev) = facts_of ev.
Proof. done. Qed.
Lemma facts_set_process_image im av ev : Event_Type ev ≠ TypeExec ->
  facts_of (set_process_image im av ev) = facts_of ev.
Proof. intros H. unfold facts_of. cbn. by rewrite !decide_False. Qed.
Lemma facts_annotate f ev : facts_of (annotate f ev) = facts_of ev.
Proof. unfold annotate. destruct f as [f|]; [|done]. by destruct (f _). Qed.

Lemma Handle_facts cfg v1 v2 now ev t : facts_of (Handle cfg v1 v2 now ev t).1 = facts_of ev.
Proof.
  unfold Handle. destruct (get _ t) as [e t1]. destruct (handle_type _ _ _ _ _ _ _ _) as [e2 t2].
  set (ev1 := set_process_guid _ ev). set (ev2 := match e2 with Some _ => _ | None => _ end).
  assert (F : facts_of ev2 = facts_of ev).
  { subst ev2. destruct e2; [|done]. case_decide; [|done]. by rewrite facts_set_process_image. }
  destruct (handle_parent_id _ _ _ _) as [[[pg pp] ps] t3]. destruct (parent _ _ _ _ _ _) as [p t4].
  destruct p; cbn [fst]; by rewrite ?facts_set_parent_known, facts_set_parent_id.
Qed.

Lemma Handle_container cfg v1 v2 now ev t : Event_Container (Handle cfg v1 v2 now ev t).1 = Event_Container ev.
Proof.
  unfold Handle. destruct (get _ t) as [e t1]. destruct (handle_type _ _ _ _ _ _ _ _) as [e2 t2].
  set (ev2 := match e2 with Some _ => _ | None => _ end).
  assert (F : Event_Container ev2 = Event_Container ev) by (subst ev2; destruct e2; [case_decide|]; done).
  destruct (handle_parent_id _ _ _ _) as [[[pg pp] ps] t3]. destruct (parent _ _ _ _ _ _) as [p t4].
  by destruct p.
Qed.

(** Every event taken from the channel is written once, in order, with the
    kernel's facts unchanged and the container of its cgroup if the watcher knows
    it, as long as writes succeed. *)
Theorem consume_faithful cfg evs t :
  Forall (fun em => m_write em.2 = true) evs ->
  let '(out, t', failed) := consume cfg evs t in
  failed = false /\
  Forall2 (fun ev' em =>
    facts_of ev' = facts_of em.1 /\
    Event_Container ev' =
      match m_lookup em.2 with
      | Some f => match f (Process_CgroupID (Event_Process em.1)) with
                  | Some c => Some (mkContainerRef (Container_ID c) (Container_Name c) (Container_Image c))
                  | None => Event_Container em.1
                  end
      | None => Event_Container em.1
      end) out evs.
Proof.
  revert t. induction evs as [|[ev m] evs IH]; intros t H; [by split|].
  apply Forall_cons in H as [Hw H]. cbn [fst snd] in Hw. cbn [consume].
  pose proof (Handle_facts cfg (m_view1 m) (m_view2 m) (m_now m) ev t) as F.
  pose proof (Handle_container cfg (m_view1 m) (m_view2 m) (m_now m) ev t) as FC.
  destruct (Handle cfg _ _ _ ev t) as [ev1 t1]. cbn [fst] in F, FC. rewrite Hw.
  specialize (IH t1 H). destruct (consume cfg evs t1) as [[out t2] failed]. destruct IH as [-> IH].
  split; [done|]. constructor; [|done]. cbn [fst snd]. rewrite facts_annotate. split; [done|].
  assert (E : Process_CgroupID (Event_Process ev1) = Process_CgroupID (Event_Process ev))
    by (apply (f_equal f_cgroup) in F; exact F).
  unfold annotate. destruct (m_lookup m) as [f|]; [|done]. rewrite E.
  by destruct (f (Process_CgroupID (Event_Process ev))).
Qed.

(** The table stays in its invariant: the main loop only takes it to reachable
    tables. *)
Lemma consume_reachable cfg0 evs t :
  let cfg := (New cfg0).1 in
  reachable cfg0 t ->
  Forall (fun em => ViewOk (m_view1 em.2) /\ ViewOk (m_view2 em.2) /\ not_own_parent cfg em.1) evs ->
  reachable cfg0 (consume cfg evs t).1.2.
Proof.
  cbv zeta. revert t. induction evs as [|[ev m] evs IH]; intros t R H; [done|].
  apply Forall_cons in H as [(V1 & V2 & N) H]. cbn [fst snd] in *. cbn [consume].
  pose proof (tstep_Handle (New cfg0).1 (m_view1 m) (m_view2 m) (m_now m) ev t V1 V2 N) as S.
  destruct (Handle _ _ _ _ ev t) as [ev1 t1]. cbn [snd] in S.
  pose proof (rtc_r _ _ _ R S) as R1. destruct (m_write m); [|done].
  specialize (IH t1 R1 H). by destruct (consume _ evs t1) as [[out t2] failed].
Qed.

(** ** Host mode *)

(** Without a scope test nothing is external. *)
Definition internal (cfg : Config) (e : Entry) : Prop := own_guid cfg e /\ External e = false.
Definition host_view (v : view) : Prop := ViewOk v /\ InScope v = None.

Lemma internal_Handle cfg v1 v2 now ev s : host_view v1 -> host_view v2 ->
  every (internal cfg) s -> every (internal cfg) (s_Handle cfg v1 v2 now ev s).2.
Proof.
  intros V1 V2 K. apply (every_Handle cfg (internal cfg) (fun _ _ => True) host_view); try (unfold internal; done).
  - by intros e [He _].
  - intros e [He _]. by split.
  - intros v rd pid st info [V HS] _ HP HR HT. split; [by eapply own_guid_proc|].
    cbn. unfold inScope. by rewrite HS.
Qed.

Lemma internal_Seed cfg procs s : every (internal cfg) s -> every (internal cfg) (s_Seed cfg procs s).2.
Proof.
  apply (every_Seed cfg (internal cfg) (fun _ _ => True)); [|by apply Forall_forall].
  intros start p _. split; [apply own_guid_seed|].
  unfold seed_entry. destruct (start !! _); [destruct (_ =? 0)|]; done.
Qed.

Lemma consume_internal cfg evs t : 1 <= MaxEntries cfg ->
  wf cfg t -> every (internal cfg) (abs t) ->
  Forall (fun em => host_view (m_view1 em.2) /\ host_view (m_view2 em.2) /\ not_own_parent cfg em.1 /\
                    Parent_External (Event_Parent em.1) = false) evs ->
  Forall (fun ev => Parent_External (Event_Parent ev) = false) (consume cfg evs t).1.1.
Proof.
  intros M. revert t. induction evs as [|[ev m] evs IH]; intros t W I H; [constructor|].
  apply Forall_cons in H as [(V1 & V2 & N & X) H]. cbn [fst snd] in *. cbn [consume].
  destruct (Handle_spec cfg M (m_view1 m) (m_view2 m) (m_now m) ev t W N) as (t1 & -> & E & W1).
  pose proof (internal_Handle cfg (m_view1 m) (m_view2 m) (m_now m) ev (abs t) V1 V2 I) as I1.
  pose proof (s_Handle_event cfg M (m_view1 m) (m_view2 m) (m_now m) ev (abs t)) as (_ & _ & _ & P).
  set (ev1 := (s_Handle cfg (m_view1 m) (m_view2 m) (m_now m) ev (abs t)).1) in *.
  destruct (m_write m); [|constructor]. rewrite E in I1, P.
  specialize (IH t1 W1 I1 H). destruct (consume cfg evs t1) as [[out t2] failed]. constructor; [|done].
  assert (Q : Parent_External (Event_Parent ev1) = false).
  { destruct (s_find _ (s_list (abs t1))) as [p|] eqn:F; injection P as _ -> _ _; [|done].
    exact (proj2 (every_find (internal cfg) _ _ _ I1 F)). }
  unfold annotate. destruct (m_lookup m) as [f|]; [|done]. by destruct (f _).
Qed.

(** In host mode, where there is no scope test, no written event ever calls its
    parent external, whatever /proc shows. *)
Theorem host_mode_no_external cfg0 procs evs :
  let cfg := (New cfg0).1 in
  let t := (Seed cfg (map (pair (mkView None None)) procs) (New cfg0).2).2 in
  Forall (fun em => host_view (m_view1 em.2) /\ host_view (m_view2 em.2) /\ not_own_parent cfg em.1 /\
                    Parent_External (Event_Parent em.1) = false) evs ->
  Forall (fun ev => Parent_External (Event_Parent ev) = false) (consume cfg evs t).1.1.
Proof.
  cbv zeta. pose proof (New_max cfg0) as M. destruct (New_inv cfg0) as [W _].
  pose proof (Seed_refines (New cfg0).1 M (map (pair (mkView None None)) procs) (New cfg0).2 W) as S.
  assert (I0 : every (internal (New cfg0).1) (abs (New cfg0).2)) by constructor.
  pose proof (internal_Seed (New cfg0).1 (map (pair (mkView None None)) procs) _ I0) as I.
  destruct (Seed _ _ _) as [n t]. destruct S as [S W']. rewrite S in I.
  by apply consume_internal.
Qed.

(** [run] starts only in host mode, or in container mode with a valid target. *)
Theorem check_options_spec mode target :
  match check_options mode target with
  | inl true => mode = str "host"
  | inl false => mode = str "container" /\ Validate target = None
  | inr (BadTarget err) => mode = str "container" /\ Validate target = Some err
  | inr (BadMode m) => m = mode /\ mode ≠ str "host" /\ mode ≠ str "container"
  end.
Proof.
  unfold check_options. case_decide; [done|]. case_decide; [|done].
  by destruct (Validate target).
Qed.

(** ** End to end *)

Section end_to_end.
Context `{Arch, !ArchOk} {K : Type} `{HM : !BpfMaps K, HMok : !BpfMapsOk K}.
Variable mode_host : bool.

(** From kernel to output: of the tracepoint hits in the capture scope, in order,
    all but those the kernel counted as drops come out as one written event each,
    with the facts of the hit, whatever the process table, /proc, the watcher and
    the clock are like meanwhile. *)
Theorem sensor_end_to_end xs (k : K) v l cfg ms t :
  Forall (fun x => @BpfHelpersOk (hook_helpers x)) xs ->
  rb_records k = [] -> drop_lookup k 0 = Some v -> 0 <= v < 2 ^ 64 -> 0 <= decodeErrors l < 2 ^ 64 ->
  let delivered := (Events (map (fun r => (Record_ r, true)) (rb_records (run mode_host xs k))) l).1 in
  length ms = length delivered -> Forall (fun m => m_write m = true) ms ->
  exists ys,
    sublist ys (filter (fun x => reported mode_host k x = true) xs) /\
    drop_lookup (run mode_host xs k) 0
    = Some (u64 (v + (zlen (filter (fun x => reported mode_host k x = true) xs) - zlen ys))) /\
    Forall2 (fun ev' x => facts_of ev' = facts_of (hook_event x (l_boot l)))
      (consume cfg (combine delivered ms) t).1.1 ys.
Proof.
  intros Hx Hk Hv Rv Rl. cbv zeta.
  destruct (run_delivers mode_host xs k v l Hx Hk Hv Rv Rl) as (ys & H1 & H2 & H3).
  rewrite H2. cbn [fst]. intros L Hw. exists ys. split_and!; [done | done |].
  pose proof (consume_faithful cfg (combine (map (fun x => hook_event x (l_boot l)) ys) ms) t) as C.
  destruct (consume cfg _ t) as [[out t'] failed]. cbn [fst].
  destruct C as [_ C].
  { apply Forall_forall. intros [ev m] Hin%list_elem_of_In%in_combine_r. cbn.
    rewrite Forall_forall in Hw. by apply Hw, list_elem_of_In. }
  clear - C L. revert ms out L C. induction ys as [|y ys IH]; intros [|m ms] out L C; try done.
  - inversion C; subst. constructor.
  - inversion C; subst. constructor; [cbn in *; tauto|]. eapply IH; [|done]. by injection L.
Qed.
End end_to_end.
