(* ===== verification/System.v ===== *)
(** * The whole sensor

    The parts as they run together: tracepoint hits on the kernel's side, the
    watcher's critical sections, the goroutine of [Loader.Events] with its channel,
    and the main goroutine of [run] from the seeding of the table on.  [step] is one
    atomic action of one of them; a run interleaves them in any order.  The kernel
    is the one the watcher drives ([cgroups] of its state).

    [Hit]s and the watcher move in every phase: the hooks are attached and the
    target is captured before the table is seeded, and records wait in the ring
    buffer until the main loop starts. *)

From Stdlib Require Import ZArith Lia.
From Stdlib Require Import String.
From stdpp Require Import prelude list gmap relations.
From S2P Require Import Prelude CLayout Archs BpfKernel CommonH ProcessBpf Event Decode Wire BpfRun.
From S2P Require Import Guid ProcTable ProcTableSpec ProcTableProps ProcTableThms.
From S2P Require Import Runtime Watcher WatcherProps Loader Sensor.

Local Open Scope Z_scope.

(** ** State *)

(** The main goroutine: starting up, in its loop, or returned from [run]. *)
Inductive phase := Starting | Consuming | Returned.

#[global] Instance phase_eq_dec : EqDecision phase.
Proof. solve_decision. Defined.

Record sys (K : Type) := mkSys {
  s_watcher : Watcher K;
  s_loader : Loader;
  s_pos : nat;                (** records read from the ring buffer *)
  s_reading : bool;           (** the goroutine of [Events] runs; it closes the channel when it ends *)
  s_hand : option Event;      (** the event it is about to send *)
  s_chan : list Event;        (** the channel *)
  s_phase : phase;
  s_cur : option Event;       (** the event the main loop has handled and not yet written *)
  s_table : Table;
  s_out : list Event;         (** the events written *)
}.
Arguments mkSys {K}.
Arguments s_watcher {K}.
Arguments s_loader {K}.
Arguments s_pos {K}.
Arguments s_reading {K}.
Arguments s_hand {K}.
Arguments s_chan {K}.
Arguments s_phase {K}.
Arguments s_cur {K}.
Arguments s_table {K}.
Arguments s_out {K}.

Inductive label :=
| Hit (x : hook)                                  (** a tracepoint fires *)
| Watch (l : wlabel)                              (** the watcher or one of its timers *)
| SeedTable (procs : list (view * ProcInfo))      (** [table.Seed], and the loop starts *)
| ReadRecord                                      (** [rd.Read] returns a record *)
| ReadEnds (failed : bool)                        (** [rd.Read] returns an error: failed, or closed *)
| SendEvent                                       (** [out <- ev] *)
| SendCancelled                                   (** [<-ctx.Done()] instead *)
| HandleEvent (v1 v2 : view) (now : Z)            (** the loop receives an event: [table.Handle] *)
| WriteEvent (ok : bool)                          (** [watcher.Lookup], [Encode] and [Flush] *)
| LoopEnds                                        (** the channel is closed and empty *)
| SweepTable (order : list (list byte * loc)) (now : Z). (** the ticker of [every] *)

(** The capacity of the channel of [Events]. *)
Definition chan_cap : nat := 1024.

Section system.
Context `{Arch, !ArchOk} {K : Type} `{HM : !BpfMaps K, HMok : !BpfMapsOk K, HU : !UserMaps K}.
Variable mode_host : bool.
Variable cfg : Config.

Definition kernel (s : sys K) : K := cgroups (s_watcher s).

Definition set_watcher (w : Watcher K) (s : sys K) : sys K :=
  mkSys w (s_loader s) (s_pos s) (s_reading s) (s_hand s) (s_chan s) (s_phase s) (s_cur s)
    (s_table s) (s_out s).
Definition set_reader (l : Loader) (pos : nat) (reading : bool) (hand : option Event)
    (chan : list Event) (s : sys K) : sys K :=
  mkSys (s_watcher s) l pos reading hand chan (s_phase s) (s_cur s) (s_table s) (s_out s).
Definition set_main (p : phase) (cur : option Event) (t : Table) (out : list Event) (s : sys K) : sys K :=
  mkSys (s_watcher s) (s_loader s) (s_pos s) (s_reading s) (s_hand s) (s_chan s) p cur t out.

Definition set_kernel (k : K) (w : Watcher K) : Watcher K :=
  set_maps (byCgroup w) (timers w) k w.

(** The steps of [wstep], as a function. *)
Definition watch (l : wlabel) (w : Watcher K) : option (Watcher K) :=
  match l with
  | LWanted c => Some (set_wanted c w)
  | LAdd id c => Some (add id c w).2
  | LRelease id => Some (release id w)
  | LExpire t id => if decide (armed w !! t = Some id) then Some (expire t id w) else None
  | LCallback t id => if decide (fired w !! t = Some id) then Some (callback t id w) else None
  end.

(** One turn of the loop of [Events], up to the send. *)
Definition read_record (s : sys K) : option (sys K) :=
  match s_reading s, s_hand s, rb_records (kernel s) !! s_pos s with
  | true, None, Some raw =>
      let l := s_loader s in
      Some (match decode raw (l_boot l) with
            | inl ev => set_reader l (S (s_pos s)) true (Some ev) (s_chan s) s
            | inr _ => set_reader (mkLoader (l_boot l) (u64 (decodeErrors l + 1)) (l_err l))
                         (S (s_pos s)) true None (s_chan s) s
            end)
  | _, _, _ => None
  end.

Definition read_ends (failed : bool) (s : sys K) : option (sys K) :=
  match s_reading s, s_hand s with
  | true, None =>
      let l := s_loader s in
      Some (set_reader (mkLoader (l_boot l) (decodeErrors l) (failed || l_err l))
              (s_pos s) false None (s_chan s) s)
  | _, _ => None
  end.

Definition send_event (s : sys K) : option (sys K) :=
  match s_reading s, s_hand s with
  | true, Some ev =>
      if decide (length (s_chan s) < chan_cap)%nat
      then Some (set_reader (s_loader s) (s_pos s) true None (s_chan s ++ [ev]) s) else None
  | _, _ => None
  end.

(** The event in hand is abandoned. *)
Definition send_cancelled (s : sys K) : option (sys K) :=
  match s_reading s, s_hand s with
  | true, Some _ => Some (set_reader (s_loader s) (s_pos s) false (s_hand s) (s_chan s) s)
  | _, _ => None
  end.

Definition seed_table (procs : list (view * ProcInfo)) (s : sys K) : option (sys K) :=
  match s_phase s with
  | Starting =>
      Some (set_main Consuming (s_cur s) (Seed cfg procs (s_table s)).2 (s_out s)
              (set_reader (s_loader s) (s_pos s) true (s_hand s) (s_chan s) s))
  | _ => None
  end.

Definition handle_event (v1 v2 : view) (now : Z) (s : sys K) : option (sys K) :=
  match s_phase s, s_cur s, s_chan s with
  | Consuming, None, ev :: evs =>
      let '(ev, t) := Handle cfg v1 v2 now ev (s_table s) in
      Some (set_main Consuming (Some ev) t (s_out s)
              (set_reader (s_loader s) (s_pos s) (s_reading s) (s_hand s) evs s))
  | _, _, _ => None
  end.

(** [watcher.Lookup], when there is a watcher. *)
Definition main_lookup (s : sys K) : option (Z -> option Container) :=
  if mode_host then None else Some (fun id => Watcher.Lookup id (s_watcher s)).

(** A failed write ends [run]; the event is not written. *)
Definition write_event (ok : bool) (s : sys K) : option (sys K) :=
  match s_phase s, s_cur s with
  | Consuming, Some ev =>
      Some (if ok then set_main Consuming None (s_table s) (s_out s ++ [annotate (main_lookup s) ev]) s
            else set_main Returned (Some ev) (s_table s) (s_out s) s)
  | _, _ => None
  end.

Definition loop_ends (s : sys K) : option (sys K) :=
  match s_phase s, s_cur s, s_chan s, s_reading s with
  | Consuming, None, [], false => Some (set_main Returned None (s_table s) (s_out s) s)
  | _, _, _, _ => None
  end.

Definition sweep_table (order : list (list byte * loc)) (now : Z) (s : sys K) : option (sys K) :=
  match s_phase s with
  | Consuming => Some (set_main Consuming (s_cur s) (Sweep cfg order now (s_table s)).2 (s_out s) s)
  | _ => None
  end.

Definition step (l : label) (s : sys K) : option (sys K) :=
  match l with
  | Hit x => Some (set_watcher (set_kernel (fire mode_host x (kernel s)).2 (s_watcher s)) s)
  | Watch l => if mode_host then None else w ← watch l (s_watcher s); Some (set_watcher w s)
  | SeedTable procs => seed_table procs s
  | ReadRecord => read_record s
  | ReadEnds failed => read_ends failed s
  | SendEvent => send_event s
  | SendCancelled => send_cancelled s
  | HandleEvent v1 v2 now => handle_event v1 v2 now s
  | WriteEvent ok => write_event ok s
  | LoopEnds => loop_ends s
  | SweepTable order now => sweep_table order now s
  end.

(** What the outside world can do: the kernel's helpers keep their contract and no
    process is its own parent; [/proc] answers for the process asked for; Go's map
    iteration visits each pair once. *)
Definition label_ok (boot : Z) (s : sys K) (l : label) : Prop :=
  match l with
  | Hit x => @BpfHelpersOk (hook_helpers x) /\ not_own_parent cfg (hook_event x boot)
  | HandleEvent v1 v2 _ => ViewOk v1 /\ ViewOk v2
  | SweepTable order _ => order ≡ₚ map_to_list (t_entries (s_table s))
  | _ => True
  end.

(** The hit the sensor must report in this step, if any. *)
Definition observed (l : label) (s : sys K) : list hook :=
  match l with Hit x => if reported mode_host (kernel s) x then [x] else [] | _ => [] end.

(** A run: its labels, and the hits to report in it. *)
Inductive srun (boot : Z) : list label -> list hook -> sys K -> sys K -> Prop :=
| srun_nil s : srun boot [] [] s s
| srun_step l ls hs s s1 s2 :
    label_ok boot s l -> step l s = Some s1 -> srun boot ls hs s1 s2 ->
    srun boot (l :: ls) (observed l s ++ hs) s s2.

(** The run of a list of labels. *)
Fixpoint play (ls : list label) (s : sys K) : option (list hook * sys K) :=
  match ls with
  | [] => Some ([], s)
  | l :: ls =>
      match step l s with
      | Some s1 => match play ls s1 with
                   | Some (hs, s2) => Some (observed l s ++ hs, s2)
                   | None => None
                   end
      | None => None
      end
  end.

Lemma play_srun boot ls hs s s' : Forall (fun l => forall s, label_ok boot s l) ls ->
  play ls s = Some (hs, s') -> srun boot ls hs s s'.
Proof.
  intros L. revert hs s. induction L as [|l ls Hl _ IH]; intros hs s; cbn.
  - intros [= <- <-]. constructor.
  - destruct (step l s) as [s1|] eqn:S; [|done]. destruct (play ls s1) as [[hs1 s2]|] eqn:P; [|done].
    intros [= <- <-]. by econstructor; [apply Hl | | apply IH].
Qed.
End system.

(** [run] after [loader.Load]: a kernel with the programs attached. *)
Definition start {K : Type} (k : K) (l : Loader) (t : Table) : sys K :=
  mkSys (NewWatcher k) l 0 false None [] Starting None t [].
