(* ===== verification/SystemProps.v ===== *)
(** * Properties of the whole sensor

    Invariants of every interleaving of [System]: what is written is what the
    kernel reported, in order; what is reported is what happened in the captured
    cgroups; the pipeline is bounded and drains; the table keeps its invariant. *)

From Stdlib Require Import ZArith Lia.
From Stdlib Require Import String.
From stdpp Require Import prelude list gmap relations.
From S2P Require Import Prelude CLayout Archs BpfKernel CommonH ProcessBpf Event Decode Wire BpfRun.
From S2P Require Import Guid ProcTable ProcTableSpec ProcTableProps ProcTableThms.
From S2P Require Import Runtime Watcher WatcherProps Loader Sensor System.

Local Open Scope string_scope.
Local Open Scope list_scope.
Local Open Scope Z_scope.

(** ** The hits of a cgroup *)

Section hooks.
Context `{Arch}.

(** The cgroup of the process a hit is about. *)
Definition hook_cgroup (x : hook) : Z :=
  match x with
  | ForkHook h _ child => task_cgroup_id child
  | ExecHook h _ | ExitHook h _ => task_cgroup_id bpf_get_current_task_btf
  end.

(** A fork of a process, not of a thread; an exit of the last thread. *)
Definition hook_process (x : hook) : bool :=
  match x with
  | ExecHook _ _ => true
  | ForkHook h _ child =>
      core_read "struct task_struct" child [["pid"]] =? core_read "struct task_struct" child [["tgid"]]
  | ExitHook h _ =>
      core_read "struct task_struct" bpf_get_current_task_btf [["signal"]; ["live"; "counter"]] =? 0
  end.

Lemma reported_split {K} `{HM : !BpfMaps K} mode_host (k : K) x :
  reported mode_host k x = hook_process x && should_capture mode_host (hook_cgroup x) k.
Proof. by destruct x. Qed.
End hooks.

Section props.
Context `{Arch, !ArchOk} {K : Type} `{HM : !BpfMaps K, HMok : !BpfMapsOk K, HU : !UserMaps K, HUok : !UserMapsOk K}.
Variable mode_host : bool.
Variable cfg : Config.
Variable boot : Z.

Local Abbreviation step := (step mode_host cfg).
Local Abbreviation srun := (srun mode_host cfg boot).

(** ** The watcher among the hits *)

Lemma watch_step l (w w' : Watcher K) : watch l w = Some w' -> wstep l w w'.
Proof.
  destruct l; cbn; try case_decide; intros [= <-]; try done; by constructor.
Qed.

Lemma fire_captures x (k : K) id : @BpfHelpersOk (hook_helpers x) ->
  captures (fire mode_host x k).2 id = captures k id.
Proof.
  intros Hx. change (should_capture false id (fire mode_host x k).2 = should_capture false id k).
  unfold should_capture. by rewrite fire_target.
Qed.

Lemma winv_set_kernel k' (w : Watcher K) :
  (forall id, captures k' id = captures (cgroups w) id) -> winv w -> winv (set_kernel k' w).
Proof.
  intros E [I1 I2 I3 I4]. split; [|done..]. intros id Hid.
  change (cgroups (set_kernel k' w)) with k'. rewrite E. by apply I1.
Qed.

(** The steps that are neither a hit nor the watcher's leave the watcher alone. *)
Lemma step_watcher l s s' : step l s = Some s' ->
  match l with
  | Hit x => s_watcher s' = set_kernel (fire mode_host x (kernel s)).2 (s_watcher s)
  | Watch wl => mode_host = false /\ wstep wl (s_watcher s) (s_watcher s')
  | _ => s_watcher s' = s_watcher s
  end.
Proof.
  destruct l; cbn [System.step];
    unfold seed_table, read_record, read_ends, send_event, send_cancelled, handle_event, write_event,
      loop_ends, sweep_table; intros E.
  1: by injection E as <-.
  1: destruct mode_host; [done|]. destruct (watch l (s_watcher s)) as [w|] eqn:Ew; [|done].
     injection E as <-. split; [done | by apply watch_step].
  all: repeat case_match; by simplify_eq.
Qed.

Lemma step_winv l s s' : step l s = Some s' -> label_ok cfg boot s l -> winv (s_watcher s) -> winv (s_watcher s').
Proof.
  intros S L I. pose proof (step_watcher l s s' S) as W. destruct l; try by rewrite W.
  - rewrite W. apply winv_set_kernel; [|done]. intros id. apply fire_captures, L.
  - destruct W as [_ W]. by eapply wstep_inv.
Qed.

Lemma srun_winv ls hs s s' : srun ls hs s s' -> winv (s_watcher s) -> winv (s_watcher s').
Proof. induction 1; eauto using step_winv. Qed.
(** ** The pipeline *)

(** The watcher's steps touch the target map only. *)
Lemma wstep_others l (w w' : Watcher K) : wstep l w w' ->
  rb_records (cgroups w') = rb_records (cgroups w) /\
  drop_lookup (cgroups w') 0 = drop_lookup (cgroups w) 0.
Proof.
  intros S. destruct S as [c w|id c w|id w|t id w A|t id w F]; try done.
  - rewrite add_split. pose proof (unregister_by id w) as (_ & C & _). unfold capture.
    destruct (byCgroup _ !! id); [by rewrite <- C|].
    pose proof (Put_others id 1 (cgroups (unregister id w))) as [P1 P2]. rewrite C in *.
    cbn. unfold l_AddCgroup. by destruct (TargetCgroups_Put id 1 (cgroups w)) as [[] k].
  - unfold release. by destruct (byCgroup w !! id), (timers w !! id).
  - pose proof (Delete_others id (cgroups w)) as [P1 P2]. cbn. unfold l_RemoveCgroup.
    by destruct (TargetCgroups_Delete id (cgroups w)) as [[] k].
Qed.

Definition same_facts (ev : Event) (x : hook) : Prop := facts_of ev = facts_of (hook_event x boot).

(** [hs] are the hits reported so far, [ys] those of them whose record is in the
    ring buffer: [dn] of these have reached the main loop, [qu] are on their way to
    it, and [rest] have not been read. *)
Record piped (errors v : Z) (hs ys dn qu rest : list hook) (s : sys K) : Prop := {
  p_sub : sublist ys hs;
  p_records : Forall2 (fun r x => forall b, decode r b = inl (hook_event x b)) (rb_records (kernel s)) ys;
  p_drop : drop_lookup (kernel s) 0 = Some (u64 (v + (zlen hs - zlen ys)));
  p_split : ys = dn ++ qu ++ rest;
  p_pos : s_pos s = length (dn ++ qu);
  p_main : Forall2 same_facts (s_out s ++ option_list (s_cur s)) dn;
  p_queue : s_chan s ++ option_list (s_hand s) = map (fun x => hook_event x boot) qu;
  p_errors : decodeErrors (s_loader s) = errors;
  p_boot : l_boot (s_loader s) = boot;
}.

Lemma piped_hit errors v hs ys dn qu rest s s' x :
  0 <= v < 2 ^ 64 -> label_ok cfg boot s (Hit x) -> step (Hit x) s = Some s' ->
  piped errors v hs ys dn qu rest s ->
  exists ys' rest', piped errors v (hs ++ observed mode_host (Hit x) s) ys' dn qu rest' s'.
Proof.
  intros Rv [Hx _] S P. injection S as <-.
  pose proof (fire_effect mode_host x (kernel s) _ Hx (p_drop _ _ _ _ _ _ _ _ P)) as F. cbv zeta in F.
  unfold observed. destruct (reported mode_host (kernel s) x).
  - destruct F as [[Fr Fd]|(r & Fr & Fd & Dec)]; destruct P.
    + exists ys, rest. split; try done; cbn [s_watcher kernel cgroups set_kernel set_maps set_watcher].
      * by apply sublist_inserts_r.
      * by rewrite Fr.
      * rewrite Fd, zlen_app, u64_add_l. do 2 f_equal. rewrite zlen_cons. unfold zlen at 4. cbn. lia.
    + exists (ys ++ [x]), (rest ++ [x]).
      split; try done; cbn [s_watcher kernel cgroups set_kernel set_maps set_watcher].
      * by apply sublist_app.
      * rewrite Fr. apply Forall2_app; [done|]. by constructor.
      * rewrite Fd, !zlen_app. do 2 f_equal. lia.
      * subst ys. by rewrite <- !app_assoc.
  - exists ys, rest. rewrite app_nil_r. destruct P.
    split; try done; cbn [s_watcher kernel cgroups set_kernel set_maps set_watcher]; by rewrite F.
Qed.
Lemma piped_read errors v hs ys dn qu rest s s' :
  read_record s = Some s' -> piped errors v hs ys dn qu rest s ->
  exists x rest', rest = x :: rest' /\ piped errors v hs ys dn (qu ++ [x]) rest' s'.
Proof.
  unfold read_record. intros S []. destruct (s_reading s); [|done]. destruct (s_hand s) as [|] eqn:Hh; [done|].
  destruct (rb_records (kernel s) !! s_pos s) as [raw|] eqn:R; [|done].
  destruct (Forall2_lookup_l _ _ _ _ _ p_records0 R) as (x & Y & Dec).
  assert (exists rest', rest = x :: rest') as [rest' ->].
  { rewrite p_split0, p_pos0, app_assoc, lookup_app_r, Nat.sub_diag in Y by done.
    destruct rest as [|y rest']; [done|]. injection Y as ->. by eexists. }
  exists x, rest'. split; [done|]. rewrite p_boot0, Dec in S. injection S as <-.
  split; try done; cbn.
  - by rewrite p_split0, <- !app_assoc.
  - rewrite p_pos0, !length_app. cbn. lia.
  - cbn in p_queue0. rewrite app_nil_r in p_queue0. by rewrite map_app, p_queue0.
Qed.

Lemma piped_handle errors v hs ys dn qu rest s s' v1 v2 now :
  handle_event cfg v1 v2 now s = Some s' -> piped errors v hs ys dn qu rest s ->
  exists x qu', qu = x :: qu' /\ piped errors v hs ys (dn ++ [x]) qu' rest s'.
Proof.
  unfold handle_event. intros S []. destruct (s_phase s); try done. destruct (s_cur s) eqn:C; [done|].
  destruct (s_chan s) as [|ev evs]; [done|].
  destruct qu as [|x qu]; [done|]. injection p_queue0 as -> Q. exists x, qu. split; [done|].
  pose proof (Handle_facts cfg v1 v2 now (hook_event x boot) (s_table s)) as F.
  destruct (Handle cfg _ _ _ _ _) as [ev t]. injection S as <-. cbn in F.
  split; try done; cbn.
  - by rewrite p_split0, <- !app_assoc.
  - rewrite p_pos0, !length_app. cbn. lia.
  - cbn in p_main0. rewrite app_nil_r in p_main0. apply Forall2_app; [done|]. by constructor.
Qed.

Lemma piped_write errors v hs ys dn qu rest s s' ok :
  write_event mode_host ok s = Some s' -> piped errors v hs ys dn qu rest s ->
  piped errors v hs ys dn qu rest s'.
Proof.
  unfold write_event. intros S []. destruct (s_phase s); try done. destruct (s_cur s) as [ev|] eqn:C; [|done].
  injection S as <-. destruct ok; split; try done; cbn in *; try by rewrite C in p_main0.
  rewrite app_nil_r. apply Forall2_app_inv_l in p_main0 as (l1 & l2 & F1 & F2 & ->).
  apply Forall2_app; [done|]. inversion F2 as [|? x ? ? Fx Fn]; subst. inversion Fn; subst.
  constructor; [|done]. unfold same_facts. by rewrite facts_annotate.
Qed.

Lemma piped_step errors v hs ys dn qu rest l s s' :
  0 <= v < 2 ^ 64 -> label_ok cfg boot s l -> step l s = Some s' ->
  piped errors v hs ys dn qu rest s ->
  exists ys' dn' qu' rest', piped errors v (hs ++ observed mode_host l s) ys' dn' qu' rest' s'.
Proof.
  intros Rv L S P. destruct l as [x|wl| | | | | | v1 v2 now| | |];
    try (cbn [observed]; rewrite app_nil_r; exists ys); cbn [System.step] in S.
  - destruct (piped_hit errors v hs ys dn qu rest s s' x Rv L S P) as (ys' & rest' & P'). eauto 6.
  - exists dn, qu, rest. pose proof (step_watcher (Watch wl) s s' S) as [_ W]. apply wstep_others in W as [W1 W2].
    cbn [System.step] in S. destruct mode_host; [done|]. destruct (watch wl (s_watcher s)) as [w|]; [|done].
    injection S as <-. destruct P. cbn in W1, W2. split; try done; unfold kernel in *; cbn [s_watcher set_watcher].
    + by rewrite W1.
    + by rewrite W2.
  - exists dn, qu, rest. unfold seed_table in S. destruct (s_phase s); try done. injection S as <-.
    destruct P. by split.
  - destruct (piped_read _ _ _ _ _ _ _ s s' S P) as (x & rest' & _ & P'). eauto.
  - exists dn, qu, rest. unfold read_ends in S. destruct (s_reading s), (s_hand s) eqn:Hh; try done.
    injection S as <-. destruct P. rewrite Hh in *. by split.
  - exists dn, qu, rest. unfold send_event in S. destruct (s_reading s), (s_hand s) eqn:Hh; try done.
    case_decide; [|done]. injection S as <-. destruct P. rewrite Hh in *. split; try done. cbn. by rewrite app_nil_r.
  - exists dn, qu, rest. unfold send_cancelled in S. destruct (s_reading s), (s_hand s) eqn:Hh; try done.
    injection S as <-. destruct P. rewrite Hh in *. by split.
  - destruct (piped_handle _ _ _ _ _ _ _ s s' v1 v2 now S P) as (x & qu' & _ & P'). eauto.
  - exists dn, qu, rest. by eapply piped_write.
  - exists dn, qu, rest. unfold loop_ends in S.
    destruct (s_phase s), (s_cur s) eqn:C, (s_chan s), (s_reading s); try done. injection S as <-.
    destruct P. rewrite C in *. by split.
  - exists dn, qu, rest. unfold sweep_table in S. destruct (s_phase s); try done. injection S as <-.
    destruct P. by split.
Qed.

Lemma piped_run errors v ls hs0 hs ys dn qu rest s s' :
  0 <= v < 2 ^ 64 -> srun ls hs s s' -> piped errors v hs0 ys dn qu rest s ->
  exists ys' dn' qu' rest', piped errors v (hs0 ++ hs) ys' dn' qu' rest' s'.
Proof.
  intros Rv R. revert hs0 ys dn qu rest. induction R as [s|l ls hs s s1 s2 L S R IH]; intros hs0 ys dn qu rest P.
  - rewrite app_nil_r. eauto.
  - destruct (piped_step _ _ _ _ _ _ _ l s s1 Rv L S P) as (ys1 & dn1 & qu1 & rest1 & P1).
    rewrite app_assoc. by eapply IH.
Qed.

Lemma piped_start k (l : Loader) v t : rb_records k = [] -> drop_lookup k 0 = Some v -> 0 <= v < 2 ^ 64 ->
  l_boot l = boot -> piped (decodeErrors l) v [] [] [] [] [] (start k l t).
Proof.
  intros Hk Hv Rv Hb. split; cbn; try done.
  - by rewrite Hk.
  - by rewrite Z.add_0_r, u64_small.
Qed.

(** What the invariant says of the output. *)
Lemma piped_outcome errors v hs ys dn qu rest s : piped errors v hs ys dn qu rest s ->
  sublist ys hs /\
  drop_lookup (kernel s) 0 = Some (u64 (v + (zlen hs - zlen ys))) /\
  Forall2 same_facts (s_out s) (take (length (s_out s)) ys) /\
  decodeErrors (s_loader s) = errors /\
  (s_pos s = length (rb_records (kernel s)) /\ s_hand s = None /\ s_chan s = [] /\ s_cur s = None ->
   length (s_out s) = length ys).
Proof.
  intros []. split_and!; try done.
  - apply Forall2_app_inv_l in p_main0 as (d1 & d2 & F1 & _ & ->).
    rewrite p_split0, <- app_assoc, (Forall2_length _ _ _ F1), take_app_length. done.
  - intros (E1 & E2 & E3 & E4). rewrite E2, E3, E4 in *. cbn in *. rewrite app_nil_r in p_main0.
    rewrite (Forall2_length _ _ _ p_main0). apply Forall2_length in p_records0.
    rewrite <- p_records0, <- E1, p_pos0. destruct qu; [|done]. by rewrite app_nil_r.
Qed.
End props.
