(* ===== verification/SystemThms.v ===== *)
(** * The theorems of the whole sensor

    What holds of every run of [System] from the state in which [run] leaves
    [loader.Load], however hits, watcher, timers, reader and main loop interleave. *)

From Stdlib Require Import ZArith Lia.
From Stdlib Require Import String.
From stdpp Require Import prelude list gmap relations.
From S2P Require Import Prelude CLayout Archs BpfKernel CommonH ProcessBpf Event Decode Wire BpfRun.
From S2P Require Import Guid ProcTable ProcTableSpec ProcTableProps ProcTableThms.
From S2P Require Import Runtime Watcher WatcherProps Loader Sensor System SystemProps.

Local Open Scope Z_scope.

Section theorems.
Context `{Arch, !ArchOk} {K : Type} `{HM : !BpfMaps K, HMok : !BpfMapsOk K, HU : !UserMaps K, HUok : !UserMapsOk K}.
Variable mode_host : bool.
Variable cfg0 : Config.

Local Abbreviation cfg := (New cfg0).1.
Local Abbreviation step := (step mode_host cfg).
Local Abbreviation srun := (srun mode_host cfg).

(** ** Nothing is lost, invented or reordered *)

(** Every submitted record has become a written event. *)
Definition drained (s : sys K) : Prop :=
  s_pos s = length (rb_records (kernel s)) /\ s_hand s = None /\ s_chan s = [] /\ s_cur s = None.

(** C2: From kernel to output, in every interleaving: the hits in the capture scope (at
    the moment they happen) are either counted as drops or submitted; the events
    written are, in order, the first of the submitted ones, one each, with the
    facts of the hit; no record fails to decode; and once the pipeline is drained
    every submitted hit has been written. *)
Theorem system_pipeline k (l : Loader) v ls hs s :
  rb_records k = [] -> drop_lookup k 0 = Some v -> 0 <= v < 2 ^ 64 ->
  srun (l_boot l) ls hs (start k l (New cfg0).2) s ->
  exists ys,
    sublist ys hs /\
    drop_lookup (kernel s) 0 = Some (u64 (v + (zlen hs - zlen ys))) /\
    Forall2 (fun ev x => facts_of ev = facts_of (hook_event x (l_boot l)))
      (s_out s) (take (length (s_out s)) ys) /\
    decodeErrors (s_loader s) = decodeErrors l /\
    (drained s -> length (s_out s) = length ys).
Proof.
  intros Hk Hv Rv R.
  destruct (piped_run mode_host cfg (l_boot l) _ v ls [] hs _ _ _ _ _ s Rv R
    (piped_start (l_boot l) k l v _ Hk Hv Rv eq_refl)) as (ys & dn & qu & rest & P).
  exists ys. by eapply piped_outcome.
Qed.

(** ** The pipeline is bounded *)

Lemma step_chan l s s' : step l s = Some s' -> (length (s_chan s) <= chan_cap)%nat ->
  (length (s_chan s') <= chan_cap)%nat.
Proof.
  destruct l; cbn [System.step]; unfold seed_table, read_record, read_ends, send_event, send_cancelled,
    handle_event, write_event, loop_ends, sweep_table; intros E L.
  1: by injection E as <-.
  1: destruct mode_host; [done|]; destruct (watch l (s_watcher s)); [by injection E as <- | done].
  all: repeat case_match; simplify_eq; try done; cbn [s_chan set_main set_reader length] in *; rewrite ?length_app; cbn [length]; try lia.
  match goal with E : s_chan _ = [] |- _ => by rewrite E end.
Qed.

(** C18: Userspace holds at most [chan_cap + 2] events: the reader blocks when the
    channel is full, so that a slow consumer makes the kernel drop, where drops are
    counted. *)
Theorem in_flight_bounded k (l : Loader) v ls hs s :
  rb_records k = [] -> drop_lookup k 0 = Some v -> 0 <= v < 2 ^ 64 ->
  srun (l_boot l) ls hs (start k l (New cfg0).2) s ->
  (length (s_chan s) <= 1024 /\ length (s_out s) <= s_pos s <= length (s_out s) + 1026)%nat /\
  (s_pos s <= length (rb_records (kernel s)))%nat.
Proof.
  intros Hk Hv Rv R.
  destruct (piped_run mode_host cfg (l_boot l) _ v ls [] hs _ _ _ _ _ s Rv R
    (piped_start (l_boot l) k l v _ Hk Hv Rv eq_refl)) as (ys & dn & qu & rest & []).
  assert (L : (length (s_chan s) <= chan_cap)%nat).
  { clear - R. assert (L : (length (s_chan (start k l (New cfg0).2)) <= chan_cap)%nat) by (cbn; lia).
    revert L. induction R; eauto using step_chan. }
  unfold chan_cap in L. apply Forall2_length in p_main, p_records. apply (f_equal length) in p_queue, p_split.
  rewrite length_map in *. rewrite !length_app in *.
  assert (length (option_list (s_cur s)) <= 1)%nat by (destruct (s_cur s); cbn; lia).
  assert (length (option_list (s_hand s)) <= 1)%nat by (destruct (s_hand s); cbn; lia).
  lia.
Qed.
(** ** Only the target, and all of it *)

Lemma run_agree k (l : Loader) ls hs s :
  (forall id (k' : K), (RemoveCgroup id k').1 = true) -> (forall id, captures k id = false) ->
  System.srun false cfg (l_boot l) ls hs (start k l (New cfg0).2) s ->
  forall id, captures (cgroups (s_watcher s)) id = InScope id (s_watcher s).
Proof.
  intros HR Hc R.
  assert (E0 : forall id, captures (cgroups (s_watcher (start k l (New cfg0).2))) id
                        = InScope id (s_watcher (start k l (New cfg0).2))) by (intros id; by rewrite Hc).
  clear Hc. induction R as [s|lb ls hs s s1 s2 L S R IH]; [done|]. apply IH. clear IH R.
  pose proof (step_watcher _ _ lb s s1 S) as W. destruct lb; try (by rewrite W).
  - rewrite W. intros id. change (captures (fire false x (kernel s)).2 id = InScope id (s_watcher s)).
    rewrite fire_captures by apply L. apply E0.
  - destruct W as [_ W]. by eapply wstep_agree.
Qed.


(** Scope without a timer lasts as long as the watcher does not release the cgroup. *)
Lemma scope_lasts boot ls hs s s' id : srun boot ls hs s s' -> winv (s_watcher s) ->
  InScope id (s_watcher s) = true -> ~ pending (s_watcher s) id -> (Watch (LRelease id) ∉ ls) ->
  InScope id (s_watcher s') = true /\ winv (s_watcher s').
Proof.
  induction 1 as [s|lb ls hs s s1 s2 L S R IH]; intros I Sc Np NR; [done|].
  apply not_elem_of_cons in NR as [NR1 NR2].
  pose proof (step_winv _ _ _ lb s s1 S L I) as I1. pose proof (step_watcher _ _ lb s s1 S) as W.
  enough (InScope id (s_watcher s1) = true /\ ~ pending (s_watcher s1) id) as [? ?] by (by apply IH).
  destruct lb; try (by rewrite W). destruct W as [_ W]. split.
  - destruct (wstep_scope _ _ _ id W Sc) as [?|[t ->]]; [done|]. by apply wstep_callback_pending in W.
  - intros P. destruct (wstep_pending _ _ _ id W P) as [?| ->]; congruence.
Qed.

(** C9: A captured cgroup with no timer set that the watcher does not release: at every
    later moment, whatever else happens in between (hits, events, other cgroups,
    timers), each exec, fork and exit of its processes goes into the ring buffer as
    a record that decodes to its event, or is counted as a drop when there is no
    room. *)
Theorem target_captured k (l : Loader) ls0 hs0 s ls hs s' id x :
  srun (l_boot l) ls0 hs0 (start k l (New cfg0).2) s -> srun (l_boot l) ls hs s s' ->
  InScope id (s_watcher s) = true -> ~ pending (s_watcher s) id -> (Watch (LRelease id) ∉ ls) ->
  @BpfHelpersOk (hook_helpers x) -> hook_process x = true -> hook_cgroup x = id ->
  dealt (l_boot l) x (kernel s') (fire mode_host x (kernel s')).2.
Proof.
  intros R0 R Sc Np NR Hx Px <-.
  destruct (scope_lasts _ _ _ _ _ (hook_cgroup x) R) as [Sc' I']; [by eapply srun_winv; [exact R0 | apply winv_New] | done..|].
  pose proof (fire_dealt mode_host (l_boot l) x (kernel s') Hx) as F. rewrite reported_split, Px in F.
  replace (should_capture mode_host (hook_cgroup x) (kernel s')) with true in F; [exact F|].
  symmetry. destruct mode_host; [done|]. apply (winv_captured _ I'). by apply InScope_spec.
Qed.

(** ** Draining *)

(** The work left for the reader and the main loop, in their steps. *)
Definition work (s : sys K) : nat :=
  4 * (length (rb_records (kernel s)) - s_pos s) + 3 * length (option_list (s_hand s)) +
  2 * length (s_chan s) + length (option_list (s_cur s)).

(** The steps that move events along. *)
Definition moves (l : label) : bool :=
  match l with ReadRecord | SendEvent | HandleEvent _ _ _ | WriteEvent true => true | _ => false end.

Definition live (s : sys K) : Prop :=
  s_phase s = Consuming /\ s_reading s = true /\ (s_pos s <= length (rb_records (kernel s)))%nat.

Lemma step_moves l s s' : moves l = true -> step l s = Some s' -> live s ->
  (work s' < work s)%nat /\ live s' /\ kernel s' = kernel s.
Proof.
  unfold live, work. intros M S (P & Rd & B).
  destruct l as [| | | | | | |v1 v2 now|[]| |]; try done;
    cbn [System.step] in S.
  - unfold read_record in S. rewrite Rd in S. destruct (s_hand s); [done|].
    destruct (rb_records (kernel s) !! s_pos s) as [raw|] eqn:E; [|done]. apply lookup_lt_Some in E.
    destruct (decode raw _); injection S as <-;
      (split; [|done]); unfold kernel in *; cbn -[Nat.mul] in *; lia.
  - unfold send_event in S. rewrite Rd in S. destruct (s_hand s); [|done]. case_decide; [|done].
    injection S as <-. split; [|done]. unfold kernel. cbn -[Nat.mul]. rewrite length_app. cbn -[Nat.mul]. lia.
  - unfold handle_event in S. rewrite P in S. destruct (s_cur s); [done|]. destruct (s_chan s); [done|].
    destruct (Handle _ _ _ _ _ _). injection S as <-. split; [|done].
    unfold kernel. cbn -[Nat.mul]. lia.
  - unfold write_event in S. rewrite P in S. destruct (s_cur s); [|done]. injection S as <-.
    split; [|done]. unfold kernel. cbn -[Nat.mul]. lia.
Qed.

Lemma moves_run boot ls hs s s' : forallb moves ls = true -> srun boot ls hs s s' -> live s ->
  (length ls + work s' <= work s)%nat /\ live s' /\ kernel s' = kernel s.
Proof.
  intros M R. revert M. induction R as [s|l ls hs s s1 s2 L S R IH]; intros M Lv; [done|].
  apply andb_prop in M as [M1 M2]. destruct (step_moves l s s1 M1 S Lv) as (W & Lv1 & E1).
  destruct (IH M2 Lv1) as (W2 & Lv2 & E2). split_and!; [cbn [length]; lia | done | congruence].
Qed.

Lemma live_moves boot s : live s -> drained s \/
  exists l s1, moves l = true /\ label_ok cfg boot s l /\ step l s = Some s1.
Proof.
  intros (P & Rd & B). destruct (s_cur s) as [ev|] eqn:C.
  { right. exists (WriteEvent true). cbn. unfold write_event. rewrite P, C. eauto. }
  destruct (s_chan s) as [|ev evs] eqn:Ch.
  2:{ right. exists (HandleEvent (mkView None None) (mkView None None) 0). cbn. unfold handle_event.
      rewrite P, C, Ch. destruct (Handle _ _ _ _ _ _). eexists. split_and!; done. }
  destruct (s_hand s) as [ev|] eqn:Ha.
  { right. exists SendEvent. cbn. unfold send_event. rewrite Rd, Ha, Ch. rewrite decide_True by (cbn; unfold chan_cap; lia).
    eauto. }
  destruct (rb_records (kernel s) !! s_pos s) as [raw|] eqn:E.
  { right. exists ReadRecord. cbn. unfold read_record. rewrite Rd, Ha, E. eauto. }
  left. apply lookup_ge_None in E. split_and!; try done. lia.
Qed.

(** C19: Termination: while the main loop and the reader run and writes succeed, the
    events on their way out are out after at most [work s] steps, in whatever order
    the two goroutines take them, and no step but theirs is needed. *)
Theorem pipeline_drains boot s : live s ->
  (forall ls hs s', forallb moves ls = true -> srun boot ls hs s s' -> (length ls <= work s)%nat) /\
  exists ls s', forallb moves ls = true /\ srun boot ls [] s s' /\ drained s' /\ kernel s' = kernel s.
Proof.
  intros Lv. split.
  { intros ls hs s' M R. destruct (moves_run boot ls hs s s' M R Lv) as [? _]. lia. }
  remember (work s) as n eqn:En. revert s Lv En. induction (lt_wf n) as [n _ IH]. intros s Lv ->.
  destruct (live_moves boot s Lv) as [D|(l & s1 & M & L & S)].
  { exists [], s. split_and!; try done. constructor. }
  destruct (step_moves l s s1 M S Lv) as (W & Lv1 & E1).
  destruct (IH _ W s1 Lv1 eq_refl) as (ls & s' & Ms & R & D & E2).
  exists (l :: ls), s'. split_and!; [by cbn; rewrite M | | done | congruence].
  replace [] with (observed mode_host l s ++ []) by (by destruct l). by econstructor.
Qed.

(** ** The table *)

Definition hit_ok (boot : Z) (x : hook) : Prop := not_own_parent cfg (hook_event x boot).

Lemma observed_ok boot l s : label_ok cfg boot s l -> Forall (hit_ok boot) (observed mode_host l s).
Proof.
  intros L. destruct l; try constructor. cbn. destruct (reported _ _ _); [|constructor].
  constructor; [apply L | constructor].
Qed.

(** The steps that change the table are the table's operations. *)
Lemma step_table boot l s s' : label_ok cfg boot s l -> step l s = Some s' ->
  Forall (not_own_parent cfg) (s_chan s) -> reachable cfg0 (s_table s) -> reachable cfg0 (s_table s').
Proof.
  intros L S N R. destruct l; cbn [System.step] in S;
    unfold seed_table, read_record, read_ends, send_event, send_cancelled, handle_event, write_event,
      loop_ends, sweep_table in S.
  1: by injection S as <-.
  1: destruct mode_host; [done|]; destruct (watch l (s_watcher s)); [by injection S as <- | done].
  - destruct (s_phase s); try done. injection S as <-. eapply rtc_r; [exact R|]. apply tstep_Seed.
  - by repeat case_match; simplify_eq.
  - by repeat case_match; simplify_eq.
  - by repeat case_match; simplify_eq.
  - by repeat case_match; simplify_eq.
  - destruct (s_phase s), (s_cur s); try done. destruct (s_chan s) as [|ev evs]; [done|].
    apply Forall_cons in N as [N _]. destruct L as [V1 V2].
    pose proof (tstep_Handle cfg v1 v2 now ev (s_table s) V1 V2 N) as T.
    destruct (Handle _ _ _ _ _ _) as [ev' t']. injection S as <-. by eapply rtc_r.
  - by repeat case_match; simplify_eq.
  - by repeat case_match; simplify_eq.
  - destruct (s_phase s); try done. injection S as <-. eapply rtc_r; [exact R|]. by apply tstep_Sweep.
Qed.

Lemma piped_chan_ok boot errors v hs ys dn qu rest (s : sys K) :
  piped boot errors v hs ys dn qu rest s -> Forall (hit_ok boot) hs ->
  Forall (not_own_parent cfg) (s_chan s).
Proof.
  intros P Ok. assert (Hq : Forall (not_own_parent cfg) (s_chan s ++ option_list (s_hand s))).
  { rewrite (p_queue _ _ _ _ _ _ _ _ _ P). apply Forall_map, Forall_forall. intros x Hx.
    rewrite Forall_forall in Ok. apply (Ok x). eapply elem_of_sublist; [|apply (p_sub _ _ _ _ _ _ _ _ _ P)].
    rewrite (p_split _ _ _ _ _ _ _ _ _ P). set_solver. }
  by apply Forall_app in Hq as [Hq _].
Qed.

Lemma srun_table boot errors v ls hs0 hs ys dn qu rest s s' : 0 <= v < 2 ^ 64 ->
  srun boot ls hs s s' -> piped boot errors v hs0 ys dn qu rest s -> Forall (hit_ok boot) hs0 ->
  reachable cfg0 (s_table s) -> reachable cfg0 (s_table s').
Proof.
  intros Rv R. revert hs0 ys dn qu rest.
  induction R as [s|l ls hs s s1 s2 L S R IH]; intros hs0 ys dn qu rest P Ok T; [done|].
  pose proof (step_table boot l s s1 L S (piped_chan_ok _ _ _ _ _ _ _ _ _ P Ok) T) as T1.
  destruct (piped_step _ _ _ _ _ _ _ _ _ _ l s s1 Rv L S P) as (ys1 & dn1 & qu1 & rest1 & P1).
  eapply IH; [exact P1 | | exact T1]. apply Forall_app. split; [done | by apply observed_ok].
Qed.

(** In every interleaving the process table is one its operations reach: index and
    LRU list agree, it holds at most [MaxEntries] processes, each under its own
    GUID, and no operation has dereferenced a nil pointer. *)
Theorem table_safe k (l : Loader) v ls hs s :
  rb_records k = [] -> drop_lookup k 0 = Some v -> 0 <= v < 2 ^ 64 ->
  srun (l_boot l) ls hs (start k l (New cfg0).2) s ->
  reachable cfg0 (s_table s) /\ t_panic (s_table s) = false /\
  Z.of_nat (size (t_entries (s_table s))) <= MaxEntries cfg.
Proof.
  intros Hk Hv Rv R. assert (T : reachable cfg0 (s_table s)).
  { eapply srun_table; [exact Rv | exact R | by apply piped_start | constructor | apply rtc_refl]. }
  split; [done|]. destruct (reachable_inv _ _ T) as [[W B] _]. split; [apply W|].
  rewrite (wf_size _ W). exact B.
Qed.
End theorems.
