(* ===== verification/SystemTyped.v ===== *)
(** * Integers stay in their types

    The model has integers as [Z]; the code has [uint32] and [uint64].  Here: no
    value of an event leaves its type on the way from the ring buffer through the
    process table to the output, in any interleaving, provided that the process
    records the world shows are typed, as those of [procfs.go] are. *)

From Stdlib Require Import ZArith Lia.
From stdpp Require Import prelude list gmap relations.
From S2P Require Import Prelude CLayout Archs BpfKernel CommonH ProcessBpf GoText Event Output Decode Wire BpfRun.
From S2P Require Import Guid ProcTable ProcTableSpec ProcTableProps ProcTableThms ProcFS.
From S2P Require Import Runtime Watcher Loader Sensor System SystemProps SystemThms.

Local Open Scope Z_scope.

(** ** Decoding *)

Lemma le_val_width n bs : (length bs <= n)%nat -> 0 <= le_val bs < 256 ^ Z.of_nat n.
Proof.
  intros L. pose proof (le_val_range bs). pose proof (Z.pow_le_mono_r 256 (Z.of_nat (length bs)) (Z.of_nat n)). lia.
Qed.

Lemma length_slice_le o n (bs : list byte) : (length (slice o n bs) <= Z.to_nat n)%nat.
Proof. unfold slice. rewrite length_take. lia. Qed.

Lemma field_u32 o raw : 0 <= le_val (slice o 4 raw) < 2 ^ 32.
Proof. apply (le_val_width 4), length_slice_le. Qed.
Lemma field_u64 o raw : 0 <= le_val (slice o 8 raw) < 2 ^ 64.
Proof. apply (le_val_width 8), length_slice_le. Qed.

Lemma ExitFromRaw_typed raw : 0 <= raw < 2 ^ 32 -> typed_exit (ExitFromRaw raw).
Proof.
  intros R. unfold typed_exit, ExitFromRaw. cbn [Exit_Code Exit_Signal Exit_Raw].
  change 0xff with (Z.ones 8). change 0x7f with (Z.ones 7). rewrite !Z.land_ones by lia.
  pose proof (Z.mod_pos_bound (Z.shiftr raw 8) (2 ^ 8)). pose proof (Z.mod_pos_bound raw (2 ^ 7)). lia.
Qed.

Lemma fromHeader_typed t raw comm boot : typed (fromHeader t (binary_Read_event 0 raw) comm boot).
Proof.
  unfold typed, typed_process, typed_parent. cbn -[Z.pow le_val slice].
  split_and!; try exact I; first [apply field_u32 | apply field_u64].
Qed.

(** What [decode] delivers is typed, whatever the bytes. *)
Lemma decode_typed raw boot ev : decode raw boot = inl ev -> typed ev.
Proof.
  unfold decode, read. destruct (_ <? _); [done|].
  destruct (_ =? processEventTypeEVENT_EXEC); [|destruct (_ =? processEventTypeEVENT_FORK);
    [|destruct (_ =? processEventTypeEVENT_EXIT); [|done]]]; destruct (negb _); intros E; try discriminate E;
    injection E as <-.
  - exact (fromHeader_typed TypeExec raw (px_Comm (binary_Read_exec raw)) boot).
  - apply fromHeader_typed.
  - destruct (fromHeader_typed TypeExit raw (pq_Comm (binary_Read_exit raw)) boot) as (T & P & Q & _).
    split; [exact T|]. split; [exact P|]. split; [exact Q|]. apply ExitFromRaw_typed, field_u32.
Qed.

(** ** The world *)

Definition typed_id (pid start : Z) : Prop := 0 <= pid < 2 ^ 32 /\ 0 <= start < 2 ^ 64.

(** [/proc] shows start times that fit in 64 bits. *)
Definition typed_view (v : view) : Prop :=
  ViewOk v /\ forall rd pid info, Proc v = Some rd -> rd pid = Some info -> 0 <= Info_StartTimeNs info < 2 ^ 64.

Definition typed_info (p : ProcInfo) : Prop := typed_id (Info_PID p) (Info_StartTimeNs p).

Definition typed_label (l : label) : Prop :=
  match l with
  | SeedTable procs => Forall (fun vp => typed_info vp.2) procs
  | HandleEvent v1 v2 _ => typed_view v1 /\ typed_view v2
  | _ => True
  end.

Lemma Read_start fs p pid info : ProcFS.Read fs p pid = inl info -> 0 <= Info_StartTimeNs info < 2 ^ 64.
Proof.
  unfold ProcFS.Read. destruct (ReadFile fs _); [|done]. destruct (parseStat _) as [[ppid ticks]|]; [|done].
  intros [= <-]. apply u64_range.
Qed.

(** The process table's view of [/proc], and the scan, are typed. *)
Lemma procfs_view_typed fs p scope : typed_view (procfs_view fs p scope).
Proof.
  split; [apply procfs_view_ok|]. intros rd pid info. cbn. intros [= <-].
  destruct (ProcFS.Read fs p pid) as [i|] eqn:E; [|done]. intros [= ->]. by eapply Read_start.
Qed.

Lemma Scan_typed fs p procs : Scan fs p = Some procs -> Forall typed_info procs.
Proof.
  unfold Scan. destruct (ReadDir fs (ProcRoot p)) as [ents|]; [|done]. intros [= <-].
  induction ents as [|e ents IH]; cbn [scan]; [constructor|]. destruct (ParseUint e 32) as [pid|]; [|done].
  destruct (ProcFS.Read fs p (u32 pid)) as [info|] eqn:E; [|done]. constructor; [|done].
  split; [|by eapply Read_start]. rewrite (Read_pid fs p _ _ E). apply u32_range.
Qed.

(** ** The table *)

Definition typed_entry (cfg : Config) (e : Entry) : Prop := own_guid cfg e /\ typed_id (PID e) (StartTimeNs e).

Section table.
Context (cfg : Config) (M : 1 <= MaxEntries cfg).

Definition typed_table (t : Table) : Prop := every (typed_entry cfg) (abs t).

Lemma typed_proc v rd pid st info : typed_view v -> typed_id pid st -> Proc v = Some rd -> rd pid = Some info ->
  StartTicks (Info_StartTimeNs info) = StartTicks st ->
  typed_entry cfg (mkEntry (t_GUID cfg pid st) [] (Info_PID info) (Info_PPID info) (Info_StartTimeNs info)
    (Info_Image info) (Info_Argv info) (Info_CgroupID info) (negb (inScope v (Info_CgroupID info))) 0).
Proof.
  intros [V T] [Rp _] HP HR HT. split; [by eapply own_guid_proc|]. cbn. rewrite (V rd pid info HP HR).
  by split; [|eapply T].
Qed.

Lemma typed_Handle v1 v2 now ev t : typed_view v1 -> typed_view v2 -> not_own_parent cfg ev ->
  wf cfg t -> typed ev -> typed_table t ->
  typed (Handle cfg v1 v2 now ev t).1 /\ typed_table (Handle cfg v1 v2 now ev t).2.
Proof.
  intros V1 V2 N W (T1 & T2 & T3 & T4) K.
  assert (A : every (typed_entry cfg) (s_Handle cfg v1 v2 now ev (abs t)).2 /\
    let p := Event_Parent (s_Handle cfg v1 v2 now ev (abs t)).1 in typed_id (Parent_PID p) (Parent_StartTimeNs p)).
  { apply (every_Handle cfg (typed_entry cfg) typed_id typed_view); try done.
    - exact typed_proc.
    - split; [|exact T3]. destruct T2 as (P1 & _ & _ & _ & _ & P6). by split. }
  pose proof (Handle_facts cfg v1 v2 now ev t) as F.
  destruct (Handle_spec cfg M v1 v2 now ev t W N) as (t' & E & E' & _). rewrite E in *. cbn [fst snd] in *.
  destruct A as [A1 A2]. rewrite E' in A1. split; [|exact A1].
  set (ev' := (s_Handle cfg v1 v2 now ev (abs t)).1) in *. clearbody ev'.
  pose proof (f_equal f_ns F) as F1. pose proof (f_equal f_pid F) as F2. pose proof (f_equal f_tid F) as F3.
  pose proof (f_equal f_uid F) as F4. pose proof (f_equal f_gid F) as F5. pose proof (f_equal f_cgroup F) as F6.
  pose proof (f_equal f_start F) as F7. pose proof (f_equal f_exit F) as F8. cbn in F1, F2, F3, F4, F5, F6, F7, F8.
  unfold typed, typed_process. rewrite F1, F2, F3, F4, F5, F6, F7, F8.
  exact (conj T1 (conj T2 (conj A2 T4))).
Qed.

Lemma typed_Seed procs t : wf cfg t -> Forall (fun vp => typed_info vp.2) procs -> typed_table t ->
  typed_table (Seed cfg procs t).2.
Proof.
  intros W F K. pose proof (Seed_refines cfg M procs t W) as R.
  assert (S : every (typed_entry cfg) (s_Seed cfg procs (abs t)).2).
  { apply (every_Seed cfg (typed_entry cfg) typed_id); [|done|done]. intros start p Q. split; [apply own_guid_seed|].
    unfold seed_entry. by destruct (start !! _); [destruct (_ =? 0)|]. }
  destruct (Seed cfg procs t) as [n t']. destruct R as [E _]. by rewrite E in S.
Qed.

Lemma typed_Sweep order now t : wf cfg t -> order ≡ₚ map_to_list (t_entries t) -> typed_table t ->
  typed_table (Sweep cfg order now t).2.
Proof.
  intros W O K. pose proof (Sweep_refines cfg order now t W O) as R.
  pose proof (every_Sweep cfg (typed_entry cfg) now (abs t) K) as S.
  destruct (Sweep cfg order now t) as [n t']. destruct R as [E _]. by rewrite E in S.
Qed.
End table.

(** ** The system *)

Lemma annotate_typed f ev : typed ev -> typed (annotate f ev).
Proof. intros T. unfold annotate. destruct f as [f|]; [|done]. by destruct (f _). Qed.

Section system.
Context `{Arch, !ArchOk} {K : Type} `{HM : !BpfMaps K, HMok : !BpfMapsOk K, HU : !UserMaps K, HUok : !UserMapsOk K}.
Variable mode_host : bool.
Variable cfg0 : Config.

Local Abbreviation cfg := (New cfg0).1.
Local Abbreviation step := (step mode_host cfg).
Local Abbreviation srun := (srun mode_host cfg).

(** The events the system holds. *)
Definition held (s : sys K) : list Event :=
  option_list (s_hand s) ++ s_chan s ++ option_list (s_cur s) ++ s_out s.

Record typed_sys (s : sys K) : Prop := {
  typed_sys_table : typed_table cfg (s_table s);
  typed_sys_held : Forall typed (held s);
}.

Lemma step_typed boot l s s' : label_ok cfg boot s l -> typed_label l -> step l s = Some s' ->
  Forall (not_own_parent cfg) (s_chan s) -> reachable cfg0 (s_table s) -> typed_sys s -> typed_sys s'.
Proof.
  intros L TL S N R [TT TH]. pose proof (New_max cfg0) as M. destruct (reachable_inv _ _ R) as [W _].
  destruct s as [w ld pos rd hand chan p cur t out]. unfold held in TH. cbn in N, R, TT, TH, W.
  destruct l as [x|l|procs| |failed| | |v1 v2 now|ok| |order now]; cbn [System.step] in S.
  1: by injection S as <-.
  1: destruct mode_host; [done|]; cbn in S; destruct (watch l w); [by injection S as <- | done].
  - destruct p; try done. injection S as <-. split; [|exact TH]. by apply typed_Seed.
  - unfold read_record in S. cbn in S. destruct rd, hand; try done.
    destruct (rb_records _ !! pos) as [raw|]; [|done]. destruct (decode raw (l_boot ld)) as [ev|] eqn:D;
      injection S as <-; split; try done; unfold held; cbn in *. constructor; [by eapply decode_typed | done].
  - unfold read_ends in S. cbn in S. destruct rd, hand; try done. by injection S as <-.
  - unfold send_event in S. cbn in S. destruct rd, hand as [ev|]; try done. case_decide; [|done].
    injection S as <-. split; [done|]. unfold held. cbn in *. apply Forall_cons in TH as [T1 T2].
    rewrite <- app_assoc. apply Forall_app in T2 as [T2 T3]. apply Forall_app. split; [done|]. by constructor.
  - unfold send_cancelled in S. cbn in S. destruct rd, hand; try done. by injection S as <-.
  - unfold handle_event in S. cbn [s_phase s_cur s_chan s_table] in S. destruct p, cur, chan as [|ev chan]; try done.
    apply Forall_cons in N as [N _]. destruct TL as [V1 V2].
    apply Forall_app in TH as [T1 T2]. cbn in T2. apply Forall_cons in T2 as [T2 T3].
    destruct (typed_Handle cfg M v1 v2 now ev t V1 V2 N W T2 TT) as [T4 T5].
    destruct (Handle cfg v1 v2 now ev t) as [ev1 t1]. injection S as <-. split; [exact T5|]. unfold held. cbn in *.
    apply Forall_app. split; [done|]. apply Forall_app in T3 as [T3 T6]. apply Forall_app. split; [done|]. by constructor.
  - unfold write_event in S. cbn in S. destruct p, cur as [ev|]; try done. injection S as <-.
    destruct ok; [|by split]. split; [done|]. unfold held in *. cbn in *.
    rewrite !Forall_app in TH. destruct TH as (T1 & T2 & T3). apply Forall_cons in T3 as [T3 T4].
    rewrite !Forall_app. split_and!; try done. constructor; [by apply annotate_typed | constructor].
  - unfold loop_ends in S. cbn in S. destruct p, cur, chan, rd; try done. by injection S as <-.
  - destruct p; try done. injection S as <-. split; [|exact TH]. by apply typed_Sweep.
Qed.

Lemma srun_typed boot errors v ls hs0 hs ys dn qu rest s s' : 0 <= v < 2 ^ 64 ->
  srun boot ls hs s s' -> piped boot errors v hs0 ys dn qu rest s -> Forall (hit_ok cfg0 boot) hs0 ->
  Forall typed_label ls -> reachable cfg0 (s_table s) -> typed_sys s -> typed_sys s'.
Proof.
  intros Rv R. revert hs0 ys dn qu rest.
  induction R as [s|l ls hs s s1 s2 L S R IH]; intros hs0 ys dn qu rest P Ok TL T Ts; [done|].
  apply Forall_cons in TL as [TL1 TL]. pose proof (piped_chan_ok _ _ _ _ _ _ _ _ _ _ P Ok) as N.
  pose proof (step_table mode_host cfg0 boot l s s1 L S N T) as T1.
  pose proof (step_typed boot l s s1 L TL1 S N T Ts) as Ts1.
  destruct (piped_step mode_host cfg boot _ _ _ _ _ _ _ l s s1 Rv L S P) as (ys1 & dn1 & qu1 & rest1 & P1).
  eapply IH; [exact P1 | | done | exact T1 | exact Ts1]. apply Forall_app. split; [done | by eapply observed_ok].
Qed.

Lemma typed_start (k : K) (l : Loader) : typed_sys (start k l (New cfg0).2).
Proof. split; constructor. Qed.
End system.
