(* ===== verification/EndToEnd.v ===== *)
(** * From loading to standard output

    The theorems of the parts put together: [loader.Load] on a fresh kernel, every
    interleaving of hits, watcher, timers, reader and main loop after it, and the
    bytes the main loop has put on standard output. *)

From Stdlib Require Import ZArith Lia.
From Stdlib Require Import String.
From stdpp Require Import prelude list gmap relations.
From S2P Require Import Prelude GoStd GoText GoTime GoJson CLayout Archs BpfKernel CommonH ProcessBpf.
From S2P Require Import Event Output Decode Wire BpfRun Guid ProcTable ProcTableSpec ProcTableProps ProcTableThms.
From S2P Require Import Runtime Watcher WatcherProps Loader Attach Sensor System SystemProps SystemThms SystemTyped.

Local Open Scope Z_scope.

(** The maps a loaded collection starts with: the ring buffer and the hash map are
    empty, the counters zero. *)
Class EbpfLibFresh (L K : Type) `{EbpfLib L K, BpfMaps K} : Prop := {
  fresh_records s l h k : (LoadAndAssign s l).1 = Some (h, k) -> rb_records k = [];
  fresh_drops s l h k : (LoadAndAssign s l).1 = Some (h, k) -> drop_lookup k 0 = Some 0;
  fresh_targets s l h k id : (LoadAndAssign s l).1 = Some (h, k) -> target_lookup k id = None;
}.

(** What a reader of the output gets of the kernel's facts. *)
Definition valid_facts (f : facts) : facts :=
  mkFacts (f_type f) (f_time f) (f_ns f) (f_pid f) (f_tid f) (f_uid f) (f_gid f) (f_cgroup f) (f_start f)
    (valid_utf8 (f_comm f)) (f_fname_trunc f) (f_argv_trunc f) (f_argv_failed f) (f_exit f)
    ((fun '(image, argv) => (valid_utf8 image, map valid_utf8 argv)) <$> f_exec f).

Lemma facts_valid ev : facts_of (valid_event ev) = valid_facts (facts_of ev).
Proof. unfold facts_of, valid_facts. cbn. by case_decide. Qed.

Section end_to_end.
Context `{Arch, !ArchOk} {K : Type} `{HM : !BpfMaps K, HMok : !BpfMapsOk K, HU : !UserMaps K, HUok : !UserMapsOk K}.
Context {L : Type} `{HL : !EbpfLib L K, HF : !EbpfLibFresh L K}.
Variable cfg0 : Config.

Lemma s64_range z : - 2 ^ 63 <= s64 z < 2 ^ 63.
Proof. unfold s64. pose proof (u64_range z). case_match; lia. Qed.

(** The kernel [Load] leaves, and the clock of its loader. *)
Lemma Load_fresh HostMode (l : L) r k l' : Load HostMode l = (inl (r, k), l') ->
  rb_records k = [] /\ drop_lookup k 0 = Some 0 /\ (forall id, target_lookup k id = None) /\
  - 2 ^ 63 <= res_boot r < 2 ^ 63.
Proof.
  unfold Load, bootTime. destruct (RemoveMemlock l) as [[] l1]; [|done]. cbn [negb].
  destruct (ClockGettime CLOCK_REALTIME l1) as [[rt|] l2]; [|done].
  destruct (ClockGettime CLOCK_BOOTTIME l2) as [[bt|] l3]; [|done].
  destruct (loadProcess l3) as [[spec|] l4]; [|done]. destruct (Variable_Set HostMode spec) as [spec'|]; [|done].
  destruct (LoadAndAssign spec' l4) as [[[objs k']|] l5] eqn:E; [|done]. apply (f_equal fst) in E. cbn [fst] in E.
  set (r0 := mkResources objs [] None (var_mode_host spec') (s64 (rt - bt))).
  assert (B : forall hooks r1 l1, res_boot r1 = s64 (rt - bt) ->
    match (attach_all hooks r1 l1).1 with inl r => res_boot r = s64 (rt - bt) | inr _ => True end).
  { induction hooks as [|name hooks IH]; intros r1 l1' Hb; cbn; [done|].
    destruct (AttachHook name (res_objs r1) l1') as [[lk|] l2']; [|done]. by apply IH. }
  specialize (B Hooks r0 l5 eq_refl). destruct (attach_all Hooks r0 l5) as [[r1|err] l6]; [|done]. cbn in B.
  destruct (NewReader (res_objs r1) l6) as [[rd|] l7]; [|done].
  intros [= <- <- _]. cbn [res_boot]. rewrite B. split_and!.
  - by eapply fresh_records.
  - by eapply fresh_drops.
  - intros id. by eapply fresh_targets.
  - apply s64_range.
  - apply s64_range.
Qed.

Lemma hook_time x boot : - 2 ^ 63 <= boot < 2 ^ 63 -> time_ok (hook_event x boot).
Proof.
  intros B. assert (E : exists ts, Event_Time (hook_event x boot) = boot + s64 ts) by (destruct x; by eexists).
  destruct E as [ts E]. unfold time_ok. rewrite E. pose proof (s64_range ts). lia.
Qed.

(** What standard output holds in state [s] of a run that began with the hits [hs] in
    the capture scope.  They are counted as drops or submitted ([ys]); standard
    output is one line of JSON for each of the first of the submitted hits, in order,
    and a reader of the line gets the facts the kernel reported for the hit; no record
    fails to decode; once the pipeline is drained every submitted hit has its line.
    As long as no removal from the kernel's set fails, the scope is exactly the
    watcher's map in container mode, and every process in host mode. *)
Definition delivered (HostMode : bool) (boot : Z) (zone : Z -> Z) (hs : list hook) (s : sys K) : Prop :=
  exists ys out,
    Stdout zone (s_out s) = Some out /\
    sublist ys hs /\
    drop_lookup (kernel s) 0 = Some (u64 (zlen hs - zlen ys)) /\
    Forall2 (fun line x => exists ev, read_line line = Some ev /\
               facts_of ev = valid_facts (facts_of (hook_event x boot)))
      (lines out) (take (length (lines out)) ys) /\
    decodeErrors (s_loader s) = 0 /\
    (drained s -> length (lines out) = length ys) /\
    ((forall id (k' : K), (RemoveCgroup id k').1 = true) -> forall x,
     reported HostMode (kernel s) x = hook_process x && (HostMode || InScope (hook_cgroup x) (s_watcher s))).

(** From [loader.Load] to the bytes on standard output, in every interleaving after a
    successful load. *)
Theorem load_to_stdout HostMode (l : L) r k l' zone ls hs s :
  Load HostMode l = (inl (r, k), l') ->
  srun HostMode (New cfg0).1 (res_boot r) ls hs (start k (loader_of r) (New cfg0).2) s ->
  zone_ok zone -> Forall typed_label ls -> delivered HostMode (res_boot r) zone hs s.
Proof.
  intros HLoad R Z TL. destruct (Load_fresh _ _ _ _ _ HLoad) as (F1 & F2 & F3 & B).
  pose proof (piped_start (res_boot r) k (loader_of r) 0 (New cfg0).2 F1 F2 ltac:(lia) eq_refl) as P0.
  assert (T : Forall typed (s_out s)).
  { assert (Ts : typed_sys cfg0 s) by (eapply (srun_typed HostMode cfg0); [| exact R | exact P0 | constructor | exact TL | apply rtc_refl | apply typed_start]; lia).
    pose proof (typed_sys_held cfg0 s Ts) as Hd. unfold held in Hd. rewrite !Forall_app in Hd. apply Hd. }
  destruct (piped_run HostMode (New cfg0).1 (res_boot r) _ 0 ls [] hs _ _ _ _ _ s ltac:(lia) R P0) as (ys & dn & qu & rest & P).
  apply piped_outcome in P as (P1 & P2 & P3 & P4 & P5).
  assert (O : Forall (fun ev => typed ev /\ time_ok ev) (s_out s)).
  { clear - P3 T B. induction P3 as [|ev x out xs E _ IH]; [constructor|]. apply Forall_cons in T as [T1 T].
    constructor; [|by apply IH]. split; [done|]. pose proof (hook_time x _ B) as O. unfold time_ok in *.
    apply (f_equal f_time) in E. cbn in E. by rewrite E. }
  destruct (Stdout_lines zone (s_out s)) as (out & E & M).
  { eapply Forall_impl; [exact O|]. intros ev [T1 O1]. by apply Encode_roundtrip. }
  assert (Ln : length (lines out) = length (s_out s)).
  { apply (f_equal length) in M. by rewrite !length_map in M. }
  exists ys, out. rewrite Ln. split; [exact E|]. split; [exact P1|]. split; [exact P2|].
  split; [|split; [exact P4|]; split; [exact P5|]].
  - clear - P3 M. revert M. generalize read_line as rd. intros rd. generalize (lines out) as lns. induction P3 as [|ev x out' xs E _ IH]; intros lns M.
    + by destruct lns.
    + destruct lns as [|line lns]; [done|]. injection M as M1 M. constructor; [|by apply IH].
      exists (valid_event ev). split; [done|]. by rewrite facts_valid, E.
  - intros HR x. rewrite reported_split. f_equal. destruct HostMode; [done|].
    refine (run_agree cfg0 k (loader_of r) ls hs s HR _ R (hook_cgroup x)).
    intros id. unfold captures, loader_cgroups, should_capture. by rewrite F3.
Qed.
End end_to_end.
