(* ===== verification/Startup.v ===== *)
(** * [run] of cmd/anyone-sensor/main.go, around its loop

    [startup] is the function from its first line to the start of the loop, with
    every error path; [outcome] is what it returns after the loop.  The kernel
    library is [EbpfLib], the container runtime [Runtime], the file system a record
    of system calls.  What [startup] leaves is a state of [System]: the loop is
    modelled there. *)

From Stdlib Require Import ZArith Lia.
From Stdlib Require Import String.
From stdpp Require Import prelude list gmap relations.
From S2P Require Import Prelude CLayout Archs BpfKernel CommonH ProcessBpf Event Decode Wire BpfRun.
From S2P Require Import Guid ProcTable ProcTableSpec ProcTableProps ProcTableThms ProcFS Identity.
From S2P Require Import Runtime Watcher WatcherProps WatcherThms Loader Attach Sensor System SystemProps.

Local Open Scope Z_scope.

(** The runtime interface stands for the client of [o_dockerSocket]; the interval is
    that of the log lines, in nanoseconds. *)
Record options := mkOptions {
  o_mode : list byte; o_target : Target; o_dockerSocket : list byte; o_statsInterval : Z; o_maxProcs : Z;
}.

Inductive run_error :=
| OptionsFailed (err : option_error)
| IdentityFailed (err : identity_error)
| LoadFailed (err : load_error)
| StartFailed (err : start_error)
| WatchDirFailed (dir : list byte)
| ScanFailed
| WriteFailed
| ReadFailed_
| ContextFailed.

Section startup.
Context `{Arch, !ArchOk} {K : Type} `{HM : !BpfMaps K, HMok : !BpfMapsOk K, HU : !UserMaps K, HUok : !UserMapsOk K}.
Context {L : Type} `{HL : !EbpfLib L K} {D : Type} `{HR : !Runtime D}.
Context (fs : filesystem) (inode : list byte -> D -> option Z) (proc_cgroup : Z -> D -> option (list byte)).
Context (CgroupRoot : list byte).
(** [inotify_init1] and [inotify_add_watch] on a directory. *)
Context (watch_dir : list byte -> D -> bool * D).

(** [watcher.Start], to the start of its goroutines. *)
Definition start_watcher (T : Target) (s : Watcher K * D) : option run_error * (Watcher K * D) :=
  let '(r, (w, d)) := Watcher.Start inode proc_cgroup CgroupRoot T s in
  match r with
  | inr err => (Some (StartFailed err), (w, d))
  | inl dir => let '(ok, d) := watch_dir dir d in (if ok then None else Some (WatchDirFailed dir), (w, d))
  end.

(** The state the loop starts in, the loader's resources and the table's
    configuration; or the error, after the deferred [l.Close()].  This is the main
    goroutine alone: every process of the scan meets the scope the watcher has when
    [Start] returns.  That a goroutine of the watcher changes it meanwhile is in
    [System], whose step [SeedTable] gives each process a view of its own. *)
Definition startup (o : options) (l : L) (d : D)
    : (sys K * resources * Config + run_error) * L * D :=
  match check_options (o_mode o) (o_target o) with
  | inr err => (inr (OptionsFailed err), l, d)
  | inl hostMode =>
      match HostIdentity fs with
      | inr err => (inr (IdentityFailed err), l, d)
      | inl (hostID, bootID) =>
          let '(loaded, l) := Load hostMode l in
          match loaded with
          | inr err => (inr (LoadFailed err), l, d)
          | inl (r, k) =>
              let '(failed, (w, d)) := if hostMode then (None, (NewWatcher k, d))
                                       else start_watcher (o_target o) (NewWatcher k, d) in
              match failed with
              | Some err => (inr err, (Close r l).2, d)
              | None =>
                  let '(cfg, t) := New (mkConfig hostID bootID (o_maxProcs o) 0) in
                  match Scan fs NewProcFS with
                  | None => (inr ScanFailed, (Close r l).2, d)
                  | Some procs =>
                      let scope := if hostMode then None else Some (fun id => InScope id w) in
                      let t := (Seed cfg (map (pair (procfs_view fs NewProcFS scope)) procs) t).2 in
                      (inl (mkSys w (loader_of r) 0 true None [] Consuming None t [], r, cfg), l, d)
                  end
              end
          end
      end
  end.

(** [run]'s result once the loop has ended: a failed write, the reader's error, a
    context that ended other than by a signal, or nil. *)
Definition outcome (s : sys K) (ctx_err canceled : bool) : option run_error :=
  match s_cur s with
  | Some _ => Some WriteFailed
  | None => if l_err (s_loader s) then Some ReadFailed_
            else if negb canceled && ctx_err then Some ContextFailed else None
  end.

(** [logStats]: the loader's counters and the table's. *)
Definition logStats (s : sys K) : option (LoaderStats * (Z * ProcTable.Stats)) :=
  match Loader.Stats (s_loader s) (kernel s) with
  | None => None
  | Some st => Some (st, t_Stats (s_table s))
  end.

(** ** Lemmas *)

Lemma wstep_watch l (w w' : Watcher K) : wstep l w w' -> watch l w = Some w'.
Proof.
  intros S. destruct S as [c w|id c w|id w|t id w A|t id w F]; cbn; try done; by rewrite decide_True.
Qed.

Lemma runs_start T (s : Watcher K * D) : runs_to s.1 (start_watcher T s).2.1.
Proof.
  unfold start_watcher, Start. destruct (Validate T); [by destruct s|].
  pose proof (runs_resync inode proc_cgroup CgroupRoot T s) as R.
  destruct (resync _ _ _ T s) as [[err|] [w d]]; [done|]. destruct (CgroupPath _ d) as [[probe|err] d1]; [|done].
  by destruct (watch_dir _ d1).
Qed.

(** The watcher's steps as a run of the whole sensor without hits. *)
Lemma watch_srun cfg boot wls s w : wrun wls (s_watcher s) w ->
  srun false cfg boot (map Watch wls) [] s (set_watcher w s).
Proof.
  intros R. remember (s_watcher s) as w0 eqn:E. revert s E. induction R as [w|l ls w w1 w2 S R IH]; intros s ->.
  - replace (set_watcher (s_watcher s) s) with s by (by destruct s). constructor.
  - apply (srun_step _ _ _ (Watch l) (map Watch ls) [] s (set_watcher w1 s)); [exact I | |].
    + cbn. by rewrite (wstep_watch _ _ _ S).
    + by apply (IH (set_watcher w1 s)).
Qed.

Lemma srun_app mh cfg boot ls hs s s1 : srun mh cfg boot ls hs s s1 -> forall ls' hs' s2,
  srun mh cfg boot ls' hs' s1 s2 -> srun mh cfg boot (ls ++ ls') (hs ++ hs') s s2.
Proof.
  induction 1 as [s|l ls hs s s1 s2 L' S' R IH]; intros ls' hs' s3 R'; [done|]. rewrite <- app_assoc.
  cbn. econstructor; [done | done | by apply IH].
Qed.

Lemma srun_snoc mh cfg boot ls hs s s1 l s2 : srun mh cfg boot ls hs s s1 ->
  label_ok cfg boot s1 l -> step mh cfg l s1 = Some s2 -> observed mh l s1 = [] ->
  srun mh cfg boot (ls ++ [l]) hs s s2.
Proof.
  intros R Lo S O. rewrite <- (app_nil_r hs). apply (srun_app _ _ _ _ _ _ _ R). rewrite <- O, <- (app_nil_r (observed _ _ _)).
  econstructor; [done | done | constructor].
Qed.

(** ** Properties *)

Context `{HLok : !EbpfLibOk L K}.

(** Every error releases what was opened; so does [Close] when the loop starts, with
    the programs in the mode asked for. *)
Lemma startup_releases o l d :
  let '(res, l', _) := startup o l d in
  match res with
  | inr _ => handles l' = handles l
  | inl (_, r, _) => check_options (o_mode o) (o_target o) = inl (res_mode r) /\ handles (Close r l').2 = handles l
  end.
Proof.
  unfold startup. destruct (check_options (o_mode o) (o_target o)) as [hostMode|err]; [|done].
  destruct (HostIdentity fs) as [[hostID bootID]|err]; [|done].
  pose proof (Load_holds hostMode l) as A. destruct (Load hostMode l) as [[[r k]|err] l1]; [|done].
  destruct A as (Hh & _ & _ & Mo). pose proof (holds_close _ _ _ Hh) as Hc.
  destruct (if hostMode then _ else _) as [failed [w d']]. destruct failed as [err|]; [done|].
  destruct (New _) as [cfg t]. destruct (Scan fs NewProcFS) as [procs|]; [|done]. by rewrite Mo.
Qed.

(** [run] starts completely or not at all.  On every error before its loop the
    process is left with the handles it had.  Otherwise the state the loop starts in
    is one that the whole sensor reaches from the loaded kernel by steps of the
    watcher and then the seeding of the table: the target is captured before the
    table is seeded and before any event is read, so that what happens meanwhile
    waits in the ring buffer; the programs run in the mode asked for. *)
Theorem startup_spec o l d :
  let '(res, l', d') := startup o l d in
  match res with
  | inr err => handles l' = handles l
  | inl (s, r, cfg) =>
      exists (hostMode : bool) (k : K) (cfg0 : Config) (wls : list wlabel) (procs : list ProcInfo),
        let v := procfs_view fs NewProcFS
                   (if hostMode then None else Some (fun id => InScope id (s_watcher s))) in
        check_options (o_mode o) (o_target o) = inl hostMode /\ res_mode r = hostMode /\
        (exists l1, Load hostMode l = (inl (r, k), l1)) /\
        cfg = (New cfg0).1 /\ MaxEntries cfg0 = o_maxProcs o /\ Scan fs NewProcFS = Some procs /\
        (hostMode = true -> wls = []) /\
        (hostMode = false -> start_watcher (o_target o) (NewWatcher k, d) = (None, (s_watcher s, d'))) /\
        srun hostMode cfg (res_boot r) (map Watch wls ++ [SeedTable (map (pair v) procs)]) []
          (start k (loader_of r) (New cfg0).2) s /\
        handles (Close r l').2 = handles l
  end.
Proof.
  unfold startup. destruct (check_options (o_mode o) (o_target o)) as [hostMode|err] eqn:Co; [|done].
  destruct (HostIdentity fs) as [[hostID bootID]|err]; [|done].
  pose proof (Load_holds hostMode l) as A. destruct (Load hostMode l) as [[[r k]|err] l1] eqn:Ld; [|done].
  destruct A as (Hh & _ & _ & Mo). pose proof (holds_close _ _ _ Hh) as Hc.
  set (cfg0 := mkConfig hostID bootID (o_maxProcs o) 0).
  assert (W : exists wls, (hostMode = true -> wls = []) /\
    let '(failed, (w, d')) := (if hostMode then (None, (NewWatcher k, d))
                               else start_watcher (o_target o) (NewWatcher k, d)) in
    wrun wls (NewWatcher k) w).
  { destruct hostMode; [exists []; split; [done | constructor]|].
    destruct (runs_start (o_target o) (NewWatcher k, d)) as [wls R]. exists wls. split; [done|].
    by destruct (start_watcher _ _) as [failed [w d']]. }
  destruct W as (wls & Wh & W).
  destruct (if hostMode then _ else _) as [failed [w d']] eqn:St. destruct failed as [err|]; [done|].
  destruct (New cfg0) as [cfg t] eqn:N. destruct (Scan fs NewProcFS) as [procs|] eqn:Sc; [|done].
  exists hostMode, k, cfg0, wls, procs. rewrite N. cbn [fst snd s_watcher]. split_and!; try done.
  { by exists l1. }
  { by intros ->. }
  set (s0 := start k (loader_of r) t).
  apply (srun_snoc _ _ _ (map Watch wls) [] s0 (set_watcher w s0)); [| exact I | done | done].
  destruct hostMode; [|by apply watch_srun].
  rewrite Wh in * by done. injection St as <- _. constructor.
Qed.
End startup.
