(* ===== verification/Main.v ===== *)
(** * [main] of cmd/anyone-sensor/main.go

    The flags it declares, over [GoFlag]; the process from its command line to the
    start of [run]'s loop ([main]) and its exit status after it ([exit_status]).
    What [main] and [run] log is not modelled. *)

From Stdlib Require Import ZArith Lia.
From Stdlib Require Import String.
From stdpp Require Import prelude list gmap relations.
From S2P Require Import Prelude CLayout Archs BpfKernel CommonH ProcessBpf Event Decode Wire BpfRun GoText GoFlag.
From S2P Require Import Guid ProcTable ProcFS Identity.
From S2P Require Import Runtime Watcher Loader Attach Sensor System Startup.

Local Open Scope list_scope.
Local Open Scope Z_scope.

(** ** The flags *)

Definition f_mode : list byte := str "mode".
Definition f_container : list byte := str "container".
Definition f_container_id : list byte := str "container-id".
Definition f_container_label : list byte := str "container-label".
Definition f_docker_socket : list byte := str "docker-socket".
Definition f_stats_interval : list byte := str "stats-interval".
Definition f_max_procs : list byte := str "max-procs".

Definition defaults : options :=
  mkOptions (str "container") (mkTarget [] [] []) (str "/var/run/docker.sock") 0 100000.

(** [flag.StringVar], [flag.DurationVar] and [flag.IntVar]: a string flag takes any
    value. *)
Definition set_target (T : Target) (o : options) : option options :=
  Some (mkOptions (o_mode o) T (o_dockerSocket o) (o_statsInterval o) (o_maxProcs o)).
Definition set_mode (v : list byte) (o : options) : option options :=
  Some (mkOptions v (o_target o) (o_dockerSocket o) (o_statsInterval o) (o_maxProcs o)).
Definition set_name (v : list byte) (o : options) : option options :=
  set_target (mkTarget v (Target_ID (o_target o)) (Target_Label (o_target o))) o.
Definition set_id (v : list byte) (o : options) : option options :=
  set_target (mkTarget (Target_Name (o_target o)) v (Target_Label (o_target o))) o.
Definition set_label (v : list byte) (o : options) : option options :=
  set_target (mkTarget (Target_Name (o_target o)) (Target_ID (o_target o)) v) o.
Definition set_socket (v : list byte) (o : options) : option options :=
  Some (mkOptions (o_mode o) (o_target o) v (o_statsInterval o) (o_maxProcs o)).
Definition set_interval (v : list byte) (o : options) : option options :=
  d ← ParseDuration v; Some (mkOptions (o_mode o) (o_target o) (o_dockerSocket o) d (o_maxProcs o)).
Definition set_procs (v : list byte) (o : options) : option options :=
  n ← ParseInt0 v; Some (mkOptions (o_mode o) (o_target o) (o_dockerSocket o) (o_statsInterval o) n).

Definition formal (name : list byte) : option (list byte -> options -> option options) :=
  if decide (name = f_mode) then Some set_mode
  else if decide (name = f_container) then Some set_name
  else if decide (name = f_container_id) then Some set_id
  else if decide (name = f_container_label) then Some set_label
  else if decide (name = f_docker_socket) then Some set_socket
  else if decide (name = f_stats_interval) then Some set_interval
  else if decide (name = f_max_procs) then Some set_procs
  else None.

(** ** The process *)

(** What has become of the process when [run]'s loop starts. *)
Inductive process (K : Type) :=
| Exited (status : Z)
| Looping (s : sys K) (r : resources) (cfg : Config).
Arguments Exited {K}.
Arguments Looping {K}.

Section main.
Context `{Arch, !ArchOk} {K : Type} `{HM : !BpfMaps K, HMok : !BpfMapsOk K, HU : !UserMaps K, HUok : !UserMapsOk K}.
Context {L : Type} `{HL : !EbpfLib L K} {D : Type} `{HR : !Runtime D}.
Context (fs : filesystem) (inode : list byte -> D -> option Z) (proc_cgroup : Z -> D -> option (list byte)).
Context (CgroupRoot : list byte) (watch_dir : list byte -> D -> bool * D).

(** [args] is [os.Args[1:]]; [flag.Parse] ends the process on an error. *)
Definition main (args : list (list byte)) (l : L) (d : D) : process K * L * D :=
  match Parse formal args defaults with
  | ErrHelp => (Exited 0, l, d)
  | FlagError _ => (Exited 2, l, d)
  | Parsed o _ =>
      match startup fs inode proc_cgroup CgroupRoot watch_dir o l d with
      | (inr _, l, d) => (Exited 1, l, d)
      | (inl (s, r, cfg), l, d) => (Looping s r cfg, l, d)
      end
  end.

(** The exit status when the loop has ended in [s]. *)
Definition exit_status (s : sys K) (ctx_err canceled : bool) : Z :=
  match outcome s ctx_err canceled with Some _ => 1 | None => 0 end.
End main.

(** ** Reading a command line back *)

(** The settings that give [o], each flag in its own spelling. *)
Definition settings (two joined : list byte -> bool) (o : options) : list setting := [
  Setting f_mode (o_mode o) (two f_mode) (joined f_mode);
  Setting f_container (Target_Name (o_target o)) (two f_container) (joined f_container);
  Setting f_container_id (Target_ID (o_target o)) (two f_container_id) (joined f_container_id);
  Setting f_container_label (Target_Label (o_target o)) (two f_container_label) (joined f_container_label);
  Setting f_docker_socket (o_dockerSocket o) (two f_docker_socket) (joined f_docker_socket);
  Setting f_stats_interval (FormatInt (o_statsInterval o) ++ str "ns") (two f_stats_interval) (joined f_stats_interval);
  Setting f_max_procs (FormatInt (o_maxProcs o)) (two f_max_procs) (joined f_max_procs)].

Definition command_line (two joined : list byte -> bool) (o : options) : list (list byte) :=
  concat (map setting_args (settings two joined o)).

(** Integers of their Go types. *)
Definition options_typed (o : options) : Prop :=
  - 2 ^ 63 <= o_statsInterval o < 2 ^ 63 /\ - 2 ^ 63 <= o_maxProcs o < 2 ^ 63.

Lemma ParseDuration_ns n : - 2 ^ 63 <= n < 2 ^ 63 -> ParseDuration (FormatInt n ++ str "ns") = Some n.
Proof.
  intros H. pose proof (ParseDuration_units (n <? 0) [(Z.abs n, str "ns")]) as U.
  unfold duration_total, duration_text in U. cbn [map concat foldr fst snd] in U.
  change (default 0 (unit_of (str "ns"))) with 1 in U. rewrite app_nil_r, Z.mul_1_r, Z.add_0_r in U.
  unfold FormatInt. destruct (Z.ltb_spec n 0) as [P|P]; rewrite <- app_comm_cons || idtac.
  - rewrite Z.abs_neq in U by lia. cbn [app] in U. rewrite U; [f_equal; lia | done | | lia].
    repeat constructor; cbn; [lia | by eexists].
  - rewrite Z.abs_eq in U by lia. cbn [app] in U. rewrite U; [done | done | | lia].
    repeat constructor; cbn; [lia | by eexists].
Qed.

Lemma settings_declared two joined o :
  Forall (fun x => flag_name (s_name x) /\ is_Some (formal (s_name x))) (settings two joined o).
Proof.
  repeat (apply Forall_cons; split; [split; [split; [done | by apply (bool_decide_unpack _); vm_compute] | by eexists]|]).
  constructor.
Qed.

(** C37: The options can be read back from the command line that sets them, in every
    spelling, whatever their strings hold and whatever was set before; what follows
    [--] or the first argument that is no flag is not looked at. *)
Theorem command_line_roundtrip two joined o o0 rest :
  options_typed o -> match rest with [] => True | a :: _ => classify a = NoFlag end ->
  Parse formal (command_line two joined o ++ rest) o0 = Parsed o rest.
Proof.
  intros [Hs Hm] R. unfold command_line. rewrite Parse_settings by apply settings_declared.
  destruct o as [mode [name id label] sock interval procs]. cbn in Hs, Hm.
  assert (A : apply_settings formal (settings two joined (mkOptions mode (mkTarget name id label) sock interval procs)) o0
    = (match ParseDuration (FormatInt interval ++ str "ns") with
       | None => inr (InvalidValue f_stats_interval (FormatInt interval ++ str "ns"))
       | Some d =>
           match ParseInt0 (FormatInt procs) with
           | None => inr (InvalidValue f_max_procs (FormatInt procs))
           | Some n => inl (mkOptions mode (mkTarget name id label) sock d n)
           end
       end)).
  { unfold settings. cbn [apply_settings s_name s_value].
    change (formal f_mode) with (Some set_mode). change (formal f_container) with (Some set_name).
    change (formal f_container_id) with (Some set_id). change (formal f_container_label) with (Some set_label).
    change (formal f_docker_socket) with (Some set_socket). change (formal f_stats_interval) with (Some set_interval).
    change (formal f_max_procs) with (Some set_procs).
    cbn [set_mode set_name set_id set_label set_socket set_target o_mode o_target o_dockerSocket o_statsInterval o_maxProcs
      Target_Name Target_ID Target_Label].
    unfold set_interval, set_procs. destruct (ParseDuration _) as [d|]; [|done]. cbn [mbind option_bind].
    by destruct (ParseInt0 _). }
  rewrite A, ParseDuration_ns, ParseInt0_FormatInt by done.
  destruct rest as [|a rest]; [done|]. cbn. by rewrite R.
Qed.

Lemma command_line_roundtrip_witness :
  command_line (fun n => bool_decide (n = f_mode)) (fun n => bool_decide (n = f_max_procs))
    (mkOptions (str "container") (mkTarget (str "-web=1") [] []) (str "/run/d.sock") (-5) 4096) =
  [str "--mode"; str "container"; str "-container"; str "-web=1"; str "-container-id"; []; str "-container-label"; [];
   str "-docker-socket"; str "/run/d.sock"; str "-stats-interval"; str "-5ns"; str "-max-procs=4096"] /\
  Parse formal (command_line (fun n => bool_decide (n = f_mode)) (fun n => bool_decide (n = f_max_procs))
    (mkOptions (str "container") (mkTarget (str "-web=1") [] []) (str "/run/d.sock") (-5) 4096) ++ [str "rest"]) defaults =
  Parsed (mkOptions (str "container") (mkTarget (str "-web=1") [] []) (str "/run/d.sock") (-5) 4096) [str "rest"].
Proof.
  split; [vm_compute; reflexivity|].
  apply (command_line_roundtrip (fun n => bool_decide (n = f_mode)) (fun n => bool_decide (n = f_max_procs)));
    [split; cbn; lia | reflexivity].
Defined.

(** ** Starting, or not *)

Lemma formal_typed name set v o o' : formal name = Some set -> set v o = Some o' -> options_typed o -> options_typed o'.
Proof.
  unfold formal, options_typed. intros F S [Hs Hm]. repeat case_decide; try done; injection F as <-.
  1-5: by injection S as <-.
  - unfold set_interval in S. destruct (ParseDuration v) as [d|] eqn:E; [|done]. injection S as <-.
    by apply ParseDuration_range in E.
  - unfold set_procs in S. destruct (ParseInt0 v) as [n|] eqn:E; [|done]. injection S as <-.
    by apply ParseInt0_range in E.
Qed.

Section spec.
Context `{Arch, !ArchOk} {K : Type} `{HM : !BpfMaps K, HMok : !BpfMapsOk K, HU : !UserMaps K, HUok : !UserMapsOk K}.
Context {L : Type} `{HL : !EbpfLib L K, HLok : !EbpfLibOk L K} {D : Type} `{HR : !Runtime D}.
Context (fs : filesystem) (inode : list byte -> D -> option Z) (proc_cgroup : Z -> D -> option (list byte)).
Context (CgroupRoot : list byte) (watch_dir : list byte -> D -> bool * D).

(** C17: The process exits before its loop exactly when its command line asks for help
    (status 0) or is in error (2), or [run] cannot start (1); it has then done
    nothing, or released all it had opened.  Otherwise the loop starts with the
    options of the command line, whose integers are of their Go types, in the mode
    they ask for. *)
Theorem main_spec args l d :
  let start o := startup fs inode proc_cgroup CgroupRoot watch_dir o l d in
  let '(p, l', d') := main fs inode proc_cgroup CgroupRoot watch_dir args l d in
  match p with
  | Exited status =>
      handles l' = handles l /\
      (status = 0 /\ Parse formal args defaults = ErrHelp /\ (l', d') = (l, d) \/
       status = 2 /\ (exists err, Parse formal args defaults = FlagError err) /\ (l', d') = (l, d) \/
       status = 1 /\ exists o rest err, Parse formal args defaults = Parsed o rest /\ start o = (inr err, l', d'))
  | Looping s r cfg =>
      exists o rest, Parse formal args defaults = Parsed o rest /\ options_typed o /\
        start o = (inl (s, r, cfg), l', d') /\
        check_options (o_mode o) (o_target o) = inl (res_mode r) /\ handles (Close r l').2 = handles l
  end.
Proof.
  cbv zeta. unfold main. destruct (Parse formal args defaults) as [o rest| |err] eqn:E.
  - assert (T : options_typed o).
    { apply (Parse_inv formal options_typed args defaults o rest); [|split; cbn; lia | exact E].
      intros name set F v o1 o2 S. by eapply formal_typed. }
    pose proof (startup_releases fs inode proc_cgroup CgroupRoot watch_dir o l d) as R.
    destruct (startup _ _ _ _ _ o l d) as [[[[[s r] cfg]|err] l'] d'] eqn:S.
    + destruct R as [R1 R2]. by exists o, rest.
    + split; [done|]. right; right. split; [done|]. by exists o, rest, err.
  - split; [done|]. by left.
  - split; [done|]. right; left. split_and!; [done | by exists err | done].
Qed.
End spec.
