(* ===== verification/Process.v ===== *)
(** * The whole process

    [main], from its command line through [run]'s start-up and its loop in every
    interleaving to the bytes on standard output and the handles it gives back: the
    theorems of [Main], [Startup] and [EndToEnd] put together. *)

From Stdlib Require Import ZArith Lia.
From Stdlib Require Import String.
From stdpp Require Import prelude list gmap relations.
From S2P Require Import Prelude GoTime GoFlag CLayout Archs BpfKernel CommonH ProcessBpf.
From S2P Require Import Event Output Decode Wire BpfRun Guid ProcTable ProcTableSpec ProcTableProps ProcTableThms ProcFS Identity.
From S2P Require Import Runtime Watcher WatcherProps Loader Attach Sensor System SystemProps SystemThms SystemTyped.
From S2P Require Import EndToEnd Startup Main.

Local Open Scope list_scope.
Local Open Scope Z_scope.

Section process.
Context `{Arch, !ArchOk} {K : Type} `{HM : !BpfMaps K, HMok : !BpfMapsOk K, HU : !UserMaps K, HUok : !UserMapsOk K}.
Context {L : Type} `{HL : !EbpfLib L K, HLok : !EbpfLibOk L K, HF : !EbpfLibFresh L K} {D : Type} `{HR : !Runtime D}.
Context (fs : filesystem) (inode : list byte -> D -> option Z) (proc_cgroup : Z -> D -> option (list byte)).
Context (CgroupRoot : list byte) (watch_dir : list byte -> D -> bool * D).

(** C1: A command line with which the process comes to its loop, in state [s0]: it names
    the mode and the cap of the process table that the loop runs with; [s0] is reached
    from the loaded kernel by steps of the watcher and the seeding of the table; and
    in every run from the loaded kernel, through those steps or any others, with
    tracepoint hits at any time, standard output holds what it should.  Closing the
    loader at the end leaves the process with the handles it had. *)
Theorem command_to_stdout args l d s0 r cfg l' d' zone :
  main fs inode proc_cgroup CgroupRoot watch_dir args l d = (Looping s0 r cfg, l', d') -> zone_ok zone ->
  exists o rest k cfg0 ls0,
    Parse formal args defaults = Parsed o rest /\
    check_options (o_mode o) (o_target o) = inl (res_mode r) /\
    cfg = (New cfg0).1 /\ MaxEntries cfg = (if o_maxProcs o <=? 0 then 100000 else o_maxProcs o) /\
    srun (res_mode r) cfg (res_boot r) ls0 [] (start k (loader_of r) (New cfg0).2) s0 /\ Forall typed_label ls0 /\
    (forall ls hs s, srun (res_mode r) cfg (res_boot r) ls hs (start k (loader_of r) (New cfg0).2) s ->
       Forall typed_label ls -> delivered (res_mode r) (res_boot r) zone hs s) /\
    handles (Close r l').2 = handles l.
Proof.
  intros M Z. unfold main in M. destruct (Parse formal args defaults) as [o rest| |err]; [|done..].
  pose proof (startup_spec fs inode proc_cgroup CgroupRoot watch_dir o l d) as S.
  destruct (startup _ _ _ _ _ o l d) as [[[[[s r1] cfg1]|err] l1] d1]; [|done]. injection M as -> -> -> -> ->.
  destruct S as (hm & k & cfg0 & wls & procs & Co & <- & [l1 Ld] & -> & Mx & Sc & _ & _ & R & Hc).
  exists o, rest, k, cfg0, (map Watch wls ++ [SeedTable (map (pair (procfs_view fs NewProcFS
    (if res_mode r then None else Some (fun id => InScope id (s_watcher s0))))) procs)]).
  split_and!; try done.
  - cbn. by rewrite Mx.
  - apply Forall_app. split; [|apply Forall_singleton, Forall_fmap; by eapply Scan_typed].
    apply Forall_fmap, Forall_true. done.
  - intros ls hs s Rs T. by eapply load_to_stdout.
Qed.
End process.
