(* ===== verification/Shutdown.v ===== *)
(** * How the sensor stops

    After SIGINT or SIGTERM the context of [run] is done: [rd.Close] runs in a
    goroutine of its own, so that the reader may get some records more; holding an
    event it sends it or abandons it, as [select] has it; then it closes the
    channel, and the main loop takes what is left in the channel and returns.
    [shutdown] is about every run of the system from there.  This file also relates
    the loop of [System], one step at a time, to the function [consume] of
    [Sensor]. *)

From Stdlib Require Import ZArith Lia.
From stdpp Require Import prelude list gmap relations.
From S2P Require Import Prelude CLayout Archs BpfKernel CommonH ProcessBpf Event Decode Wire BpfRun.
From S2P Require Import Guid ProcTable ProcTableSpec ProcTableProps ProcTableThms.
From S2P Require Import Runtime Watcher Loader Attach Sensor System SystemProps Startup.

Local Open Scope Z_scope.

(** The steps of the two goroutines of the sensor: the reader of the ring buffer and
    the main loop.  Hits, the watcher and the ticker are not among them. *)
Definition own (l : label) : bool :=
  match l with
  | ReadRecord | ReadEnds _ | SendEvent | SendCancelled | HandleEvent _ _ _ | WriteEvent _ | LoopEnds => true
  | _ => false
  end.

Definition is_read (l : label) : bool := match l with ReadRecord => true | _ => false end.
Definition write_fails (l : label) : bool := match l with WriteEvent false => true | _ => false end.
Definition read_fails (l : label) : bool := match l with ReadEnds true => true | _ => false end.

(** How many steps of a kind a run takes. *)
Definition count (f : label -> bool) (ls : list label) : nat := length (List.filter f ls).

Section shutdown.
Context `{Arch, !ArchOk} {K : Type} `{HM : !BpfMaps K, HMok : !BpfMapsOk K, HU : !UserMaps K, HUok : !UserMapsOk K}.
Variable mode_host : bool.
Variable cfg : Config.

Local Abbreviation step := (step mode_host cfg).
Local Abbreviation srun := (srun mode_host cfg).

(** ** The main loop *)

(** The labels of the events of a channel, each handled at its moment. *)
Definition loop_labels (ms : list moment) : list label :=
  concat (map (fun m => [HandleEvent (m_view1 m) (m_view2 m) (m_now m); WriteEvent true]) ms).

(** A moment of the loop in [s]: [/proc] answers for the process asked for, and the
    watcher is that of [s]. *)
Definition moment_of (s : sys K) (m : moment) : Prop :=
  ViewOk (m_view1 m) /\ ViewOk (m_view2 m) /\ m_lookup m = main_lookup mode_host s /\ m_write m = true.

(** The main loop alone does what [consume] computes: handling and writing the
    events of the channel is a run of the whole system, and leaves the table and the
    output of [consume]. *)
Theorem loop_is_consume boot s ms : s_phase s = Consuming -> s_cur s = None ->
  length ms = length (s_chan s) -> Forall (moment_of s) ms ->
  let '(out, t, failed) := consume cfg (combine (s_chan s) ms) (s_table s) in
  failed = false /\
  srun boot (loop_labels ms) [] s
    (set_reader (s_loader s) (s_pos s) (s_reading s) (s_hand s) []
       (set_main Consuming None t (s_out s ++ out) s)).
Proof.
  revert s. induction ms as [|m ms IH]; intros [w l pos rd hand chan p cur t out] Hp Hc Ln F; cbn in *; subst p cur.
  { destruct chan; [|done]. cbn. rewrite app_nil_r. split; [done|]. constructor. }
  destruct chan as [|ev chan]; [done|]. injection Ln as Ln. apply Forall_cons in F as [(V1 & V2 & Lk & Wr) F].
  cbn [combine consume]. destruct (Handle cfg (m_view1 m) (m_view2 m) (m_now m) ev t) as [ev1 t1] eqn:HE.
  rewrite Wr.
  set (s1 := mkSys w l pos rd hand chan Consuming (Some ev1) t1 out : sys K).
  set (s2 := mkSys w l pos rd hand chan Consuming None t1 (out ++ [annotate (m_lookup m) ev1]) : sys K).
  specialize (IH s2 eq_refl eq_refl Ln F). cbn [s_chan s_table s2] in IH.
  destruct (consume cfg (combine chan ms) t1) as [[out' t'] failed]. destruct IH as [-> IH]. split; [done|].
  change (@nil hook) with (observed mode_host (HandleEvent (m_view1 m) (m_view2 m) (m_now m))
    (mkSys w l pos rd hand (ev :: chan) Consuming None t out) ++ observed mode_host (WriteEvent true) s1 ++ []).
  apply srun_step with (s1 := s1); [by split | cbn; by rewrite HE |].
  apply srun_step with (s1 := s2); [done | cbn; unfold s2; by rewrite Lk |].
  unfold set_reader, set_main in *. cbn in *. by rewrite <- app_assoc in IH.
Qed.

(** ** Stopping *)

(** Steps left until both goroutines are through, if nothing more is read. *)
Definition closing (s : sys K) : nat :=
  ((if s_reading s then 1 else 0) + 3 * length (option_list (s_hand s)) + 2 * length (s_chan s) +
   length (option_list (s_cur s)) + match s_phase s with Returned => 0 | _ => 1 end)%nat.

(** The events in the loop's hands and in the channel. *)
Definition left (s : sys K) : list Event := option_list (s_cur s) ++ s_chan s.

(** The event a step sends to the channel, and those a run sends. *)
Definition sends (l : label) (s : sys K) : list Event :=
  match l with SendEvent => option_list (s_hand s) | _ => [] end.

Fixpoint sent (ls : list label) (s : sys K) : list Event :=
  match ls with
  | [] => []
  | l :: ls => sends l s ++ match step l s with Some s1 => sent ls s1 | None => [] end
  end.

Ltac step_cases E :=
  cbn [System.step] in E;
  unfold seed_table, read_record, read_ends, send_event, send_cancelled, handle_event, write_event,
    loop_ends, sweep_table in E;
  try match type of E with context [watch ?l ?w] =>
    destruct mode_host; [done|]; destruct (watch l w); [injection E as <- | done] end;
  repeat case_match; simplify_eq; try done.

Lemma step_closing l s s' : step l s = Some s' -> s_phase s <> Starting ->
  (count own [l] + closing s' <= closing s + 4 * count is_read [l])%nat.
Proof.
  destruct s as [w ld pos rd hand chan p cur t out]. intros E N. unfold closing.
  destruct l as [| | | |f| | | |f| |]; step_cases E; cbn -[Nat.mul] in *; simplify_eq; cbn -[Nat.mul];
    rewrite ?length_app; cbn -[Nat.mul]; repeat case_match; try lia.
Qed.

(** What a step of a started sensor writes and takes: nothing is lost or added. *)
Lemma step_left l s s' : step l s = Some s' ->
  exists written, s_out s' = s_out s ++ written /\
    map facts_of (written ++ left s') = map facts_of (left s ++ sends l s).
Proof.
  intros E. unfold left, sends.
  destruct l as [| | | | | | |v1 v2 now|[]| |]; step_cases E;
    try (exists []; rewrite !app_nil_r; split; [done|]; cbn;
         repeat match goal with H : s_cur _ = _ |- _ => rewrite H | H : s_chan _ = _ |- _ => rewrite H end; done).
  - exists []. rewrite app_nil_r. cbn. by rewrite app_assoc.
  - exists []. rewrite !app_nil_r. split; [done|]. cbn.
    match goal with H : Handle _ _ _ _ ?ev ?t = _ |- _ => pose proof (Handle_facts cfg v1 v2 now ev t) as F; rewrite H in F end.
    cbn in F. congruence.
  - eexists. split; [done|]. cbn. by rewrite facts_annotate, app_nil_r.
Qed.

Lemma srun_left boot ls hs s s' : srun boot ls hs s s' ->
  exists written, s_out s' = s_out s ++ written /\
    map facts_of (written ++ left s') = map facts_of (left s ++ sent ls s).
Proof.
  induction 1 as [s|l ls hs s s1 s2 L S R (w2 & O2 & F2)]; [by exists []; rewrite !app_nil_r|].
  destruct (step_left l s s1 S) as (w1 & O1 & F1). exists (w1 ++ w2). split; [by rewrite O2, O1, app_assoc|].
  cbn [sent]. rewrite S, (app_assoc (left s)), (map_app _ (left s ++ sends l s)), <- F1, <- app_assoc.
  rewrite (map_app _ w1), F2, !map_app. by rewrite app_assoc.
Qed.

(** How the main loop can stand, [bad] telling whether a write has failed. *)
Definition stands (bad : bool) (s : sys K) : Prop :=
  match s_phase s with
  | Starting => False
  | Consuming => bad = false
  | Returned => if bad then is_Some (s_cur s) else left s = [] /\ s_reading s = false
  end.

Lemma step_stands bad l s s' : step l s = Some s' -> stands bad s -> stands (bad || write_fails l) s'.
Proof.
  destruct s as [w ld pos rd hand chan p cur t out]. unfold stands, left. intros E St.
  destruct l as [| | | | | | | |[]| |]; cbn [write_fails]; rewrite ?orb_false_r, ?orb_true_r; step_cases E;
    cbn in *; repeat case_match; naive_solver.
Qed.

Lemma step_err l s s' : step l s = Some s' -> l_err (s_loader s') = l_err (s_loader s) || read_fails l.
Proof.
  intros E. destruct l as [| | | |[]| | | |[]| |]; step_cases E; cbn; by rewrite ?orb_false_r, ?orb_true_r.
Qed.

(** The three along a run. *)
Lemma srun_stopping boot ls hs s s' bad : srun boot ls hs s s' -> stands bad s ->
  (count own ls + closing s' <= closing s + 4 * count is_read ls)%nat /\
  stands (bad || existsb write_fails ls) s' /\
  l_err (s_loader s') = l_err (s_loader s) || existsb read_fails ls.
Proof.
  intros R. revert bad. induction R as [s|l ls hs s s1 s2 L S R IH]; intros bad St.
  { cbn. rewrite !orb_false_r. split_and!; [lia | done | done]. }
  destruct (IH _ (step_stands bad l s s1 S St)) as (C2 & St2 & E2).
  assert (C1 := step_closing l s s1 S). cbn [existsb]. rewrite !orb_assoc, <- (step_err l s s1 S).
  split_and!; [|done | done]. unfold count in *. change (l :: ls) with ([l] ++ ls). rewrite !List.filter_app, !length_app.
  enough (s_phase s <> Starting) by (specialize (C1 ltac:(done)); lia). unfold stands in St. by intros P; rewrite P in St.
Qed.

(** Until [run] has returned one of the two goroutines can move. *)
Lemma consuming_moves boot s : s_phase s = Consuming ->
  exists l s1, own l = true /\ (l ∉ [ReadRecord; ReadEnds true; WriteEvent false]) /\
    label_ok cfg boot s l /\ step l s = Some s1.
Proof.
  destruct s as [w ld pos rd hand chan p cur t out]. cbn. intros ->.
  assert (N : forall l, own l && negb (is_read l || write_fails l || read_fails l) = true ->
    own l = true /\ l ∉ [ReadRecord; ReadEnds true; WriteEvent false]).
  { intros l. rewrite !not_elem_of_cons. destruct l as [| | | |[]| | | |[]| |]; cbn; try done; intros _; split_and!; try done; set_solver. }
  assert (G : forall l s1, own l && negb (is_read l || write_fails l || read_fails l) = true ->
    label_ok cfg boot (mkSys w ld pos rd hand chan Consuming cur t out) l ->
    step l (mkSys w ld pos rd hand chan Consuming cur t out) = Some s1 ->
    exists l s1, own l = true /\ (l ∉ [ReadRecord; ReadEnds true; WriteEvent false]) /\
      label_ok cfg boot (mkSys w ld pos rd hand chan Consuming cur t out) l /\
      step l (mkSys w ld pos rd hand chan Consuming cur t out) = Some s1).
  { intros l s1 [??]%N ??. by exists l, s1. }
  destruct cur as [ev|]; [by eapply (G (WriteEvent true))|].
  destruct chan as [|ev chan].
  - destruct rd; [|by eapply (G LoopEnds)].
    destruct hand; [by eapply (G SendCancelled) | by eapply (G (ReadEnds false))].
  - destruct (step (HandleEvent (mkView None None) (mkView None None) 0)
      (mkSys w ld pos rd hand (ev :: chan) Consuming None t out)) as [s1|] eqn:E.
    + eapply (G (HandleEvent (mkView None None) (mkView None None) 0)); [done | by split; intros ? ? ? | exact E].
    + exfalso. cbn in E. unfold handle_event in E. cbn in E. by destruct (Handle _ _ _ _ ev t).
Qed.

(** C23: Stopping.  Take the sensor in its loop when the signal comes, and any run of the
    whole system from there: tracepoints go on firing, the watcher and the ticker
    run, the reader may still get records until the ring buffer is closed and may
    send its event or abandon it, a read or a write may fail.  Then (1) reader and
    main loop take at most [closing s] steps and four more for each record still
    read; (2) what is written is, in order and with their facts, the events the loop
    held and had waiting and those sent meanwhile, up to what is left; (3) as long as
    [run] has not returned, one of the two can move without a record, an error or a
    failing write; (4) when it has returned, nothing is left unless a write failed,
    the reader has ended, and the result is the failed write, the failed read, or
    nil. *)
Theorem shutdown boot s ls hs s' : s_phase s = Consuming -> srun boot ls hs s s' ->
  (count own ls + closing s' <= closing s + 4 * count is_read ls)%nat /\
  (exists written, s_out s' = s_out s ++ written /\
     map facts_of (written ++ left s') = map facts_of (left s ++ sent ls s)) /\
  match s_phase s' with
  | Starting => False
  | Consuming => exists l s1, own l = true /\ (l ∉ [ReadRecord; ReadEnds true; WriteEvent false]) /\
                   label_ok cfg boot s' l /\ step l s' = Some s1
  | Returned =>
      if existsb write_fails ls then outcome s' true true = Some WriteFailed
      else left s' = [] /\ s_reading s' = false /\
           outcome s' true true = if l_err (s_loader s) || existsb read_fails ls then Some ReadFailed_ else None
  end.
Proof.
  intros P R. assert (St : stands false s) by (unfold stands; by rewrite P).
  destruct (srun_stopping boot ls hs s s' false R St) as (C & St' & E). split; [done|].
  split; [by eapply srun_left|]. unfold stands, outcome in *. cbn [orb] in St'. rewrite <- E.
  destruct (s_phase s') eqn:P'; [done | by apply consuming_moves|].
  destruct (existsb write_fails ls); [by destruct St' as [ev ->]|]. destruct St' as [L Rd]. split_and!; [done..|].
  unfold left in L. destruct (s_cur s'); [done|]. by destruct (l_err (s_loader s')).
Qed.
End shutdown.
