(* ===== verification/SensorRun.v ===== *)
(** * The sensor on a concrete host

    A Docker daemon with one container, the kernel of [BpfKernel.Model] with its
    userspace map operations, and a process table: the theorems of the watcher, the
    loader and the main loop applied to them. *)

From Stdlib Require Import ZArith Lia.
From Stdlib Require Import String.
From stdpp Require Import prelude list gmap relations.
From S2P Require Import Prelude CLayout Archs BpfKernel CommonH ProcessBpf Scenario Event Decode Wire BpfRun.
From S2P Require Import GoText Guid ProcTable ProcTableSpec ProcTableProps ProcTableThms.
From S2P Require Import Runtime Docker Watcher WatcherProps Lifecycle WatcherThms Loader Sensor.

Local Open Scope Z_scope.

Import UserModel.

(** ** The daemon *)

Definition http (path : list byte) (w : unit) : http_response * unit :=
  (if decide (path = str "/info") then HttpResponse 200 (str "info")
   else if decide (path = str "/containers/json?all=1") then HttpResponse 200 (str "list")
   else if decide (path = str "/containers/c1/json") then HttpResponse 200 (str "c1")
   else HttpResponse 404 [], w).

Definition summaries (body : list byte) : option (list (list byte)) := Some [str "gone"; str "c1"].
Definition inspected (name : string) (body : list byte) : option dockerInspect :=
  Some (mkDockerInspect (str "c1") (str name) (str "sha256:1") true 0 (str "alpine:3.20") ∅).
Definition info (body : list byte) : option dockerInfo := Some (mkDockerInfo (str "systemd") (str "2")).

Definition daemon0 : Docker unit := mkDocker tt [].
Definition daemon1 : Docker unit := mkDocker tt (str "systemd").

(** The daemon before and after the container was renamed from web to old. *)
#[local] Instance web : Runtime (Docker unit) := docker_runtime http summaries (inspected "/web") info.
Definition renamed : Runtime (Docker unit) := docker_runtime http summaries (inspected "/old") info.

Definition target : Target := mkTarget (str "web") [] [].
Definition root : list byte := str "/sys/fs/cgroup".
Definition scope : list byte := str "docker-c1.scope".
Definition stat_inode (path : list byte) (d : Docker unit) : option Z :=
  if decide (path = str "/sys/fs/cgroup/system.slice/docker-c1.scope") then Some 8123 else None.
Definition no_proc (pid : Z) (d : Docker unit) : option (list byte) := None.
Definition go_order (m : gmap Z Container) : list (Z * Container) := map_to_list m.

Definition c1 : Container := mkContainer (str "c1") (str "web") (str "alpine:3.20") (str "sha256:1") ∅ 0 true.

(** A kernel that captures nothing yet. *)
Definition kernel_empty : Model.kstate := Model.KState ∅ [0] 16777216 x58 [].

(** Captured: the container's old cgroup 7000 and its live one. *)
Definition w_old : Watcher Model.kstate := (add 7000 c1 (setWanted c1 (NewWatcher kernel_empty))).2.
Definition w_both : Watcher Model.kstate := (add 8123 c1 w_old).2.

Lemma w_old_reached : reaches kernel_empty w_old.
Proof. exists [LWanted (Some c1); LAdd 7000 c1]. econstructor; [constructor|]. econstructor; constructor. Qed.

Lemma w_both_reached : reaches kernel_empty w_both.
Proof.
  exists [LWanted (Some c1); LAdd 7000 c1; LAdd 8123 c1]. econstructor; [constructor|].
  econstructor; [constructor|]. econstructor; [constructor | constructor].
Qed.

Example resync_captures :
  let '(err, (w, d)) := resync stat_inode no_proc root target (NewWatcher kernel_empty, daemon0) in
  err = None /\ d = daemon1 /\ wanted w = Some c1 /\ CgroupIDs w = [8123] /\
  @captures _ _ (cgroups w) 8123 = true.
Proof. vm_compute. repeat split; reflexivity. Qed.

Example start_watches :
  (Start stat_inode no_proc root target (NewWatcher kernel_empty, daemon0)).1
  = inl (str "/sys/fs/cgroup/system.slice").
Proof. vm_compute. reflexivity. Qed.

(** ** The watcher *)

Lemma not_pending id : (byCgroup w_both !! id = byCgroup w_both !! id) -> ~ pending w_both id.
Proof. intros _ [t [H|H]]; vm_compute in H; discriminate H. Qed.

Lemma stays_captured_witness :
  InScope 8123 (release 7000 w_both) = true /\
  captures (cgroups (release 7000 w_both)) 8123 = true /\ ~ pending (release 7000 w_both) 8123.
Proof.
  apply (stays_captured kernel_empty [LRelease 7000] w_both); [apply w_both_reached | | | |].
  - econstructor; constructor.
  - vm_compute. reflexivity.
  - by apply not_pending.
  - intros H. apply list_elem_of_singleton in H. discriminate H.
Defined.

Lemma watcher_kernel_agree_witness : captures (cgroups w_both) 7000 = true.
Proof.
  apply (proj1 (watcher_kernel_agree kernel_empty w_both w_both_reached) 7000). vm_compute. reflexivity.
Defined.

Lemma grace_period_witness :
  exists w1 w2 w3,
    wrun [LRelease 7000] w_both w1 /\ InScope 7000 w1 = true /\ captures (cgroups w1) 7000 = true /\
    wrun [LExpire 0%nat 7000] w1 w2 /\ InScope 7000 w2 = true /\
    wrun [LCallback 0%nat 7000] w2 w3 /\ InScope 7000 w3 = false /\ timers w3 !! 7000 = None /\
    ((RemoveCgroup 7000 (cgroups w2)).1 = true -> captures (cgroups w3) 7000 = false) /\
    (forall id', id' ≠ 7000 -> InScope id' w3 = InScope id' w_both /\
                             captures (cgroups w3) id' = captures (cgroups w_both) id').
Proof.
  apply (grace_period kernel_empty w_both 7000 0%nat w_both_reached); vm_compute; reflexivity.
Defined.

Lemma remove_succeeds id (k : Model.kstate) : (RemoveCgroup id k).1 = true.
Proof. cbn. unfold l_RemoveCgroup. cbn. by destruct (Model.targets k !! id). Qed.

Lemma stale_callback_drops_witness :
  exists w1 w2,
    wrun [LAdd 8123 c1; LRelease 8123; LExpire 0%nat 8123; LAdd 8123 c1] (NewWatcher kernel_empty) w1 /\
    InScope 8123 w1 = true /\ timers w1 !! 8123 = None /\
    wrun [LCallback 0%nat 8123] w1 w2 /\ InScope 8123 w2 = false /\ captures (cgroups w2) 8123 = false.
Proof.
  apply (stale_callback_drops kernel_empty 8123 c1); [vm_compute; reflexivity | apply remove_succeeds].
Defined.

Lemma addRunning_spec_witness :
  byCgroup (addRunning stat_inode no_proc root c1 (w_old, daemon1)).2.1 = <[8123 := c1]> (byCgroup w_old).
Proof.
  pose proof (addRunning_spec stat_inode no_proc root kernel_empty c1 w_old daemon1 w_old_reached) as A.
  assert (E : (addRunning stat_inode no_proc root c1 (w_old, daemon1)).1 = None) by (vm_compute; reflexivity).
  assert (P : cgroupPath no_proc c1 daemon1 = (inl (str "/system.slice/docker-c1.scope"), daemon1))
    by (vm_compute; reflexivity).
  rewrite P in A. destruct (addRunning stat_inode no_proc root c1 (w_old, daemon1)) as [err [w' d']].
  cbn [fst snd] in *. subst err. destruct A as (_ & p & id & Hp & Hi & A & _).
  injection Hp as <-. vm_compute in Hi. injection Hi as <-. exact A.
Defined.

Lemma releaseContainer_spec_witness :
  is_Some (timers (releaseContainer stat_inode root go_order (str "c1") (w_both, daemon1)).1 !! 7000).
Proof.
  pose proof (releaseContainer_spec stat_inode root go_order (str "c1") w_both daemon1 ltac:(reflexivity)) as R.
  assert (P : CgroupPath (str "c1") daemon1 = (inl (str "/system.slice/docker-c1.scope"), daemon1))
    by (vm_compute; reflexivity).
  rewrite P in R. destruct (releaseContainer _ _ _ _ _) as [w' d']. destruct R as (_ & _ & _ & _ & R).
  apply R. right. split; [vm_compute; discriminate|]. exists c1. split; vm_compute; reflexivity.
Defined.

Definition restart_events : list input :=
  [FromInotify scope IN_DELETE; FromInotify scope (IN_CREATE + 0x40000000);
   FromRuntime (mkRuntimeEvent EventStart (str "c1")); FromRuntime (mkRuntimeEvent EventDie (str "c1"))].

Lemma restart_settled :
  settled stat_inode no_proc root target go_order (str "/sys/fs/cgroup/system.slice")
    (str "/system.slice/docker-c1.scope") c1 8123 (eq daemon1).
Proof.
  split; [intros m; reflexivity | vm_compute; reflexivity | ..]; intros d <-.
  1-3: exists daemon1; split; [vm_compute; reflexivity | reflexivity].
  all: vm_compute; reflexivity.
Qed.

Lemma restart_any_order_witness :
  let w' := (fold_left (feed stat_inode no_proc root target go_order (str "/sys/fs/cgroup/system.slice"))
               restart_events (w_old, daemon1)).1 in
  InScope 7000 w_old = true /\ @captures _ _ (cgroups w') 8123 = true /\ timers w' !! 8123 = None /\
  byCgroup w' !! 7000 = Some c1 /\ is_Some (timers w' !! 7000).
Proof.
  destruct (restart_any_order stat_inode no_proc root target kernel_empty go_order (str "/sys/fs/cgroup/system.slice")
    (str "/system.slice/docker-c1.scope") c1 8123 (eq daemon1) w_old daemon1 c1 restart_events
    restart_settled eq_refl w_old_reached ltac:(vm_compute; reflexivity) ltac:(vm_compute; reflexivity) eq_refl) as [A B].
  - repeat (apply Forall_cons; split; [first [exact I | split; [reflexivity | discriminate]]|]). constructor.
  - destruct (A ltac:(vm_compute; reflexivity)) as (A1 & A2 & _). destruct (B 7000 ltac:(discriminate)) as [B1 B2].
    split; [vm_compute; reflexivity|]. split; [exact A1|]. split; [exact A2|].
    split; [rewrite B1; vm_compute; reflexivity|]. apply B2. right. split; [vm_compute; reflexivity|].
    exists c1. split; [vm_compute; reflexivity | reflexivity].
Defined.

Lemma die_keeps_live_witness :
  let w' := (handle stat_inode no_proc root target go_order (mkRuntimeEvent EventDie (str "c1")) (w_both, daemon1)).1 in
  timers w' !! 8123 = None /\ is_Some (timers w' !! 7000).
Proof.
  destruct (die_keeps_live stat_inode no_proc root target go_order (str "c1") w_both daemon1
    (str "/system.slice/docker-c1.scope") daemon1 8123) as (_ & _ & A & B);
    [reflexivity | vm_compute; reflexivity | vm_compute; reflexivity|].
  split; [apply A; vm_compute; reflexivity|].
  apply (B 7000 c1); [vm_compute; reflexivity | reflexivity | discriminate].
Defined.

Lemma rename_keeps_live_witness :
  let '(w', d') := @handle _ _ _ renamed stat_inode no_proc root target go_order
                     (mkRuntimeEvent EventRename (str "c1")) (w_both, daemon1) in
  wanted w' = None /\ InScope 8123 w' = true /\ timers w' !! 8123 = None.
Proof.
  pose proof (rename_keeps_live (HR := renamed) stat_inode no_proc root target go_order
    (mkRuntimeEvent EventRename (str "c1")) w_both daemon1
    (mkContainer (str "c1") (str "old") (str "alpine:3.20") (str "sha256:1") ∅ 0 true) daemon1 c1
    (str "/system.slice/docker-c1.scope") daemon1 8123 eq_refl ltac:(reflexivity)
    ltac:(vm_compute; reflexivity) ltac:(vm_compute; reflexivity) ltac:(vm_compute; reflexivity)
    ltac:(reflexivity) ltac:(vm_compute; reflexivity) ltac:(vm_compute; reflexivity)
    ltac:(vm_compute; reflexivity)) as H.
  destruct (handle _ _ _ _ _ _ _) as [w' d']. destruct H as (H1 & H2 & _ & H3 & _).
  split; [exact H1|]. split; [|exact H3]. unfold InScope, Lookup. rewrite H2. vm_compute. reflexivity.
Defined.

Lemma cgroupDirEvent_create_witness :
  byCgroup (cgroupDirEvent stat_inode root go_order (str "/sys/fs/cgroup/system.slice") scope
              (IN_CREATE + 0x40000000) (w_old, daemon1)).1 = <[8123 := c1]> (byCgroup w_old).
Proof.
  pose proof (cgroupDirEvent_create stat_inode root kernel_empty go_order
    (str "/sys/fs/cgroup/system.slice") scope (IN_CREATE + 0x40000000) w_old daemon1 c1
    (str "/system.slice/docker-c1.scope") daemon1 8123 w_old_reached ltac:(vm_compute; reflexivity)
    ltac:(vm_compute; reflexivity) ltac:(vm_compute; discriminate) ltac:(vm_compute; reflexivity)) as H.
  destruct (cgroupDirEvent _ _ _ _ _ _ _) as [w' d']. destruct H as (_ & _ & H).
  apply H; vm_compute; reflexivity.
Defined.

Lemma backoff_bounds_witness :
  Forall (fun x => second <= x <= 30 * second)
    (runtimeEvents stat_inode no_proc root target go_order
       [[]; []; [mkRuntimeEvent EventDie (str "c1")]; []; []; []; []; []; []] true second (w_both, daemon1)).1.
Proof. apply backoff_bounds. vm_compute. split; discriminate. Defined.

Definition burst : list inotify_event :=
  [mkInotify 1 0x40000100 0 scope 1; mkInotify 1 0x200 0 (str "a") 11].

Lemma inotify_roundtrip_witness :
  inotify_events 60 (concat (map event_bytes burst) ++ zeros 100) 60 0
  = Some [(scope, 0x40000100); (str "a", 0x200)].
Proof.
  apply (inotify_roundtrip burst [] (zeros 100) 60); [|vm_compute; lia].
  apply Forall_cons. split; [|apply Forall_cons; split; [|constructor]];
    (split; [vm_compute; split; congruence|]; split; [|vm_compute; reflexivity]);
    apply (bool_decide_unpack _); vm_compute; exact I.
Defined.

(** ** The daemon's client *)

Lemma CgroupPath_stable_witness :
  exists dr p', d_CgroupPath http info (str "c2") daemon1 = (inl p', daemon1) /\
    scope_path dr (str "c1") = Some (str "/system.slice/docker-c1.scope") /\ scope_path dr (str "c2") = Some p'.
Proof.
  apply (CgroupPath_stable http info (str "c1") daemon0 _ daemon1 (str "c2")). vm_compute. reflexivity.
Defined.

Lemma scope_path_parent_witness :
  Dir (str "/system.slice/docker-c1.scope") = Dir (str "/system.slice/docker-0.scope").
Proof.
  apply (scope_path_parent (str "systemd") (str "c1") (str "/system.slice/docker-c1.scope")
    (str "/system.slice/docker-0.scope")); try reflexivity; [|discriminate].
  apply (bool_decide_unpack _). vm_compute. exact I.
Defined.

(** ** The loader *)

Definition loader0 : Loader := mkLoader 1700000000 7 false.

(** Three CPUs; the third counter wraps the sum. *)
Definition kernel_drops : Model.kstate := Model.KState ∅ [3; 4; 2 ^ 64 - 1] 0 x58 [].

Lemma Stats_sum_witness : Stats loader0 kernel_drops = Some (mkLoaderStats 6 7).
Proof.
  assert (E : DropCount_Lookup DROP_RINGBUF_FULL kernel_drops = Some [3; 4; 2 ^ 64 - 1]) by reflexivity.
  rewrite (Stats_sum loader0 kernel_drops _ E). vm_compute. reflexivity.
Defined.

Lemma Events_spec_witness :
  decodeErrors (Events (map (fun r => (Record_ r, true)) [zeros 3; zeros 80]) loader0).2 = 9.
Proof.
  rewrite (Events_spec [zeros 3; zeros 80] loader0) by (vm_compute; split; congruence).
  vm_compute. reflexivity.
Defined.

Lemma life_ok : Forall (fun x => @BpfHelpersOk (hook_helpers x)) life.
Proof. do 3 (apply Forall_cons; split; [exact (@kernel_helpers_ok amd64)|]). by constructor. Qed.

(** The kernel of the scenario with an empty ring buffer. *)
Definition kernel_fresh : Model.kstate :=
  Model.KState (Model.targets kernel0) [0] 16777216 x58 [].

Lemma run_delivers_witness :
  exists ys,
    sublist ys (filter (fun x => @reported amd64 _ _ false kernel_fresh x = true) life) /\
    Events (map (fun r => (Record_ r, true)) (rb_records (@run amd64 _ _ false life kernel_fresh))) loader0
    = (map (fun x => @hook_event amd64 x (l_boot loader0)) ys, loader0) /\
    drop_lookup (@run amd64 _ _ false life kernel_fresh) 0
    = Some (u64 (0 + (zlen (filter (fun x => @reported amd64 _ _ false kernel_fresh x = true) life) - zlen ys))).
Proof.
  apply (@run_delivers amd64 _ Model.kstate _ _ false life kernel_fresh 0 loader0);
    [exact life_ok | reflexivity | reflexivity | lia | vm_compute; split; congruence].
Defined.

(** ** The main loop *)

Definition calm : moment :=
  mkMoment (mkView None None) (mkView None None) 0 (Some (fun id => if id =? 7 then Some c1 else None)) true.

Lemma consume_faithful_witness :
  facts_of <$> (consume Run.cfg [(Run.shell_exec, calm); (Run.child_fork, calm)] Run.t0).1.1
  = [facts_of Run.shell_exec; facts_of Run.child_fork].
Proof.
  pose proof (consume_faithful Run.cfg [(Run.shell_exec, calm); (Run.child_fork, calm)] Run.t0
    ltac:(repeat (apply Forall_cons; split; [reflexivity|]); constructor)) as H.
  destruct (consume _ _ _) as [[out t'] failed]. destruct H as [_ H]. cbn [fst].
  inversion H as [|a b l1 l2 [Ha _] H1]; subst. inversion H1 as [|a' b' l3 l4 [Hb _] H2]; subst.
  inversion H2; subst. cbn [fmap list_fmap map fst] in *. by rewrite Ha, Hb.
Defined.

Lemma host_mode_no_external_witness :
  Forall (fun ev => Parent_External (Event_Parent ev) = false)
    (consume Run.cfg [(Run.shell_exec, calm); (Run.child_fork, calm)]
       (Seed Run.cfg [] Run.t0).2).1.1.
Proof.
  apply (host_mode_no_external Run.cfg0 []).
  assert (V : host_view (mkView None None)) by (split; [intros rd pid i; discriminate | reflexivity]).
  apply Forall_cons. split; [split_and!; [exact V | exact V | exact Run.shell_exec_ok | reflexivity]|].
  apply Forall_cons. split; [|constructor].
  split_and!; [exact V | exact V | intros _; exact Run.child_not_parent | reflexivity].
Defined.

Lemma sensor_end_to_end_witness :
  exists ys,
    sublist ys (filter (fun x => @reported amd64 _ _ false kernel_fresh x = true) life) /\
    drop_lookup (@run amd64 _ _ false life kernel_fresh) 0
    = Some (u64 (0 + (zlen (filter (fun x => @reported amd64 _ _ false kernel_fresh x = true) life) - zlen ys))) /\
    Forall2 (fun ev' x => facts_of ev' = facts_of (@hook_event amd64 x (l_boot loader0)))
      (consume Run.cfg (combine
        (Events (map (fun r => (Record_ r, true)) (rb_records (@run amd64 _ _ false life kernel_fresh))) loader0).1
        [calm; calm; calm]) Run.t0).1.1 ys.
Proof.
  apply (@sensor_end_to_end amd64 _ Model.kstate _ _ false life kernel_fresh 0 loader0 Run.cfg
    [calm; calm; calm] Run.t0);
    [exact life_ok | reflexivity | reflexivity | lia | vm_compute; split; congruence
    | vm_compute; reflexivity | repeat (apply Forall_cons; split; [reflexivity|]); constructor].
Defined.

(** ** The life of a cgroup *)

(** Captured, released, captured again in time, released, and its grace period runs
    out. *)
Definition life_1 : Watcher Model.kstate := (add 8123 c1 (NewWatcher kernel_empty)).2.
Definition life_2 : Watcher Model.kstate := release 8123 life_1.
Definition life_3 : Watcher Model.kstate := (add 8123 c1 life_2).2.
Definition life_4 : Watcher Model.kstate := release 8123 life_3.
Definition life_5 : Watcher Model.kstate := expire 1%nat 8123 life_4.
Definition life_6 : Watcher Model.kstate := callback 1%nat 8123 life_5.

Lemma life_captured : trun 8123 [Capture c1; End_; Capture c1] (NewWatcher kernel_empty) life_3.
Proof.
  refine (trun_step 8123 (LAdd 8123 c1) [End_; Capture c1] _ life_1 _ (step_add _ _ _) _ _).
  { intros _ t. change (fired (NewWatcher kernel_empty)) with (∅ : gmap timer_id Z). by rewrite lookup_empty. }
  refine (trun_step 8123 (LRelease 8123) [Capture c1] _ life_2 _ (step_release _ _) I _).
  refine (trun_step 8123 (LAdd 8123 c1) [] _ life_3 _ (step_add _ _ _) _ (trun_nil _ _)).
  intros _ t. assert (E : fired life_2 = ∅) by (vm_compute; reflexivity). by rewrite E, lookup_empty.
Qed.

Lemma life_ended : trun 8123 [End_; Timeout] life_3 life_6.
Proof.
  refine (trun_step 8123 (LRelease 8123) [Timeout] _ life_4 _ (step_release _ _) I _).
  refine (trun_step 8123 (LExpire 1%nat 8123) [Timeout] _ life_5 _ (step_expire _ _ _ _) I _).
  { vm_compute. reflexivity. }
  refine (trun_step 8123 (LCallback 1%nat 8123) [] _ life_6 _ (step_callback _ _ _ _) I (trun_nil _ _)).
  vm_compute. reflexivity.
Qed.

Lemma lifecycle_refines_witness :
  status_of 8123 life_3 = Live c1 /\ Lookup 8123 life_3 = Some c1 /\ captures (cgroups life_3) 8123 = true.
Proof.
  destruct (lifecycle_refines kernel_empty 8123 _ life_3 life_captured) as (A & L & C).
  assert (S : status_of 8123 life_3 = Live c1) by (vm_compute; reflexivity).
  split; [exact S|]. split; [by rewrite L, S | apply C; by rewrite S].
Defined.

Lemma dropped_after_grace_witness : grace_ran_out [End_; Timeout].
Proof.
  apply (dropped_after_grace kernel_empty 8123 _ _ life_3 life_6 life_captured life_ended).
  - vm_compute. discriminate.
  - intros c. vm_compute. discriminate.
  - vm_compute. reflexivity.
Defined.
