(* ===== verification/SystemRun.v ===== *)
(** * A run of the whole sensor

    The host of [SensorRun]: the watcher captures the container's cgroup, a process
    in it forks, execs and exits, and the events travel to the output.  The theorems
    of [SystemThms] applied to it. *)

From Stdlib Require Import ZArith Lia.
From Stdlib Require Import String.
From stdpp Require Import prelude list gmap relations.
From S2P Require Import Prelude CLayout Archs BpfKernel CommonH ProcessBpf Scenario Event Output Decode Wire BpfRun.
From S2P Require Import GoText Guid ProcTable ProcTableSpec ProcTableProps ProcTableThms.
From S2P Require Import Runtime Watcher WatcherProps Loader Sensor SensorRun System SystemProps SystemThms Shutdown.

Local Open Scope Z_scope.

Import UserModel.

#[local] Existing Instance amd64.

Definition quiet : view := mkView None None.

Definition story : list label := [
  Watch (LWanted (Some c1)); Watch (LAdd 8123 c1);
  Hit (ForkHook (@kernel_helpers amd64) parent_a task_a);
  SeedTable [];
  Hit (ExecHook (@kernel_helpers amd64) exec_ctx);
  ReadRecord; SendEvent; ReadRecord; HandleEvent quiet quiet 5; SendEvent; WriteEvent true].

(** The exit, while the exec is still in the channel; then the rest is written. *)
Definition ending : list label := [
  Hit (ExitHook (@kernel_helpers amd64) ctx_a);
  ReadRecord; HandleEvent quiet quiet 6; SendEvent; WriteEvent true; HandleEvent quiet quiet 7; WriteEvent true].

(** What [Load] leaves on the host of [StartupRun]. *)
Definition loader1 : Loader := mkLoader 1699999995000000000 0 false.

Definition boot0 : sys Model.kstate := start kernel_empty loader1 (New Run.cfg0).2.

Definition played (ls : list label) (s : sys Model.kstate) : list hook * sys Model.kstate :=
  default ([], s) (play false Run.cfg ls s).

Definition mid : sys Model.kstate := (played story boot0).2.
Definition final : sys Model.kstate := (played ending mid).2.

(** What the run shows, evaluated in one pass: the story plays; at its end no timer of
    the watcher is set, the cgroup is in scope, the main loop and the reader run, and
    one event is written; then the ending plays, and all three events are written
    under the container's name; or the stopping plays, and [run] has returned. *)
Definition mid_checks (s : sys Model.kstate) : bool :=
  bool_decide (map_to_list (armed (s_watcher s)) = []) && bool_decide (map_to_list (fired (s_watcher s)) = []) &&
  InScope 8123 (s_watcher s) && bool_decide (s_phase s = Consuming) && s_reading s &&
  (s_pos s <=? length (rb_records (kernel s)))%nat && 
  (length (s_out s) =? 1)%nat.

Definition final_checks (s : sys Model.kstate) : bool :=
  bool_decide (map (fun ev => (Event_Type ev, ContainerRef_ID <$> Event_Container ev)) (s_out s) =
    [(TypeFork, Some (str "c1")); (TypeExec, Some (str "c1")); (TypeExit, Some (str "c1"))]).

(** A signal instead, with the exec in the channel; the record of the exit is read and
    sent before the ring buffer is closed. *)
Definition stopping : list label := [
  Hit (ExitHook (@kernel_helpers amd64) ctx_a);
  ReadRecord; SendEvent; ReadEnds false;
  HandleEvent quiet quiet 6; WriteEvent true; HandleEvent quiet quiet 7; WriteEvent true; LoopEnds].

Definition stop_checks (s : sys Model.kstate) : bool := bool_decide (s_phase s = Returned).

Definition checks (ls1 ls2 ls3 : list label) (s : sys Model.kstate) : bool :=
  match play false Run.cfg ls1 s with
  | Some (_, s) => mid_checks s && match play false Run.cfg ls2 s with
                                   | Some (_, s) => final_checks s
                                   | None => false
                                   end && match play false Run.cfg ls3 s with
                                          | Some (_, s) => stop_checks s
                                          | None => false
                                          end
  | None => false
  end.

Lemma checks_plays ls1 ls2 ls3 s : checks ls1 ls2 ls3 s = true ->
  is_Some (play false Run.cfg ls1 s) /\ mid_checks (played ls1 s).2 = true /\
  is_Some (play false Run.cfg ls2 (played ls1 s).2) /\ final_checks (played ls2 (played ls1 s).2).2 = true /\
  is_Some (play false Run.cfg ls3 (played ls1 s).2) /\ stop_checks (played ls3 (played ls1 s).2).2 = true.
Proof.
  unfold checks, played. destruct (play false Run.cfg ls1 s) as [[hs s1]|]; [|discriminate].
  cbn [default id snd]. intros [[M C]%andb_true_iff D]%andb_true_iff.
  destruct (play false Run.cfg ls2 s1) as [[hs' s2]|]; [|discriminate].
  destruct (play false Run.cfg ls3 s1) as [[hs3 s3]|]; [|discriminate].
  split_and!; (exact M || exact C || exact D || by eexists).
Qed.

Lemma plays : is_Some (play false Run.cfg story boot0) /\ mid_checks mid = true /\
  is_Some (play false Run.cfg ending mid) /\ final_checks final = true /\
  is_Some (play false Run.cfg stopping mid) /\ stop_checks (played stopping mid).2 = true.
Proof. apply (checks_plays story ending stopping boot0). vm_compute. reflexivity. Qed.

(** ** The labels are ones the world can make *)

Lemma quiet_ok : ViewOk quiet.
Proof. intros rd pid i. discriminate. Qed.

Lemma fork_not_own : not_own_parent Run.cfg (@hook_event amd64 (ForkHook (@kernel_helpers amd64) parent_a task_a) (l_boot loader1)).
Proof. intros _. apply (bool_decide_unpack _). vm_compute. exact I. Qed.

Lemma exec_not_own : not_own_parent Run.cfg (hook_event (ExecHook (@kernel_helpers amd64) exec_ctx) (l_boot loader1)).
Proof. intros E. exfalso. assert (E' : TypeExec = TypeFork) by exact E. discriminate E'. Qed.

Lemma exit_not_own : not_own_parent Run.cfg (hook_event (ExitHook (@kernel_helpers amd64) ctx_a) (l_boot loader1)).
Proof. intros E. exfalso. assert (E' : TypeExit = TypeFork) by exact E. discriminate E'. Qed.

(** Labels without a condition, and those whose views are [quiet]. *)
Ltac world_ok := repeat (apply Forall_cons; split; [first [intros s; exact I | intros s; exact (conj quiet_ok quiet_ok)]|]).

Lemma story_ok : Forall (fun l => forall s : sys Model.kstate, label_ok Run.cfg (l_boot loader1) s l) story.
Proof.
  unfold story. do 2 (apply Forall_cons; split; [intros s; exact I|]).
  apply Forall_cons; split; [intros s; exact (conj (@kernel_helpers_ok amd64) fork_not_own)|].
  apply Forall_cons; split; [intros s; exact I|].
  apply Forall_cons; split; [intros s; exact (conj (@kernel_helpers_ok amd64) exec_not_own)|].
  world_ok. constructor.
Qed.

Lemma ending_ok : Forall (fun l => forall s : sys Model.kstate, label_ok Run.cfg (l_boot loader1) s l) ending.
Proof.
  unfold ending. apply Forall_cons; split; [intros s; exact (conj (@kernel_helpers_ok amd64) exit_not_own)|].
  world_ok. constructor.
Qed.

Lemma stopping_ok : Forall (fun l => forall s : sys Model.kstate, label_ok Run.cfg (l_boot loader1) s l) stopping.
Proof.
  unfold stopping. apply Forall_cons; split; [intros s; exact (conj (@kernel_helpers_ok amd64) exit_not_own)|].
  world_ok. constructor.
Qed.

Lemma played_run ls (s : sys Model.kstate) : Forall (fun l => forall s : sys Model.kstate, label_ok Run.cfg (l_boot loader1) s l) ls ->
  is_Some (play false Run.cfg ls s) ->
  srun false Run.cfg (l_boot loader1) ls (played ls s).1 s (played ls s).2.
Proof.
  intros L S. apply play_srun; [done|]. unfold played. destruct S as [[hs s'] E]. by rewrite E.
Qed.

Lemma story_run : srun false Run.cfg (l_boot loader1) story (played story boot0).1 boot0 mid.
Proof. apply played_run; [exact story_ok | exact (proj1 plays)]. Qed.

Lemma ending_run : srun false Run.cfg (l_boot loader1) ending (played ending mid).1 mid final.
Proof. apply played_run; [exact ending_ok | exact (proj1 (proj2 (proj2 plays)))]. Qed.

Lemma stopping_run : srun false Run.cfg (l_boot loader1) stopping (played stopping mid).1 mid (played stopping mid).2.
Proof. apply played_run; [exact stopping_ok | exact (proj1 (proj2 (proj2 (proj2 (proj2 plays)))))]. Qed.

Lemma stop_checks_phase s : stop_checks s = true -> s_phase s = Returned.
Proof. apply bool_decide_eq_true_1. Qed.

Lemma stopped : s_phase (played stopping mid).2 = Returned.
Proof. exact (stop_checks_phase _ (proj2 (proj2 (proj2 (proj2 (proj2 plays)))))). Qed.

Lemma mid_facts : ~ pending (s_watcher mid) 8123 /\ InScope 8123 (s_watcher mid) = true /\ live mid /\
  length (s_out mid) = 1%nat.
Proof.
  generalize (proj1 (proj2 plays)). generalize mid as s. unfold mid_checks. intros s M.
  rewrite !andb_true_iff, !bool_decide_eq_true, Nat.leb_le, Nat.eqb_eq in M.
  destruct M as ((((((A%map_to_list_empty_iff & F%map_to_list_empty_iff) & Sc) & P) & Rd) & L) & Ln).
  refine (conj _ (conj Sc (conj (conj P (conj Rd L)) Ln))).
  intros [t [Q|Q]]; [rewrite A in Q | rewrite F in Q]; by rewrite lookup_empty in Q.
Qed.

Lemma final_checks_written s : final_checks s = true ->
  map (fun ev => (Event_Type ev, ContainerRef_ID <$> Event_Container ev)) (s_out s) =
  [(TypeFork, Some (str "c1")); (TypeExec, Some (str "c1")); (TypeExit, Some (str "c1"))].
Proof. apply bool_decide_eq_true_1. Qed.

Example story_written :
  map (fun ev => (Event_Type ev, ContainerRef_ID <$> Event_Container ev)) (s_out final) =
  [(TypeFork, Some (str "c1")); (TypeExec, Some (str "c1")); (TypeExit, Some (str "c1"))].
Proof. exact (final_checks_written final (proj1 (proj2 (proj2 (proj2 plays))))). Qed.

(** ** The theorems applied *)

Lemma system_pipeline_witness :
  exists ys,
    sublist ys (played story boot0).1 /\
    drop_lookup (kernel mid) 0 = Some (u64 (0 + (zlen (played story boot0).1 - zlen ys))) /\
    Forall2 (fun ev x => facts_of ev = facts_of (hook_event x (l_boot loader1)))
      (s_out mid) (take (length (s_out mid)) ys) /\
    decodeErrors (s_loader mid) = decodeErrors loader1 /\
    (drained mid -> length (s_out mid) = length ys).
Proof.
  apply (system_pipeline false Run.cfg0 kernel_empty loader1 0 story); [reflexivity | reflexivity | lia|].
  exact story_run.
Defined.

Lemma in_flight_bounded_witness :
  (length (s_chan mid) <= 1024 /\ length (s_out mid) <= s_pos mid <= length (s_out mid) + 1026)%nat /\
  (s_pos mid <= length (rb_records (kernel mid)))%nat.
Proof.
  apply (in_flight_bounded false Run.cfg0 kernel_empty loader1 0 story (played story boot0).1);
    [reflexivity | reflexivity | lia|].
  exact story_run.
Defined.

Definition exit_a : hook := ExitHook (@kernel_helpers amd64) ctx_a.


Lemma target_captured_witness :
  dealt (l_boot loader1) exit_a (kernel final) (fire false exit_a (kernel final)).2.
Proof.
  apply (target_captured false Run.cfg0 kernel_empty loader1 story (played story boot0).1 mid ending (played ending mid).1 final 8123);
    [exact story_run | exact ending_run | exact (proj1 (proj2 mid_facts)) | exact (proj1 mid_facts)| |
     exact (@kernel_helpers_ok amd64) | vm_compute; reflexivity | vm_compute; reflexivity].
  intros P. apply list_elem_of_In in P. cbn in P. intuition discriminate.
Defined.

Lemma pipeline_drains_witness :
  exists ls s', forallb moves ls = true /\ srun false Run.cfg 0 ls [] mid s' /\ drained s' /\ kernel s' = kernel mid.
Proof.
  apply (pipeline_drains false Run.cfg0 0 mid). exact (proj1 (proj2 (proj2 mid_facts))).
Defined.

Lemma shutdown_witness :
  (count own stopping + closing (played stopping mid).2 <= closing mid + 4)%nat /\
  (exists written, s_out (played stopping mid).2 = s_out mid ++ written /\
    map facts_of (written ++ left (played stopping mid).2) =
    map facts_of (left mid ++ sent false Run.cfg stopping mid)) /\
  left (played stopping mid).2 = [].
Proof.
  destruct (shutdown false Run.cfg (l_boot loader1) mid stopping (played stopping mid).1 (played stopping mid).2
    (proj1 (proj1 (proj2 (proj2 mid_facts)))) stopping_run) as (B & W & P).
  rewrite stopped in P. exact (conj B (conj W (proj1 P))).
Defined.

Lemma table_safe_witness :
  reachable Run.cfg0 (s_table mid) /\ t_panic (s_table mid) = false /\
  Z.of_nat (size (t_entries (s_table mid))) <= MaxEntries Run.cfg.
Proof.
  apply (table_safe false Run.cfg0 kernel_empty loader1 0 story (played story boot0).1);
    [reflexivity | reflexivity | lia|].
  exact story_run.
Defined.
