(* ===== verification/StartupRun.v ===== *)
(** * Starting on a concrete host

    A kernel library whose openings fail after a given number of successes, the
    container runtime of [SensorRun] and a file system: the theorems of [Attach],
    [Identity], [Startup], [Main], [Process], [Docker]'s event stream and the watcher's start-up window
    applied to them. *)

From Stdlib Require Import ZArith Lia.
From Stdlib Require Import String.
From stdpp Require Import prelude list gmap infinite fin_sets relations.
From S2P Require Import Prelude CLayout Archs BpfKernel CommonH ProcessBpf Scenario Event Decode Wire BpfRun.
From S2P Require Import GoText Guid ProcTable ProcTableSpec ProcTableProps ProcTableThms ProcFS Identity.
From S2P Require Import Runtime Docker Watcher WatcherProps WatcherThms Loader Attach Sensor System Startup GoFlag Main.
From S2P Require Import GoTime GoJson Output SystemProps SystemThms SystemTyped EndToEnd Process SensorRun SystemRun.

Local Open Scope Z_scope.

Lemma quiet_typed : typed_view quiet.
Proof. split; [exact quiet_ok|]. intros rd pid i. discriminate. Qed.

Lemma story_typed : Forall typed_label story.
Proof. unfold story. repeat (apply Forall_cons; split; [first [exact I | exact (conj quiet_typed quiet_typed) | apply Forall_nil_2]|]). constructor. Qed.

Import UserModel.
#[local] Existing Instance amd64.

(** ** The library *)

Module Lib.
Record lib := mkLib { lib_open : gset positive; lib_left : nat }.

Definition open_handle (l : lib) : option positive * lib :=
  match lib_left l with
  | O => (None, l)
  | S n => let h := fresh (lib_open l) in (Some h, mkLib ({[h]} ∪ lib_open l) n)
  end.

#[global] Instance ebpf : EbpfLib lib Model.kstate := {|
  RemoveMemlock l := (true, l);
  ClockGettime c l := (Some (match c with CLOCK_REALTIME => 1700000000000000000 | CLOCK_BOOTTIME => 5000000000 end), l);
  loadProcess l := (Some (mkSpec false), l);
  Variable_Set b s := Some (mkSpec b);
  LoadAndAssign s l := let '(h, l) := open_handle l in ((fun h => (h, kernel_empty)) <$> h, l);
  AttachHook n h l := open_handle l;
  NewReader h l := open_handle l;
  CloseHandle h l := (true, mkLib (lib_open l ∖ {[h]}) (lib_left l));
  handles := lib_open;
|}.

Lemma open_handle_opens l : opens (lib_open l) (lib_open (open_handle l).2) (open_handle l).1.
Proof.
  unfold open_handle, opens. destruct (lib_left l); [done|]. cbn. split; [apply is_fresh | done].
Qed.

#[global] Instance ebpf_ok : EbpfLibOk lib Model.kstate.
Proof.
  split; try done.
  - by intros b s s' [= <-].
  - intros s l. pose proof (open_handle_opens l) as O. cbn. by destruct (open_handle l) as [[h|] l'].
  - intros n h l. apply open_handle_opens.
  - intros h l. apply open_handle_opens.
Qed.
End Lib.
Import Lib.

(** ** Loading *)

(** The third hook fails to attach. *)
Lemma Load_all_or_nothing_witness :
  handles (Load true (mkLib {[7%positive]} 3)).2 = {[7%positive]}.
Proof.
  pose proof (Load_all_or_nothing (K := Model.kstate) true (mkLib {[7%positive]} 3)) as A.
  destruct (Load true _) as [[[r k]|err] l'] eqn:E; [|exact A].
  assert (X : match (Load (K := Model.kstate) true (mkLib {[7%positive]} 3)).1 with inl _ => false | inr _ => true end = true)
    by (vm_compute; reflexivity).
  rewrite E in X. discriminate X.
Defined.

(** From a load to the line on standard output: the run of [SystemRun], whose first
    event is written. *)
#[local] Instance ebpf_fresh : EbpfLibFresh lib Model.kstate.
Proof.
  assert (E : forall l h (k : Model.kstate), ((fun h => (h, kernel_empty)) <$> (open_handle l).1) = Some (h, k) ->
    k = kernel_empty) by (intros l h k; destruct (open_handle l).1; [by intros [= _ <-] | done]).
  assert (G : forall s l h (k : Model.kstate), (LoadAndAssign s l).1 = Some (h, k) -> k = kernel_empty).
  { intros s l h k. cbn. specialize (E l h k). by destruct (open_handle l) as [[h'|] l']. }
  split; intros s l h k *; by intros ->%G.
Qed.

Definition loaded : resources * Model.kstate :=
  match (Load false (mkLib ∅ 10)).1 with
  | inl r => r
  | inr _ => (mkResources 1 [] None false 0, kernel_empty)
  end.

Lemma one_line zone evs out : length evs = 1%nat -> Stdout zone evs = Some out -> length (lines out) = 1%nat.
Proof.
  destruct evs as [|ev [|ev' evs]]; try discriminate. intros _ E. cbn [Stdout] in E.
  destruct (Encode_line zone ev) as [Z|(text & Z & N)]; rewrite Z in E; [discriminate E|].
  injection E as <-. by rewrite app_nil_r, lines_cons.
Qed.

Lemma load_to_stdout_witness :
  exists out x ev, Stdout (fun _ => 0) (s_out mid) = Some out /\
    map read_line (lines out) = [Some ev] /\ facts_of ev = valid_facts (facts_of (hook_event x (l_boot loader1))).
Proof.
  destruct (load_to_stdout (K := Model.kstate) (L := lib) Run.cfg0 false (mkLib ∅ 10) loaded.1 loaded.2
    (Load (K := Model.kstate) false (mkLib ∅ 10)).2 (fun _ => 0) story (played story boot0).1 mid)
    as (ys & out & E & _ & _ & F & _).
  - vm_compute. reflexivity.
  - exact story_run.
  - intros sec. vm_compute. split; reflexivity.
  - exact story_typed.
  - pose proof (one_line _ _ _ (proj2 (proj2 (proj2 mid_facts))) E) as Ln.
    exists out. destruct (lines out) as [|line [|line' lns]]; try discriminate Ln.
    apply Forall2_cons_inv_l in F as (x & xs & (ev & R1 & R2) & _ & _). exists x, ev.
    split; [exact E|]. split; [cbn [map]; by rewrite R1 | exact R2].
Defined.

(** ** Starting *)

Definition host_fs : filesystem := {|
  ReadFile path :=
    if decide (path = str "/etc/machine-id") then Some (str "0123456789abcdef0123456789abcdef" ++ [x0a])
    else if decide (path = str "/proc/sys/kernel/random/boot_id") then Some (str "a1b2-c3d4" ++ [x0a])
    else ReadFile Host.fs path;
  Readlink := Readlink Host.fs;
  OpenRead := OpenRead Host.fs;
  Stat := Stat Host.fs;
  ReadDir := ReadDir Host.fs;
|}.

Lemma HostIdentity_stable_witness :
  HostIdentity host_fs = inl (str "0123456789abcdef0123456789abcdef", str "a1b2-c3d4") /\
  (nul ∉ str "0123456789abcdef0123456789abcdef") /\ (nul ∉ str "a1b2-c3d4").
Proof.
  apply (HostIdentity_stable host_fs _ _ [x0a] [x0a]).
  - split; [discriminate|]. repeat (apply Forall_cons; split; [reflexivity|]). constructor.
  - split; [discriminate|]. repeat (apply Forall_cons; split; [reflexivity|]). constructor.
  - right. left.
  - right. left.
  - vm_compute. reflexivity.
  - vm_compute. reflexivity.
Defined.

Definition watch_ok (dir : list byte) (d : Docker unit) : bool * Docker unit := (true, d).

#[local] Instance web_runtime : Runtime (Docker unit) := docker_runtime http summaries (inspected "/web") info.

Definition here : options := mkOptions (str "container") target (str "/var/run/docker.sock") 0 0.

Definition start_here (l : lib) :=
  startup (K := Model.kstate) (L := lib) host_fs stat_inode no_proc root watch_ok
    here l daemon0.

(** Enough handles: the loop starts with the target captured and one process in the
    table; closing leaves nothing open. *)
Example start_here_works :
  match (start_here (mkLib ∅ 10)).1.1 with
  | inl (s, r, cfg) => CgroupIDs (s_watcher s) = [8123] /\ res_mode r = false
  | inr _ => False
  end.
Proof. vm_compute. split; reflexivity. Qed.

Lemma startup_spec_witness :
  exists s r cfg l' d',
    start_here (mkLib ∅ 10) = (inl (s, r, cfg), l', d') /\ handles (Close (K := Model.kstate) r l').2 = ∅.
Proof.
  pose proof (startup_spec (K := Model.kstate) (L := lib) host_fs stat_inode no_proc root watch_ok
    here (mkLib ∅ 10) daemon0) as A.
  fold (start_here (mkLib ∅ 10)) in A.
  destruct (start_here (mkLib ∅ 10)) as [[[[[s r] cfg]|err] l'] d'] eqn:E.
  - exists s, r, cfg, l', d'. split; [reflexivity|]. destruct A as (hm & k & cfg0 & wls & procs & A). apply A.
  - assert (X : match (start_here (mkLib ∅ 10)).1.1 with inl _ => true | inr _ => false end = true)
      by (vm_compute; reflexivity).
    rewrite E in X. discriminate X.
Defined.

(** ** The process *)

Definition run_main (args : list (list byte)) :=
  main (K := Model.kstate) (L := lib) host_fs stat_inode no_proc root watch_ok args (mkLib ∅ 10) daemon0.

(** The command line of [here], a request for help, an unknown flag, a bad number, a
    flag without its value, and no target. *)
Example main_exits :
  map (fun args => match (run_main args).1.1 with Exited n => n | Looping _ _ _ => -1 end)
    [command_line (fun _ => false) (fun _ => true) here; [str "-h"]; [str "-nope"]; [str "-max-procs=1e5"];
     [str "-mode"]; []; [str "x"; str "-h"]] = [-1; 0; 2; 2; 2; 1; 1].
Proof. vm_compute. reflexivity. Qed.

Lemma main_spec_witness :
  exists l' d', run_main [str "--mode=all"] = (Exited 1, l', d') /\ handles l' = ∅.
Proof.
  pose proof (main_spec (K := Model.kstate) (L := lib) host_fs stat_inode no_proc root watch_ok [str "--mode=all"]
    (mkLib ∅ 10) daemon0) as A. fold (run_main [str "--mode=all"]) in A. cbv zeta in A.
  destruct (run_main [str "--mode=all"]) as [[p l'] d'] eqn:E.
  assert (X : match (run_main [str "--mode=all"]).1.1 with Exited n => n =? 1 | Looping _ _ _ => false end = true)
    by (vm_compute; reflexivity).
  rewrite E in X. destruct p as [st|s r cfg]; [|discriminate X]. cbn in X. apply Z.eqb_eq in X. subst st.
  exists l', d'. split; [reflexivity|]. exact (proj1 A).
Defined.

(** A container's process forks, execs and its fork is written, after the command
    line of [here]. *)
Definition here_args : list (list byte) := command_line (fun _ => false) (fun _ => true) here.

Definition looping : sys Model.kstate * resources * Config :=
  match (run_main here_args).1.1 with
  | Looping s r cfg => (s, r, cfg)
  | Exited _ => (boot0, loaded.1, Run.cfg)
  end.

Definition here_boot : Z := res_boot looping.1.2.

Definition morning : list label := [
  Hit (ForkHook (@kernel_helpers amd64) parent_a task_a); Hit (ExecHook (@kernel_helpers amd64) exec_ctx);
  ReadRecord; SendEvent; HandleEvent quiet quiet 5; WriteEvent true].

Definition morning_checks : bool :=
  match (run_main here_args).1.1 with Looping _ r _ => negb (res_mode r) | Exited _ => false end &&
  match play false looping.2 morning looping.1.1 with
  | Some (hs, s) => (length (s_out s) =? 1)%nat && (length hs =? 2)%nat
  | None => false
  end.

Lemma morning_plays : morning_checks = true.
Proof. vm_compute. reflexivity. Qed.

Lemma morning_ok : Forall (fun l => forall s : sys Model.kstate, label_ok looping.2 here_boot s l) morning.
Proof.
  unfold morning. apply Forall_cons; split.
  { intros s. split; [exact (@kernel_helpers_ok amd64)|]. intros _. apply (bool_decide_unpack _). vm_compute. exact I. }
  apply Forall_cons; split.
  { intros s. split; [exact (@kernel_helpers_ok amd64)|]. intros E. exfalso.
    assert (E' : TypeExec = TypeFork) by exact E. discriminate E'. }
  world_ok. constructor.
Qed.

Lemma morning_typed : Forall typed_label morning.
Proof. unfold morning. repeat (apply Forall_cons; split; [first [exact I | exact (conj quiet_typed quiet_typed)]|]). constructor. Qed.

Lemma command_to_stdout_witness :
  exists s0 r cfg l' d' s hs ls out x ev,
    run_main here_args = (Looping s0 r cfg, l', d') /\
    srun false cfg (res_boot r) ls hs s0 s /\ Stdout (fun _ => 0) (s_out s) = Some out /\
    map read_line (lines out) = [Some ev] /\ facts_of ev = valid_facts (facts_of (hook_event x (res_boot r))) /\
    handles (Close (K := Model.kstate) r l').2 = ∅.
Proof.
  pose proof morning_plays as P. unfold morning_checks in P. pose proof morning_ok as Ok.
  unfold here_boot, looping in *. destruct (run_main here_args) as [[p l'] d'] eqn:E. cbn [fst] in *.
  destruct p as [st|s0 r cfg]; [discriminate P|]. cbn [fst snd] in *. apply andb_true_iff in P as [Md P].
  destruct (play false cfg morning s0) as [[hs s]|] eqn:Pl; [|discriminate P]. apply andb_true_iff in P as [Ln _].
  apply Nat.eqb_eq in Ln. apply negb_true_iff in Md.
  pose proof (play_srun false cfg (res_boot r) morning hs s0 s Ok Pl) as R.
  destruct (command_to_stdout (K := Model.kstate) (L := lib) host_fs stat_inode no_proc root watch_ok here_args (mkLib ∅ 10)
    daemon0 s0 r cfg l' d' (fun _ => 0)) as (o & rest & k & cfg0 & ls0 & _ & _ & _ & _ & R0 & T0 & F & Hc).
  - exact E.
  - intros sec. vm_compute. split; reflexivity.
  - rewrite Md in *. destruct (F _ _ _ (srun_app _ _ _ _ _ _ _ R0 _ _ _ R)) as (ys & out & Eo & _ & _ & Fl & _).
    { apply Forall_app. split; [exact T0 | exact morning_typed]. }
    pose proof (one_line _ _ _ Ln Eo) as Lo.
    destruct (lines out) as [|line [|line' lns]] eqn:El; try discriminate Lo.
    apply Forall2_cons_inv_l in Fl as (x & xs & (ev & R1 & R2) & _ & _).
    exists s0, r, cfg, l', d', s, hs, morning, out, x, ev.
    split; [reflexivity|]. split; [exact R|]. split; [exact Eo|]. split; [rewrite El; cbn [map]; by rewrite R1|].
    split; [exact R2 | exact Hc].
Defined.

(** ** The start-up window *)

(** A daemon without containers; then the target's directory appears. *)
Definition no_containers (body : list byte) : option (list (list byte)) := Some [].
Definition empty_runtime : Runtime (Docker unit) := docker_runtime http no_containers (inspected "/web") info.

Lemma start_window_witness :
  (@resync _ _ _ empty_runtime stat_inode no_proc root target (NewWatcher kernel_empty, daemon0)).1 = None /\
  InScope 8123 (@cgroupDirEvent _ _ _ empty_runtime stat_inode root go_order (str "/sys/fs/cgroup/system.slice") scope
                  IN_CREATE (NewWatcher kernel_empty, daemon1)).1 = false.
Proof.
  destruct (start_window (HR := empty_runtime) stat_inode no_proc root target go_order
    (str "/sys/fs/cgroup/system.slice") second (NewWatcher kernel_empty) daemon0 [] daemon0
    eq_refl eq_refl eq_refl) as [A B].
  split; [by rewrite A|]. destruct (B [(scope, IN_CREATE)] daemon1 daemon1) as [B1 _].
  cbn [fold_left fst snd] in B1. by rewrite B1.
Defined.

(** ** The event stream *)

Lemma d_Events_spec_witness :
  d_Events (Stream 200 [Object (mkMessage (str "start") (str "c1")) true; Broken false;
                        Object (mkMessage (str "die") (str "c1")) true]) =
  ([mkRuntimeEvent EventStart (str "c1")], Some StreamDecode).
Proof.
  exact (proj1 (d_Events_spec [mkMessage (str "start") (str "c1")] false
    [Object (mkMessage (str "die") (str "c1")) true])).
Defined.
